(* ===== verification/_CoqProject ===== *)
-Q . S2P
Prelude.v
Mem.v
Lib.v
DList.v
Page.v
PageTable.v
Aarch64.v
Start.v
Kmalloc.v
Gic.v
Heap.v
SoftTimer.v
Task.v
Timer.v
Process.v
Printf.v
Buffer.v
Minix.v
File.v
Namei.v
Mount.v
Open.v
Access.v
Report.v
Syscall.v
Vector.v
Debug.v
Exec.v
Boot.v
