(* ===== verification/Prelude.v ===== *)
(** * NBOS: a verified model of a small ARMv8 kernel

    NBOS boots on one AArch64 core of QEMU's [virt] board, manages pages and a
    bucket heap, runs a round-robin scheduler of kernel threads and user
    processes, drives the GICv3 interrupt controller, the architectural timer and
    a parallel flash, and serves a Minix file system to processes through nine
    system calls.  This library models the C code and the assembly, from the reset
    to the endless loop of the initial task, and proves what each part promises
    and how the parts fit together.

    ** How the parts interact

    - [_start] (Start.v) builds the first page tables and turns the MMU on;
      [init_main] (Boot.v) then sets up, in this order, the initial task, the page
      tables, the interrupt controller and the timer, the software timers, the
      file system, an idle thread and the first process, each on the state the
      earlier ones leave.
    - An exception (Vector.v) stores the registers in a frame on the kernel stack
      and goes to [irq_dispatch], to a system call or to [put_exception].
    - A timer interrupt enters [irq_dispatch] (Timer.v), which asks the controller
      (Gic.v), acknowledges the interrupt, re-arms the timer through the system
      registers (Aarch64.v) and calls [scheduler_tick] (Task.v).
    - The scheduler walks the ring of tasks, a list of DList.v whose nodes are
      inside the task descriptors, and switches registers and address space.
    - Tasks, page tables (PageTable.v) and heap buckets (Kmalloc.v) all take pages
      from the allocator of Page.v; [copy_process] (Process.v) uses all three.
    - Software timers (SoftTimer.v), the buffer cache (Buffer.v), inodes (Minix.v)
      and path names (File.v) take their objects from the heap, through the class
      [BlockHeap] of Heap.v; its instance [kheap_guarded] also keeps the heap away
      from a list of pages, those of the processes, and on demand its free blocks
      of 512 bytes clean.
    - A system call (Syscall.v) runs on the state of the scheduler and of the file
      system at once; they share the heap and the caller's descriptors.
      [sys_execv] opens a path, reads the file into a heap block, makes a process
      of it and closes the file again (Exec.v).

    ** Files

    - Prelude.v: notations, machine integers [wrap]/[swrap], loops, arrays, the
      hint database [nbos] and the tactics [zcase]/[zcases].
    - Mem.v: byte memory and little-endian words.
    - Lib.v: lib/lib.c.   Printf.v: lib/printf.c.   DList.v: include/list.h.
    - Page.v, PageTable.v: mm/mm.c, include/mm.h, include/mmu.h.
    - Kmalloc.v: mm/kmalloc.c.   Heap.v: the classes [HeapOps] and [BlockHeap], and
      the kernel heap as their instance.
    - Start.v: arch/start.S.   Vector.v: arch/vector.S.
    - Aarch64.v: arch/aarch64.c.   Gic.v: arch/gic_v3.c.   Timer.v: arch/timer.c
      and arch/exception.c.   SoftTimer.v: kernel/soft_timer.c.
    - Task.v, Process.v: kernel/task.c with [cpu_switch_to], [ret_from_fork] and
      [kernel_exit] of arch/vector.S.
    - Buffer.v: the flash disk and the buffers of fs/fs.c.   Minix.v:
      fs/minix_fs.c and the inodes of fs/fs.c.   Report.v: the functions that print
      the file system.   File.v: the paths and open files of fs/fs.c.
    - Namei.v, Mount.v, Open.v, Access.v: what path walks, [init_fs], [file_open],
      [file_read] and [file_close] do on a file system that is mounted: the
      directories of the device as a function ([resolve]), the invariant
      [fs_ok] of buffers and inodes, and the effect of each operation on it.
    - Syscall.v: kernel/syscall.c, [execv], and the synchronous entry of
      arch/vector.S.   Exec.v: [sys_execv] on the whole system ([fs_system]).
    - Debug.v: the functions that print tasks, address spaces and buffers.
    - Boot.v: init/init_task.c.

    ** Conventions

    C code that leaves defined behaviour (a NULL or freed pointer, an index out of
    an array, a division by zero, no page where the code goes on with NULL) has the
    result [None]; a theorem that gives a result says the code runs.  Unsigned
    arithmetic wraps with [u64], [u32] and so on, conversions to [int] with [s32].
    Byte buffers, page tables, [struct mm_struct], on-disk structures and the free
    chains of the heap are bytes of one memory, so aliasing between them is real;
    descriptors with a fixed shape (tasks, list nodes, bucket descriptors, buffer
    heads, inodes) are typed heaps by address, from which freed objects vanish.
    Hardware is an abstract device with the documented behaviour of its registers
    (classes [GicDevice] and [FlashDevice]), each with a concrete instance that the
    witnesses run on.  What the GIC architecture leaves to the implementation is a
    field of [GicDevice] (priority bits, number of processors, programmable
    triggers), and nothing is claimed of the software-generated interrupts, whose
    enable bits and priorities may be fixed; compiled C code between the assembly of Vector.v is any code
    that follows the calling convention (class [CallAbi]).

    Loops whose length depends on memory take fuel: string loops a bound on the
    length, list walks the size of the store of nodes ([S (size _)], more than any
    list without repetition), the loop of start.S its 510 rounds, the device loops
    and the callers of them the argument [fuel].  The theorems say how much is
    enough: for every fuel above a number that exists ([minix_write_correct],
    [write_back_roundtrip]), above the length of the text ([format_terminates]),
    above the length of the path ([namei_correct], [sys_execv_correct],
    [boot_correct]), or any at all ([gic_v3_initialize_correct]: the loop that
    acknowledges interrupts never turns).  [snprintf_bounds] gives a run for every
    complete format, and bounds every other run that returns.

    [copy_process] takes its [mm_struct] from the heap and does not clear it.  The
    theorems on processes therefore start from a heap whose free blocks of 512
    bytes are clean ([kclean] of Kmalloc.v, the flag of [kheap_guarded] and
    [fs_system]); the heap is so at boot, [kmalloc] keeps it so, and [kfree] of a
    block of any other size.  It ends when a program of 257 to 512 bytes or a path
    of that size is read into such a block and given back ([stays_clean]).

    ** What the theorems show

    - The whole: [boot_correct] runs [_start] and [init_main] from the reset to the
      endless loop, and says what is there then: the ring of three tasks, the
      mounted file system, the program of the first process, the timer, and what
      was printed.  [start_correct]: the maps the kernel starts on.
    - Memory: the page allocator hands out free pages, cleared
      ([get_free_page_correct]); page tables stay trees of pages in use, a new mapping disturbs no
      other ([alloc_user_pages_correct], [map_kernel_sections_correct]); the heap's
      invariant [kinv] holds in every reachable state and gives disjoint blocks,
      possible frees and possible allocations ([kheap_history_safe],
      [kmalloc_correct], [free_s_correct]).
    - Scheduling: the invariant [ring] (a cyclic list of intact descriptors, the
      stopped ones ready to be resumed) is kept by ticks and creations; a tick does
      what it should in every case ([scheduler_tick_correct]), every task gets its
      turn ([round_robin]), a finished task stops the rotation
      ([zombie_blocks_ring]); [kthread_create_correct].
    - Processes: [copy_process_correct] composes the pages, the heap, the page
      tables and the ring: the new process has its program, a stack, and no page of
      anybody else; [sys_execv_correct] adds the file system: the process runs the
      bytes the file has on the device, [sys_execv_isolated] keeps it apart from
      the others, [sys_execv_missing] follows a failed open out of the array;
      [delete_process_correct] says what is given back and what is not,
      [clear_zombie_faults] that the caller does not survive it.
    - Interrupts and time: [gic_v3_initialize_correct], [timer_tick_correct];
      software timers ([walk_timer_list_periodic], [walk_timer_list_oneshot]).
    - Exceptions: [kernel_entry_exit] (interrupted code does not notice),
      [svc_registers] (what a process sees of a call).
    - Files: the buffer cache writes back what was stored
      ([write_back_roundtrip]); [init_fs_correct] mounts a device, [namei_correct]
      is the walk through its directories, [file_open_path] and
      [file_read_mounted] what a path gives; [minix_write_correct] for files with
      direct blocks; the disk format of inodes ([inode_roundtrip]); positions
      ([lseek_bounds]).
    - System calls: a process reads back what it wrote, through the entry code,
      the descriptor, the file system, the cache and the device
      ([write_seek_read]); refused calls change nothing ([svc_errors]).
    - Output: numbers read back ([ntoa_long_roundtrip]), [snprintf] stays in its
      buffer ([snprintf_bounds]) and agrees with the text that is sent
      ([snprintf_text], [printf_text]); termination ([format_terminates]).
    - Lists: [list_ops_refine] relates the list operations to sequences.
    Each component has more theorems of its own operations beside these, on which
    the larger ones are built.

    Several theorems state behaviour the code should not have: a one-shot timer
    makes the walk follow a freed node, the first zombie stops [clear_zombie],
    periodic timers fire until their goal and
    not from it, a trailing '%' runs off the format, '#' drops digits
    ([hash_field_loses_digits]), indirect blocks are read as 64-bit numbers
    ([indirect_reads_four_entries]), a dropped inode stays on its list
    ([dropped_inode_dangles]), oversized requests and bad addresses crash the heap
    ([kmalloc_too_large], [free_s_bad_address]).

    ** Not modelled

    Caches, TLB maintenance and memory ordering (one core, and no model of
    speculation); the floating-point conversions of lib/printf.c, which are
    compiled out; [dump_stack], since a task's page is a typed descriptor and no
    bytes; linker.ld beyond the layout that is the hypothesis [layout]; the user
    programs under rootfs/.  Interrupts are taken between kernel operations and at
    the points the scheduler opens, not inside other operations. *)

From Stdlib Require Export ZArith Lia.
From stdpp Require Export base option list gmap.

(** ** Notations *)

Declare Scope nbos_scope.
Delimit Scope nbos_scope with nbos.
#[global] Open Scope nbos_scope.

(** Sequencing of C code that may leave defined behaviour ([None]). *)
Notation "'let!' x ':=' e 'in' k" := (mbind (M := option) (fun x => k) e)
  (at level 10, x name, e at level 100, k at level 200,
   format "'[v' 'let!'  x  ':='  e  'in' '/' k ']'") : nbos_scope.
Notation "'let!' ' p ':=' e 'in' k" := (mbind (M := option) (fun p => k) e)
  (at level 10, p strict pattern, e at level 100, k at level 200,
   format "'[v' 'let!'  ' p  ':='  e  'in' '/' k ']'") : nbos_scope.
(** A run-time check: the code is only defined when [b] holds. *)
Notation "'assert!' b 'in' k" := (if b then k else None)
  (at level 10, b at level 100, k at level 200,
   format "'[v' 'assert!'  b  'in' '/' k ']'") : nbos_scope.

Local Open Scope Z_scope.

Lemma bind_Some {A B : Type} (f : A -> option B) (x : A) : mbind f (Some x) = f x.
Proof. done. Qed.

(** ** Machine integers *)

(** A value of a [w]-bit unsigned C type, and the value a signed [w]-bit type
    keeps of it (two's complement). *)
Definition wrap (w x : Z) : Z := x mod 2 ^ w.
Definition swrap (w x : Z) : Z := (x + 2 ^ (w - 1)) mod 2 ^ w - 2 ^ (w - 1).

Abbreviation u8 := (wrap 8).
Abbreviation u16 := (wrap 16).
Abbreviation u32 := (wrap 32).
Abbreviation u64 := (wrap 64).
Abbreviation s32 := (swrap 32).
Abbreviation s64 := (swrap 64).

Definition NULL : Z := 0.

Lemma wrap_range w x : 0 <= w -> 0 <= wrap w x < 2 ^ w.
Proof. intros. apply Z.mod_pos_bound, Z.pow_pos_nonneg; lia. Qed.

Lemma wrap_small w x : 0 <= x < 2 ^ w -> wrap w x = x.
Proof. apply Z.mod_small. Qed.

Lemma wrap_idemp w x : wrap w (wrap w x) = wrap w x.
Proof. apply Zmod_mod. Qed.

Lemma swrap_small w x : 0 < w -> - 2 ^ (w - 1) <= x < 2 ^ (w - 1) -> swrap w x = x.
Proof.
  intros Hw Hx. unfold swrap.
  assert (2 ^ w = 2 * 2 ^ (w - 1)) by (rewrite <- Z.pow_succ_r by lia; f_equal; lia).
  rewrite Z.mod_small; lia.
Qed.

Lemma swrap_range w x : 0 < w -> - 2 ^ (w - 1) <= swrap w x < 2 ^ (w - 1).
Proof.
  intros Hw. unfold swrap.
  assert (2 ^ w = 2 * 2 ^ (w - 1)) by (rewrite <- Z.pow_succ_r by lia; f_equal; lia).
  pose proof (Z.mod_pos_bound (x + 2 ^ (w - 1)) (2 ^ w)). pose proof (Z.pow_pos_nonneg 2 w). lia.
Qed.

(** The C conversions and powers used below, as constants [lia] can read. *)
Lemma wrap_64 x : u64 x = x mod 18446744073709551616. Proof. reflexivity. Qed.
Lemma wrap_32 x : u32 x = x mod 4294967296. Proof. reflexivity. Qed.
Lemma wrap_16 x : u16 x = x mod 65536. Proof. reflexivity. Qed.
Lemma wrap_8 x : u8 x = x mod 256. Proof. reflexivity. Qed.

(** Solve a side condition on machine integers: expand wrap-around into
    euclidean division and call [lia]. *)
Ltac word_lia :=
  rewrite ?wrap_64, ?wrap_32, ?wrap_16, ?wrap_8 in *; Z.div_mod_to_equations; lia.

Create HintDb nbos.
#[export] Hint Resolve wrap_range wrap_small swrap_small : nbos.

(** ** Bit operations the code uses as arithmetic *)

Lemma shiftr_div a n : 0 <= n -> Z.shiftr a n = a / 2 ^ n.
Proof. apply Z.shiftr_div_pow2. Qed.

Lemma shiftl_mul a n : 0 <= n -> Z.shiftl a n = a * 2 ^ n.
Proof. apply Z.shiftl_mul_pow2. Qed.

Lemma land_mask a n : 0 <= n -> Z.land a (2 ^ n - 1) = a mod 2 ^ n.
Proof. intros. rewrite <- Z.land_ones by done. f_equal. rewrite Z.ones_equiv. lia. Qed.

(** [a & ~(2^n - 1)]: round [a] down to a multiple of [2^n]. *)
Lemma land_lnot_mask a n : 0 <= n -> Z.land a (Z.lnot (2 ^ n - 1)) = a - a mod 2 ^ n.
Proof.
  intros Hn. replace (2 ^ n - 1) with (Z.ones n) by (rewrite Z.ones_equiv; lia).
  rewrite <- Z.ldiff_land, Z.ldiff_ones_r by done.
  rewrite shiftr_div, shiftl_mul by done.
  pose proof (Z.div_mod a (2 ^ n)). pose proof (Z.pow_pos_nonneg 2 n). lia.
Qed.

(** Setting low bits of an aligned value is an addition. *)
Lemma lor_add_low a b n : 0 <= n -> a mod 2 ^ n = 0 -> 0 <= b < 2 ^ n -> Z.lor a b = a + b.
Proof.
  intros Hn Ha Hb. symmetry. rewrite Z.add_nocarry_lxor; [apply Z.lxor_lor|].
  all: apply Z.bits_inj'; intros i Hi; rewrite Z.land_spec, Z.bits_0.
  all: destruct (decide (i < n)).
  1,3: replace a with (a / 2 ^ n * 2 ^ n)
         by (pose proof (Z.div_mod a (2 ^ n)); pose proof (Z.pow_pos_nonneg 2 n); lia);
       rewrite Z.mul_pow2_bits_low by lia; done.
  all: replace b with (b mod 2 ^ n) by (apply Z.mod_small; lia);
       rewrite Z.mod_pow2_bits_high by lia; apply andb_false_r.
Qed.

(** ** Bounded C loops *)

(** [for (i = lo; i < lo + k; i++) body] over a state that may fault. *)
Fixpoint for_up {St : Type} (k : nat) (i : Z) (body : Z -> St -> option St) (s : St) : option St :=
  match k with
  | O => Some s
  | S k' => let! s' := body i s in for_up k' (i + 1) body s'
  end.

(** The loop rule: an invariant indexed by the counter. *)
Lemma for_up_inv {St : Type} (I : Z -> St -> Prop) body k lo s :
  I lo s ->
  (forall i s0, lo <= i < lo + Z.of_nat k -> I i s0 ->
     exists s1, body i s0 = Some s1 /\ I (i + 1) s1) ->
  exists s', for_up k lo body s = Some s' /\ I (lo + Z.of_nat k) s'.
Proof.
  revert lo s. induction k as [|k IH]; intros lo s H0 Hstep; cbn [for_up].
  - exists s. split; [done|]. by rewrite Z.add_0_r.
  - destruct (Hstep lo s ltac:(lia) H0) as (s1 & -> & H1). cbn.
    destruct (IH (lo + 1) s1 H1) as (s' & -> & Hs').
    { intros i s0 Hi. apply Hstep. lia. }
    exists s'. split; [done|]. by replace (lo + Z.of_nat (S k)) with (lo + 1 + Z.of_nat k) by lia.
Qed.

(** The same loop when the body cannot fault. *)
Fixpoint loop_up {St : Type} (k : nat) (i : Z) (body : Z -> St -> St) (s : St) : St :=
  match k with
  | O => s
  | S k' => loop_up k' (i + 1) body (body i s)
  end.

Lemma loop_up_inv {St : Type} (I : Z -> St -> Prop) body k lo s :
  I lo s -> (forall i s0, lo <= i < lo + Z.of_nat k -> I i s0 -> I (i + 1) (body i s0)) ->
  I (lo + Z.of_nat k) (loop_up k lo body s).
Proof.
  revert lo s. induction k as [|k IH]; intros lo s H0 Hstep; cbn [loop_up]; [by rewrite Z.add_0_r|].
  replace (lo + Z.of_nat (S k)) with (lo + 1 + Z.of_nat k) by lia. apply IH.
  - apply Hstep; [lia|done].
  - intros i s0 Hi. apply Hstep. lia.
Qed.

(** [for (i = lo; i < lo + k; i++) if (p(i)) break;] and the final [i]. *)
Fixpoint find_up (k : nat) (i : Z) (p : Z -> bool) : Z :=
  match k with
  | O => i
  | S k' => if p i then i else find_up k' (i + 1) p
  end.

Lemma find_up_spec k lo p :
  lo <= find_up k lo p <= lo + Z.of_nat k /\
  (forall j, lo <= j < find_up k lo p -> p j = false) /\
  (find_up k lo p < lo + Z.of_nat k -> p (find_up k lo p) = true).
Proof.
  revert lo. induction k as [|k IH]; intros lo; cbn [find_up]; [repeat split; intros; lia|].
  destruct (p lo) eqn:Hp; [repeat split; intros; first [lia | done]|].
  specialize (IH (lo + 1)) as (? & Hlt & Hhit).
  repeat split; [lia|lia| |intros; apply Hhit; lia].
  intros j Hj. destruct (decide (j = lo)) as [->|]; [done|]. apply Hlt. lia.
Qed.

(** ** Lists *)

Section ListFacts.
Context {A : Type}.
Implicit Types (l : list A) (x : A).

(** Out-of-range array accesses leave defined behaviour. *)
Definition arr_get (l : list A) (i : Z) : option A :=
  if (0 <=? i) then l !! Z.to_nat i else None.
Definition arr_set (l : list A) (i : Z) (x : A) : option (list A) :=
  if (0 <=? i) && (i <? Z.of_nat (length l)) then Some (<[Z.to_nat i := x]> l) else None.

Lemma arr_get_Some l i :
  0 <= i < Z.of_nat (length l) -> exists x, arr_get l i = Some x.
Proof.
  intros Hi. unfold arr_get. destruct (Z.leb_spec 0 i); [|lia].
  apply lookup_lt_is_Some_2. lia.
Qed.

Lemma arr_get_range l i x : arr_get l i = Some x -> 0 <= i < Z.of_nat (length l).
Proof.
  unfold arr_get. destruct (Z.leb_spec 0 i); [|done].
  intros H1%lookup_lt_Some. lia.
Qed.

Lemma arr_set_Some l i x :
  0 <= i < Z.of_nat (length l) -> arr_set l i x = Some (<[Z.to_nat i := x]> l).
Proof.
  intros Hi. unfold arr_set.
  destruct (Z.leb_spec 0 i), (Z.ltb_spec i (Z.of_nat (length l))); cbn; done || lia.
Qed.

Lemma arr_get_insert l i j x :
  0 <= i < Z.of_nat (length l) ->
  arr_get (<[Z.to_nat i := x]> l) j = if (j =? i) then Some x else arr_get l j.
Proof.
  intros Hi. unfold arr_get. destruct (Z.eqb_spec j i) as [->|Hne].
  - destruct (Z.leb_spec 0 i); [|lia]. apply list_lookup_insert_eq. lia.
  - destruct (Z.leb_spec 0 j); [|done]. apply list_lookup_insert_ne. lia.
Qed.

Lemma arr_get_nat l (i : nat) : arr_get l (Z.of_nat i) = l !! i.
Proof. unfold arr_get. destruct (Z.leb_spec 0 (Z.of_nat i)); [|lia]. by rewrite Nat2Z.id. Qed.

Lemma arr_ext l1 l2 : (forall i, arr_get l1 i = arr_get l2 i) -> l1 = l2.
Proof. intros H. apply list_eq. intros i. by rewrite <- !arr_get_nat. Qed.
End ListFacts.

(** An element of a list without duplicates differs from the others. *)
Lemma nodup_map_mid {A B : Type} (f : A -> B) (l1 l2 : list A) (x y : A) :
  NoDup (f <$> l1 ++ x :: l2) -> y ∈ l1 ++ l2 -> f y <> f x.
Proof.
  rewrite <- Permutation_middle. cbn. intros [Hx _]%NoDup_cons Hy E. apply Hx.
  rewrite <- E. by apply list_elem_of_fmap_2.
Qed.

Lemma Forall_mid {A : Type} (P : A -> Prop) (l1 l2 : list A) (x : A) :
  Forall P (l1 ++ x :: l2) <-> P x /\ Forall P (l1 ++ l2).
Proof. by rewrite <- Permutation_middle, Forall_cons. Qed.

(** The first hit in an appended list. *)
Lemma find_app {A : Type} (p : A -> bool) (l1 l2 : list A) :
  List.find p (l1 ++ l2) = match List.find p l1 with Some x => Some x | None => List.find p l2 end.
Proof. induction l1 as [|x l1 IH]; cbn; [done|]. by destruct (p x). Qed.

(** Turn boolean comparisons on [Z] in the goal into propositions. *)
Ltac zcase :=
  match goal with
  | |- context [Z.eqb ?a ?b] => destruct (Z.eqb_spec a b)
  | |- context [Z.ltb ?a ?b] => destruct (Z.ltb_spec a b)
  | |- context [Z.leb ?a ?b] => destruct (Z.leb_spec a b)
  end.
Ltac zcases := repeat (zcase; try lia; cbn [andb orb negb]).

Ltac zcase_in H :=
  match type of H with
  | context [Z.eqb ?a ?b] => destruct (Z.eqb_spec a b)
  | context [Z.ltb ?a ?b] => destruct (Z.ltb_spec a b)
  | context [Z.leb ?a ?b] => destruct (Z.leb_spec a b)
  end.
