(* ===== verification/Mem.v ===== *)
(** Byte-addressed memory and little-endian word accesses.

    The RAM is a finite map from addresses to byte values; a cell nobody wrote
    reads 0.  [ld n m a] and [st n m a v] are the [n]-byte loads and stores the
    C compiler emits for fields and pointers of [n] bytes. *)

From S2P Require Import Prelude.
Local Open Scope Z_scope.

Abbreviation mem := (gmap Z Z).

Definition ldb (m : mem) (a : Z) : Z := u8 (default 0 (m !! a)).
Definition stb (m : mem) (a v : Z) : mem := <[a := u8 v]> m.

Fixpoint ld (n : nat) (m : mem) (a : Z) : Z :=
  match n with
  | O => 0
  | S n' => ldb m a + 256 * ld n' m (a + 1)
  end.

Fixpoint st (n : nat) (m : mem) (a v : Z) : mem :=
  match n with
  | O => m
  | S n' => st n' (stb m a v) (a + 1) (v / 256)
  end.

Abbreviation ld16 := (ld 2).
Abbreviation ld32 := (ld 4).
Abbreviation ld64 := (ld 8).
Abbreviation st16 := (st 2).
Abbreviation st32 := (st 4).
Abbreviation st64 := (st 8).

(** Two memories that agree on an address range. *)
Definition agree (m m' : mem) (lo hi : Z) : Prop := forall a, lo <= a < hi -> ldb m' a = ldb m a.

Section Bytes.
Implicit Types (m : mem) (a b v : Z) (n : nat).

Lemma ldb_range m a : 0 <= ldb m a < 256.
Proof. apply wrap_range. lia. Qed.

Lemma ldb_stb m a b v : ldb (stb m a v) b = if b =? a then u8 v else ldb m b.
Proof.
  unfold ldb, stb. zcase; subst.
  - rewrite lookup_insert_eq. apply wrap_idemp.
  - by rewrite lookup_insert_ne by congruence.
Qed.

Lemma ldb_stb_eq m a v : 0 <= v < 256 -> ldb (stb m a v) a = v.
Proof. intros. rewrite ldb_stb, Z.eqb_refl. by apply wrap_small. Qed.

Lemma ldb_stb_ne m a b v : b <> a -> ldb (stb m a v) b = ldb m b.
Proof. intros. rewrite ldb_stb. by zcase. Qed.

Lemma ld_range n m a : 0 <= ld n m a < 2 ^ (8 * Z.of_nat n).
Proof.
  revert a. induction n as [|n IH]; intros a; cbn [ld]; [done|].
  specialize (IH (a + 1)). pose proof (ldb_range m a).
  replace (8 * Z.of_nat (S n)) with (8 + 8 * Z.of_nat n) by lia.
  rewrite Z.pow_add_r by lia. lia.
Qed.

Lemma ld_agree n m m' a : agree m m' a (a + Z.of_nat n) -> ld n m' a = ld n m a.
Proof.
  revert a. induction n as [|n IH]; intros a H; cbn [ld]; [done|].
  rewrite H by lia. rewrite IH; [done|]. intros b Hb. apply H. lia.
Qed.

Lemma ldb_st_ne n m a v b : b < a \/ a + Z.of_nat n <= b -> ldb (st n m a v) b = ldb m b.
Proof.
  revert m a v. induction n as [|n IH]; intros m a v H; cbn [st]; [done|].
  rewrite IH by lia. apply ldb_stb_ne. lia.
Qed.

Lemma ld_st_ne n k m a v b :
  b + Z.of_nat k <= a \/ a + Z.of_nat n <= b -> ld k (st n m a v) b = ld k m b.
Proof. intros H. apply ld_agree. intros c Hc. apply ldb_st_ne. lia. Qed.

Lemma ld_st_mod n m a v : ld n (st n m a v) a = v mod 2 ^ (8 * Z.of_nat n).
Proof.
  revert m a v. induction n as [|n IH]; intros m a v; cbn [st ld].
  - by rewrite Z.mod_1_r.
  - rewrite IH, ldb_st_ne by lia. rewrite ldb_stb, Z.eqb_refl.
    replace (8 * Z.of_nat (S n)) with (8 + 8 * Z.of_nat n) by lia.
    rewrite Z.pow_add_r by lia.
    rewrite Z.rem_mul_r by (pose proof (Z.pow_pos_nonneg 2 (8 * Z.of_nat n)); lia).
    done.
Qed.

Lemma ld_st_eq n m a v :
  0 <= v < 2 ^ (8 * Z.of_nat n) -> ld n (st n m a v) a = v.
Proof. intros. rewrite ld_st_mod. by apply Z.mod_small. Qed.

Lemma ld64_st64_eq m a v : 0 <= v < 18446744073709551616 -> ld64 (st64 m a v) a = v.
Proof. intros. by apply (ld_st_eq 8). Qed.

Lemma ld64_range m a : 0 <= ld64 m a < 18446744073709551616.
Proof. apply (ld_range 8). Qed.

Lemma ld16_range m a : 0 <= ld16 m a < 65536.
Proof. apply (ld_range 2). Qed.

Lemma ld_zero n m a :
  (forall b, a <= b < a + Z.of_nat n -> ldb m b = 0) -> ld n m a = 0.
Proof.
  revert a. induction n as [|n IH]; intros a H; cbn [ld]; [done|].
  rewrite H by lia. rewrite IH; [done|]. intros. apply H. lia.
Qed.
End Bytes.

(** The bytes [m[a], ..., m[a+n-1]], and the memory after writing a byte list. *)
Definition bytes (m : mem) (a : Z) (n : nat) : list Z :=
  (fun i => ldb m (a + Z.of_nat i)) <$> seq 0 n.

Fixpoint put (m : mem) (a : Z) (bs : list Z) : mem :=
  match bs with
  | [] => m
  | b :: bs' => put (stb m a b) (a + 1) bs'
  end.

Section ByteLists.
Implicit Types (m : mem) (a b v : Z) (n : nat).

Lemma length_bytes m a n : length (bytes m a n) = n.
Proof. unfold bytes. by rewrite length_fmap, length_seq. Qed.

Lemma lookup_bytes m a n i :
  (i < n)%nat -> bytes m a n !! i = Some (ldb m (a + Z.of_nat i)).
Proof.
  intros. unfold bytes. rewrite list_lookup_fmap, lookup_seq_lt by done. done.
Qed.

Lemma bytes_S m a n : bytes m a (S n) = ldb m a :: bytes m (a + 1) n.
Proof.
  unfold bytes. cbn [seq fmap list_fmap]. rewrite Z.add_0_r. f_equal.
  rewrite <- fmap_S_seq, <- list_fmap_compose. apply list_fmap_ext.
  intros i x _. cbn. f_equal. lia.
Qed.

Lemma bytes_agree m m' a n : agree m m' a (a + Z.of_nat n) -> bytes m' a n = bytes m a n.
Proof.
  intros H. apply list_fmap_ext. intros i x [-> Hi]%lookup_seq. apply H. lia.
Qed.

Lemma bytes_range m a n b : b ∈ bytes m a n -> 0 <= b < 256.
Proof. unfold bytes. intros (i & -> & _)%list_elem_of_fmap. apply ldb_range. Qed.

Lemma bytes_app m a n k :
  bytes m a (n + k) = bytes m a n ++ bytes m (a + Z.of_nat n) k.
Proof.
  revert a. induction n as [|n IH]; intros a.
  - cbn. by rewrite Z.add_0_r.
  - cbn [Nat.add]. rewrite !bytes_S, IH. cbn. f_equal. f_equal. f_equal. lia.
Qed.

Lemma ldb_put m a bs b :
  ldb (put m a bs) b =
  if (a <=? b) && (b <? a + Z.of_nat (length bs))
  then u8 (default 0 (bs !! Z.to_nat (b - a))) else ldb m b.
Proof.
  revert m a. induction bs as [|c bs IH]; intros m a; cbn [put length].
  - zcases; done.
  - rewrite IH, ldb_stb. destruct (Z.eqb_spec b a) as [->|].
    + zcases. by rewrite Z.sub_diag.
    + zcases; try done.
      by replace (Z.to_nat (b - a)) with (S (Z.to_nat (b - (a + 1)))) by lia.
Qed.

Lemma bytes_put m a bs :
  Forall (fun b => 0 <= b < 256) bs -> bytes (put m a bs) a (length bs) = bs.
Proof.
  intros Hb. apply list_eq_same_length with (n := length bs); [done|by rewrite length_bytes|].
  intros i x y Hi. rewrite lookup_bytes by lia. intros [= <-] Hy.
  rewrite ldb_put. zcases. replace (Z.to_nat (a + Z.of_nat i - a)) with i by lia.
  rewrite Hy. cbn. apply wrap_small. exact (Forall_lookup_1 _ _ _ _ Hb Hy).
Qed.
End ByteLists.

#[export] Hint Resolve ldb_range ld_range ld64_range ld16_range : nbos.

#[global] Arguments ld : simpl never.
#[global] Arguments st : simpl never.
#[global] Arguments bytes : simpl never.
