(* ===== verification/Lib.v ===== *)
(** lib/lib.c: the kernel's string and memory routines, [pow], and the UART
    output of [putc], over the byte memory of Mem.v.

    Plain [char] is unsigned on AArch64, so a character read from memory is the
    byte's value.  Loops whose length depends on memory take fuel; the theorems
    give a fuel that suffices. *)

From S2P Require Import Prelude Mem.
Local Open Scope Z_scope.

(** ** Operations *)

(** Advance while the characters are equal and the second is not the terminator. *)
Fixpoint strcmp (fuel : nat) (m : mem) (src dst : Z) : option Z :=
  match fuel with
  | O => None
  | S f =>
      let ret := ldb m src - ldb m dst in
      if (ret =? 0) && negb (ldb m dst =? 0)
      then strcmp f m (src + 1) (dst + 1)
      else Some ret
  end.

Fixpoint strlen_loop (fuel : nat) (m : mem) (str len : Z) : option Z :=
  match fuel with
  | O => None
  | S f => if ldb m str =? 0 then Some len else strlen_loop f m (str + 1) (u32 (len + 1))
  end.
Definition strlen (fuel : nat) (m : mem) (str : Z) : option Z := strlen_loop fuel m str 0.

(** Copy characters up to and including the terminator. *)
Fixpoint strcpy_loop (fuel : nat) (m : mem) (dst src : Z) : option mem :=
  match fuel with
  | O => None
  | S f =>
      let c := ldb m src in
      let m' := stb m dst c in
      if c =? 0 then Some m' else strcpy_loop f m' (dst + 1) (src + 1)
  end.
Definition strcpy (fuel : nat) (m : mem) (dst src : Z) : option (Z * mem) :=
  if (dst =? NULL) || (src =? NULL) then Some (NULL, m)
  else let! m' := strcpy_loop fuel m dst src in Some (dst, m').

(** [while(n-- > 0) *tmpS++ = c;] *)
Fixpoint memset_loop (n : nat) (m : mem) (s c : Z) : mem :=
  match n with
  | O => m
  | S n' => memset_loop n' (stb m s c) (s + 1) c
  end.
(** [n < 0] is never true of an unsigned [n]. *)
Definition memset (m : mem) (s c n : Z) : Z * mem :=
  if (s =? NULL) || (n <? 0) then (NULL, m)
  else (s, memset_loop (Z.to_nat n) m s c).

(** [for(i=0;i<size;i++)] with [int i] against [unsigned long size]. *)
Fixpoint memcpy_loop (fuel : nat) (m : mem) (dst src size i : Z) : option mem :=
  match fuel with
  | O => None
  | S f =>
      if u64 i <? size
      then memcpy_loop f (stb m (dst + i) (ldb m (src + i))) dst src size (s32 (i + 1))
      else Some m
  end.
Definition memcpy (m : mem) (dst src size : Z) : option mem :=
  memcpy_loop (S (Z.to_nat size)) m dst src size 0.

Fixpoint pow_loop (n : nat) (x y : Z) : Z :=
  match n with
  | O => y
  | S n' => pow_loop n' x (s64 (y * x))
  end.
Definition pow (x m : Z) : Z := pow_loop (Z.to_nat m) x 1.

(** The UART data register: each store sends one character. *)
Definition uart := list Z.
Definition putc (u : uart) (c : Z) : uart := u ++ [c].
Definition _putchar (u : uart) (c : Z) : uart := u ++ [c].
Definition log (u : uart) : uart :=
  putc (putc (putc (putc (putc (putc u 35) 35) 35) 35) 35) 10.

(** [unsigned int i = 1<<24; while(i--){}]: the number of iterations. *)
Fixpoint kdelay_loop (fuel : nat) (i n : Z) : option Z :=
  match fuel with
  | O => None
  | S f => if i =? 0 then Some n else kdelay_loop f (u32 (i - 1)) (n + 1)
  end.
Definition kdelay (fuel : nat) : option Z := kdelay_loop fuel (Z.shiftl 1 24) 0.

(** ** Strings in memory *)

(** [cstr m a s]: the NUL-terminated string [s] is stored at [a]. *)
Definition cstr (m : mem) (a : Z) (s : list Z) : Prop :=
  bytes m a (length s) = s /\ Forall (fun c => c <> 0) s /\ ldb m (a + Z.of_nat (length s)) = 0.

(** Order of the first difference, the end of a string counting as 0. *)
Fixpoint str_order (s t : list Z) : Z :=
  match s, t with
  | [], [] => 0
  | [], c :: _ => 0 - c
  | c :: _, [] => c - 0
  | c :: s', d :: t' => if c =? d then str_order s' t' else c - d
  end.

(** Lexicographic order on byte strings. *)
Inductive lex_lt : list Z -> list Z -> Prop :=
  | lex_nil c t : lex_lt [] (c :: t)
  | lex_head c d s t : c < d -> lex_lt (c :: s) (d :: t)
  | lex_tail c s t : lex_lt s t -> lex_lt (c :: s) (c :: t).

Section Strings.
Implicit Types (m : mem) (a : Z) (s t : list Z).

Lemma cstr_nil m a : cstr m a [] <-> ldb m a = 0.
Proof.
  unfold cstr. cbn. rewrite Z.add_0_r. split; [by intros (_ & _ & H)|]. by intros H.
Qed.

Lemma cstr_cons m a c s :
  cstr m a (c :: s) <-> ldb m a = c /\ c <> 0 /\ cstr m (a + 1) s.
Proof.
  unfold cstr. cbn [length]. rewrite bytes_S, Forall_cons.
  replace (a + Z.of_nat (S (length s))) with (a + 1 + Z.of_nat (length s)) by lia.
  split.
  - intros ([= H1 H2] & [H3 H4] & H5). repeat split; congruence.
  - intros (H1 & H2 & H3 & H4 & H5). repeat split; congruence.
Qed.

Lemma cstr_pos m a s : cstr m a s -> Forall (fun c => 0 < c < 256) s.
Proof.
  revert a. induction s as [|c s IH]; intros a; [constructor|].
  rewrite cstr_cons. intros (Hc & Hn & Hs). constructor; [|eauto].
  pose proof (ldb_range m a). lia.
Qed.

Lemma cstr_inj m a s t : cstr m a s -> cstr m a t -> s = t.
Proof.
  revert a t. induction s as [|c s IH]; intros a [|d t];
    rewrite ?cstr_nil, ?cstr_cons; [done|intros; lia..|].
  intros (<- & _ & Hs) (<- & _ & Ht). f_equal. by apply (IH (a + 1)).
Qed.

Lemma cstr_agree m m' a s :
  agree m m' a (a + Z.of_nat (length s) + 1) -> cstr m a s -> cstr m' a s.
Proof.
  intros H (Hb & Hz & He). split_and!; [|done|].
  - rewrite (bytes_agree m); [done|]. intros b Hb'. apply H. lia.
  - rewrite H; [done|]. lia.
Qed.

Lemma strlen_loop_spec fuel m a s len :
  cstr m a s -> (length s < fuel)%nat -> 0 <= len -> len + Z.of_nat (length s) < 2 ^ 32 ->
  strlen_loop fuel m a len = Some (len + Z.of_nat (length s)).
Proof.
  revert a s len. induction fuel as [|fuel IH]; intros a s len; [lia|].
  destruct s as [|c s]; rewrite ?cstr_nil, ?cstr_cons; cbn [strlen_loop length].
  - intros -> _ _ _. cbn. f_equal. lia.
  - intros (Hc & Hn & Hs) Hf Hl Hb. rewrite Hc. zcase; [done|].
    rewrite wrap_small by lia. rewrite (IH _ s) by first [done | lia]. f_equal. lia.
Qed.

Lemma strcmp_order fuel m a b s t :
  cstr m a s -> cstr m b t -> (length t < fuel)%nat ->
  strcmp fuel m a b = Some (str_order s t).
Proof.
  revert a b s t. induction fuel as [|fuel IH]; intros a b s t; [lia|].
  destruct s as [|c s], t as [|d t]; rewrite ?cstr_nil, ?cstr_cons;
    cbn [strcmp str_order length].
  - intros -> -> _. done.
  - intros -> (-> & Hd & Ht) _. zcases. done.
  - intros (-> & Hc & Hs) -> _. zcases. done.
  - intros (-> & Hc & Hs) (-> & Hd & Ht) Hf. zcases; [by apply IH; [..|lia]|done].
Qed.

Lemma str_order_eq s t :
  Forall (fun c => 0 < c < 256) s -> Forall (fun c => 0 < c < 256) t ->
  str_order s t = 0 <-> s = t.
Proof.
  intros Hs. revert t. induction Hs as [|c s Hc Hs IH]; intros t Ht;
    destruct Ht as [|d t Hd Ht]; cbn [str_order]; [done|split; [lia|done]..|].
  zcase; [subst; rewrite IH by done; split; congruence | split; [lia|congruence]].
Qed.

Lemma str_order_lt s t :
  Forall (fun c => 0 < c < 256) s -> Forall (fun c => 0 < c < 256) t ->
  str_order s t < 0 <-> lex_lt s t.
Proof.
  intros Hs. revert t. induction Hs as [|c s Hc Hs IH]; intros t Ht;
    destruct Ht as [|d t Hd Ht]; cbn [str_order].
  - split; [lia | inversion 1].
  - split; [constructor | lia].
  - split; [lia | inversion 1].
  - zcase; [subst; rewrite IH by done|]; (split; [intros; constructor; done || lia|]);
      inversion 1; subst; done || lia.
Qed.

Lemma strcpy_loop_spec fuel m dst src s :
  cstr m src s -> (length s < fuel)%nat ->
  dst + Z.of_nat (length s) < src \/ src + Z.of_nat (length s) < dst ->
  exists m', strcpy_loop fuel m dst src = Some m' /\ cstr m' dst s /\
    forall b, b < dst \/ dst + Z.of_nat (length s) < b -> ldb m' b = ldb m b.
Proof.
  revert m dst src s. induction fuel as [|fuel IH]; intros m dst src s; [lia|].
  destruct s as [|c s]; rewrite ?cstr_nil, ?cstr_cons; cbn [strcpy_loop length].
  - intros -> _ _. cbn. eexists. split; [done|]. split.
    + apply cstr_nil. by apply ldb_stb_eq.
    + intros b Hb. apply ldb_stb_ne. lia.
  - intros (Hc & Hn & Hs) Hf Hd. rewrite Hc. zcase; [done|].
    assert (Hs' : cstr (stb m dst c) (src + 1) s).
    { eapply cstr_agree; [|done]. intros b Hb. apply ldb_stb_ne. lia. }
    destruct (IH _ (dst + 1) _ _ Hs') as (m' & -> & Hm' & Hfr); [lia..|].
    exists m'. split; [done|]. split.
    + apply cstr_cons. split_and!; [|done|done].
      rewrite Hfr by lia. apply ldb_stb_eq. subst c. apply ldb_range.
    + intros b Hb. rewrite Hfr by lia. apply ldb_stb_ne. lia.
Qed.

Lemma memset_loop_ldb n m a c b :
  ldb (memset_loop n m a c) b =
  if (a <=? b) && (b <? a + Z.of_nat n) then u8 c else ldb m b.
Proof.
  revert m a. induction n as [|n IH]; intros m a; cbn [memset_loop].
  - zcases; done.
  - rewrite IH, ldb_stb. zcases; done.
Qed.

(** [memset] on a non-NULL pointer, byte by byte. *)
Lemma memset_ldb m a c n b :
  a <> NULL -> 0 <= n ->
  ldb (memset m a c n).2 b = if (a <=? b) && (b <? a + n) then u8 c else ldb m b.
Proof.
  intros Ha Hn. unfold memset.
  destruct (Z.eqb_spec a NULL), (Z.ltb_spec n 0); [done|done|lia|]. cbn [orb snd].
  by rewrite memset_loop_ldb, Z2Nat.id by lia.
Qed.

(** The copy loop after [i] steps, for a destination that does not run
    ahead into the unread part of the source. *)
Lemma memcpy_loop_spec k m dst src size i :
  size < 2 ^ 31 -> 0 <= i -> i + Z.of_nat k = size ->
  dst <= src \/ src + size <= dst ->
  exists m', memcpy_loop (S k) m dst src size i = Some m' /\
    (forall j, i <= j < size -> ldb m' (dst + j) = ldb m (src + j)) /\
    (forall b, b < dst + i \/ dst + size <= b -> ldb m' b = ldb m b).
Proof.
  revert m i. induction k as [|k IH]; intros m i Hsz Hi Hk Hd.
  - exists m. cbn [memcpy_loop]. rewrite wrap_small by lia.
    zcases. split_and!; [done|intros; lia|done].
  - remember (S k) as k1. cbn [memcpy_loop].
    rewrite (wrap_small 64 i) by lia. zcases. rewrite swrap_small by lia. subst k1.
    destruct (IH (stb m (dst + i) (ldb m (src + i))) (i + 1)) as (m' & -> & H1 & H2); [lia..|].
    exists m'. split_and!; [done| |].
    + intros j Hj. destruct (decide (j = i)) as [->|].
      * rewrite H2 by lia. apply ldb_stb_eq, ldb_range.
      * rewrite H1 by lia. apply ldb_stb_ne. lia.
    + intros b Hb. rewrite H2 by lia. apply ldb_stb_ne. lia.
Qed.

Lemma memcpy_ldb m dst src n :
  0 <= n < 2 ^ 31 -> dst <= src \/ src + n <= dst ->
  exists m', memcpy m dst src n = Some m' /\
    (forall j, 0 <= j < n -> ldb m' (dst + j) = ldb m (src + j)) /\
    (forall b, b < dst \/ dst + n <= b -> ldb m' b = ldb m b).
Proof.
  intros Hn Hd. unfold memcpy.
  destruct (memcpy_loop_spec (Z.to_nat n) m dst src n 0) as (m' & -> & H1 & H2); [lia..|].
  exists m'. split_and!; [done|done|]. intros b Hb. apply H2. lia.
Qed.

Lemma s64_mul_l y x : s64 (s64 y * x) = s64 (y * x).
Proof.
  unfold swrap. change (64 - 1) with 63. f_equal. set (H := 2 ^ 63). set (W := 2 ^ 64).
  replace (((y + H) mod W - H) * x + H) with (((y + H) mod W) * x + (H - H * x)) by ring.
  rewrite Zplus_mod, Zmult_mod_idemp_l, <- Zplus_mod. f_equal. ring.
Qed.

Lemma pow_loop_spec n x y : pow_loop n x (s64 y) = s64 (y * x ^ Z.of_nat n).
Proof.
  revert y. induction n as [|n IH]; intros y; cbn [pow_loop].
  - by rewrite Z.pow_0_r, Z.mul_1_r.
  - rewrite s64_mul_l, IH, Nat2Z.inj_succ, Z.pow_succ_r by lia. f_equal. ring.
Qed.

Lemma kdelay_loop_spec fuel i n :
  0 <= i < 2 ^ 32 -> i < Z.of_nat fuel -> kdelay_loop fuel i n = Some (n + i).
Proof.
  revert i n. induction fuel as [|fuel IH]; intros i n Hi Hf; [lia|]. cbn [kdelay_loop].
  zcase; [f_equal; lia|]. rewrite wrap_small, IH by lia. f_equal. lia.
Qed.

(** The busy-wait ends after [2^24] rounds. *)
Lemma kdelay_spec fuel : 2 ^ 24 < Z.of_nat fuel -> kdelay fuel = Some (2 ^ 24).
Proof. intros Hf. unfold kdelay. change (Z.shiftl 1 24) with (2 ^ 24). by rewrite kdelay_loop_spec by lia. Qed.
End Strings.

(** ** Properties *)

(** [strlen] returns the length of the NUL-terminated string at its argument
    for every string shorter than [2^32] bytes, after reading exactly that
    string and its terminator. *)
Theorem strlen_correct (m : mem) (a : Z) (s : list Z) :
  cstr m a s -> Z.of_nat (length s) < 2 ^ 32 ->
  strlen (S (length s)) m a = Some (Z.of_nat (length s)).
Proof. intros. unfold strlen. rewrite (strlen_loop_spec _ _ _ s); first [done | lia]. Qed.

(** [strcmp] terminates on two NUL-terminated strings; its result is 0 exactly
    when they are equal and negative exactly when the first is
    lexicographically smaller. *)
Theorem strcmp_correct (m : mem) (a b : Z) (s t : list Z) :
  cstr m a s -> cstr m b t ->
  exists r, strcmp (S (length t)) m a b = Some r /\ (r = 0 <-> s = t) /\ (r < 0 <-> lex_lt s t).
Proof.
  intros Hs Ht. exists (str_order s t). split; [by apply strcmp_order; [..|lia]|].
  split; [eapply str_order_eq | eapply str_order_lt]; eauto using cstr_pos.
Qed.

(** [strcpy] between non-overlapping buffers returns the destination, which
    then holds the source string (so [strlen] of the copy is that of the
    source), and changes no byte outside the copied string and its
    terminator. *)
Theorem strcpy_correct (m : mem) (dst src : Z) (s : list Z) :
  cstr m src s -> dst <> NULL -> src <> NULL ->
  dst + Z.of_nat (length s) < src \/ src + Z.of_nat (length s) < dst ->
  exists m', strcpy (S (length s)) m dst src = Some (dst, m') /\ cstr m' dst s /\
    cstr m' src s /\
    forall b, b < dst \/ dst + Z.of_nat (length s) < b -> ldb m' b = ldb m b.
Proof.
  intros Hs Hd Hs0 Hov. unfold strcpy. zcases.
  destruct (strcpy_loop_spec (S (length s)) m dst src s) as (m' & -> & H1 & H2); [done|lia|done|].
  exists m'. split_and!; [done|done| |done].
  eapply cstr_agree; [|exact Hs]. intros b Hb. apply H2. lia.
Qed.

(** [memcpy] of fewer than [2^31] bytes moves the source block as it was at the
    call whenever the blocks are disjoint or the destination starts at or
    before the source, and writes nothing else. *)
Theorem memcpy_correct (m : mem) (dst src n : Z) :
  0 <= n < 2 ^ 31 -> dst <= src \/ src + n <= dst ->
  exists m', memcpy m dst src n = Some m' /\
    bytes m' dst (Z.to_nat n) = bytes m src (Z.to_nat n) /\
    (forall b, b < dst \/ dst + n <= b -> ldb m' b = ldb m b).
Proof.
  intros Hn Hd. destruct (memcpy_ldb m dst src n Hn Hd) as (m' & -> & H1 & H2).
  exists m'. split_and!; [done| |done].
  unfold bytes. apply list_fmap_ext. intros i x [-> Hi]%lookup_seq. apply H1. lia.
Qed.

(** [pow] is exponentiation modulo [2^64], read as a signed [long]. *)
Theorem pow_correct (x m : Z) : 0 <= m -> pow x m = s64 (x ^ m).
Proof.
  intros Hm. unfold pow. change 1 with (s64 1).
  by rewrite pow_loop_spec, Z2Nat.id, Z.mul_1_l by done.
Qed.

(** ** Witnesses *)

(** "ab" at 100, "abc" at 200. *)
Definition demo_mem : mem := put (put ∅ 100 [97; 98; 0]) 200 [97; 98; 99; 0].

Lemma demo_ab : cstr demo_mem 100 [97; 98].
Proof. split_and!; [reflexivity|repeat constructor; done|reflexivity]. Qed.
Lemma demo_abc : cstr demo_mem 200 [97; 98; 99].
Proof. split_and!; [reflexivity|repeat constructor; done|reflexivity]. Qed.

Example strlen_correct_witness : strlen 4 demo_mem 200 = Some 3.
Proof. exact (strlen_correct demo_mem 200 [97; 98; 99] demo_abc ltac:(done)). Defined.

Example strcmp_correct_witness : exists r, strcmp 4 demo_mem 100 200 = Some r /\ r < 0.
Proof.
  destruct (strcmp_correct demo_mem 100 200 [97; 98] [97; 98; 99] demo_ab demo_abc) as (r & E & _ & Hr).
  exists r. split; [exact E|]. apply Hr. do 2 apply lex_tail. constructor.
Defined.

Example strcpy_correct_witness :
  exists m', strcpy 4 demo_mem 300 200 = Some (300, m') /\ cstr m' 300 [97; 98; 99].
Proof.
  destruct (strcpy_correct demo_mem 300 200 [97; 98; 99] demo_abc) as (m' & E & H & _);
    [done|done|cbn; lia|]. exists m'. split; [exact E|exact H].
Defined.

(** An overlapping move to a lower address. *)
Example memcpy_correct_witness :
  exists m', memcpy demo_mem 199 200 3 = Some m' /\ bytes m' 199 3 = [97; 98; 99].
Proof.
  destruct (memcpy_correct demo_mem 199 200 3) as (m' & E & H & _); [lia..|].
  exists m'. split; [exact E|exact H].
Defined.

Example pow_correct_witness : pow 3 4 = 81.
Proof. exact (pow_correct 3 4 ltac:(lia)). Defined.
