(* ===== verification/DList.v ===== *)
(** include/list.h: the circular doubly linked lists of the kernel.

    [lheap] is the store of all [struct list_head] objects, by address.  Every
    operation is the sequence of field reads and writes of the C code; reading
    or writing through a pointer that is no [list_head] object (NULL, say)
    leaves defined behaviour and gives [None]. *)

From S2P Require Import Prelude.
Local Open Scope Z_scope.

(** ** Data and operations *)

Record list_head := { prev : Z; next : Z }.
Abbreviation lheap := (gmap Z list_head).

Definition get_next (h : lheap) (a : Z) : option Z := next <$> h !! a.
Definition get_prev (h : lheap) (a : Z) : option Z := prev <$> h !! a.
Definition set_next (h : lheap) (a v : Z) : option lheap :=
  let! n := h !! a in Some (<[a := {| prev := prev n; next := v |}]> h).
Definition set_prev (h : lheap) (a v : Z) : option lheap :=
  let! n := h !! a in Some (<[a := {| prev := v; next := next n |}]> h).

Definition INIT_LIST_HEAD (h : lheap) (list : Z) : option lheap :=
  let! h := set_next h list list in
  set_prev h list list.

Definition __list_add (h : lheap) (new prv nxt : Z) : option lheap :=
  let! h := set_prev h nxt new in
  let! h := set_next h new nxt in
  let! h := set_prev h new prv in
  set_next h prv new.

Definition list_add (h : lheap) (new head : Z) : option lheap :=
  let! n := get_next h head in
  __list_add h new head n.

Definition list_add_tail (h : lheap) (new head : Z) : option lheap :=
  let! p := get_prev h head in
  __list_add h new p head.

Definition list_del (h : lheap) (entry : Z) : option lheap :=
  let! prv := get_prev h entry in
  let! nxt := get_next h entry in
  let! h := set_prev h nxt prv in
  let! h := set_next h prv nxt in
  let! h := set_prev h entry NULL in
  set_next h entry NULL.

Definition list_empty (h : lheap) (head : Z) : option bool :=
  let! n := get_next h head in Some (n =? head).

(** [list_for_each(pos, head)]: the successive values of [pos]. *)
Fixpoint list_walk (fuel : nat) (h : lheap) (pos head : Z) : option (list Z) :=
  match fuel with
  | O => None
  | S f =>
      if pos =? head then Some []
      else let! n := get_next h pos in
           let! xs := list_walk f h n head in Some (pos :: xs)
  end.
Definition list_for_each (fuel : nat) (h : lheap) (head : Z) : option (list Z) :=
  let! n := get_next h head in list_walk fuel h n head.

(** ** The representation predicate *)

(** [link h a b]: [b] follows [a] in both directions. *)
Definition link (h : lheap) (a b : Z) : Prop := get_next h a = Some b /\ get_prev h b = Some a.

(** [chain h a xs b]: links lead from [a] through [xs] to [b]. *)
Fixpoint chain (h : lheap) (a : Z) (xs : list Z) (b : Z) : Prop :=
  match xs with
  | [] => link h a b
  | x :: xs' => link h a x /\ chain h x xs' b
  end.

(** [dlist h head xs]: a circular list with header [head] and entries [xs]. *)
Definition dlist (h : lheap) (head : Z) (xs : list Z) : Prop :=
  NoDup (head :: xs) /\ chain h head xs head.

(** ** Field lemmas *)

Section Fields.
Implicit Types (h : lheap) (a b v : Z).

Lemma set_next_Some h a v :
  is_Some (h !! a) -> exists h', set_next h a v = Some h' /\
    (forall b, get_next h' b = if b =? a then Some v else get_next h b) /\
    (forall b, get_prev h' b = get_prev h b) /\ dom h' = dom h.
Proof.
  intros [n Hn]. unfold set_next, get_next, get_prev. rewrite Hn. cbn.
  eexists. split_and!; [done| | |].
  - intros b. zcase; subst; [by rewrite lookup_insert_eq | by rewrite lookup_insert_ne].
  - intros b. destruct (decide (b = a)) as [->|].
    + by rewrite lookup_insert_eq, Hn.
    + by rewrite lookup_insert_ne.
  - rewrite dom_insert_L. apply elem_of_dom_2 in Hn. set_solver.
Qed.

Lemma set_prev_Some h a v :
  is_Some (h !! a) -> exists h', set_prev h a v = Some h' /\
    (forall b, get_prev h' b = if b =? a then Some v else get_prev h b) /\
    (forall b, get_next h' b = get_next h b) /\ dom h' = dom h.
Proof.
  intros [n Hn]. unfold set_prev, get_next, get_prev. rewrite Hn. cbn.
  eexists. split_and!; [done| | |].
  - intros b. zcase; subst; [by rewrite lookup_insert_eq | by rewrite lookup_insert_ne].
  - intros b. destruct (decide (b = a)) as [->|].
    + by rewrite lookup_insert_eq, Hn.
    + by rewrite lookup_insert_ne.
  - rewrite dom_insert_L. apply elem_of_dom_2 in Hn. set_solver.
Qed.

Lemma get_next_dom h a b : get_next h a = Some b -> is_Some (h !! a).
Proof. unfold get_next. destruct (h !! a); naive_solver. Qed.
Lemma get_prev_dom h a b : get_prev h a = Some b -> is_Some (h !! a).
Proof. unfold get_prev. destruct (h !! a); naive_solver. Qed.

Lemma dom_is_Some h h' a : dom h' = dom h -> is_Some (h !! a) -> is_Some (h' !! a).
Proof. intros Hd. rewrite <- !elem_of_dom, Hd. done. Qed.

(** Heaps with the same field values are the same heap. *)
Lemma lheap_ext h h' :
  (forall a, get_next h a = get_next h' a) -> (forall a, get_prev h a = get_prev h' a) -> h = h'.
Proof.
  unfold get_next, get_prev. intros Hn Hp. apply map_eq. intros a. specialize (Hn a). specialize (Hp a).
  destruct (h !! a) as [[p n]|], (h' !! a) as [[p' n']|]; naive_solver.
Qed.
End Fields.

(** Run one field write of the goal and keep its field equations. *)
Ltac dl_write :=
  let go lem h a v :=
    let h' := fresh "h" in let E := fresh "E" in let F := fresh "F" in
    let G := fresh "G" in let D := fresh "D" in
    destruct (lem h a v) as (h' & E & F & G & D);
      [| rewrite E; cbn [mbind option_bind]; clear E] in
  match goal with
  | |- context [set_next ?h ?a ?v] => go set_next_Some h a v
  | |- context [set_prev ?h ?a ?v] => go set_prev_Some h a v
  end.

(** Rewrite with every field equation in the context. *)
Ltac dl_fields :=
  repeat match goal with
  | F : forall b, get_next ?h' b = _ |- context [get_next ?h' _] => rewrite F
  | F : forall b, get_prev ?h' b = _ |- context [get_prev ?h' _] => rewrite F
  end.

(** ** Effect of the operations on the fields *)

Section Effects.
Implicit Types (h : lheap) (a b : Z).

Lemma list_add_effect h new p n :
  link h p n -> is_Some (h !! new) -> new <> p -> new <> n ->
  exists h', __list_add h new p n = Some h' /\ dom h' = dom h /\
    (forall a, get_next h' a = if a =? p then Some new else if a =? new then Some n else get_next h a) /\
    (forall a, get_prev h' a = if a =? n then Some new else if a =? new then Some p else get_prev h a).
Proof.
  intros [Hn Hp] Hnew ? ?. apply get_next_dom in Hn. apply get_prev_dom in Hp. unfold __list_add.
  dl_write; [done|]. dl_write; [eauto using dom_is_Some|].
  dl_write; [eapply dom_is_Some, dom_is_Some; eauto|].
  dl_write; [eapply dom_is_Some, dom_is_Some, dom_is_Some; eauto|].
  eexists. split_and!; [done|congruence| |]; intros a; dl_fields; zcases; congruence.
Qed.

Lemma list_del_effect h x p n :
  link h p x -> link h x n ->
  exists h', list_del h x = Some h' /\ dom h' = dom h /\
    (forall a, get_next h' a = if a =? x then Some NULL else if a =? p then Some n else get_next h a) /\
    (forall a, get_prev h' a = if a =? x then Some NULL else if a =? n then Some p else get_prev h a).
Proof.
  intros [Hpn Hxp] [Hxn Hnp]. unfold list_del. rewrite Hxp, Hxn. cbn [mbind option_bind].
  apply get_next_dom in Hpn, Hxn. apply get_prev_dom in Hnp.
  dl_write; [done|]. dl_write; [eauto using dom_is_Some|].
  dl_write; [eapply dom_is_Some, dom_is_Some; eauto|].
  dl_write; [eapply dom_is_Some, dom_is_Some, dom_is_Some; eauto|].
  eexists. split_and!; [done|congruence| |]; intros a; dl_fields; zcases; congruence.
Qed.
End Effects.

(** ** Chains *)

Section Chains.
Implicit Types (h : lheap) (a b x : Z) (xs ys : list Z).

Lemma chain_app h a xs x ys b :
  chain h a (xs ++ x :: ys) b <-> chain h a xs x /\ chain h x ys b.
Proof.
  revert a. induction xs as [|y xs IH]; intros a; cbn [app chain]; [done|].
  rewrite IH. tauto.
Qed.

(** A chain depends on the [next] fields of all but its last node and on the
    [prev] fields of all but its first. *)
Lemma chain_frame h h' a xs b :
  (forall y, y ∈ a :: xs -> get_next h' y = get_next h y) ->
  (forall y, y ∈ xs ++ [b] -> get_prev h' y = get_prev h y) ->
  chain h a xs b -> chain h' a xs b.
Proof.
  revert a. induction xs as [|x xs IH]; intros a Hn Hp; cbn [chain].
  - intros [H1 H2]. split; [rewrite Hn | rewrite Hp]; first [done | set_solver].
  - intros [[H1 H2] Hc]. split; [split; [rewrite Hn | rewrite Hp]; first [done | set_solver]|].
    apply IH; [| |done]; intros y Hy; [apply Hn | apply Hp]; set_solver.
Qed.

Lemma chain_dom h a xs b y : chain h a xs b -> y ∈ a :: xs ++ [b] -> is_Some (h !! y).
Proof.
  revert a. induction xs as [|x xs IH]; intros a; cbn [chain app].
  - intros [H1%get_next_dom H2%get_prev_dom]. set_unfold. naive_solver.
  - intros [[H1%get_next_dom _] Hc] [->|Hy]%elem_of_cons; eauto.
Qed.

Lemma dlist_dom h head xs y : dlist h head xs -> y ∈ head :: xs -> is_Some (h !! y).
Proof. intros [_ Hc] Hy. eapply chain_dom; [done|]. set_solver. Qed.

Lemma list_walk_end fuel h head : (0 < fuel)%nat -> list_walk fuel h head head = Some [].
Proof. intros. destruct fuel; [lia|]. cbn. by rewrite Z.eqb_refl. Qed.

Lemma chain_walk fuel h x xs head :
  chain h x xs head -> head ∉ x :: xs -> (S (length xs) < fuel)%nat ->
  list_walk fuel h x head = Some (x :: xs).
Proof.
  revert x fuel. induction xs as [|y xs IH]; intros x fuel Hc Hh Hf;
    destruct fuel as [|fuel]; cbn [length] in Hf; [lia| |lia|]; cbn [list_walk]; cbn [chain] in Hc.
  - destruct Hc as [Hn _]. zcase; [set_solver|]. rewrite Hn. cbn [mbind option_bind].
    by rewrite list_walk_end by lia.
  - destruct Hc as [[Hn _] Hc]. zcase; [set_solver|]. rewrite Hn. cbn [mbind option_bind].
    by rewrite (IH y fuel) by first [done | set_solver | lia].
Qed.
End Chains.

(** ** The operations on represented lists *)

Section Lists.
Implicit Types (h : lheap) (head x new : Z) (xs ys : list Z).

Lemma dlist_init h head :
  is_Some (h !! head) -> exists h', INIT_LIST_HEAD h head = Some h' /\ dlist h' head [] /\
    forall a, a <> head -> h' !! a = h !! a.
Proof.
  intros [n Hn]. unfold INIT_LIST_HEAD, set_next, set_prev. rewrite Hn. cbn.
  rewrite lookup_insert_eq. cbn. eexists. split_and!; [done| |].
  - split; [apply NoDup_singleton|]. cbn. unfold link, get_next, get_prev.
    by rewrite lookup_insert_eq.
  - intros a Ha. by rewrite !lookup_insert_ne.
Qed.

Lemma dlist_add h head xs new :
  dlist h head xs -> is_Some (h !! new) -> new ∉ head :: xs ->
  exists h', list_add h new head = Some h' /\ dlist h' head (new :: xs) /\ dom h' = dom h /\
    forall a, a ∉ new :: head :: xs -> h' !! a = h !! a.
Proof.
  intros [Hnd Hc] Hnew Hin. unfold list_add.
  assert (exists n, link h head n /\ n ∈ head :: xs) as (n & Hl & Hnin).
  { destruct xs as [|x xs]; cbn in Hc; eexists; (split; [apply Hc|set_solver]). }
  rewrite (proj1 Hl). cbn [mbind option_bind].
  destruct (list_add_effect h new head n Hl Hnew) as (h' & -> & Hd & Fn & Fp); [set_solver..|].
  exists h'. split_and!; [done| |done|].
  - split; [apply NoDup_cons in Hnd as [??]; rewrite !NoDup_cons; set_solver|].
    destruct xs as [|x xs].
    + cbn in Hc |- *. destruct Hl as [Hl _]. assert (n = head) as -> by (destruct Hc; congruence).
      unfold link. rewrite !Fn, !Fp. zcases; try set_solver; auto.
    + assert (n = x) as -> by (destruct Hc as [[??] _], Hl; congruence).
      destruct Hc as [_ Hc]. apply NoDup_cons in Hnd as [Hh Hx]. apply NoDup_cons in Hx as [Hx _].
      cbn [chain]. split_and!.
      * unfold link. rewrite Fn, Fp. zcases; try set_solver; auto.
      * unfold link. rewrite Fn, Fp. zcases; try set_solver; auto.
      * eapply chain_frame; [| |exact Hc]; intros y Hy; [rewrite Fn | rewrite Fp];
          zcases; set_solver.
  - intros a Ha. assert (Ha' : a <> new /\ a <> head /\ a <> n) by set_solver.
    destruct Ha' as (? & ? & ?). specialize (Fn a). specialize (Fp a).
    revert Fn Fp. unfold get_next, get_prev. zcases.
    destruct (h' !! a) as [[??]|], (h !! a) as [[??]|]; cbn; congruence.
Qed.

(** Which fields of an entry a heap update left alone. *)
Lemma fields_same h h' a :
  get_next h' a = get_next h a -> get_prev h' a = get_prev h a -> h' !! a = h !! a.
Proof.
  unfold get_next, get_prev.
  destruct (h' !! a) as [[??]|], (h !! a) as [[??]|]; cbn; congruence.
Qed.

Lemma chain_split h a xs b : chain h a xs b ->
  exists p n, link h a n /\ link h p b /\ n ∈ xs ++ [b] /\ p ∈ a :: xs.
Proof.
  intros Hc. destruct xs as [|x xs]; [exists a, b; cbn in *; set_solver|].
  destruct Hc as [Hl Hc]. revert x a Hl Hc. induction xs as [|y xs IH]; intros x a Hl Hc.
  - exists x, x. cbn in Hc. set_solver.
  - destruct Hc as [Hl' Hc]. destruct (IH y x Hl' Hc) as (p & _ & _ & Hp & _ & Hin).
    exists p, x. set_solver.
Qed.

(** Redirect the last link of a chain. *)
Lemma chain_retarget h h' a xs x p n :
  chain h a xs x -> link h p x -> NoDup (a :: xs) -> link h' p n ->
  (forall y, y ∈ a :: xs -> y <> p -> get_next h' y = get_next h y) ->
  (forall y, y ∈ xs -> get_prev h' y = get_prev h y) ->
  chain h' a xs n.
Proof.
  intros Hc Hp Hnd Hl. revert a Hc Hnd. induction xs as [|y xs IH]; intros a Hc Hnd Hn Hv.
  - cbn in *. by assert (a = p) as -> by (destruct Hc, Hp; congruence).
  - destruct Hc as [[Han Hya] Hc]. apply NoDup_cons in Hnd as [Ha Hnd]. cbn [chain].
    destruct (chain_split _ _ _ _ Hc) as (q & _ & _ & Hq & _ & Hqin).
    assert (q = p) as -> by (destruct Hq, Hp; congruence).
    split; [split; [rewrite Hn | rewrite Hv]; first [done | set_solver]|].
    apply IH; [done|done| |]; intros w Hw; [intros; apply Hn | apply Hv]; set_solver.
Qed.

Lemma dlist_add_tail h head xs new :
  dlist h head xs -> is_Some (h !! new) -> new ∉ head :: xs ->
  exists h', list_add_tail h new head = Some h' /\ dlist h' head (xs ++ [new]) /\ dom h' = dom h /\
    forall a, a ∉ new :: head :: xs -> h' !! a = h !! a.
Proof.
  intros [Hnd Hc] Hnew Hin. unfold list_add_tail.
  destruct (chain_split _ _ _ _ Hc) as (p & _ & _ & Hp & _ & Hpin).
  rewrite (proj2 Hp). cbn [mbind option_bind].
  destruct (list_add_effect h new p head Hp Hnew) as (h' & -> & Hd & Fn & Fp); [set_solver..|].
  exists h'. split_and!; [done| |done|].
  - split.
    + apply (NoDup_app (head :: xs) [new]). split_and!; [done|set_solver|apply NoDup_singleton].
    + apply chain_app. split; [|split; [rewrite Fn | rewrite Fp]; zcases; try set_solver; done].
      eapply (chain_retarget h h' head xs head p new Hc Hp Hnd).
      * split; [rewrite Fn | rewrite Fp]; zcases; try set_solver; done.
      * intros y Hy Hyp. rewrite Fn. zcases; set_solver.
      * intros y Hy. apply NoDup_cons in Hnd as [Hh _]. rewrite Fp. zcases; set_solver.
  - intros a Ha. apply fields_same; [rewrite Fn | rewrite Fp]; zcases; set_solver.
Qed.

Lemma dlist_del h head xs x ys :
  dlist h head (xs ++ x :: ys) ->
  exists h', list_del h x = Some h' /\ dlist h' head (xs ++ ys) /\ dom h' = dom h /\
    h' !! x = Some {| prev := NULL; next := NULL |} /\
    forall a, a ∉ head :: xs ++ x :: ys -> h' !! a = h !! a.
Proof.
  intros [Hnd Hc]. apply chain_app in Hc as [H1 H2].
  destruct (chain_split _ _ _ _ H1) as (p & _ & _ & Hp & _ & Hpin).
  destruct (chain_split _ _ _ _ H2) as (_ & n & Hn & _ & Hnin & _).
  destruct (list_del_effect h x p n Hp Hn) as (h' & E & Hd & Fn & Fp).
  pose proof Hnd as Hnd0. rewrite app_comm_cons in Hnd0.
  apply NoDup_app in Hnd0 as (Nx & Nd & Ny). apply NoDup_cons in Ny as [Nxy Ny].
  assert (Hx : x ∉ head :: xs) by (intros ?; eapply Nd; set_solver).
  exists h'. split_and!; [done| |done| |].
  - split; [apply (NoDup_app (head :: xs) ys); set_solver|].
    assert (Hcx : chain h' head xs n).
    { eapply (chain_retarget h h' head xs x p n H1 Hp Nx).
      - split; [rewrite Fn | rewrite Fp]; zcases; try done; exfalso; set_solver.
      - intros y Hy Hyp. rewrite Fn. zcases; set_solver.
      - intros y Hy. rewrite Fp. zcases; [set_solver| |done]. subst y. exfalso.
        apply NoDup_cons in Nx as [Nh _]. set_solver. }
    destruct ys as [|y ys].
    + cbn in H2. assert (n = head) as -> by (destruct Hn, H2; congruence). by rewrite app_nil_r.
    + destruct H2 as [Hy H2]. assert (n = y) as -> by (destruct Hn, Hy; congruence).
      apply chain_app. split; [done|]. apply NoDup_cons in Ny as [Nyy Ny].
      eapply chain_frame; [| |exact H2]; intros w Hw; [rewrite Fn | rewrite Fp];
        zcases; try done; exfalso; set_solver.
  - specialize (Fn x). specialize (Fp x). rewrite Z.eqb_refl in Fn, Fp.
    revert Fn Fp. unfold get_next, get_prev. destruct (h' !! x) as [[??]|]; cbn; congruence.
  - intros a Ha. apply fields_same; [rewrite Fn | rewrite Fp]; zcases; set_solver.
Qed.

Lemma dlist_empty h head xs :
  dlist h head xs -> list_empty h head = Some (bool_decide (xs = [])).
Proof.
  intros [Hnd Hc]. unfold list_empty. destruct xs as [|x xs]; cbn in Hc.
  - rewrite (proj1 Hc). cbn. by rewrite Z.eqb_refl.
  - rewrite (proj1 (proj1 Hc)). cbn. apply NoDup_cons in Hnd as [Hh _].
    zcase; [set_solver|done].
Qed.

Lemma dlist_for_each h head xs fuel :
  dlist h head xs -> (length xs < fuel)%nat -> list_for_each fuel h head = Some xs.
Proof.
  intros [Hnd Hc] Hf. unfold list_for_each. destruct xs as [|x xs]; cbn in Hc.
  - rewrite (proj1 Hc). cbn [mbind option_bind]. by rewrite list_walk_end.
  - rewrite (proj1 (proj1 Hc)). cbn [mbind option_bind]. apply NoDup_cons in Hnd as [Hh _].
    apply chain_walk; [apply Hc|done|done].
Qed.

(** The successor of an entry on the ring. *)
Lemma dlist_next h head xs x ys :
  dlist h head (xs ++ x :: ys) -> get_next h x = Some (hd head ys).
Proof. intros [_ Hc]. apply chain_app in Hc as [_ Hc]. destruct ys; cbn in *; apply Hc. Qed.

Lemma dlist_next_head h head xs :
  dlist h head xs -> get_next h head = Some (hd head xs).
Proof. intros [_ Hc]. destruct xs; cbn in *; apply Hc. Qed.

(** Any entry of a ring can be taken as its head. *)
Lemma dlist_turn h a xs b ys : dlist h a (xs ++ b :: ys) -> dlist h b (ys ++ a :: xs).
Proof.
  intros [Hnd Hc]. apply chain_app in Hc as [H1 H2]. split.
  - change (b :: ys ++ a :: xs) with ((b :: ys) ++ a :: xs). by rewrite Permutation_app_comm.
  - by apply chain_app.
Qed.

(** Insertion in front of any node of the ring. *)
Lemma dlist_add_before h a xs head new :
  dlist h a xs -> head ∈ a :: xs -> is_Some (h !! new) -> new ∉ a :: xs ->
  exists h' l1 l2, list_add_tail h new head = Some h' /\ xs = l1 ++ l2 /\ hd a l2 = head /\
    dlist h' a (l1 ++ new :: l2) /\ dom h' = dom h.
Proof.
  intros Hd Hin Hnew Hni. apply elem_of_cons in Hin as [->|(ys & zs & ->)%list_elem_of_split].
  - destruct (dlist_add_tail h a xs new Hd Hnew Hni) as (h' & E & Hd' & Hdom & _).
    exists h', xs, []. rewrite app_nil_r. done.
  - apply dlist_turn in Hd.
    destruct (dlist_add_tail h head (zs ++ a :: ys) new Hd Hnew) as (h' & E & Hd' & Hdom & _); [set_solver|].
    exists h', ys, (head :: zs). split_and!; [done|done|done| |done].
    rewrite <- app_assoc in Hd'. cbn [app] in Hd'. apply dlist_turn in Hd'. by rewrite <- app_assoc in Hd'.
Qed.

(** Writes to other nodes keep a list. *)
Lemma dlist_frame h h' head xs :
  dlist h head xs -> (forall a, a ∈ head :: xs -> h' !! a = h !! a) -> dlist h' head xs.
Proof.
  intros [Hnd Hc] Hf. split; [done|]. eapply chain_frame; [| |exact Hc];
    intros y Hy; unfold get_next, get_prev; rewrite Hf; set_solver.
Qed.
End Lists.

(** ** Specification: a list as a sequence *)

(** Calls of the list interface on one list, and what each means on the
    sequence of entries. *)
Inductive list_op := OpAdd (x : Z) | OpAddTail (x : Z) | OpDel (x : Z).

Definition exec_op (head : Z) (op : list_op) (h : lheap) : option lheap :=
  match op with
  | OpAdd x => list_add h x head
  | OpAddTail x => list_add_tail h x head
  | OpDel x => list_del h x
  end.

Definition spec_op (op : list_op) (xs : list Z) : list Z :=
  match op with
  | OpAdd x => x :: xs
  | OpAddTail x => xs ++ [x]
  | OpDel x => filter (fun y => y <> x) xs
  end.

(** What a caller must respect: insert only nodes that are not on the list,
    remove only entries of the list. *)
Definition op_ok (h : lheap) (head : Z) (op : list_op) (xs : list Z) : Prop :=
  match op with
  | OpAdd x | OpAddTail x => is_Some (h !! x) /\ x ∉ head :: xs
  | OpDel x => x ∈ xs
  end.

Fixpoint exec_ops (head : Z) (ops : list list_op) (h : lheap) : option lheap :=
  match ops with
  | [] => Some h
  | op :: ops' => let! h' := exec_op head op h in exec_ops head ops' h'
  end.

Fixpoint ops_ok (h : lheap) (head : Z) (ops : list list_op) (xs : list Z) : Prop :=
  match ops with
  | [] => True
  | op :: ops' => op_ok h head op xs /\ ops_ok h head ops' (spec_op op xs)
  end.

Section Refinement.
Lemma filter_ne_notin (xs : list Z) x : x ∉ xs -> filter (fun y => y <> x) xs = xs.
Proof.
  induction xs as [|y xs IH]; [done|]. intros Hx. rewrite filter_cons_True by set_solver.
  rewrite IH; set_solver.
Qed.

Lemma filter_ne_mid (xs ys : list Z) x :
  x ∉ xs -> x ∉ ys -> filter (fun y => y <> x) (xs ++ x :: ys) = xs ++ ys.
Proof.
  intros Hx Hy. rewrite filter_app, filter_cons_False by naive_solver.
  by rewrite !filter_ne_notin.
Qed.

Lemma exec_op_refines h head op xs :
  dlist h head xs -> op_ok h head op xs ->
  exists h', exec_op head op h = Some h' /\ dlist h' head (spec_op op xs) /\ dom h' = dom h.
Proof.
  intros Hd. destruct op as [x|x|x]; cbn.
  - intros [Hs Hn]. destruct (dlist_add h head xs x) as (h' & ? & ? & ? & _); eauto.
  - intros [Hs Hn]. destruct (dlist_add_tail h head xs x) as (h' & ? & ? & ? & _); eauto.
  - intros (ys & zs & ->)%list_elem_of_split.
    destruct (dlist_del h head ys x zs Hd) as (h' & ? & ? & ? & _).
    exists h'. rewrite filter_ne_mid; [done|..]; destruct Hd as [Hnd _];
      apply NoDup_cons in Hnd as [_ Hnd]; apply NoDup_app in Hnd as (_ & Hdj & Hz);
      apply NoDup_cons in Hz as [Hz _]; set_solver.
Qed.
End Refinement.

(** ** Properties *)

(** C36: The list interface refines sequences: starting from any represented list,
    every well-formed sequence of [list_add], [list_add_tail] and [list_del]
    calls runs without touching an invalid pointer, the resulting ring
    represents the sequence obtained by pushing in front, appending and
    removing, [list_for_each] visits exactly that sequence in order, and
    [list_empty] tells whether it is empty. *)
Theorem list_ops_refine (h : lheap) (head : Z) (ops : list list_op) (xs : list Z) :
  dlist h head xs -> ops_ok h head ops xs ->
  exists h', exec_ops head ops h = Some h' /\
    dlist h' head (fold_left (fun l op => spec_op op l) ops xs) /\
    list_for_each (S (length (fold_left (fun l op => spec_op op l) ops xs))) h' head =
      Some (fold_left (fun l op => spec_op op l) ops xs) /\
    list_empty h' head = Some (bool_decide (fold_left (fun l op => spec_op op l) ops xs = [])).
Proof.
  intros Hd Hok.
  assert (exists h', exec_ops head ops h = Some h' /\
            dlist h' head (fold_left (fun l op => spec_op op l) ops xs)) as (h' & E & Hd').
  { revert h xs Hd Hok. induction ops as [|op ops IH]; intros h xs Hd; cbn; [by eauto|].
    intros [Hop Hops]. destruct (exec_op_refines h head op xs Hd Hop) as (h1 & -> & Hd1 & Hdom).
    cbn. apply IH; [done|]. clear -Hops Hdom. revert Hops. generalize (spec_op op xs) as ys.
    induction ops as [|o ops IH]; intros ys; cbn; [done|]. intros [Ho Hops]. split; [|by apply IH].
    destruct o; cbn in *; try done; (split; [eapply dom_is_Some; [done|]|]; apply Ho). }
  exists h'. split_and!; [done|done|apply dlist_for_each; [done|lia]|by apply dlist_empty].
Qed.

(** [list_del] unlinks one entry wherever it stands: the entries before and
    after it keep their order, the removed node's fields become NULL, and no
    node outside the list is written. *)
Theorem list_del_correct (h : lheap) (head x : Z) (xs ys : list Z) :
  dlist h head (xs ++ x :: ys) ->
  exists h', list_del h x = Some h' /\ dlist h' head (xs ++ ys) /\
    get_next h' x = Some NULL /\ get_prev h' x = Some NULL /\
    forall a, a ∉ head :: xs ++ x :: ys -> h' !! a = h !! a.
Proof.
  intros Hd. destruct (dlist_del h head xs x ys Hd) as (h' & ? & ? & _ & Hx & ?).
  exists h'. unfold get_next, get_prev. by rewrite Hx.
Qed.

(** ** Witnesses *)

Definition demo_heap : lheap :=
  {[ 100 := {| prev := 100; next := 100 |};
     200 := {| prev := 0; next := 0 |};
     300 := {| prev := 7; next := 8 |} ]}.

Example list_ops_refine_witness :
  exists h', exec_ops 100 [OpAdd 200; OpAddTail 300; OpDel 200; OpAdd 200] demo_heap = Some h' /\
    list_for_each 3 h' 100 = Some [200; 300].
Proof.
  destruct (list_ops_refine demo_heap 100 [OpAdd 200; OpAddTail 300; OpDel 200; OpAdd 200] [])
    as (h' & E & _ & Hw & _).
  - split; [apply NoDup_singleton|]. split; reflexivity.
  - cbn. split_and!; first [eexists; reflexivity | apply (bool_decide_unpack _); vm_compute; exact I].
  - exists h'. split; [exact E|exact Hw].
Defined.

Example list_del_correct_witness :
  exists h h', dlist h 100 [200; 300] /\ list_del h 200 = Some h' /\ dlist h' 100 [300].
Proof.
  pose (h := {[ 100 := {| prev := 300; next := 200 |}; 200 := {| prev := 100; next := 300 |};
                300 := {| prev := 200; next := 100 |} ]} : lheap).
  assert (Hd : dlist h 100 ([] ++ 200 :: [300])).
  { split; [apply (bool_decide_unpack _); vm_compute; exact I|]. repeat split. }
  destruct (list_del_correct h 100 200 [] [300] Hd) as (h' & E & Hd' & _).
  exists h, h'. split_and!; [exact Hd|exact E|exact Hd'].
Defined.
