(* ===== verification/Page.v ===== *)
(** mm/mm.c and include/mm.h: physical pages.  Address conversions, the page
    allocator over [mem_map], and [get_free_page]/[free_page].

    The static array [struct page mem_map[PAGING_PAGES]] is a list of records,
    a [struct page*] is an index of it (its [page_to_pfn]); the RAM is the byte
    memory of Mem.v, addressed by kernel virtual address. *)

From S2P Require Import Prelude Mem Lib.
Local Open Scope Z_scope.

(** ** Constants of include/mm.h *)

Definition MEM_BASE : Z := 0x40000000.
Definition IMAGE_START : Z := MEM_BASE + 0x80000.
Definition LOW_MEM : Z := IMAGE_START + Z.shiftl 1 20.
Definition PAGING_MEMORY : Z := Z.shiftl 15 20.
Definition HIGH_MEM : Z := IMAGE_START + PAGING_MEMORY - 1.
Definition PAGE_SHIFT : Z := 12.
Definition PAGE_SIZE : Z := Z.shiftl 1 PAGE_SHIFT.
Definition PAGE_MASK : Z := Z.shiftl 1 PAGE_SHIFT - 1.
Definition PAGING_PAGES : Z := Z.shiftr PAGING_MEMORY PAGE_SHIFT.
Definition KERNEL_VA_START : Z := 0xffff000000000000.
Definition PG_free : Z := 0.
Definition PG_kmalloc : Z := 1.

(** ** Address conversions, on [unsigned long] *)

Definition pa_to_pfn (pa : Z) : Z := Z.shiftr (u64 (pa - LOW_MEM)) PAGE_SHIFT.
Definition pfn_to_pa (pfn : Z) : Z := u64 (u64 (Z.shiftl pfn PAGE_SHIFT) + LOW_MEM).
Definition __va (pa : Z) : Z := u64 (u64 (pa - MEM_BASE) + KERNEL_VA_START).
Definition __pa (va : Z) : Z := u64 (u64 (va - KERNEL_VA_START) + MEM_BASE).

(** ** struct page and the allocator *)

(** [flags] and [count] are [atomic_t], a 32-bit [int]; [fbh] is never set by
    the code, and the [lru] node is not used by it. *)
Record page := { p_flags : Z; p_count : Z; p_fbh : Z }.

Definition with_count (p : page) (c : Z) : page :=
  {| p_flags := p_flags p; p_count := c; p_fbh := p_fbh p |}.
Definition with_flags (p : page) (f : Z) : page :=
  {| p_flags := f; p_count := p_count p; p_fbh := p_fbh p |}.

(** [struct page mem_map[PAGING_PAGES] = {0};] *)
Definition mem_map_init : list page :=
  replicate (Z.to_nat PAGING_PAGES) {| p_flags := 0; p_count := 0; p_fbh := NULL |}.

(** The downward scan [for(i = PAGING_PAGES-1; i >= 0; i--)]: the index found. *)
Fixpoint alloc_scan (k : nat) (mem_map : list page) : option Z :=
  match k with
  | O => None
  | S i =>
      match mem_map !! i with
      | Some p => if p_count p =? 0 then Some (Z.of_nat i) else alloc_scan i mem_map
      | None => alloc_scan i mem_map
      end
  end.

(** [None] is the NULL it returns when no page is free. *)
Definition alloc_page (mem_map : list page) : option Z * list page :=
  match alloc_scan (Z.to_nat PAGING_PAGES) mem_map with
  | Some i => (Some i, alter (fun p => with_count p 1) (Z.to_nat i) mem_map)
  | None => (None, mem_map)
  end.

(** [atomic_add(i, &p->count)] on the page at index [pfn]. *)
Definition atomic_add (i : Z) (p : page) : page := with_count p (s32 (p_count p + i)).

Definition __free_page (pfn : Z) (mem_map : list page) : option (list page) :=
  let! p := arr_get mem_map pfn in
  arr_set mem_map pfn (atomic_add (-1) p).

Definition free_page (addr : Z) (mem_map : list page) : option (list page) :=
  __free_page (pa_to_pfn (__pa addr)) mem_map.

(** [atomic_set(&(pa_to_page(__pa(a))->flags), f)]. *)
Definition set_page_flags (addr f : Z) (mem_map : list page) : option (list page) :=
  let! p := arr_get mem_map (pa_to_pfn (__pa addr)) in
  arr_set mem_map (pa_to_pfn (__pa addr)) (with_flags p f).

(** The memory the kernel manages: RAM contents and page descriptors. *)
Record phys := { ram : mem; mem_map : list page }.

(** With no free page the code computes an address from a NULL [struct page]
    and clears memory there: no defined result. *)
Definition get_free_page (s : phys) : option (Z * phys) :=
  match alloc_page (mem_map s) with
  | (Some pfn, mm) =>
      let a := __va (pfn_to_pa pfn) in
      Some (a, {| ram := (memset (ram s) a 0 PAGE_SIZE).2; mem_map := mm |})
  | (None, _) => None
  end.

(** ** Facts about addresses *)

(** The kernel address of page [i], in closed form. *)
Definition page_va (i : Z) : Z := 0xffff000000180000 + 4096 * i.

(** The index of a page of the paging area. *)
Definition pfn_ok (i : Z) : Prop := 0 <= i < PAGING_PAGES.

Section Addresses.
Implicit Types (i j : Z).

Lemma PAGING_PAGES_eq : PAGING_PAGES = 3840. Proof. reflexivity. Qed.
Lemma PAGE_SIZE_eq : PAGE_SIZE = 4096. Proof. reflexivity. Qed.

Lemma pfn_to_pa_eq i : pfn_ok i -> pfn_to_pa i = 0x40180000 + 4096 * i.
Proof.
  unfold pfn_ok, pfn_to_pa. rewrite PAGING_PAGES_eq, shiftl_mul by done.
  change (2 ^ PAGE_SHIFT) with 4096. change LOW_MEM with 0x40180000. intros. word_lia.
Qed.

Lemma __va_pfn i : pfn_ok i -> __va (pfn_to_pa i) = page_va i.
Proof.
  intros Hi. rewrite pfn_to_pa_eq by done. unfold pfn_ok, __va, page_va in *.
  rewrite PAGING_PAGES_eq in Hi. change MEM_BASE with 0x40000000.
  change KERNEL_VA_START with 0xffff000000000000. word_lia.
Qed.

Lemma __pa_page i : pfn_ok i -> __pa (page_va i) = pfn_to_pa i.
Proof.
  intros Hi. rewrite pfn_to_pa_eq by done. unfold pfn_ok, __pa, page_va in *.
  rewrite PAGING_PAGES_eq in Hi. change MEM_BASE with 0x40000000.
  change KERNEL_VA_START with 0xffff000000000000. word_lia.
Qed.

Lemma pa_to_pfn_pa i : pfn_ok i -> pa_to_pfn (pfn_to_pa i) = i.
Proof.
  intros Hi. rewrite pfn_to_pa_eq by done. unfold pfn_ok, pa_to_pfn in *.
  rewrite PAGING_PAGES_eq in Hi. rewrite shiftr_div by done.
  change (2 ^ PAGE_SHIFT) with 4096. change LOW_MEM with 0x40180000. word_lia.
Qed.

Lemma pfn_of_page_va i : pfn_ok i -> pa_to_pfn (__pa (page_va i)) = i.
Proof. intros. by rewrite __pa_page, pa_to_pfn_pa. Qed.

(** Any address inside a page gives back the page. *)
Lemma pfn_of_addr i k : pfn_ok i -> 0 <= k < 4096 -> pa_to_pfn (__pa (page_va i + k)) = i.
Proof.
  intros Hi Hk. unfold pfn_ok, pa_to_pfn, __pa, page_va in *. rewrite PAGING_PAGES_eq in Hi.
  rewrite shiftr_div by done. change (2 ^ PAGE_SHIFT) with 4096.
  change LOW_MEM with 0x40180000. change MEM_BASE with 0x40000000.
  change KERNEL_VA_START with 0xffff000000000000. word_lia.
Qed.

Lemma page_va_inj i j : page_va i = page_va j -> i = j.
Proof. unfold page_va. lia. Qed.

Lemma page_va_pos i : pfn_ok i -> 0 < page_va i < 0xffff000001080000.
Proof. unfold pfn_ok, page_va. rewrite PAGING_PAGES_eq. lia. Qed.

Lemma page_va_aligned i : page_va i mod 4096 = 0.
Proof. unfold page_va. Z.div_mod_to_equations. lia. Qed.
End Addresses.

(** ** Facts about the allocator *)

(** The use count of page [i]. *)
Definition count_of (mm : list page) (i : Z) : option Z := p_count <$> arr_get mm i.

Definition map_ok (mm : list page) : Prop := Z.of_nat (length mm) = PAGING_PAGES.

Section Allocator.
Implicit Types (mm : list page) (i : Z).

Lemma count_of_Some mm i : map_ok mm -> pfn_ok i -> exists c, count_of mm i = Some c.
Proof.
  unfold map_ok, pfn_ok, count_of. intros Hl Hi.
  destruct (arr_get_Some mm i) as [p ->]; [lia|]. eauto.
Qed.

Lemma alloc_scan_spec k mm :
  (k <= length mm)%nat ->
  match alloc_scan k mm with
  | Some i => 0 <= i < Z.of_nat k /\ count_of mm i = Some 0 /\
              forall j, i < j < Z.of_nat k -> count_of mm j <> Some 0
  | None => forall j, 0 <= j < Z.of_nat k -> count_of mm j <> Some 0
  end.
Proof.
  induction k as [|k IH]; intros Hk; cbn [alloc_scan]; [intros; lia|].
  destruct (lookup_lt_is_Some_2 mm k) as [p Hp]; [lia|]. rewrite Hp.
  assert (Hc : count_of mm (Z.of_nat k) = Some (p_count p)).
  { unfold count_of. by rewrite arr_get_nat, Hp. }
  specialize (IH ltac:(lia)). zcase.
  - split_and!; [lia|lia|congruence|intros; lia].
  - destruct (alloc_scan k mm) as [i|].
    + destruct IH as ((?&?)&?&Hj). split_and!; [lia|lia|done|].
      intros j Hj'. destruct (decide (j = Z.of_nat k)) as [->|]; [congruence|apply Hj; lia].
    + intros j Hj. destruct (decide (j = Z.of_nat k)) as [->|]; [congruence|apply IH; lia].
Qed.

Lemma count_of_alter mm i j :
  pfn_ok i -> map_ok mm ->
  count_of (alter (fun p => with_count p 1) (Z.to_nat i) mm) j =
  if j =? i then Some 1 else count_of mm j.
Proof.
  intros Hi Hm. unfold count_of, arr_get, pfn_ok, map_ok in *. zcase; zcase; try lia; try done; [|].
  - subst. rewrite list_lookup_alter, decide_True by done.
    destruct (lookup_lt_is_Some_2 mm (Z.to_nat i)) as [p ->]; [lia|]. done.
  - by rewrite list_lookup_alter_ne by lia.
Qed.

(** [alloc_page] as a whole: the highest free page, or no free page. *)
Lemma alloc_page_spec mm :
  map_ok mm ->
  match alloc_page mm with
  | (Some i, mm') =>
      pfn_ok i /\ count_of mm i = Some 0 /\ map_ok mm' /\
      (forall j, i < j < PAGING_PAGES -> count_of mm j <> Some 0) /\
      (forall j, count_of mm' j = if j =? i then Some 1 else count_of mm j) /\
      mm' = alter (fun p => with_count p 1) (Z.to_nat i) mm
  | (None, mm') => mm' = mm /\ forall j, pfn_ok j -> count_of mm j <> Some 0
  end.
Proof.
  intros Hm. unfold alloc_page.
  pose proof (alloc_scan_spec (Z.to_nat PAGING_PAGES) mm) as H.
  unfold map_ok in Hm. rewrite PAGING_PAGES_eq in *.
  specialize (H ltac:(lia)). destruct (alloc_scan _ _) as [i|].
  - destruct H as (Hi & Hc & Hj).
    assert (pfn_ok i) by (unfold pfn_ok; rewrite PAGING_PAGES_eq; lia).
    split_and!; [done|done| | | |done].
    + unfold map_ok. by rewrite length_alter, PAGING_PAGES_eq.
    + intros j ?. apply Hj. lia.
    + intros j. apply count_of_alter; [done|]. unfold map_ok. by rewrite PAGING_PAGES_eq.
  - split; [done|]. intros j [? ?]. apply H. rewrite PAGING_PAGES_eq in *. lia.
Qed.

Lemma free_page_spec mm i c :
  map_ok mm -> pfn_ok i -> count_of mm i = Some c ->
  exists mm', free_page (page_va i) mm = Some mm' /\ map_ok mm' /\
    forall j, count_of mm' j = if j =? i then Some (s32 (c - 1)) else count_of mm j.
Proof.
  intros Hm Hi Hc. unfold free_page, __free_page. rewrite pfn_of_page_va by done.
  unfold count_of in Hc. destruct (arr_get mm i) as [p|] eqn:Hp; [|done]. cbn in Hc.
  apply arr_get_range in Hp as Hr. cbn [mbind option_bind].
  rewrite arr_set_Some by done. eexists. split_and!; [done| |].
  - unfold map_ok. by rewrite length_insert.
  - intros j. unfold count_of. rewrite arr_get_insert by done.
    zcase; [|done]. cbn. unfold atomic_add. cbn. injection Hc as ->. f_equal.
Qed.

Lemma set_page_flags_spec mm i k f :
  map_ok mm -> pfn_ok i -> 0 <= k < 4096 ->
  exists mm', set_page_flags (page_va i + k) f mm = Some mm' /\ map_ok mm' /\
    forall j, count_of mm' j = count_of mm j.
Proof.
  intros Hm Hi Hk. unfold set_page_flags. rewrite pfn_of_addr by done.
  destruct (arr_get_Some mm i) as [p Hp]; [unfold map_ok, pfn_ok in *; lia|].
  rewrite Hp. cbn [mbind option_bind]. apply arr_get_range in Hp as Hr.
  rewrite arr_set_Some by done. eexists. split_and!; [done| |].
  - unfold map_ok. by rewrite length_insert.
  - intros j. unfold count_of. rewrite arr_get_insert by done.
    zcase; [|done]. subst j. by rewrite Hp.
Qed.

(** [get_free_page] as a whole. *)
Lemma get_free_page_spec s :
  map_ok (mem_map s) ->
  (exists i, pfn_ok i /\ count_of (mem_map s) i = Some 0) ->
  exists i s', get_free_page s = Some (page_va i, s') /\ pfn_ok i /\
    count_of (mem_map s) i = Some 0 /\ map_ok (mem_map s') /\
    (forall j, i < j < PAGING_PAGES -> count_of (mem_map s) j <> Some 0) /\
    (forall j, count_of (mem_map s') j = if j =? i then Some 1 else count_of (mem_map s) j) /\
    (forall b, ldb (ram s') b =
       if (page_va i <=? b) && (b <? page_va i + 4096) then 0 else ldb (ram s) b).
Proof.
  intros Hm (i0 & Hi0 & Hc0). unfold get_free_page.
  pose proof (alloc_page_spec (mem_map s) Hm) as H.
  destruct (alloc_page (mem_map s)) as [[i|] mm].
  - destruct H as (Hi & Hc & Hm' & Hj & Hcnt & _). exists i. eexists.
    rewrite __va_pfn by done. split_and!; [done|done|done|done|done|done|].
    intros b. cbn. rewrite memset_ldb; [done| |done].
    pose proof (page_va_pos i Hi). unfold NULL. lia.
  - destruct H as [_ H]. by destruct (H i0).
Qed.

(** At least [n] pages are free. *)
Definition free_ge mm (n : nat) : Prop :=
  exists ks : list Z, NoDup ks /\ (n <= length ks)%nat /\
    Forall (fun k => pfn_ok k /\ count_of mm k = Some 0) ks.

Lemma free_ge_one mm n : free_ge mm (S n) -> exists i, pfn_ok i /\ count_of mm i = Some 0.
Proof.
  intros (ks & _ & Hl & Hf). destruct ks as [|k ks]; cbn in Hl; [lia|].
  apply Forall_cons in Hf as [Hk _]. eauto.
Qed.

Lemma free_ge_mono mm n k : (k <= n)%nat -> free_ge mm n -> free_ge mm k.
Proof. intros Hk (ks & ? & ? & ?). exists ks. split_and!; [done|lia|done]. Qed.

Lemma free_ge_ext mm mm' n : free_ge mm n -> (forall j, count_of mm' j = count_of mm j) -> free_ge mm' n.
Proof.
  intros (ks & ? & ? & Hf) Hc. exists ks. split_and!; [done..|].
  eapply Forall_impl; [exact Hf|]. intros k. by rewrite Hc.
Qed.

Lemma length_filter_ne (ks : list Z) i :
  NoDup ks -> (length ks <= S (length (filter (fun k => k <> i) ks)))%nat.
Proof.
  induction ks as [|k ks IH]; intros Hnd; [cbn; lia|].
  apply NoDup_cons in Hnd as [Hk Hnd]. destruct (decide (k = i)) as [->|Hne].
  - rewrite filter_cons_False by naive_solver. cbn.
    assert (filter (fun k => k <> i) ks = ks) as ->; [|lia].
    clear -Hk. induction ks as [|k ks IH]; [done|].
    rewrite filter_cons_True by set_solver. rewrite IH; set_solver.
  - rewrite filter_cons_True by done. cbn. specialize (IH Hnd). lia.
Qed.

Lemma free_ge_alloc mm mm' n i c :
  free_ge mm (S n) -> (forall j, count_of mm' j = if j =? i then c else count_of mm j) ->
  free_ge mm' n.
Proof.
  intros (ks & Hnd & Hl & Hf) Hc. exists (filter (fun k => k <> i) ks). split_and!.
  - by apply NoDup_filter.
  - pose proof (length_filter_ne ks i Hnd). lia.
  - apply Forall_forall. intros k [Hki Hk]%list_elem_of_filter.
    rewrite Forall_forall in Hf. destruct (Hf k Hk). rewrite Hc. by zcase.
Qed.
End Allocator.

(** ** Properties *)

(** The conversions between page numbers, physical and kernel addresses are
    inverse to each other on every managed page; pages lie above the first
    megabyte of the image, are 4096-aligned, and two different pages share no
    byte. *)
Theorem page_address_roundtrip (i j k : Z) :
  pfn_ok i -> pfn_ok j -> 0 <= k < PAGE_SIZE ->
  pa_to_pfn (pfn_to_pa i) = i /\ __pa (__va (pfn_to_pa i)) = pfn_to_pa i /\
  pa_to_pfn (__pa (__va (pfn_to_pa i) + k)) = i /\
  __va (pfn_to_pa i) mod PAGE_SIZE = 0 /\ LOW_MEM <= pfn_to_pa i /\
  (i <> j -> __va (pfn_to_pa i) + PAGE_SIZE <= __va (pfn_to_pa j) \/
             __va (pfn_to_pa j) + PAGE_SIZE <= __va (pfn_to_pa i)).
Proof.
  rewrite PAGE_SIZE_eq. intros Hi Hj Hk. rewrite !__va_pfn, __pa_page, pfn_of_addr by done.
  split_and!; [by apply pa_to_pfn_pa|done|done|apply page_va_aligned| |unfold page_va; lia].
  rewrite pfn_to_pa_eq by done. change LOW_MEM with 0x40180000. unfold pfn_ok in Hi. lia.
Qed.

(** C31: [get_free_page] returns the free page of highest address, marks it used,
    clears its 4096 bytes, and changes no other use count and no other byte. *)
Theorem get_free_page_correct (s : phys) :
  map_ok (mem_map s) -> (exists i, pfn_ok i /\ count_of (mem_map s) i = Some 0) ->
  exists i a s', get_free_page s = Some (a, s') /\ pfn_ok i /\ a = __va (pfn_to_pa i) /\
    count_of (mem_map s) i = Some 0 /\ count_of (mem_map s') i = Some 1 /\
    (forall j, i < j < PAGING_PAGES -> count_of (mem_map s) j <> Some 0) /\
    (forall j, j <> i -> count_of (mem_map s') j = count_of (mem_map s) j) /\
    (forall b, a <= b < a + PAGE_SIZE -> ldb (ram s') b = 0) /\
    (forall b, b < a \/ a + PAGE_SIZE <= b -> ldb (ram s') b = ldb (ram s) b).
Proof.
  intros Hm Hex. destruct (get_free_page_spec s Hm Hex) as (i & s' & E & Hi & Hc & _ & Hj & Hcnt & Hram).
  exists i, (page_va i), s'. rewrite PAGE_SIZE_eq, __va_pfn by done.
  split_and!; [done..| |done| | |].
  - by rewrite Hcnt, Z.eqb_refl.
  - intros j Hji. rewrite Hcnt. by zcase.
  - intros b Hb. rewrite Hram. by zcases.
  - intros b Hb. rewrite Hram. by zcases.
Qed.

(** The allocator fails exactly when every page is in use, and it then leaves
    the descriptors alone. *)
Theorem alloc_page_fails_iff (mm : list page) :
  map_ok mm ->
  (alloc_page mm).1 = None <-> forall i, pfn_ok i -> count_of mm i <> Some 0.
Proof.
  intros Hm. pose proof (alloc_page_spec mm Hm) as H. destruct (alloc_page mm) as [[i|] mm']; cbn.
  - split; [done|]. intros Hall. destruct H as (Hi & Hc & _). by destruct (Hall i Hi).
  - split; [|done]. intros _. apply H.
Qed.

(** Freeing what [get_free_page] returned restores every use count, and
    freeing it a second time leaves the count at [-1], so that no later
    allocation can return that page. *)
Theorem free_page_roundtrip (s : phys) :
  map_ok (mem_map s) -> (exists i, pfn_ok i /\ count_of (mem_map s) i = Some 0) ->
  exists i a s' mm1 mm2, get_free_page s = Some (a, s') /\ a = page_va i /\
    free_page a (mem_map s') = Some mm1 /\
    (forall j, count_of mm1 j = count_of (mem_map s) j) /\
    free_page a mm1 = Some mm2 /\ count_of mm2 i = Some (-1) /\
    (alloc_page mm2).1 <> Some i.
Proof.
  intros Hm Hex. destruct (get_free_page_spec s Hm Hex) as (i & s' & E & Hi & Hc & Hm' & _ & Hcnt & _).
  destruct (free_page_spec (mem_map s') i 1 Hm' Hi) as (mm1 & E1 & Hm1 & Hc1).
  { by rewrite Hcnt, Z.eqb_refl. }
  assert (Hback : forall j, count_of mm1 j = count_of (mem_map s) j).
  { intros j. rewrite Hc1, Hcnt. zcase; [by subst|done]. }
  destruct (free_page_spec mm1 i 0 Hm1 Hi) as (mm2 & E2 & Hm2 & Hc2).
  { by rewrite Hback. }
  exists i, (page_va i), s', mm1, mm2. split_and!; [done..| |].
  - by rewrite Hc2, Z.eqb_refl.
  - pose proof (alloc_page_spec mm2 Hm2) as H. destruct (alloc_page mm2) as [[k|] ?]; [|done].
    intros [= ->]. destruct H as (_ & H & _). rewrite Hc2, Z.eqb_refl in H. done.
Qed.

(** ** Witnesses *)

Lemma mem_map_init_ok : map_ok mem_map_init.
Proof. reflexivity. Qed.

Definition phys_init : phys := {| ram := ∅; mem_map := mem_map_init |}.

Lemma phys_init_free : exists i, pfn_ok i /\ count_of (mem_map phys_init) i = Some 0.
Proof. exists 3839. split; [done|reflexivity]. Qed.

Example page_address_roundtrip_witness :
  pa_to_pfn (__pa (__va (pfn_to_pa 5) + 17)) = 5 /\
  __va (pfn_to_pa 5) + PAGE_SIZE <= __va (pfn_to_pa 6).
Proof.
  destruct (page_address_roundtrip 5 6 17) as (_ & _ & H & _ & _ & Hd); [done..|].
  split; [exact H|]. destruct (Hd ltac:(done)) as [H1|H1]; [exact H1|]. exfalso. by vm_compute in H1.
Defined.

Example get_free_page_correct_witness :
  exists a s', get_free_page phys_init = Some (a, s') /\ a = __va (pfn_to_pa 3839).
Proof.
  destruct (get_free_page_correct phys_init mem_map_init_ok phys_init_free)
    as (i & a & s' & E & Hi & Ha & _ & _ & Hmax & _).
  exists a, s'. split; [exact E|]. rewrite Ha. f_equal. f_equal.
  destruct (decide (i = 3839)) as [|Hne]; [done|]. destruct (Hmax 3839); [|reflexivity].
  unfold pfn_ok in Hi. rewrite PAGING_PAGES_eq in *. lia.
Defined.

Example alloc_page_fails_iff_witness : (alloc_page mem_map_init).1 <> None.
Proof.
  intros H. apply (proj1 (alloc_page_fails_iff mem_map_init mem_map_init_ok) H 0); [done|reflexivity].
Defined.

Example free_page_roundtrip_witness :
  exists a s' mm1, get_free_page phys_init = Some (a, s') /\
    free_page a (mem_map s') = Some mm1 /\ count_of mm1 3839 = Some 0.
Proof.
  destruct (free_page_roundtrip phys_init mem_map_init_ok phys_init_free)
    as (i & a & s' & mm1 & mm2 & E & _ & E1 & Hc & _).
  exists a, s', mm1. split_and!; [exact E|exact E1|]. rewrite Hc. reflexivity.
Defined.
