(* ===== verification/PageTable.v ===== *)
(** mm/mm.c and include/mmu.h: the kernel and user page tables built by
    [map_kernel_section(s)] and [alloc_user_page(s)].

    Tables live in the RAM of [Page.phys]; an entry is a 64-bit word of it.
    [walk] is the translation the tables describe: it follows non-zero entries
    from a table by a list of indices. *)

From S2P Require Import Prelude Mem Lib Page.
Local Open Scope Z_scope.

(** ** Constants *)

Definition TABLE_SHIFT : Z := 9.
Definition SECTION_SHIFT : Z := PAGE_SHIFT + TABLE_SHIFT.
Definition SECTION_SIZE : Z := Z.shiftl 1 SECTION_SHIFT.
Definition PGD_SHIFT : Z := 39.
Definition PUD_SHIFT : Z := 30.
Definition PMD_SHIFT : Z := 21.
Definition PTE_SHIFT : Z := 12.
Definition TABLE_MASK : Z := Z.shiftl 1 TABLE_SHIFT - 1.
Definition SECTION_MASK : Z := Z.shiftl 1 SECTION_SHIFT - 1.
Definition ENTRY_SHIFT : Z := 3.
Definition MAX_USER_PAGES : Z := 16.
Definition MAX_PGTBL_PAGES : Z := 8.
Definition USER_START : Z := 0.
Definition USER_MAX : Z := Z.shiftl 1 30.

Definition MM_TYPE_PAGE_TABLE : Z := 3.
Definition MM_TYPE_PAGE : Z := 3.
Definition MM_TYPE_BLOCK : Z := 1.
Definition MM_ACCESS : Z := Z.shiftl 1 10.
Definition MM_ACCESS_PERMISSION : Z := Z.shiftl 1 6.
Definition MT_DEVICE_nGnRnE : Z := 0.
Definition MT_NORMAL_NC : Z := 1.
Definition MMU_FLAGS : Z := Z.lor (Z.lor MM_ACCESS (Z.shiftl MT_NORMAL_NC 2)) MM_TYPE_BLOCK.
Definition MMU_DEVICE_FLAGS : Z := Z.lor (Z.lor MM_ACCESS (Z.shiftl MT_DEVICE_nGnRnE 2)) MM_TYPE_BLOCK.
Definition MMU_PTE_FLAGS : Z :=
  Z.lor (Z.lor (Z.lor MM_ACCESS MM_ACCESS_PERMISSION) (Z.shiftl MT_NORMAL_NC 2)) MM_TYPE_PAGE.

(** [ENTRY_GET_ADDR(m)]: an entry without its attribute bits. *)
Definition ENTRY_GET_ADDR (m : Z) : Z := Z.land m (Z.lnot PAGE_MASK).

Definition pgd_index (addr : Z) : Z := Z.land (Z.shiftr addr PGD_SHIFT) TABLE_MASK.
Definition pud_index (addr : Z) : Z := Z.land (Z.shiftr addr PUD_SHIFT) TABLE_MASK.
Definition pmd_index (addr : Z) : Z := Z.land (Z.shiftr addr PMD_SHIFT) TABLE_MASK.
Definition pte_index (addr : Z) : Z := Z.land (Z.shiftr addr PTE_SHIFT) TABLE_MASK.

(** [__va(table) + (index << ENTRY_SHIFT)]: the address of an entry. *)
Definition entry_addr (table index : Z) : Z := u64 (__va table + Z.shiftl index ENTRY_SHIFT).

(** [*entry = v]. *)
Definition set_entry (s : phys) (entry v : Z) : phys :=
  {| ram := st64 (ram s) entry v; mem_map := mem_map s |}.

(** When the entry is zero, allocate a page and store its physical address with
    [flags] in the entry: the new page's address if one was allocated. *)
Definition fill_entry (s : phys) (entry flags : Z) : option (option Z * phys) :=
  if ld64 (ram s) entry =? 0 then
    let! '(va, s) := get_free_page s in
    Some (Some va, set_entry s entry (Z.lor (__pa va) flags))
  else Some (None, s).

(** ** The kernel's tables *)

(** [pgd] is the kernel address of [pg_tbl_start], placed by the linker. *)
Definition map_kernel_section (pgd : Z) (s : phys) (pa addr flags : Z) : option phys :=
  if negb (flags =? MMU_FLAGS) && negb (flags =? MMU_DEVICE_FLAGS) then Some s
  else
    let pgd_entry := u64 (pgd + Z.shiftl (pgd_index addr) ENTRY_SHIFT) in
    let! '(_, s) := fill_entry s pgd_entry MM_TYPE_PAGE_TABLE in
    let pud_entry := entry_addr (ENTRY_GET_ADDR (ld64 (ram s) pgd_entry)) (pud_index addr) in
    let! '(_, s) := fill_entry s pud_entry MM_TYPE_PAGE_TABLE in
    let pmd_entry := entry_addr (ENTRY_GET_ADDR (ld64 (ram s) pud_entry)) (pmd_index addr) in
    if ld64 (ram s) pmd_entry =? 0
    then Some (set_entry s pmd_entry (Z.lor (Z.land pa (Z.lnot SECTION_MASK)) flags))
    else Some s.

(** Round a size up to a number of units of [2^shift] bytes. *)
Definition units (size shift : Z) : Z :=
  if negb (Z.land size (Z.shiftl 1 shift - 1) =? 0) then Z.shiftr size shift + 1 else Z.shiftr size shift.

(** The counter is an [int]: past [2^31] rounds it overflows. *)
Definition map_kernel_sections (pgd : Z) (s : phys) (pa addr size flags : Z) : option phys :=
  let sz := units size SECTION_SHIFT in
  assert! sz <? 2 ^ 31 in
  for_up (Z.to_nat sz) 0
    (fun i s => map_kernel_section pgd s (u64 (pa + s32 (Z.shiftl i SECTION_SHIFT)))
                  (u64 (addr + s32 (Z.shiftl i SECTION_SHIFT))) flags) s.

(** ** A process's tables *)

Record vm_area_struct := { va : Z; pa : Z }.
Record mm_struct := { pgd : Z; vma : list vm_area_struct; pgtbl_page : list Z }.

Definition with_vma (mm : mm_struct) (l : list vm_area_struct) : mm_struct :=
  {| pgd := pgd mm; vma := l; pgtbl_page := pgtbl_page mm |}.
Definition with_pgtbl (mm : mm_struct) (l : list Z) : mm_struct :=
  {| pgd := pgd mm; vma := vma mm; pgtbl_page := l |}.

(** [mm->pgtbl_page[idx++] = va] when a table page was allocated. *)
Definition record_table (mm : mm_struct) (idx : Z) (r : option Z) : option (mm_struct * Z) :=
  match r with
  | Some va => let! l := arr_set (pgtbl_page mm) idx va in Some (with_pgtbl mm l, idx + 1)
  | None => Some (mm, idx)
  end.

(** One level of [alloc_user_page]: fill the entry, record the new table. *)
Definition user_level (s : phys) (mm : mm_struct) (idx entry : Z) : option (phys * mm_struct * Z) :=
  let! '(r, s) := fill_entry s entry MM_TYPE_PAGE_TABLE in
  let! '(mm, idx) := record_table mm idx r in
  Some (s, mm, idx).

(** Whether slot [i] of an array satisfies a test; [false] stops no scan. *)
Definition slot_is {A} (l : list A) (p : A -> bool) (i : Z) : bool :=
  match arr_get l i with Some x => p x | None => false end.

(** The closing loop: record the page in the first free slot, if any. *)
Definition record_vma (mm : mm_struct) (addr page : Z) : option mm_struct :=
  let i := find_up (Z.to_nat MAX_USER_PAGES) 0 (slot_is (vma mm) (fun v => pa v =? 0)) in
  if i <? MAX_USER_PAGES
  then let! l := arr_set (vma mm) i {| va := addr; pa := page |} in Some (with_vma mm l)
  else Some mm.

Definition alloc_user_page (s : phys) (mm : mm_struct) (addr : Z) : option (phys * mm_struct) :=
  let idx := find_up (Z.to_nat MAX_PGTBL_PAGES) 0 (slot_is (pgtbl_page mm) (fun p => p =? NULL)) in
  let pgd_entry := entry_addr (pgd mm) (pgd_index addr) in
  let! '(s, mm, idx) := user_level s mm idx pgd_entry in
  let pud_entry := entry_addr (ENTRY_GET_ADDR (ld64 (ram s) pgd_entry)) (pud_index addr) in
  let! '(s, mm, idx) := user_level s mm idx pud_entry in
  let pmd_entry := entry_addr (ENTRY_GET_ADDR (ld64 (ram s) pud_entry)) (pmd_index addr) in
  let! '(s, mm, idx) := user_level s mm idx pmd_entry in
  let pte_entry := entry_addr (ENTRY_GET_ADDR (ld64 (ram s) pmd_entry)) (pte_index addr) in
  let! '(_, s) := fill_entry s pte_entry MMU_PTE_FLAGS in
  let! mm := record_vma mm addr (ENTRY_GET_ADDR (ld64 (ram s) pte_entry)) in
  Some (s, mm).

Definition alloc_user_pages (s : phys) (mm : mm_struct) (start size : Z) : option (phys * mm_struct) :=
  let sz := units size PAGE_SHIFT in
  assert! sz <? 2 ^ 31 in
  for_up (Z.to_nat sz) 0
    (fun i '(s, mm) => alloc_user_page s mm (u64 (start + s32 (Z.shiftl i PAGE_SHIFT)))) (s, mm).

(** ** The translation the tables describe *)

Fixpoint walk (m : mem) (t : Z) (idxs : list Z) : option Z :=
  match idxs with
  | [] => Some t
  | i :: rest =>
      let e := ld64 m (entry_addr t i) in
      if e =? 0 then None else walk m (ENTRY_GET_ADDR e) rest
  end.

(** Pages to allocate for the last entry of a path: one if it is absent. *)
Definition missing (m : mem) (root : Z) (p : list Z) : nat :=
  match walk m root p with Some _ => 0 | None => 1 end.

Definition path (addr : Z) : list Z := [pgd_index addr; pud_index addr; pmd_index addr; pte_index addr].

(** The physical page a process's address is mapped to. *)
Definition translate (m : mem) (t addr : Z) : option Z := walk m t (path addr).

Definition idx_ok (i : Z) : Prop := 0 <= i < 512.

(** A page the tables may use: page-aligned, in DRAM, and not free. *)
Definition tbl_ok (mm : list page) (t : Z) : Prop :=
  t mod 4096 = 0 /\ MEM_BASE <= t < 0x80000000 /\
  forall i, pfn_ok i -> t = pfn_to_pa i -> exists c, count_of mm i = Some c /\ c <> 0.

(** The pages reached in at most [n] steps are usable and form a tree. *)
Record pt_wf (n : nat) (s : phys) (t : Z) : Prop := {
  wf_map : map_ok (mem_map s);
  wf_ok : forall p x, (length p <= n)%nat -> Forall idx_ok p ->
            walk (ram s) t p = Some x -> tbl_ok (mem_map s) x;
  wf_tree : forall p q x, (length p <= n)%nat -> (length q <= n)%nat ->
              Forall idx_ok p -> Forall idx_ok q ->
              walk (ram s) t p = Some x -> walk (ram s) t q = Some x -> p = q }.

(** ** Entries *)

Section Entries.
Implicit Types (t i f k : Z) (mm : list page).

Lemma entry_get_addr_lor k f :
  pfn_ok k -> 0 <= f < 4096 -> ENTRY_GET_ADDR (Z.lor (__pa (page_va k)) f) = pfn_to_pa k.
Proof.
  intros Hk Hf. rewrite __pa_page by done. rewrite pfn_to_pa_eq by done.
  assert (Ha : (0x40180000 + 4096 * k) mod 2 ^ 12 = 0) by (change (2 ^ 12) with 4096; word_lia).
  rewrite (lor_add_low _ _ 12) by done. unfold ENTRY_GET_ADDR.
  change PAGE_MASK with (2 ^ 12 - 1). rewrite land_lnot_mask by done.
  change (2 ^ 12) with 4096 in *. word_lia.
Qed.

Lemma entry_lor_range k f :
  pfn_ok k -> 0 < f < 4096 -> 0 < Z.lor (__pa (page_va k)) f < 0x80000000.
Proof.
  intros Hk Hf. rewrite __pa_page by done. rewrite pfn_to_pa_eq by done.
  assert (Ha : (0x40180000 + 4096 * k) mod 2 ^ 12 = 0) by (change (2 ^ 12) with 4096; word_lia).
  rewrite (lor_add_low _ _ 12) by (done || lia). unfold pfn_ok in Hk. rewrite PAGING_PAGES_eq in Hk. lia.
Qed.

Lemma entry_addr_eq t i :
  MEM_BASE <= t < 0x80000000 -> idx_ok i -> entry_addr t i = KERNEL_VA_START + (t - MEM_BASE) + 8 * i.
Proof.
  unfold idx_ok, entry_addr, __va. change MEM_BASE with 0x40000000.
  change KERNEL_VA_START with 0xffff000000000000. rewrite shiftl_mul by done.
  change (2 ^ ENTRY_SHIFT) with 8. intros. word_lia.
Qed.

(** The kernel address of a page of DRAM, and the entries in it. *)
Lemma __va_dram x : MEM_BASE <= x < 0x80000000 -> __va x = KERNEL_VA_START + (x - MEM_BASE).
Proof.
  unfold __va. change MEM_BASE with 0x40000000. change KERNEL_VA_START with 0xffff000000000000. intros. word_lia.
Qed.

Lemma entry_in_table t i : MEM_BASE <= t < 0x80000000 -> idx_ok i -> __va t <= entry_addr t i <= __va t + 4088.
Proof. intros Ht Hi. rewrite entry_addr_eq, __va_dram by done. unfold idx_ok in Hi. lia. Qed.

(** Two different entries share no byte. *)
Lemma entry_sep mm t i t' i' :
  tbl_ok mm t -> tbl_ok mm t' -> idx_ok i -> idx_ok i' -> t <> t' \/ i <> i' ->
  entry_addr t i + 8 <= entry_addr t' i' \/ entry_addr t' i' + 8 <= entry_addr t i.
Proof.
  intros (Ha & Hr & _) (Ha' & Hr' & _) Hi Hi' Hne. rewrite !entry_addr_eq by done.
  unfold idx_ok in *. Z.div_mod_to_equations. lia.
Qed.

(** The entries of a usable table lie outside every free page. *)
Lemma entry_not_free mm t i k :
  tbl_ok mm t -> idx_ok i -> pfn_ok k -> count_of mm k = Some 0 ->
  entry_addr t i + 8 <= page_va k \/ page_va k + 4096 <= entry_addr t i.
Proof.
  intros (Ha & Hr & Hc) Hi Hk H0. rewrite entry_addr_eq by done.
  assert (t <> pfn_to_pa k) as Hne by (intros E; destruct (Hc k Hk E) as (c & ? & ?); congruence).
  rewrite pfn_to_pa_eq in Hne by done. unfold page_va, idx_ok in *.
  change KERNEL_VA_START with 0xffff000000000000. change MEM_BASE with 0x40000000.
  Z.div_mod_to_equations. lia.
Qed.

Lemma entry_in_page k i :
  pfn_ok k -> idx_ok i -> page_va k <= entry_addr (pfn_to_pa k) i <= page_va k + 4088.
Proof.
  intros Hk Hi. rewrite entry_addr_eq; [|rewrite pfn_to_pa_eq by done|done];
    unfold pfn_ok, idx_ok, page_va in *; rewrite PAGING_PAGES_eq in Hk;
    change KERNEL_VA_START with 0xffff000000000000; change MEM_BASE with 0x40000000; [|lia].
  rewrite pfn_to_pa_eq by (unfold pfn_ok; rewrite PAGING_PAGES_eq; lia). lia.
Qed.

Lemma tbl_ok_page mm k c :
  pfn_ok k -> count_of mm k = Some c -> c <> 0 -> tbl_ok mm (pfn_to_pa k).
Proof.
  intros Hk Hc Hn. rewrite pfn_to_pa_eq by done. split_and!.
  - word_lia.
  - unfold pfn_ok in Hk. rewrite PAGING_PAGES_eq in Hk. change MEM_BASE with 0x40000000. lia.
  - unfold pfn_ok in Hk. rewrite PAGING_PAGES_eq in Hk. change MEM_BASE with 0x40000000. lia.
  - intros i Hi. rewrite pfn_to_pa_eq by done. intros ?. assert (i = k) as -> by lia. eauto.
Qed.

(** Usability survives when used pages stay used. *)
Lemma tbl_ok_counts mm mm' t :
  tbl_ok mm t -> (forall j c, count_of mm j = Some c -> c <> 0 -> count_of mm' j = Some c) -> tbl_ok mm' t.
Proof.
  intros (Ha & Hr & Hc) Hm. split_and!; [done|lia|lia|]. intros i Hi E. destruct (Hc i Hi E) as (c & Hc' & Hne). eauto.
Qed.

(** Pages of usable tables are equal or share no byte. *)
Lemma tbl_ok_sep mm mm' x y : tbl_ok mm x -> tbl_ok mm' y -> x <> y -> __va x + 4096 <= __va y \/ __va y + 4096 <= __va x.
Proof. intros (Ha & Hr & _) (Hb & Hs & _) Hne. rewrite !__va_dram by done. Z.div_mod_to_equations. lia. Qed.

Lemma tbl_ok_fresh mm x k :
  tbl_ok mm x -> pfn_ok k -> count_of mm k = Some 0 -> __va x + 4096 <= page_va k \/ page_va k + 4096 <= __va x.
Proof.
  intros Hx Hk H0. rewrite <- __va_pfn by done.
  assert (Hne : x <> pfn_to_pa k) by (intros ->; destruct Hx as (_ & _ & Hc); destruct (Hc k Hk eq_refl) as (c & ? & ?); congruence).
  destruct Hx as (Ha & Hr & _). pose proof Hk as Hk'. unfold pfn_ok in Hk'. rewrite PAGING_PAGES_eq in Hk'. rewrite pfn_to_pa_eq in * by done.
  rewrite !__va_dram by (done || (change MEM_BASE with 0x40000000; lia)). Z.div_mod_to_equations. lia.
Qed.

(** Usability survives an allocation. *)
Lemma tbl_ok_mono mm mm' k t :
  tbl_ok mm t -> (forall j, count_of mm' j = if j =? k then Some 1 else count_of mm j) -> tbl_ok mm' t.
Proof.
  intros (Ha & Hr & Hc) Hcnt. split_and!; [done|lia|lia|]. intros i Hi E. rewrite Hcnt.
  zcase; [by exists 1|]. by apply Hc.
Qed.
End Entries.

(** ** Walks *)

Section Walks.
Implicit Types (m : mem) (t x : Z) (p q : list Z) (mm : list page).

(** The tables read by walks of length [n + 1] are usable. *)
Definition walk_ok (n : nat) mm m t : Prop :=
  forall p x, (length p <= n)%nat -> Forall idx_ok p -> walk m t p = Some x -> tbl_ok mm x.

Lemma walk_ok_root n mm m t : walk_ok n mm m t -> tbl_ok mm t.
Proof. intros H. apply (H []); cbn; [lia|constructor|done]. Qed.

Lemma walk_ok_step n mm m t i :
  walk_ok (S n) mm m t -> idx_ok i -> ld64 m (entry_addr t i) <> 0 ->
  walk_ok n mm m (ENTRY_GET_ADDR (ld64 m (entry_addr t i))).
Proof.
  intros H Hi He p x Hl Hp Hw. apply (H (i :: p)); [cbn; lia|by constructor|].
  cbn. zcase; done.
Qed.

Lemma walk_app m t p q : walk m t (p ++ q) = let! x := walk m t p in walk m x q.
Proof.
  revert t. induction p as [|i p IH]; intros t; cbn; [done|]. zcase; [done|]. apply IH.
Qed.

(** Walks only read entries of the tables they pass. *)
Lemma walk_agree n m m' mm t p :
  walk_ok n mm m t -> (length p <= S n)%nat -> Forall idx_ok p ->
  (forall x i, tbl_ok mm x -> idx_ok i -> ld64 m' (entry_addr x i) = ld64 m (entry_addr x i)) ->
  walk m' t p = walk m t p.
Proof.
  revert n t. induction p as [|i p IH]; intros n t Hok Hl Hp Heq; cbn; [done|].
  apply Forall_cons in Hp as [Hi Hp]. rewrite Heq by eauto using walk_ok_root.
  zcase; [done|]. destruct n as [|n]; cbn in Hl.
  - destruct p; cbn in Hl; [done|lia].
  - eapply (IH n); [by apply walk_ok_step|lia|done|done].
Qed.

(** Filling the zero entry [i0] of [t0] with [v]: old walks stay. *)
Lemma walk_store_old n m mm t p x t0 i0 v :
  walk_ok n mm m t -> (length p <= S n)%nat -> Forall idx_ok p ->
  tbl_ok mm t0 -> idx_ok i0 -> ld64 m (entry_addr t0 i0) = 0 ->
  walk m t p = Some x -> walk (st64 m (entry_addr t0 i0) v) t p = Some x.
Proof.
  revert n t. induction p as [|i p IH]; intros n t Hok Hl Hp Ht0 Hi0 Hz; cbn; [done|].
  apply Forall_cons in Hp as [Hi Hp]. zcase; [done|]. intros Hw.
  assert (Hne : t <> t0 \/ i <> i0).
  { destruct (decide (t = t0)) as [->|]; [|by left]. right. intros ->. done. }
  rewrite (ld_st_ne 8 8) by (edestruct (entry_sep mm t i t0 i0); eauto using walk_ok_root; lia).
  zcase; [done|]. destruct n as [|n]; cbn in Hl.
  - destruct p; cbn in Hl; [done|lia].
  - apply (IH n); [by apply walk_ok_step|lia|done..].
Qed.

(** ... and a walk of the new memory is an old one or crosses the entry. *)
Lemma walk_store_new n m mm t p x t0 i0 v :
  walk_ok n mm m t -> (length p <= S n)%nat -> Forall idx_ok p ->
  tbl_ok mm t0 -> idx_ok i0 -> ld64 m (entry_addr t0 i0) = 0 -> 0 < v < 18446744073709551616 ->
  walk (st64 m (entry_addr t0 i0) v) t p = Some x ->
  walk m t p = Some x \/
  exists pre rest, p = pre ++ i0 :: rest /\ walk m t pre = Some t0 /\
    walk (st64 m (entry_addr t0 i0) v) (ENTRY_GET_ADDR v) rest = Some x.
Proof.
  revert n t. induction p as [|i p IH]; intros n t Hok Hl Hp Ht0 Hi0 Hz Hv; [by left|].
  apply Forall_cons in Hp as [Hi Hp]. cbn [walk].
  destruct (decide (t = t0 /\ i = i0)) as [[-> ->]|Hne].
  - rewrite ld64_st64_eq by lia. zcase; [lia|]. intros Hw. right. by exists [], p.
  - rewrite (ld_st_ne 8 8)
      by (edestruct (entry_sep mm t i t0 i0); eauto using walk_ok_root; [|lia..];
          destruct (decide (t = t0)); [right|left]; naive_solver).
    zcase; [done|]. intros Hw. destruct n as [|n]; cbn in Hl.
    + destruct p; cbn in Hl; [by left|lia].
    + destruct (IH n _ (walk_ok_step _ _ _ _ _ Hok Hi ltac:(done)) ltac:(lia) Hp Ht0 Hi0 Hz Hv Hw)
        as [Hold|(pre & rest & -> & Hpre & Hrest)]; [by left|].
      right. exists (i :: pre), rest. split_and!; [done| |done]. cbn. zcase; done.
Qed.

(** A cleared page leads nowhere. *)
Lemma walk_zero m k p x :
  pfn_ok k -> Forall idx_ok p -> (forall b, page_va k <= b < page_va k + 4096 -> ldb m b = 0) ->
  walk m (pfn_to_pa k) p = Some x -> p = [] /\ x = pfn_to_pa k.
Proof.
  intros Hk Hp Hz. destruct p as [|i p]; cbn; [by intros [= <-]|].
  apply Forall_cons in Hp as [Hi _]. rewrite (ld_zero 8); [done|].
  pose proof (entry_in_page k i Hk Hi). intros b Hb. apply Hz. lia.
Qed.
End Walks.

(** ** One step of table construction *)

(** From [s] to [s'] the tables below [root] keep every translation, gain only
    paths towards [tgt] ending in pages that were free, and no used page but a
    table of [root] changes. *)
Record pt_step (N : nat) (s s' : phys) (root : Z) (tgt : list Z) : Prop := {
  step_old : forall p x, (length p <= N)%nat -> Forall idx_ok p ->
    walk (ram s) root p = Some x -> walk (ram s') root p = Some x;
  step_new : forall p x, (length p <= N)%nat -> Forall idx_ok p ->
    walk (ram s') root p = Some x ->
    walk (ram s) root p = Some x \/
    (p `prefix_of` tgt /\ exists k, pfn_ok k /\ x = pfn_to_pa k /\ count_of (mem_map s) k = Some 0);
  step_count : forall j c, count_of (mem_map s) j = Some c -> c <> 0 -> count_of (mem_map s') j = Some c;
  step_data : forall x, tbl_ok (mem_map s) x ->
    (forall p, (length p < N)%nat -> Forall idx_ok p -> walk (ram s) root p <> Some x) ->
    forall b, __va x <= b < __va x + 4096 -> ldb (ram s') b = ldb (ram s) b }.

Section Steps.
Implicit Types (N : nat) (s : phys) (root t x k : Z) (p q tgt : list Z).

Lemma step_page N s s' root tgt : pt_step N s s' root tgt ->
  forall k c, pfn_ok k -> count_of (mem_map s) k = Some c -> c <> 0 ->
    (forall p, (length p < N)%nat -> Forall idx_ok p -> walk (ram s) root p <> Some (pfn_to_pa k)) ->
    forall b, page_va k <= b < page_va k + 4096 -> ldb (ram s') b = ldb (ram s) b.
Proof.
  intros [_ _ _ Hd] k c Hk Hc Hne Hnt b Hb. apply (Hd (pfn_to_pa k)); [by eapply tbl_ok_page|done|]. by rewrite __va_pfn.
Qed.

Lemma pt_step_refl N s root tgt : pt_step N s s root tgt.
Proof. split; auto. Qed.

Lemma pt_step_weaken N s s' root tgt tgt' :
  tgt `prefix_of` tgt' -> pt_step N s s' root tgt -> pt_step N s s' root tgt'.
Proof.
  intros Hp [Ho Hn Hc Hd]. split; [done| |done|done].
  intros p x Hl Hi Hw. destruct (Hn p x Hl Hi Hw) as [|[Hpre ?]]; [by left|right].
  split; [by etrans|done].
Qed.

Lemma pt_step_trans N s1 s2 s3 root tgt :
  map_ok (mem_map s1) -> pt_step N s1 s2 root tgt -> pt_step N s2 s3 root tgt -> pt_step N s1 s3 root tgt.
Proof.
  intros Hm [Ho1 Hn1 Hc1 Hd1] [Ho2 Hn2 Hc2 Hd2].
  assert (Hback : forall k, pfn_ok k -> count_of (mem_map s2) k = Some 0 -> count_of (mem_map s1) k = Some 0).
  { intros k Hk H0. destruct (count_of_Some (mem_map s1) k Hm Hk) as [c Hc].
    destruct (decide (c = 0)) as [->|Hne]; [done|]. specialize (Hc1 k c Hc Hne). congruence. }
  split.
  - eauto.
  - intros p x Hl Hi Hw. destruct (Hn2 p x Hl Hi Hw) as [Hw1|(? & k & ? & ? & ?)]; [by apply Hn1|].
    right. split; [done|]. exists k. eauto.
  - eauto.
  - intros x Hx Hnt b Hb. rewrite (Hd2 x); [by apply (Hd1 x)|by eapply tbl_ok_counts| |done].
    intros p Hl Hi Hw. destruct (Hn1 p x ltac:(lia) Hi Hw) as [Hw1|(_ & k & Hk & -> & H0)]; [by eapply Hnt|].
    destruct Hx as (_ & _ & Hc). destruct (Hc k Hk eq_refl) as (c & ? & ?). congruence.
Qed.

(** What any number of insertions does: new entries lead to pages that were free,
    used pages stay used, and those that are no table keep their bytes. *)
Record pt_grow (N : nat) (s s' : phys) (root : Z) : Prop := {
  grow_new : forall p x, (length p <= N)%nat -> Forall idx_ok p -> walk (ram s') root p = Some x ->
    walk (ram s) root p = Some x \/ exists k, pfn_ok k /\ x = pfn_to_pa k /\ count_of (mem_map s) k = Some 0;
  grow_count : forall j c, count_of (mem_map s) j = Some c -> c <> 0 -> count_of (mem_map s') j = Some c;
  grow_data : forall k c, pfn_ok k -> count_of (mem_map s) k = Some c -> c <> 0 ->
    (forall p, (length p < N)%nat -> Forall idx_ok p -> walk (ram s) root p <> Some (pfn_to_pa k)) ->
    forall b, page_va k <= b < page_va k + 4096 -> ldb (ram s') b = ldb (ram s) b }.

Lemma pt_grow_refl N s root : pt_grow N s s root.
Proof. split; auto. Qed.

Lemma pt_grow_step N s1 s2 s3 root tgt :
  map_ok (mem_map s1) -> pt_grow N s1 s2 root -> pt_step N s2 s3 root tgt -> pt_grow N s1 s3 root.
Proof.
  intros Hm [Hn1 Hc1 Hd1] Hst. pose proof (step_page _ _ _ _ _ Hst) as Hd2. destruct Hst as [_ Hn2 Hc2 _].
  assert (Hback : forall k, pfn_ok k -> count_of (mem_map s2) k = Some 0 -> count_of (mem_map s1) k = Some 0).
  { intros k Hk H0. destruct (count_of_Some (mem_map s1) k Hm Hk) as [c Hc].
    destruct (decide (c = 0)) as [->|Hne]; [done|]. specialize (Hc1 k c Hc Hne). congruence. }
  split.
  - intros p x Hl Hi Hw. destruct (Hn2 p x Hl Hi Hw) as [Hw1|(_ & k & ? & ? & ?)]; [by apply Hn1|]. right. exists k. eauto.
  - eauto.
  - intros k c Hk Hc Hne Hnt b Hb. rewrite (Hd2 k c); [by eapply Hd1|done|by eapply Hc1|done| |done].
    intros p Hl Hi Hw. destruct (Hn1 p (pfn_to_pa k) ltac:(lia) Hi Hw) as [Hw1|(k' & Hk' & Heq & H0)]; [by eapply Hnt|].
    assert (k = k') as <- by (rewrite !pfn_to_pa_eq in Heq by done; lia). congruence.
Qed.

(** Allocating a page for no entry: the tables are unaffected. *)
Lemma walk_after_alloc n s s' root k p :
  walk_ok n (mem_map s) (ram s) root -> pfn_ok k -> count_of (mem_map s) k = Some 0 ->
  (forall b, ldb (ram s') b =
     if (page_va k <=? b) && (b <? page_va k + 4096) then 0 else ldb (ram s) b) ->
  (length p <= S n)%nat -> Forall idx_ok p -> walk (ram s') root p = walk (ram s) root p.
Proof.
  intros Hok Hk H0 Hram Hl Hp. eapply walk_agree; [done..|]. intros x i Hx Hi.
  apply (ld_agree 8). intros b Hb. rewrite Hram.
  destruct (entry_not_free _ x i k Hx Hi Hk H0); by zcases.
Qed.

Lemma pt_wf_walk_ok n n' s root :
  pt_wf n s root -> (n' <= n)%nat -> walk_ok n' (mem_map s) (ram s) root.
Proof. intros [_ Hok _] Hn p x Hl. apply Hok. lia. Qed.

(** The tables after an entry of [t] got the fresh page [k]. *)
Lemma pt_wf_extend N s s' root k newp :
  pt_wf N s root -> pfn_ok k -> count_of (mem_map s) k = Some 0 -> map_ok (mem_map s') ->
  (forall j, count_of (mem_map s') j = if j =? k then Some 1 else count_of (mem_map s) j) ->
  (forall p x, (length p <= N)%nat -> Forall idx_ok p -> walk (ram s') root p = Some x ->
     walk (ram s) root p = Some x \/ (p = newp /\ x = pfn_to_pa k)) ->
  pt_wf N s' root.
Proof.
  intros [Hm Hok Htree] Hk H0 Hm' Hcnt Hnew. split; [done| |].
  - intros p x Hl Hp Hw. destruct (Hnew p x Hl Hp Hw) as [Hold|[-> ->]].
    + eapply tbl_ok_mono; [by eapply Hok|done].
    + apply (tbl_ok_page _ k 1); [done|by rewrite Hcnt, Z.eqb_refl|done].
  - assert (Hfresh : forall p, (length p <= N)%nat -> Forall idx_ok p ->
              walk (ram s) root p <> Some (pfn_to_pa k)).
    { intros p Hl Hp Hw. destruct (Hok p _ Hl Hp Hw) as (_ & _ & Hc).
      destruct (Hc k Hk eq_refl) as (c & ? & ?). congruence. }
    intros p q x Hlp Hlq Hp Hq Hwp Hwq.
    destruct (Hnew p x Hlp Hp Hwp) as [Hop|[-> ->]], (Hnew q _ Hlq Hq Hwq) as [Hoq|[-> Hx]]; [|subst..|done].
    + by eapply Htree.
    + by destruct (Hfresh p).
    + by destruct (Hfresh q).
Qed.
End Steps.

(** A fresh page [k] was allocated ([s] to [s1]) and its entry stored in the
    zero entry [i] of the table [t] reached by [pre]. *)
Section NewPage.
Context (N : nat) (s s1 : phys) (root t i k v : Z) (pre : list Z).
Hypotheses (Hwf : pt_wf N s root) (Hw : walk (ram s) root pre = Some t)
  (Hl : (length pre < N)%nat) (Hpre : Forall idx_ok pre) (Hi : idx_ok i) (Hk : pfn_ok k)
  (H0 : count_of (mem_map s) k = Some 0) (Hm1 : map_ok (mem_map s1))
  (Hcnt : forall j, count_of (mem_map s1) j = if j =? k then Some 1 else count_of (mem_map s) j)
  (Hram : forall b, ldb (ram s1) b =
     if (page_va k <=? b) && (b <? page_va k + 4096) then 0 else ldb (ram s) b)
  (Hz : ld64 (ram s) (entry_addr t i) = 0) (Hv : 0 < v < 18446744073709551616)
  (HA : ENTRY_GET_ADDR v = pfn_to_pa k).

Let s2 := set_entry s1 (entry_addr t i) v.

Lemma np_table : tbl_ok (mem_map s) t.
Proof using Hwf Hw Hl Hpre. apply (wf_ok _ _ _ Hwf pre t); [lia|done..]. Qed.

Lemma np_walk1 p : (length p <= N)%nat -> Forall idx_ok p -> walk (ram s1) root p = walk (ram s) root p.
Proof using Hwf Hk H0 Hram.
  intros. eapply (walk_after_alloc N); eauto using pt_wf_walk_ok.
Qed.

Lemma np_walk_ok : walk_ok N (mem_map s1) (ram s1) root.
Proof using Hwf Hk H0 Hram Hcnt.
  intros p x Hp Hpi Hpw. rewrite np_walk1 in Hpw by done.
  eapply tbl_ok_mono; [by eapply (wf_ok _ _ _ Hwf)|done].
Qed.

Lemma np_entry0 : ld64 (ram s1) (entry_addr t i) = 0.
Proof using Hwf Hw Hl Hpre Hi Hk H0 Hram Hz.
  rewrite <- Hz. apply (ld_agree 8). intros b Hb. rewrite Hram.
  destruct (entry_not_free _ t i k np_table Hi Hk H0); by zcases.
Qed.

Lemma np_zero b : page_va k <= b < page_va k + 4096 -> ldb (ram s2) b = 0.
Proof using Hwf Hw Hl Hpre Hi Hk H0 Hram.
  intros Hb. cbn. rewrite (ldb_st_ne 8).
  - rewrite Hram. by zcases.
  - destruct (entry_not_free _ t i k np_table Hi Hk H0); lia.
Qed.

Lemma np_new p x :
  (length p <= N)%nat -> Forall idx_ok p -> walk (ram s2) root p = Some x ->
  walk (ram s) root p = Some x \/ (p = pre ++ [i] /\ x = pfn_to_pa k).
Proof using All.
  intros Hp Hpi Hpw.
  destruct (walk_store_new N (ram s1) (mem_map s1) root p x t i v)
    as [Ho|(pre' & rest & -> & Hpre' & Hrest)];
    [apply np_walk_ok|lia|done|eapply tbl_ok_mono; [apply np_table|done]|done|apply np_entry0|done|done| |].
  - left. by rewrite <- np_walk1.
  - right. rewrite HA in Hrest. apply Forall_app in Hpi as [Hpi Hri]. apply Forall_cons in Hri as [_ Hri].
    apply walk_zero in Hrest as [-> ->]; [|done|done|apply np_zero].
    rewrite length_app in Hp. cbn in Hp. rewrite np_walk1 in Hpre' by (done || lia).
    split; [|done]. f_equal. apply (wf_tree _ _ _ Hwf pre' pre t); [lia|lia|done..].
Qed.

Lemma np_old p x :
  (length p <= N)%nat -> Forall idx_ok p -> walk (ram s) root p = Some x -> walk (ram s2) root p = Some x.
Proof using All.
  intros Hp Hpi Hpw. apply (walk_store_old N (ram s1) (mem_map s1));
    [apply np_walk_ok|lia|done|eapply tbl_ok_mono; [apply np_table|done]|done|apply np_entry0|].
  by rewrite np_walk1.
Qed.

Lemma np_entry : ENTRY_GET_ADDR (ld64 (ram s2) (entry_addr t i)) = pfn_to_pa k.
Proof using HA Hv. clear Hl. cbn. by rewrite ld64_st64_eq by lia. Qed.

Lemma np_reach : walk (ram s2) root (pre ++ [i]) = Some (pfn_to_pa k).
Proof using All.
  rewrite walk_app, (np_old pre t) by (done || lia). cbn [mbind option_bind walk].
  rewrite np_entry. cbn. rewrite ld64_st64_eq by lia. zcase; [lia|done].
Qed.

Lemma np_wf : pt_wf N s2 root.
Proof using All. eapply (pt_wf_extend N s s2); eauto using np_new. Qed.

Lemma np_step : pt_step N s s2 root (pre ++ [i]).
Proof using All.
  split; [apply np_old| | |].
  - intros p x Hp Hpi Hpw. destruct (np_new p x Hp Hpi Hpw) as [|[-> ->]]; [by left|right; eauto].
  - intros j c Hc Hne. cbn. rewrite Hcnt. zcase; [congruence|done].
  - intros x Hx Hnt b Hb. cbn. pose proof np_table as Ht.
    assert (x <> t) as Hxt by (intros ->; apply (Hnt pre); done).
    pose proof (entry_in_table t i (proj1 (proj2 Ht)) Hi). pose proof (tbl_ok_sep _ _ x t Hx Ht Hxt).
    rewrite (ldb_st_ne 8) by lia. rewrite Hram. pose proof (tbl_ok_fresh _ x k Hx Hk H0). by zcases.
Qed.
End NewPage.

Section Fill.
Implicit Types (N : nat) (s : phys) (root t x k : Z) (p q tgt : list Z).

(** The whole effect of one level: find or allocate the page for entry [i] of
    the table [t] reached by [pre]. *)
Lemma fill_entry_spec N s root pre t i flags n :
  pt_wf N s root -> walk (ram s) root pre = Some t -> (length pre < N)%nat -> Forall idx_ok pre ->
  idx_ok i -> 0 < flags < 4096 -> free_ge (mem_map s) (missing (ram s) root (pre ++ [i]) + n) ->
  exists r s' x, fill_entry s (entry_addr t i) flags = Some (r, s') /\
    pt_wf N s' root /\ pt_step N s s' root (pre ++ [i]) /\ free_ge (mem_map s') n /\
    walk (ram s') root (pre ++ [i]) = Some x /\
    ENTRY_GET_ADDR (ld64 (ram s') (entry_addr t i)) = x /\
    match r with
    | None => s' = s /\ walk (ram s) root (pre ++ [i]) = Some x
    | Some a => walk (ram s) root (pre ++ [i]) = None /\
        exists k, pfn_ok k /\ a = page_va k /\ x = pfn_to_pa k /\ count_of (mem_map s) k = Some 0 /\
          (forall b, page_va k <= b < page_va k + 4096 -> ldb (ram s') b = 0) /\
          (forall p y, (length p <= N)%nat -> Forall idx_ok p -> walk (ram s') root p = Some y ->
             walk (ram s) root p = Some y \/ (p = pre ++ [i] /\ y = pfn_to_pa k))
    end.
Proof.
  intros Hwf Hw Hl Hpre Hi Hf Hfree. unfold fill_entry.
  assert (Hlast : walk (ram s) root (pre ++ [i]) =
            if ld64 (ram s) (entry_addr t i) =? 0 then None
            else Some (ENTRY_GET_ADDR (ld64 (ram s) (entry_addr t i)))).
  { by rewrite walk_app, Hw. }
  unfold missing in Hfree. rewrite Hlast in *.
  destruct (Z.eqb_spec (ld64 (ram s) (entry_addr t i)) 0) as [Hz|Hnz].
  - destruct (get_free_page_spec s (wf_map _ _ _ Hwf) (free_ge_one _ _ Hfree))
      as (k & s1 & -> & Hk & H0 & Hm1 & _ & Hcnt & Hram).
    cbn [mbind option_bind]. set (v := Z.lor (__pa (page_va k)) flags).
    assert (Hv : 0 < v < 18446744073709551616) by (pose proof (entry_lor_range k flags Hk Hf); lia).
    assert (HA : ENTRY_GET_ADDR v = pfn_to_pa k) by (apply entry_get_addr_lor; [done|lia]).
    exists (Some (page_va k)), (set_entry s1 (entry_addr t i) v), (pfn_to_pa k). split_and!.
    + done.
    + by eapply (np_wf N s s1 root t i k v pre).
    + by eapply (np_step N s s1 root t i k v pre).
    + eapply free_ge_alloc; [done|]. cbn. exact Hcnt.
    + by eapply (np_reach N s s1 root t i k v pre).
    + by eapply (np_entry s1 t i k v).
    + done.
    + exists k. split_and!; [done..| |]; [intros b | intros p y].
      * by eapply (np_zero N s s1 root t i k v pre).
      * by eapply (np_new N s s1 root t i k v pre).
  - exists None, s. eexists. by split_and!; [done|done|apply pt_step_refl|exact Hfree|exact Hlast|..].
Qed.
End Fill.

(** ** A process's address space *)

(** The first [n] slots of [pgtbl_page] are used, and they record every table
    below [pgd]. *)
Record mm_ok (s : phys) (mm : mm_struct) (n : Z) : Prop := {
  mm_len : Z.of_nat (length (pgtbl_page mm)) = MAX_PGTBL_PAGES;
  mm_used : 0 <= n <= MAX_PGTBL_PAGES;
  mm_slots : forall j, 0 <= j < MAX_PGTBL_PAGES ->
    exists a, arr_get (pgtbl_page mm) j = Some a /\ (a = NULL <-> n <= j);
  mm_tables : forall p x, p <> [] -> (length p <= 3)%nat -> Forall idx_ok p ->
    walk (ram s) (pgd mm) p = Some x -> exists j, arr_get (pgtbl_page mm) j = Some (__va x) }.

Section Users.
Implicit Types (s : phys) (mm : mm_struct).

Lemma mm_ok_idx s mm n :
  mm_ok s mm n ->
  find_up (Z.to_nat MAX_PGTBL_PAGES) 0 (slot_is (pgtbl_page mm) (fun p => p =? NULL)) = n.
Proof.
  intros [Hl Hn Hs _]. change (Z.to_nat MAX_PGTBL_PAGES) with 8%nat.
  change MAX_PGTBL_PAGES with 8 in *.
  destruct (find_up_spec 8 0 (slot_is (pgtbl_page mm) (fun p => p =? NULL))) as (Hr & Hlt & Hhit).
  set (f := find_up _ _ _) in *.
  assert (f = n \/ f < n \/ n < f) as [|[Hfn|Hfn]] by lia; [done|exfalso..].
  - specialize (Hhit ltac:(lia)). unfold slot_is in Hhit. destruct (Hs f ltac:(lia)) as (a & Ea & Ha).
    rewrite Ea in Hhit. apply Z.eqb_eq in Hhit. lia.
  - specialize (Hlt n ltac:(lia)). unfold slot_is in Hlt. destruct (Hs n ltac:(lia)) as (a & Ea & Ha).
    rewrite Ea in Hlt. apply Z.eqb_neq in Hlt. lia.
Qed.

Lemma tbl_ok_va (mm : list page) x : tbl_ok mm x -> __va x <> NULL.
Proof.
  intros (_ & Hr & _). unfold __va, NULL. change MEM_BASE with 0x40000000 in *.
  change KERNEL_VA_START with 0xffff000000000000. word_lia.
Qed.

Lemma record_table_ok s s' mm n k newp :
  pt_wf 4 s (pgd mm) -> mm_ok s mm n -> n < MAX_PGTBL_PAGES -> pfn_ok k ->
  (forall p y, (length p <= 4)%nat -> Forall idx_ok p -> walk (ram s') (pgd mm) p = Some y ->
     walk (ram s) (pgd mm) p = Some y \/ (p = newp /\ y = pfn_to_pa k)) ->
  exists mm', record_table mm n (Some (page_va k)) = Some (mm', n + 1) /\ mm_ok s' mm' (n + 1) /\
    pgd mm' = pgd mm /\ vma mm' = vma mm.
Proof.
  intros Hwf [Hl Hn Hs Ht] Hlt Hk Hnew. unfold record_table. change MAX_PGTBL_PAGES with 8 in *.
  rewrite arr_set_Some by lia. cbn [mbind option_bind]. eexists. split_and!; [done| |done|done].
  split; cbn; change MAX_PGTBL_PAGES with 8.
  - by rewrite length_insert.
  - lia.
  - intros j Hj. rewrite arr_get_insert by lia. destruct (Hs j Hj) as (a & Ha & Hiff). zcase.
    + eexists. split; [done|]. pose proof (page_va_pos k Hk). unfold NULL. lia.
    + exists a. split; [done|]. lia.
  - intros p x Hne Hlp Hp Hw. destruct (Hnew p x ltac:(lia) Hp Hw) as [Hold|[-> ->]].
    + destruct (Ht p x Hne Hlp Hp Hold) as (j & Hj). exists j. rewrite arr_get_insert by lia.
      zcase; [|done]. subst j. destruct (Hs n ltac:(lia)) as (a & Ha & Hiff).
      pose proof (tbl_ok_va _ _ (wf_ok _ _ _ Hwf p x ltac:(lia) Hp Hold)).
      assert (a = NULL) by lia. congruence.
    + exists n. rewrite arr_get_insert, Z.eqb_refl by lia. by rewrite __va_pfn.
Qed.

Lemma user_level_spec s mm n m pre t i :
  pt_wf 4 s (pgd mm) -> mm_ok s mm n -> walk (ram s) (pgd mm) pre = Some t -> (length pre < 3)%nat ->
  Forall idx_ok pre -> idx_ok i ->
  free_ge (mem_map s) (missing (ram s) (pgd mm) (pre ++ [i]) + m) ->
  n + Z.of_nat (missing (ram s) (pgd mm) (pre ++ [i])) <= MAX_PGTBL_PAGES ->
  exists s' mm' x, user_level s mm n (entry_addr t i) =
      Some (s', mm', n + Z.of_nat (missing (ram s) (pgd mm) (pre ++ [i]))) /\
    pt_wf 4 s' (pgd mm') /\ pt_step 4 s s' (pgd mm) (pre ++ [i]) /\
    mm_ok s' mm' (n + Z.of_nat (missing (ram s) (pgd mm) (pre ++ [i]))) /\
    pgd mm' = pgd mm /\ vma mm' = vma mm /\ free_ge (mem_map s') m /\
    walk (ram s') (pgd mm') (pre ++ [i]) = Some x /\
    ENTRY_GET_ADDR (ld64 (ram s') (entry_addr t i)) = x.
Proof.
  intros Hwf Hmm Hw Hl Hpre Hi Hfree Hn. unfold user_level.
  destruct (fill_entry_spec 4 s (pgd mm) pre t i MM_TYPE_PAGE_TABLE m Hwf Hw ltac:(lia) Hpre Hi
              ltac:(done) Hfree)
    as (r & s' & x & -> & Hwf' & Hstep & Hfr & Hreach & He & Hr). cbn [mbind option_bind].
  destruct r as [a|].
  - destruct Hr as (Hnone & k & Hk & -> & -> & H0 & _ & Hnew). unfold missing in *. rewrite Hnone in *.
    destruct (record_table_ok s s' mm n k _ Hwf Hmm ltac:(lia) Hk Hnew) as (mm' & -> & Hmm' & Hpgd & Hvma).
    cbn [mbind option_bind]. exists s', mm', (pfn_to_pa k). by rewrite Hpgd.
  - destruct Hr as [-> Hsome]. cbn [record_table mbind option_bind]. unfold missing in *. rewrite Hsome in *.
    rewrite Z.add_0_r. by exists s, mm, x.
Qed.

Lemma index_ok a sh : 0 <= sh -> 0 <= a -> idx_ok (Z.land (Z.shiftr a sh) TABLE_MASK).
Proof.
  intros. unfold idx_ok. change TABLE_MASK with (2 ^ 9 - 1). rewrite land_mask by done.
  apply Z.mod_pos_bound. done.
Qed.

Lemma path_ok addr : 0 <= addr -> Forall idx_ok (path addr).
Proof. intros. repeat constructor; by apply index_ok. Qed.
End Users.

(** Tables [alloc_user_page] has to allocate. *)
Definition tables_needed (m : mem) (root addr : Z) : nat :=
  missing m root [pgd_index addr] + missing m root [pgd_index addr; pud_index addr] +
  missing m root [pgd_index addr; pud_index addr; pmd_index addr].

(** The process's list of mapped pages after [record_vma]. *)
Definition vma_free (mm : mm_struct) (i : Z) : Prop :=
  0 <= i < MAX_USER_PAGES /\ (exists v, arr_get (vma mm) i = Some v /\ pa v = 0) /\
  forall j, 0 <= j < i -> exists v, arr_get (vma mm) j = Some v /\ pa v <> 0.

(** Concrete index lists. *)
Ltac idxs := rewrite ?Forall_cons, ?Forall_nil; by split_and?.

Section UserPages.
Implicit Types (s : phys) (mm : mm_struct) (addr x : Z).

Lemma step_same N s s' root tgt p :
  pt_step N s s' root tgt -> (length p <= N)%nat -> Forall idx_ok p -> ~ p `prefix_of` tgt ->
  walk (ram s') root p = walk (ram s) root p.
Proof.
  intros [Ho Hn _ _] Hl Hp Hpre. destruct (walk (ram s') root p) as [x|] eqn:E.
  - destruct (Hn p x Hl Hp E) as [|[? _]]; done.
  - destruct (walk (ram s) root p) as [x|] eqn:E'; [|done]. by rewrite (Ho p x Hl Hp E') in E.
Qed.

Lemma record_vma_spec mm i a x :
  vma_free mm i -> exists mm', record_vma mm a x = Some mm' /\ pgd mm' = pgd mm /\
    pgtbl_page mm' = pgtbl_page mm /\ vma mm' = <[Z.to_nat i := {| va := a; pa := x |}]> (vma mm).
Proof.
  intros (Hi & (v & Hv & Hz) & Hlt). unfold record_vma. change MAX_USER_PAGES with 16 in *.
  assert (Hf : find_up (Z.to_nat 16) 0 (slot_is (vma mm) (fun v => pa v =? 0)) = i).
  { destruct (find_up_spec 16 0 (slot_is (vma mm) (fun v => pa v =? 0))) as (Hr & Hbelow & Hhit).
    change (Z.to_nat 16) with 16%nat. set (f := find_up _ _ _) in *.
    assert (f = i \/ f < i \/ i < f) as [|[Hfn|Hfn]] by lia; [done|exfalso..].
    - specialize (Hhit ltac:(lia)). destruct (Hlt f ltac:(lia)) as (w & Ew & Hw).
      unfold slot_is in Hhit. rewrite Ew in Hhit. by apply Z.eqb_eq in Hhit.
    - specialize (Hbelow i ltac:(lia)). unfold slot_is in Hbelow. rewrite Hv, Hz in Hbelow. done. }
  rewrite Hf. zcase; [|lia]. apply arr_get_range in Hv as Hr. rewrite arr_set_Some by done.
  cbn [mbind option_bind]. eexists. by split_and!.
Qed.

Lemma mm_ok_vma s mm mm' n :
  pgd mm' = pgd mm -> pgtbl_page mm' = pgtbl_page mm -> mm_ok s mm n -> mm_ok s mm' n.
Proof. intros H1 H2 [Ha Hb Hc Hd]. split; [by rewrite H2|done|by rewrite H2|by rewrite H1, H2]. Qed.

(** Adding the page itself records no table. *)
Lemma mm_ok_leaf s s' mm n p0 :
  mm_ok s mm n -> pt_step 4 s s' (pgd mm) p0 -> length p0 = 4%nat ->
  (forall p, (length p <= 3)%nat -> p `prefix_of` p0 -> walk (ram s) (pgd mm) p <> None) ->
  mm_ok s' mm n.
Proof.
  intros [Ha Hb Hc Hd] Hst Hl Hpre. split; [done..|].
  intros p x Hne Hlp Hp Hw. apply (Hd p x Hne Hlp Hp).
  destruct (step_new _ _ _ _ _ Hst p x ltac:(lia) Hp Hw) as [|[Hpp _]]; [done|].
  destruct (walk (ram s) (pgd mm) p) as [y|] eqn:Ey; [|by destruct (Hpre p Hlp Hpp)].
  pose proof (step_old _ _ _ _ _ Hst p y ltac:(lia) Hp Ey). congruence.
Qed.

Lemma missing_same N s s' root tgt p :
  pt_step N s s' root tgt -> (length p <= N)%nat -> Forall idx_ok p -> ~ p `prefix_of` tgt ->
  missing (ram s') root p = missing (ram s) root p.
Proof. intros. unfold missing. by erewrite step_same. Qed.

Lemma not_prefix_longer (p q : list Z) : (length q < length p)%nat -> ~ p `prefix_of` q.
Proof. intros Hl Hp. apply prefix_length in Hp. lia. Qed.

(** The three table levels together. *)
Lemma user_tables_spec s mm n m g u d :
  idx_ok g -> idx_ok u -> idx_ok d -> pt_wf 4 s (pgd mm) -> mm_ok s mm n ->
  let M := (missing (ram s) (pgd mm) [g] + missing (ram s) (pgd mm) [g; u] +
            missing (ram s) (pgd mm) [g; u; d])%nat in
  n + Z.of_nat M <= MAX_PGTBL_PAGES -> free_ge (mem_map s) (M + m) ->
  exists s1 mm1 n1 x1 s2 mm2 n2 x2 s3 mm3 x3,
    user_level s mm n (entry_addr (pgd mm) g) = Some (s1, mm1, n1) /\
    ENTRY_GET_ADDR (ld64 (ram s1) (entry_addr (pgd mm) g)) = x1 /\
    user_level s1 mm1 n1 (entry_addr x1 u) = Some (s2, mm2, n2) /\
    ENTRY_GET_ADDR (ld64 (ram s2) (entry_addr x1 u)) = x2 /\
    user_level s2 mm2 n2 (entry_addr x2 d) = Some (s3, mm3, n + Z.of_nat M) /\
    ENTRY_GET_ADDR (ld64 (ram s3) (entry_addr x2 d)) = x3 /\
    pt_wf 4 s3 (pgd mm) /\ pt_step 4 s s3 (pgd mm) [g; u; d] /\ mm_ok s3 mm3 (n + Z.of_nat M) /\
    pgd mm3 = pgd mm /\ vma mm3 = vma mm /\ free_ge (mem_map s3) m /\
    walk (ram s3) (pgd mm) [g; u; d] = Some x3.
Proof.
  intros Hg Hu Hd Hwf Hmm M Hn Hfree.
  destruct (user_level_spec s mm n (missing (ram s) (pgd mm) [g; u] + missing (ram s) (pgd mm) [g; u; d] + m)
              [] (pgd mm) g Hwf Hmm eq_refl)
    as (s1 & mm1 & x1 & E1 & Hwf1 & St1 & Hmm1 & Hpgd1 & Hvma1 & Hfr1 & Hw1 & He1);
    [cbn; lia|constructor|done|eapply free_ge_mono; [|exact Hfree]; cbn; lia|cbn; lia|].
  cbn [app] in *.
  assert (Hs2 : missing (ram s1) (pgd mm1) [g; u] = missing (ram s) (pgd mm) [g; u]).
  { rewrite Hpgd1. eapply missing_same; [done|cbn; lia|idxs|].
    apply not_prefix_longer. cbn. lia. }
  destruct (user_level_spec s1 mm1 _ (missing (ram s) (pgd mm) [g; u; d] + m) [g] x1 u Hwf1 Hmm1 Hw1)
    as (s2 & mm2 & x2 & E2 & Hwf2 & St2 & Hmm2 & Hpgd2 & Hvma2 & Hfr2 & Hw2 & He2);
    [cbn; lia|idxs|done| | |]; cbn [app] in *; rewrite Hs2 in *;
    [eapply free_ge_mono; [|exact Hfr1]; lia|lia|].
  assert (Hs3 : missing (ram s2) (pgd mm2) [g; u; d] = missing (ram s) (pgd mm) [g; u; d]).
  { rewrite Hpgd2. rewrite (missing_same 4 s1 s2 (pgd mm1) [g; u]); [|done|cbn; lia|idxs|].
    - rewrite Hpgd1. eapply missing_same; [done|cbn; lia|idxs|].
      apply not_prefix_longer. cbn. lia.
    - apply not_prefix_longer. cbn. lia. }
  destruct (user_level_spec s2 mm2 _ m [g; u] x2 d Hwf2 Hmm2 Hw2)
    as (s3 & mm3 & x3 & E3 & Hwf3 & St3 & Hmm3 & Hpgd3 & Hvma3 & Hfr3 & Hw3 & He3);
    [cbn; lia|idxs|done| | |]; cbn [app] in *; rewrite Hs3 in *; [done|lia|].
  rewrite Hpgd3, Hpgd2, Hpgd1 in *.
  eexists s1, mm1, _, x1, s2, mm2, _, x2, s3, mm3, x3.
  replace (n + Z.of_nat M) with
    (n + Z.of_nat (missing (ram s) (pgd mm) [g]) + Z.of_nat (missing (ram s) (pgd mm) [g; u]) +
     Z.of_nat (missing (ram s) (pgd mm) [g; u; d])) by (unfold M; lia).
  split_and!; [done..| |done|done|congruence|done|done].
  eapply pt_step_trans; [apply (wf_map _ _ _ Hwf)| |exact St3].
  eapply pt_step_trans; [apply (wf_map _ _ _ Hwf)| |].
  - eapply pt_step_weaken; [|exact St1]. by exists [u; d].
  - eapply pt_step_weaken; [|exact St2]. by exists [d].
Qed.

Lemma alloc_user_page_spec s mm n m i addr :
  0 <= addr -> pt_wf 4 s (pgd mm) -> mm_ok s mm n -> vma_free mm i ->
  n + Z.of_nat (tables_needed (ram s) (pgd mm) addr) <= MAX_PGTBL_PAGES ->
  free_ge (mem_map s) (tables_needed (ram s) (pgd mm) addr + missing (ram s) (pgd mm) (path addr) + m) ->
  exists s' mm' x, alloc_user_page s mm addr = Some (s', mm') /\
    pt_wf 4 s' (pgd mm) /\ pt_step 4 s s' (pgd mm) (path addr) /\
    mm_ok s' mm' (n + Z.of_nat (tables_needed (ram s) (pgd mm) addr)) /\ free_ge (mem_map s') m /\
    pgd mm' = pgd mm /\ vma mm' = <[Z.to_nat i := {| va := addr; pa := x |}]> (vma mm) /\
    translate (ram s') (pgd mm) addr = Some x /\
    (translate (ram s) (pgd mm) addr = None ->
     exists k, pfn_ok k /\ x = pfn_to_pa k /\ count_of (mem_map s) k = Some 0 /\
       forall b, page_va k <= b < page_va k + 4096 -> ldb (ram s') b = 0).
Proof.
  intros Ha Hwf Hmm Hvma Hn Hfree.
  pose proof (path_ok addr Ha) as Hpath. unfold path in Hpath.
  unfold alloc_user_page, translate. rewrite (mm_ok_idx s mm n Hmm).
  unfold tables_needed, path in *. set (g := pgd_index addr) in *. set (u := pud_index addr) in *.
  set (d := pmd_index addr) in *. set (e := pte_index addr) in *.
  pose proof Hpath as (Hg & (Hu & (Hd & (He & _)%Forall_cons)%Forall_cons)%Forall_cons)%Forall_cons.
  destruct (user_tables_spec s mm n (missing (ram s) (pgd mm) [g; u; d; e] + m) g u d Hg Hu Hd Hwf Hmm Hn)
    as (s1 & mm1 & n1 & x1 & s2 & mm2 & n2 & x2 & s3 & mm3 & x3 & -> & Ex1 & E2 & Ex2 & E3 & Ex3 &
        Hwf3 & St3 & Hmm3 & Hpgd3 & Hvma3 & Hfr3 & Hw3).
  { eapply free_ge_mono; [|exact Hfree]. lia. }
  cbn [mbind option_bind]. rewrite Ex1, E2. cbn [mbind option_bind]. rewrite Ex2, E3. cbn [mbind option_bind].
  rewrite Ex3.
  assert (Hs4 : missing (ram s3) (pgd mm) [g; u; d; e] = missing (ram s) (pgd mm) [g; u; d; e]).
  { eapply missing_same; [done|cbn; lia|done|]. apply not_prefix_longer. cbn. lia. }
  destruct (fill_entry_spec 4 s3 (pgd mm) [g; u; d] x3 e MMU_PTE_FLAGS m Hwf3 Hw3)
    as (r & s4 & x & -> & Hwf4 & St4 & Hfr4 & Hw4 & He4 & Hr);
    [cbn; lia|idxs|done|done|cbn [app]; by rewrite Hs4|].
  cbn [mbind option_bind]. rewrite He4.
  assert (Hvma' : vma_free mm3 i) by (unfold vma_free; by rewrite Hvma3).
  destruct (record_vma_spec mm3 i addr x Hvma') as (mm4 & -> & Hp4 & Ht4 & Hv4).
  cbn [mbind option_bind app] in *. exists s4, mm4, x. split_and!; [done|done| | |done| | |done|].
  - eapply pt_step_trans; [apply (wf_map _ _ _ Hwf)| |exact St4].
    eapply pt_step_weaken; [|exact St3]. by exists [e].
  - eapply (mm_ok_vma _ mm3); [done|done|]. eapply mm_ok_leaf; [done|by rewrite Hpgd3|done|].
    rewrite Hpgd3. intros p Hlp Hpre HN.
    assert (p `prefix_of` [g; u; d]) as [q Hq].
    { destruct Hpre as [q Hq]. destruct q as [|b q] using rev_ind.
      - rewrite app_nil_r in Hq. subst p. cbn in Hlp. lia.
      - rewrite app_assoc in Hq. change [g; u; d; e] with ([g; u; d] ++ [e]) in Hq.
        apply app_inj_2 in Hq as [Hq _]; [|done]. by exists q. }
    rewrite Hq, walk_app, HN in Hw3. done.
  - congruence.
  - congruence.
  - intros HN. rewrite <- (step_same 4 s s3 (pgd mm) [g; u; d]) in HN;
      [|done|cbn; lia|done|apply not_prefix_longer; cbn; lia].
    destruct r as [a|]; [|destruct Hr; congruence].
    destruct Hr as (_ & k & Hk & _ & Hx & H0 & Hz & _). exists k. split_and!; [done|done| |done].
    destruct (count_of_Some (mem_map s) k (wf_map _ _ _ Hwf) Hk) as [c Hc].
    destruct (decide (c = 0)) as [->|Hne]; [done|].
    pose proof (step_count _ _ _ _ _ St3 k c Hc Hne). congruence.
Qed.
End UserPages.

(** ** Ranges of pages *)

Section Ranges.
Implicit Types (s : phys) (mm : mm_struct) (a b x : Z).

Lemma index_eq a sh : 0 <= sh -> Z.land (Z.shiftr a sh) TABLE_MASK = (a / 2 ^ sh) mod 512.
Proof. intros. change TABLE_MASK with (2 ^ 9 - 1). by rewrite land_mask, shiftr_div. Qed.

Lemma path_eq a :
  path a = [(a / 2 ^ 39) mod 512; (a / 2 ^ 30) mod 512; (a / 2 ^ 21) mod 512; (a / 2 ^ 12) mod 512].
Proof.
  unfold path, pgd_index, pud_index, pmd_index, pte_index. by rewrite !index_eq by done.
Qed.

(** Below [2^48] a path determines the page. *)
Lemma path_inj a b :
  0 <= a < 2 ^ 48 -> 0 <= b < 2 ^ 48 -> path a = path b <-> a / 4096 = b / 4096.
Proof.
  rewrite !path_eq. change (2 ^ 39) with (4096 * 134217728). change (2 ^ 30) with (4096 * 262144).
  change (2 ^ 21) with (4096 * 512). change (2 ^ 12) with 4096. change (2 ^ 48) with 281474976710656.
  rewrite <- !(Z.div_div _ 4096) by lia. intros Ha Hb.
  assert (0 <= a / 4096 < 68719476736) by (Z.div_mod_to_equations; lia).
  assert (0 <= b / 4096 < 68719476736) by (Z.div_mod_to_equations; lia).
  split; [|by intros ->]. generalize dependent (b / 4096). generalize dependent (a / 4096).
  clear a b Ha Hb. intros a Ha b Hb [= H1 H2 H3 H4]. Z.div_mod_to_equations. lia.
Qed.

(** Addresses of one 2 MB block share their three table levels. *)
Lemma tables_same a b :
  a / 2097152 = b / 2097152 ->
  pgd_index a = pgd_index b /\ pud_index a = pud_index b /\ pmd_index a = pmd_index b.
Proof.
  unfold pgd_index, pud_index, pmd_index. rewrite !index_eq by done.
  change (2 ^ 39) with 549755813888. change (2 ^ 30) with 1073741824.
  change (2 ^ 21) with 2097152 in *. change (2 ^ PMD_SHIFT) with 2097152.
  change (2 ^ PGD_SHIFT) with 549755813888. change (2 ^ PUD_SHIFT) with 1073741824.
  intros H. split_and!; Z.div_mod_to_equations; lia.
Qed.

Lemma walk_prefix m t p q x : walk m t (p ++ q) = Some x -> is_Some (walk m t p).
Proof. rewrite walk_app. destruct (walk m t p); naive_solver. Qed.

(** After a page of the block is mapped, no table is missing. *)
Lemma tables_needed_le m root a : (tables_needed m root a <= 3)%nat.
Proof.
  unfold tables_needed, missing.
  repeat match goal with |- context [match ?w with Some _ => _ | None => _ end] => destruct w end; lia.
Qed.

Lemma tables_needed_mapped m root a b x :
  a / 2097152 = b / 2097152 -> translate m root a = Some x -> tables_needed m root b = 0%nat.
Proof.
  intros H Ht. destruct (tables_same a b H) as (E1 & E2 & E3).
  unfold tables_needed, missing. rewrite <- E1, <- E2, <- E3.
  unfold translate, path in Ht.
  destruct (walk_prefix m root [pgd_index a] _ x Ht) as [? ->].
  destruct (walk_prefix m root [pgd_index a; pud_index a] _ x Ht) as [? ->].
  by destruct (walk_prefix m root [pgd_index a; pud_index a; pmd_index a] _ x Ht) as [? ->].
Qed.

Lemma tables_needed_block m root a b :
  a / 2097152 = b / 2097152 -> tables_needed m root a = tables_needed m root b.
Proof. intros H. destruct (tables_same a b H) as (E1 & E2 & E3). unfold tables_needed. by rewrite E1, E2, E3. Qed.

Lemma missing_le m root p : (missing m root p <= 1)%nat.
Proof. unfold missing. destruct (walk m root p); lia. Qed.

Lemma vma_free_next mm mm' i v :
  vma_free mm i -> vma mm' = <[Z.to_nat i := v]> (vma mm) -> pa v <> 0 ->
  i + 1 < MAX_USER_PAGES -> (exists w, arr_get (vma mm) (i + 1) = Some w /\ pa w = 0) ->
  vma_free mm' (i + 1).
Proof.
  intros (Hi & (v0 & Hv0 & _) & Hlt) Hvma Hv Hm (w & Hw & Hw0). unfold vma_free. rewrite Hvma.
  apply arr_get_range in Hv0. split_and!; [lia|lia| |].
  - exists w. rewrite arr_get_insert by lia. zcase; [lia|done].
  - intros j Hj. rewrite arr_get_insert by lia. zcase; [by exists v|]. apply Hlt. lia.
Qed.

Lemma path_length a : length (path a) = 4%nat.
Proof. done. Qed.

Lemma prefix_same_length (p q : list Z) : p `prefix_of` q -> length p = length q -> p = q.
Proof. intros [r ->] Hl. rewrite length_app in Hl. destruct r; [by rewrite app_nil_r|cbn in Hl; lia]. Qed.

Lemma translate_same s s' root a b :
  pt_step 4 s s' root (path b) -> 0 <= a -> path a <> path b ->
  translate (ram s') root a = translate (ram s) root a.
Proof.
  intros Hst Ha Hne. eapply step_same; [done|done|by apply path_ok|].
  intros Hpre. by apply Hne, prefix_same_length.
Qed.

(** A mapped page is no table, so building tables keeps its bytes. *)
Lemma page_data_kept s s' root tgt a k b :
  pt_wf 4 s root -> pt_step 4 s s' root tgt -> 0 <= a -> pfn_ok k ->
  translate (ram s) root a = Some (pfn_to_pa k) ->
  page_va k <= b < page_va k + 4096 -> ldb (ram s') b = ldb (ram s) b.
Proof.
  intros Hwf Hst Ha Hk Ht Hb.
  destruct (wf_ok _ _ _ Hwf (path a) _ ltac:(done) (path_ok a Ha) Ht) as (_ & _ & Hc).
  destruct (Hc k Hk eq_refl) as (c & Hck & Hne).
  eapply (step_page _ _ _ _ _ Hst k c); [done..| |done]. intros p Hl Hp Hw.
  assert (p = path a) as -> by (eapply (wf_tree _ _ _ Hwf); [lia|done|done|by apply path_ok|done|done]).
  rewrite path_length in Hl. lia.
Qed.

Lemma missing_translate m root a : missing m root (path a) = 1%nat <-> translate m root a = None.
Proof. unfold missing, translate. destruct (walk m root (path a)); naive_solver. Qed.
End Ranges.

(** The loop of [alloc_user_pages] over the [cnt] pages from [start]. *)
Section UserRange.
Context (s0 : phys) (mm0 : mm_struct) (start i0 cnt top : Z) (extra : nat).
Hypotheses (Hstart : 0 <= start) (Hal : start mod 4096 = 0) (Hcnt : 0 <= cnt)
  (Hblock : start mod 2097152 + 4096 * cnt <= 2097152) (Hmax : start + 4096 * cnt <= 2 ^ 48)
  (Hi0 : 0 <= i0) (Hslots : i0 + cnt <= MAX_USER_PAGES) (Hm0 : map_ok (mem_map s0)) (Htop : top <= MAX_PGTBL_PAGES).

Definition page_at (k : Z) : Z := start + 4096 * k.

(** The state after [i] rounds. *)
Record range_inv (i : Z) (st : phys * mm_struct) : Prop := {
  ri_wf : pt_wf 4 st.1 (pgd mm0);
  ri_pgd : pgd st.2 = pgd mm0;
  ri_mm : exists n, mm_ok st.1 st.2 n /\ n + Z.of_nat (tables_needed (ram st.1) (pgd mm0) start) <= top;
  ri_free : free_ge (mem_map st.1)
              (tables_needed (ram st.1) (pgd mm0) start + Z.to_nat (cnt - i) + extra);
  ri_len : Z.of_nat (length (vma st.2)) = MAX_USER_PAGES;
  ri_used : forall j, 0 <= j < i0 + i -> exists v, arr_get (vma st.2) j = Some v /\ pa v <> 0;
  ri_empty : forall j, i0 + i <= j < i0 + cnt -> exists v, arr_get (vma st.2) j = Some v /\ pa v = 0;
  ri_unmapped : forall k, i <= k < cnt -> translate (ram st.1) (pgd mm0) (page_at k) = None;
  ri_mapped : forall k, 0 <= k < i -> exists q, pfn_ok q /\ count_of (mem_map s0) q = Some 0 /\
    translate (ram st.1) (pgd mm0) (page_at k) = Some (pfn_to_pa q) /\
    arr_get (vma st.2) (i0 + k) = Some {| va := page_at k; pa := pfn_to_pa q |} /\
    forall b, page_va q <= b < page_va q + 4096 -> ldb (ram st.1) b = 0;
  ri_other : forall a, 0 <= a < 2 ^ 48 -> (forall k, 0 <= k < cnt -> a / 4096 <> page_at k / 4096) ->
    translate (ram st.1) (pgd mm0) a = translate (ram s0) (pgd mm0) a;
  ri_grow : pt_grow 4 s0 st.1 (pgd mm0);
  ri_rest : forall j, i0 + cnt <= j -> arr_get (vma st.2) j = arr_get (vma mm0) j }.

Lemma page_at_range k : 0 <= k < cnt -> 0 <= page_at k < 2 ^ 48.
Proof using Hstart Hcnt Hmax. change (2 ^ 48) with 281474976710656 in *. unfold page_at. lia. Qed.

Lemma page_at_path k l : 0 <= k < cnt -> 0 <= l < cnt -> k <> l -> path (page_at k) <> path (page_at l).
Proof using Hstart Hal Hcnt Hmax.
  intros Hk Hl Hne E. apply path_inj in E; [|by apply page_at_range..].
  unfold page_at in E. Z.div_mod_to_equations. lia.
Qed.

Lemma page_at_block k : 0 <= k < cnt -> start / 2097152 = page_at k / 2097152.
Proof using Hstart Hcnt Hblock. clear Hal. unfold page_at. intros. Z.div_mod_to_equations. lia. Qed.

Lemma range_addr k : 0 <= k < cnt -> u64 (start + s32 (Z.shiftl k PAGE_SHIFT)) = page_at k.
Proof using Hstart Hcnt Hmax Hslots Hi0.
  intros Hk. change MAX_USER_PAGES with 16 in *. rewrite shiftl_mul by done.
  change (2 ^ PAGE_SHIFT) with 4096. change (2 ^ 48) with 281474976710656 in *.
  rewrite swrap_small by (change (2 ^ (32 - 1)) with 2147483648; lia).
  unfold page_at. rewrite wrap_small by (change (2 ^ 64) with 18446744073709551616; lia). lia.
Qed.

Lemma range_step i st :
  0 <= i < cnt -> range_inv i st ->
  exists st', alloc_user_page st.1 st.2 (page_at i) = Some st' /\ range_inv (i + 1) st'.
Proof using All.
  intros Hi [Hwf Hpgd (n & Hmm & Hn) Hfree Hlen Hused Hempty Hun Hmap Hoth Hg Hrest].
  pose proof (grow_count _ _ _ _ Hg) as Hc.
  pose proof (page_at_range i Hi) as Hpa. pose proof (page_at_block i Hi) as Hbl.
  change MAX_USER_PAGES with 16 in *.
  destruct st as [s mm]. cbn [fst snd] in *.
  rewrite (tables_needed_block _ _ _ _ Hbl) in Hn, Hfree.
  assert (Hvf : vma_free mm (i0 + i)) by (split_and!; [lia|change MAX_USER_PAGES with 16; lia|apply Hempty; lia|done]).
  destruct (alloc_user_page_spec s mm n (Z.to_nat (cnt - (i + 1)) + extra) (i0 + i) (page_at i))
    as (s' & mm' & x & E & Hwf' & Hst & Hmm' & Hfr & Hp' & Hv' & Ht & Hnew); rewrite ?Hpgd in *; try done; [lia|lia| |].
  { rewrite (proj2 (missing_translate _ _ _) (Hun i ltac:(lia))).
    eapply free_ge_mono; [|exact Hfree]. lia. }
  destruct (Hnew (Hun i ltac:(lia))) as (q & Hq & -> & H0 & Hz).
  exists (s', mm'). split; [done|].
  assert (Htn : tables_needed (ram s') (pgd mm0) start = 0%nat).
  { eapply (tables_needed_mapped _ _ (page_at i)); [done|exact Ht]. }
  split; cbn [fst snd]; rewrite ?Htn, ?Hv'.
  - done.
  - done.
  - eexists. split; [done|]. lia.
  - done.
  - by rewrite length_insert.
  - intros j Hj. rewrite arr_get_insert by lia. zcase; [|apply Hused; lia].
    eexists. split; [done|]. cbn. rewrite pfn_to_pa_eq by done. unfold pfn_ok in Hq. lia.
  - intros j Hj. rewrite arr_get_insert by lia. zcase; [lia|]. apply Hempty. lia.
  - intros k Hk. rewrite (translate_same s s' _ _ (page_at i)); [apply Hun; lia|done| |].
    + apply page_at_range. lia.
    + apply page_at_path; lia.
  - intros k Hk. destruct (decide (k = i)) as [->|Hne].
    + exists q. split_and!; [done| |done| |done].
      * destruct (count_of_Some (mem_map s0) q Hm0 Hq) as [c Hcq].
        destruct (decide (c = 0)) as [->|Hc0]; [done|]. specialize (Hc q c Hcq Hc0). congruence.
      * by rewrite arr_get_insert, Z.eqb_refl by lia.
    + destruct (Hmap k ltac:(lia)) as (q' & Hq' & Hc' & Ht' & Hv & Hz'). exists q'. split_and!; [done|done| | |].
      * rewrite (translate_same s s' _ _ (page_at i)); [done|done| |].
        -- apply page_at_range. lia.
        -- apply page_at_path; lia.
      * rewrite arr_get_insert by lia. zcase; [lia|done].
      * intros b Hb. rewrite (page_data_kept s s' (pgd mm0) (path (page_at i)) (page_at k) q'); try done.
        -- by apply Hz'.
        -- apply page_at_range. lia.
  - intros a Ha Hk. rewrite (translate_same s s' _ _ (page_at i)); [by apply Hoth|done|lia|].
    intros Ep%path_inj; [|done|done]. by apply (Hk i).
  - by eapply pt_grow_step.
  - intros j Hj. rewrite arr_get_insert by lia. zcase; [lia|]. by apply Hrest.
Qed.

Lemma range_loop :
  range_inv 0 (s0, mm0) ->
  exists st, for_up (Z.to_nat cnt) 0
      (fun i '(s, mm) => alloc_user_page s mm (u64 (start + s32 (Z.shiftl i PAGE_SHIFT)))) (s0, mm0) = Some st /\
    range_inv cnt st.
Proof using All.
  intros H. destruct (for_up_inv range_inv
    (fun i '(s, mm) => alloc_user_page s mm (u64 (start + s32 (Z.shiftl i PAGE_SHIFT))))
    (Z.to_nat cnt) 0 (s0, mm0) H) as (st & E & Hst).
  - intros i [s mm] Hi Hinv. rewrite range_addr by lia. apply (range_step i (s, mm)); [lia|done].
  - exists st. split; [done|]. by replace cnt with (0 + Z.of_nat (Z.to_nat cnt)) by lia.
Qed.
End UserRange.

(** ** The kernel's 2 MB sections *)

Definition kpath (addr : Z) : list Z := [pgd_index addr; pud_index addr; pmd_index addr].

(** The block entry of the section of [addr]: zero when absent. *)
Definition block (m : mem) (t addr : Z) : Z :=
  match walk m t [pgd_index addr; pud_index addr] with
  | Some x => ld64 m (entry_addr x (pmd_index addr))
  | None => 0
  end.

(** Bytes of DRAM that are no page of the allocator and in no table below [t]. *)
Definition foreign (s : phys) (t b : Z) : Prop :=
  ~ (page_va 0 <= b < page_va PAGING_PAGES) /\
  exists x, x mod 4096 = 0 /\ MEM_BASE <= x < 0x80000000 /\ __va x <= b < __va x + 4096 /\
    forall p, (length p <= 2)%nat -> Forall idx_ok p -> walk (ram s) t p <> Some x.

Definition flags_ok (flags : Z) : Prop := flags = MMU_FLAGS \/ flags = MMU_DEVICE_FLAGS.

Section KernelTables.
Implicit Types (s : phys) (t x pa addr flags : Z).

(** Storing into a table of the last level changes no walk. *)
Lemma walk_store_leaf N s t q x d v p :
  pt_wf N s t -> walk (ram s) t q = Some x -> length q = N -> Forall idx_ok q -> idx_ok d ->
  (length p <= N)%nat -> Forall idx_ok p ->
  walk (st64 (ram s) (entry_addr x d) v) t p = walk (ram s) t p.
Proof.
  intros Hwf Hq Hlq Hqi Hd. induction p as [|i p IH] using rev_ind; [done|].
  rewrite length_app, Forall_app. cbn. intros Hl [Hp [Hi _]%Forall_cons].
  rewrite !walk_app, IH by (done || lia).
  destruct (walk (ram s) t p) as [y|] eqn:Ey; [|done]. cbn [mbind option_bind walk].
  assert (y <> x) as Hne.
  { intros E. subst y. rewrite (wf_tree _ _ _ Hwf p q x) in Hl by (done || lia). lia. }
  assert (Hy : tbl_ok (mem_map s) y) by (apply (wf_ok _ _ _ Hwf p); done || lia).
  assert (Hx : tbl_ok (mem_map s) x) by (apply (wf_ok _ _ _ Hwf q); done || lia).
  rewrite (ld_st_ne 8 8); [done|]. destruct (entry_sep _ y i x d Hy Hx Hi Hd); [by left|lia..].
Qed.

Lemma leaf_store_wf N s t q x d v :
  pt_wf N s t -> walk (ram s) t q = Some x -> length q = N -> Forall idx_ok q -> idx_ok d ->
  pt_wf N (set_entry s (entry_addr x d) v) t.
Proof.
  intros Hwf Hq Hl Hqi Hd. split; cbn; [apply (wf_map _ _ _ Hwf)| |].
  - intros p y Hp Hpi. erewrite walk_store_leaf by done. by apply (wf_ok _ _ _ Hwf).
  - intros p p' y Hp Hp' Hpi Hpi'. rewrite !(walk_store_leaf N s t q x d v) by done.
    by apply (wf_tree _ _ _ Hwf).
Qed.

(** Building other tables keeps the entries of a last-level table. *)
Lemma leaf_entry_kept s s' t tgt q x d :
  pt_wf 2 s t -> pt_step 2 s s' t tgt -> length q = 2%nat -> Forall idx_ok q ->
  walk (ram s) t q = Some x -> idx_ok d ->
  ld64 (ram s') (entry_addr x d) = ld64 (ram s) (entry_addr x d).
Proof.
  intros Hwf St Hl Hq Hw Hd. pose proof (wf_ok _ _ _ Hwf q x ltac:(lia) Hq Hw) as Hx.
  apply (ld_agree 8). intros b Hb. pose proof (entry_in_table x d (proj1 (proj2 Hx)) Hd).
  apply (step_data _ _ _ _ _ St x Hx); [|lia]. intros p Hp Hpi Hpw.
  assert (p = q) as -> by (apply (wf_tree _ _ _ Hwf p q x); done || lia). lia.
Qed.

(** Foreign bytes stay foreign, and as they are. *)
Lemma foreign_page s t x b k :
  ~ (page_va 0 <= b < page_va PAGING_PAGES) -> x mod 4096 = 0 -> MEM_BASE <= x < 0x80000000 -> __va x <= b < __va x + 4096 ->
  pfn_ok k -> x <> pfn_to_pa k.
Proof.
  intros Hb _ _ Hx Hk ->. rewrite __va_pfn in Hx by done. apply Hb. unfold pfn_ok in Hk. rewrite PAGING_PAGES_eq in *. unfold page_va in *. lia.
Qed.

Lemma foreign_step s s' t tgt b :
  pt_step 2 s s' t tgt -> foreign s t b -> foreign s' t b /\ ldb (ram s') b = ldb (ram s) b.
Proof.
  intros St [Hb (x & Ha & Hr & Hx & Hn)].
  assert (Hok : tbl_ok (mem_map s) x).
  { split; [done|]. split; [done|]. intros k Hk E. by destruct (foreign_page s t x b k). }
  split.
  - split; [done|]. exists x. split; [done|]. split; [done|]. split; [done|]. intros p Hl Hp Hw.
    destruct (step_new _ _ _ _ _ St p x Hl Hp Hw) as [Hw'|(_ & k & Hk & E & _)]; [by apply (Hn p)|by destruct (foreign_page s t x b k)].
  - apply (step_data _ _ _ _ _ St x Hok); [|done]. intros p Hl Hp. apply Hn; [lia|done].
Qed.

(** They are no entry of a table. *)
Lemma foreign_entry s t q y i b :
  pt_wf 2 s t -> foreign s t b -> (length q <= 2)%nat -> Forall idx_ok q -> walk (ram s) t q = Some y -> idx_ok i ->
  b < entry_addr y i \/ entry_addr y i + 8 <= b.
Proof.
  intros Hwf [Hb (x & Ha & Hr & Hx & Hn)] Hl Hq Hw Hi. pose proof (wf_ok _ _ _ Hwf q y Hl Hq Hw) as (Hya & Hyr & _).
  assert (x <> y) by (intros ->; by apply (Hn q)). pose proof (entry_in_table y i Hyr Hi).
  rewrite !__va_dram in * by done. Z.div_mod_to_equations. lia.
Qed.

Lemma kpath_ok addr : 0 <= addr -> Forall idx_ok (kpath addr).
Proof. intros. repeat constructor; by apply index_ok. Qed.

(** The two table levels of a section. *)
Lemma kernel_tables_spec s t m g u :
  idx_ok g -> idx_ok u -> pt_wf 2 s t ->
  free_ge (mem_map s) (missing (ram s) t [g] + missing (ram s) t [g; u] + m) ->
  exists r1 s1 r2 s2 x2, fill_entry s (entry_addr t g) MM_TYPE_PAGE_TABLE = Some (r1, s1) /\
    (let pud := entry_addr (ENTRY_GET_ADDR (ld64 (ram s1) (entry_addr t g))) u in
     fill_entry s1 pud MM_TYPE_PAGE_TABLE = Some (r2, s2) /\ ENTRY_GET_ADDR (ld64 (ram s2) pud) = x2) /\
    pt_wf 2 s2 t /\ pt_step 2 s s2 t [g; u] /\ free_ge (mem_map s2) m /\
    walk (ram s2) t [g; u] = Some x2 /\
    (walk (ram s) t [g; u] = None -> forall d, idx_ok d -> ld64 (ram s2) (entry_addr x2 d) = 0).
Proof.
  intros Hg Hu Hwf Hfree.
  destruct (fill_entry_spec 2 s t [] t g MM_TYPE_PAGE_TABLE (missing (ram s) t [g; u] + m) Hwf eq_refl)
    as (r1 & s1 & x1 & E1 & Hwf1 & St1 & Hfr1 & Hw1 & He1 & _);
    [cbn; lia|constructor|done|done|eapply free_ge_mono; [|exact Hfree]; cbn; lia|].
  cbn [app] in *.
  assert (Hs2 : walk (ram s1) t [g; u] = walk (ram s) t [g; u]).
  { eapply step_same; [done|cbn; lia|idxs|]. apply not_prefix_longer. cbn. lia. }
  assert (Hm2 : missing (ram s1) t [g; u] = missing (ram s) t [g; u]) by (unfold missing; by rewrite Hs2).
  destruct (fill_entry_spec 2 s1 t [g] x1 u MM_TYPE_PAGE_TABLE m Hwf1 Hw1)
    as (r2 & s2 & x2 & E2 & Hwf2 & St2 & Hfr2 & Hw2 & He2 & Hr2);
    [cbn; lia|idxs|done|done|cbn [app]; by rewrite Hm2|].
  cbn [app] in *. exists r1, s1, r2, s2, x2. rewrite He1. split_and!; [done|done|done|done| |done|done|].
  - eapply pt_step_trans; [apply (wf_map _ _ _ Hwf)| |done].
    eapply pt_step_weaken; [|done]. by exists [u].
  - intros HN d Hd. rewrite Hs2 in *. destruct r2 as [a|]; [|naive_solver].
    destruct Hr2 as (_ & k & Hk & _ & -> & _ & Hz & _). apply (ld_zero 8). intros b Hb.
    pose proof (entry_in_page k d Hk Hd). apply Hz. lia.
Qed.

(** Building tables keeps every block entry. *)
Lemma block_kept s s2 t addr x2 a :
  pt_wf 2 s t -> pt_step 2 s s2 t [pgd_index addr; pud_index addr] ->
  walk (ram s2) t [pgd_index addr; pud_index addr] = Some x2 ->
  (walk (ram s) t [pgd_index addr; pud_index addr] = None ->
   forall d, idx_ok d -> ld64 (ram s2) (entry_addr x2 d) = 0) ->
  0 <= a -> block (ram s2) t a = block (ram s) t a.
Proof.
  intros Hwf St Hw2 Hz Ha0.
  unfold block. pose proof (kpath_ok a Ha0) as Hka. unfold kpath in Hka.
  pose proof Hka as (Hga & (Hua & (Hda & _)%Forall_cons)%Forall_cons)%Forall_cons.
  assert (Hq : Forall idx_ok [pgd_index a; pud_index a]) by idxs.
  destruct (walk (ram s) t [pgd_index a; pud_index a]) as [y|] eqn:Ey.
  - rewrite (step_old _ _ _ _ _ St [pgd_index a; pud_index a] y ltac:(cbn; lia) Hq Ey).
    by apply (leaf_entry_kept s s2 t [pgd_index addr; pud_index addr] [pgd_index a; pud_index a]).
  - destruct (walk (ram s2) t [pgd_index a; pud_index a]) as [y|] eqn:Ey2; [|done].
    destruct (step_new _ _ _ _ _ St [pgd_index a; pud_index a] y ltac:(cbn; lia) Hq Ey2) as [|[Hpre _]]; [congruence|].
    apply prefix_same_length in Hpre as [= Eg Eu]; [|done]. rewrite Eg, Eu in Ey2. rewrite Hw2 in Ey2.
    injection Ey2 as <-. apply Hz; [by rewrite <- Eg, <- Eu|done].
Qed.

(** One section: the absent block entry is filled, every other is kept. *)
Lemma map_kernel_section_spec s t m pa addr flags :
  flags_ok flags -> 0 <= addr -> pt_wf 2 s t ->
  free_ge (mem_map s) (missing (ram s) t [pgd_index addr] +
                       missing (ram s) t [pgd_index addr; pud_index addr] + m) ->
  exists s', map_kernel_section (__va t) s pa addr flags = Some s' /\
    pt_wf 2 s' t /\ free_ge (mem_map s') m /\ (forall b, foreign s t b -> foreign s' t b /\ ldb (ram s') b = ldb (ram s) b) /\
    forall a, 0 <= a -> block (ram s') t a =
      if decide (kpath a = kpath addr) then
        if block (ram s) t addr =? 0 then u64 (Z.lor (Z.land pa (Z.lnot SECTION_MASK)) flags)
        else block (ram s) t addr
      else block (ram s) t a.
Proof.
  intros Hf Ha Hwf Hfree. pose proof (kpath_ok addr Ha) as Hkp. unfold kpath in Hkp.
  pose proof Hkp as (Hg & (Hu & (Hd & _)%Forall_cons)%Forall_cons)%Forall_cons.
  destruct (kernel_tables_spec s t m _ _ Hg Hu Hwf Hfree)
    as (r1 & s1 & r2 & s2 & x2 & E1 & (E2 & Ex) & Hwf2 & St & Hfr & Hw2 & Hz).
  unfold map_kernel_section.
  assert (negb (flags =? MMU_FLAGS) && negb (flags =? MMU_DEVICE_FLAGS) = false) as ->
    by (destruct Hf as [-> | ->]; done).
  change (u64 (__va t + Z.shiftl (pgd_index addr) ENTRY_SHIFT)) with (entry_addr t (pgd_index addr)).
  rewrite E1. cbn [mbind option_bind]. rewrite E2. cbn [mbind option_bind]. rewrite Ex.
  pose proof (fun b => foreign_step s s2 t _ b St) as Hfo.
  assert (Hblk : forall a, 0 <= a -> block (ram s2) t a = block (ram s) t a).
  { intros. by eapply (block_kept s s2 t addr x2). }
  assert (Hb2 : ld64 (ram s2) (entry_addr x2 (pmd_index addr)) = block (ram s) t addr).
  { rewrite <- Hblk by done. unfold block. by rewrite Hw2. }
  rewrite Hb2. destruct (Z.eqb_spec (block (ram s) t addr) 0) as [H0|Hne].
  - assert (Hq2 : Forall idx_ok [pgd_index addr; pud_index addr]) by idxs.
    eexists. split_and!; [done|by eapply leaf_store_wf|done| |].
    + intros b Hb. destruct (Hfo b Hb) as [Hb2' Eb]. cbn [ram set_entry]. split.
      * destruct Hb2' as [Hp (x & Hx1 & Hx2 & Hx3 & Hx4)]. split; [done|]. exists x. split_and!; try done; try lia. intros p Hl Hpi. cbn [ram set_entry].
        rewrite (walk_store_leaf 2 s2 t [pgd_index addr; pud_index addr] x2) by (done || idxs). by apply Hx4.
      * rewrite (ldb_st_ne 8); [done|]. by apply (foreign_entry s2 t [pgd_index addr; pud_index addr]).
    + intros a Ha0. rewrite <- Hblk by done. pose proof (kpath_ok a Ha0) as Hka. unfold kpath in *.
      pose proof Hka as (Hga & (Hua & (Hda & _)%Forall_cons)%Forall_cons)%Forall_cons.
      unfold block. cbn [ram set_entry].
      rewrite (walk_store_leaf 2 s2 t [pgd_index addr; pud_index addr] x2) by (done || idxs).
      destruct (walk (ram s2) t [pgd_index a; pud_index a]) as [y|] eqn:Ey.
      * case_decide as Hdec.
        -- injection Hdec as Eg Eu Ed. rewrite Eg, Eu in Ey. rewrite Hw2 in Ey. injection Ey as <-.
           rewrite Ed. apply (ld_st_mod 8).
        -- assert (Hqa : Forall idx_ok [pgd_index a; pud_index a]) by idxs.
           assert (y <> x2 \/ pmd_index a <> pmd_index addr) as Hsep.
           { destruct (decide (y = x2)) as [->|]; [|by left]. right. intros Ed.
             pose proof (wf_tree _ _ _ Hwf2 [pgd_index a; pud_index a] [pgd_index addr; pud_index addr] x2 ltac:(cbn; lia) ltac:(cbn; lia) Hqa Hq2 Ey Hw2) as [= Eg Eu].
             by rewrite Eg, Eu, Ed in Hdec. }
           apply (ld_st_ne 8 8). destruct (entry_sep (mem_map s2) y (pmd_index a) x2 (pmd_index addr));
             [by apply (wf_ok _ _ _ Hwf2 [pgd_index a; pud_index a] y ltac:(cbn; lia) Hqa)|by apply (wf_ok _ _ _ Hwf2 [pgd_index addr; pud_index addr] x2 ltac:(cbn; lia) Hq2)
             |done..|lia|lia].
      * case_decide as Hdec; [|done]. injection Hdec as Eg Eu Ed. rewrite Eg, Eu, Hw2 in Ey. done.
  - eexists. split_and!; [done..|]. intros a Ha0. rewrite Hblk by done. case_decide as Hdec; [|done].
    injection Hdec as Eg Eu Ed. unfold block. by rewrite Eg, Eu, Ed.
Qed.

Lemma kpath_eq a :
  kpath a = [(a / 2097152 / 262144) mod 512; (a / 2097152 / 512) mod 512; (a / 2097152) mod 512].
Proof.
  unfold kpath, pgd_index, pud_index, pmd_index. rewrite !index_eq by done. by rewrite !Z.div_div by lia.
Qed.

(** Sections of a 2 GB range have different entries. *)
Lemma kpath_section_inj a k l :
  0 <= a -> 0 <= k < 1024 -> 0 <= l < 1024 ->
  kpath (a + 2097152 * k) = kpath (a + 2097152 * l) -> k = l.
Proof.
  rewrite !kpath_eq. intros Ha Hk Hl.
  rewrite !(Z.mul_comm 2097152), !Z.div_add by lia. generalize (a / 2097152). clear a Ha.
  intros a [= H1 H2 H3]. Z.div_mod_to_equations. lia.
Qed.
End KernelTables.

Section KernelRange.
Context (s0 : phys) (t pa0 addr flags cnt : Z) (extra : nat).
Hypotheses (Hf : flags_ok flags) (Ha : 0 <= addr) (Hcnt : 0 <= cnt <= 1024)
  (Hmax : addr + 2097152 * cnt <= 2 ^ 64).

Definition section_at (k : Z) : Z := addr + 2097152 * k.
Definition section_entry (k : Z) : Z :=
  u64 (Z.lor (Z.land (u64 (pa0 + 2097152 * k)) (Z.lnot SECTION_MASK)) flags).

Record sections_inv (i : Z) (s : phys) : Prop := {
  si_wf : pt_wf 2 s t;
  si_free : free_ge (mem_map s) (2 * Z.to_nat (cnt - i) + extra);
  si_frame : forall b, foreign s0 t b -> foreign s t b /\ ldb (ram s) b = ldb (ram s0) b;
  si_in : forall k a, 0 <= k < i -> 0 <= a -> kpath a = kpath (section_at k) ->
    block (ram s) t a = if block (ram s0) t a =? 0 then section_entry k else block (ram s0) t a;
  si_out : forall a, 0 <= a -> (forall k, 0 <= k < i -> kpath a <> kpath (section_at k)) ->
    block (ram s) t a = block (ram s0) t a }.

Lemma block_kpath m a b : kpath a = kpath b -> block m t a = block m t b.
Proof. intros [= E1 E2 E3]. unfold block. by rewrite E1, E2, E3. Qed.

Lemma sections_step i s :
  0 <= i < cnt -> sections_inv i s ->
  exists s', map_kernel_section (__va t) s (u64 (pa0 + s32 (Z.shiftl i SECTION_SHIFT)))
               (u64 (addr + s32 (Z.shiftl i SECTION_SHIFT))) flags = Some s' /\ sections_inv (i + 1) s'.
Proof using Hf Ha Hcnt Hmax.
  intros Hi [Hwf Hfr Hfo Hin Hout].
  assert (s32 (Z.shiftl i SECTION_SHIFT) = 2097152 * i) as ->.
  { rewrite shiftl_mul by done. change (2 ^ SECTION_SHIFT) with 2097152.
    rewrite swrap_small by (change (2 ^ (32 - 1)) with 2147483648; lia). lia. }
  rewrite (wrap_small 64 (addr + _)) by lia. fold (section_at i).
  assert (Hs : 0 <= section_at i) by (unfold section_at; lia).
  pose proof (missing_le (ram s) t [pgd_index (section_at i)]).
  pose proof (missing_le (ram s) t [pgd_index (section_at i); pud_index (section_at i)]).
  destruct (map_kernel_section_spec s t (2 * Z.to_nat (cnt - (i + 1)) + extra) (u64 (pa0 + 2097152 * i))
              (section_at i) flags) as (s' & E & Hwf' & Hfr' & Hfo' & Hblk); [done..| |].
  { eapply free_ge_mono; [|exact Hfr]. lia. }
  exists s'. split; [done|]. split; [done..| | |].
  - intros b Hb. destruct (Hfo b Hb) as [Hb1 E1]. destruct (Hfo' b Hb1) as [Hb2 E2]. split; [done|congruence].
  - intros k a Hk Ha0 Ek. rewrite Hblk by done. destruct (decide (k = i)) as [->|Hne].
    + rewrite decide_True by done. rewrite <- (block_kpath _ _ _ Ek).
      rewrite (Hout a Ha0); [done|]. intros k' Hk' E'. rewrite Ek in E'.
      apply kpath_section_inj in E'; lia.
    + rewrite decide_False; [apply Hin; [lia|done..]|]. intros E'. rewrite Ek in E'.
      apply kpath_section_inj in E'; lia.
  - intros a Ha0 Hne. rewrite Hblk by done. rewrite decide_False by (apply Hne; lia).
    apply Hout; [done|]. intros k Hk. apply Hne. lia.
Qed.

Lemma sections_loop :
  sections_inv 0 s0 ->
  exists s', for_up (Z.to_nat cnt) 0
    (fun i s => map_kernel_section (__va t) s (u64 (pa0 + s32 (Z.shiftl i SECTION_SHIFT)))
                  (u64 (addr + s32 (Z.shiftl i SECTION_SHIFT))) flags) s0 = Some s' /\ sections_inv cnt s'.
Proof using Hf Ha Hcnt Hmax.
  intros H. destruct (for_up_inv sections_inv
    (fun i s => map_kernel_section (__va t) s (u64 (pa0 + s32 (Z.shiftl i SECTION_SHIFT)))
                  (u64 (addr + s32 (Z.shiftl i SECTION_SHIFT))) flags) (Z.to_nat cnt) 0 s0 H) as (s' & E & Hs').
  - intros i s Hi Hinv. apply sections_step; [lia|done].
  - exists s'. split; [done|]. by replace cnt with (0 + Z.of_nat (Z.to_nat cnt)) by lia.
Qed.
End KernelRange.

(** [init_mm]: map the flash and report whether the image is too large. *)
Definition PFLASH1_PA_BASE : Z := 0x04000000.
Definition PFLASH1_BASE : Z := 0xffff000400000000.
Definition PFLASH1_SIZE : Z := 64 * 1024 * 1024.

Definition init_mm (pgd img_end : Z) (s : phys) : option (phys * bool) :=
  let! s := map_kernel_sections pgd s PFLASH1_PA_BASE PFLASH1_BASE PFLASH1_SIZE MMU_DEVICE_FLAGS in
  Some (s, HIGH_MEM <? __pa img_end).

Section Sizes.
Lemma units_eq size shift : 0 <= size -> 0 <= shift -> units size shift = (size + 2 ^ shift - 1) / 2 ^ shift.
Proof.
  intros Hs Hh. unfold units. rewrite (shiftl_mul 1), Z.mul_1_l, land_mask, shiftr_div by done.
  pose proof (Z.pow_pos_nonneg 2 shift ltac:(lia) Hh). generalize dependent (2 ^ shift). intros P HP.
  zcase; cbn; Z.div_mod_to_equations; nia.
Qed.

Lemma units_0 shift : 0 <= shift -> units 0 shift = 0.
Proof.
  intros. rewrite units_eq by done. apply Z.div_small.
  pose proof (Z.pow_pos_nonneg 2 shift). lia.
Qed.
End Sizes.

(** ** The fields of a [struct mm_struct] are 64-bit words *)

Section Words.
Implicit Types (s : phys) (mm : mm_struct) (addr : Z).

Definition word (x : Z) : Prop := 0 <= x < 18446744073709551616.
Record words_ok mm : Prop := {
  wo_pgd : word (pgd mm);
  wo_vma : Forall (fun v => word (va v) /\ word (pa v)) (vma mm);
  wo_pgtbl : Forall word (pgtbl_page mm);
  wo_vmas : Z.of_nat (length (vma mm)) = MAX_USER_PAGES;
  wo_pgtbls : Z.of_nat (length (pgtbl_page mm)) = MAX_PGTBL_PAGES }.

Lemma word_u64 x : word (u64 x).
Proof. apply (wrap_range 64). lia. Qed.

Lemma arr_set_Forall {X : Type} (P : X -> Prop) (l l' : list X) i x :
  arr_set l i x = Some l' -> Forall P l -> P x -> Forall P l' /\ length l' = length l.
Proof.
  unfold arr_set. destruct (_ && _); [|done]. intros [= <-] Hl Hx. split; [by apply Forall_insert|apply length_insert].
Qed.

Lemma user_level_words s mm idx e s' mm' idx' :
  user_level s mm idx e = Some (s', mm', idx') -> words_ok mm -> words_ok mm'.
Proof.
  unfold user_level, fill_entry, get_free_page, record_table. destruct (ld64 (ram s) e =? 0).
  - destruct (alloc_page (mem_map s)) as [[k|] mmap]; [|done]. rewrite !bind_Some. intros E [Hp Hv Ht Hlv Hlt].
    destruct (arr_set _ _ _) as [l|] eqn:El; [|done]. rewrite !bind_Some in E. injection E as _ <- _.
    destruct (arr_set_Forall word _ _ _ _ El Ht) as [Hl Hn]; [apply word_u64|]. split; cbn; rewrite ?Hn; done.
  - rewrite !bind_Some. by intros [= _ <- _].
Qed.

Lemma word_entry x : word x -> word (ENTRY_GET_ADDR x).
Proof.
  intros Hx. unfold ENTRY_GET_ADDR. change PAGE_MASK with (2 ^ 12 - 1). unfold word in *. rewrite land_lnot_mask by done.
  change (2 ^ 12) with 4096. Z.div_mod_to_equations. lia.
Qed.

Lemma alloc_user_page_words s mm addr s' mm' :
  alloc_user_page s mm addr = Some (s', mm') -> word addr -> words_ok mm -> words_ok mm'.
Proof.
  unfold alloc_user_page. intros E Ha Hw.
  destruct (user_level _ _ _ _) as [[[s1 mm1] i1]|] eqn:E1; [rewrite bind_Some in E|done]. apply user_level_words in E1; [|done].
  destruct (user_level s1 _ _ _) as [[[s2 mm2] i2]|] eqn:E2; [rewrite bind_Some in E|done]. apply user_level_words in E2; [|done].
  destruct (user_level s2 _ _ _) as [[[s3 mm3] i3]|] eqn:E3; [rewrite bind_Some in E|done]. apply user_level_words in E3; [|done].
  destruct (fill_entry s3 _ _) as [[r s4]|]; [rewrite bind_Some in E|done].
  unfold record_vma in E. destruct (_ <? MAX_USER_PAGES); [|by injection E as _ <-].
  destruct (arr_set _ _ _) as [l|] eqn:El; [|done]. rewrite !bind_Some in E. injection E as _ <-.
  destruct E3 as [Hp Hv Ht Hlv Hlt]. destruct (arr_set_Forall _ _ _ _ _ El Hv) as [Hl Hn].
  { split; [done|]. cbn. apply word_entry. apply ld64_range. }
  split; cbn; rewrite ?Hn; done.
Qed.

Lemma alloc_user_pages_words s mm start size s' mm' :
  alloc_user_pages s mm start size = Some (s', mm') -> words_ok mm -> words_ok mm'.
Proof.
  unfold alloc_user_pages. destruct (_ <? 2 ^ 31); [|done]. generalize (Z.to_nat (units size PAGE_SHIFT)), 0.
  intros k. revert s mm. induction k as [|k IH]; intros s mm i E Hw; cbn [for_up] in E; [by injection E as <- <-|].
  destruct (alloc_user_page _ _ _) as [[s1 mm1]|] eqn:E1; [rewrite bind_Some in E|done].
  apply (IH _ _ _ E). apply (alloc_user_page_words _ _ _ _ _ E1); [apply word_u64|done].
Qed.
End Words.

(** The whole range. *)
Lemma alloc_user_pages_run s mm start i0 size top extra :
  let cnt := (size + 4095) / 4096 in
  0 <= start -> start mod 4096 = 0 -> 0 <= size ->
  start mod 2097152 + 4096 * cnt <= 2097152 -> start + 4096 * cnt <= 2 ^ 48 ->
  0 <= i0 -> i0 + cnt <= MAX_USER_PAGES -> top <= MAX_PGTBL_PAGES -> range_inv s mm start i0 cnt top extra 0 (s, mm) ->
  exists s' mm', alloc_user_pages s mm start size = Some (s', mm') /\ range_inv s mm start i0 cnt top extra cnt (s', mm').
Proof.
  intros cnt H1 H2 H3 H4 H5 H6 H7 H8 Hinv. assert (Hc : 0 <= cnt) by (apply Z.div_pos; lia).
  destruct (range_loop s mm start i0 cnt top extra) as ([s' mm'] & E & Hinv'); try done; [apply (wf_map _ _ _ (ri_wf _ _ _ _ _ _ _ _ _ Hinv))|].
  exists s', mm'. split; [|done]. unfold alloc_user_pages. rewrite units_eq by done. change (2 ^ PAGE_SHIFT) with 4096.
  replace ((size + 4096 - 1) / 4096) with cnt by (unfold cnt; f_equal; lia).
  change MAX_USER_PAGES with 16 in *. zcase; [exact E|]. change (2 ^ 31) with 2147483648 in *. lia.
Qed.

(** ** Claims *)

(** [alloc_user_page] maps [addr] to a page of DRAM, records it in the first
    free slot of [vma] and every table it had to allocate in [pgtbl_page].  If
    [addr] was not mapped the page was free before and is all zeroes; if it was,
    the mapping stays.  The tables still form a tree of pages in use, and every
    other page of the address space keeps its translation. *)
Theorem alloc_user_page_correct (s : phys) (mm : mm_struct) (n i addr : Z) :
  0 <= addr < 2 ^ 48 -> pt_wf 4 s (pgd mm) -> mm_ok s mm n -> vma_free mm i ->
  n + Z.of_nat (tables_needed (ram s) (pgd mm) addr) <= MAX_PGTBL_PAGES ->
  free_ge (mem_map s) (tables_needed (ram s) (pgd mm) addr + missing (ram s) (pgd mm) (path addr)) ->
  exists s' mm' x, alloc_user_page s mm addr = Some (s', mm') /\
    pgd mm' = pgd mm /\ pt_wf 4 s' (pgd mm') /\
    mm_ok s' mm' (n + Z.of_nat (tables_needed (ram s) (pgd mm) addr)) /\
    vma mm' = <[Z.to_nat i := {| va := addr; pa := x |}]> (vma mm) /\
    translate (ram s') (pgd mm') addr = Some x /\
    match translate (ram s) (pgd mm) addr with
    | Some y => x = y
    | None => exists k, pfn_ok k /\ x = pfn_to_pa k /\ count_of (mem_map s) k = Some 0 /\
        forall b, page_va k <= b < page_va k + 4096 -> ldb (ram s') b = 0
    end /\
    forall a, 0 <= a < 2 ^ 48 -> a / 4096 <> addr / 4096 ->
      translate (ram s') (pgd mm') a = translate (ram s) (pgd mm) a.
Proof.
  intros Ha Hwf Hmm Hv Hn Hfr.
  destruct (alloc_user_page_spec s mm n 0 i addr) as (s' & mm' & x & E & Hwf' & Hst & Hmm' & _ & Hp & Hv' & Ht & Hnew);
    [lia|done..|by rewrite Nat.add_0_r|].
  exists s', mm', x. rewrite Hp. split_and!; [done..| |].
  - destruct (translate (ram s) (pgd mm) addr) as [y|] eqn:Ey; [|by apply Hnew].
    pose proof (step_old _ _ _ _ _ Hst (path addr) y ltac:(cbn; lia) (path_ok addr ltac:(lia)) Ey).
    unfold translate in Ht. congruence.
  - intros a Ha0 Hne. apply (translate_same s s' _ a addr); [done|lia|]. by rewrite path_inj.
Qed.

(** C17: [alloc_user_pages] on an unmapped, page-aligned range inside one 2 MB block
    maps every page of it, each to its own zeroed physical page that was free,
    records them in consecutive [vma] slots, and leaves every address outside
    the range as it was. *)
Theorem alloc_user_pages_correct (s : phys) (mm : mm_struct) (n i0 start size : Z) :
  let cnt := (size + 4095) / 4096 in
  0 <= start -> start mod 4096 = 0 -> 0 <= size ->
  start mod 2097152 + 4096 * cnt <= 2097152 -> start + 4096 * cnt <= 2 ^ 48 ->
  0 <= i0 -> i0 + cnt <= MAX_USER_PAGES -> Z.of_nat (length (vma mm)) = MAX_USER_PAGES ->
  (forall j, 0 <= j < i0 -> exists v, arr_get (vma mm) j = Some v /\ pa v <> 0) ->
  (forall j, i0 <= j < i0 + cnt -> exists v, arr_get (vma mm) j = Some v /\ pa v = 0) ->
  pt_wf 4 s (pgd mm) -> mm_ok s mm n ->
  n + Z.of_nat (tables_needed (ram s) (pgd mm) start) <= MAX_PGTBL_PAGES ->
  free_ge (mem_map s) (tables_needed (ram s) (pgd mm) start + Z.to_nat cnt) ->
  (forall k, 0 <= k < cnt -> translate (ram s) (pgd mm) (start + 4096 * k) = None) ->
  exists s' mm', alloc_user_pages s mm start size = Some (s', mm') /\
    pgd mm' = pgd mm /\ pt_wf 4 s' (pgd mm') /\ (exists n', mm_ok s' mm' n') /\
    (forall k, 0 <= k < cnt -> exists q, pfn_ok q /\ count_of (mem_map s) q = Some 0 /\
       translate (ram s') (pgd mm') (start + 4096 * k) = Some (pfn_to_pa q) /\
       arr_get (vma mm') (i0 + k) = Some {| va := start + 4096 * k; pa := pfn_to_pa q |} /\
       forall b, page_va q <= b < page_va q + 4096 -> ldb (ram s') b = 0) /\
    (forall k l, 0 <= k < cnt -> 0 <= l < cnt -> k <> l ->
       translate (ram s') (pgd mm') (start + 4096 * k) <> translate (ram s') (pgd mm') (start + 4096 * l)) /\
    (forall a, 0 <= a < 2 ^ 48 -> (forall k, 0 <= k < cnt -> a / 4096 <> (start + 4096 * k) / 4096) ->
       translate (ram s') (pgd mm') a = translate (ram s) (pgd mm) a).
Proof.
  intros cnt H1 H2 H3 H4 H5 H6 H7 Hl Hu He Hwf Hmm Hn Hfr Hun.
  assert (Hc : 0 <= cnt) by (apply Z.div_pos; lia).
  destruct (alloc_user_pages_run s mm start i0 size MAX_PGTBL_PAGES 0)
    as (s' & mm' & E & [Hwf' Hp' (n' & Hmm' & _) _ _ _ _ _ Hmap Hoth _ _]); try done.
  { split; cbn [fst snd]; rewrite ?Z.add_0_r, ?Z.sub_0_r, ?Nat.add_0_r; try done; [by exists n|intros; lia|apply pt_grow_refl]. }
  cbn [fst snd] in *. exists s', mm'. unfold page_at in *. split_and!; [done|done|by rewrite Hp'|eauto|by rewrite Hp'| |by rewrite Hp'].
  - intros k l Hk Hl' Hne Heq. destruct (Hmap k Hk) as (q & _ & _ & Hq & _). rewrite Hp' in *. rewrite Hq in Heq.
    symmetry in Heq. apply (page_at_path start cnt H1 H2 Hc H5 k l Hk Hl' Hne).
    eapply (wf_tree _ _ _ Hwf'); [done|done| | |exact Hq|exact Heq]; apply path_ok; unfold page_at; lia.
Qed.

(** C37: [map_kernel_sections] (up to 2 GB, where the [int] shift of the counter is
    exact) fills the absent block entries of the range with the physical address
    of their section and the flags, keeps the entries that were present, and
    changes no other block entry. *)
Theorem map_kernel_sections_correct (s : phys) (t pa0 addr size flags : Z) :
  let cnt := (size + 2097151) / 2097152 in
  flags_ok flags -> 0 <= addr -> 0 <= size -> cnt <= 1024 -> addr + 2097152 * cnt <= 2 ^ 64 ->
  pt_wf 2 s t -> free_ge (mem_map s) (2 * Z.to_nat cnt) ->
  exists s', map_kernel_sections (__va t) s pa0 addr size flags = Some s' /\
    pt_wf 2 s' t /\
    (forall k a, 0 <= k < cnt -> 0 <= a -> kpath a = kpath (addr + 2097152 * k) ->
       block (ram s') t a =
         if block (ram s) t a =? 0
         then u64 (Z.lor (Z.land (u64 (pa0 + 2097152 * k)) (Z.lnot SECTION_MASK)) flags)
         else block (ram s) t a) /\
    (forall a, 0 <= a -> (forall k, 0 <= k < cnt -> kpath a <> kpath (addr + 2097152 * k)) ->
       block (ram s') t a = block (ram s) t a).
Proof.
  intros cnt Hf Ha Hs Hc Hmax Hwf Hfr.
  assert (0 <= cnt) by (apply Z.div_pos; lia).
  destruct (sections_loop s t pa0 addr flags cnt 0) as (s' & E & [Hwf' _ _ Hin Hout]); [done|done|lia|done| |].
  { split; rewrite ?Z.sub_0_r, ?Nat.add_0_r; try done; intros; lia. }
  exists s'. split_and!; [|done..]. unfold map_kernel_sections. rewrite units_eq by done.
  change (2 ^ SECTION_SHIFT) with 2097152.
  replace ((size + 2097152 - 1) / 2097152) with cnt by (unfold cnt; f_equal; lia).
  change (2 ^ 31) with 2147483648. zcase; [exact E|lia].
Qed.

(** [init_mm], at most 64 pages taken for the tables. *)
Lemma init_mm_spec (s : phys) (t img_end : Z) n :
  pt_wf 2 s t -> free_ge (mem_map s) (64 + n) ->
  exists s', init_mm (__va t) img_end s = Some (s', HIGH_MEM <? __pa img_end) /\ pt_wf 2 s' t /\
    free_ge (mem_map s') n /\ (forall b, foreign s t b -> ldb (ram s') b = ldb (ram s) b) /\
    forall a, PFLASH1_BASE <= a < PFLASH1_BASE + PFLASH1_SIZE -> block (ram s) t a = 0 ->
      block (ram s') t a = (a - PFLASH1_BASE + PFLASH1_PA_BASE) / 2097152 * 2097152 + MMU_DEVICE_FLAGS.
Proof.
  intros Hwf Hfr.
  destruct (sections_loop s t (2097152 * 32) 0xffff000400000000 MMU_DEVICE_FLAGS 32 n)
    as (s' & E & [Hwf' Hfr' Hfo Hin _]); [by right|lia|lia|done|split; try done; intros; lia|].
  exists s'. split_and!; [|done|exact Hfr'|by intros b Hb; apply Hfo|].
  - unfold init_mm, map_kernel_sections. change (units PFLASH1_SIZE SECTION_SHIFT) with 32.
    change (32 <? 2 ^ 31) with true. cbn iota. change (Z.to_nat 32) with 32%nat in *.
    change PFLASH1_PA_BASE with (2097152 * 32). change PFLASH1_BASE with 0xffff000400000000.
    rewrite E. done.
  - intros a Ha H0. change PFLASH1_SIZE with (2097152 * 32) in Ha.
    change PFLASH1_BASE with 0xffff000400000000 in *. change PFLASH1_PA_BASE with (2097152 * 32).
    set (k := (a - 0xffff000400000000) / 2097152).
    assert (Hk : 0 <= k < 32) by (unfold k; Z.div_mod_to_equations; lia).
    rewrite (Hin k a Hk ltac:(lia)), H0; [cbn [Z.eqb]|].
    + unfold section_entry. rewrite (wrap_small 64 (2097152 * 32 + 2097152 * k)) by (change (2 ^ 64) with 18446744073709551616; lia).
      change SECTION_MASK with (2 ^ 21 - 1). rewrite land_lnot_mask by done.
      rewrite <- Z.mul_add_distr_l, Z.mul_comm. change (2 ^ 21) with 2097152. rewrite Z.mod_mul by done.
      rewrite Z.sub_0_r, (lor_add_low _ _ 21) by (done || apply Z.mod_mul; done).
      replace ((a - 18446462615912710144 + 2097152 * 32) / 2097152) with (k + 32)
        by (unfold k; rewrite <- Z.div_add by done; f_equal; lia). change MMU_DEVICE_FLAGS with 1025.
      rewrite wrap_small; [f_equal; f_equal; lia|]. change (2 ^ 64) with 18446744073709551616. lia.
    + unfold section_at. rewrite !kpath_eq. change 0xffff000400000000 with (8795958812672 * 2097152) in *.
      rewrite (Z.mul_comm 2097152 k), <- Z.mul_add_distr_r, Z.div_mul by done.
      assert (a / 2097152 = 8795958812672 + k) as ->; [|done].
      unfold k. Z.div_mod_to_equations. lia.
Qed.

(** [init_mm] maps the 64 MB of the second flash bank: the block entry of every
    address of it is the physical section under it with the device flags. *)
Theorem init_mm_maps_flash (s : phys) (t img_end a : Z) :
  pt_wf 2 s t -> free_ge (mem_map s) 64 ->
  PFLASH1_BASE <= a < PFLASH1_BASE + PFLASH1_SIZE -> block (ram s) t a = 0 ->
  exists s', init_mm (__va t) img_end s = Some (s', HIGH_MEM <? __pa img_end) /\ pt_wf 2 s' t /\
    block (ram s') t a =
      (a - PFLASH1_BASE + PFLASH1_PA_BASE) / 2097152 * 2097152 + MMU_DEVICE_FLAGS.
Proof.
  intros Hwf Hfr Ha H0. destruct (init_mm_spec s t img_end 0 Hwf Hfr) as (s' & E & Hwf' & _ & _ & Hb).
  exists s'. split; [done|]. split; [done|]. by apply Hb.
Qed.

(** ** Witnesses *)

(** One page in use, the root of an empty address space. *)
Definition phys_root : phys :=
  {| ram := ∅; mem_map := <[3839%nat := {| p_flags := 0; p_count := 1; p_fbh := NULL |}]> mem_map_init |}.
Definition mm_root : mm_struct :=
  {| pgd := pfn_to_pa 3839; vma := replicate 16 {| va := 0; pa := 0 |}; pgtbl_page := replicate 8 NULL |}.

Lemma walk_empty t p x : walk ∅ t p = Some x -> p = [] /\ x = t.
Proof.
  destruct p as [|i p]; cbn [walk]; [by intros [= <-]|].
  rewrite (ld_zero 8); [done|]. intros. reflexivity.
Qed.

Lemma phys_root_wf N : pt_wf N phys_root (pfn_to_pa 3839).
Proof.
  split; [done| |].
  - intros p x _ _ [_ ->]%walk_empty. apply (tbl_ok_page _ 3839 1); done.
  - intros p q x _ _ _ _ [-> _]%walk_empty [-> _]%walk_empty. done.
Qed.

Lemma mm_root_ok : mm_ok phys_root mm_root 0.
Proof.
  split; [done|done| |].
  - intros j Hj. exists NULL. unfold arr_get. change MAX_PGTBL_PAGES with 8 in Hj. zcase; [|lia].
    split; [|done]. change (pgtbl_page mm_root) with (replicate 8 NULL). apply lookup_replicate_2. lia.
  - intros p x Hp _ _ [-> _]%walk_empty. done.
Qed.

Lemma mm_root_slot j : 0 <= j < 16 -> exists v, arr_get (vma mm_root) j = Some v /\ pa v = 0.
Proof.
  intros Hj. exists {| va := 0; pa := 0 |}. unfold arr_get. zcase; [|lia]. split; [|done].
  change (vma mm_root) with (replicate 16 {| va := 0; pa := 0 |}). apply lookup_replicate_2. lia.
Qed.

Lemma phys_root_free : free_ge (mem_map phys_root) 64.
Proof.
  exists (seqZ 0 64). split_and!; [apply NoDup_seqZ|done|].
  apply Forall_forall. intros k Hk%elem_of_seqZ. split; [unfold pfn_ok; rewrite PAGING_PAGES_eq; lia|].
  unfold count_of, arr_get. zcase; [|lia]. cbn [mem_map phys_root].
  rewrite list_lookup_insert_ne by lia. unfold mem_map_init.
  rewrite lookup_replicate_2; [done|]. rewrite PAGING_PAGES_eq. lia.
Qed.

Example alloc_user_page_correct_witness :
  exists s' mm' x, alloc_user_page phys_root mm_root 0x1000 = Some (s', mm') /\
    translate (ram s') (pgd mm') 0x1000 = Some x.
Proof.
  destruct (alloc_user_page_correct phys_root mm_root 0 0 0x1000)
    as (s' & mm' & x & E & _ & _ & _ & _ & Ht & _).
  - done.
  - apply phys_root_wf.
  - apply mm_root_ok.
  - split_and!; [done|done|by apply mm_root_slot|intros; lia].
  - by vm_compute.
  - eapply free_ge_mono; [|apply phys_root_free]. vm_compute; lia.
  - exists s', mm', x. split; [exact E|exact Ht].
Defined.

Example alloc_user_pages_correct_witness :
  exists s' mm' q, alloc_user_pages phys_root mm_root 0 0x2345 = Some (s', mm') /\
    translate (ram s') (pgd mm') 0x2000 = Some (pfn_to_pa q).
Proof.
  destruct (alloc_user_pages_correct phys_root mm_root 0 0 0 0x2345)
    as (s' & mm' & E & _ & _ & _ & Hk & _).
  1-8: done.
  - intros; lia.
  - intros j Hj. apply mm_root_slot. change ((0x2345 + 4095) / 4096) with 3 in Hj. lia.
  - apply phys_root_wf.
  - apply mm_root_ok.
  - by vm_compute.
  - eapply free_ge_mono; [|apply phys_root_free]. vm_compute; lia.
  - intros k _. unfold translate. destruct (walk _ _ _) eqn:Hw; [|done]. by apply walk_empty in Hw as [? _].
  - assert (H2 : 0 <= 2 < (0x2345 + 4095) / 4096) by (split; [discriminate|reflexivity]).
    destruct (Hk 2 H2) as (q & _ & _ & Hq & _). clear - E Hq. exists s', mm', q. split; [exact E|exact Hq].
Defined.

Lemma phys_root_block a : block (ram phys_root) (pfn_to_pa 3839) a = 0.
Proof. unfold block. destruct (walk _ _ _) eqn:E; [|done]. by apply walk_empty in E as [? _]. Qed.

Example map_kernel_sections_correct_witness :
  exists s', map_kernel_sections (__va (pfn_to_pa 3839)) phys_root 0x40000000 0xffff000000000000 0x600000 MMU_FLAGS
      = Some s' /\
    block (ram s') (pfn_to_pa 3839) 0xffff000000400000 = 0x40400000 + MMU_FLAGS.
Proof.
  destruct (map_kernel_sections_correct phys_root (pfn_to_pa 3839) 0x40000000 0xffff000000000000 0x600000 MMU_FLAGS)
    as (s' & E & _ & Hin & _); [by left|done..|apply phys_root_wf| |].
  - eapply free_ge_mono; [|apply phys_root_free]. vm_compute; lia.
  - exists s'. split; [exact E|]. clear E. rewrite (Hin 2), phys_root_block; [reflexivity|done..].
Defined.

Example init_mm_maps_flash_witness :
  exists s', init_mm (__va (pfn_to_pa 3839)) 0xffff00000008c000 phys_root = Some (s', false) /\
    block (ram s') (pfn_to_pa 3839) 0xffff000400345678 = 0x04200000 + MMU_DEVICE_FLAGS.
Proof.
  destruct (init_mm_maps_flash phys_root (pfn_to_pa 3839) 0xffff00000008c000 0xffff000400345678)
    as (s' & E & _ & Hb); [apply phys_root_wf|apply phys_root_free|done|apply phys_root_block|].
  exists s'. split; [exact E|exact Hb].
Defined.
