(* ===== verification/Aarch64.v ===== *)
(** arch/aarch64.c and include/aarch64.h: the system registers the kernel reads
    and writes through inline assembly.

    Each [mrs]/[msr] is an access to a field of [cpu]; DAIF is a 32-bit value
    whose mask bits are bits 6 to 9, [msr DAIFSet, imm] and [msr DAIFClr, imm]
    set and clear the bits [imm << 6]. *)

From S2P Require Import Prelude PageTable.
Local Open Scope Z_scope.

Definition CURRENT_EL_MASK : Z := 3.
Definition CURRENT_EL_SHIFT : Z := 2.
Definition DAIF_DBG_BIT : Z := Z.shiftl 1 3.
Definition DAIF_ABT_BIT : Z := Z.shiftl 1 2.
Definition DAIF_IRQ_BIT : Z := Z.shiftl 1 1.
Definition DAIF_FIQ_BIT : Z := Z.shiftl 1 0.
Definition SPSR_DAIF_SHIFT : Z := 6.
Definition CNTV_CTL_ENABLE : Z := Z.shiftl 1 0.
Definition CNTV_CTL_IMASK : Z := Z.shiftl 1 1.
Definition CNTV_CTL_ISTATUS : Z := Z.shiftl 1 2.

Record cpu := {
  CurrentEL : Z; DAIF : Z; SPSR_EL1 : Z; ISR_EL1 : Z; RVBAR_EL1 : Z; VBAR_EL1 : Z;
  CNTV_CTL_EL0 : Z; CNTFRQ_EL0 : Z; CNTVCT_EL0 : Z; CNTV_CVAL_EL0 : Z; TTBR0_EL1 : Z }.

(** ** Register writes *)

Definition set_daif (v : Z) (c : cpu) : cpu :=
  {| CurrentEL := CurrentEL c; DAIF := v; SPSR_EL1 := SPSR_EL1 c; ISR_EL1 := ISR_EL1 c;
     RVBAR_EL1 := RVBAR_EL1 c; VBAR_EL1 := VBAR_EL1 c; CNTV_CTL_EL0 := CNTV_CTL_EL0 c;
     CNTFRQ_EL0 := CNTFRQ_EL0 c; CNTVCT_EL0 := CNTVCT_EL0 c; CNTV_CVAL_EL0 := CNTV_CVAL_EL0 c;
     TTBR0_EL1 := TTBR0_EL1 c |}.
Definition set_spsr (v : Z) (c : cpu) : cpu :=
  {| CurrentEL := CurrentEL c; DAIF := DAIF c; SPSR_EL1 := v; ISR_EL1 := ISR_EL1 c;
     RVBAR_EL1 := RVBAR_EL1 c; VBAR_EL1 := VBAR_EL1 c; CNTV_CTL_EL0 := CNTV_CTL_EL0 c;
     CNTFRQ_EL0 := CNTFRQ_EL0 c; CNTVCT_EL0 := CNTVCT_EL0 c; CNTV_CVAL_EL0 := CNTV_CVAL_EL0 c;
     TTBR0_EL1 := TTBR0_EL1 c |}.
Definition set_rvbar (v : Z) (c : cpu) : cpu :=
  {| CurrentEL := CurrentEL c; DAIF := DAIF c; SPSR_EL1 := SPSR_EL1 c; ISR_EL1 := ISR_EL1 c;
     RVBAR_EL1 := v; VBAR_EL1 := VBAR_EL1 c; CNTV_CTL_EL0 := CNTV_CTL_EL0 c;
     CNTFRQ_EL0 := CNTFRQ_EL0 c; CNTVCT_EL0 := CNTVCT_EL0 c; CNTV_CVAL_EL0 := CNTV_CVAL_EL0 c;
     TTBR0_EL1 := TTBR0_EL1 c |}.
Definition set_vbar (v : Z) (c : cpu) : cpu :=
  {| CurrentEL := CurrentEL c; DAIF := DAIF c; SPSR_EL1 := SPSR_EL1 c; ISR_EL1 := ISR_EL1 c;
     RVBAR_EL1 := RVBAR_EL1 c; VBAR_EL1 := v; CNTV_CTL_EL0 := CNTV_CTL_EL0 c;
     CNTFRQ_EL0 := CNTFRQ_EL0 c; CNTVCT_EL0 := CNTVCT_EL0 c; CNTV_CVAL_EL0 := CNTV_CVAL_EL0 c;
     TTBR0_EL1 := TTBR0_EL1 c |}.
Definition set_cntv_ctl (v : Z) (c : cpu) : cpu :=
  {| CurrentEL := CurrentEL c; DAIF := DAIF c; SPSR_EL1 := SPSR_EL1 c; ISR_EL1 := ISR_EL1 c;
     RVBAR_EL1 := RVBAR_EL1 c; VBAR_EL1 := VBAR_EL1 c; CNTV_CTL_EL0 := v;
     CNTFRQ_EL0 := CNTFRQ_EL0 c; CNTVCT_EL0 := CNTVCT_EL0 c; CNTV_CVAL_EL0 := CNTV_CVAL_EL0 c;
     TTBR0_EL1 := TTBR0_EL1 c |}.
Definition set_cntfrq (v : Z) (c : cpu) : cpu :=
  {| CurrentEL := CurrentEL c; DAIF := DAIF c; SPSR_EL1 := SPSR_EL1 c; ISR_EL1 := ISR_EL1 c;
     RVBAR_EL1 := RVBAR_EL1 c; VBAR_EL1 := VBAR_EL1 c; CNTV_CTL_EL0 := CNTV_CTL_EL0 c;
     CNTFRQ_EL0 := v; CNTVCT_EL0 := CNTVCT_EL0 c; CNTV_CVAL_EL0 := CNTV_CVAL_EL0 c;
     TTBR0_EL1 := TTBR0_EL1 c |}.
Definition set_cntv_cval (v : Z) (c : cpu) : cpu :=
  {| CurrentEL := CurrentEL c; DAIF := DAIF c; SPSR_EL1 := SPSR_EL1 c; ISR_EL1 := ISR_EL1 c;
     RVBAR_EL1 := RVBAR_EL1 c; VBAR_EL1 := VBAR_EL1 c; CNTV_CTL_EL0 := CNTV_CTL_EL0 c;
     CNTFRQ_EL0 := CNTFRQ_EL0 c; CNTVCT_EL0 := CNTVCT_EL0 c; CNTV_CVAL_EL0 := v;
     TTBR0_EL1 := TTBR0_EL1 c |}.
Definition set_ttbr0 (v : Z) (c : cpu) : cpu :=
  {| CurrentEL := CurrentEL c; DAIF := DAIF c; SPSR_EL1 := SPSR_EL1 c; ISR_EL1 := ISR_EL1 c;
     RVBAR_EL1 := RVBAR_EL1 c; VBAR_EL1 := VBAR_EL1 c; CNTV_CTL_EL0 := CNTV_CTL_EL0 c;
     CNTFRQ_EL0 := CNTFRQ_EL0 c; CNTVCT_EL0 := CNTVCT_EL0 c; CNTV_CVAL_EL0 := CNTV_CVAL_EL0 c;
     TTBR0_EL1 := v |}.

(** [msr DAIFSet, imm] and [msr DAIFClr, imm]. *)
Definition daif_set (imm : Z) (c : cpu) : cpu :=
  set_daif (Z.lor (DAIF c) (Z.shiftl imm SPSR_DAIF_SHIFT)) c.
Definition daif_clr (imm : Z) (c : cpu) : cpu :=
  set_daif (Z.ldiff (DAIF c) (Z.shiftl imm SPSR_DAIF_SHIFT)) c.

(** ** The accessors *)

Definition raw_read_current_el (c : cpu) : Z := u32 (CurrentEL c).
Definition get_current_el (c : cpu) : Z :=
  Z.land (Z.shiftr (raw_read_current_el c) CURRENT_EL_SHIFT) CURRENT_EL_MASK.
Definition raw_read_daif (c : cpu) : Z := u32 (DAIF c).
Definition raw_write_daif (daif : Z) (c : cpu) : cpu := set_daif (u32 daif) c.

Definition enable_debug_exceptions (c : cpu) : cpu := daif_clr DAIF_DBG_BIT c.
Definition enable_serror_exceptions (c : cpu) : cpu := daif_clr DAIF_ABT_BIT c.
Definition enable_irq (c : cpu) : cpu := daif_clr DAIF_IRQ_BIT c.
Definition enable_fiq (c : cpu) : cpu := daif_clr DAIF_FIQ_BIT c.
Definition disable_debug_exceptions (c : cpu) : cpu := daif_set DAIF_DBG_BIT c.
Definition disable_serror_exceptions (c : cpu) : cpu := daif_set DAIF_ABT_BIT c.
Definition disable_irq (c : cpu) : cpu := daif_set DAIF_IRQ_BIT c.
Definition disable_fiq (c : cpu) : cpu := daif_set DAIF_FIQ_BIT c.

Definition raw_read_spsr_el1 (c : cpu) : Z := u32 (SPSR_EL1 c).
Definition raw_write_spsr_el1 (v : Z) (c : cpu) : cpu := set_spsr (u32 v) c.
Definition raw_read_isr_el1 (c : cpu) : Z := u32 (ISR_EL1 c).
Definition raw_read_rvbar_el1 (c : cpu) : Z := RVBAR_EL1 c.
Definition raw_write_rvbar_el1 (v : Z) (c : cpu) : cpu := set_rvbar v c.
Definition raw_read_vbar_el1 (c : cpu) : Z := VBAR_EL1 c.
Definition raw_write_vbar_el1 (v : Z) (c : cpu) : cpu := set_vbar v c.

Definition raw_read_cntv_ctl (c : cpu) : Z := u32 (CNTV_CTL_EL0 c).
Definition disable_cntv (c : cpu) : cpu :=
  set_cntv_ctl (Z.ldiff (raw_read_cntv_ctl c) CNTV_CTL_ENABLE) c.
Definition enable_cntv (c : cpu) : cpu :=
  set_cntv_ctl (Z.lor (raw_read_cntv_ctl c) CNTV_CTL_ENABLE) c.
Definition raw_read_cntfrq_el0 (c : cpu) : Z := u32 (CNTFRQ_EL0 c).
Definition raw_write_cntfrq_el0 (v : Z) (c : cpu) : cpu := set_cntfrq (u32 v) c.
Definition raw_read_cntvct_el0 (c : cpu) : Z := u64 (CNTVCT_EL0 c).
Definition raw_read_cntv_cval_el0 (c : cpu) : Z := CNTV_CVAL_EL0 c.
Definition raw_write_cntv_cval_el0 (v : Z) (c : cpu) : cpu := set_cntv_cval (u64 v) c.

(** [switch_mm]: a kernel thread ([NULL]) keeps the current table. *)
Definition switch_mm (mm : option mm_struct) (c : cpu) : cpu :=
  match mm with
  | Some mm => set_ttbr0 (pgd mm) c
  | None => c
  end.

(** ** Interrupt masking around critical sections *)

Definition disable_irqsave (c : cpu) : Z * cpu :=
  (Z.land (DAIF c) (Z.shiftl DAIF_IRQ_BIT SPSR_DAIF_SHIFT), daif_set DAIF_IRQ_BIT c).
Definition enable_irqsave (flag : Z) (c : cpu) : cpu :=
  if Z.land flag (Z.shiftl DAIF_IRQ_BIT SPSR_DAIF_SHIFT) =? 0 then daif_clr DAIF_IRQ_BIT c else c.

Definition irq_masked (c : cpu) : bool := Z.testbit (DAIF c) 7.

Section Irq.
Implicit Types (c : cpu).

Lemma set_daif_twice a b c : set_daif a (set_daif b c) = set_daif a c.
Proof. done. Qed.
Lemma set_daif_id c : set_daif (DAIF c) c = c.
Proof. by destruct c. Qed.

Lemma irq_flag_zero x : (Z.land x (Z.shiftl DAIF_IRQ_BIT SPSR_DAIF_SHIFT) =? 0) = negb (Z.testbit x 7).
Proof.
  change (Z.shiftl DAIF_IRQ_BIT SPSR_DAIF_SHIFT) with (2 ^ 7).
  destruct (Z.testbit x 7) eqn:E; cbn [negb].
  - apply Z.eqb_neq. intros H. apply (f_equal (fun y => Z.testbit y 7)) in H.
    rewrite Z.land_spec, E, Z.pow2_bits_true, Z.bits_0 in H by lia. done.
  - apply Z.eqb_eq, Z.bits_inj'. intros i Hi. rewrite Z.land_spec, Z.bits_0.
    destruct (decide (i = 7)) as [->|]; [by rewrite E|].
    by rewrite Z.pow2_bits_false, andb_false_r by lia.
Qed.

Lemma irq_flag_land x :
  (Z.land (Z.land x (Z.shiftl DAIF_IRQ_BIT SPSR_DAIF_SHIFT)) (Z.shiftl DAIF_IRQ_BIT SPSR_DAIF_SHIFT) =? 0) =
  negb (Z.testbit x 7).
Proof. by rewrite <- Z.land_assoc, Z.land_diag, irq_flag_zero. Qed.

(** Setting the bit and restoring it. *)
Lemma irqsave_restore c : enable_irqsave (disable_irqsave c).1 (disable_irqsave c).2 = c.
Proof.
  unfold enable_irqsave, disable_irqsave, daif_set, daif_clr. cbn [fst snd]. rewrite irq_flag_land.
  change (Z.shiftl DAIF_IRQ_BIT SPSR_DAIF_SHIFT) with (2 ^ 7). cbn [DAIF set_daif].
  destruct (Z.testbit (DAIF c) 7) eqn:E; cbn [negb]; rewrite ?set_daif_twice.
  - replace (Z.lor (DAIF c) (2 ^ 7)) with (DAIF c); [by apply set_daif_id|].
    apply Z.bits_inj'. intros i Hi. rewrite Z.lor_spec, Z.pow2_bits_eqb by lia.
    destruct (Z.eqb_spec 7 i) as [<-|]; [by rewrite E|by rewrite orb_false_r].
  - replace (Z.ldiff (Z.lor (DAIF c) (2 ^ 7)) (2 ^ 7)) with (DAIF c); [by apply set_daif_id|].
    apply Z.bits_inj'. intros i Hi. rewrite Z.ldiff_spec, Z.lor_spec, Z.pow2_bits_eqb by lia.
    destruct (Z.eqb_spec 7 i) as [<-|]; [by rewrite E|by rewrite orb_false_r, andb_true_r].
Qed.

Lemma disable_irqsave_masked c : irq_masked (disable_irqsave c).2 = true.
Proof.
  unfold irq_masked, disable_irqsave, daif_set. cbn [snd DAIF set_daif].
  rewrite Z.lor_spec. apply orb_true_r.
Qed.
End Irq.

(** ** Claims *)

(** Critical sections nest: both sections run with interrupts masked, leaving
    the inner one keeps them masked, and leaving the outer one restores the
    exact register state the code started from. *)
Theorem irqsave_nests (c : cpu) :
  let (f1, c1) := disable_irqsave c in
  let (f2, c2) := disable_irqsave c1 in
  irq_masked c1 = true /\ irq_masked c2 = true /\
  enable_irqsave f2 c2 = c1 /\ enable_irqsave f1 (enable_irqsave f2 c2) = c.
Proof.
  pose proof (irqsave_restore c) as H1. pose proof (disable_irqsave_masked c) as M1.
  destruct (disable_irqsave c) as [f1 c1]. cbn [fst snd] in *.
  pose proof (irqsave_restore c1) as H2. pose proof (disable_irqsave_masked c1) as M2.
  destruct (disable_irqsave c1) as [f2 c2]. cbn [fst snd] in *. by rewrite H2.
Qed.
