(* ===== verification/Start.v ===== *)
(** arch/start.S: from the reset to the first C function.

    With the MMU off, [_start] builds the kernel's page tables at [pg_tbl_start]
    and a temporary identity map at [ram_tbl_start], loads the translation
    registers and turns the MMU on.  A store goes to a physical address; the
    memory is indexed by the address the linear map gives it ([__va]). *)

From S2P Require Import Prelude Mem Page PageTable Aarch64.
Local Open Scope Z_scope.

Definition UART_PA_BASE : Z := 0x09000000.
Definition UART_BASE : Z := 0xffff00003fc00000.
Definition QEMU_VIRT_GIC_PA_BASE : Z := 0x08000000.
Definition QEMU_VIRT_GIC_BASE : Z := 0xffff00003fe00000.

Definition TCR_T0SZ : Z := 64 - 48.
Definition TCR_T1SZ : Z := Z.shiftl (64 - 48) 16.
Definition TCR_TG0_4K : Z := Z.shiftl 0 14.
Definition TCR_TG1_4K : Z := Z.shiftl 2 30.
Definition TCR_VALUE : Z := Z.lor (Z.lor (Z.lor TCR_T0SZ TCR_T1SZ) TCR_TG0_4K) TCR_TG1_4K.
Definition MT_DEVICE_nGnRnE_FLAGS : Z := 0x00.
Definition MT_NORMAL_NC_FLAGS : Z := 0x44.
Definition MAIR_VALUE : Z :=
  Z.lor (Z.shiftl MT_DEVICE_nGnRnE_FLAGS (8 * MT_DEVICE_nGnRnE)) (Z.shiftl MT_NORMAL_NC_FLAGS (8 * MT_NORMAL_NC)).

Definition SCTLR_RESERVED : Z :=
  Z.lor (Z.lor (Z.lor (Z.shiftl 3 28) (Z.shiftl 3 22)) (Z.shiftl 1 20)) (Z.shiftl 1 11).
Definition SCTLR_EE_LITTLE_ENDIAN : Z := Z.shiftl 0 25.
Definition SCTLR_I_CACHE_DISABLED : Z := Z.shiftl 0 12.
Definition SCTLR_D_CACHE_DISABLED : Z := Z.shiftl 0 2.
Definition SCTLR_MMU_DISABLED : Z := Z.shiftl 0 0.
Definition SCTLR_VALUE_MMU_DISABLED : Z :=
  Z.lor (Z.lor (Z.lor (Z.lor SCTLR_RESERVED SCTLR_EE_LITTLE_ENDIAN) SCTLR_I_CACHE_DISABLED) SCTLR_D_CACHE_DISABLED) SCTLR_MMU_DISABLED.

(** The registers only [_start] writes; [s3_1_c15_c2_1] is CPUECTLR. *)
Record mmu_regs := { SCTLR_EL1 : Z; TTBR1_EL1 : Z; TCR_EL1 : Z; MAIR_EL1 : Z; CPUECTLR_EL1 : Z }.

(** [str v, [pa]] with the MMU off. *)
Definition str_pa (m : mem) (pa v : Z) : mem := st64 m (__va pa) v.

(** The page of a symbol: [adrp]. *)
Definition adrp (sym : Z) : Z := Z.land sym (Z.lnot PAGE_MASK).

(** Lines 42 to 53: the entries from [x8] on, until [x8] exceeds 509. *)
Fixpoint pmd_loop (fuel : nat) (x3 x6 x7 x8 : Z) (m : mem) : option (Z * mem) :=
  match fuel with
  | O => None
  | S fuel =>
      let x9 := Z.shiftl x8 3 in
      let x10 := Z.lor (x6 + x7) MMU_FLAGS in
      let x12 := x3 + x9 in
      let m := str_pa m x12 x10 in
      let x7 := x7 + SECTION_SIZE in
      let x8 := x8 + 1 in
      if x8 <=? 509 then pmd_loop fuel x3 x6 x7 x8 m else Some (x8, m)
  end.

(** The kernel map: DRAM by sections, the UART, the interrupt controller. *)
Definition kernel_tables (pg_tbl_start : Z) (m : mem) : option mem :=
  let x1 := adrp pg_tbl_start in
  let x2 := x1 + PAGE_SIZE in
  let x3 := x2 + PAGE_SIZE in
  let m := str_pa m x1 (Z.lor x2 MM_TYPE_PAGE_TABLE) in
  let m := str_pa m x2 (Z.lor x3 MM_TYPE_PAGE_TABLE) in
  let! '(x8, m) := pmd_loop 510 x3 MEM_BASE 0 0 m in
  let m := str_pa m (x3 + Z.shiftl x8 3) (Z.lor UART_PA_BASE MMU_DEVICE_FLAGS) in
  let x8 := x8 + 1 in
  Some (str_pa m (x3 + Z.shiftl x8 3) (Z.lor QEMU_VIRT_GIC_PA_BASE MMU_DEVICE_FLAGS)).

(** The temporary map: the first section of DRAM at its own address. *)
Definition dram_tables (ram_tbl_start : Z) (m : mem) : mem :=
  let x1 := adrp ram_tbl_start in
  let x2 := x1 + PAGE_SIZE in
  let x3 := x2 + PAGE_SIZE in
  let m := str_pa m x1 (Z.lor x2 MM_TYPE_PAGE_TABLE) in
  let m := str_pa m (x2 + 8) (Z.lor x3 MM_TYPE_PAGE_TABLE) in
  str_pa m (x3 + Z.shiftl 0 3) (Z.lor (MEM_BASE + 0) MMU_FLAGS).

Record reset := { r_ram : mem; r_cpu : cpu; r_mmu : mmu_regs; r_sp : Z }.

(** The symbols of the tables are physical addresses here ([adrp] is relative to
    the program counter), those of the vectors and of the stack linked ones. *)
Definition _start (pg_tbl_start ram_tbl_start vector_table_el1 __init_stack_top : Z) (r : reset) : option reset :=
  let! m := kernel_tables pg_tbl_start (r_ram r) in
  let m := dram_tables ram_tbl_start m in
  let sctlr := SCTLR_VALUE_MMU_DISABLED in
  let sctlr := Z.lor sctlr (Z.shiftl 1 2) in
  let sctlr := Z.lor sctlr (Z.shiftl 1 12) in
  let sctlr := Z.lor sctlr 1 in
  Some {| r_ram := m;
          r_cpu := set_vbar vector_table_el1 (set_ttbr0 (adrp ram_tbl_start) (r_cpu r));
          r_mmu := {| SCTLR_EL1 := sctlr; TTBR1_EL1 := adrp pg_tbl_start; TCR_EL1 := TCR_VALUE; MAIR_EL1 := MAIR_VALUE;
                      CPUECTLR_EL1 := Z.lor (CPUECTLR_EL1 (r_mmu r)) (Z.shiftl 1 6) |};
          r_sp := __init_stack_top |}.

(** ** Entries *)

(** A page-aligned physical address of DRAM. *)
Definition dram_page (t : Z) : Prop := t mod 4096 = 0 /\ MEM_BASE <= t < 0x80000000.

Section Tables.
Implicit Types (m : mem) (t i u v x a b : Z).

Lemma adrp_page t : dram_page t -> adrp t = t.
Proof.
  intros [Ha Hr]. unfold adrp. change PAGE_MASK with (2 ^ 12 - 1). rewrite land_lnot_mask by done.
  change (2 ^ 12) with 4096. lia.
Qed.

Lemma entry_of_page t f : dram_page t -> 0 <= f < 4096 -> Z.lor t f = t + f /\ ENTRY_GET_ADDR (Z.lor t f) = t.
Proof.
  intros [Ha Hr] Hf. change 4096 with (2 ^ 12) in Ha. assert (E : Z.lor t f = t + f) by (by apply (lor_add_low _ _ 12)).
  split; [done|]. rewrite E. unfold ENTRY_GET_ADDR. change PAGE_MASK with (2 ^ 12 - 1). rewrite land_lnot_mask by done.
  change (2 ^ 12) with 4096 in *. word_lia.
Qed.

(** The address of an entry, as [_start] computes it. *)
Lemma entry_pa t i : dram_page t -> idx_ok i -> __va (t + 8 * i) = entry_addr t i.
Proof.
  intros [Ha Hr] Hi. rewrite entry_addr_eq, __va_dram; [lia| |done|done]. unfold idx_ok in Hi. word_lia.
Qed.

(** A store changes one entry, and the bytes of its page. *)
Lemma entry_store m t i v t' i' :
  dram_page t -> dram_page t' -> idx_ok i -> idx_ok i' -> 0 <= v < 2 ^ 64 ->
  ld64 (str_pa m (t + 8 * i) v) (entry_addr t' i') = if (t =? t') && (i =? i') then v else ld64 m (entry_addr t' i').
Proof.
  intros Ht Ht' Hi Hi' Hv. unfold str_pa. rewrite entry_pa by done.
  destruct (Z.eqb_spec t t') as [->|Hne]; [destruct (Z.eqb_spec i i') as [->|Hne]|]; cbn [andb].
  - by apply ld64_st64_eq.
  - apply (ld_st_ne 8 8). rewrite !entry_addr_eq by (done || apply Ht'). lia.
  - apply (ld_st_ne 8 8). destruct Ht as [Ha Hr], Ht' as [Ha' Hr']. rewrite !entry_addr_eq by done.
    unfold idx_ok in *. Z.div_mod_to_equations. lia.
Qed.

Lemma entry_store_byte m t i v b :
  dram_page t -> idx_ok i -> ~ __va t <= b < __va t + 4096 -> ldb (str_pa m (t + 8 * i) v) b = ldb m b.
Proof.
  intros Ht Hi Hb. unfold str_pa. rewrite entry_pa by done. pose proof (entry_in_table t i (proj2 Ht) Hi).
  apply ldb_st_ne. lia.
Qed.
Lemma section_lor j : idx_ok j ->
  Z.lor (MEM_BASE + SECTION_SIZE * j) MMU_FLAGS = MEM_BASE + SECTION_SIZE * j + MMU_FLAGS /\ dram_page (MEM_BASE + SECTION_SIZE * j).
Proof.
  intros Hj. unfold idx_ok in Hj. change MEM_BASE with 0x40000000. change SECTION_SIZE with 2097152.
  assert (Hp : dram_page (0x40000000 + 2097152 * j)) by (split; change MEM_BASE with 0x40000000; word_lia).
  split; [|done]. apply entry_of_page; [done|]. split; reflexivity || discriminate.
Qed.

(** The loop fills the entries from [i] on. *)
Lemma pmd_loop_spec t k m i :
  dram_page t -> 0 <= i -> i + Z.of_nat k = 509 ->
  exists m', pmd_loop (S k) t MEM_BASE (SECTION_SIZE * i) i m = Some (510, m') /\
    (forall t' j, dram_page t' -> idx_ok j -> ld64 m' (entry_addr t' j) =
      if (t =? t') && (i <=? j) && (j <? 510) then Z.lor (MEM_BASE + SECTION_SIZE * j) MMU_FLAGS else ld64 m (entry_addr t' j)) /\
    (forall b, ~ __va t <= b < __va t + 4096 -> ldb m' b = ldb m b).
Proof.
  intros Ht. revert m i. induction k as [|k IH]; intros m i Hi Hk.
  all: assert (Hix : idx_ok i) by (unfold idx_ok; lia).
  all: assert (Hv : 0 <= Z.lor (MEM_BASE + SECTION_SIZE * i) MMU_FLAGS < 2 ^ 64)
    by (destruct (section_lor i) as [-> _]; [done|unfold idx_ok in Hix; change MEM_BASE with 0x40000000; change SECTION_SIZE with 2097152; change MMU_FLAGS with 1029; lia]).
  all: pose proof (entry_store m t i (Z.lor (MEM_BASE + SECTION_SIZE * i) MMU_FLAGS)) as Hst.
  all: pose proof (fun b => entry_store_byte m t i (Z.lor (MEM_BASE + SECTION_SIZE * i) MMU_FLAGS) b Ht Hix) as Hby.
  all: cbn [pmd_loop]; rewrite shiftl_mul by done; change (i * 2 ^ 3) with (i * 8); rewrite (Z.mul_comm i 8).
  - zcase; [lia|]. replace (i + 1) with 510 by lia. eexists. split; [done|]. split; [|exact Hby].
    intros t' j Ht' Hj. rewrite Hst by done. unfold idx_ok in Hj.
    destruct (Z.eqb_spec t t'); cbn [andb]; [|done]. zcases; try lia; try done. by replace i with j by lia.
  - zcase; [|lia]. replace (SECTION_SIZE * i + SECTION_SIZE) with (SECTION_SIZE * (i + 1)) by lia.
    destruct (IH (str_pa m (t + 8 * i) (Z.lor (MEM_BASE + SECTION_SIZE * i) MMU_FLAGS)) (i + 1)) as (m' & E & He & Hb); [lia|lia|].
    exists m'. split; [exact E|]. split; [|intros b Hb'; rewrite Hb by done; by apply Hby].
    intros t' j Ht' Hj. rewrite He by done. rewrite Hst by done. unfold idx_ok in Hj.
    destruct (Z.eqb_spec t t'); cbn [andb]; [|done]. zcases; try lia; try done. by replace i with j by lia.
Qed.
End Tables.

(** ** The tables *)

(** Three pages from [t] on: a PGD whose first entry is the PUD, a PUD whose
    entry [u] is the PMD, and a PMD with the entries [f]. *)
Record table_shape (m : mem) (t u : Z) (f : Z -> Z) : Prop := {
  ts_pgd : forall i, idx_ok i -> ld64 m (entry_addr t i) = if 0 =? i then t + 4096 + 3 else 0;
  ts_pud : forall i, idx_ok i -> ld64 m (entry_addr (t + 4096) i) = if u =? i then t + 8192 + 3 else 0;
  ts_pmd : forall i, idx_ok i -> ld64 m (entry_addr (t + 8192) i) = f i }.

Definition kernel_entry (i : Z) : Z :=
  if i <? 510 then Z.lor (MEM_BASE + SECTION_SIZE * i) MMU_FLAGS
  else if i =? 510 then Z.lor UART_PA_BASE MMU_DEVICE_FLAGS else Z.lor QEMU_VIRT_GIC_PA_BASE MMU_DEVICE_FLAGS.
Definition dram_entry (i : Z) : Z := if i =? 0 then Z.lor MEM_BASE MMU_FLAGS else 0.

(** Three pages of DRAM. *)
Definition dram_pages (t : Z) : Prop := t mod 4096 = 0 /\ MEM_BASE <= t <= 0x80000000 - 3 * 4096.
Definition in_pages (t b : Z) : Prop := __va t <= b < __va t + 3 * 4096.
Definition zero_pages (m : mem) (t : Z) : Prop := forall b, in_pages t b -> ldb m b = 0.

Section Maps.
Implicit Types (m : mem) (t i u a b : Z) (mm : list page).

Lemma pages_three t : dram_pages t -> dram_page t /\ dram_page (t + 4096) /\ dram_page (t + 8192) /\
  __va (t + 4096) = __va t + 4096 /\ __va (t + 8192) = __va t + 8192.
Proof.
  intros [Ha Hr]. change MEM_BASE with 0x40000000 in *. unfold dram_page. change MEM_BASE with 0x40000000.
  rewrite !__va_dram by (change MEM_BASE with 0x40000000; lia). Z.div_mod_to_equations. lia.
Qed.

Lemma zero_entry m t k i : dram_pages t -> zero_pages m t -> 0 <= k < 3 -> idx_ok i -> ld64 m (entry_addr (t + 4096 * k) i) = 0.
Proof.
  intros Ht Hz Hk Hi. apply (ld_zero 8). intros b Hb. apply Hz. destruct Ht as [_ Hr]. unfold in_pages.
  rewrite entry_addr_eq in Hb by (change MEM_BASE with 0x40000000 in *; done || lia).
  rewrite __va_dram by lia. unfold idx_ok in Hi. lia.
Qed.

Lemma table_shape_agree m m' t u f : dram_pages t -> (forall b, in_pages t b -> ldb m' b = ldb m b) ->
  table_shape m t u f -> table_shape m' t u f.
Proof.
  intros Ht Hb [H1 H2 H3]. destruct (pages_three t Ht) as ([_ P1] & [_ P2] & [_ P3] & V1 & V2).
  split; intros i Hi; [rewrite <- H1 by done|rewrite <- H2 by done|rewrite <- H3 by done]; apply (ld_agree 8); intros b Hbb; apply Hb; unfold in_pages.
  - pose proof (entry_in_table t i P1 Hi). lia.
  - pose proof (entry_in_table (t + 4096) i P2 Hi). lia.
  - pose proof (entry_in_table (t + 8192) i P3 Hi). lia.
Qed.

Lemma first_tables_spec m t : dram_pages t -> zero_pages m t ->
  exists m', kernel_tables t m = Some m' /\ table_shape m' t 0 kernel_entry /\ (forall b, ~ in_pages t b -> ldb m' b = ldb m b).
Proof.
  intros Ht Hz. pose proof (pages_three t Ht) as (P1 & P2 & P3 & V1 & V2).
  pose proof (zero_entry m t 0) as Z1. pose proof (zero_entry m t 1) as Z2. pose proof (zero_entry m t 2) as Z3.
  replace (t + 4096 * 0) with t in Z1 by lia. change (4096 * 1) with 4096 in Z2. change (4096 * 2) with 8192 in Z3.
  destruct (entry_of_page (t + 4096) MM_TYPE_PAGE_TABLE P2) as [E2 _]; [split; reflexivity || discriminate|].
  destruct (entry_of_page (t + 8192) MM_TYPE_PAGE_TABLE P3) as [E3 _]; [split; reflexivity || discriminate|].
  change MM_TYPE_PAGE_TABLE with 3 in *. unfold kernel_tables. rewrite (adrp_page t P1). change PAGE_SIZE with 4096.
  replace (t + 4096 + 4096) with (t + 8192) by lia. change MM_TYPE_PAGE_TABLE with 3. rewrite E2, E3.
  replace (str_pa m t (t + 4096 + 3)) with (str_pa m (t + 8 * 0) (t + 4096 + 3)) by (f_equal; lia).
  match goal with |- context [str_pa ?x (t + 4096) ?v] => replace (str_pa x (t + 4096) v) with (str_pa x (t + 4096 + 8 * 0) v) by (f_equal; lia) end.
  set (m1 := str_pa m (t + 8 * 0) (t + 4096 + 3)). set (m2 := str_pa m1 (t + 4096 + 8 * 0) (t + 8192 + 3)).
  destruct (pmd_loop_spec (t + 8192) 509 m2 0 P3 (Z.le_refl 0) eq_refl) as (m3 & E & He & Hb).
  change (SECTION_SIZE * 0) with 0 in E. rewrite E, bind_Some.
  eexists. split; [reflexivity|].
  change (Z.shiftl 510 3) with (8 * 510). change (510 + 1) with 511. change (Z.shiftl 511 3) with (8 * 511).
  assert (I0 : idx_ok 0) by (unfold idx_ok; lia). assert (I1 : idx_ok 510) by (unfold idx_ok; lia). assert (I2 : idx_ok 511) by (unfold idx_ok; lia).
  assert (W1 : 0 <= t + 4096 + 3 < 2 ^ 64) by (destruct P2; change MEM_BASE with 0x40000000 in *; lia).
  assert (W2 : 0 <= t + 8192 + 3 < 2 ^ 64) by (destruct P3; change MEM_BASE with 0x40000000 in *; lia).
  assert (W3 : 0 <= Z.lor UART_PA_BASE MMU_DEVICE_FLAGS < 2 ^ 64) by (vm_compute; split; [discriminate|reflexivity]).
  assert (W4 : 0 <= Z.lor QEMU_VIRT_GIC_PA_BASE MMU_DEVICE_FLAGS < 2 ^ 64) by (vm_compute; split; [discriminate|reflexivity]).
  assert (Hall : forall t' i, dram_page t' -> idx_ok i -> ld64 (str_pa (str_pa m3 (t + 8192 + 8 * 510) (Z.lor UART_PA_BASE MMU_DEVICE_FLAGS))
      (t + 8192 + 8 * 511) (Z.lor QEMU_VIRT_GIC_PA_BASE MMU_DEVICE_FLAGS)) (entry_addr t' i) =
    if (t + 8192 =? t') then kernel_entry i else if (t + 4096 =? t') && (0 =? i) then t + 8192 + 3 else
      if (t =? t') && (0 =? i) then t + 4096 + 3 else ld64 m (entry_addr t' i)).
  { intros t' i Ht' Hi. rewrite !entry_store, He by assumption. unfold m2, m1. rewrite !entry_store by assumption. unfold kernel_entry.
    unfold idx_ok in Hi. destruct (Z.eqb_spec (t + 8192) t'); cbn [andb]; [|done]. zcases; done || lia. }
  split; [split|].
  - intros i Hi. rewrite Hall by done. zcases; cbn [andb]; try lia; auto.
  - intros i Hi. rewrite Hall by done. zcases; cbn [andb]; try lia; auto.
  - intros i Hi. rewrite Hall by done. by rewrite Z.eqb_refl.
  - intros b Hb'. unfold in_pages in Hb'. rewrite !entry_store_byte, Hb by (assumption || lia). unfold m2, m1. rewrite !entry_store_byte by (assumption || lia). reflexivity.
Qed.

Lemma dram_tables_spec m t : dram_pages t -> zero_pages m t ->
  table_shape (dram_tables t m) t 1 dram_entry /\ (forall b, ~ in_pages t b -> ldb (dram_tables t m) b = ldb m b).
Proof.
  intros Ht Hz. pose proof (pages_three t Ht) as (P1 & P2 & P3 & V1 & V2).
  pose proof (zero_entry m t 0) as Z1. pose proof (zero_entry m t 1) as Z2. pose proof (zero_entry m t 2) as Z3.
  replace (t + 4096 * 0) with t in Z1 by lia. change (4096 * 1) with 4096 in Z2. change (4096 * 2) with 8192 in Z3.
  destruct (entry_of_page (t + 4096) MM_TYPE_PAGE_TABLE P2) as [E2 _]; [split; reflexivity || discriminate|].
  destruct (entry_of_page (t + 8192) MM_TYPE_PAGE_TABLE P3) as [E3 _]; [split; reflexivity || discriminate|].
  change MM_TYPE_PAGE_TABLE with 3 in *. unfold dram_tables. rewrite (adrp_page t P1). change PAGE_SIZE with 4096.
  replace (t + 4096 + 4096) with (t + 8192) by lia. change MM_TYPE_PAGE_TABLE with 3. rewrite E2, E3.
  change (Z.shiftl 0 3) with (8 * 0). change (MEM_BASE + 0) with MEM_BASE. change (t + 4096 + 8) with (t + 4096 + 8 * 1).
  replace (str_pa m t (t + 4096 + 3)) with (str_pa m (t + 8 * 0) (t + 4096 + 3)) by (f_equal; lia).
  assert (I0 : idx_ok 0) by (unfold idx_ok; lia). assert (I1 : idx_ok 1) by (unfold idx_ok; lia).
  assert (W1 : 0 <= t + 4096 + 3 < 2 ^ 64) by (destruct P2; change MEM_BASE with 0x40000000 in *; lia).
  assert (W2 : 0 <= t + 8192 + 3 < 2 ^ 64) by (destruct P3; change MEM_BASE with 0x40000000 in *; lia).
  assert (W3 : 0 <= Z.lor MEM_BASE MMU_FLAGS < 2 ^ 64) by (vm_compute; split; [discriminate|reflexivity]).
  split; [split|].
  - intros i Hi. rewrite !entry_store by assumption. zcases; cbn [andb]; try lia; auto.
  - intros i Hi. rewrite !entry_store by assumption. zcases; cbn [andb]; try lia; auto.
  - intros i Hi. rewrite !entry_store by assumption. unfold dram_entry. zcases; cbn [andb]; try lia; auto.
  - intros b Hb'. unfold in_pages in Hb'. rewrite !entry_store_byte by (assumption || lia). reflexivity.
Qed.

(** ** What the tables describe *)

Section Shape.
Context (m : mem) (t u : Z) (f : Z -> Z) (Ht : dram_pages t) (Hs : table_shape m t u f) (Hu : idx_ok u).

Lemma shape_next d : d = 4096 \/ d = 8192 -> t + d + 3 <> 0 /\ ENTRY_GET_ADDR (t + d + 3) = t + d.
Proof.
  intros Hd. assert (P : dram_page (t + d)) by (destruct (pages_three t Ht) as (_ & P2 & P3 & _); by destruct Hd as [-> | ->]).
  destruct (entry_of_page (t + d) 3 P) as [E1 E2]; [lia|]. rewrite E1 in E2. split; [|done]. destruct P. change MEM_BASE with 0x40000000 in *. lia.
Qed.

Lemma shape_walk p x : (length p <= 2)%nat -> Forall idx_ok p -> walk m t p = Some x ->
  p = [] /\ x = t \/ p = [0] /\ x = t + 4096 \/ p = [0; u] /\ x = t + 8192.
Proof.
  intros Hl Hp. destruct (shape_next 4096) as [N1 G1]; [by left|]. destruct (shape_next 8192) as [N2 G2]; [by right|].
  destruct p as [|i p]; [intros [= <-]; by left|]. cbn [walk]. apply Forall_cons in Hp as [Hi Hp]. rewrite (ts_pgd _ _ _ _ Hs) by done.
  destruct (Z.eqb_spec 0 i) as [<-|]; [|done]. zcase; [done|]. rewrite G1.
  destruct p as [|j p]; [intros [= <-]; right; by left|]. cbn [walk]. apply Forall_cons in Hp as [Hj Hp]. rewrite (ts_pud _ _ _ _ Hs) by done.
  destruct (Z.eqb_spec u j) as [<-|]; [|done]. zcase; [done|]. rewrite G2.
  destruct p as [|k p]; [intros [= <-]; right; by right|]. cbn in Hl. lia.
Qed.

(** Below the allocator's pages they are tables [init_mm] can work on. *)
Lemma shape_wf mm : t + 3 * 4096 <= LOW_MEM -> map_ok mm -> pt_wf 2 {| ram := m; mem_map := mm |} t.
Proof.
  intros Hlow Hm. change LOW_MEM with 0x40180000 in Hlow. pose proof (pages_three t Ht) as (P1 & P2 & P3 & _).
  assert (Hok : forall x, dram_page x -> x < 0x40180000 -> tbl_ok mm x).
  { intros x [Ha Hr] Hx. split; [done|]. split; [done|]. intros i Hi E. rewrite pfn_to_pa_eq in E by done. unfold pfn_ok in Hi. lia. }
  split; cbn [mem_map ram]; [done| |].
  - intros p x Hl Hp Hx. destruct (shape_walk p x Hl Hp Hx) as [[_ ->]|[[_ ->]|[_ ->]]]; apply Hok; done || lia.
  - intros p q x Hl Hl' Hp Hq Hx Hy.
    destruct (shape_walk p x Hl Hp Hx) as [[-> E1]|[[-> E1]|[-> E1]]], (shape_walk q x Hl' Hq Hy) as [[-> E2]|[[-> E2]|[-> E2]]]; done || lia.
Qed.

Lemma shape_block a : 0 <= a -> block m t a = if (0 =? pgd_index a) && (u =? pud_index a) then f (pmd_index a) else 0.
Proof.
  intros Ha. destruct (shape_next 4096) as [N1 G1]; [by left|]. destruct (shape_next 8192) as [N2 G2]; [by right|].
  pose proof (kpath_ok a Ha) as Hk. unfold kpath in Hk. apply Forall_cons in Hk as [I1 Hk]. apply Forall_cons in Hk as [I2 Hk]. apply Forall_cons in Hk as [I3 _].
  unfold block. cbn [walk]. rewrite (ts_pgd _ _ _ _ Hs) by done. destruct (Z.eqb_spec 0 (pgd_index a)); cbn [andb]; [|done]. zcase; [done|].
  rewrite G1, (ts_pud _ _ _ _ Hs) by done. destruct (Z.eqb_spec u (pud_index a)); cbn [andb]; [|done]. zcase; [done|].
  rewrite G2. by apply (ts_pmd _ _ _ _ Hs).
Qed.

(** A page of DRAM that is none of the three is in no table. *)
Lemma shape_foreign mm b : 0xffff000000000000 <= b < page_va 0 -> ~ in_pages t b -> foreign {| ram := m; mem_map := mm |} t b.
Proof.
  intros Hb Hn. unfold page_va in Hb. split; [rewrite PAGING_PAGES_eq; unfold page_va; lia|].
  exists (0x40000000 + (b - 0xffff000000000000) / 4096 * 4096).
  assert (Hr : MEM_BASE <= 0x40000000 + (b - 0xffff000000000000) / 4096 * 4096 < 0x80000000) by (change MEM_BASE with 0x40000000; Z.div_mod_to_equations; lia).
  split; [Z.div_mod_to_equations; lia|]. split; [done|]. rewrite __va_dram by done.
  change KERNEL_VA_START with 0xffff000000000000. change MEM_BASE with 0x40000000.
  split; [Z.div_mod_to_equations; lia|]. intros p Hl Hp Hw.
  pose proof Ht as [_ Hd]. unfold in_pages in Hn. rewrite __va_dram in Hn by (change MEM_BASE with 0x40000000 in *; lia).
  change KERNEL_VA_START with 0xffff000000000000 in Hn. change MEM_BASE with 0x40000000 in Hn, Hd.
  destruct (shape_walk p _ Hl Hp Hw) as [[_ E]|[[_ E]|[_ E]]]; Z.div_mod_to_equations; lia.
Qed.
End Shape.
End Maps.

(** ** The maps *)

Section Blocks.
Implicit Types (m : mem) (pg rt a b : Z).

Lemma kernel_indices a : KERNEL_VA_START <= a < 2 ^ 64 ->
  pgd_index a = (a - KERNEL_VA_START) / 549755813888 /\ pud_index a = (a - KERNEL_VA_START) / 1073741824 mod 512 /\
  pmd_index a = (a - KERNEL_VA_START) / 2097152 mod 512.
Proof.
  intros Ha. unfold pgd_index, pud_index, pmd_index. rewrite !index_eq by done. change KERNEL_VA_START with 0xffff000000000000 in *.
  change (2 ^ PGD_SHIFT) with 549755813888. change (2 ^ PUD_SHIFT) with 1073741824. change (2 ^ PMD_SHIFT) with 2097152.
  change (2 ^ 64) with 18446744073709551616 in Ha. split; [|split]; Z.div_mod_to_equations; lia.
Qed.

Lemma kernel_block m pg a : dram_pages pg -> table_shape m pg 0 kernel_entry -> KERNEL_VA_START <= a < 2 ^ 64 ->
  block m pg a = if a <? UART_BASE then Z.lor (__pa a / SECTION_SIZE * SECTION_SIZE) MMU_FLAGS
    else if a <? QEMU_VIRT_GIC_BASE then Z.lor UART_PA_BASE MMU_DEVICE_FLAGS
    else if a <? KERNEL_VA_START + 2 ^ 30 then Z.lor QEMU_VIRT_GIC_PA_BASE MMU_DEVICE_FLAGS else 0.
Proof.
  intros Ht Hs Ha. rewrite (shape_block m pg 0 kernel_entry) by (done || (change KERNEL_VA_START with 0xffff000000000000 in Ha; lia) || (unfold idx_ok; lia)).
  destruct (kernel_indices a Ha) as (-> & -> & ->). unfold kernel_entry, UART_BASE, QEMU_VIRT_GIC_BASE.
  change KERNEL_VA_START with 0xffff000000000000 in *. change (2 ^ 30) with 1073741824.
  destruct (Z.ltb_spec a (0xffff000000000000 + 1073741824)) as [Hlt|Hge].
  - assert (E : (a - 0xffff000000000000) / 2097152 mod 512 = (a - 0xffff000000000000) / 2097152) by word_lia. rewrite E.
    replace (0 =? (a - 0xffff000000000000) / 549755813888) with true by (symmetry; apply Z.eqb_eq; word_lia).
    replace (0 =? (a - 0xffff000000000000) / 1073741824 mod 512) with true by (symmetry; apply Z.eqb_eq; word_lia). cbn [andb].
    zcases; try done; try (Z.div_mod_to_equations; lia).
    f_equal. unfold __pa. change MEM_BASE with 0x40000000. change KERNEL_VA_START with 0xffff000000000000. change SECTION_SIZE with 2097152. word_lia.
  - zcases; try done; Z.div_mod_to_equations; lia.
Qed.

Lemma dram_block m rt a : dram_pages rt -> table_shape m rt 1 dram_entry -> 0 <= a < 2 ^ 48 ->
  block m rt a = if (MEM_BASE <=? a) && (a <? MEM_BASE + SECTION_SIZE) then Z.lor MEM_BASE MMU_FLAGS else 0.
Proof.
  intros Ht Hs Ha. rewrite (shape_block m rt 1 dram_entry) by (done || lia || (unfold idx_ok; lia)).
  unfold dram_entry, pgd_index, pud_index, pmd_index. rewrite !index_eq by done. change MEM_BASE with 0x40000000. change SECTION_SIZE with 2097152.
  change (2 ^ PGD_SHIFT) with 549755813888. change (2 ^ PUD_SHIFT) with 1073741824. change (2 ^ PMD_SHIFT) with 2097152.
  zcases; try done; Z.div_mod_to_equations; lia.
Qed.
End Blocks.

(** The linker's layout: both groups of tables in the image, below the
    allocator's pages, the temporary one right after the kernel's. *)
Record layout (pg rt : Z) : Prop := {
  ly_align : pg mod 4096 = 0;
  ly_image : IMAGE_START <= pg;
  ly_next : rt = pg + 3 * 4096;
  ly_low : rt + 3 * 4096 <= LOW_MEM }.

Lemma layout_pages pg rt : layout pg rt -> dram_pages pg /\ dram_pages rt /\ forall b, in_pages pg b -> ~ in_pages rt b.
Proof.
  intros [Ha Hi -> Hl]. change IMAGE_START with 0x40080000 in Hi. change LOW_MEM with 0x40180000 in Hl.
  assert (P1 : dram_pages pg) by (split; [done|change MEM_BASE with 0x40000000; lia]).
  assert (P2 : dram_pages (pg + 3 * 4096)) by (split; [word_lia|change MEM_BASE with 0x40000000; lia]).
  split; [done|]. split; [done|]. intros b. unfold in_pages. rewrite !__va_dram by (change MEM_BASE with 0x40000000; lia). lia.
Qed.

Lemma start_spec pg rt vec top (r : reset) :
  layout pg rt -> zero_pages (r_ram r) pg -> zero_pages (r_ram r) rt ->
  exists r', _start pg rt vec top r = Some r' /\ r_sp r' = top /\ r_cpu r' = set_vbar vec (set_ttbr0 rt (r_cpu r)) /\
    TTBR1_EL1 (r_mmu r') = pg /\ Z.testbit (SCTLR_EL1 (r_mmu r')) 0 = true /\
    table_shape (r_ram r') pg 0 kernel_entry /\ table_shape (r_ram r') rt 1 dram_entry /\
    (forall b, ~ in_pages pg b -> ~ in_pages rt b -> ldb (r_ram r') b = ldb (r_ram r) b).
Proof.
  intros Hl Hz1 Hz2. destruct (layout_pages pg rt Hl) as (P1 & P2 & Hsep).
  destruct (first_tables_spec (r_ram r) pg P1 Hz1) as (m & E & Hs & Hb).
  destruct (dram_tables_spec m rt P2) as [Hs2 Hb2]. { intros b Hb'. rewrite Hb; [by apply Hz2|]. intros Hp. by apply (Hsep b). }
  eexists. split; [unfold _start; rewrite E, bind_Some; reflexivity|]. cbn [r_sp r_cpu r_mmu r_ram TTBR1_EL1 SCTLR_EL1].
  destruct (pages_three pg P1) as (D1 & _). destruct (pages_three rt P2) as (D2 & _). rewrite !adrp_page by done.
  split; [reflexivity|]. split; [reflexivity|]. split; [reflexivity|]. split; [reflexivity|]. split; [|split; [exact Hs2|]].
  - apply (table_shape_agree m); [done| |done]. intros b Hp. apply Hb2, Hsep, Hp.
  - intros b H1 H2. rewrite Hb2 by done. by apply Hb.
Qed.

(** C7: The kernel starts on its own maps: [_start] ends, with the MMU on; through
    TTBR1 the first 1020 MB of the kernel's addresses are the DRAM, by [__pa],
    the next two sections the UART and the interrupt controller, and no other
    address is mapped; through TTBR0 the section with the image is mapped to
    itself, and nothing else.  The kernel's tables are ones [init_mm] can extend,
    and no byte outside the six pages of tables has changed. *)
Theorem start_correct (pg rt vec top : Z) (r : reset) (mm : list page) :
  layout pg rt -> zero_pages (r_ram r) pg -> zero_pages (r_ram r) rt -> map_ok mm ->
  exists r', _start pg rt vec top r = Some r' /\ r_sp r' = top /\
    Z.testbit (SCTLR_EL1 (r_mmu r')) 0 = true /\ VBAR_EL1 (r_cpu r') = vec /\
    let m := r_ram r' in
    (forall a, KERNEL_VA_START <= a < 2 ^ 64 -> block m (TTBR1_EL1 (r_mmu r')) a =
      if a <? UART_BASE then Z.lor (__pa a / SECTION_SIZE * SECTION_SIZE) MMU_FLAGS
      else if a <? QEMU_VIRT_GIC_BASE then Z.lor UART_PA_BASE MMU_DEVICE_FLAGS
      else if a <? KERNEL_VA_START + 2 ^ 30 then Z.lor QEMU_VIRT_GIC_PA_BASE MMU_DEVICE_FLAGS else 0) /\
    (forall a, 0 <= a < 2 ^ 48 -> block m (TTBR0_EL1 (r_cpu r')) a =
      if (MEM_BASE <=? a) && (a <? MEM_BASE + SECTION_SIZE) then Z.lor MEM_BASE MMU_FLAGS else 0) /\
    pt_wf 2 {| ram := m; mem_map := mm |} pg /\
    (forall b, ~ in_pages pg b -> ~ in_pages rt b -> ldb m b = ldb (r_ram r) b).
Proof.
  intros Hl Hz1 Hz2 Hm. destruct (layout_pages pg rt Hl) as (P1 & P2 & _).
  destruct (start_spec pg rt vec top r Hl Hz1 Hz2) as (r' & E & Esp & Ec & Et & Esc & Hs1 & Hs2 & Hb).
  exists r'. rewrite Ec, Et. cbn zeta. split; [exact E|]. split; [exact Esp|]. split; [exact Esc|]. split; [reflexivity|].
  split; [|split; [|split; [|exact Hb]]].
  - intros a Ha. by apply kernel_block.
  - intros a Ha. by apply dram_block.
  - destruct Hl as [_ _ -> Hlow]. apply (shape_wf (r_ram r') pg 0 kernel_entry); [exact P1|exact Hs1|lia|exact Hm].
Qed.

Definition cpu_reset : cpu :=
  {| CurrentEL := 4; DAIF := 0x3c0; SPSR_EL1 := 0; ISR_EL1 := 0; RVBAR_EL1 := 0; VBAR_EL1 := 0; CNTV_CTL_EL0 := 0;
     CNTFRQ_EL0 := 62500000; CNTVCT_EL0 := 0; CNTV_CVAL_EL0 := 0; TTBR0_EL1 := 0 |}.
Definition mmu_reset : mmu_regs := {| SCTLR_EL1 := 0; TTBR1_EL1 := 0; TCR_EL1 := 0; MAIR_EL1 := 0; CPUECTLR_EL1 := 0 |}.

Lemma layout_qemu : layout 0x40086000 0x40089000.
Proof. split; reflexivity || discriminate. Qed.

(** The UART and the first page of the allocator, after a reset. *)
Example start_correct_witness :
  exists r', _start 0x40086000 0x40089000 0xffff000000080800 0xffff000000084000 {| r_ram := ∅; r_cpu := cpu_reset; r_mmu := mmu_reset; r_sp := 0 |} = Some r' /\
    block (r_ram r') (TTBR1_EL1 (r_mmu r')) UART_BASE = 0x09000401 /\ block (r_ram r') (TTBR1_EL1 (r_mmu r')) (page_va 0) = 0x40000405 /\
    block (r_ram r') (TTBR0_EL1 (r_cpu r')) 0x40080000 = 0x40000405.
Proof.
  destruct (start_correct 0x40086000 0x40089000 0xffff000000080800 0xffff000000084000
    {| r_ram := ∅; r_cpu := cpu_reset; r_mmu := mmu_reset; r_sp := 0 |} mem_map_init layout_qemu) as (r' & E & _ & _ & _ & Hk & Hu & _).
  - intros b _. reflexivity.
  - intros b _. reflexivity.
  - exact mem_map_init_ok.
  - exists r'. split; [exact E|]. split; [|split].
    + rewrite Hk by (vm_compute; split; [discriminate|reflexivity]). vm_compute. reflexivity.
    + rewrite Hk by (vm_compute; split; [discriminate|reflexivity]). vm_compute. reflexivity.
    + rewrite Hu by (vm_compute; split; [discriminate|reflexivity]). vm_compute. reflexivity.
Defined.
