(* ===== verification/Kmalloc.v ===== *)
(** mm/kmalloc.c: the kernel's bucket allocator.

    Descriptors live in a typed heap keyed by their address; the blocks and the
    links of the free chains inside them live in the RAM of [Page.phys]. *)

From S2P Require Import Prelude Mem Lib Page PageTable Aarch64.
Local Open Scope Z_scope.

(** ** State *)

Record bucket_desc := {
  bd_page : Z; bd_next : Z; bd_freeptr : Z; bd_refcnt : Z; bd_size : Z }.
Record _bucket_dir := { bsize : Z; bchain : Z }.

(** [sizeof(struct bucket_desc)]: three pointers, two shorts, padding. *)
Definition sizeof_bucket_desc : Z := 32.

Record kheap := {
  kcpu : cpu; kphys : phys; descs : gmap Z bucket_desc;
  bucket_dir : list _bucket_dir; free_bucket_desc : Z }.

Definition bucket_dir_init : list _bucket_dir :=
  map (fun s => {| bsize := s; bchain := NULL |}) [16; 32; 64; 128; 256; 512; 1024; 2048; 4096; 0].

Definition with_next (n : Z) (d : bucket_desc) : bucket_desc :=
  {| bd_page := bd_page d; bd_next := n; bd_freeptr := bd_freeptr d; bd_refcnt := bd_refcnt d; bd_size := bd_size d |}.
Definition with_free (f : Z) (r : Z) (d : bucket_desc) : bucket_desc :=
  {| bd_page := bd_page d; bd_next := bd_next d; bd_freeptr := f; bd_refcnt := r; bd_size := bd_size d |}.

Definition set_cpu (c : cpu) (h : kheap) : kheap :=
  {| kcpu := c; kphys := kphys h; descs := descs h; bucket_dir := bucket_dir h; free_bucket_desc := free_bucket_desc h |}.
Definition set_phys (s : phys) (h : kheap) : kheap :=
  {| kcpu := kcpu h; kphys := s; descs := descs h; bucket_dir := bucket_dir h; free_bucket_desc := free_bucket_desc h |}.
Definition set_descs (m : gmap Z bucket_desc) (h : kheap) : kheap :=
  {| kcpu := kcpu h; kphys := kphys h; descs := m; bucket_dir := bucket_dir h; free_bucket_desc := free_bucket_desc h |}.
Definition set_dir (l : list _bucket_dir) (h : kheap) : kheap :=
  {| kcpu := kcpu h; kphys := kphys h; descs := descs h; bucket_dir := l; free_bucket_desc := free_bucket_desc h |}.
Definition set_free_desc (a : Z) (h : kheap) : kheap :=
  {| kcpu := kcpu h; kphys := kphys h; descs := descs h; bucket_dir := bucket_dir h; free_bucket_desc := a |}.
Definition set_kram (m : mem) (h : kheap) : kheap :=
  set_phys {| ram := m; mem_map := mem_map (kphys h) |} h.

(** [*p = f( *p )] for a descriptor; dereferencing a wild pointer faults. *)
Definition upd_desc (p : Z) (f : bucket_desc -> bucket_desc) (h : kheap) : option kheap :=
  let! d := descs h !! p in Some (set_descs (<[p := f d]> (descs h)) h).

(** [bdir->chain = p] for the [i]-th directory entry. *)
Definition set_chain (i p : Z) (h : kheap) : option kheap :=
  let! b := arr_get (bucket_dir h) i in
  let! l := arr_set (bucket_dir h) i {| bsize := bsize b; bchain := p |} in
  Some (set_dir l h).

(** [get_free_page] and the flag and free operations, on the heap's state. *)
Definition kget_free_page (h : kheap) : option (Z * kheap) :=
  let! '(a, s) := get_free_page (kphys h) in Some (a, set_phys s h).
Definition kset_page_flags (a f : Z) (h : kheap) : option kheap :=
  let! m := set_page_flags a f (mem_map (kphys h)) in
  Some (set_phys {| ram := ram (kphys h); mem_map := m |} h).
Definition kfree_page (a : Z) (h : kheap) : option kheap :=
  let! m := free_page a (mem_map (kphys h)) in
  Some (set_phys {| ram := ram (kphys h); mem_map := m |} h).

(** ** Descriptors *)

(** A descriptor of a page just cleared by [get_free_page]. *)
Definition zero_desc : bucket_desc :=
  {| bd_page := 0; bd_next := 0; bd_freeptr := 0; bd_refcnt := 0; bd_size := 0 |}.

(** The loop [for (i = n; i > 1; i--) { bdesc->next = bdesc+1; bdesc++; }] and
    the final [bdesc->next = free_bucket_desc]; [n] descriptors are written. *)
Fixpoint link_descs (n : nat) (bdesc last : Z) (m : gmap Z bucket_desc) : gmap Z bucket_desc :=
  match n with
  | O => m
  | S O => <[bdesc := with_next last zero_desc]> m
  | S n' => link_descs n' (bdesc + sizeof_bucket_desc) last
              (<[bdesc := with_next (bdesc + sizeof_bucket_desc) zero_desc]> m)
  end.

Definition init_bucket_desc (h : kheap) : option kheap :=
  let! '(first, h) := kget_free_page h in
  let! h := kset_page_flags first PG_kmalloc h in
  let h := set_descs (link_descs (Z.to_nat (PAGE_SIZE / sizeof_bucket_desc)) first
                        (free_bucket_desc h) (descs h)) h in
  Some (set_free_desc first h).

(** ** kmalloc *)

(** The first entry that fits [len], or the end marker: the index of [bdir]. *)
Definition find_bucket (l : list _bucket_dir) (len : Z) : Z :=
  find_up (length l) 0
    (fun i => match arr_get l i with Some b => (bsize b =? 0) || (len <=? bsize b) | None => false end).

(** [for (bdesc = ..; bdesc; bdesc = bdesc->next) if (bdesc->freeptr) break;]
    with a bound on the number of descriptors visited. *)
Fixpoint find_free (fuel : nat) (m : gmap Z bucket_desc) (p : Z) : option Z :=
  match fuel with
  | O => None
  | S fuel' =>
      if p =? NULL then Some NULL
      else let! d := m !! p in
           if negb (bd_freeptr d =? NULL) then Some p else find_free fuel' m (bd_next d)
  end.

(** The links of a fresh page: [*cp = cp + size] [n] times, then [*cp = 0]. *)
Fixpoint link_blocks (n : nat) (sz cp : Z) (m : mem) : mem :=
  match n with
  | O => st64 m cp 0
  | S n' => link_blocks n' sz (cp + sz) (st64 m cp (cp + sz))
  end.

(** A new descriptor for bucket [i], taken from the free descriptors. *)
Definition new_bucket (i : Z) (h : kheap) : option (Z * kheap) :=
  let! h := if free_bucket_desc h =? NULL then init_bucket_desc h else Some h in
  let bdesc := free_bucket_desc h in
  let! d := descs h !! bdesc in
  let! b := arr_get (bucket_dir h) i in
  let h := set_free_desc (bd_next d) h in
  let! '(cp, h) := kget_free_page h in
  assert! negb (bsize b =? 0) in
  let h := set_kram (link_blocks (Z.to_nat (PAGE_SIZE / bsize b - 1)) (bsize b) cp (ram (kphys h))) h in
  let h := set_descs (<[bdesc := {| bd_page := cp; bd_next := bchain b; bd_freeptr := cp; bd_refcnt := 0;
                                    bd_size := u16 (bsize b) |}]> (descs h)) h in
  let! h := set_chain i bdesc h in
  Some (bdesc, h).

Definition kmalloc (len : Z) (h : kheap) : option (Z * kheap) :=
  let i := find_bucket (bucket_dir h) (u32 len) in
  let! b := arr_get (bucket_dir h) i in
  let (irqflag, c) := disable_irqsave (kcpu h) in
  let h := set_cpu c h in
  let! bdesc := find_free (S (size (descs h))) (descs h) (bchain b) in
  let! '(bdesc, h) := if bdesc =? NULL then new_bucket i h else Some (bdesc, h) in
  let! d := descs h !! bdesc in
  let retval := bd_freeptr d in
  let! h := upd_desc bdesc (with_free (ld64 (ram (kphys h)) retval) (u16 (bd_refcnt d + 1))) h in
  Some (retval, set_cpu (enable_irqsave irqflag (kcpu h)) h).

(** ** free_s *)

(** Search one chain for the descriptor of [page]: [prev] and [bdesc]. *)
Fixpoint find_page (fuel : nat) (m : gmap Z bucket_desc) (page prev p : Z) : option (Z * Z) :=
  match fuel with
  | O => None
  | S fuel' =>
      if p =? NULL then Some (prev, NULL)
      else let! d := m !! p in
           if bd_page d =? page then Some (prev, p) else find_page fuel' m page p (bd_next d)
  end.

(** Search the buckets from entry [i]: entry, [prev] and [bdesc]; the search
    that fails ("Bad address") goes on with [bdesc == NULL]. *)
Fixpoint find_dir (h : kheap) (page sz : Z) (l : list _bucket_dir) (i prev : Z) : option (Z * Z * Z) :=
  match l with
  | [] => None
  | b :: l' =>
      if bsize b =? 0 then Some (i, prev, NULL)
      else if bsize b <? sz then find_dir h page sz l' (i + 1) NULL
      else
        let! '(prev, bdesc) := find_page (S (size (descs h))) (descs h) page NULL (bchain b) in
        if bdesc =? NULL then find_dir h page sz l' (i + 1) prev
        else Some (i, prev, bdesc)
  end.

(** [for (prev = bdir->chain; prev; prev = prev->next) if (prev->next == bdesc) break;] *)
Fixpoint find_prev (fuel : nat) (m : gmap Z bucket_desc) (bdesc prev : Z) : option Z :=
  match fuel with
  | O => None
  | S fuel' =>
      if prev =? NULL then Some NULL
      else let! d := m !! prev in
           if bd_next d =? bdesc then Some prev else find_prev fuel' m bdesc (bd_next d)
  end.

(** Unlink [bdesc] from its chain and give its page back. *)
Definition release_bucket (i prev bdesc : Z) (h : kheap) : option kheap :=
  let! b := arr_get (bucket_dir h) i in
  let! stale := if prev =? NULL then Some (negb (bchain b =? bdesc))
                else let! p := descs h !! prev in Some (negb (bd_next p =? bdesc)) in
  let! prev := if stale : bool then find_prev (S (size (descs h))) (descs h) bdesc (bchain b) else Some prev in
  let! d := descs h !! bdesc in
  let! h := if negb (prev =? NULL) then upd_desc prev (with_next (bd_next d)) h
            else set_chain i (bd_next d) h in
  let! h := kset_page_flags (bd_page d) PG_free h in
  let! h := kfree_page (bd_page d) h in
  let! h := upd_desc bdesc (with_next (free_bucket_desc h)) h in
  Some (set_free_desc bdesc h).

Definition free_s (obj sz : Z) (h : kheap) : option kheap :=
  let page := Z.land obj (Z.lnot (PAGE_SIZE - 1)) in
  let! '(i, prev, bdesc) := find_dir h page sz (bucket_dir h) 0 NULL in
  let (irqflag, c) := disable_irqsave (kcpu h) in
  let h := set_cpu c h in
  let! d := descs h !! bdesc in
  let h := set_kram (st64 (ram (kphys h)) obj (bd_freeptr d)) h in
  let! h := upd_desc bdesc (with_free obj (u16 (bd_refcnt d - 1))) h in
  let! h := if u16 (bd_refcnt d - 1) =? 0 then release_bucket i prev bdesc h else Some h in
  Some (set_cpu (enable_irqsave irqflag (kcpu h)) h).

(** [kfree(p)]: the macro [free_s((p), 0)]. *)
Definition kfree (p : Z) (h : kheap) : option kheap := free_s p 0 h.

(** Conversion unfolds the page-sized loops last. *)
#[local] Strategy 1000 [get_free_page kget_free_page link_descs init_bucket_desc link_blocks].

(** ** The layout the invariant describes *)

(** The bucket sizes, and the size [kmalloc] serves a request with. *)
Definition sizes : list Z := [16; 32; 64; 128; 256; 512; 1024; 2048; 4096].
Definition block_size (len : Z) : Z :=
  match filter (fun s => len <= s) sizes with s :: _ => s | [] => 0 end.

(** A descriptor in use: its address, its page and its free blocks. *)
Record view := { v_desc : Z; v_pfn : Z; v_free : list Z }.

Definition lhead (l : list Z) : Z := match l with [] => NULL | a :: _ => a end.
Definition llast (l : list Z) : Z := match last l with Some a => a | None => NULL end.

(** Descriptors [l] linked by [next] and ended by NULL. *)
Fixpoint links (m : gmap Z bucket_desc) (l : list Z) : Prop :=
  match l with
  | [] => True
  | a :: l' => a <> NULL /\ (exists d, m !! a = Some d /\ bd_next d = lhead l') /\ links m l'
  end.

(** Free blocks [l] linked through their first word. *)
Fixpoint fchain (m : mem) (l : list Z) : Prop :=
  match l with
  | [] => True
  | a :: l' => ld64 m a = lhead l' /\ fchain m l'
  end.

(** [a] is a block of size [s] of page [k]. *)
Definition in_page (k s a : Z) : Prop := exists j, 0 <= j < 4096 / s /\ a = page_va k + s * j.

Record view_ok (h : kheap) (s : Z) (v : view) : Prop := {
  vo_size : s ∈ sizes;
  vo_pfn : pfn_ok (v_pfn v);
  vo_count : count_of (mem_map (kphys h)) (v_pfn v) = Some 1;
  vo_nodup : NoDup (v_free v);
  vo_blocks : Forall (in_page (v_pfn v) s) (v_free v);
  vo_length : Z.of_nat (length (v_free v)) <= 4096 / s;
  vo_chain : fchain (ram (kphys h)) (v_free v);
  vo_desc : exists n, descs h !! v_desc v = Some {| bd_page := page_va (v_pfn v); bd_next := n;
     bd_freeptr := lhead (v_free v); bd_refcnt := 4096 / s - Z.of_nat (length (v_free v)); bd_size := s |} }.

Definition views (bs : list (Z * list view)) : list (Z * view) :=
  concat (map (fun '(s, vs) => map (pair s) vs) bs).
Definition dir_of (bs : list (Z * list view)) : list _bucket_dir :=
  map (fun '(s, vs) => {| bsize := s; bchain := lhead (map v_desc vs) |}) bs ++ [{| bsize := 0; bchain := NULL |}].

(** [a] is a block of size [s] handed out and not freed. *)
Definition live_in (V : list (Z * view)) (a s : Z) : Prop :=
  exists v, (s, v) ∈ V /\ in_page (v_pfn v) s a /\ a ∉ v_free v.

Record layout (h : kheap) (bs : list (Z * list view)) (fl : list Z) : Prop := {
  ly_sizes : map fst bs = sizes;
  ly_dir : bucket_dir h = dir_of bs;
  ly_chains : Forall (fun '(_, vs) => links (descs h) (map v_desc vs)) bs;
  ly_free : free_bucket_desc h = lhead fl /\ links (descs h) fl;
  ly_views : Forall (fun '(s, v) => view_ok h s v) (views bs);
  ly_descs : NoDup (map (fun sv => v_desc sv.2) (views bs) ++ fl);
  ly_pages : NoDup (map (fun sv => v_pfn sv.2) (views bs));
  ly_dom : forall a, is_Some (descs h !! a) -> exists k, pfn_ok k /\ page_va k <= a < page_va k + 4096 /\
     (exists c, count_of (mem_map (kphys h)) k = Some c /\ c <> 0) /\
     k ∉ map (fun sv => v_pfn sv.2) (views bs);
  ly_map : map_ok (mem_map (kphys h)) }.

(** A descriptor in use has a block in use. *)
Definition used (s : Z) (v : view) : Prop := Z.of_nat (length (v_free v)) < 4096 / s.

(** The allocator holds exactly the blocks of [L] (address to size) as live. *)
Definition kinv (h : kheap) (L : gmap Z Z) : Prop :=
  exists bs fl, layout h bs fl /\ Forall (fun '(s, v) => used s v) (views bs) /\ forall a s, L !! a = Some s <-> live_in (views bs) a s.

(** ** Linked lists of descriptors and blocks *)

Section Links.
Implicit Types (m : gmap Z bucket_desc) (l : list Z) (a p : Z) (r : mem).

Lemma links_frame m m' l :
  links m l -> (forall a, a ∈ l -> bd_next <$> m' !! a = bd_next <$> m !! a) -> links m' l.
Proof.
  induction l as [|a l IH]; cbn; [done|]. intros (Hn & (d & Hd & Hx) & Hl) Hf. split_and!; [done| |].
  - specialize (Hf a ltac:(set_solver)). rewrite Hd in Hf. cbn in Hf.
    destruct (m' !! a) as [d'|] eqn:E; cbn in Hf; [|done]. exists d'. split; [done|congruence].
  - apply IH; [done|]. intros b Hb. apply Hf. set_solver.
Qed.

Lemma links_insert m l p d : links m l -> p ∉ l -> links (<[p := d]> m) l.
Proof.
  intros H Hp. apply (links_frame m); [done|]. intros a Ha. by rewrite lookup_insert_ne by set_solver.
Qed.

(** Changing other fields of a descriptor. *)
Lemma links_keep m l p d d' : links m l -> m !! p = Some d -> bd_next d' = bd_next d -> links (<[p := d']> m) l.
Proof.
  intros H Hd Hn. apply (links_frame m); [done|]. intros a _.
  destruct (decide (a = p)) as [->|]; [|by rewrite lookup_insert_ne].
  rewrite lookup_insert_eq, Hd. cbn. by rewrite Hn.
Qed.

Lemma links_dom m l : links m l -> list_to_set l ⊆ dom m.
Proof.
  induction l as [|a l IH]; cbn; [set_solver|]. intros (_ & (d & Hd & _) & Hl).
  apply elem_of_dom_2 in Hd. set_solver.
Qed.

Lemma links_size m l : links m l -> NoDup l -> (length l <= size m)%nat.
Proof.
  intros Hl Hn. rewrite <- size_dom, <- (size_list_to_set (C := gset Z)) by done.
  by apply subseteq_size, links_dom.
Qed.

Lemma links_not_null m l : links m l -> NULL ∉ l.
Proof. induction l as [|a l IH]; cbn; [set_solver|]. intros (Hn & _ & Hl). specialize (IH Hl). set_solver. Qed.

Lemma links_app_r m l1 l2 : links m (l1 ++ l2) -> links m l2.
Proof. induction l1 as [|a l1 IH]; cbn; [done|]. naive_solver. Qed.

Lemma links_mid m l1 a l2 : links m (l1 ++ a :: l2) -> exists d, m !! a = Some d /\ bd_next d = lhead l2.
Proof. intros H%links_app_r. cbn in H. naive_solver. Qed.

(** Unlinking [a] after [p]. *)
Lemma links_remove m l1 p a l2 d :
  links m (l1 ++ p :: a :: l2) -> NoDup (l1 ++ p :: a :: l2) -> m !! p = Some d ->
  links (<[p := with_next (lhead l2) d]> m) (l1 ++ p :: l2).
Proof.
  intros Hl Hn Hd. induction l1 as [|b l1 IH]; cbn in *.
  - destruct Hl as (H1 & _ & H2 & _ & H3). apply NoDup_cons in Hn as [Hn1 [Hn2 Hn3]%NoDup_cons].
    split_and!; [done| |apply links_insert; [done|set_solver]].
    exists (with_next (lhead l2) d). by rewrite lookup_insert_eq.
  - destruct Hl as (H1 & (d' & Hd' & Hx) & H3). apply NoDup_cons in Hn as [Hn1 Hn2].
    split_and!; [done| |by apply IH]. exists d'.
    rewrite lookup_insert_ne by set_solver. split; [done|]. rewrite Hx.
    by destruct l1.
Qed.

Lemma fchain_frame r r' l : fchain r l -> (forall a, a ∈ l -> ld64 r' a = ld64 r a) -> fchain r' l.
Proof.
  induction l as [|a l IH]; cbn; [done|]. intros [H1 H2] Hf. split.
  - rewrite Hf; [done|set_solver].
  - apply IH; [done|]. intros b Hb. apply Hf. set_solver.
Qed.
End Links.

Section Searches.
Implicit Types (m : gmap Z bucket_desc) (vs : list view).

Definition data_ok m v : Prop := exists d, m !! v_desc v = Some d /\
  bd_page d = page_va (v_pfn v) /\ bd_freeptr d = lhead (v_free v) /\ (lhead (v_free v) = NULL <-> v_free v = []).

Lemma find_free_spec m vs fuel :
  links m (map v_desc vs) -> Forall (data_ok m) vs -> (length vs < fuel)%nat ->
  (find_free fuel m (lhead (map v_desc vs)) = Some NULL /\ Forall (fun v => v_free v = []) vs) \/
  exists vs1 v vs2, vs = vs1 ++ v :: vs2 /\ v_free v <> [] /\
    find_free fuel m (lhead (map v_desc vs)) = Some (v_desc v).
Proof.
  revert fuel. induction vs as [|v vs IH]; intros [|fuel] Hl Hd Hf; cbn in Hf; try lia; [by left|].
  cbn [map lhead find_free]. cbn in Hl. destruct Hl as (Hn & (d & Hm & Hx) & Hl).
  apply Forall_cons in Hd as [(d' & Hm' & _ & Hfp & Hnull) Hd]. rewrite Hm in Hm'. injection Hm' as <-.
  unfold NULL in *. zcase; [done|]. rewrite Hm. cbn [mbind option_bind]. rewrite Hfp.
  destruct (Z.eqb_spec (lhead (v_free v)) 0) as [He|He]; cbn [negb].
  - rewrite Hx. destruct (IH fuel Hl Hd ltac:(lia)) as [[-> H]|(vs1 & w & vs2 & -> & Hw & ->)].
    + left. split; [done|]. constructor; [by apply Hnull|done].
    + right. by exists (v :: vs1), w, vs2.
  - right. exists [], v, vs. split_and!; [done| |done]. intros E. by apply He, Hnull.
Qed.

Lemma find_page_spec m k vs1 v vs2 fuel prev :
  links m (map v_desc (vs1 ++ v :: vs2)) -> Forall (data_ok m) (vs1 ++ v :: vs2) ->
  Forall (fun w => page_va (v_pfn w) <> page_va k) vs1 -> v_pfn v = k ->
  (length vs1 < fuel)%nat ->
  find_page fuel m (page_va k) prev (lhead (map v_desc (vs1 ++ v :: vs2))) =
    Some (from_option v_desc prev (last vs1), v_desc v).
Proof.
  intros Hl Hd Hne Hk. revert fuel prev Hl Hd Hne.
  induction vs1 as [|w vs1 IH]; intros [|fuel] prev Hl Hd Hne Hf; cbn in Hf; try lia;
    cbn [app map lhead find_page]; cbn in Hl; destruct Hl as (Hn & (d & Hm & Hx) & Hl);
    apply Forall_cons in Hd as [(d' & Hm' & Hp & _) Hd]; rewrite Hm in Hm'; injection Hm' as <-;
    unfold NULL in *; (zcase; [done|]); rewrite Hm; cbn [mbind option_bind]; rewrite Hp.
  - by rewrite Hk, Z.eqb_refl.
  - apply Forall_cons in Hne as [Hw Hne]. zcase; [done|]. rewrite Hx, IH by (done || lia).
    f_equal. f_equal. rewrite last_cons. by destruct (last vs1).
Qed.

Lemma find_page_none m k vs fuel prev :
  links m (map v_desc vs) -> Forall (data_ok m) vs ->
  Forall (fun w => page_va (v_pfn w) <> page_va k) vs -> (length vs < fuel)%nat ->
  exists p, find_page fuel m (page_va k) prev (lhead (map v_desc vs)) = Some (p, NULL).
Proof.
  intros Hl Hd Hne. revert fuel prev Hl Hd Hne.
  induction vs as [|w vs IH]; intros [|fuel] prev Hl Hd Hne Hf; cbn in Hf; try lia;
    cbn [app map lhead find_page]; [by eexists|]; cbn in Hl; destruct Hl as (Hn & (d & Hm & Hx) & Hl).
  apply Forall_cons in Hd as [(d' & Hm' & Hp & _) Hd]; rewrite Hm in Hm'; injection Hm' as <-.
  unfold NULL in *; (zcase; [done|]); rewrite Hm; cbn [mbind option_bind]; rewrite Hp.
  apply Forall_cons in Hne as [Hw Hne]. zcase; [done|]. rewrite Hx. apply IH; done || lia.
Qed.
End Searches.

(** ** Blocks *)

Section Blocks.
Implicit Types (k s a b : Z).

Lemma sizes_facts s : s ∈ sizes -> 16 <= s <= 4096 /\ s * (4096 / s) = 4096 /\ 1 <= 4096 / s <= 256.
Proof. unfold sizes. rewrite !elem_of_cons, elem_of_nil. intros H. repeat destruct H as [->|H]; vm_compute; naive_solver. Qed.

Lemma in_page_range k s a : s ∈ sizes -> in_page k s a -> page_va k <= a /\ a + s <= page_va k + 4096.
Proof. intros (H1 & H2 & H3)%sizes_facts (j & Hj & ->). nia. Qed.

Lemma in_page_aligned k s a : s ∈ sizes -> in_page k s a -> a mod s = 0.
Proof.
  intros (H1 & H2 & H3)%sizes_facts (j & Hj & ->). unfold page_va.
  assert (0xffff000000180000 = 4096 * 4503530907894144) as -> by reflexivity.
  rewrite <- Z.mul_add_distr_l, <- H2, <- Z.mul_assoc, <- Z.mul_add_distr_l, Z.mul_comm.
  apply Z.mod_mul. lia.
Qed.

(** Two blocks of a page are the same or disjoint. *)
Lemma in_page_disjoint k s a b :
  s ∈ sizes -> in_page k s a -> in_page k s b -> a <> b -> a + s <= b \/ b + s <= a.
Proof.
  intros (H1 & _)%sizes_facts (i & Hi & ->) (j & Hj & ->) Hne.
  assert (i < j \/ j < i) as [|] by (destruct (Z.lt_total i j) as [|[->|]]; [by left|done|by right]); [left|right]; nia.
Qed.

Lemma page_disjoint k k' s s' a b :
  s ∈ sizes -> s' ∈ sizes -> in_page k s a -> in_page k' s' b -> k <> k' -> a + s <= b \/ b + s' <= a.
Proof.
  intros Hs Hs' Ha Hb Hne. apply in_page_range in Ha, Hb; [|done..]. unfold page_va in *. lia.
Qed.

Lemma in_page_pfn k k' s a : s ∈ sizes -> in_page k s a -> page_va k' <= a < page_va k' + 4096 -> k = k'.
Proof.
  intros Hs Ha Hb. pose proof (sizes_facts s Hs). apply in_page_range in Ha; [|done].
  unfold page_va in *. lia.
Qed.

Lemma in_page_page k s a :
  pfn_ok k -> s ∈ sizes -> in_page k s a -> Z.land a (Z.lnot (PAGE_SIZE - 1)) = page_va k.
Proof.
  intros Hk Hs Ha. pose proof (sizes_facts s Hs). apply in_page_range in Ha; [|done].
  change (PAGE_SIZE - 1) with (2 ^ 12 - 1). rewrite land_lnot_mask by done. change (2 ^ 12) with 4096.
  unfold page_va in *. Z.div_mod_to_equations. lia.
Qed.

(** The blocks of a page in order, from the [i]-th, [n + 1] of them. *)
Fixpoint block_list (n : nat) (s a : Z) : list Z :=
  match n with O => [a] | S n' => a :: block_list n' s (a + s) end.

Lemma block_list_elem n s a b : b ∈ block_list n s a <-> exists j, 0 <= j <= Z.of_nat n /\ b = a + s * j.
Proof.
  revert a. induction n as [|n IH]; intros a; cbn [block_list].
  - rewrite list_elem_of_singleton. split; [intros ->; exists 0; lia|intros (j & Hj & ->)].
    assert (j = 0) as -> by lia. lia.
  - rewrite elem_of_cons, IH. split.
    + intros [->|(j & Hj & ->)]; [exists 0; lia|exists (j + 1); lia].
    + intros (j & Hj & ->). destruct (decide (j = 0)) as [->|]; [left; lia|].
      right. exists (j - 1). lia.
Qed.

Lemma block_list_length n s a : length (block_list n s a) = S n.
Proof. revert a. induction n; intros; cbn; auto. Qed.

Lemma block_list_nodup n s a : 0 < s -> NoDup (block_list n s a).
Proof.
  intros Hs. revert a. induction n as [|n IH]; intros a; cbn [block_list]; [apply NoDup_singleton|].
  constructor; [|apply IH]. rewrite block_list_elem. intros (j & Hj & E). nia.
Qed.

Lemma link_blocks_spec n s a m :
  8 <= s -> 0 <= a -> a + s * (Z.of_nat n + 1) < 2 ^ 64 ->
  fchain (link_blocks n s a m) (block_list n s a) /\
  forall b, b < a \/ a + s * (Z.of_nat n + 1) <= b -> ldb (link_blocks n s a m) b = ldb m b.
Proof.
  change (2 ^ 64) with 18446744073709551616. intros Hs. revert a m.
  induction n as [|n IH]; intros a m Ha Hmax; cbn [link_blocks block_list].
  - split; [cbn; by rewrite ld64_st64_eq by lia|]. intros b Hb. apply (ldb_st_ne 8). lia.
  - destruct (IH (a + s) (st64 m a (a + s)) ltac:(lia) ltac:(lia)) as [Hc Hf]. split.
    + cbn [fchain]. split; [|exact Hc].
      rewrite (ld_agree 8 (st64 m a (a + s)) _ a) by (intros b Hb; apply Hf; lia).
      rewrite ld64_st64_eq by lia. by destruct n.
    + intros b Hb. rewrite Hf by lia. apply (ldb_st_ne 8). lia.
Qed.

(** Linking writes the first eight bytes of each block. *)
Lemma link_blocks_rest n s a m x :
  8 <= s -> x < a \/ a <= x /\ 8 <= (x - a) mod s -> ldb (link_blocks n s a m) x = ldb m x.
Proof.
  intros Hs. assert (Hout : forall a v m, x < a \/ a <= x /\ 8 <= (x - a) mod s -> ldb (st64 m a v) x = ldb m x).
  { intros a' v m' Hx. apply (ldb_st_ne 8). destruct Hx as [?|[Hx Hm]]; [by left|right].
    destruct (decide (x - a' < 8)); [rewrite Z.mod_small in Hm by lia|]; lia. }
  revert a m. induction n as [|n IH]; intros a m Hx; cbn [link_blocks]; [by apply Hout|].
  rewrite IH; [by apply Hout|].
  destruct Hx as [Hx|[Hx Hm]]; [left; lia|]. destruct (decide (x < a + s)); [by left|right]. split; [lia|].
  replace (x - (a + s)) with (x - a + -1 * s) by lia. by rewrite Z.mod_add by lia.
Qed.
End Blocks.

(** ** The layout under the allocator's steps *)

Section Layout.
Implicit Types (h : kheap) (s k a : Z) (v w : view) (vs : list view) (bs : list (Z * list view)) (fl : list Z).

Lemma views_mid bs1 s vs1 v vs2 bs2 :
  views (bs1 ++ (s, vs1 ++ v :: vs2) :: bs2) =
  (views bs1 ++ map (pair s) vs1) ++ (s, v) :: (map (pair s) vs2 ++ views bs2).
Proof. unfold views. rewrite !map_app, !concat_app. cbn. by rewrite map_app, <- !app_assoc. Qed.

Lemma views_skip bs1 s vs1 vs2 bs2 :
  views (bs1 ++ (s, vs1 ++ vs2) :: bs2) =
  (views bs1 ++ map (pair s) vs1) ++ (map (pair s) vs2 ++ views bs2).
Proof. unfold views. rewrite !map_app, !concat_app. cbn. by rewrite map_app, <- !app_assoc. Qed.

Lemma elem_views bs s v : (s, v) ∈ views bs <-> exists vs, (s, vs) ∈ bs /\ v ∈ vs.
Proof.
  unfold views. induction bs as [|[t ws] bs IH]; cbn; [set_solver|].
  rewrite elem_of_app, IH, list_elem_of_fmap. setoid_rewrite elem_of_cons. naive_solver.
Qed.

Lemma view_data h s v : view_ok h s v -> data_ok (descs h) v.
Proof.
  intros [Hs Hp _ _ Hb _ _ (n & Hd)]. eexists. split_and!; [exact Hd|done|done|].
  destruct (v_free v) as [|a l]; cbn; [done|]. apply Forall_cons in Hb as [Ha _].
  apply in_page_range in Ha; [|done]. pose proof (page_va_pos (v_pfn v) Hp). unfold NULL. split; [lia|done].
Qed.

Lemma view_same h h' s v : kphys h' = kphys h -> descs h' = descs h -> view_ok h s v -> view_ok h' s v.
Proof. intros E1 E2 [Hs Hp Hc Hn Hb Hl Hf Hd]. split; rewrite ?E1, ?E2; done. Qed.

(** What a view depends on. *)
Lemma view_frame h h' s v :
  view_ok h s v ->
  count_of (mem_map (kphys h')) (v_pfn v) = Some 1 ->
  (forall b, page_va (v_pfn v) <= b < page_va (v_pfn v) + 4096 ->
     ldb (ram (kphys h')) b = ldb (ram (kphys h)) b) ->
  (exists d n, descs h !! v_desc v = Some d /\ descs h' !! v_desc v = Some (with_next n d)) ->
  view_ok h' s v.
Proof.
  intros [Hs Hp Hc Hn Hb Hl Hf (n & Hd)] Hc' Hr (d & n' & Hd1 & Hd2). split; try done.
  - apply (fchain_frame (ram (kphys h))); [done|]. intros a Ha. rewrite Forall_forall in Hb.
    pose proof (sizes_facts s Hs). pose proof (in_page_range _ _ _ Hs (Hb a Ha)).
    apply (ld_agree 8). intros b Hb'. apply Hr. lia.
  - rewrite Hd in Hd1. injection Hd1 as <-. rewrite Hd2. by eexists.
Qed.

Lemma layout_others h bs1 s vs1 v vs2 bs2 fl t w :
  layout h (bs1 ++ (s, vs1 ++ v :: vs2) :: bs2) fl ->
  (t, w) ∈ (views bs1 ++ map (pair s) vs1) ++ (map (pair s) vs2 ++ views bs2) ->
  v_desc w <> v_desc v /\ v_pfn w <> v_pfn v.
Proof.
  intros [_ _ _ _ _ [Hnd _]%NoDup_app Hnp _ _] Hin. rewrite views_mid in *.
  split; [exact (nodup_map_mid (fun sv => v_desc sv.2) _ _ (s, v) (t, w) Hnd Hin)
         |exact (nodup_map_mid (fun sv => v_pfn sv.2) _ _ (s, v) (t, w) Hnp Hin)].
Qed.

(** Everything the allocator sees unchanged but one view. *)
Lemma layout_update h h' bs1 s vs1 v v' vs2 bs2 fl :
  layout h (bs1 ++ (s, vs1 ++ v :: vs2) :: bs2) fl ->
  v_desc v' = v_desc v -> v_pfn v' = v_pfn v ->
  (forall a, a <> v_desc v -> descs h' !! a = descs h !! a) ->
  bd_next <$> descs h' !! v_desc v = bd_next <$> descs h !! v_desc v ->
  (forall b, b < page_va (v_pfn v) \/ page_va (v_pfn v) + 4096 <= b ->
     ldb (ram (kphys h')) b = ldb (ram (kphys h)) b) ->
  mem_map (kphys h') = mem_map (kphys h) -> bucket_dir h' = bucket_dir h ->
  free_bucket_desc h' = free_bucket_desc h -> view_ok h' s v' ->
  layout h' (bs1 ++ (s, vs1 ++ v' :: vs2) :: bs2) fl.
Proof.
  intros Hly Ed Ep Hds Hnx Hr Hmm Hdir Hfree Hv'.
  assert (Hsame : forall a, bd_next <$> descs h' !! a = bd_next <$> descs h !! a).
  { intros a. destruct (decide (a = v_desc v)) as [->|]; [done|by rewrite Hds]. }
  pose proof (fun t w => layout_others h bs1 s vs1 v vs2 bs2 fl t w Hly) as Hoth.
  destruct Hly as [Hs Hd Hc [Hf Hfl] Hv Hnd Hnp Hdom Hm].
  assert (Emap : forall f : view -> Z, f v' = f v ->
    map (fun sv => f sv.2) (views (bs1 ++ (s, vs1 ++ v' :: vs2) :: bs2)) =
    map (fun sv => f sv.2) (views (bs1 ++ (s, vs1 ++ v :: vs2) :: bs2))).
  { intros f Ef. rewrite !views_mid, !map_app. cbn. by rewrite Ef. }
  assert (Evs : map v_desc (vs1 ++ v' :: vs2) = map v_desc (vs1 ++ v :: vs2)) by (rewrite !map_app; cbn; by rewrite Ed).
  split; rewrite ?Emap, ?Hmm by done; try done.
  - rewrite <- Hs, !map_app. done.
  - rewrite Hdir, Hd. unfold dir_of. rewrite !map_app. cbn [map]. by rewrite Evs.
  - rewrite !Forall_mid, Evs in *. destruct Hc as (H1 & H2). split; [by eapply links_frame|].
    eapply Forall_impl; [exact H2|]. intros [? ?] ?; by eapply links_frame.
  - rewrite Hfree. split; [done|]. by eapply links_frame.
  - rewrite views_mid, Forall_mid in *. destruct Hv as [_ Hv]. split; [done|].
    apply Forall_forall. intros [t w] Hin. destruct (Hoth t w Hin) as [Hn1 Hn2].
    rewrite Forall_forall in Hv. specialize (Hv _ Hin). cbn in Hv. apply (view_frame h); [done| | |].
    + rewrite Hmm. apply Hv.
    + intros b Hb. apply Hr. unfold page_va in *. lia.
    + destruct (vo_desc _ _ _ Hv) as (n & En). eexists _, n. split; [done|]. by rewrite Hds, En by done.
  - intros a Ha. apply Hdom. specialize (Hsame a). destruct (descs h !! a); [done|].
    destruct (descs h' !! a); [done|]. by destruct Ha.
Qed.

(** Memory management elsewhere: used pages and the bytes of buckets stay. *)
Lemma layout_frame h h' bs fl :
  layout h bs fl -> descs h' = descs h -> bucket_dir h' = bucket_dir h ->
  free_bucket_desc h' = free_bucket_desc h -> map_ok (mem_map (kphys h')) ->
  (forall j c, count_of (mem_map (kphys h)) j = Some c -> c <> 0 -> count_of (mem_map (kphys h')) j = Some c) ->
  (forall s v b, (s, v) ∈ views bs -> page_va (v_pfn v) <= b < page_va (v_pfn v) + 4096 ->
     ldb (ram (kphys h')) b = ldb (ram (kphys h)) b) ->
  layout h' bs fl.
Proof.
  intros [Hs Hd Hc Hf Hv Hnd Hnp Hdom Hm] E1 E2 E3 Hm' Hcnt Hr. split; rewrite ?E1, ?E2, ?E3; try done.
  - apply Forall_forall. intros [s v] Hin. rewrite Forall_forall in Hv. specialize (Hv _ Hin). cbn in Hv.
    apply (view_frame h); [done| | |].
    + apply Hcnt; [apply Hv|done].
    + intros b. by eapply Hr.
    + destruct (vo_desc _ _ _ Hv) as (n & En). eexists _, n. by rewrite E1, En.
  - intros a Ha. destruct (Hdom a Ha) as (k & H1 & H2 & (c & H3 & H4) & H5). exists k. split_and!; eauto; lia.
Qed.

Lemma view_count h bs fl s v : layout h bs fl -> (s, v) ∈ views bs -> view_ok h s v.
Proof. intros [_ _ _ _ Hv _ _ _ _] Hin. rewrite Forall_forall in Hv. by apply (Hv (s, v)). Qed.

Lemma fresh_not_bucket h bs fl k :
  layout h bs fl -> count_of (mem_map (kphys h)) k = Some 0 -> k ∉ map (fun sv => v_pfn sv.2) (views bs).
Proof.
  intros Hly H0 Hin. apply list_elem_of_fmap_1 in Hin as ([s v] & -> & Hin). cbn in H0.
  pose proof (vo_count _ _ _ (view_count _ _ _ _ _ Hly Hin)). congruence.
Qed.

(** [get_free_page] called by the allocator. *)
Lemma kget_free_page_spec h bs fl n :
  layout h bs fl -> free_ge (mem_map (kphys h)) (S n) ->
  exists k h', kget_free_page h = Some (page_va k, h') /\ layout h' bs fl /\ pfn_ok k /\
    count_of (mem_map (kphys h)) k = Some 0 /\ free_ge (mem_map (kphys h')) n /\
    (forall j, count_of (mem_map (kphys h')) j = if j =? k then Some 1 else count_of (mem_map (kphys h)) j) /\
    descs h' = descs h /\ bucket_dir h' = bucket_dir h /\ free_bucket_desc h' = free_bucket_desc h /\
    kcpu h' = kcpu h /\
    (forall b, b < page_va k \/ page_va k + 4096 <= b -> ldb (ram (kphys h')) b = ldb (ram (kphys h)) b).
Proof.
  intros Hly Hfr. destruct (get_free_page_spec (kphys h) (ly_map _ _ _ Hly) (free_ge_one _ _ Hfr))
    as (k & s' & E & Hk & H0 & Hm' & _ & Hcnt & Hram).
  unfold kget_free_page. rewrite E. cbn [mbind option_bind]. exists k, (set_phys s' h).
  assert (Hr : forall b, b < page_va k \/ page_va k + 4096 <= b -> ldb (ram s') b = ldb (ram (kphys h)) b).
  { intros b Hb. rewrite Hram. by zcases. }
  split_and!; try done.
  - apply (layout_frame h); try done.
    + intros j c Hj Hne. cbn. rewrite Hcnt. zcase; [congruence|done].
    + intros s v b Hin Hb. apply Hr. pose proof (fresh_not_bucket _ _ _ _ Hly H0) as Hnb.
      assert (v_pfn v <> k) by (intros <-; apply Hnb; by apply (list_elem_of_fmap_2 (fun sv : Z * view => v_pfn sv.2) _ (s, v))).
      unfold page_va in *. lia.
  - by eapply free_ge_alloc.
Qed.

Lemma kget_free_page_zero h a h' x :
  map_ok (mem_map (kphys h)) -> (exists i, pfn_ok i /\ count_of (mem_map (kphys h)) i = Some 0) ->
  kget_free_page h = Some (a, h') -> a <= x < a + 4096 -> ldb (ram (kphys h')) x = 0.
Proof.
  intros Hm Hf. destruct (get_free_page_spec (kphys h) Hm Hf) as (k & s' & E & _ & _ & _ & _ & _ & Hr).
  unfold kget_free_page. rewrite E, bind_Some. intros [= <- <-] Hx. cbn [kphys set_phys]. rewrite Hr. by zcases.
Qed.

Lemma kset_page_flags_spec h bs fl k o f :
  layout h bs fl -> pfn_ok k -> 0 <= o < 4096 ->
  exists h', kset_page_flags (page_va k + o) f h = Some h' /\ layout h' bs fl /\
    (forall j, count_of (mem_map (kphys h')) j = count_of (mem_map (kphys h)) j) /\
    descs h' = descs h /\ bucket_dir h' = bucket_dir h /\ free_bucket_desc h' = free_bucket_desc h /\
    kcpu h' = kcpu h /\ ram (kphys h') = ram (kphys h).
Proof.
  intros Hly Hk Ho. destruct (set_page_flags_spec (mem_map (kphys h)) k o f (ly_map _ _ _ Hly) Hk Ho)
    as (mm' & E & Hm' & Hc). unfold kset_page_flags. rewrite E. cbn [mbind option_bind].
  eexists. split_and!; try done. apply (layout_frame h); try done. intros j c Hj _. cbn. by rewrite Hc.
Qed.
End Layout.

(** ** Descriptor pages *)

Section NewDescs.
Implicit Types (m : gmap Z bucket_desc) (a b : Z).

Lemma link_descs_other n a last m b :
  b ∉ block_list n sizeof_bucket_desc a -> link_descs (S n) a last m !! b = m !! b.
Proof.
  revert a m. induction n as [|n IH]; intros a m Hb; cbn [block_list] in Hb.
  - cbn. by rewrite lookup_insert_ne by set_solver.
  - change (link_descs (S (S n)) a last m) with
      (link_descs (S n) (a + sizeof_bucket_desc) last (<[a := with_next (a + sizeof_bucket_desc) zero_desc]> m)).
    rewrite IH by set_solver. by rewrite lookup_insert_ne by set_solver.
Qed.

Lemma link_descs_links n a m :
  0 < a -> links (link_descs (S n) a NULL m) (block_list n sizeof_bucket_desc a).
Proof.
  unfold NULL. revert a m. induction n as [|n IH]; intros a m Ha.
  - cbn. split_and!; [unfold NULL; lia| |done]. eexists. by rewrite lookup_insert_eq.
  - change (link_descs (S (S n)) a 0 m) with
      (link_descs (S n) (a + sizeof_bucket_desc) 0 (<[a := with_next (a + sizeof_bucket_desc) zero_desc]> m)).
    cbn [block_list links]. split_and!; [unfold NULL; lia| |apply IH; unfold sizeof_bucket_desc; lia].
    eexists. rewrite link_descs_other, lookup_insert_eq; [split; [done|by destruct n]|].
    rewrite block_list_elem. intros (j & Hj & E). unfold sizeof_bucket_desc in E. nia.
Qed.
End NewDescs.

(** ** Taking a descriptor and linking a new bucket *)

(** Used pages keep their count, and bytes outside the free pages their value. *)
Definition keeps (h h' : kheap) : Prop :=
  (forall j c, count_of (mem_map (kphys h)) j = Some c -> c <> 0 -> count_of (mem_map (kphys h')) j = Some c) /\
  forall b, (forall k, pfn_ok k -> count_of (mem_map (kphys h)) k = Some 0 ->
               b < page_va k \/ page_va k + 4096 <= b) ->
    ldb (ram (kphys h')) b = ldb (ram (kphys h)) b.

Section NewBucket.
Implicit Types (h : kheap) (s k a : Z) (v w : view) (vs : list view) (bs : list (Z * list view)) (fl : list Z).

Lemma keeps_refl h : keeps h h.
Proof. by split. Qed.

Lemma keeps_trans h1 h2 h3 : map_ok (mem_map (kphys h1)) -> keeps h1 h2 -> keeps h2 h3 -> keeps h1 h3.
Proof.
  intros Hm [Hc1 Hb1] [Hc2 Hb2]. split; [eauto|]. intros b Hb. rewrite Hb2; [by apply Hb1|].
  intros k Hk H0. apply Hb; [done|]. destruct (count_of_Some _ k Hm Hk) as [c Hc].
  destruct (decide (c = 0)) as [->|Hne]; [done|]. specialize (Hc1 k c Hc Hne). congruence.
Qed.

(** Only a free page changed. *)
Lemma keeps_page h h' k :
  pfn_ok k -> count_of (mem_map (kphys h)) k = Some 0 ->
  (forall j, j <> k -> count_of (mem_map (kphys h')) j = count_of (mem_map (kphys h)) j) ->
  (forall b, b < page_va k \/ page_va k + 4096 <= b -> ldb (ram (kphys h')) b = ldb (ram (kphys h)) b) ->
  keeps h h'.
Proof.
  intros Hk H0 Hc Hb. split.
  - intros j c Hj Hne. rewrite Hc; [done|]. intros ->. congruence.
  - intros b Hbk. apply Hb. by apply Hbk.
Qed.

Lemma dir_get bs1 s vs bs2 :
  arr_get (dir_of (bs1 ++ (s, vs) :: bs2)) (Z.of_nat (length bs1)) =
  Some {| bsize := s; bchain := lhead (map v_desc vs) |}.
Proof.
  unfold dir_of. rewrite arr_get_nat, map_app, <- app_assoc. cbn [map app].
  rewrite lookup_app_r, length_map, Nat.sub_diag by (rewrite length_map; lia). done.
Qed.

Lemma set_chain_spec h bs1 s vs vs' bs2 :
  bucket_dir h = dir_of (bs1 ++ (s, vs) :: bs2) ->
  set_chain (Z.of_nat (length bs1)) (lhead (map v_desc vs')) h =
    Some (set_dir (dir_of (bs1 ++ (s, vs') :: bs2)) h).
Proof.
  intros E. unfold set_chain. rewrite E, dir_get. cbn [mbind option_bind bsize].
  rewrite arr_set_Some.
  - cbn [mbind option_bind]. rewrite Nat2Z.id. unfold dir_of. rewrite !map_app, <- !app_assoc. cbn [map app].
    rewrite insert_app_r_alt, length_map, Nat.sub_diag by (rewrite length_map; lia). done.
  - unfold dir_of. rewrite !length_app, length_map, !length_app. cbn. lia.
Qed.

Lemma layout_pop h bs a fl :
  layout h bs (a :: fl) -> layout (set_free_desc (lhead fl) h) bs fl /\ a ∉ fl /\
    a ∉ map (fun sv => v_desc sv.2) (views bs) /\ a <> NULL /\
    exists d, descs h !! a = Some d /\ bd_next d = lhead fl.
Proof.
  intros [Hs Hd Hc [Hf Hfl] Hv Hnd Hnp Hdom Hm]. cbn in Hfl. destruct Hfl as (Hn & Hx & Hfl).
  apply NoDup_app in Hnd as (N1 & N2 & [N3 N4]%NoDup_cons). split_and!; try done.
  - split; try done.
    + eapply Forall_impl; [exact Hv|]. intros [s v] ?. by apply (view_same h).
    + apply NoDup_app. split_and!; [done| |done]. intros x Hx1 Hx2. apply (N2 x Hx1). set_solver.
  - intros Ha. apply (N2 a Ha). set_solver.
Qed.

(** Linking the descriptor [a], now describing the page [k], into a bucket. *)
Lemma layout_push h h' bs1 s vs bs2 fl v :
  layout h (bs1 ++ (s, vs) :: bs2) fl ->
  v_desc v ∉ fl -> v_desc v ∉ map (fun sv => v_desc sv.2) (views (bs1 ++ (s, vs) :: bs2)) ->
  v_desc v <> NULL -> is_Some (descs h !! v_desc v) ->
  v_pfn v ∉ map (fun sv => v_pfn sv.2) (views (bs1 ++ (s, vs) :: bs2)) ->
  (forall x, is_Some (descs h !! x) -> x < page_va (v_pfn v) \/ page_va (v_pfn v) + 4096 <= x) ->
  (forall a, a <> v_desc v -> descs h' !! a = descs h !! a) ->
  (exists d, descs h' !! v_desc v = Some d /\ bd_next d = lhead (map v_desc vs)) ->
  bucket_dir h' = dir_of (bs1 ++ (s, v :: vs) :: bs2) ->
  free_bucket_desc h' = free_bucket_desc h -> mem_map (kphys h') = mem_map (kphys h) ->
  (forall b, b < page_va (v_pfn v) \/ page_va (v_pfn v) + 4096 <= b ->
     ldb (ram (kphys h')) b = ldb (ram (kphys h)) b) ->
  view_ok h' s v ->
  layout h' (bs1 ++ (s, v :: vs) :: bs2) fl.
Proof.
  intros [Hs Hd Hc [Hf Hfl] Hv Hnd Hnp Hdom Hm] A1 A2 A3 A4 A5 A6 Hds Hx Hdir Hfree Hmm Hr Hv'.
  assert (Hfr : forall l, v_desc v ∉ l -> links (descs h) l -> links (descs h') l).
  { intros l Hl Hlk. apply (links_frame (descs h)); [done|]. intros a Ha. rewrite Hds; [done|]. set_solver. }
  pose proof (views_mid bs1 s [] v vs bs2) as Evm. pose proof (views_skip bs1 s [] vs bs2) as Evs.
  cbn [app map] in Evm, Evs. rewrite app_nil_r in Evm, Evs.
  assert (Hin : forall t ws, (t, ws) ∈ bs1 ++ (s, vs) :: bs2 -> v_desc v ∉ map v_desc ws).
  { intros t ws Hin Ha. apply A2. apply list_elem_of_fmap_1 in Ha as (w & E & Hw).
    rewrite E. apply (list_elem_of_fmap_2 (fun sv : Z * view => v_desc sv.2) _ (t, w)), elem_views. eauto. }
  split; rewrite ?Hmm; try done.
  - rewrite <- Hs, !map_app. done.
  - rewrite Forall_mid in Hc |- *. destruct Hc as [Hc0 Hc]. split.
    + cbn. split_and!; [done|done|]. apply Hfr; [|done]. apply (Hin s). apply elem_of_app. right. by left.
    + rewrite Forall_forall in Hc. apply Forall_forall. intros [t ws] Ht. apply Hfr; [|by apply (Hc (t, ws))].
      apply (Hin t). apply elem_of_app in Ht. apply elem_of_app. rewrite elem_of_cons. naive_solver.
  - rewrite Hfree. split; [done|]. by apply Hfr.
  - rewrite Evm, Forall_mid. rewrite Evs in Hv. split; [done|].
    apply Forall_forall. intros [t w] Hw. rewrite Forall_forall in Hv. pose proof (Hv _ Hw) as Hok. cbn in Hok.
    assert (v_desc w <> v_desc v /\ v_pfn w <> v_pfn v) as [N1 N2].
    { rewrite <- Evs in Hw. split; intros E; [apply A2|apply A5]; rewrite <- E;
        [apply (list_elem_of_fmap_2 (fun sv : Z * view => v_desc sv.2) _ (t, w))
        |apply (list_elem_of_fmap_2 (fun sv : Z * view => v_pfn sv.2) _ (t, w))]; done. }
    apply (view_frame h); [done|rewrite Hmm; apply Hok| |].
    + intros b Hb. apply Hr. unfold page_va in *. lia.
    + destruct (vo_desc _ _ _ Hok) as (n & En). eexists _, n. by rewrite Hds, En.
  - rewrite Evm, map_app. cbn [map snd]. rewrite <- app_assoc. cbn [app].
    rewrite <- Permutation_middle, app_assoc, <- map_app, <- Evs. constructor; [|done].
    rewrite elem_of_app. naive_solver.
  - rewrite Evm, map_app. cbn [map snd]. rewrite <- Permutation_middle, <- map_app, <- Evs. by constructor.
  - intros a Ha. assert (is_Some (descs h !! a)) as Ha'.
    { destruct (decide (a = v_desc v)) as [->|]; [done|]. by rewrite <- Hds. }
    destruct (Hdom a Ha') as (k & K1 & K2 & K3 & K4). exists k. split_and!; [done|lia|lia|done|].
    rewrite Evm, map_app. cbn [map snd]. rewrite <- Permutation_middle, <- map_app, <- Evs.
    intros [E|]%elem_of_cons; [|done]. subst k. destruct (A6 a Ha'); lia.
Qed.
End NewBucket.

Section InitDesc.
Implicit Types (h : kheap) (s k a : Z) (v w : view) (vs : list view) (bs : list (Z * list view)) (fl : list Z).

(** Descriptors do not lie in free pages. *)
Lemma dom_not_free h bs fl k a :
  layout h bs fl -> count_of (mem_map (kphys h)) k = Some 0 -> is_Some (descs h !! a) ->
  a < page_va k \/ page_va k + 4096 <= a.
Proof.
  intros Hly H0 Ha. destruct (ly_dom _ _ _ Hly a Ha) as (k' & _ & H2 & (c & Hc & Hn) & _).
  assert (k' <> k) by (intros ->; congruence). unfold page_va in *. lia.
Qed.

Lemma view_desc_dom h bs fl a :
  layout h bs fl -> a ∈ map (fun sv => v_desc sv.2) (views bs) -> is_Some (descs h !! a).
Proof.
  intros Hly ([s v] & -> & Hin)%list_elem_of_fmap_1.
  destruct (vo_desc _ _ _ (view_count _ _ _ _ _ Hly Hin)) as (n & E). cbn. by rewrite E.
Qed.

Lemma desc_block_range k a :
  a ∈ block_list 127 sizeof_bucket_desc (page_va k) -> page_va k <= a < page_va k + 4096.
Proof. intros (j & Hj & ->)%block_list_elem. unfold sizeof_bucket_desc. lia. Qed.

(** A page [k] outside the layout becomes the list of free descriptors. *)
Lemma layout_new_descs h h' bs k :
  layout h bs [] -> pfn_ok k ->
  (forall a, is_Some (descs h !! a) -> a < page_va k \/ page_va k + 4096 <= a) ->
  k ∉ map (fun sv => v_pfn sv.2) (views bs) -> count_of (mem_map (kphys h)) k = Some 1 ->
  kphys h' = kphys h -> bucket_dir h' = bucket_dir h -> free_bucket_desc h' = page_va k ->
  descs h' = link_descs 128 (page_va k) NULL (descs h) ->
  layout h' bs (block_list 127 sizeof_bucket_desc (page_va k)).
Proof.
  intros Hly Hk Hfresh Hnp Hc1 Ep Ed Ef Em.
  assert (Hold : forall a, is_Some (descs h !! a) -> descs h' !! a = descs h !! a).
  { intros a Ha. rewrite Em. apply (link_descs_other 127). intros Hb%desc_block_range. destruct (Hfresh a Ha); lia. }
  pose proof (view_desc_dom h bs [] ) as Hvd.
  assert (Hlk : forall l, links (descs h) l -> links (descs h') l).
  { intros l Hl. apply (links_frame (descs h)); [done|]. intros a Ha. rewrite Hold; [done|].
    apply elem_of_dom, (links_dom _ _ Hl). by apply elem_of_list_to_set. }
  pose proof Hly as [Hs Hd Hch _ Hv Hnd Hpg Hdom Hm]. split; rewrite ?Ep, ?Ed.
  - exact Hs.
  - exact Hd.
  - eapply Forall_impl; [exact Hch|]. intros [? ?]. apply Hlk.
  - split; [exact Ef|]. rewrite Em. apply (link_descs_links 127). pose proof (page_va_pos k Hk). lia.
  - apply Forall_forall. intros [s v] Hin. pose proof (view_count _ _ _ _ _ Hly Hin) as Hok.
    destruct (vo_desc _ _ _ Hok) as (n & En). apply (view_frame h); rewrite ?Ep; [done|apply Hok|done|].
    eexists _, n. rewrite (Hold (v_desc v)), En by (by rewrite En). done.
  - rewrite app_nil_r in Hnd. apply NoDup_app. split_and!; [done| |by apply block_list_nodup].
    intros a Ha%(Hvd _ Hly) Hb%desc_block_range. destruct (Hfresh a Ha); lia.
  - exact Hpg.
  - intros a Ha. destruct (decide (a ∈ block_list 127 sizeof_bucket_desc (page_va k))) as [Hb|Hb].
    + apply desc_block_range in Hb. exists k. split_and!; [done|lia|lia|by exists 1|done].
    + apply Hdom. rewrite Em in Ha. by rewrite (link_descs_other 127) in Ha.
  - exact Hm.
Qed.

Lemma init_bucket_desc_spec h bs n :
  layout h bs [] -> free_ge (mem_map (kphys h)) (S n) ->
  exists h' fl, init_bucket_desc h = Some h' /\ layout h' bs fl /\ fl <> [] /\
    free_ge (mem_map (kphys h')) n /\ kcpu h' = kcpu h /\ bucket_dir h' = bucket_dir h /\ keeps h h'.
Proof.
  intros Hly Hfr.
  destruct (kget_free_page_spec h bs [] n Hly Hfr)
    as (k & h1 & E1 & Hly1 & Hk & H0 & Hfr1 & Hc1 & Ed1 & Edir1 & Ef1 & Ecpu1 & Hr1).
  destruct (kset_page_flags_spec h1 bs [] k 0 PG_kmalloc Hly1 Hk ltac:(lia))
    as (h2 & E2 & Hly2 & Hc2 & Ed2 & Edir2 & Ef2 & Ecpu2 & Hr2). rewrite Z.add_0_r in E2.
  unfold init_bucket_desc. rewrite E1. cbn [mbind option_bind]. rewrite E2. cbn [mbind option_bind].
  change (Z.to_nat (PAGE_SIZE / sizeof_bucket_desc)) with 128%nat.
  pose proof (proj1 (ly_free _ _ _ Hly2)) as Hf2. cbn in Hf2. rewrite Hf2.
  eexists _, (block_list 127 sizeof_bucket_desc (page_va k)). split; [done|]. split_and!; try done.
  - apply (layout_new_descs h2); try done.
    + rewrite Ed2, Ed1. intros a. by apply dom_not_free with (bs := bs) (fl := []).
    + by apply (fresh_not_bucket h bs []).
    + by rewrite Hc2, Hc1, Z.eqb_refl.
  - cbn. eapply free_ge_ext; [exact Hfr1|done].
  - cbn. congruence.
  - cbn. congruence.
  - apply (keeps_page h _ k); try done; cbn.
    + intros j Hj. rewrite Hc2, Hc1. by zcase.
    + intros b Hb. rewrite Hr2. by apply Hr1.
Qed.
End InitDesc.

Section NewBucketSpec.
Implicit Types (h : kheap) (s k a : Z) (v w : view) (vs : list view) (bs : list (Z * list view)) (fl : list Z).

Lemma lhead_null m l : links m l -> lhead l = NULL -> l = [].
Proof. destruct l as [|a l]; cbn; [done|]. by intros [Hn _] E. Qed.

(** A free descriptor is there, or a page of them is made. *)
Lemma ensure_desc h bs fl n :
  layout h bs fl -> free_ge (mem_map (kphys h)) (2 + n) ->
  exists h1 a fl1, (if free_bucket_desc h =? NULL then init_bucket_desc h else Some h) = Some h1 /\
    layout h1 bs (a :: fl1) /\ free_ge (mem_map (kphys h1)) (1 + n) /\ kcpu h1 = kcpu h /\
    bucket_dir h1 = bucket_dir h /\ keeps h h1.
Proof.
  intros Hly Hfr. destruct (ly_free _ _ _ Hly) as [Hf Hl]. zcase.
  - assert (fl = []) as -> by (eapply lhead_null; [done|congruence]).
    destruct (init_bucket_desc_spec h bs (1 + n) Hly Hfr) as (h1 & fl1 & -> & Hly1 & Hne & Hfr1 & Hc & Hd & Hk).
    destruct fl1 as [|a fl1]; [done|]. by exists h1, a, fl1.
  - destruct fl as [|a fl]; [done|]. exists h, a, fl. split_and!; try done.
    + eapply free_ge_mono; [|done]. lia.
Qed.

Lemma fresh_view_ok h s k a n :
  s ∈ sizes -> pfn_ok k -> count_of (mem_map (kphys h)) k = Some 1 ->
  fchain (ram (kphys h)) (block_list (Z.to_nat (4096 / s - 1)) s (page_va k)) ->
  descs h !! a = Some {| bd_page := page_va k; bd_next := n; bd_freeptr := page_va k; bd_refcnt := 0; bd_size := s |} ->
  view_ok h s {| v_desc := a; v_pfn := k; v_free := block_list (Z.to_nat (4096 / s - 1)) s (page_va k) |}.
Proof.
  intros Hs Hk Hc Hf Hd. pose proof (sizes_facts s Hs) as (H1 & H2 & H3).
  split; cbn [v_desc v_pfn v_free]; try done.
  - apply block_list_nodup. lia.
  - apply Forall_forall. intros b (j & Hj & ->)%block_list_elem. exists j. split; [lia|done].
  - rewrite block_list_length. lia.
  - exists n. rewrite Hd, block_list_length. repeat f_equal; [by destruct (Z.to_nat (4096 / s - 1))|lia].
Qed.

Lemma layout_size h bs1 s vs bs2 fl : layout h (bs1 ++ (s, vs) :: bs2) fl -> s ∈ sizes.
Proof. intros Hly. rewrite <- (ly_sizes _ _ _ Hly), map_app. cbn. apply elem_of_app. right. by left. Qed.

(** The heap with the fresh page [cp] linked and its descriptor written. *)
Definition bucket_written (h : kheap) (a cp s next : Z) : kheap :=
  set_descs (<[a := {| bd_page := cp; bd_next := next; bd_freeptr := cp; bd_refcnt := 0; bd_size := u16 s |}]>
               (descs h))
    (set_kram (link_blocks (Z.to_nat (PAGE_SIZE / s - 1)) s cp (ram (kphys h))) h).

Lemma new_bucket_run h i h1 a d b cp h3 :
  (if free_bucket_desc h =? NULL then init_bucket_desc h else Some h) = Some h1 ->
  free_bucket_desc h1 = a -> descs h1 !! a = Some d -> arr_get (bucket_dir h1) i = Some b ->
  kget_free_page (set_free_desc (bd_next d) h1) = Some (cp, h3) -> bsize b <> 0 ->
  new_bucket i h =
    (let! h5 := set_chain i a (bucket_written h3 a cp (bsize b) (bchain b)) in Some (a, h5)).
Proof.
  intros E1 Ef Ed Eb E3 Hb. unfold new_bucket. rewrite E1, bind_Some, Ef, Ed, bind_Some, Eb, bind_Some.
  cbv zeta. rewrite E3, bind_Some. apply Z.eqb_neq in Hb. by rewrite Hb.
Qed.

Lemma bucket_written_layout h bs1 s vs bs2 fl a k :
  layout h (bs1 ++ (s, vs) :: bs2) fl -> a ∉ fl ->
  a ∉ map (fun sv => v_desc sv.2) (views (bs1 ++ (s, vs) :: bs2)) -> a <> NULL ->
  is_Some (descs h !! a) -> pfn_ok k ->
  k ∉ map (fun sv => v_pfn sv.2) (views (bs1 ++ (s, vs) :: bs2)) ->
  count_of (mem_map (kphys h)) k = Some 1 ->
  (forall x, is_Some (descs h !! x) -> x < page_va k \/ page_va k + 4096 <= x) ->
  let h' := bucket_written h a (page_va k) s (lhead (map v_desc vs)) in
  let v := {| v_desc := a; v_pfn := k; v_free := block_list (Z.to_nat (4096 / s - 1)) s (page_va k) |} in
  layout (set_dir (dir_of (bs1 ++ (s, v :: vs) :: bs2)) h') (bs1 ++ (s, v :: vs) :: bs2) fl /\
  forall b, b < page_va k \/ page_va k + 4096 <= b -> ldb (ram (kphys h')) b = ldb (ram (kphys h)) b.
Proof.
  intros Hly A1 A2 A3 A4 Hk A5 A6 A7 h' v.
  pose proof (layout_size _ _ _ _ _ _ Hly) as Hs. pose proof (sizes_facts s Hs) as (S1 & S2 & S3).
  assert (u16 s = s) as Hu by (apply wrap_small; change (2 ^ 16) with 65536; lia).
  pose proof (page_va_pos k Hk) as Hpos.
  destruct (link_blocks_spec (Z.to_nat (4096 / s - 1)) s (page_va k) (ram (kphys h))) as [Hfc Hfr4];
    [lia|lia|change (2 ^ 64) with 18446744073709551616; nia|].
  assert (Hr : forall b, b < page_va k \/ page_va k + 4096 <= b -> ldb (ram (kphys h')) b = ldb (ram (kphys h)) b).
  { intros b Hb. apply Hfr4. nia. }
  split; [|exact Hr]. apply (layout_push h); try done.
  - intros x Hx. cbn. by rewrite lookup_insert_ne.
  - eexists. cbn. rewrite lookup_insert_eq. done.
  - eapply fresh_view_ok; try done. cbn. by rewrite lookup_insert_eq, Hu.
Qed.

Lemma new_bucket_spec h bs1 s vs bs2 fl n :
  layout h (bs1 ++ (s, vs) :: bs2) fl -> free_ge (mem_map (kphys h)) (2 + n) ->
  exists h' v fl', new_bucket (Z.of_nat (length bs1)) h = Some (v_desc v, h') /\
    layout h' (bs1 ++ (s, v :: vs) :: bs2) fl' /\
    v_free v = block_list (Z.to_nat (4096 / s - 1)) s (page_va (v_pfn v)) /\
    kcpu h' = kcpu h /\ keeps h h' /\ free_ge (mem_map (kphys h')) n /\
    (forall x, page_va (v_pfn v) <= x < page_va (v_pfn v) + 4096 -> 8 <= (x - page_va (v_pfn v)) mod s ->
       ldb (ram (kphys h')) x = 0) /\
    count_of (mem_map (kphys h)) (v_pfn v) = Some 0.
Proof.
  intros Hly Hfr. destruct (ensure_desc h _ fl n Hly Hfr) as (h1 & a & fl1 & E1 & Hly1 & Hfr1 & Ec1 & Ed1 & Hk1).
  destruct (layout_pop h1 _ a fl1 Hly1) as (Hly2 & Ha1 & Ha2 & Ha3 & d & Hd & Hdn).
  destruct (kget_free_page_spec (set_free_desc (lhead fl1) h1) _ fl1 n Hly2 Hfr1)
    as (k & h3 & E3 & Hly3 & Hk & H0 & Hfr3 & Hc3 & Ed3 & Edir3 & Ef3 & Ecpu3 & Hr3).
  pose proof (sizes_facts s (layout_size _ _ _ _ _ _ Hly)) as (S1 & _).
  rewrite (new_bucket_run h _ h1 a d {| bsize := s; bchain := lhead (map v_desc vs) |} (page_va k) h3);
    [|done|apply (ly_free _ _ _ Hly1)|done|rewrite (ly_dir _ _ _ Hly1); apply dir_get|by rewrite Hdn|cbn; lia].
  cbn [bsize bchain].
  destruct (bucket_written_layout h3 bs1 s vs bs2 fl1 a k) as [Hly5 Hr5]; try done.
  { by rewrite Ed3; cbn; rewrite Hd. }
  { by apply (fresh_not_bucket _ _ _ _ Hly2). }
  { by rewrite Hc3, Z.eqb_refl. }
  { rewrite Ed3. intros x. by apply (dom_not_free _ _ _ _ _ Hly2). }
  set (v := {| v_desc := a; v_pfn := k; v_free := _ |}) in Hly5.
  assert (Hsc : set_chain (Z.of_nat (length bs1)) a
            (bucket_written h3 a (page_va k) s (lhead (map v_desc vs))) =
          Some (set_dir (dir_of (bs1 ++ (s, v :: vs) :: bs2))
            (bucket_written h3 a (page_va k) s (lhead (map v_desc vs))))).
  { apply (set_chain_spec (bucket_written h3 a (page_va k) s (lhead (map v_desc vs))) bs1 s vs (v :: vs) bs2).
    apply (ly_dir _ _ _ Hly3). }
  rewrite Hsc. cbn [mbind option_bind]. eexists _, v, fl1. split_and!; [done|done|done|cbn; rewrite Ecpu3; exact Ec1| |exact Hfr3| |].
  3: { cbn [v_pfn v]. destruct (count_of_Some _ k (ly_map _ _ _ Hly) Hk) as [c Hc]. destruct (decide (c = 0)) as [->|Hne]; [done|].
       destruct Hk1 as [Hk1 _]. specialize (Hk1 k c Hc Hne). cbn in H0. congruence. }
  2: { cbn [v_pfn v]. intros x Hx Hx8. cbn. rewrite link_blocks_rest by (lia || (right; split; [apply Hx|exact Hx8])).
       apply (kget_free_page_zero _ _ _ _ (ly_map _ _ _ Hly2) (ex_intro _ k (conj Hk H0)) E3 Hx). }
  eapply keeps_trans; [apply (ly_map _ _ _ Hly)|exact Hk1|]. apply (keeps_page h1 _ k); [done|done| |].
  - intros j Hj. cbn. rewrite Hc3. by zcase.
  - intros b Hb. rewrite <- Hr3 by done. by apply Hr5.
Qed.
End NewBucketSpec.

(** ** Choosing a bucket *)

Section Choose.
Implicit Types (bs : list (Z * list view)) (s len : Z).

Lemma block_size_spec len :
  len <= 4096 -> block_size len ∈ sizes /\ len <= block_size len /\
    (block_size len = 16 \/ block_size len < 2 * len).
Proof.
  intros H. unfold block_size, sizes. rewrite !filter_cons.
  repeat case_decide; cbn; try lia; (split; [|lia]); rewrite !elem_of_cons; lia.
Qed.

Lemma filter_first (l1 l2 : list Z) s len :
  (forall x, x ∈ l1 -> x < len) -> len <= s -> filter (fun s => len <= s) (l1 ++ s :: l2) =
    s :: filter (fun s => len <= s) l2.
Proof.
  intros H1 H2. induction l1 as [|x l1 IH]; cbn [app].
  - by rewrite filter_cons_True.
  - rewrite filter_cons_False; [apply IH; set_solver|]. specialize (H1 x ltac:(set_solver)). lia.
Qed.

Lemma find_bucket_spec bs len :
  map fst bs = sizes -> len <= 4096 ->
  exists bs1 vs bs2, bs = bs1 ++ (block_size len, vs) :: bs2 /\
    find_bucket (dir_of bs) len = Z.of_nat (length bs1).
Proof.
  intros Hs Hlen. unfold find_bucket.
  set (p := fun i => match arr_get (dir_of bs) i with Some b => _ | None => _ end).
  destruct (find_up_spec (length (dir_of bs)) 0 p) as (Hr & Hlt & Hhit).
  set (i := find_up _ _ _) in *.
  assert (Hbs : length bs = 9%nat) by (rewrite <- (length_map fst), Hs; done).
  assert (Hp : forall j s vs, bs !! Z.to_nat j = Some (s, vs) -> 0 <= j -> p j = ((s =? 0) || (len <=? s))).
  { intros j s vs Hj Hj0. unfold p, arr_get. destruct (Z.leb_spec 0 j); [|lia]. unfold dir_of.
    rewrite lookup_app_l by (rewrite length_map; by eapply lookup_lt_Some). by rewrite list_lookup_fmap, Hj. }
  assert (Hsz : forall j s vs, bs !! j = Some (s, vs) -> sizes !! j = Some s).
  { intros j s vs Hj. rewrite <- Hs, list_lookup_fmap, Hj. done. }
  assert (Hi8 : i <= 8).
  { destruct (decide (i <= 8)) as [|Hi]; [done|]. specialize (Hlt 8 ltac:(lia)).
    destruct (lookup_lt_is_Some_2 bs 8) as [[s vs] H8]; [lia|]. rewrite (Hp 8 s vs H8) in Hlt by lia.
    apply Hsz in H8 as [= <-]. cbn in Hlt. apply Z.leb_gt in Hlt. lia. }
  destruct (lookup_lt_is_Some_2 bs (Z.to_nat i)) as [[s vs] Hi]; [lia|].
  assert (Hhit' : p i = true) by (apply Hhit; unfold dir_of; rewrite length_app, length_map, Hbs; cbn; lia).
  rewrite (Hp i s vs Hi) in Hhit' by lia.
  assert (s ∈ sizes) as Hin by (apply Hsz in Hi; by eapply list_elem_of_lookup_2).
  pose proof (sizes_facts s Hin) as (S1 & _). zcase_in Hhit'; [lia|]. apply Z.leb_le in Hhit'.
  exists (take (Z.to_nat i) bs), vs, (drop (S (Z.to_nat i)) bs).
  assert (Eb : block_size len = s).
  { unfold block_size. rewrite <- Hs, <- (take_drop_middle bs _ _ Hi), map_app. cbn [map fst].
    rewrite filter_first; [done| |done]. intros x Hx. apply list_elem_of_fmap_1 in Hx as ([x' ws] & -> & Hx).
    cbn. apply list_elem_of_lookup_1 in Hx as [j Hj]. apply lookup_take_Some in Hj as [Hj Hji].
    specialize (Hlt (Z.of_nat j) ltac:(lia)). rewrite (Hp _ x' ws) in Hlt by (rewrite ?Nat2Z.id; done || lia).
    apply orb_false_iff in Hlt as [_ Hlt]. apply Z.leb_gt in Hlt. done. }
  rewrite Eb. split; [by rewrite take_drop_middle|]. rewrite length_take. lia.
Qed.
End Choose.

(** ** Live blocks *)

Section Live.
Implicit Types (h : kheap) (s k a b t : Z) (v w : view) (vs : list view) (bs : list (Z * list view)) (fl : list Z).

(** The page of a block determines its view. *)
Lemma view_unique h bs fl s v t w a :
  layout h bs fl -> (s, v) ∈ views bs -> (t, w) ∈ views bs ->
  in_page (v_pfn v) s a -> page_va (v_pfn w) <= a < page_va (v_pfn w) + 4096 -> (s, v) = (t, w).
Proof.
  intros Hly Hv Hw Ha Hb.
  assert (v_pfn v = v_pfn w) as E
    by (eapply in_page_pfn; [apply (vo_size _ _ _ (view_count _ _ _ _ _ Hly Hv))|exact Ha|exact Hb]).
  pose proof (ly_pages _ _ _ Hly) as Hnd.
  apply list_elem_of_lookup_1 in Hv as [i Hi], Hw as [j Hj].
  assert (i = j) as ->.
  { eapply (NoDup_lookup _ i j (v_pfn v) Hnd); rewrite list_lookup_fmap; [by rewrite Hi|].
    rewrite Hj. cbn. by rewrite E. }
  congruence.
Qed.

Lemma live_fun h bs fl a s t : layout h bs fl -> live_in (views bs) a s -> live_in (views bs) a t -> s = t.
Proof.
  intros Hly (v & Hv & Ha & _) (w & Hw & Hb & _).
  pose proof (vo_size _ _ _ (view_count _ _ _ _ _ Hly Hw)) as Ht. pose proof (sizes_facts t Ht).
  apply in_page_range in Hb; [|done].
  pose proof (view_unique _ _ _ _ _ _ _ a Hly Hv Hw Ha ltac:(lia)) as [= E _]. done.
Qed.

(** Blocks, live or free, do not overlap. *)
Lemma block_disjoint h bs fl a s b t v w :
  layout h bs fl -> (s, v) ∈ views bs -> (t, w) ∈ views bs -> in_page (v_pfn v) s a ->
  in_page (v_pfn w) t b -> a <> b -> a + s <= b \/ b + t <= a.
Proof.
  intros Hly Hv Hw Ha Hb Hne.
  pose proof (vo_size _ _ _ (view_count _ _ _ _ _ Hly Hv)) as Hs.
  pose proof (vo_size _ _ _ (view_count _ _ _ _ _ Hly Hw)) as Ht.
  destruct (decide (v_pfn v = v_pfn w)) as [E|E]; [|by apply (page_disjoint (v_pfn v) (v_pfn w))].
  pose proof (sizes_facts s Hs). pose proof (in_page_range _ _ _ Hs Ha) as Hr. rewrite E in Hr.
  pose proof (view_unique _ _ _ _ _ _ _ a Hly Hv Hw Ha ltac:(lia)) as [= <- <-].
  by apply (in_page_disjoint (v_pfn v)).
Qed.

Lemma elem_mid bs1 s vs1 v vs2 bs2 t w :
  (t, w) ∈ views (bs1 ++ (s, vs1 ++ v :: vs2) :: bs2) <->
  (t, w) = (s, v) \/ (t, w) ∈ (views bs1 ++ map (pair s) vs1) ++ (map (pair s) vs2 ++ views bs2).
Proof. rewrite views_mid, elem_of_app, elem_of_cons, (elem_of_app (_ ++ _)). tauto. Qed.

(** Moving one block of a view between its free list and the live blocks. *)
Lemma live_move bs1 s vs1 v v' vs2 bs2 a b t :
  v_pfn v' = v_pfn v -> (forall x, x ∈ v_free v <-> x = a \/ x ∈ v_free v') -> a ∉ v_free v' ->
  in_page (v_pfn v) s a ->
  live_in (views (bs1 ++ (s, vs1 ++ v' :: vs2) :: bs2)) b t <->
  live_in (views (bs1 ++ (s, vs1 ++ v :: vs2) :: bs2)) b t \/ (b = a /\ t = s).
Proof.
  intros Ep Hf Ha Hin. unfold live_in. setoid_rewrite elem_mid. split.
  - intros (w & [[= -> ->]|Hw] & Hb & Hn); [|left; eauto 6].
    destruct (decide (b = a)) as [->|Hne]; [by right|]. left. exists v. rewrite Ep in Hb.
    split_and!; [by left|done|]. rewrite Hf. naive_solver.
  - intros [(w & [[= -> ->]|Hw] & Hb & Hn)|[-> ->]]; [| |].
    + exists v'. rewrite Ep. split_and!; [by left|done|]. intros Hx. apply Hn. rewrite Hf. by right.
    + exists w. eauto.
    + exists v'. rewrite Ep. split_and!; [by left|done|done].
Qed.

Lemma live_new bs1 s v vs bs2 b t :
  (forall x, in_page (v_pfn v) s x -> x ∈ v_free v) ->
  live_in (views (bs1 ++ (s, v :: vs) :: bs2)) b t <-> live_in (views (bs1 ++ (s, vs) :: bs2)) b t.
Proof.
  intros Hall. unfold live_in.
  assert (E : forall w t, (t, w) ∈ views (bs1 ++ (s, v :: vs) :: bs2) <->
                (t, w) = (s, v) \/ (t, w) ∈ views (bs1 ++ (s, vs) :: bs2)).
  { intros w t'. pose proof (elem_mid bs1 s [] v vs bs2 t' w) as H1.
    pose proof (views_skip bs1 s [] vs bs2) as H2. cbn [app] in H1, H2. by rewrite H1, H2. }
  setoid_rewrite E. split; [|naive_solver]. intros (w & [[= -> ->]|Hw] & Hb & Hn); [|eauto].
  by destruct Hn; apply Hall.
Qed.
End Live.

(** ** kmalloc *)

Section Malloc.
Implicit Types (h : kheap) (s k a b t : Z) (v w : view) (vs : list view) (bs : list (Z * list view)) (fl : list Z).

Lemma layout_cpu c h bs fl : layout (set_cpu c h) bs fl <-> layout h bs fl.
Proof.
  split; intros Hly.
  - apply (layout_frame (set_cpu c h)); try done. apply (ly_map _ _ _ Hly).
  - apply (layout_frame h); try done. apply (ly_map _ _ _ Hly).
Qed.

(** The list of descriptors of one bucket, as the searches see it. *)
Lemma bucket_facts h bs1 s vs bs2 fl :
  layout h (bs1 ++ (s, vs) :: bs2) fl ->
  links (descs h) (map v_desc vs) /\ Forall (data_ok (descs h)) vs /\
  (length vs < S (base.size (descs h)))%nat.
Proof.
  intros Hly. pose proof (ly_chains _ _ _ Hly) as Hc. rewrite Forall_mid in Hc. destruct Hc as [Hc _].
  split_and!; [done| |].
  - apply Forall_forall. intros v Hv. apply (view_data h s). eapply view_count; [done|].
    apply elem_views. exists vs. split; [apply elem_of_app; right; by left|done].
  - rewrite <- (length_map v_desc). apply Nat.lt_succ_r, links_size; [done|].
    pose proof (ly_descs _ _ _ Hly) as [Hnd _]%NoDup_app.
    pose proof (views_skip bs1 s [] vs bs2) as E. cbn [app] in E. rewrite E in Hnd.
    rewrite !map_app, !map_map in Hnd. apply NoDup_app in Hnd as (_ & _ & [Hnd _]%NoDup_app). exact Hnd.
Qed.

Lemma take_block h bs1 s vs1 v vs2 bs2 fl a rest d :
  layout h (bs1 ++ (s, vs1 ++ v :: vs2) :: bs2) fl -> v_free v = a :: rest ->
  descs h !! v_desc v = Some d ->
  let v' := {| v_desc := v_desc v; v_pfn := v_pfn v; v_free := rest |} in
  let h' := set_descs (<[v_desc v := with_free (ld64 (ram (kphys h)) (bd_freeptr d)) (u16 (bd_refcnt d + 1)) d]>
                         (descs h)) h in
  bd_freeptr d = a /\ layout h' (bs1 ++ (s, vs1 ++ v' :: vs2) :: bs2) fl /\ used s v'.
Proof.
  intros Hly Hf Hd v' h'.
  assert (Hin : (s, v) ∈ views (bs1 ++ (s, vs1 ++ v :: vs2) :: bs2)) by (apply elem_mid; by left).
  pose proof (view_count _ _ _ _ _ Hly Hin) as [Hs Hp Hc Hn Hb Hl Hch (n & En)].
  pose proof (sizes_facts s Hs) as (S1 & S2 & S3). rewrite Hf in *. cbn [length] in *.
  rewrite En in Hd. injection Hd as <-. cbn in Hch. destruct Hch as [Hld Hch].
  apply NoDup_cons in Hn as [Hn1 Hn2]. apply Forall_cons in Hb as [Hb1 Hb2].
  split_and!; [done| |unfold used; cbn; lia].
  eapply (layout_update h); try done; cbn [descs set_descs h'].
  - intros x Hx. by rewrite lookup_insert_ne.
  - by rewrite lookup_insert_eq, En.
  - split; cbn [v_desc v_pfn v_free kphys set_descs h' v']; try done; [lia|].
    exists n. unfold h'. cbn [descs set_descs]. rewrite lookup_insert_eq. unfold with_free. cbn.
    rewrite Hld, wrap_small; [repeat f_equal; lia|]. change (2 ^ 16) with 65536. lia.
Qed.

(** The bucket's descriptor with a free block: found, or made. *)
Lemma choose_desc h bs1 s vs bs2 fl n :
  layout h (bs1 ++ (s, vs) :: bs2) fl -> free_ge (mem_map (kphys h)) (2 + n) ->
  exists p h1 vs1 v vs2 fl1 a rest,
    find_free (S (base.size (descs h))) (descs h) (lhead (map v_desc vs)) = Some p /\
    (if p =? NULL then new_bucket (Z.of_nat (length bs1)) h else Some (p, h)) = Some (v_desc v, h1) /\
    layout h1 (bs1 ++ (s, vs1 ++ v :: vs2) :: bs2) fl1 /\ v_free v = a :: rest /\
    (forall b t, live_in (views (bs1 ++ (s, vs1 ++ v :: vs2) :: bs2)) b t <->
                 live_in (views (bs1 ++ (s, vs) :: bs2)) b t) /\
    (Forall (fun '(s, v) => used s v) (views (bs1 ++ (s, vs) :: bs2)) ->
     forall t w, (t, w) ∈ (views bs1 ++ map (pair s) vs1) ++ (map (pair s) vs2 ++ views bs2) -> used t w) /\
    kcpu h1 = kcpu h /\ keeps h h1 /\ free_ge (mem_map (kphys h1)) n /\
    (count_of (mem_map (kphys h)) (v_pfn v) = Some 0 \/ (s, v) ∈ views (bs1 ++ (s, vs) :: bs2)) /\
    (count_of (mem_map (kphys h)) (v_pfn v) = Some 0 ->
     forall x, page_va (v_pfn v) <= x < page_va (v_pfn v) + 4096 -> 8 <= (x - page_va (v_pfn v)) mod s ->
       ldb (ram (kphys h1)) x = 0).
Proof.
  intros Hly Hfr. destruct (bucket_facts _ _ _ _ _ _ Hly) as (Hl & Hd & Hsz).
  destruct (find_free_spec _ _ _ Hl Hd Hsz) as [[-> _]|(vs1 & v & vs2 & -> & Hv & ->)].
  - destruct (new_bucket_spec h bs1 s vs bs2 fl n Hly Hfr) as (h1 & v & fl1 & E & Hly1 & Hf & Hc & Hk & Hfr1 & Hz & Hc0).
    destruct (v_free v) as [|a rest] eqn:Ef;
      [by apply (f_equal length) in Hf; rewrite block_list_length in Hf|].
    exists NULL, h1, [], v, vs, fl1, a, rest. split_and!; try done.
    + intros b t. apply live_new. intros x (j & Hj & ->). rewrite Ef, Hf. apply block_list_elem.
      exists j. split; [lia|done].
    + intros Hu t w Hw. pose proof (views_skip bs1 s [] vs bs2) as E2. cbn [app] in E2.
      rewrite Forall_forall in Hu. apply (Hu (t, w)). by rewrite E2.
    + by left.
  - destruct (v_free v) as [|a rest] eqn:Ef; [done|].
    exists (v_desc v), h, vs1, v, vs2, fl, a, rest.
    assert (v_desc v <> NULL) as Hn.
    { apply links_not_null in Hl. intros E. apply Hl. rewrite <- E. apply list_elem_of_fmap_2.
      apply elem_of_app. right. by left. }
    split_and!; try done.
    + zcase; done.
    + intros Hu t w Hw. rewrite Forall_forall in Hu. apply (Hu (t, w)). apply elem_mid. by right.
    + eapply free_ge_mono; [|exact Hfr]. lia.
    + right. apply elem_mid. by left.
    + intros H0. assert (Hin : (s, v) ∈ views (bs1 ++ (s, vs1 ++ v :: vs2) :: bs2)) by (apply elem_mid; by left).
      pose proof (vo_count _ _ _ (view_count _ _ _ _ _ Hly Hin)). congruence.
Qed.

(** A page in use has a block in use. *)
Lemma used_block h v s : view_ok h s v -> used s v -> exists x, in_page (v_pfn v) s x /\ x ∉ v_free v.
Proof.
  intros Hok Hu. pose proof (sizes_facts s (vo_size _ _ _ Hok)) as (S1 & S2 & S3).
  set (l := block_list (Z.to_nat (4096 / s - 1)) s (page_va (v_pfn v))).
  destruct (decide (Forall (fun x => x ∈ v_free v) l)) as [Hall|Hnot].
  - exfalso. unfold used in Hu. assert (Hle : (length l <= length (v_free v))%nat).
    { apply List.NoDup_incl_length; [apply NoDup_ListNoDup, block_list_nodup; lia|].
      intros x Hx%list_elem_of_In. apply list_elem_of_In. rewrite Forall_forall in Hall. by apply Hall. }
    unfold l in Hle. rewrite block_list_length in Hle. lia.
  - apply not_Forall_Exists in Hnot; [|intros x; apply _]. apply Exists_exists in Hnot as (x & Hx & Hn).
    exists x. split; [|done]. apply block_list_elem in Hx as (j & Hj & ->). exists j. split; [lia|done].
Qed.

Lemma kmalloc_spec h L len n :
  kinv h L -> 0 <= len <= 4096 -> free_ge (mem_map (kphys h)) (2 + n) ->
  exists a h', kmalloc len h = Some (a, h') /\ L !! a = None /\ kinv h' (<[a := block_size len]> L) /\
    a mod block_size len = 0 /\
    (forall b t, L !! b = Some t -> a + block_size len <= b \/ b + t <= a) /\
    kcpu h' = kcpu h /\ keeps h h' /\ free_ge (mem_map (kphys h')) n /\
    exists k, pfn_ok k /\ page_va k <= a /\ a + block_size len <= page_va k + 4096 /\
      count_of (mem_map (kphys h')) k = Some 1 /\
      (count_of (mem_map (kphys h)) k = Some 0 \/ exists b t, L !! b = Some t /\ page_va k <= b < page_va k + 4096) /\
      (count_of (mem_map (kphys h)) k = Some 0 -> forall x, page_va k <= x < page_va k + 4096 ->
         8 <= (x - page_va k) mod block_size len -> ldb (ram (kphys h')) x = 0).
Proof.
  intros (bs & fl & Hly & Hu & HL) Hlen Hfr.
  destruct (find_bucket_spec bs len (ly_sizes _ _ _ Hly) (proj2 Hlen)) as (bs1 & vs & bs2 & -> & Efb).
  set (s := block_size len) in *. unfold kmalloc.
  rewrite (wrap_small 32 len), (ly_dir _ _ _ Hly), Efb, dir_get, bind_Some by (change (2 ^ 32) with 4294967296; lia).
  destruct (disable_irqsave (kcpu h)) as [flag c] eqn:Ei. cbn [bchain].
  set (h0 := set_cpu c h). assert (Hly0 : layout h0 (bs1 ++ (s, vs) :: bs2) fl) by (by apply layout_cpu).
  destruct (choose_desc h0 bs1 s vs bs2 fl n Hly0 Hfr)
    as (p & h1 & vs1 & v & vs2 & fl1 & a & rest & E1 & E2 & Hly1 & Ef & Hlive & Hused & Ec1 & Hk1 & Hfr1 & Hpage & Hzero).
  rewrite E1, bind_Some, E2, bind_Some.
  assert (Hin : (s, v) ∈ views (bs1 ++ (s, vs1 ++ v :: vs2) :: bs2)) by (apply elem_mid; by left).
  pose proof (view_count _ _ _ _ _ Hly1 Hin) as Hok. pose proof (vo_size _ _ _ Hok) as Hs.
  destruct (vo_desc _ _ _ Hok) as (nx & En). unfold upd_desc. rewrite En, !bind_Some.
  destruct (take_block h1 bs1 s vs1 v vs2 bs2 fl1 a rest _ Hly1 Ef En) as (Ea & Hly2 & Hu2).
  set (v' := {| v_desc := v_desc v; v_pfn := v_pfn v; v_free := rest |}) in *.
  pose proof (vo_blocks _ _ _ Hok) as Hb. pose proof (vo_nodup _ _ _ Hok) as Hnd.
  rewrite Ef in Hb, Hnd. apply Forall_cons in Hb as [Hb _]. apply NoDup_cons in Hnd as [Hnd _].
  cbn [bd_freeptr] in *. rewrite Ea in *. cbn [kcpu set_descs].
  assert (Hmv : forall b t, live_in (views (bs1 ++ (s, vs1 ++ v' :: vs2) :: bs2)) b t <->
                  L !! b = Some t \/ (b = a /\ t = s)).
  { intros b t. rewrite HL, <- Hlive. apply live_move; try done. intros x. rewrite Ef. apply elem_of_cons. }
  assert (Hna : L !! a = None).
  { destruct (L !! a) as [t|] eqn:EL; [|done]. apply HL, Hlive in EL as (w & Hw & Hwa & Hwf).
    apply in_page_range in Hwa as Hr; [|eapply vo_size, view_count; [exact Hly1|exact Hw]].
    pose proof (sizes_facts t (vo_size _ _ _ (view_count _ _ _ _ _ Hly1 Hw))).
    pose proof (view_unique _ _ _ _ _ _ _ a Hly1 Hin Hw Hb ltac:(lia)) as [= <- <-].
    rewrite Ef in Hwf. destruct Hwf. by left. }
  eexists a, _. split_and!; [done|done| | | | |exact Hk1|exact Hfr1|].
  - exists (bs1 ++ (s, vs1 ++ v' :: vs2) :: bs2), fl1. split_and!; [by apply layout_cpu| |].
    + apply Forall_forall. intros [t w] [[= -> ->]|Hw]%elem_mid; [done|by eapply Hused].
    + intros b t. rewrite Hmv, lookup_insert_Some. naive_solver.
  - by eapply in_page_aligned.
  - intros b t Hbt. apply HL, Hlive in Hbt as (w & Hw & Hwb & Hwf).
    eapply (block_disjoint h1); [exact Hly1|exact Hin|exact Hw|exact Hb|exact Hwb|].
    intros <-. assert (Hl : live_in (views (bs1 ++ (s, vs1 ++ v :: vs2) :: bs2)) a t) by (by exists w).
    apply Hlive, HL in Hl. congruence.
  - rewrite Ec1. unfold h0. cbn. pose proof (irqsave_restore (kcpu h)) as Hr. by rewrite Ei in Hr.
  - exists (v_pfn v). apply in_page_range in Hb; [|done]. split_and!; [apply Hok|lia|lia|apply Hok| |exact Hzero].
    destruct Hpage as [Hp0|Hp]; [by left|right]. rewrite Forall_forall in Hu.
    destruct (used_block h0 v s (view_count _ _ _ _ _ Hly0 Hp) (Hu _ Hp)) as (x & Hx & Hn).
    exists x, s. split; [apply HL; by exists v|]. apply in_page_range in Hx; [|done]. pose proof (sizes_facts s Hs). lia.
Qed.

End Malloc.

(** ** free_s *)

Section FreeSearch.
Implicit Types (h : kheap) (s k a b t : Z) (v w : view) (vs : list view) (bs : list (Z * list view)) (fl : list Z).

Lemma find_dir_skip h k sz bs1 l i prev :
  Forall (fun '(t, ws) => t <> 0 /\ links (descs h) (map v_desc ws) /\ Forall (data_ok (descs h)) ws /\
    (length ws < S (base.size (descs h)))%nat /\ Forall (fun w => page_va (v_pfn w) <> page_va k) ws) bs1 ->
  exists prev', find_dir h (page_va k) sz
    (map (fun '(s, vs) => {| bsize := s; bchain := lhead (map v_desc vs) |}) bs1 ++ l) i prev =
  find_dir h (page_va k) sz l (i + Z.of_nat (length bs1)) prev'.
Proof.
  revert i prev. induction bs1 as [|[t ws] bs1 IH]; intros i prev Hf; cbn [map app find_dir length].
  - exists prev. by rewrite Z.add_0_r.
  - apply Forall_cons in Hf as [(Ht & Hl & Hd & Hsz & Hne) Hf]. cbn [bsize bchain].
    destruct (Z.eqb_spec t 0); [done|].
    replace (i + Z.of_nat (S (length bs1))) with (i + 1 + Z.of_nat (length bs1)) by lia.
    destruct (Z.ltb_spec t sz); [by apply IH|].
    destruct (find_page_none (descs h) k ws _ NULL Hl Hd Hne Hsz) as [p Ep]. rewrite Ep, bind_Some.
    rewrite Z.eqb_refl. by apply IH.
Qed.

Lemma find_dir_spec h bs1 s vs1 v vs2 bs2 fl sz :
  layout h (bs1 ++ (s, vs1 ++ v :: vs2) :: bs2) fl -> sz <= s ->
  find_dir h (page_va (v_pfn v)) sz (bucket_dir h) 0 NULL =
    Some (Z.of_nat (length bs1), from_option v_desc NULL (last vs1), v_desc v).
Proof.
  intros Hly Hsz. rewrite (ly_dir _ _ _ Hly). unfold dir_of. rewrite map_app, <- app_assoc.
  assert (Hpg : forall t w, (t, w) ∈ (views bs1 ++ map (pair s) vs1) ++ (map (pair s) vs2 ++ views bs2) ->
            page_va (v_pfn w) <> page_va (v_pfn v)).
  { intros t w Hw E%page_va_inj. by apply (layout_others _ _ _ _ _ _ _ _ _ _ Hly Hw). }
  destruct (find_dir_skip h (v_pfn v) sz bs1
              (map (fun '(s, vs) => {| bsize := s; bchain := lhead (map v_desc vs) |}) ((s, vs1 ++ v :: vs2) :: bs2) ++
               [{| bsize := 0; bchain := NULL |}]) 0 NULL) as [prev E].
  { apply Forall_forall. intros [t ws] Hin. apply list_elem_of_split in Hin as Hs.
    destruct Hs as (b1 & b2 & Eb). pose proof Hly as Hly'. rewrite Eb, <- app_assoc in Hly'. cbn [app] in Hly'.
    pose proof (layout_size _ _ _ _ _ _ Hly') as Ht. pose proof (sizes_facts t Ht).
    destruct (bucket_facts _ _ _ _ _ _ Hly') as (F1 & F2 & F3). split_and!; [lia|done..|].
    apply Forall_forall. intros w Hw. apply (Hpg t). do 2 (apply elem_of_app; left). apply elem_views. eauto. }
  rewrite E. cbn [map app find_dir bsize bchain].
  pose proof (sizes_facts s (layout_size _ _ _ _ _ _ Hly)).
  destruct (Z.eqb_spec s 0); [lia|]. destruct (Z.ltb_spec s sz); [lia|].
  destruct (bucket_facts _ _ _ _ _ _ Hly) as (F1 & F2 & F3).
  rewrite (find_page_spec _ (v_pfn v) vs1 v vs2 _ NULL F1 F2); [|apply Forall_forall|done|].
  - rewrite bind_Some. apply links_not_null in F1.
    destruct (Z.eqb_spec (v_desc v) NULL) as [En|]; [|done]. destruct F1. rewrite <- En.
    apply list_elem_of_fmap_2. apply elem_of_app. right. by left.
  - intros w Hw. apply (Hpg s). apply elem_of_app. left. apply elem_of_app. right. by apply list_elem_of_fmap_2.
  - rewrite length_app in F3. lia.
Qed.
End FreeSearch.

Section Release.
Implicit Types (h : kheap) (s k a b t : Z) (v w : view) (vs : list view) (bs : list (Z * list view)) (fl : list Z).

(** Unlinking a view from its bucket. *)
Lemma layout_unlink h h' bs1 s vs1 v vs2 bs2 fl :
  layout h (bs1 ++ (s, vs1 ++ v :: vs2) :: bs2) fl ->
  bucket_dir h' = dir_of (bs1 ++ (s, vs1 ++ vs2) :: bs2) ->
  links (descs h') (map v_desc (vs1 ++ vs2)) ->
  (forall l, links (descs h) l -> (forall x, x ∈ l -> x ∉ map v_desc vs1) -> links (descs h') l) ->
  (forall x d, descs h !! x = Some d -> exists n, descs h' !! x = Some (with_next n d)) ->
  (forall x, is_Some (descs h' !! x) -> is_Some (descs h !! x)) ->
  kphys h' = kphys h -> free_bucket_desc h' = free_bucket_desc h ->
  layout h' (bs1 ++ (s, vs1 ++ vs2) :: bs2) fl.
Proof.
  intros Hly Hdir Hlk Hoth Hds Hdom' Ep Ef.
  assert (Hsub : forall x, x ∈ views (bs1 ++ (s, vs1 ++ vs2) :: bs2) -> x ∈ views (bs1 ++ (s, vs1 ++ v :: vs2) :: bs2)).
  { intros [t w]. rewrite views_skip, elem_mid. by right. }
  pose proof Hly as [Hs Hd Hc [Hf Hfl] Hv Hnd Hnp Hdom Hm].
  assert (Hdis : forall x, x ∈ map (fun sv => v_desc sv.2) (views bs1 ++ views bs2) \/ x ∈ fl -> x ∉ map v_desc vs1).
  { intros x Hx Hx1. rewrite views_mid, !map_app in Hnd. cbn [map snd] in Hnd. rewrite !map_map in Hnd. cbn [snd] in Hnd.
    rewrite map_app in Hx. revert Hx. rewrite elem_of_app.
    rewrite <- !app_assoc in Hnd. cbn [app] in Hnd.
    apply NoDup_app in Hnd as (_ & N1 & [_ [N2 _]]%NoDup_app). intros [[Hx|Hx]|Hx].
    - apply (N1 x Hx). apply elem_of_app. by left.
    - apply (N2 x Hx1). rewrite elem_of_cons, map_app, !elem_of_app. tauto.
    - apply (N2 x Hx1). rewrite elem_of_cons, map_app, !elem_of_app. tauto. }
  split; rewrite ?Ep; try done.
  - rewrite <- Hs, !map_app. done.
  - rewrite Forall_mid in Hc |- *. destruct Hc as [_ Hc]. split; [done|].
    rewrite Forall_forall in Hc. apply Forall_forall. intros [t ws] Ht. apply Hoth; [by apply (Hc (t, ws))|].
    intros x Hx. apply Hdis. left. apply list_elem_of_fmap_1 in Hx as (w & -> & Hw).
    apply (list_elem_of_fmap_2 (fun sv : Z * view => v_desc sv.2) _ (t, w)). apply elem_of_app.
    rewrite !elem_views. apply elem_of_app in Ht as [Ht|Ht]; eauto.
  - rewrite Ef. split; [done|]. apply Hoth; [done|]. intros x Hx. apply Hdis. by right.
  - apply Forall_forall. intros [t w] Hw. apply Hsub in Hw. rewrite Forall_forall in Hv.
    pose proof (Hv _ Hw) as Hok. cbn in Hok. destruct (vo_desc _ _ _ Hok) as (n & En).
    apply (view_frame h); rewrite ?Ep; [done|apply Hok|done|].
    destruct (Hds _ _ En) as [n' En']. eauto.
  - rewrite views_mid, map_app in Hnd. cbn [map] in Hnd. rewrite views_skip, map_app.
    rewrite <- Permutation_middle in Hnd. by apply NoDup_cons in Hnd as [_ Hnd].
  - rewrite views_mid, map_app in Hnp. cbn [map] in Hnp. rewrite views_skip, map_app.
    rewrite <- Permutation_middle in Hnp. by apply NoDup_cons in Hnp as [_ Hnp].
  - intros a Ha. destruct (Hdom a (Hdom' a Ha)) as (k & K1 & K2 & K3 & K4). exists k. split_and!; [done|lia|lia|done|].
    intros Hk. apply K4. apply list_elem_of_fmap_1 in Hk as (x & -> & Hx). apply Hsub in Hx.
    by apply (list_elem_of_fmap_2 (fun sv : Z * view => v_pfn sv.2)).
Qed.

(** Giving back a page that holds no bucket and no descriptor. *)
Lemma layout_free_page h h' bs fl k :
  layout h bs fl -> descs h' = descs h -> bucket_dir h' = bucket_dir h ->
  free_bucket_desc h' = free_bucket_desc h -> map_ok (mem_map (kphys h')) ->
  ram (kphys h') = ram (kphys h) ->
  (forall j, j <> k -> count_of (mem_map (kphys h')) j = count_of (mem_map (kphys h)) j) ->
  k ∉ map (fun sv => v_pfn sv.2) (views bs) ->
  (forall x, is_Some (descs h !! x) -> x < page_va k \/ page_va k + 4096 <= x) ->
  layout h' bs fl.
Proof.
  intros Hly E1 E2 E3 Hm' Er Hcnt Hk Hx. pose proof Hly as [Hs Hd Hc Hf Hv Hnd Hnp Hdom Hm].
  split; rewrite ?E1, ?E2, ?E3; try done.
  - apply Forall_forall. intros [s v] Hin. pose proof (view_count _ _ _ _ _ Hly Hin) as Hok.
    destruct (vo_desc _ _ _ Hok) as (n & En). apply (view_frame h); rewrite ?Er; [done| |done|].
    + rewrite Hcnt; [apply Hok|]. intros <-. apply Hk.
      by apply (list_elem_of_fmap_2 (fun sv : Z * view => v_pfn sv.2) _ (s, v)).
    + eexists _, n. by rewrite E1, En.
  - intros a Ha. destruct (Hdom a Ha) as (j & K1 & K2 & K3 & K4). exists j. split_and!; [done|lia|lia| |done].
    rewrite Hcnt; [done|]. intros ->. destruct (Hx a Ha); lia.
Qed.

(** Returning a descriptor to the free list. *)
Lemma layout_push_free h bs fl a d :
  layout h bs fl -> a ∉ fl -> a ∉ map (fun sv => v_desc sv.2) (views bs) -> a <> NULL -> descs h !! a = Some d ->
  layout (set_free_desc a (set_descs (<[a := with_next (free_bucket_desc h) d]> (descs h)) h)) bs (a :: fl).
Proof.
  intros Hly A1 A2 A3 Hd. pose proof Hly as [Hs Hdir Hc [Hf Hfl] Hv Hnd Hnp Hdom Hm].
  split; cbn [descs set_descs set_free_desc kphys bucket_dir free_bucket_desc]; try done.
  - rewrite Forall_forall in Hc. apply Forall_forall. intros [t ws] Ht. apply links_insert; [by apply (Hc (t, ws))|].
    intros Ha. apply A2. apply list_elem_of_fmap_1 in Ha as (w & -> & Hw).
    apply (list_elem_of_fmap_2 (fun sv : Z * view => v_desc sv.2) _ (t, w)), elem_views. eauto.
  - split; [done|]. cbn. split_and!; [done| |by apply links_insert].
    eexists. by rewrite lookup_insert_eq.
  - apply Forall_forall. intros [s v] Hin. pose proof (view_count _ _ _ _ _ Hly Hin) as Hok.
    destruct (vo_desc _ _ _ Hok) as (n & En). apply (view_frame h); [done|apply Hok|done|].
    assert (v_desc v <> a) by (intros <-; apply A2;
      by apply (list_elem_of_fmap_2 (fun sv : Z * view => v_desc sv.2) _ (s, v))).
    eexists _, n. cbn. by rewrite lookup_insert_ne, En.
  - rewrite <- Permutation_middle. constructor; [|done]. rewrite elem_of_app. tauto.
  - intros x Hx. apply Hdom. destruct (decide (x = a)) as [->|]; [by rewrite Hd|]. by rewrite lookup_insert_ne in Hx.
Qed.
End Release.

Section ReleaseSpec.
Implicit Types (h : kheap) (s k a b t : Z) (v w : view) (vs : list view) (bs : list (Z * list view)) (fl : list Z).

(** What the layout says about [prev] and [bdesc]. *)
Lemma prev_cases h bs1 s vs1 v vs2 bs2 fl :
  layout h (bs1 ++ (s, vs1 ++ v :: vs2) :: bs2) fl ->
  v_desc v <> NULL /\
  (exists d, descs h !! v_desc v = Some d /\ bd_next d = lhead (map v_desc vs2) /\ bd_page d = page_va (v_pfn v)) /\
  (vs1 = [] \/ exists vs1' p d, vs1 = vs1' ++ [p] /\ last vs1 = Some p /\ v_desc p <> NULL /\
     descs h !! v_desc p = Some d /\ bd_next d = v_desc v /\ v_desc p <> v_desc v).
Proof.
  intros Hly. destruct (bucket_facts _ _ _ _ _ _ Hly) as (Hl & Hd & _).
  assert (Hn : forall w, w ∈ vs1 ++ v :: vs2 -> v_desc w <> NULL).
  { intros w Hw E. apply links_not_null in Hl. apply Hl. rewrite <- E. by apply list_elem_of_fmap_2. }
  split_and!; [apply Hn, elem_of_app; right; by left| |].
  - rewrite map_app in Hl. cbn in Hl. destruct (links_mid _ _ _ _ Hl) as (d & Ed & En).
    rewrite Forall_forall in Hd. destruct (Hd v) as (d' & Ed' & Ep & _); [apply elem_of_app; right; by left|].
    rewrite Ed in Ed'. injection Ed' as <-. eauto.
  - destruct vs1 as [|p vs1'] using rev_ind; [by left|]. right.
    rewrite <- app_assoc in Hl. cbn [app] in Hl. rewrite map_app in Hl. cbn [map] in Hl.
    destruct (links_mid _ _ _ _ Hl) as (d & Ed & En). exists vs1', p, d. split_and!; try done.
    + by rewrite last_snoc.
    + apply Hn. apply elem_of_app. left. apply elem_of_app. right. by left.
    + apply (layout_others _ _ _ _ _ _ _ _ s p Hly). apply elem_of_app. left. apply elem_of_app. right.
      apply list_elem_of_fmap_2. apply elem_of_app. right. by left.
Qed.

Lemma unlink_step h bs1 s vs1 v vs2 bs2 fl :
  layout h (bs1 ++ (s, vs1 ++ v :: vs2) :: bs2) fl ->
  let prev := from_option v_desc NULL (last vs1) in
  exists h', (if negb (prev =? NULL) then upd_desc prev (with_next (lhead (map v_desc vs2))) h
              else set_chain (Z.of_nat (length bs1)) (lhead (map v_desc vs2)) h) = Some h' /\
    layout h' (bs1 ++ (s, vs1 ++ vs2) :: bs2) fl /\ kphys h' = kphys h /\ kcpu h' = kcpu h /\
    free_bucket_desc h' = free_bucket_desc h /\ descs h' !! v_desc v = descs h !! v_desc v /\
    (forall x, is_Some (descs h' !! x) -> is_Some (descs h !! x)).
Proof.
  intros Hly prev. destruct (prev_cases _ _ _ _ _ _ _ _ Hly) as (Hvn & _ & Hcase).
  destruct (bucket_facts _ _ _ _ _ _ Hly) as (Hl & _ & _).
  destruct Hcase as [-> | (vs1' & p & d & -> & Hlast & Hpn & Ed & En & Hne)].
  - cbn in prev. unfold prev. rewrite Z.eqb_refl. cbn [negb app] in *.
    rewrite (set_chain_spec h bs1 s (v :: vs2) vs2 bs2 (ly_dir _ _ _ Hly)).
    eexists. split_and!; try done.
    apply (layout_unlink h _ bs1 s [] v vs2 bs2 fl Hly); try done.
    + cbn in Hl. apply Hl.
    + intros x dx Ex. exists (bd_next dx). cbn. rewrite Ex. by destruct dx.
  - unfold prev. rewrite Hlast. cbn [from_option]. apply Z.eqb_neq in Hpn as ->. cbn [negb].
    unfold upd_desc. rewrite Ed, bind_Some. eexists. split_and!; try done.
    + apply (layout_unlink h _ bs1 s (vs1' ++ [p]) v vs2 bs2 fl Hly); try done.
      * assert (Hh : forall l, lhead (map v_desc ((vs1' ++ [p]) ++ l)) = lhead (map v_desc (vs1' ++ [p])))
          by (intros; by destruct vs1').
        cbn [bucket_dir set_descs]. rewrite (ly_dir _ _ _ Hly). unfold dir_of. rewrite !(map_app _ bs1).
        cbn [map]. by rewrite (Hh (v :: vs2)), (Hh vs2).
      * cbn [descs set_descs]. rewrite <- app_assoc, map_app. cbn [app map].
        apply (links_remove _ _ _ (v_desc v)); [by rewrite <- app_assoc, map_app in Hl| |done].
        pose proof (ly_descs _ _ _ Hly) as [Hnd _]%NoDup_app.
        pose proof (views_skip bs1 s [] ((vs1' ++ [p]) ++ v :: vs2) bs2) as E. cbn [app] in E. rewrite E in Hnd.
        rewrite !map_app, !map_map in Hnd. apply NoDup_app in Hnd as (_ & _ & [Hnd _]%NoDup_app).
        cbn [snd map] in Hnd. rewrite <- app_assoc in Hnd. exact Hnd.
      * intros l Hlk Hx. cbn. apply links_insert; [done|]. intros Hp. apply (Hx _ Hp).
        rewrite map_app. apply elem_of_app. right. by left.
      * intros x dx Ex. cbn. destruct (decide (x = v_desc p)) as [->|].
        -- rewrite lookup_insert_eq. rewrite Ed in Ex. injection Ex as <-. by eexists.
        -- rewrite lookup_insert_ne by done. exists (bd_next dx). rewrite Ex. by destruct dx.
      * intros x. cbn. destruct (decide (x = v_desc p)) as [->|]; [by rewrite Ed|by rewrite lookup_insert_ne].
    + cbn. by rewrite lookup_insert_ne.
    + intros x. cbn. destruct (decide (x = v_desc p)) as [->|]; [by rewrite Ed|by rewrite lookup_insert_ne].
Qed.
End ReleaseSpec.

Section FreeSpec.
Implicit Types (h : kheap) (s k a b t : Z) (v w : view) (vs : list view) (bs : list (Z * list view)) (fl : list Z).

Lemma release_bucket_spec h bs1 s vs1 v vs2 bs2 fl :
  layout h (bs1 ++ (s, vs1 ++ v :: vs2) :: bs2) fl ->
  exists h', release_bucket (Z.of_nat (length bs1)) (from_option v_desc NULL (last vs1)) (v_desc v) h = Some h' /\
    layout h' (bs1 ++ (s, vs1 ++ vs2) :: bs2) (v_desc v :: fl) /\ kcpu h' = kcpu h /\
    ram (kphys h') = ram (kphys h) /\
    (forall j, count_of (mem_map (kphys h')) j =
       if j =? v_pfn v then Some 0 else count_of (mem_map (kphys h)) j).
Proof.
  intros Hly. destruct (prev_cases _ _ _ _ _ _ _ _ Hly) as (Hvn & (d & Ed & En & Epg) & Hcase).
  assert (Hin : (s, v) ∈ views (bs1 ++ (s, vs1 ++ v :: vs2) :: bs2)) by (apply elem_mid; by left).
  pose proof (view_count _ _ _ _ _ Hly Hin) as Hok. pose proof (vo_pfn _ _ _ Hok) as Hk.
  destruct (unlink_step _ _ _ _ _ _ _ _ Hly) as (h1 & E1 & Hly1 & Ep1 & Ec1 & Ef1 & Ev1 & Hd1).
  set (prev := from_option v_desc NULL (last vs1)) in *. unfold release_bucket.
  rewrite (ly_dir _ _ _ Hly), dir_get, bind_Some. cbn [bchain].
  assert (Hst : (if prev =? NULL then Some (negb (lhead (map v_desc (vs1 ++ v :: vs2)) =? v_desc v))
                 else let! p := descs h !! prev in Some (negb (bd_next p =? v_desc v))) = Some false).
  { destruct Hcase as [-> | (vs1' & p & dp & -> & Hlast & Hpn & Edp & Enp & Hne)].
    - cbn. by rewrite Z.eqb_refl.
    - unfold prev. rewrite Hlast. cbn [from_option]. apply Z.eqb_neq in Hpn as ->.
      rewrite Edp, bind_Some, Enp, Z.eqb_refl. done. }
  rewrite Hst, !bind_Some, Ed, bind_Some, En, E1, bind_Some, Epg.
  destruct (kset_page_flags_spec h1 _ fl (v_pfn v) 0 PG_free Hly1 Hk ltac:(lia))
    as (h2 & E2 & Hly2 & Hc2 & Ed2 & Edir2 & Ef2 & Ecpu2 & Er2). rewrite Z.add_0_r in E2.
  rewrite E2, bind_Some. unfold kfree_page.
  destruct (free_page_spec (mem_map (kphys h2)) (v_pfn v) 1 (ly_map _ _ _ Hly2) Hk) as (mm & E3 & Hm3 & Hc3).
  { rewrite Hc2, Ep1. apply Hok. }
  rewrite E3, !bind_Some. set (h3 := set_phys _ h2).
  assert (Hnv : v_pfn v ∉ map (fun sv => v_pfn sv.2) (views (bs1 ++ (s, vs1 ++ vs2) :: bs2))).
  { intros ([t w] & E & Hw)%list_elem_of_fmap_1. rewrite views_skip in Hw.
    by apply (layout_others _ _ _ _ _ _ _ _ t w Hly) in Hw as [_ ?]. }
  assert (Hly3 : layout h3 (bs1 ++ (s, vs1 ++ vs2) :: bs2) fl).
  { apply (layout_free_page h2 h3 _ _ (v_pfn v) Hly2); try done.
    - intros j Hj. cbn. rewrite Hc3. by zcase.
    - intros x. rewrite Ed2. intros Hx%Hd1.
      destruct (ly_dom _ _ _ Hly x Hx) as (k' & _ & K2 & _ & K4).
      assert (k' <> v_pfn v) by (intros ->; apply K4;
        by apply (list_elem_of_fmap_2 (fun sv : Z * view => v_pfn sv.2) _ (s, v))).
      unfold page_va in *. lia. }
  assert (Hd3 : descs h3 !! v_desc v = Some d) by (change (descs h3) with (descs h2); by rewrite Ed2, Ev1).
  unfold upd_desc. rewrite Hd3, !bind_Some. eexists. split; [done|]. split_and!.
  - pose proof (ly_descs _ _ _ Hly) as Hnd. rewrite views_mid, map_app in Hnd. cbn [map snd] in Hnd.
    rewrite <- app_assoc in Hnd. cbn [app] in Hnd. rewrite <- Permutation_middle in Hnd.
    apply NoDup_cons in Hnd as [Hnd _]. rewrite !elem_of_app in Hnd.
    apply layout_push_free; [done|tauto| |done|done]. rewrite views_skip, map_app, elem_of_app. tauto.
  - cbn. rewrite Ecpu2. exact Ec1.
  - cbn. rewrite Er2, Ep1. done.
  - intros j. cbn. rewrite Hc3, Hc2, Ep1. by zcase.
Qed.

(** Putting a block back on its view's free list. *)
Lemma put_block h bs1 s vs1 v vs2 bs2 fl a d :
  layout h (bs1 ++ (s, vs1 ++ v :: vs2) :: bs2) fl -> in_page (v_pfn v) s a -> a ∉ v_free v ->
  descs h !! v_desc v = Some d -> used s v ->
  let v' := {| v_desc := v_desc v; v_pfn := v_pfn v; v_free := a :: v_free v |} in
  let h1 := set_kram (st64 (ram (kphys h)) a (bd_freeptr d)) h in
  let h2 := set_descs (<[v_desc v := with_free a (u16 (bd_refcnt d - 1)) d]> (descs h1)) h1 in
  layout h2 (bs1 ++ (s, vs1 ++ v' :: vs2) :: bs2) fl /\
  u16 (bd_refcnt d - 1) = 4096 / s - Z.of_nat (length (v_free v')).
Proof.
  intros Hly Ha Haf Hd Hu v' h1 h2.
  assert (Hin : (s, v) ∈ views (bs1 ++ (s, vs1 ++ v :: vs2) :: bs2)) by (apply elem_mid; by left).
  pose proof (view_count _ _ _ _ _ Hly Hin) as [Hs Hp Hc Hn Hb Hl Hch (n & En)].
  pose proof (sizes_facts s Hs) as (S1 & S2 & S3). pose proof (in_page_range _ _ _ Hs Ha) as Hr.
  pose proof (page_va_pos _ Hp) as Hpos. rewrite En in Hd. injection Hd as <-. unfold used in Hu.
  assert (Hfp : 0 <= lhead (v_free v) < 2 ^ 64).
  { change (2 ^ 64) with 18446744073709551616. destruct (v_free v) as [|b l]; cbn; [unfold NULL; lia|].
    apply Forall_cons in Hb as [Hb _]. apply in_page_range in Hb; [|done]. lia. }
  assert (Hrc : u16 (4096 / s - Z.of_nat (length (v_free v)) - 1) = 4096 / s - Z.of_nat (length (v_free v'))).
  { cbn [v' v_free length]. rewrite wrap_small; [lia|]. change (2 ^ 16) with 65536. lia. }
  split; [|exact Hrc]. apply (layout_update h h2 bs1 s vs1 v v' vs2 bs2 fl Hly); try done.
  - intros x Hx. unfold h2. cbn. by rewrite lookup_insert_ne.
  - unfold h2. cbn. by rewrite lookup_insert_eq, En.
  - intros b Hbr. unfold h2. cbn. apply (ldb_st_ne 8). lia.
  - split; cbn [v_desc v_pfn v_free v' length]; try done.
    + by constructor.
    + constructor; [done|exact Hb].
    + lia.
    + unfold h2. cbn [kphys set_descs set_kram h1 set_phys ram fchain bd_freeptr].
      split; [rewrite ld64_st64_eq; [done|exact Hfp]|].
      apply (fchain_frame (ram (kphys h))); [done|]. intros b Hbf. rewrite Forall_forall in Hb.
      apply (ld_st_ne 8 8).
      destruct (in_page_disjoint _ _ a b Hs Ha (Hb b Hbf)); [intros ->; done|lia|lia].
    + exists n. unfold h2. cbn [descs set_descs]. rewrite lookup_insert_eq. unfold with_free. cbn. by rewrite Hrc.
Qed.
End FreeSpec.

Section Free.
Implicit Types (h : kheap) (s k a b t : Z) (v w : view) (vs : list view) (bs : list (Z * list view)) (fl : list Z).

Lemma nodup_full (l1 l2 : list Z) :
  NoDup l1 -> (forall x, x ∈ l1 -> x ∈ l2) -> (length l2 <= length l1)%nat -> forall x, x ∈ l2 -> x ∈ l1.
Proof.
  intros Hn Hs Hl x Hx%list_elem_of_In. apply list_elem_of_In.
  apply (List.NoDup_length_incl (l := l1) (l' := l2)); [by apply NoDup_ListNoDup|done| |done].
  intros y Hy. by apply list_elem_of_In, Hs, list_elem_of_In.
Qed.

(** A view as long as its page has all its blocks free. *)
Lemma view_full h s v x :
  view_ok h s v -> Z.of_nat (length (v_free v)) = 4096 / s -> in_page (v_pfn v) s x -> x ∈ v_free v.
Proof.
  intros [Hs _ _ Hn Hb _ _ _] Hl (j & Hj & ->). pose proof (sizes_facts s Hs).
  apply (nodup_full _ (block_list (Z.to_nat (4096 / s - 1)) s (page_va (v_pfn v)))); [done| | |].
  - intros y Hy. rewrite Forall_forall in Hb. destruct (Hb y Hy) as (i & Hi & ->).
    apply block_list_elem. exists i. split; [lia|done].
  - rewrite block_list_length. lia.
  - apply block_list_elem. exists j. split; [lia|done].
Qed.

Lemma live_drop bs1 s vs1 v vs2 bs2 b t :
  (forall x, in_page (v_pfn v) s x -> x ∈ v_free v) ->
  live_in (views (bs1 ++ (s, vs1 ++ vs2) :: bs2)) b t <-> live_in (views (bs1 ++ (s, vs1 ++ v :: vs2) :: bs2)) b t.
Proof.
  intros Hall. unfold live_in. setoid_rewrite elem_mid. rewrite views_skip. split.
  - intros (w & Hw & ?). exists w. split; [by right|done].
  - intros (w & [[= -> ->]|Hw] & Hb & Hn); [by destruct Hn; apply Hall|eauto].
Qed.

Lemma free_s_spec h L a s sz :
  kinv h L -> L !! a = Some s -> sz <= s ->
  exists h', free_s a sz h = Some h' /\ kinv h' (delete a L) /\ kcpu h' = kcpu h /\
    (forall b, b < a \/ a + 8 <= b -> ldb (ram (kphys h')) b = ldb (ram (kphys h)) b) /\
    (forall j, count_of (mem_map (kphys h')) j = count_of (mem_map (kphys h)) j \/
       (page_va j <= a < page_va j + 4096 /\ count_of (mem_map (kphys h')) j = Some 0 /\
        forall b t, delete a L !! b = Some t -> b < page_va j \/ page_va j + 4096 <= b)).
Proof.
  intros (bs & fl & Hly & Hu & HL) HLa Hsz. pose proof (proj1 (HL _ _) HLa) as (v & Hv & Ha & Haf).
  pose proof (view_count _ _ _ _ _ Hly Hv) as Hok. pose proof (vo_size _ _ _ Hok) as Hs.
  apply elem_views in Hv as (vs & Hbs & Hvs). apply list_elem_of_split in Hbs as (bs1 & bs2 & ->).
  apply list_elem_of_split in Hvs as (vs1 & vs2 & ->).
  assert (Huv : used s v /\ forall t w, (t, w) ∈ (views bs1 ++ map (pair s) vs1) ++ (map (pair s) vs2 ++ views bs2) ->
            used t w).
  { rewrite Forall_forall in Hu. split; [apply (Hu (s, v)), elem_mid; by left|].
    intros t w Hw. apply (Hu (t, w)), elem_mid. by right. }
  destruct Huv as [Huv Huo]. unfold free_s.
  rewrite (in_page_page _ _ _ (vo_pfn _ _ _ Hok) Hs Ha), (find_dir_spec _ _ _ _ _ _ _ _ sz Hly Hsz), bind_Some.
  destruct (disable_irqsave (kcpu h)) as [flag c] eqn:Ei. pose proof (irqsave_restore (kcpu h)) as Hrest.
  rewrite Ei in Hrest. cbn [fst snd] in Hrest.
  assert (Hly0 : layout (set_cpu c h) (bs1 ++ (s, vs1 ++ v :: vs2) :: bs2) fl) by (by apply layout_cpu).
  destruct (vo_desc _ _ _ Hok) as (n & En).
  assert (En0 : descs (set_cpu c h) !! v_desc v = Some _) by exact En.
  destruct (put_block _ _ _ _ _ _ _ _ a _ Hly0 Ha Haf En0 Huv) as [Hly2 Hrc]. revert Hly2 Hrc.
  set (d := {| bd_page := _ |}). set (v' := {| v_desc := v_desc v; v_free := a :: v_free v |}).
  cbn zeta. set (h1 := set_kram _ (set_cpu c h)). set (h2 := set_descs _ h1). intros Hly2 Hrc.
  change (descs (set_cpu c h)) with (descs h). rewrite En, bind_Some. fold d h1. unfold upd_desc.
  change (descs h1) with (descs h). rewrite En, !bind_Some.
  match goal with |- context [set_descs ?m h1] => change (set_descs m h1) with h2 end. rewrite Hrc.
  assert (Hin2 : (s, v') ∈ views (bs1 ++ (s, vs1 ++ v' :: vs2) :: bs2)) by (apply elem_mid; by left).
  pose proof (view_count _ _ _ _ _ Hly2 Hin2) as Hok2.
  assert (Hmv : forall b t, delete a L !! b = Some t <-> live_in (views (bs1 ++ (s, vs1 ++ v' :: vs2) :: bs2)) b t).
  { intros b t. assert (Hx : forall x, x ∈ v_free v' <-> x = a \/ x ∈ v_free v) by (intros x; apply elem_of_cons).
    rewrite lookup_delete_Some, HL, (live_move bs1 s vs1 v' v vs2 bs2 a b t) by done.
    split; [intros [? [?|[-> _]]]; done|]. intros H. split; [|by left]. intros <-. destruct H as (w & Hw & Hb & Hn).
    pose proof (view_count _ _ _ _ _ Hly2 Hw) as Hokw. pose proof (sizes_facts t (vo_size _ _ _ Hokw)).
    apply in_page_range in Hb as Hr; [|apply Hokw].
    pose proof (view_unique _ _ _ _ _ _ _ a Hly2 Hin2 Hw Ha ltac:(lia)) as [= <- <-]. apply Hn. by left. }
  assert (Hram : forall b, b < a \/ a + 8 <= b -> ldb (ram (kphys h2)) b = ldb (ram (kphys h)) b).
  { intros b Hb. apply (ldb_st_ne 8). lia. }
  destruct (Z.eqb_spec (4096 / s - Z.of_nat (length (v_free v'))) 0) as [Hz|Hnz].
  - assert (Hfull : forall x, in_page (v_pfn v') s x -> x ∈ v_free v') by (intros x; apply (view_full _ _ _ _ Hok2); lia).
    destruct (release_bucket_spec _ _ _ _ _ _ _ _ Hly2) as (h3 & E3 & Hly3 & Ec3 & Er3 & Hc3).
    change (v_desc v') with (v_desc v) in E3. rewrite E3, bind_Some. eexists. split; [done|]. split_and!.
    + exists (bs1 ++ (s, vs1 ++ vs2) :: bs2), (v_desc v' :: fl). split_and!; [by apply layout_cpu| |].
      * apply Forall_forall. intros [t w]. rewrite views_skip. apply Huo.
      * intros b t. rewrite Hmv. symmetry. by apply live_drop.
    + cbn. by rewrite Ec3.
    + cbn. rewrite Er3. exact Hram.
    + intros j. cbn. rewrite Hc3. zcase; [|by left]. right. subst j. apply in_page_range in Ha as Hr; [|done].
      pose proof (sizes_facts s Hs). split_and!; [cbn; lia|cbn; lia|done|].
      intros b t (w & Hw & Hb & Hn)%Hmv.
      destruct (decide (b < page_va (v_pfn v'))); [by left|]. destruct (decide (page_va (v_pfn v') + 4096 <= b)); [by right|].
      pose proof (view_unique _ _ _ _ _ _ _ b Hly2 Hw Hin2 Hb ltac:(lia)) as [= -> ->]. by destruct Hn; apply Hfull.
  - rewrite bind_Some. eexists. split; [done|]. split_and!; [|by cbn|exact Hram|intros j; by left].
    exists (bs1 ++ (s, vs1 ++ v' :: vs2) :: bs2), fl. split_and!; [by apply layout_cpu| |done].
    apply Forall_forall. intros [t w] [[= -> ->]|Hw]%elem_mid; [|by apply Huo].
    pose proof (vo_length _ _ _ Hok2). unfold used. lia.
Qed.
End Free.

(** ** What clients may rely on *)

Section Clients.
Implicit Types (h : kheap) (L : gmap Z Z) (s k a b t : Z).

(** A live block: its size, its alignment and the page in use it lies in. *)
Lemma kinv_block h L a s :
  kinv h L -> L !! a = Some s -> s ∈ sizes /\ a mod s = 0 /\ a <> NULL /\
    exists k, pfn_ok k /\ page_va k <= a /\ a + s <= page_va k + 4096 /\
      count_of (mem_map (kphys h)) k = Some 1.
Proof.
  intros (bs & fl & Hly & _ & HL) (v & Hv & Ha & _)%HL. pose proof (view_count _ _ _ _ _ Hly Hv) as Hok.
  pose proof (vo_size _ _ _ Hok) as Hs. pose proof (in_page_range _ _ _ Hs Ha).
  pose proof (page_va_pos _ (vo_pfn _ _ _ Hok)). split_and!; [done|by eapply in_page_aligned|unfold NULL; lia|].
  exists (v_pfn v). split_and!; [apply Hok|lia|lia|apply Hok].
Qed.

Lemma kinv_disjoint h L a s b t :
  kinv h L -> L !! a = Some s -> L !! b = Some t -> a <> b -> a + s <= b \/ b + t <= a.
Proof.
  intros (bs & fl & Hly & _ & HL) (v & Hv & Ha & _)%HL (w & Hw & Hb & _)%HL Hne.
  by eapply (block_disjoint h).
Qed.

(** Storing into a live block is invisible to the allocator. *)
Lemma kinv_store h L a s n b x :
  kinv h L -> L !! a = Some s -> a <= b -> b + Z.of_nat n <= a + s ->
  kinv (set_kram (st n (ram (kphys h)) b x) h) L.
Proof.
  intros (bs & fl & Hly & Hu & HL) HLa Hb1 Hb2. pose proof (proj1 (HL _ _) HLa) as (v & Hv & Ha & Haf).
  pose proof (view_count _ _ _ _ _ Hly Hv) as Hok. pose proof (vo_size _ _ _ Hok) as Hs.
  pose proof (in_page_range _ _ _ Hs Ha) as Hr. pose proof (sizes_facts s Hs) as (S1 & _).
  exists bs, fl. split_and!; [|done|done].
  apply elem_views in Hv as (vs & Hbs & Hvs). apply list_elem_of_split in Hbs as (bs1 & bs2 & ->).
  apply list_elem_of_split in Hvs as (vs1 & vs2 & ->).
  apply (layout_update h _ bs1 s vs1 v v vs2 bs2 fl Hly); try done.
  - intros c Hc. cbn. apply (ldb_st_ne n). lia.
  - destruct Hok as [_ Hp Hc Hn Hbl Hl Hch Hd]. split; try done. cbn.
    apply (fchain_frame (ram (kphys h))); [done|]. intros c Hc'. apply (ld_st_ne n 8).
    rewrite Forall_forall in Hbl.
    destruct (in_page_disjoint _ _ a c Hs Ha (Hbl c Hc')); [intros ->; done|lia|lia].
Qed.

(** The state at boot: no descriptor, every chain empty. *)
Definition kheap_init (c : cpu) (s : phys) : kheap :=
  {| kcpu := c; kphys := s; descs := ∅; bucket_dir := bucket_dir_init; free_bucket_desc := NULL |}.

(** What the invariant depends on: the use counts and the words of free blocks,
    which lie in used pages outside every live block. *)
Lemma layout_ram h ph bs fl :
  layout h bs fl -> map_ok (mem_map ph) ->
  (forall j c, count_of (mem_map (kphys h)) j = Some c -> c <> 0 -> count_of (mem_map ph) j = Some c) ->
  (forall s v a b, (s, v) ∈ views bs -> a ∈ v_free v -> a <= b < a + 8 -> ldb (ram ph) b = ldb (ram (kphys h)) b) ->
  layout (set_phys ph h) bs fl.
Proof.
  intros [Hs Hd Hc Hf Hv Hnd Hnp Hdom Hm] Hm' Hcnt Hr. split; try done.
  - apply Forall_forall. intros [s v] Hin. rewrite Forall_forall in Hv. destruct (Hv _ Hin) as [B1 B2 B3 B4 B5 B6 B7 B8].
    split; try done.
    + cbn. by apply Hcnt.
    + apply (fchain_frame (ram (kphys h))); [done|]. intros a Ha. apply (ld_agree 8). intros b Hb. by eapply Hr.
  - intros a Ha. destruct (Hdom a Ha) as (k & H1 & H2 & (c & H3 & H4) & H5). exists k. cbn. split_and!; eauto; lia.
Qed.

(** Outside the live blocks, the pages that hold one must keep their bytes. *)
Lemma kinv_frame_live h L ph :
  kinv h L -> map_ok (mem_map ph) ->
  (forall j c, count_of (mem_map (kphys h)) j = Some c -> c <> 0 -> count_of (mem_map ph) j = Some c) ->
  (forall k b, pfn_ok k -> count_of (mem_map (kphys h)) k = Some 1 ->
     (exists a s, L !! a = Some s /\ page_va k <= a < page_va k + 4096) ->
     page_va k <= b < page_va k + 4096 -> (forall a s, L !! a = Some s -> b < a \/ a + s <= b) ->
     ldb (ram ph) b = ldb (ram (kphys h)) b) ->
  kinv (set_phys ph h) L.
Proof.
  intros (bs & fl & Hly & Hu & HL) Hm Hc Hb. exists bs, fl. split_and!; [|done|done].
  apply layout_ram; [done..|]. intros s v a b Hv Ha Hr.
  pose proof (view_count _ _ _ _ _ Hly Hv) as Hok. pose proof (vo_size _ _ _ Hok) as Hs.
  pose proof (vo_blocks _ _ _ Hok) as Hbl. rewrite Forall_forall in Hbl. specialize (Hbl a Ha).
  pose proof (in_page_range _ _ _ Hs Hbl). pose proof (sizes_facts s Hs) as (S1 & _).
  apply (Hb (v_pfn v)); [apply Hok|apply Hok| |lia|].
  { rewrite Forall_forall in Hu. destruct (used_block _ v s Hok (Hu _ Hv)) as (x & Hx & Hn). exists x, s.
    split; [apply HL; by exists v|]. apply in_page_range in Hx; [|done]. lia. }
  intros x t Hx. apply HL in Hx as (w & Hw & Hwx & Hwf).
  assert (Hne : a <> x).
  { intros <-. pose proof (sizes_facts t (vo_size _ _ _ (view_count _ _ _ _ _ Hly Hw))).
    pose proof (in_page_range _ _ _ (vo_size _ _ _ (view_count _ _ _ _ _ Hly Hw)) Hwx).
    pose proof (view_unique _ _ _ _ _ _ _ a Hly Hv Hw Hbl ltac:(lia)) as [= <- <-]. done. }
  destruct (block_disjoint h bs fl a s x t v w Hly Hv Hw Hbl Hwx Hne); lia.
Qed.

Lemma kinv_frame h L ph :
  kinv h L -> map_ok (mem_map ph) ->
  (forall j c, count_of (mem_map (kphys h)) j = Some c -> c <> 0 -> count_of (mem_map ph) j = Some c) ->
  (forall k c b, pfn_ok k -> count_of (mem_map (kphys h)) k = Some c -> c <> 0 ->
     page_va k <= b < page_va k + 4096 -> (forall a s, L !! a = Some s -> b < a \/ a + s <= b) ->
     ldb (ram ph) b = ldb (ram (kphys h)) b) ->
  kinv (set_phys ph h) L.
Proof. intros Hk Hm Hc Hb. apply kinv_frame_live; [done..|]. intros k b Hp H1 _. by apply (Hb k 1 b). Qed.

Lemma kinv_init c (s : phys) : map_ok (mem_map s) -> kinv (kheap_init c s) ∅.
Proof.
  intros Hm. exists (map (fun s => (s, [])) sizes), []. split_and!.
  - split; try done; cbn; try (repeat constructor; fail).
    + intros a Ha. rewrite lookup_empty in Ha. by destruct Ha.
  - constructor.
  - intros a s0. rewrite lookup_empty. split; [done|]. intros (v & Hv & _). by apply elem_of_nil in Hv.
Qed.
End Clients.

(** ** Clean blocks

    [kmalloc] does not clear a block, and [copy_process] takes a [mm_struct] (a
    block of 512 bytes) as it comes.  The block holds zeros behind its first word
    as long as no block of 512 bytes with other contents was given back. *)

(** The free blocks of the buckets of 512 bytes are zero behind the link. *)
Definition kclean (h : kheap) (L : gmap Z Z) : Prop :=
  forall a b, L !! b = Some 512 -> a mod 512 = 0 -> a / 4096 = b / 4096 -> L !! a = None ->
    forall x, a + 8 <= x < a + 512 -> ldb (ram (kphys h)) x = 0.

Section Clean.
Implicit Types (h : kheap) (L : gmap Z Z) (s k a b t x : Z).

Lemma page_va_div k x : page_va k <= x < page_va k + 4096 <-> x / 4096 = page_va k / 4096.
Proof. unfold page_va. split; intros; Z.div_mod_to_equations; lia. Qed.

(** A bucket has blocks of one size. *)
Lemma kinv_same_size h L a s b t :
  kinv h L -> L !! a = Some s -> L !! b = Some t -> a / 4096 = b / 4096 -> s = t.
Proof.
  intros (bs & fl & Hly & _ & HL) (v & Hv & Ha & _)%HL (w & Hw & Hb & _)%HL Hab.
  pose proof (vo_size _ _ _ (view_count _ _ _ _ _ Hly Hv)) as Hs. pose proof (sizes_facts s Hs).
  pose proof (vo_size _ _ _ (view_count _ _ _ _ _ Hly Hw)) as Ht. pose proof (sizes_facts t Ht).
  apply in_page_range in Hb as Hr; [|done]. assert (E : page_va (v_pfn w) <= b < page_va (v_pfn w) + 4096) by lia.
  apply page_va_div in E. assert (Ew : page_va (v_pfn w) <= a < page_va (v_pfn w) + 4096) by (apply page_va_div; congruence).
  by pose proof (view_unique _ _ _ _ _ _ _ a Hly Hv Hw Ha Ew) as [= -> _].
Qed.

(** A free place beside a block of 512 bytes: in its page, apart from all blocks. *)
Lemma clean_place h L a b :
  kinv h L -> L !! b = Some 512 -> a mod 512 = 0 -> a / 4096 = b / 4096 -> L !! a = None ->
  (exists k, pfn_ok k /\ count_of (mem_map (kphys h)) k = Some 1 /\ page_va k <= b < page_va k + 4096 /\
     page_va k <= a /\ a + 512 <= page_va k + 4096) /\
  forall c t, L !! c = Some t -> a + 512 <= c \/ c + t <= a.
Proof.
  intros Hk Hb Hm Hd Hn. destruct (kinv_block h L b 512 Hk Hb) as (_ & Hmb & _ & k & Hp & H1 & H2 & H3). split.
  - exists k. assert (Hr : page_va k <= a < page_va k + 4096).
    { apply page_va_div. rewrite Hd. apply page_va_div. lia. }
    split_and!; [done|done|lia|lia|lia|]. unfold page_va in *. Z.div_mod_to_equations; lia.
  - intros c t Hc. destruct (decide (c / 4096 = a / 4096)) as [E|E].
    + assert (t = 512) as -> by (eapply (kinv_same_size h L c t b 512); [done..|congruence]).
      destruct (kinv_block h L c 512 Hk Hc) as (_ & Hmc & _). assert (c <> a) by congruence. Z.div_mod_to_equations; lia.
    + destruct (kinv_block h L c t Hk Hc) as (Hs & _ & _ & j & _ & J1 & J2 & _). pose proof (sizes_facts t Hs).
      assert (Ej : page_va j <= c < page_va j + 4096) by lia. apply page_va_div in Ej. unfold page_va in *.
      Z.div_mod_to_equations; lia.
Qed.

(** What it depends on: the bytes outside the live blocks of the pages that hold one. *)
Lemma kclean_bytes h h' L :
  kinv h L -> kclean h L ->
  (forall k x, pfn_ok k -> count_of (mem_map (kphys h)) k = Some 1 ->
     (exists a s, L !! a = Some s /\ page_va k <= a < page_va k + 4096) ->
     page_va k <= x < page_va k + 4096 -> (forall a s, L !! a = Some s -> x < a \/ a + s <= x) ->
     ldb (ram (kphys h')) x = ldb (ram (kphys h)) x) -> kclean h' L.
Proof.
  intros Hk Hc Hb a b Hbl Hm Hd Hn x Hx.
  destruct (clean_place h L a b Hk Hbl Hm Hd Hn) as [(k & Hp & H1 & Hkb & K1 & K2) Hout].
  rewrite (Hb k x); [by apply (Hc a b)|done|done|by exists b, 512|lia|].
  intros c t Hct. destruct (Hout c t Hct); lia.
Qed.

(** Without blocks there is nothing to be clean. *)
Lemma kclean_empty h : kclean h ∅.
Proof. intros a b Hb. by rewrite lookup_empty in Hb. Qed.

(** [kmalloc] keeps it, and its blocks of 512 bytes are clean. *)
Lemma kmalloc_clean h L len n a h' :
  kinv h L -> kclean h L -> 0 <= len <= 4096 -> free_ge (mem_map (kphys h)) (2 + n) -> kmalloc len h = Some (a, h') ->
  kclean h' (<[a := block_size len]> L) /\
  (block_size len = 512 -> forall x, a + 8 <= x < a + 512 -> ldb (ram (kphys h')) x = 0).
Proof.
  intros Hk Hc Hl Hf E.
  destruct (kmalloc_spec h L len n Hk Hl Hf) as (a' & h2 & E' & Hn & Hk' & Hma & Hdis & _ & [_ Hkeep] & _ & k & Hp & K1 & K2 & _ & Hor & Hz).
  assert (a' = a /\ h2 = h') as [-> ->] by (rewrite E in E'; by injection E'). set (s := block_size len) in *.
  assert (Hsz : 0 < s) by (pose proof (block_size_spec len (proj2 Hl)) as (Hin & _); pose proof (sizes_facts s Hin); lia).
  assert (Hak : page_va k <= a < page_va k + 4096) by lia.
  (* a free place of the new state holds zeros *)
  assert (Hfree : s = 512 -> forall c, c mod 512 = 0 -> c / 4096 = a / 4096 -> L !! c = None ->
            forall x, c + 8 <= x < c + 512 -> ldb (ram (kphys h')) x = 0).
  { intros Es c Hmc Hdc Hnc x Hx.
    assert (Hck : page_va k <= c < page_va k + 4096) by (apply page_va_div; rewrite Hdc; by apply page_va_div).
    destruct (count_of_Some (mem_map (kphys h)) k) as [u Hu]; [destruct Hk as (? & ? & Hly & _); apply Hly|done|].
    destruct (decide (u = 0)) as [->|Hu0].
    - apply Hz; [done|unfold page_va in *; Z.div_mod_to_equations; lia|]. rewrite Es. unfold page_va in *. Z.div_mod_to_equations; lia.
    - destruct Hor as [H0|(b & t & Hbt & Hbk)]; [congruence|].
      assert (t = 512) as ->.
      { rewrite <- Es. symmetry. eapply (kinv_same_size h' _ a s b t Hk'); [apply lookup_insert_eq| |].
        - rewrite lookup_insert_ne; [done|]. intros ->. congruence.
        - apply page_va_div in Hbk, Hak. congruence. }
      assert (Hcb : c / 4096 = b / 4096) by (apply page_va_div in Hbk, Hck; congruence).
      destruct (clean_place h L c b Hk Hbt Hmc Hcb Hnc) as [(j & _ & J1 & _ & J2 & J3) _].
      rewrite Hkeep; [by apply (Hc c b)|]. intros i _ Hi. assert (i <> j) by (intros ->; congruence). unfold page_va in *. lia. }
  split.
  - intros c b Hb Hmc Hdc Hnc x Hx. apply lookup_insert_None in Hnc as [Hnc Hca].
    apply lookup_insert_Some in Hb as [[<- Es]|[_ Hb]]; [by apply (Hfree Es c)|].
    destruct (clean_place h L c b Hk Hb Hmc Hdc Hnc) as [(j & _ & J1 & _ & J2 & J3) _].
    rewrite Hkeep; [by apply (Hc c b)|]. intros i _ Hi. assert (i <> j) by (intros ->; congruence). unfold page_va in *. lia.
  - intros Es x Hx. apply (Hfree Es a); [by rewrite <- Es|done|done|done].
Qed.

(** Giving back a block of another size keeps it. *)
Lemma free_clean h L a s sz h' :
  kinv h L -> kclean h L -> L !! a = Some s -> sz <= s -> s <> 512 -> free_s a sz h = Some h' -> kclean h' (delete a L).
Proof.
  intros Hk Hc HL Hsz Hs E c b [Hab Hb]%lookup_delete_Some Hm Hd Hn x Hx.
  destruct (free_s_spec h L a s sz Hk HL Hsz) as (h2 & E' & _ & _ & Hkeep & _). assert (h2 = h') as -> by congruence.
  assert (Hca : c / 4096 <> a / 4096).
  { intros Eca. apply Hs. apply (kinv_same_size h L a s b 512 Hk HL Hb). congruence. }
  assert (Hnc : L !! c = None) by (rewrite lookup_delete_ne in Hn; [done|intros ->; done]).
  rewrite Hkeep; [by apply (Hc c b)|].
  destruct (kinv_block h L a s Hk HL) as (Hin & Hma & _ & k & _ & K1 & K2 & _). pose proof (sizes_facts s Hin).
  unfold page_va in *. Z.div_mod_to_equations; lia.
Qed.
End Clean.

(** The promise of a block allocator to the code above it. *)
Class Allocator (A : Type) := {
  alloc : Z -> A -> option (Z * A);
  release : Z -> A -> option A;
  holds : A -> gmap Z Z -> Prop;
  ready : A -> Prop;
  arena : Z -> Prop;
  alloc_ok : forall h L len, holds h L -> ready h -> 0 <= len <= 4096 ->
    exists a s h', alloc len h = Some (a, h') /\ a <> NULL /\ L !! a = None /\ len <= s /\
      (forall b, a <= b < a + s -> arena b) /\
      (forall b t, L !! b = Some t -> a + s <= b \/ b + t <= a) /\ holds h' (<[a := s]> L);
  release_ok : forall h L a s, holds h L -> L !! a = Some s ->
    exists h', release a h = Some h' /\ holds h' (delete a L) }.

#[export] Instance kmalloc_allocator : Allocator kheap.
Proof.
  refine {| alloc := kmalloc; release := kfree; holds := kinv; ready h := free_ge (mem_map (kphys h)) 2;
            arena b := page_va 0 <= b < page_va PAGING_PAGES |}.
  - intros h L len Hk Hr Hl.
    destruct (kmalloc_spec h L len 0 Hk Hl Hr) as (a & h' & E & Hn & Hk' & _ & Hd & _).
    exists a, (block_size len), h'. pose proof (block_size_spec len (proj2 Hl)) as (_ & Hs & _).
    destruct (kinv_block h' _ a (block_size len) Hk' (lookup_insert_eq _ _ _)) as (_ & _ & Hn0 & k & Hp & Hlo & Hhi & _).
    split_and!; [done| |done|done| |done|done]; [exact Hn0|].
    intros b Hb. unfold pfn_ok in Hp. rewrite PAGING_PAGES_eq in *. unfold page_va in *. lia.
  - intros h L a s Hk HL.
    destruct (kinv_block h L a s Hk HL) as (Hs & _). pose proof (sizes_facts s Hs).
    destruct (free_s_spec h L a s 0 Hk HL ltac:(lia)) as (h' & E & Hk' & _). eauto.
Defined.

(** A history of the allocator and of the stores of its clients. *)
Inductive kstep : kheap * gmap Z Z -> kheap * gmap Z Z -> Prop :=
  | kstep_malloc h L len a h' :
      0 <= len <= 4096 -> free_ge (mem_map (kphys h)) 2 -> kmalloc len h = Some (a, h') ->
      kstep (h, L) (h', <[a := block_size len]> L)
  | kstep_free h L a s sz h' :
      L !! a = Some s -> sz <= s -> free_s a sz h = Some h' -> kstep (h, L) (h', delete a L)
  | kstep_store h L a s n b x :
      L !! a = Some s -> a <= b -> b + Z.of_nat n <= a + s ->
      kstep (h, L) (set_kram (st n (ram (kphys h)) b x) h, L).

Lemma kstep_inv c c' : kstep c c' -> kinv c.1 c.2 -> kinv c'.1 c'.2.
Proof.
  intros [h L len a h' Hl Hf E | h L a s sz h' HL Hs E | h L a s n b x HL H1 H2] Hk; cbn in *.
  - destruct (kmalloc_spec h L len 0 Hk Hl Hf) as (a' & h'' & E' & _ & Hk' & _). congruence.
  - destruct (free_s_spec h L a s sz Hk HL Hs) as (h'' & E' & Hk' & _). congruence.
  - by eapply kinv_store.
Qed.

Section Large.
Lemma find_bucket_large bs len :
  map fst bs = sizes -> 4096 < len ->
  find_bucket (dir_of bs) len = 9 /\ arr_get (dir_of bs) 9 = Some {| bsize := 0; bchain := NULL |}.
Proof.
  intros Hs Hl. assert (Hbs : length bs = 9%nat) by (rewrite <- (length_map fst), Hs; done).
  assert (Hlen : length (dir_of bs) = 10%nat) by (unfold dir_of; rewrite length_app, length_map, Hbs; done).
  assert (E9 : arr_get (dir_of bs) 9 = Some {| bsize := 0; bchain := NULL |}).
  { unfold dir_of, arr_get. cbn [Z.leb]. change (Z.to_nat 9) with 9%nat.
    by rewrite lookup_app_r, length_map, Hbs by (rewrite length_map, Hbs; lia). }
  split; [|done]. unfold find_bucket. rewrite Hlen.
  set (p := fun i => match arr_get (dir_of bs) i with Some b => _ | None => _ end).
  destruct (find_up_spec 10 0 p) as (Hr & Hlt & Hhit). set (i := find_up _ _ _) in *.
  destruct (decide (i = 9)) as [|Hne]; [done|]. exfalso.
  destruct (decide (9 < i)) as [H9|H9].
  { specialize (Hlt 9 ltac:(lia)). unfold p in Hlt. by rewrite E9 in Hlt. }
  specialize (Hhit ltac:(lia)). unfold p, arr_get in Hhit. destruct (Z.leb_spec 0 i); [|lia].
  unfold dir_of in Hhit. rewrite lookup_app_l in Hhit by (rewrite length_map; lia).
  rewrite list_lookup_fmap in Hhit. destruct (bs !! Z.to_nat i) as [[s vs]|] eqn:Eb; [|done]. cbn in Hhit.
  assert (s ∈ sizes) as Hin by (rewrite <- Hs; apply (list_elem_of_lookup_2 _ (Z.to_nat i)); by rewrite list_lookup_fmap, Eb).
  pose proof (sizes_facts s Hin). apply orb_true_iff in Hhit as [E|E]; [apply Z.eqb_eq in E|apply Z.leb_le in E]; lia.
Qed.

Lemma init_bucket_desc_dir h h' : init_bucket_desc h = Some h' -> bucket_dir h' = bucket_dir h.
Proof.
  unfold init_bucket_desc, kget_free_page. destruct (get_free_page (kphys h)) as [[a s]|]; [|done].
  rewrite !bind_Some. unfold kset_page_flags. destruct (set_page_flags _ _ _); [|done]. rewrite bind_Some.
  intros E%(inj Some). rewrite <- E. reflexivity.
Qed.

Lemma new_bucket_zero h i b :
  arr_get (bucket_dir h) i = Some b -> bsize b = 0 -> new_bucket i h = None.
Proof.
  intros Hb Hz. unfold new_bucket.
  destruct (if free_bucket_desc h =? NULL then init_bucket_desc h else Some h) as [h1|] eqn:E1; [|done].
  rewrite bind_Some. destruct (descs h1 !! _); [|done]. rewrite bind_Some.
  assert (bucket_dir h1 = bucket_dir h) as ->.
  { revert E1. zcase; [apply init_bucket_desc_dir|congruence]. }
  rewrite Hb, bind_Some. cbv zeta. destruct (kget_free_page _) as [[cp h2]|]; [|done].
  rewrite bind_Some. by rewrite Hz.
Qed.
End Large.

(** ** Claims *)

(** C25: [kmalloc] of at most a page, with two pages free, returns a block of the
    smallest bucket size that fits: aligned to that size, not handed out, disjoint
    from every block in use, and it changes no byte outside free pages, no use
    count of a used page and not the interrupt mask. *)
Theorem kmalloc_correct (h : kheap) (L : gmap Z Z) (len : Z) :
  kinv h L -> 0 <= len <= 4096 -> free_ge (mem_map (kphys h)) 2 ->
  exists a h', kmalloc len h = Some (a, h') /\ kinv h' (<[a := block_size len]> L) /\
    len <= block_size len /\ (block_size len = 16 \/ block_size len < 2 * len) /\
    a mod block_size len = 0 /\ L !! a = None /\
    (forall b t, L !! b = Some t -> a + block_size len <= b \/ b + t <= a) /\
    kcpu h' = kcpu h /\ keeps h h'.
Proof.
  intros Hk Hl Hf. destruct (kmalloc_spec h L len 0 Hk Hl Hf) as (a & h' & E & Hn & Hk' & Ha & Hd & Hc & Hkp & _).
  pose proof (block_size_spec len (proj2 Hl)) as (_ & Hs1 & Hs2). by exists a, h'.
Qed.

(** C26: [free_s] of a block in use, called with any size up to the block's, removes
    exactly that block: it writes only the block's first word, and only the
    block's page can lose its use count, when no block of it is in use any more. *)
Theorem free_s_correct (h : kheap) (L : gmap Z Z) (a s sz : Z) :
  kinv h L -> L !! a = Some s -> sz <= s ->
  exists h', free_s a sz h = Some h' /\ kinv h' (delete a L) /\ kcpu h' = kcpu h /\
    (forall b, b < a \/ a + 8 <= b -> ldb (ram (kphys h')) b = ldb (ram (kphys h)) b) /\
    (forall j, count_of (mem_map (kphys h')) j = count_of (mem_map (kphys h)) j \/
       (page_va j <= a < page_va j + 4096 /\ count_of (mem_map (kphys h')) j = Some 0 /\
        forall b t, delete a L !! b = Some t -> b < page_va j \/ page_va j + 4096 <= b)).
Proof. apply free_s_spec. Qed.

(** C1: In every state reached from boot by allocations, frees and stores into live
    blocks, the live blocks are aligned, lie in used pages and are pairwise
    disjoint, every live block can be freed, and the next allocation succeeds. *)
Theorem kheap_history_safe (c : cpu) (s : phys) (h : kheap) (L : gmap Z Z) :
  map_ok (mem_map s) -> rtc kstep (kheap_init c s, ∅) (h, L) ->
  (forall a n, L !! a = Some n -> a mod n = 0 /\
     exists k, pfn_ok k /\ page_va k <= a /\ a + n <= page_va k + 4096 /\
       count_of (mem_map (kphys h)) k = Some 1) /\
  (forall a n b m, L !! a = Some n -> L !! b = Some m -> a <> b -> a + n <= b \/ b + m <= a) /\
  (forall a n, L !! a = Some n -> exists h', kfree a h = Some h' /\ kstep (h, L) (h', delete a L)) /\
  (forall len, 0 <= len <= 4096 -> free_ge (mem_map (kphys h)) 2 ->
     exists a h', kmalloc len h = Some (a, h') /\ kstep (h, L) (h', <[a := block_size len]> L)).
Proof.
  intros Hm Hr. assert (Hk : kinv h L).
  { assert (Hgen : forall x y, rtc kstep x y -> kinv x.1 x.2 -> kinv y.1 y.2).
    { induction 1; [done|]. eauto using kstep_inv. }
    apply (Hgen _ _ Hr). by apply kinv_init. }
  split_and!.
  - intros a n Ha. destruct (kinv_block h L a n Hk Ha) as (_ & H1 & _ & H2). done.
  - intros a n b m. by apply (kinv_disjoint h).
  - intros a n Ha. destruct (kinv_block h L a n Hk Ha) as (Hs & _). pose proof (sizes_facts n Hs).
    destruct (free_s_spec h L a n 0 Hk Ha ltac:(lia)) as (h' & E & _). exists h'. split; [done|].
    apply (kstep_free h L a n 0); [done|lia|done].
  - intros len Hl Hf. destruct (kmalloc_spec h L len 0 Hk Hl Hf) as (a & h' & E & _). eauto using kstep_malloc.
Qed.

(** A request above one page reaches the end marker, and the code divides the
    page by the marker's size zero: no defined result. *)
Theorem kmalloc_too_large (h : kheap) (L : gmap Z Z) (len : Z) :
  kinv h L -> 4096 < len < 2 ^ 32 -> kmalloc len h = None.
Proof.
  intros (bs & fl & Hly & _ & _) Hl. unfold kmalloc.
  rewrite (wrap_small 32 len), (ly_dir _ _ _ Hly) by lia.
  destruct (find_bucket_large bs len (ly_sizes _ _ _ Hly) (proj1 Hl)) as [-> Eg]. rewrite Eg, bind_Some.
  destruct (disable_irqsave (kcpu h)) as [flag c]. cbn [bchain find_free].
  change (NULL =? NULL) with true. cbn iota. rewrite bind_Some. change (NULL =? NULL) with true. cbn iota.
  rewrite (new_bucket_zero _ 9 {| bsize := 0; bchain := NULL |}); [done| |done].
  cbn [bucket_dir set_cpu]. by rewrite (ly_dir _ _ _ Hly).
Qed.

Section BadAddress.
(** A bucket has a block in use. *)
Lemma used_live h bs fl s v :
  layout h bs fl -> used s v -> (s, v) ∈ views bs -> exists a, live_in (views bs) a s /\ in_page (v_pfn v) s a.
Proof.
  intros Hly Hu Hv. destruct (used_block h v s (view_count _ _ _ _ _ Hly Hv) Hu) as (x & Hx & Hn).
  exists x. split; [by exists v|done].
Qed.

Lemma find_dir_none h bs fl k sz :
  layout h bs fl -> Forall (fun sv => v_pfn sv.2 <> k) (views bs) ->
  exists i prev, find_dir h (page_va k) sz (bucket_dir h) 0 NULL = Some (i, prev, NULL).
Proof.
  intros Hly Hf. rewrite (ly_dir _ _ _ Hly). unfold dir_of.
  destruct (find_dir_skip h k sz bs [{| bsize := 0; bchain := NULL |}] 0 NULL) as [prev E].
  - apply Forall_forall. intros [t ws] Hin. apply list_elem_of_split in Hin as Hs.
    destruct Hs as (b1 & b2 & Eb). pose proof Hly as Hly'. rewrite Eb in Hly'.
    pose proof (sizes_facts t (layout_size _ _ _ _ _ _ Hly')).
    destruct (bucket_facts _ _ _ _ _ _ Hly') as (F1 & F2 & F3). split_and!; [lia|done..|].
    apply Forall_forall. intros w Hw E%page_va_inj. rewrite Forall_forall in Hf.
    apply (Hf (t, w)); [|done]. apply elem_views. eauto.
  - rewrite E. cbn. eauto.
Qed.

Lemma null_not_desc h bs fl : layout h bs fl -> descs h !! NULL = None.
Proof.
  intros Hly. destruct (descs h !! NULL) eqn:E; [|done]. exfalso.
  destruct (ly_dom _ _ _ Hly NULL) as (k & Hk & Hr & _); [by rewrite E|]. pose proof (page_va_pos k Hk). unfold NULL in *. lia.
Qed.
End BadAddress.

(** Freeing an address in a page that holds no block in use prints the "Bad
    address" message and then dereferences a NULL descriptor. *)
Theorem free_s_bad_address (h : kheap) (L : gmap Z Z) (a sz k : Z) :
  kinv h L -> page_va k <= a < page_va k + 4096 -> pfn_ok k ->
  (forall b s, L !! b = Some s -> b < page_va k \/ page_va k + 4096 <= b) ->
  free_s a sz h = None.
Proof.
  intros (bs & fl & Hly & Hu & HL) Ha Hk Hno. unfold free_s.
  assert (Z.land a (Z.lnot (PAGE_SIZE - 1)) = page_va k) as ->.
  { change (PAGE_SIZE - 1) with (2 ^ 12 - 1). rewrite land_lnot_mask by done. change (2 ^ 12) with 4096.
    unfold page_va in *. Z.div_mod_to_equations. lia. }
  destruct (find_dir_none h bs fl k sz Hly) as (i & prev & ->).
  - apply Forall_forall. intros [s v] Hv <-. rewrite Forall_forall in Hu.
    destruct (used_live _ _ _ _ _ Hly (Hu _ Hv) Hv) as (b & Hb & Hin). apply HL in Hb.
    pose proof (vo_size _ _ _ (view_count _ _ _ _ _ Hly Hv)) as Hs. pose proof (sizes_facts s Hs).
    apply in_page_range in Hin; [|done]. cbn in Hno. destruct (Hno b s Hb); lia.
  - rewrite bind_Some. destruct (disable_irqsave (kcpu h)) as [flag c]. cbn [descs set_cpu].
    by rewrite (null_not_desc _ _ _ Hly).
Qed.

(** ** Witnesses *)

Definition cpu_init : cpu :=
  {| CurrentEL := 4; DAIF := 0; SPSR_EL1 := 0; ISR_EL1 := 0; RVBAR_EL1 := 0; VBAR_EL1 := 0;
     CNTV_CTL_EL0 := 0; CNTFRQ_EL0 := 62500000; CNTVCT_EL0 := 0; CNTV_CVAL_EL0 := 0; TTBR0_EL1 := 0 |}.
Definition kheap_boot : kheap := kheap_init cpu_init phys_init.

Lemma phys_init_free_ge n : (n <= 3840)%nat -> free_ge (mem_map phys_init) n.
Proof.
  intros Hn. exists (seqZ 0 3840). split_and!; [apply NoDup_seqZ|by rewrite length_seqZ|].
  apply Forall_forall. intros k Hk%elem_of_seqZ. split; [unfold pfn_ok; rewrite PAGING_PAGES_eq; lia|].
  unfold count_of, arr_get. zcase; [|lia]. cbn [mem_map phys_init]. unfold mem_map_init.
  rewrite lookup_replicate_2; [done|]. rewrite PAGING_PAGES_eq. lia.
Qed.

Lemma kheap_boot_inv : kinv kheap_boot ∅.
Proof. apply kinv_init, mem_map_init_ok. Qed.

Lemma kheap_boot_clean : kclean kheap_boot ∅.
Proof. apply kclean_empty. Qed.

Lemma kheap_boot_free : free_ge (mem_map (kphys kheap_boot)) 2.
Proof. apply phys_init_free_ge. lia. Qed.

Example kmalloc_correct_witness :
  exists a h', kmalloc 100 kheap_boot = Some (a, h') /\ a mod 128 = 0.
Proof.
  destruct (kmalloc_correct kheap_boot ∅ 100 kheap_boot_inv ltac:(lia) kheap_boot_free)
    as (a & h' & E & _ & _ & _ & Ha & _).
  exists a, h'. split; [exact E|exact Ha].
Defined.

(** A heap with one block of 128 bytes in use. *)
Lemma kheap_one : exists a h, kinv h {[ a := 128 ]} /\ map_ok (mem_map (kphys h)).
Proof.
  destruct (kmalloc_spec kheap_boot ∅ 100 0 kheap_boot_inv ltac:(lia) kheap_boot_free)
    as (a & h & E & _ & Hk & _). exists a, h. split; [exact Hk|]. destruct Hk as (bs & fl & Hly & _). apply Hly.
Qed.

Example free_s_correct_witness : exists a h h', free_s a 0 h = Some h' /\ kinv h' ∅.
Proof.
  destruct kheap_one as (a & h & Hk & _).
  destruct (free_s_correct h {[ a := 128 ]} a 128 0 Hk (lookup_singleton_eq a 128) ltac:(lia)) as (h' & E & Hk' & _).
  exists a, h, h'. split; [exact E|]. rewrite delete_singleton_eq in Hk'. exact Hk'.
Defined.

Example kheap_history_safe_witness :
  exists a h', kmalloc 20 kheap_boot = Some (a, h') /\ kstep (kheap_boot, ∅) (h', <[a := 32]> ∅).
Proof.
  destruct (kheap_history_safe cpu_init phys_init kheap_boot ∅ mem_map_init_ok (rtc_refl _ _)) as (_ & _ & _ & H).
  exact (H 20 ltac:(lia) kheap_boot_free).
Defined.

Example kmalloc_too_large_witness : kmalloc 4097 kheap_boot = None.
Proof. apply (kmalloc_too_large kheap_boot ∅ 4097 kheap_boot_inv). change (2 ^ 32) with 4294967296. lia. Defined.

Example free_s_bad_address_witness : free_s (page_va 7 + 24) 0 kheap_boot = None.
Proof.
  apply (free_s_bad_address kheap_boot ∅ (page_va 7 + 24) 0 7 kheap_boot_inv).
  - unfold page_va. lia.
  - by vm_compute.
  - intros b s H. rewrite lookup_empty in H. discriminate H.
Defined.
