(* ===== verification/Gic.v ===== *)
(** arch/gic_v3.c and include/gic_v3.h: the interrupt controller driver.

    The controller itself is hardware: [GicDevice] is the interface the driver
    relies on, register reads and writes with the behaviour the architecture
    documents for them.  [gic_board] at the end is a device that satisfies it. *)

From S2P Require Import Prelude.
Local Open Scope Z_scope.

(** ** Constants and the register map *)

Definition GIC_BASE : Z := 0xffff00003fe00000.
Definition GIC_INT_MAX : Z := 64.
Definition GIC_INTNO_PPI0 : Z := 16.
Definition GIC_INTNO_SPI0 : Z := 32.
Definition GIC_PRI_SHIFT : Z := 4.
Definition TIMER_IRQ : Z := 27.
Definition IRQ_FOUND : Z := 1.
Definition IRQ_NOT_FOUND : Z := 0.

Definition GIC_GICD_BASE : Z := GIC_BASE.
Definition GIC_GICC_BASE : Z := GIC_BASE + 0x10000.
Definition GIC_GICC_CTLR : Z := GIC_GICC_BASE + 0x000.
Definition GIC_GICC_PMR : Z := GIC_GICC_BASE + 0x004.
Definition GIC_GICC_BPR : Z := GIC_GICC_BASE + 0x008.
Definition GIC_GICC_IAR : Z := GIC_GICC_BASE + 0x00C.
Definition GIC_GICC_EOIR : Z := GIC_GICC_BASE + 0x010.
Definition GIC_GICD_CTLR : Z := GIC_GICD_BASE + 0x000.
Definition GIC_GICD_ISENABLER (n : Z) : Z := GIC_GICD_BASE + 0x100 + n * 4.
Definition GIC_GICD_ICENABLER (n : Z) : Z := GIC_GICD_BASE + 0x180 + n * 4.
Definition GIC_GICD_ISPENDR (n : Z) : Z := GIC_GICD_BASE + 0x200 + n * 4.
Definition GIC_GICD_ICPENDR (n : Z) : Z := GIC_GICD_BASE + 0x280 + n * 4.
Definition GIC_GICD_IPRIORITYR (n : Z) : Z := GIC_GICD_BASE + 0x400 + n * 4.
Definition GIC_GICD_ITARGETSR (n : Z) : Z := GIC_GICD_BASE + 0x800 + n * 4.
Definition GIC_GICD_ICFGR (n : Z) : Z := GIC_GICD_BASE + 0xc00 + n * 4.

Definition GIC_GICD_INT_PER_REG : Z := 32.
Definition GIC_GICD_IPRIORITY_PER_REG : Z := 4.
Definition GIC_GICD_IPRIORITY_SIZE_PER_REG : Z := 8.
Definition GIC_GICD_ITARGETSR_CORE0_TARGET_BMAP : Z := 0x01010101.
Definition GIC_GICD_ITARGETSR_PER_REG : Z := 4.
Definition GIC_GICD_ITARGETSR_SIZE_PER_REG : Z := 8.
Definition GIC_GICD_ICFGR_PER_REG : Z := 16.
Definition GIC_GICD_ICFGR_SIZE_PER_REG : Z := 2.
Definition GICC_CTLR_ENABLE : Z := 1.
Definition GICC_CTLR_DISABLE : Z := 0.
Definition GICC_PMR_PRIO_MIN : Z := 0xff.
Definition GICC_BPR_NO_GROUP : Z := 0.
Definition GICC_IAR_INTR_IDMASK : Z := 0x3ff.
Definition GICC_IAR_SPURIOUS_INTR : Z := 0x3ff.
Definition GIC_GICD_CTLR_ENABLE : Z := 1.
Definition GIC_GICD_CTLR_DISABLE : Z := 0.
Definition GIC_GICD_ICFGR_LEVEL : Z := 0.
Definition GIC_GICD_ICFGR_EDGE : Z := 2.

(** ** The device *)

(** What the controller holds: for each interrupt its enable bit, its latched
    pending state and the level of its input, and the value of each register. *)
Record gic_view := {
  enabled : Z -> bool; latch : Z -> bool; line : Z -> bool; reg : Z -> Z }.

(** Bit [2 * (i mod 16) + 1] of the configuration register: edge-triggered. *)
Definition edge (v : gic_view) (i : Z) : bool :=
  Z.testbit (reg v (GIC_GICD_ICFGR (i / 16))) (2 * (i mod 16) + 1).

(** An interrupt is pending when it is latched, or when it is level-sensitive
    and its input is asserted. *)
Definition pending (v : gic_view) (i : Z) : bool := latch v i || negb (edge v i) && line v i.

(** Bit [i mod 32] of [v], written to the [n]-th register of a bit array. *)
Definition hit (n v i : Z) : bool := (i / 32 =? n) && Z.testbit v (i mod 32).

(** The [j]-th field of [w] bits. *)
Definition field (r w j : Z) : Z := Z.land (Z.shiftr r (w * j)) (2 ^ w - 1).

(** Only registers of [A] differ. *)
Definition kept (A : Z -> Prop) (v v' : gic_view) : Prop :=
  enabled v' = enabled v /\ latch v' = latch v /\ line v' = line v /\ forall b, ~ A b -> reg v' b = reg v b.

(** A GIC as software at one processor sees it, after the architecture
    specification (GICv2 chapters 4.3 and 4.4; the same registers in GICv3 with
    affinity routing off).  What the specification leaves to the implementation
    is a field: the implemented bits [prio_mask] of a priority (at least the
    upper four), whether there is one processor (then the targets read as
    zero), the processors [cpu_mask] a target can name, and which private
    peripheral interrupts have a programmable trigger.  Nothing is claimed
    where it differs: the enable bits and priorities of the software-generated
    interrupts 0..15.  Their pending bits ignore writes to [ICPENDR], and the
    targets of interrupts 0..31 are read-only.  [IAR] is specified while the
    processor interface is off, when every acknowledge reads the spurious id;
    the driver never reads it otherwise.  The inputs [line] do not move during
    an access. *)
Class GicDevice (G : Type) := {
  rd : Z -> G -> Z * G;
  wr : Z -> Z -> G -> G;
  look : G -> gic_view;
  prio_mask : Z;
  uniprocessor : bool;
  cpu_mask : Z;
  cfg_free : Z -> bool;
  prio_mask_ok : exists k, 0 <= k <= 4 /\ prio_mask = 0xff - (2 ^ k - 1);
  cpu_mask_ok : Z.testbit cpu_mask 0 = true;
  cfg_free_ok : forall i, GIC_INTNO_SPI0 <= i -> cfg_free i = true;
  rd_ispendr : forall g n, 0 <= n < 2 ->
    (rd (GIC_GICD_ISPENDR n) g).2 = g /\
    forall i, 0 <= i < 32 -> Z.testbit (rd (GIC_GICD_ISPENDR n) g).1 i = pending (look g) (32 * n + i);
  rd_ipriorityr : forall g n, 0 <= n < 16 -> rd (GIC_GICD_IPRIORITYR n) g = (reg (look g) (GIC_GICD_IPRIORITYR n), g);
  rd_itargetsr : forall g n, 0 <= n < 16 -> rd (GIC_GICD_ITARGETSR n) g = (reg (look g) (GIC_GICD_ITARGETSR n), g);
  rd_icfgr : forall g n, 0 <= n < 4 -> rd (GIC_GICD_ICFGR n) g = (reg (look g) (GIC_GICD_ICFGR n), g);
  rd_iar_off : forall g, Z.testbit (reg (look g) GIC_GICC_CTLR) 0 = false ->
    Z.land (rd GIC_GICC_IAR g).1 GICC_IAR_INTR_IDMASK = GICC_IAR_SPURIOUS_INTR /\
    look (rd GIC_GICC_IAR g).2 = look g;
  wr_isenabler : forall g n v, 0 <= n < 2 ->
    let u := look (wr (GIC_GICD_ISENABLER n) v g) in
    latch u = latch (look g) /\ line u = line (look g) /\ reg u = reg (look g) /\
    forall i, GIC_INTNO_PPI0 <= i -> enabled u i = enabled (look g) i || hit n v i;
  wr_icenabler : forall g n v, 0 <= n < 2 ->
    let u := look (wr (GIC_GICD_ICENABLER n) v g) in
    latch u = latch (look g) /\ line u = line (look g) /\ reg u = reg (look g) /\
    forall i, GIC_INTNO_PPI0 <= i -> enabled u i = enabled (look g) i && negb (hit n v i);
  wr_icpendr : forall g n v, 0 <= n < 2 ->
    let u := look (wr (GIC_GICD_ICPENDR n) v g) in
    enabled u = enabled (look g) /\ line u = line (look g) /\ reg u = reg (look g) /\
    forall i, 0 <= i -> latch u i = latch (look g) i && negb ((GIC_INTNO_PPI0 <=? i) && hit n v i);
  wr_ctlr : forall g a v, a = GIC_GICD_CTLR \/ a = GIC_GICC_CTLR -> 0 <= v <= 1 ->
    kept (eq a) (look g) (look (wr a v g)) /\ reg (look (wr a v g)) a = v;
  wr_pmr : forall g v, 0 <= v < 256 ->
    kept (eq GIC_GICC_PMR) (look g) (look (wr GIC_GICC_PMR v g)) /\
    reg (look (wr GIC_GICC_PMR v g)) GIC_GICC_PMR = Z.land v prio_mask;
  wr_bpr : forall g v, kept (eq GIC_GICC_BPR) (look g) (look (wr GIC_GICC_BPR v g));
  wr_ipriorityr : forall g n v, 0 <= n < 16 ->
    let u := look (wr (GIC_GICD_IPRIORITYR n) v g) in
    kept (eq (GIC_GICD_IPRIORITYR n)) (look g) u /\
    (4 <= n -> forall j, 0 <= j < 4 -> field (reg u (GIC_GICD_IPRIORITYR n)) 8 j = Z.land (field v 8 j) prio_mask);
  wr_itargetsr_private : forall g n v, 0 <= n < 8 -> look (wr (GIC_GICD_ITARGETSR n) v g) = look g;
  wr_itargetsr : forall g n v, 8 <= n < 16 ->
    let u := look (wr (GIC_GICD_ITARGETSR n) v g) in
    kept (eq (GIC_GICD_ITARGETSR n)) (look g) u /\
    forall j, 0 <= j < 4 -> field (reg u (GIC_GICD_ITARGETSR n)) 8 j =
      if uniprocessor then 0 else Z.land (field v 8 j) cpu_mask;
  wr_icfgr : forall g n v, 1 <= n < 4 ->
    (forall j, 0 <= j < 16 -> enabled (look g) (16 * n + j) = false) ->
    let u := look (wr (GIC_GICD_ICFGR n) v g) in
    kept (eq (GIC_GICD_ICFGR n)) (look g) u /\
    forall j, 0 <= j < 16 -> Z.testbit (reg u (GIC_GICD_ICFGR n)) (2 * j + 1) =
      Z.testbit (if cfg_free (16 * n + j) then v else reg (look g) (GIC_GICD_ICFGR n)) (2 * j + 1) }.

(** ** The driver *)

Section Driver.
Context {G : Type} `{GicDevice G}.

(** The acknowledge loop; the fuel bounds the interrupts acknowledged. *)
Fixpoint drain_iar (fuel : nat) (pending_irq : Z) (g : G) : option G :=
  if pending_irq =? GICC_IAR_SPURIOUS_INTR then Some g
  else match fuel with
       | O => None
       | S fuel' =>
           let (v, g) := rd GIC_GICC_IAR g in
           let g := wr GIC_GICC_EOIR v g in
           let (v, g) := rd GIC_GICC_IAR g in
           drain_iar fuel' (Z.land v GICC_IAR_INTR_IDMASK) g
       end.

Definition init_gicc (fuel : nat) (g : G) : option G :=
  let g := wr GIC_GICC_CTLR GICC_CTLR_DISABLE g in
  let g := wr GIC_GICC_PMR GICC_PMR_PRIO_MIN g in
  let g := wr GIC_GICC_BPR GICC_BPR_NO_GROUP g in
  let (v, g) := rd GIC_GICC_IAR g in
  let! g := drain_iar fuel (Z.land v GICC_IAR_INTR_IDMASK) g in
  Some (wr GIC_GICC_CTLR GICC_CTLR_ENABLE g).

(** [for (i = lo; hi > i; ++i) reg(i) = v;] *)
Definition fill_regs (r : Z -> Z) (lo hi v : Z) (g : G) : G :=
  loop_up (Z.to_nat (hi - lo)) lo (fun i g => wr (r i) v g) g.

Definition init_gicd (g : G) : G :=
  let g := wr GIC_GICD_CTLR GIC_GICD_CTLR_DISABLE g in
  let regs_nr := (GIC_INT_MAX + GIC_GICD_INT_PER_REG - 1) / GIC_GICD_INT_PER_REG in
  let g := fill_regs GIC_GICD_ICENABLER 0 regs_nr (u32 (Z.lnot 0)) g in
  let g := fill_regs GIC_GICD_ICPENDR 0 regs_nr (u32 (Z.lnot 0)) g in
  let regs_nr := (GIC_INT_MAX + GIC_GICD_IPRIORITY_PER_REG - 1) / GIC_GICD_IPRIORITY_PER_REG in
  let g := fill_regs GIC_GICD_IPRIORITYR 0 regs_nr (u32 (Z.lnot 0)) g in
  let g := fill_regs GIC_GICD_ITARGETSR (GIC_INTNO_SPI0 / GIC_GICD_ITARGETSR_PER_REG)
             ((GIC_INT_MAX + (GIC_GICD_ITARGETSR_PER_REG - 1)) / GIC_GICD_ITARGETSR_PER_REG)
             GIC_GICD_ITARGETSR_CORE0_TARGET_BMAP g in
  let g := fill_regs GIC_GICD_ICFGR (GIC_INTNO_PPI0 / GIC_GICD_ICFGR_PER_REG)
             ((GIC_INT_MAX + (GIC_GICD_ICFGR_PER_REG - 1)) / GIC_GICD_ICFGR_PER_REG) GIC_GICD_ICFGR_LEVEL g in
  wr GIC_GICD_CTLR GIC_GICD_CTLR_ENABLE g.

(** Interrupt numbers are not negative, where C's [/] and [%] are these. *)
Definition gicd_disable_int (irq : Z) (g : G) : G :=
  wr (GIC_GICD_ICENABLER (irq / 32)) (u32 (Z.shiftl 1 (irq mod 32))) g.
Definition gicd_enable_int (irq : Z) (g : G) : G :=
  wr (GIC_GICD_ISENABLER (irq / 32)) (u32 (Z.shiftl 1 (irq mod 32))) g.
Definition gicd_clear_pending (irq : Z) (g : G) : G :=
  wr (GIC_GICD_ICPENDR (irq / 32)) (u32 (Z.shiftl 1 (irq mod 32))) g.
Definition gicd_probe_pending (irq : Z) (g : G) : bool * G :=
  let (v, g) := rd (GIC_GICD_ISPENDR (irq / 32)) g in
  (negb (Z.land v (u32 (Z.shiftl 1 (irq mod 32))) =? 0), g).

(** [reg &= ~(mask << shift); reg |= v << shift;] on a 32-bit register. *)
Definition put_field (mask shift v r : Z) : Z :=
  u32 (Z.lor (Z.land r (u32 (Z.lnot (u32 (Z.shiftl mask shift))))) (u32 (Z.shiftl v shift))).

Definition gicd_set_target (irq p : Z) (g : G) : G :=
  let shift := irq mod GIC_GICD_ITARGETSR_PER_REG * GIC_GICD_ITARGETSR_SIZE_PER_REG in
  let (r, g) := rd (GIC_GICD_ITARGETSR (irq / GIC_GICD_ITARGETSR_PER_REG)) g in
  wr (GIC_GICD_ITARGETSR (irq / GIC_GICD_ITARGETSR_PER_REG)) (put_field 0xff shift p r) g.

Definition gicd_set_priority (irq prio : Z) (g : G) : G :=
  let shift := irq mod GIC_GICD_IPRIORITY_PER_REG * GIC_GICD_IPRIORITY_SIZE_PER_REG in
  let (r, g) := rd (GIC_GICD_IPRIORITYR (irq / GIC_GICD_IPRIORITY_PER_REG)) g in
  wr (GIC_GICD_IPRIORITYR (irq / GIC_GICD_IPRIORITY_PER_REG)) (put_field 0xff shift prio r) g.

Definition gicd_config (irq config : Z) (g : G) : G :=
  let shift := irq mod GIC_GICD_ICFGR_PER_REG * GIC_GICD_ICFGR_SIZE_PER_REG in
  let (r, g) := rd (GIC_GICD_ICFGR (irq / GIC_GICD_ICFGR_PER_REG)) g in
  wr (GIC_GICD_ICFGR (irq / GIC_GICD_ICFGR_PER_REG)) (put_field 0x03 shift config r) g.

Definition gic_v3_eoi (irq : Z) (g : G) : G := gicd_clear_pending irq g.

Definition gic_v3_initialize (fuel : nat) (g : G) : option G :=
  let g := init_gicd g in
  let! g := init_gicc fuel g in
  let g := gicd_config TIMER_IRQ GIC_GICD_ICFGR_EDGE g in
  let g := gicd_set_priority TIMER_IRQ (Z.shiftl 0 GIC_PRI_SHIFT) g in
  let g := gicd_set_target TIMER_IRQ 0x1 g in
  let g := gicd_clear_pending TIMER_IRQ g in
  Some (gicd_enable_int TIMER_IRQ g).

(** The scan stops at the first pending interrupt; [irqp] is written then. *)
Fixpoint find_pending_loop (k : nat) (i : Z) (g : G) : option Z * G :=
  match k with
  | O => (None, g)
  | S k' => let (b, g) := gicd_probe_pending i g in
            if b then (Some i, g) else find_pending_loop k' (i + 1) g
  end.
Definition gic_v3_find_pending_irq (irqp : Z) (g : G) : Z * Z * G :=
  match find_pending_loop (Z.to_nat GIC_INT_MAX) 0 g with
  | (Some i, g) => (IRQ_FOUND, i, g)
  | (None, g) => (IRQ_NOT_FOUND, irqp, g)
  end.
End Driver.

(** ** Register fields *)

Section Fields.
Implicit Types (r w j k v i : Z).

Lemma field_bit r w j i :
  0 <= w -> 0 <= j -> 0 <= i -> Z.testbit (field r w j) i = Z.testbit r (w * j + i) && (i <? w).
Proof.
  intros Hw Hj Hi. unfold field. rewrite land_mask by done. zcase.
  - rewrite Z.mod_pow2_bits_low, Z.shiftr_spec, andb_true_r by lia. f_equal. lia.
  - by rewrite Z.mod_pow2_bits_high, andb_false_r by lia.
Qed.

Lemma u32_bit x i : 0 <= i -> Z.testbit (u32 x) i = Z.testbit x i && (i <? 32).
Proof.
  intros Hi. unfold wrap. zcase; [by rewrite Z.mod_pow2_bits_low, andb_true_r by lia|].
  by rewrite Z.mod_pow2_bits_high, andb_false_r by lia.
Qed.

Lemma mask_bit w i : 0 <= w -> 0 <= i -> Z.testbit (2 ^ w - 1) i = (i <? w).
Proof.
  intros Hw Hi. replace (2 ^ w - 1) with (Z.ones w) by (rewrite Z.ones_equiv; lia).
  zcase; [apply Z.ones_spec_low; lia|apply Z.ones_spec_high; lia].
Qed.

Lemma small_bit w v i : 0 <= v < 2 ^ w -> 0 <= w <= i -> Z.testbit v i = false.
Proof. intros Hv Hw. rewrite <- (Z.mod_small v (2 ^ w)) by done. apply Z.mod_pow2_bits_high. lia. Qed.

Lemma put_field_bit w j v r i :
  0 <= w -> 0 <= j -> w * j + w <= 32 -> 0 <= v < 2 ^ w -> 0 <= i < 32 ->
  Z.testbit (put_field (2 ^ w - 1) (w * j) v r) i =
  if (w * j <=? i) && (i <? w * j + w) then Z.testbit v (i - w * j) else Z.testbit r i.
Proof.
  intros Hw Hj Hjw Hv Hi. unfold put_field.
  rewrite u32_bit, Z.lor_spec, Z.land_spec, !u32_bit, Z.lnot_spec, u32_bit, !Z.shiftl_spec by lia.
  assert (Z.ltb i 32 = true) as -> by (apply Z.ltb_lt; lia). rewrite !andb_true_r.
  destruct (Z.leb_spec (w * j) i); cbn [andb].
  - rewrite mask_bit by lia. destruct (Z.ltb_spec (i - w * j) w), (Z.ltb_spec i (w * j + w)); try lia; cbn.
    + by rewrite andb_false_r.
    + by rewrite (small_bit w v), andb_true_r, orb_false_r by lia.
  - rewrite !(Z.testbit_neg_r _ (i - w * j)) by lia. by rewrite andb_true_r, orb_false_r.
Qed.

(** Writing one field leaves the others alone. *)
Lemma put_field_get w j k v r :
  0 < w -> 0 <= j -> 0 <= k -> w * j + w <= 32 -> w * k + w <= 32 -> 0 <= v < 2 ^ w ->
  field (put_field (2 ^ w - 1) (w * j) v r) w k = if k =? j then v else field r w k.
Proof.
  intros Hw Hj Hk Hjw Hkw Hv. apply Z.bits_inj'. intros i Hi. rewrite field_bit by lia.
  destruct (Z.ltb_spec i w).
  - rewrite andb_true_r, put_field_bit by lia. destruct (Z.eqb_spec k j) as [->|Hne].
    + destruct (Z.leb_spec (w * j) (w * j + i)), (Z.ltb_spec (w * j + i) (w * j + w)); try lia; cbn.
      f_equal. lia.
    + rewrite field_bit by lia. destruct (Z.ltb_spec i w); [|lia]. rewrite andb_true_r.
      destruct (Z.leb_spec (w * j) (w * k + i)), (Z.ltb_spec (w * k + i) (w * j + w)); try done; cbn.
      exfalso. assert (k < j \/ j < k) as [|] by lia; nia.
  - rewrite andb_false_r. destruct (Z.eqb_spec k j) as [->|Hne].
    + symmetry. apply (small_bit w); lia.
    + rewrite field_bit by lia. destruct (Z.ltb_spec i w); [lia|]. by rewrite andb_false_r.
Qed.

(** One bit of a bit array. *)
Lemma hit_one irq i : 0 <= irq -> 0 <= i -> hit (irq / 32) (u32 (Z.shiftl 1 (irq mod 32))) i = (i =? irq).
Proof.
  intros Hq Hi. unfold hit. rewrite u32_bit, Z.shiftl_1_l, Z.pow2_bits_eqb by (Z.div_mod_to_equations; lia).
  destruct (Z.eqb_spec (i / 32) (irq / 32)), (Z.eqb_spec (irq mod 32) (i mod 32)), (Z.ltb_spec (i mod 32) 32),
    (Z.eqb_spec i irq); cbn; try done; Z.div_mod_to_equations; lia.
Qed.

Lemma hit_all n i : 0 <= i -> hit n (u32 (Z.lnot 0)) i = (i / 32 =? n).
Proof.
  intros Hi. unfold hit. change (u32 (Z.lnot 0)) with (2 ^ 32 - 1).
  rewrite mask_bit by (Z.div_mod_to_equations; lia).
  destruct (Z.ltb_spec (i mod 32) 32); [by rewrite andb_true_r|Z.div_mod_to_equations; lia].
Qed.

Lemma probe_bit v irq : 0 <= irq -> negb (Z.land v (u32 (Z.shiftl 1 (irq mod 32))) =? 0) = Z.testbit v (irq mod 32).
Proof.
  intros Hq. assert (0 <= irq mod 32 < 32) by (Z.div_mod_to_equations; lia).
  assert (u32 (Z.shiftl 1 (irq mod 32)) = 2 ^ (irq mod 32)) as ->.
  { rewrite Z.shiftl_1_l. apply wrap_small. split; [lia|]. apply Z.pow_lt_mono_r; lia. }
  destruct (Z.testbit v (irq mod 32)) eqn:E.
  - apply negb_true_iff, Z.eqb_neq. intros H0. apply (f_equal (fun x => Z.testbit x (irq mod 32))) in H0.
    rewrite Z.land_spec, E, Z.pow2_bits_true, Z.bits_0 in H0 by lia. done.
  - apply negb_false_iff, Z.eqb_eq, Z.bits_inj'. intros i Hi. rewrite Z.land_spec, Z.bits_0, Z.pow2_bits_eqb by lia.
    zcase; [subst; by rewrite E|apply andb_false_r].
Qed.
End Fields.

(** ** What each operation does to the device *)

Section Effects.
Context {G : Type} `{GicDevice G}.
Implicit Types (g s : G) (irq : Z) (A B : Z -> Prop).

Lemma kept_refl A v : kept A v v.
Proof. by split_and!. Qed.

Lemma kept_trans A B v1 v2 v3 : kept A v1 v2 -> kept B v2 v3 -> kept (fun b => A b \/ B b) v1 v3.
Proof.
  intros (E1 & E2 & E3 & E4) (F1 & F2 & F3 & F4). split_and!; [congruence..|].
  intros b Hb. rewrite F4, E4 by tauto. done.
Qed.

Lemma kept_weaken A B v1 v2 : (forall b, A b -> B b) -> kept A v1 v2 -> kept B v1 v2.
Proof. intros HAB (E1 & E2 & E3 & E4). split_and!; [done..|]. intros b Hb. apply E4. auto. Qed.

(** The register map is injective. *)
Ltac registers := unfold GIC_GICD_IPRIORITYR, GIC_GICD_ITARGETSR, GIC_GICD_ICFGR, GIC_GICD_CTLR, GIC_GICC_CTLR,
  GIC_GICC_PMR, GIC_GICC_BPR, GIC_GICC_BASE, GIC_GICD_BASE in *; lia.

Lemma enable_int_look irq g :
  0 <= irq < 64 -> let u := look (gicd_enable_int irq g) in
  latch u = latch (look g) /\ line u = line (look g) /\ reg u = reg (look g) /\
  forall i, 16 <= i -> enabled u i = enabled (look g) i || (i =? irq).
Proof.
  intros Hq. unfold gicd_enable_int.
  destruct (wr_isenabler g (irq / 32) (u32 (Z.shiftl 1 (irq mod 32)))) as (E1 & E2 & E3 & E4); [Z.div_mod_to_equations; lia|].
  split_and!; [done..|]. intros i Hi. rewrite E4 by done. by rewrite hit_one by lia.
Qed.

Lemma disable_int_look irq g :
  0 <= irq < 64 -> let u := look (gicd_disable_int irq g) in
  latch u = latch (look g) /\ line u = line (look g) /\ reg u = reg (look g) /\
  forall i, 16 <= i -> enabled u i = enabled (look g) i && negb (i =? irq).
Proof.
  intros Hq. unfold gicd_disable_int.
  destruct (wr_icenabler g (irq / 32) (u32 (Z.shiftl 1 (irq mod 32)))) as (E1 & E2 & E3 & E4); [Z.div_mod_to_equations; lia|].
  split_and!; [done..|]. intros i Hi. rewrite E4 by done. by rewrite hit_one by lia.
Qed.

Lemma clear_pending_look irq g :
  0 <= irq < 64 -> let u := look (gicd_clear_pending irq g) in
  enabled u = enabled (look g) /\ line u = line (look g) /\ reg u = reg (look g) /\
  forall i, 0 <= i -> latch u i = latch (look g) i && negb ((16 <=? i) && (i =? irq)).
Proof.
  intros Hq. unfold gicd_clear_pending.
  destruct (wr_icpendr g (irq / 32) (u32 (Z.shiftl 1 (irq mod 32)))) as (E1 & E2 & E3 & E4); [Z.div_mod_to_equations; lia|].
  split_and!; [done..|]. intros i Hi. rewrite E4 by done. by rewrite hit_one by lia.
Qed.

Lemma edge_reg v v' i : reg v' = reg v -> edge v' i = edge v i.
Proof. unfold edge. by intros ->. Qed.

(** Clearing the latch of an edge-triggered interrupt ends its pending state. *)
Lemma clear_pending_edge irq g i :
  16 <= irq < 64 -> edge (look g) irq = true -> 0 <= i ->
  pending (look (gicd_clear_pending irq g)) i = pending (look g) i && negb (i =? irq).
Proof.
  intros Hq He Hi. destruct (clear_pending_look irq g ltac:(lia)) as (_ & E2 & E3 & E4).
  unfold pending. rewrite (edge_reg _ _ i E3), E2, E4 by done.
  destruct (Z.eqb_spec i irq) as [->|].
  - rewrite He. destruct (Z.leb_spec 16 irq); [|lia]. by destruct (latch (look g) irq).
  - by rewrite andb_false_r, !andb_true_r.
Qed.

Lemma probe_spec irq g : 0 <= irq < 64 -> gicd_probe_pending irq g = (pending (look g) irq, g).
Proof.
  intros Hq. unfold gicd_probe_pending.
  destruct (rd_ispendr g (irq / 32)) as [H1 H2]; [Z.div_mod_to_equations; lia|].
  destruct (rd (GIC_GICD_ISPENDR (irq / 32)) g) as [v g'] eqn:E. cbn [fst snd] in *. subst g'.
  rewrite probe_bit, H2 by (Z.div_mod_to_equations; lia). do 2 f_equal. Z.div_mod_to_equations; lia.
Qed.

Lemma find_pending_loop_spec k i g :
  0 <= i -> i + Z.of_nat k <= 64 ->
  find_pending_loop k i g =
    (let j := find_up k i (pending (look g)) in if j <? i + Z.of_nat k then Some j else None, g).
Proof.
  revert i. induction k as [|k IH]; intros i H1 H2; cbn [find_pending_loop find_up].
  - by zcases.
  - rewrite probe_spec by lia. destruct (pending (look g) i); [by zcases|].
    rewrite IH by lia. cbn zeta. by replace (i + Z.of_nat (S k)) with (i + 1 + Z.of_nat k) by lia.
Qed.

(** A bank of registers written with one value; [Q] relates the old and the new
    value of its [n]-th register. *)
Lemma fill_bank (r : Z -> Z) lo hi v (Q : Z -> Z -> Z -> Prop) g :
  lo <= hi -> (forall n m, r n = r m -> n = m) ->
  (forall n s, lo <= n < hi -> enabled (look s) = enabled (look g) ->
     let u := look (wr (r n) v s) in kept (eq (r n)) (look s) u /\ Q n (reg (look s) (r n)) (reg u (r n))) ->
  let u := look (fill_regs r lo hi v g) in
  kept (fun b => exists n, lo <= n < hi /\ b = r n) (look g) u /\
  forall n, lo <= n < hi -> Q n (reg (look g) (r n)) (reg u (r n)).
Proof.
  intros Hlo Hinj Hstep. unfold fill_regs.
  pose (I := fun i (s : G) => kept (fun b => exists n, lo <= n < i /\ b = r n) (look g) (look s) /\
    forall n, lo <= n < i -> Q n (reg (look g) (r n)) (reg (look s) (r n))).
  pose proof (loop_up_inv I (fun i s => wr (r i) v s) (Z.to_nat (hi - lo)) lo g) as HI.
  replace (lo + Z.of_nat (Z.to_nat (hi - lo))) with hi in HI by lia. apply HI; clear HI.
  - split; [apply kept_refl|]. intros n Hn. lia.
  - intros i s Hi (K & HQ). destruct (Hstep i s ltac:(lia) ltac:(apply K)) as (K' & HQ'). split.
    + eapply kept_weaken; [|apply (kept_trans _ _ _ _ _ K K')]. cbn. intros b [(n & Hn & ->)|<-].
      * exists n. split; [lia|done].
      * exists i. split; [lia|done].
    + intros n Hn. destruct K' as (_ & _ & _ & K'). destruct (decide (n = i)) as [->|Hne].
      * destruct K as (_ & _ & _ & K). rewrite <- (K (r i)); [done|]. intros (n & Hm & He). apply Hinj in He. lia.
      * rewrite K' by (intros He; apply Hinj in He; lia). apply HQ. lia.
Qed.

(** The two bit arrays written with all ones. *)
Lemma clear_enables g :
  let u := look (fill_regs GIC_GICD_ICENABLER 0 2 (u32 (Z.lnot 0)) g) in
  latch u = latch (look g) /\ line u = line (look g) /\ reg u = reg (look g) /\
  forall i, 16 <= i < 64 -> enabled u i = false.
Proof.
  cbn zeta. unfold fill_regs. change (Z.to_nat (2 - 0)) with 2%nat. cbn [loop_up].
  set (g1 := wr (GIC_GICD_ICENABLER 0) _ g).
  destruct (wr_icenabler g 0 (u32 (Z.lnot 0)) ltac:(lia)) as (A1 & A2 & A3 & A4).
  destruct (wr_icenabler g1 (0 + 1) (u32 (Z.lnot 0)) ltac:(lia)) as (B1 & B2 & B3 & B4). fold g1 in A1, A2, A3, A4.
  split_and!; [congruence..|]. intros i Hi. rewrite B4, A4 by (change GIC_INTNO_PPI0 with 16; lia).
  rewrite !hit_all by lia. repeat zcase; cbn; rewrite ?andb_false_r; try done; exfalso; Z.div_mod_to_equations; lia.
Qed.

Lemma clear_pendings g :
  let u := look (fill_regs GIC_GICD_ICPENDR 0 2 (u32 (Z.lnot 0)) g) in
  enabled u = enabled (look g) /\ line u = line (look g) /\ reg u = reg (look g) /\
  forall i, 16 <= i < 64 -> latch u i = false.
Proof.
  cbn zeta. unfold fill_regs. change (Z.to_nat (2 - 0)) with 2%nat. cbn [loop_up].
  set (g1 := wr (GIC_GICD_ICPENDR 0) _ g).
  destruct (wr_icpendr g 0 (u32 (Z.lnot 0)) ltac:(lia)) as (A1 & A2 & A3 & A4).
  destruct (wr_icpendr g1 (0 + 1) (u32 (Z.lnot 0)) ltac:(lia)) as (B1 & B2 & B3 & B4). fold g1 in A1, A2, A3, A4.
  split_and!; [congruence..|]. intros i Hi. rewrite B4, A4 by lia. change GIC_INTNO_PPI0 with 16.
  rewrite !hit_all by lia. repeat zcase; cbn; rewrite ?andb_false_r; try done; exfalso; Z.div_mod_to_equations; lia.
Qed.

Lemma prio_mask_land : Z.land 0xff prio_mask = prio_mask /\ Z.land prio_mask prio_mask = prio_mask.
Proof.
  split; [|apply Z.land_diag]. destruct prio_mask_ok as (k & Hk & ->).
  assert (k = 0 \/ k = 1 \/ k = 2 \/ k = 3 \/ k = 4) as Hc by lia. by repeat destruct Hc as [->|Hc]; subst.
Qed.

Lemma field_ones j : 0 <= j < 4 -> field (u32 (Z.lnot 0)) 8 j = 0xff.
Proof. intros Hj. assert (j = 0 \/ j = 1 \/ j = 2 \/ j = 3) as Hc by lia. by repeat destruct Hc as [->|Hc]; subst. Qed.

Lemma field_core0 j : 0 <= j < 4 -> field GIC_GICD_ITARGETSR_CORE0_TARGET_BMAP 8 j = 1.
Proof. intros Hj. assert (j = 0 \/ j = 1 \/ j = 2 \/ j = 3) as Hc by lia. by repeat destruct Hc as [->|Hc]; subst. Qed.

Lemma cpu_mask_land : Z.land 1 cpu_mask = 1.
Proof.
  rewrite Z.land_comm. change 1 with (2 ^ 1 - 1) at 1. rewrite land_mask by done. change (2 ^ 1) with 2.
  rewrite <- Z.bit0_mod. by rewrite cpu_mask_ok.
Qed.

(** [gicd_set_priority] changes one field. *)
Lemma set_priority_look irq prio g :
  16 <= irq < 64 -> 0 <= prio < 256 -> let u := look (gicd_set_priority irq prio g) in
  kept (eq (GIC_GICD_IPRIORITYR (irq / 4))) (look g) u /\
  forall j, 0 <= j < 4 -> field (reg u (GIC_GICD_IPRIORITYR (irq / 4))) 8 j =
    Z.land (if j =? irq mod 4 then prio else field (reg (look g) (GIC_GICD_IPRIORITYR (irq / 4))) 8 j) prio_mask.
Proof.
  intros Hq Hp. unfold gicd_set_priority. change GIC_GICD_IPRIORITY_PER_REG with 4.
  change GIC_GICD_IPRIORITY_SIZE_PER_REG with 8. rewrite rd_ipriorityr by (Z.div_mod_to_equations; lia).
  destruct (wr_ipriorityr g (irq / 4) (put_field 0xff (irq mod 4 * 8) prio (reg (look g) (GIC_GICD_IPRIORITYR (irq / 4)))))
    as (K & HF); [Z.div_mod_to_equations; lia|]. split; [done|].
  intros j Hj. rewrite HF by (try done; Z.div_mod_to_equations; lia). f_equal. rewrite (Z.mul_comm _ 8).
  change 0xff with (2 ^ 8 - 1). apply put_field_get; Z.div_mod_to_equations; lia.
Qed.

(** [gicd_set_target] has no effect on a private interrupt; on a shared one it
    changes one field. *)
Lemma set_target_private irq p g : 0 <= irq < 32 -> look (gicd_set_target irq p g) = look g.
Proof.
  intros Hq. unfold gicd_set_target. change GIC_GICD_ITARGETSR_PER_REG with 4.
  rewrite rd_itargetsr by (Z.div_mod_to_equations; lia). apply wr_itargetsr_private. Z.div_mod_to_equations; lia.
Qed.

(** [gicd_config] of a disabled interrupt changes one trigger, where it is programmable. *)
Lemma config_look irq c g :
  16 <= irq < 64 -> 0 <= c < 4 ->
  (forall j, 0 <= j < 16 -> enabled (look g) (16 * (irq / 16) + j) = false) ->
  let u := look (gicd_config irq c g) in
  kept (eq (GIC_GICD_ICFGR (irq / 16))) (look g) u /\
  forall i, 16 <= i < 64 -> edge u i = if (i =? irq) && cfg_free i then Z.testbit c 1 else edge (look g) i.
Proof.
  intros Hq Hc Hd. unfold gicd_config. change GIC_GICD_ICFGR_PER_REG with 16. change GIC_GICD_ICFGR_SIZE_PER_REG with 2.
  rewrite rd_icfgr by (Z.div_mod_to_equations; lia).
  destruct (wr_icfgr g (irq / 16) (put_field 0x03 (irq mod 16 * 2) c (reg (look g) (GIC_GICD_ICFGR (irq / 16)))))
    as (K & HF); [Z.div_mod_to_equations; lia|done|]. cbn zeta. set (u := look _) in *. split; [done|].
  intros i Hi. unfold edge. destruct (decide (i / 16 = irq / 16)) as [E|Hne].
  - rewrite E, HF by (Z.div_mod_to_equations; lia).
    replace (16 * (irq / 16) + i mod 16) with i by (Z.div_mod_to_equations; lia).
    destruct (cfg_free i); [|by rewrite andb_false_r]. rewrite andb_true_r, (Z.mul_comm _ 2). change 0x03 with (2 ^ 2 - 1).
    rewrite put_field_bit by (Z.div_mod_to_equations; lia).
    destruct (Z.eqb_spec i irq) as [->|]; repeat zcase; cbn [andb]; try done; try (Z.div_mod_to_equations; lia).
    f_equal. lia.
  - destruct (Z.eqb_spec i irq) as [->|]; [done|]. cbn [andb]. destruct K as (_ & _ & _ & K). f_equal. apply K.
    unfold GIC_GICD_ICFGR. lia.
Qed.

Lemma init_gicd_spec g :
  let u := look (init_gicd g) in
  (forall i, 16 <= i < 64 -> enabled u i = false) /\ (forall i, 16 <= i < 64 -> latch u i = false) /\
  line u = line (look g) /\ reg u GIC_GICD_CTLR = GIC_GICD_CTLR_ENABLE /\
  (forall n j, 4 <= n < 16 -> 0 <= j < 4 -> field (reg u (GIC_GICD_IPRIORITYR n)) 8 j = prio_mask) /\
  (forall n j, 8 <= n < 16 -> 0 <= j < 4 ->
     field (reg u (GIC_GICD_ITARGETSR n)) 8 j = if uniprocessor then 0 else 1) /\
  (forall i, 16 <= i < 64 -> edge u i = if cfg_free i then false else edge (look g) i).
Proof.
  cbn zeta. unfold init_gicd.
  change ((GIC_INT_MAX + GIC_GICD_INT_PER_REG - 1) / GIC_GICD_INT_PER_REG) with 2.
  change ((GIC_INT_MAX + GIC_GICD_IPRIORITY_PER_REG - 1) / GIC_GICD_IPRIORITY_PER_REG) with 16.
  change (GIC_INTNO_SPI0 / GIC_GICD_ITARGETSR_PER_REG) with 8.
  change ((GIC_INT_MAX + (GIC_GICD_ITARGETSR_PER_REG - 1)) / GIC_GICD_ITARGETSR_PER_REG) with 16.
  change (GIC_INTNO_PPI0 / GIC_GICD_ICFGR_PER_REG) with 1.
  change ((GIC_INT_MAX + (GIC_GICD_ICFGR_PER_REG - 1)) / GIC_GICD_ICFGR_PER_REG) with 4.
  set (g1 := wr GIC_GICD_CTLR GIC_GICD_CTLR_DISABLE g).
  destruct (wr_ctlr g GIC_GICD_CTLR GIC_GICD_CTLR_DISABLE ltac:(by left) ltac:(done)) as ((_ & _ & K1 & K1') & _).
  fold g1 in K1, K1'. destruct (clear_enables g1) as (A1 & A2 & A3 & A4). set (g2 := fill_regs GIC_GICD_ICENABLER _ _ _ _) in *.
  destruct (clear_pendings g2) as (B1 & B2 & B3 & B4). set (g3 := fill_regs GIC_GICD_ICPENDR _ _ _ _) in *.
  destruct (fill_bank GIC_GICD_IPRIORITYR 0 16 (u32 (Z.lnot 0))
    (fun n _ x => 4 <= n -> forall j, 0 <= j < 4 -> field x 8 j = prio_mask) g3)
    as ((C1 & C2 & C3 & C4) & CQ); [lia|intros; registers| |].
  { intros n s Hn _. destruct (wr_ipriorityr s n (u32 (Z.lnot 0)) ltac:(lia)) as (K & HF). split; [done|].
    intros H4 j Hj. rewrite HF, field_ones by done. apply prio_mask_land. }
  set (g4 := fill_regs GIC_GICD_IPRIORITYR _ _ _ _) in *.
  destruct (fill_bank GIC_GICD_ITARGETSR 8 16 GIC_GICD_ITARGETSR_CORE0_TARGET_BMAP
    (fun n _ x => forall j, 0 <= j < 4 -> field x 8 j = if uniprocessor then 0 else 1) g4)
    as ((D1 & D2 & D3 & D4) & DQ); [lia|intros; registers| |].
  { intros n s Hn _. destruct (wr_itargetsr s n GIC_GICD_ITARGETSR_CORE0_TARGET_BMAP ltac:(lia)) as (K & HF).
    split; [done|]. intros j Hj. by rewrite HF, field_core0, cpu_mask_land. }
  set (g5 := fill_regs GIC_GICD_ITARGETSR _ _ _ _) in *.
  destruct (fill_bank GIC_GICD_ICFGR 1 4 GIC_GICD_ICFGR_LEVEL
    (fun n o x => forall j, 0 <= j < 16 -> Z.testbit x (2 * j + 1) =
       if cfg_free (16 * n + j) then false else Z.testbit o (2 * j + 1)) g5)
    as ((E1 & E2 & E3 & E4) & EQ); [lia|intros; registers| |].
  { intros n s Hn He. destruct (wr_icfgr s n GIC_GICD_ICFGR_LEVEL ltac:(lia)) as (K & HF).
    - intros j Hj. rewrite He, D1, C1, B1. apply A4. lia.
    - split; [done|]. intros j Hj. rewrite HF by done. destruct (cfg_free _); [apply Z.testbit_0_l|done]. }
  set (g6 := fill_regs GIC_GICD_ICFGR _ _ _ _) in *.
  destruct (wr_ctlr g6 GIC_GICD_CTLR GIC_GICD_CTLR_ENABLE ltac:(by left) ltac:(done)) as ((F1 & F2 & F3 & F4) & F5).
  set (g7 := wr GIC_GICD_CTLR _ g6) in *. split_and!.
  - intros i Hi. rewrite F1, E1, D1, C1, B1. by apply A4.
  - intros i Hi. rewrite F2, E2, D2, C2. by apply B4.
  - congruence.
  - done.
  - intros n j Hn Hj. rewrite F4, E4, D4 by first [registers|intros (m & Hm & He); registers]. apply CQ; lia.
  - intros n j Hn Hj. rewrite F4, E4 by first [registers|intros (m & Hm & He); registers]. apply DQ; lia.
  - intros i Hi. unfold edge. assert (1 <= i / 16 < 4) by (Z.div_mod_to_equations; lia).
    rewrite F4 by registers. rewrite EQ by (Z.div_mod_to_equations; lia).
    replace (16 * (i / 16) + i mod 16) with i by (Z.div_mod_to_equations; lia).
    destruct (cfg_free i); [done|]. f_equal.
    generalize dependent (i / 16). intros n Hn.
    rewrite D4, C4 by (intros (m & ? & ?); registers). rewrite B3, A3. apply K1'. registers.
Qed.

(** The processor interface is off when its acknowledge register is read, so
    the loop that reads it never turns. *)
Lemma init_gicc_spec fuel g :
  exists g', init_gicc fuel g = Some g' /\
    kept (fun b => b = GIC_GICC_CTLR \/ b = GIC_GICC_PMR \/ b = GIC_GICC_BPR) (look g) (look g') /\
    reg (look g') GIC_GICC_CTLR = GICC_CTLR_ENABLE /\ reg (look g') GIC_GICC_PMR = prio_mask.
Proof.
  unfold init_gicc.
  destruct (wr_ctlr g GIC_GICC_CTLR GICC_CTLR_DISABLE ltac:(by right) ltac:(done)) as (K1 & V1).
  set (g1 := wr GIC_GICC_CTLR _ g) in *.
  destruct (wr_pmr g1 GICC_PMR_PRIO_MIN ltac:(done)) as (K2 & V2). set (g2 := wr GIC_GICC_PMR _ g1) in *.
  pose proof (wr_bpr g2 GICC_BPR_NO_GROUP) as K3. set (g3 := wr GIC_GICC_BPR _ g2) in *.
  destruct (rd_iar_off g3) as (Hv & Hs).
  { destruct K2 as (_ & _ & _ & K2), K3 as (_ & _ & _ & K3). rewrite K3, K2, V1 by registers. done. }
  destruct (rd GIC_GICC_IAR g3) as [v g4] eqn:Er. cbn [fst snd] in Hv, Hs. rewrite Hv.
  assert (drain_iar fuel GICC_IAR_SPURIOUS_INTR g4 = Some g4) as -> by (by destruct fuel). rewrite bind_Some.
  destruct (wr_ctlr g4 GIC_GICC_CTLR GICC_CTLR_ENABLE ltac:(by right) ltac:(done)) as (K5 & V5).
  rewrite Hs in K5. eexists. split; [done|]. split_and!; [|done|].
  - eapply kept_weaken; [|eapply kept_trans; [eapply kept_trans; [eapply kept_trans; [exact K1|exact K2]|exact K3]|exact K5]].
    cbn. intros b [[[<-|<-]|<-]|<-]; auto.
  - destruct K5 as (_ & _ & _ & K5), K3 as (_ & _ & _ & K3). rewrite K5, K3, V2 by registers. apply prio_mask_land.
Qed.

Lemma gic_v3_initialize_spec fuel g :
  exists g', gic_v3_initialize fuel g = Some g' /\ line (look g') = line (look g) /\
    (forall i, 16 <= i < 64 -> enabled (look g') i = (i =? TIMER_IRQ)) /\
    (forall i, 16 <= i < 64 -> latch (look g') i = false) /\
    (forall i, 16 <= i < 64 -> edge (look g') i = if cfg_free i then i =? TIMER_IRQ else edge (look g) i) /\
    (forall i, 16 <= i < 64 -> field (reg (look g') (GIC_GICD_IPRIORITYR (i / 4))) 8 (i mod 4) =
       if i =? TIMER_IRQ then 0 else prio_mask) /\
    (forall i, 32 <= i < 64 -> field (reg (look g') (GIC_GICD_ITARGETSR (i / 4))) 8 (i mod 4) =
       if uniprocessor then 0 else 1) /\
    reg (look g') GIC_GICD_CTLR = GIC_GICD_CTLR_ENABLE /\ reg (look g') GIC_GICC_CTLR = GICC_CTLR_ENABLE /\
    reg (look g') GIC_GICC_PMR = prio_mask.
Proof.
  unfold gic_v3_initialize. destruct (init_gicd_spec g) as (A1 & A2 & A3 & A4 & A5 & A6 & A7).
  destruct (init_gicc_spec fuel (init_gicd g)) as (g1 & -> & (B1 & B2 & B3 & B4) & B5 & B6). rewrite bind_Some.
  destruct (config_look TIMER_IRQ GIC_GICD_ICFGR_EDGE g1 ltac:(done) ltac:(done)) as ((C1 & C2 & C3 & C4) & C5).
  { intros j Hj. rewrite B1. apply A1. change (TIMER_IRQ / 16) with 1. lia. }
  set (g2 := gicd_config _ _ _) in *. change (TIMER_IRQ / 16) with 1 in *.
  destruct (set_priority_look TIMER_IRQ (Z.shiftl 0 GIC_PRI_SHIFT) g2 ltac:(done) ltac:(done)) as ((D1 & D2 & D3 & D4) & D5).
  set (g3 := gicd_set_priority _ _ _) in *. change (TIMER_IRQ / 4) with 6 in *. change (TIMER_IRQ mod 4) with 3 in *.
  pose proof (set_target_private TIMER_IRQ 0x1 g3 ltac:(done)) as E. set (g4 := gicd_set_target _ _ _) in *.
  destruct (clear_pending_look TIMER_IRQ g4 ltac:(done)) as (F1 & F2 & F3 & F4).
  set (g5 := gicd_clear_pending _ _) in *.
  destruct (enable_int_look TIMER_IRQ g5 ltac:(done)) as (H1 & H2 & H3 & H4).
  set (g6 := gicd_enable_int _ _) in *. exists g6. split; [done|].
  assert (R : reg (look g6) = reg (look g3)) by (rewrite H3, F3, E; done).
  assert (R1 : forall b, ~ (b = GIC_GICC_CTLR \/ b = GIC_GICC_PMR \/ b = GIC_GICC_BPR) -> GIC_GICD_ICFGR 1 <> b ->
    GIC_GICD_IPRIORITYR 6 <> b -> reg (look g6) b = reg (look (init_gicd g)) b)
    by (intros b N1 N2 N3; rewrite R, D4, C4, B4; done).
  split_and!.
  - rewrite H2, F2, E. congruence.
  - intros i Hi. rewrite H4, F1, E, D1, C1, B1, A1 by lia. done.
  - intros i Hi. rewrite H1, F4, E, D2, C2, B2, A2 by lia. done.
  - intros i Hi. assert (1 <= i / 16 < 4) by (Z.div_mod_to_equations; lia). rewrite (edge_reg _ _ _ R). unfold edge at 1. rewrite D4 by registers.
    fold (edge (look g2) i). rewrite C5 by done. unfold edge at 1. rewrite B4 by registers.
    fold (edge (look (init_gicd g)) i). rewrite A7 by done.
    destruct (Z.eqb_spec i TIMER_IRQ), (cfg_free i); done.
  - intros i Hi. assert (4 <= i / 4 < 16) by (Z.div_mod_to_equations; lia). rewrite R. destruct (Z.eqb_spec (i / 4) 6) as [E6|E6].
    + rewrite E6, D5, C4, B4 by first [registers|Z.div_mod_to_equations; lia].
      rewrite A5 by (Z.div_mod_to_equations; lia). change TIMER_IRQ with 27.
      destruct (Z.eqb_spec (i mod 4) 3), (Z.eqb_spec i 27); try (Z.div_mod_to_equations; lia); [done|apply prio_mask_land].
    + rewrite D4, C4, B4, A5 by first [registers|Z.div_mod_to_equations; lia]. change TIMER_IRQ with 27.
      destruct (Z.eqb_spec i 27) as [->|]; [by destruct E6|done].
  - intros i Hi. assert (8 <= i / 4 < 16) by (Z.div_mod_to_equations; lia).
    rewrite R1 by registers. apply A6; Z.div_mod_to_equations; lia.
  - rewrite R1 by registers. done.
  - rewrite R, D4, C4 by registers. done.
  - rewrite R, D4, C4 by registers. done.
Qed.
End Effects.

(** ** Claims *)

(** C38: [gic_v3_initialize] returns, from any state of the controller, and then of
    the peripheral interrupts exactly the timer's is enabled, none is latched
    (pending are only the level-sensitive ones whose input is asserted), the
    timer has priority 0 and every other one the lowest priority the
    controller implements; every shared interrupt targets processor 0 (on a
    uniprocessor the targets read as zero), the timer's is edge-triggered where
    its trigger is programmable and all other programmable ones are
    level-sensitive; the distributor and the processor interface are on and
    the interface masks no priority but the lowest. *)
Theorem gic_v3_initialize_correct {G : Type} `{GicDevice G} (fuel : nat) (g : G) :
  exists g', gic_v3_initialize fuel g = Some g' /\
    (forall i, GIC_INTNO_PPI0 <= i < GIC_INT_MAX ->
       enabled (look g') i = (i =? TIMER_IRQ) /\
       edge (look g') i = (if cfg_free i then i =? TIMER_IRQ else edge (look g) i) /\
       pending (look g') i = negb (edge (look g') i) && line (look g) i /\
       field (reg (look g') (GIC_GICD_IPRIORITYR (i / 4))) 8 (i mod 4) = (if i =? TIMER_IRQ then 0 else prio_mask)) /\
    (forall i, GIC_INTNO_SPI0 <= i < GIC_INT_MAX ->
       edge (look g') i = false /\
       field (reg (look g') (GIC_GICD_ITARGETSR (i / 4))) 8 (i mod 4) = (if uniprocessor then 0 else 1)) /\
    reg (look g') GIC_GICD_CTLR = GIC_GICD_CTLR_ENABLE /\ reg (look g') GIC_GICC_CTLR = GICC_CTLR_ENABLE /\
    reg (look g') GIC_GICC_PMR = prio_mask.
Proof.
  change GIC_INT_MAX with 64. change GIC_INTNO_PPI0 with 16. change GIC_INTNO_SPI0 with 32.
  destruct (gic_v3_initialize_spec fuel g) as (g' & E & H1 & H2 & H3 & H4 & H5 & H6 & H7 & H8 & H9).
  exists g'. split_and!; [done| | |done..].
  - intros i Hi. split_and!; [by apply H2|by apply H4| |by apply H5]. unfold pending. by rewrite H3, H1.
  - intros i Hi. split; [|by apply H6]. rewrite H4, cfg_free_ok by (change GIC_INTNO_SPI0 with 32; lia).
    change TIMER_IRQ with 27. zcases; done.
Qed.

(** [gic_v3_find_pending_irq] reports the lowest pending interrupt, leaves
    [irqp] alone when there is none, and does not change the device. *)
Theorem find_pending_irq_lowest {G : Type} `{GicDevice G} (irqp : Z) (g : G) :
  exists rc i, gic_v3_find_pending_irq irqp g = (rc, i, g) /\
    ((rc = IRQ_FOUND /\ 0 <= i < GIC_INT_MAX /\ pending (look g) i = true /\
      (forall j, 0 <= j < i -> pending (look g) j = false)) \/
     (rc = IRQ_NOT_FOUND /\ i = irqp /\ forall j, 0 <= j < GIC_INT_MAX -> pending (look g) j = false)).
Proof.
  unfold gic_v3_find_pending_irq. change (Z.to_nat GIC_INT_MAX) with 64%nat. change GIC_INT_MAX with 64.
  rewrite find_pending_loop_spec by lia. destruct (find_up_spec 64 0 (pending (look g))) as (H1 & H2 & H3).
  cbn zeta. set (i := find_up _ _ _) in *. destruct (Z.ltb_spec i (0 + Z.of_nat 64)) as [Hlt|Hge].
  - exists IRQ_FOUND, i. split; [done|]. left. split_and!; [done|lia|lia|by apply H3|done].
  - exists IRQ_NOT_FOUND, irqp. split; [done|]. right. split_and!; [done|done|]. intros j Hj. apply H2. lia.
Qed.

(** Each of the one-bit operations on a peripheral interrupt changes that
    interrupt alone; clearing an edge-triggered one ends its pending state, so
    the next search reports another one or none. *)
Theorem clear_pending_exact {G : Type} `{GicDevice G} (irq i : Z) (g : G) :
  GIC_INTNO_PPI0 <= irq < GIC_INT_MAX -> GIC_INTNO_PPI0 <= i ->
  latch (look (gicd_clear_pending irq g)) i = latch (look g) i && negb (i =? irq) /\
  (edge (look g) irq = true ->
     pending (look (gic_v3_eoi irq g)) i = pending (look g) i && negb (i =? irq)) /\
  enabled (look (gicd_enable_int irq g)) i = enabled (look g) i || (i =? irq) /\
  enabled (look (gicd_disable_int irq g)) i = enabled (look g) i && negb (i =? irq) /\
  reg (look (gicd_clear_pending irq g)) = reg (look g) /\
  enabled (look (gicd_clear_pending irq g)) = enabled (look g).
Proof.
  change GIC_INT_MAX with 64. change GIC_INTNO_PPI0 with 16. intros Hq Hi. unfold gic_v3_eoi.
  destruct (clear_pending_look irq g ltac:(lia)) as (E1 & _ & E2 & E3).
  destruct (enable_int_look irq g ltac:(lia)) as (_ & _ & _ & E4).
  destruct (disable_int_look irq g ltac:(lia)) as (_ & _ & _ & E5).
  split_and!; [|intros He; apply clear_pending_edge; [done|done|lia]|by apply E4|by apply E5|done|done].
  rewrite E3 by lia. f_equal. zcases; done.
Qed.

(** ** A device with the documented behaviour *)

(** The word whose bit [j] is [f (i + j)]. *)
Fixpoint pack (k : nat) (f : Z -> bool) (i : Z) : Z :=
  match k with
  | O => 0
  | S k' => 2 * pack k' f (i + 1) + Z.b2z (f i)
  end.

Lemma pack_bit k f i j : 0 <= j < Z.of_nat k -> Z.testbit (pack k f i) j = f (i + j).
Proof.
  revert i j. induction k as [|k IH]; intros i j Hj; [lia|]. cbn [pack].
  destruct (decide (j = 0)) as [->|].
  - by rewrite Z.testbit_0_r, Z.add_0_r.
  - replace j with (Z.succ (j - 1)) by lia. rewrite Z.testbit_succ_r, IH by lia. f_equal. lia.
Qed.

(** Case analysis on a number below 16. *)
Lemma below_16 (P : Z -> Prop) :
  P 0 -> P 1 -> P 2 -> P 3 -> P 4 -> P 5 -> P 6 -> P 7 -> P 8 -> P 9 -> P 10 -> P 11 -> P 12 -> P 13 -> P 14 -> P 15 ->
  forall n, 0 <= n < 16 -> P n.
Proof.
  intros. destruct (decide (n < 8)).
  - assert (n = 7 \/ n = 6 \/ n = 5 \/ n = 4 \/ n = 3 \/ n = 2 \/ n = 1 \/ n = 0) as Hn by lia.
    repeat destruct Hn as [->|Hn]; try done. by subst.
  - assert (n = 15 \/ n = 14 \/ n = 13 \/ n = 12 \/ n = 11 \/ n = 10 \/ n = 9 \/ n = 8) as Hn by lia.
    repeat destruct Hn as [->|Hn]; try done. by subst.
Qed.

(** Address [b] is one of the registers [lo..hi-1] of the bank at [base]. *)
Definition in_bank (base lo hi b : Z) : bool :=
  (base + lo * 4 <=? b) && (b <? base + hi * 4) && ((b - base) mod 4 =? 0).

(** A uniprocessor controller with eight priority bits and programmable private
    interrupts, as the emulator the Makefile starts has it. *)
Definition board_rd (a : Z) (v : gic_view) : Z * gic_view :=
  if in_bank (GIC_GICD_ISPENDR 0) 0 2 a
  then (pack 32 (pending v) (32 * ((a - GIC_GICD_ISPENDR 0) / 4)), v)
  else if a =? GIC_GICC_IAR then
    if Z.testbit (reg v GIC_GICC_CTLR) 0 then
      let i := find_up 64 0 (fun i => enabled v i && pending v i) in
      (if i <? 64 then i else GICC_IAR_SPURIOUS_INTR, v)
    else (GICC_IAR_SPURIOUS_INTR, v)
  else (reg v a, v).

Definition board_wr (a x : Z) (v : gic_view) : gic_view :=
  if in_bank (GIC_GICD_ISENABLER 0) 0 2 a then
    {| enabled := fun i => enabled v i || (16 <=? i) && hit ((a - GIC_GICD_ISENABLER 0) / 4) x i;
       latch := latch v; line := line v; reg := reg v |}
  else if in_bank (GIC_GICD_ICENABLER 0) 0 2 a then
    {| enabled := fun i => enabled v i && negb ((16 <=? i) && hit ((a - GIC_GICD_ICENABLER 0) / 4) x i);
       latch := latch v; line := line v; reg := reg v |}
  else if in_bank (GIC_GICD_ICPENDR 0) 0 2 a then
    {| enabled := enabled v; line := line v; reg := reg v;
       latch := fun i => latch v i && negb ((16 <=? i) && hit ((a - GIC_GICD_ICPENDR 0) / 4) x i) |}
  else if a =? GIC_GICC_EOIR then v
  else if in_bank (GIC_GICD_ITARGETSR 0) 0 8 a then v
  else {| enabled := enabled v; latch := latch v; line := line v;
          reg := fun b => if b =? a then if in_bank (GIC_GICD_ITARGETSR 0) 8 16 a then 0 else x else reg v b |}.

(** The registers that hold what is written. *)
Definition stored (a : Z) : Prop :=
  a = GIC_GICC_CTLR \/ a = GIC_GICC_PMR \/ a = GIC_GICC_BPR \/ a = GIC_GICD_CTLR \/
  exists n, 0 <= n < 16 /\ (a = GIC_GICD_IPRIORITYR n \/ a = GIC_GICD_ICFGR n).

Ltac board_registers := unfold in_bank, GIC_GICD_ISPENDR, GIC_GICD_ISENABLER, GIC_GICD_ICENABLER, GIC_GICD_ICPENDR,
  GIC_GICC_IAR, GIC_GICC_EOIR, GIC_GICC_CTLR, GIC_GICC_PMR, GIC_GICC_BPR, GIC_GICD_CTLR, GIC_GICD_IPRIORITYR,
  GIC_GICD_ITARGETSR, GIC_GICD_ICFGR, GIC_GICC_BASE, GIC_GICD_BASE in *; repeat zcase; cbn [andb]; try done; lia.

Lemma stored_rd v a : stored a -> board_rd a v = (reg v a, v).
Proof.
  intros Ha. unfold board_rd.
  assert (in_bank (GIC_GICD_ISPENDR 0) 0 2 a = false /\ (a =? GIC_GICC_IAR) = false) as [-> ->]; [|done].
  destruct Ha as [-> | [-> | [-> | [-> | (n & Hn & [-> | ->])]]]]; split; board_registers.
Qed.

Lemma stored_wr v a x :
  stored a -> board_wr a x v = {| enabled := enabled v; latch := latch v; line := line v; reg := fun b => if b =? a then x else reg v b |}.
Proof.
  intros Ha. unfold board_wr.
  assert (in_bank (GIC_GICD_ISENABLER 0) 0 2 a = false /\ in_bank (GIC_GICD_ICENABLER 0) 0 2 a = false /\
    in_bank (GIC_GICD_ICPENDR 0) 0 2 a = false /\ (a =? GIC_GICC_EOIR) = false /\
    in_bank (GIC_GICD_ITARGETSR 0) 0 8 a = false /\ in_bank (GIC_GICD_ITARGETSR 0) 8 16 a = false)
    as (-> & -> & -> & -> & -> & ->); [|done].
  destruct Ha as [-> | [-> | [-> | [-> | (n & Hn & [-> | ->])]]]]; split_and!; board_registers.
Qed.

Lemma stored_kept v a x :
  stored a -> kept (eq a) v (board_wr a x v) /\ reg (board_wr a x v) a = x.
Proof.
  intros Ha. rewrite stored_wr by done. cbn [reg]. rewrite Z.eqb_refl. split; [|done]. split_and!; [done..|].
  intros b Hb. cbn [reg]. by destruct (Z.eqb_spec b a) as [->|].
Qed.

Lemma stored_ctlr a : a = GIC_GICD_CTLR \/ a = GIC_GICC_CTLR -> stored a.
Proof. unfold stored. intros [->| ->]; auto. Qed.
Lemma stored_prio n : 0 <= n < 16 -> stored (GIC_GICD_IPRIORITYR n).
Proof. unfold stored. intros. do 4 right. exists n. auto. Qed.
Lemma stored_cfg n : 0 <= n < 16 -> stored (GIC_GICD_ICFGR n).
Proof. unfold stored. intros. do 4 right. exists n. auto. Qed.

(** Writes to the target registers. *)
Lemma target_wr v n x :
  0 <= n < 16 -> board_wr (GIC_GICD_ITARGETSR n) x v = if n <? 8 then v else
    {| enabled := enabled v; latch := latch v; line := line v; reg := fun b => if b =? GIC_GICD_ITARGETSR n then 0 else reg v b |}.
Proof.
  intros Hn. pattern n. apply below_16; [reflexivity..|exact Hn].
Qed.

#[export] Instance gic_board : GicDevice gic_view.
Proof.
  refine {| rd := board_rd; wr := board_wr; look := id; prio_mask := 0xff; uniprocessor := true; cpu_mask := 1;
            cfg_free := fun _ => true |}; unfold id.
  - by exists 0.
  - done.
  - done.
  - intros v n Hn. assert (n = 0 \/ n = 1) as Hc by lia. unfold board_rd.
    assert (in_bank (GIC_GICD_ISPENDR 0) 0 2 (GIC_GICD_ISPENDR n) = true) as -> by (by destruct Hc as [->| ->]).
    split; [done|]. intros i Hi. cbn [fst]. rewrite pack_bit by lia. f_equal. by destruct Hc as [->| ->].
  - intros v n Hn. apply stored_rd. by apply stored_prio.
  - intros v n Hn. pattern n. apply below_16; [reflexivity..|exact Hn].
  - intros v n Hn. apply stored_rd, stored_cfg. lia.
  - intros v Hv. unfold board_rd. assert (in_bank (GIC_GICD_ISPENDR 0) 0 2 GIC_GICC_IAR = false) as -> by done.
    rewrite Z.eqb_refl, Hv. done.
  - intros v n x Hn. assert (n = 0 \/ n = 1) as [->| ->] by lia; split_and!; try done; intros i Hi;
      apply Z.leb_le in Hi; change GIC_INTNO_PPI0 with 16 in Hi.
    + change (enabled v i || (16 <=? i) && hit 0 x i = enabled v i || hit 0 x i). by rewrite Hi.
    + change (enabled v i || (16 <=? i) && hit 1 x i = enabled v i || hit 1 x i). by rewrite Hi.
  - intros v n x Hn. assert (n = 0 \/ n = 1) as [->| ->] by lia; split_and!; try done; intros i Hi;
      apply Z.leb_le in Hi; change GIC_INTNO_PPI0 with 16 in Hi.
    + change (enabled v i && negb ((16 <=? i) && hit 0 x i) = enabled v i && negb (hit 0 x i)). by rewrite Hi.
    + change (enabled v i && negb ((16 <=? i) && hit 1 x i) = enabled v i && negb (hit 1 x i)). by rewrite Hi.
  - intros v n x Hn. assert (n = 0 \/ n = 1) as [->| ->] by lia; split_and!; done.
  - intros v a x Ha _. apply stored_kept. by apply stored_ctlr.
  - intros v x Hx. destruct (stored_kept v GIC_GICC_PMR x) as [K E]; [unfold stored; auto|]. split; [done|].
    rewrite E. change 0xff with (2 ^ 8 - 1). rewrite land_mask by done. symmetry. apply Z.mod_small. exact Hx.
  - intros v x. apply stored_kept. unfold stored. auto.
  - intros v n x Hn. destruct (stored_kept v (GIC_GICD_IPRIORITYR n) x (stored_prio n Hn)) as [K E]. split; [done|].
    intros _ j Hj. rewrite E. unfold field. change (2 ^ 8 - 1) with 0xff. by rewrite <- Z.land_assoc.
  - intros v n x Hn. rewrite target_wr by lia. by zcases.
  - intros v n x Hn. rewrite target_wr by lia. destruct (Z.ltb_spec n 8); [lia|]. cbn zeta. split.
    + split_and!; [done..|]. intros b Hb. cbn [reg]. by destruct (Z.eqb_spec b (GIC_GICD_ITARGETSR n)) as [->|].
    + intros j Hj. cbn [reg]. rewrite Z.eqb_refl. unfold field. by rewrite Z.shiftr_0_l, Z.land_0_l.
  - intros v n x Hn _. destruct (stored_kept v (GIC_GICD_ICFGR n) x (stored_cfg n ltac:(lia))) as [K E]. split; [done|].
    intros j Hj. by rewrite E.
Defined.

(** ** Witnesses *)

(** The timer and interrupt 40 latched and edge-triggered, interrupt 5 asserted
    at the input, everything enabled. *)
Definition board0 : gic_view :=
  {| enabled := fun _ => true; latch := fun i => (i =? 27) || (i =? 40); line := fun _ => false;
     reg := fun a => if in_bank (GIC_GICD_ICFGR 0) 0 4 a then 0xaaaaaaaa else 0 |}.

Example gic_v3_initialize_correct_witness :
  exists g', gic_v3_initialize 0 board0 = Some g' /\ enabled g' 27 = true /\ enabled g' 40 = false /\
    edge g' 27 = true /\ edge g' 40 = false /\ pending g' 27 = false /\ pending g' 40 = false.
Proof.
  destruct (gic_v3_initialize_correct 0 board0) as (g' & E & H & _). exists g'. split; [exact E|].
  destruct (H 27 ltac:(split; [discriminate|reflexivity])) as (A1 & A2 & A3 & _).
  destruct (H 40 ltac:(split; [discriminate|reflexivity])) as (B1 & B2 & B3 & _).
  cbn [look gic_board id cfg_free] in *. rewrite A1, A2, A3, B1, B2, B3, A2, B2. repeat split; reflexivity.
Defined.

Example find_pending_irq_lowest_example : (gic_v3_find_pending_irq 99 board0).1 = (IRQ_FOUND, 27).
Proof. vm_compute. reflexivity. Qed.

Example clear_pending_exact_witness :
  pending (gic_v3_eoi 27 board0) 27 = false /\ pending (gic_v3_eoi 27 board0) 40 = true.
Proof.
  destruct (clear_pending_exact 27 27 board0 ltac:(split; [discriminate|reflexivity]) ltac:(discriminate)) as (_ & H1 & _).
  destruct (clear_pending_exact 27 40 board0 ltac:(split; [discriminate|reflexivity]) ltac:(discriminate)) as (_ & H2 & _).
  specialize (H1 ltac:(vm_compute; reflexivity)). specialize (H2 ltac:(vm_compute; reflexivity)).
  cbn [look gic_board id] in H1, H2. split; [rewrite H1|rewrite H2]; vm_compute; reflexivity.
Defined.
