(* ===== verification/Heap.v ===== *)
(** The kernel heap as its clients see it: blocks that are allocated, freed,
    read and written.

    [BlockHeap] is what mm/kmalloc.c promises to the file system; the file system
    is verified against it and [kheap_block_heap] discharges it. *)

From S2P Require Import Prelude Mem Page Kmalloc.
Local Open Scope Z_scope.

(** The operations; [hmem] and [hset] are the memory the blocks are in. *)
Class HeapOps (A : Type) := {
  halloc : Z -> A -> option (Z * A);
  hfree : Z -> A -> option A;
  hmem : A -> mem;
  hset : mem -> A -> A }.

(** [owns h L]: the blocks handed out are those of [L] (address to size);
    [room h n]: [n / 2] more allocations are sure to succeed; [arena]: the bytes
    the heap manages; [reusable]: the sizes of the blocks that may be given back
    (all of them, unless more is promised: [kheap_guarded]). *)
Class BlockHeap (A : Type) `{HeapOps A} := {
  owns : A -> gmap Z Z -> Prop;
  room : A -> nat -> Prop;
  arena : Z -> Prop;
  reusable : Z -> Prop;
  reusable_ok : forall s, s <> 512 -> reusable s;
  hset_mem : forall h m, hmem (hset m h) = m;
  room_le : forall h m n, room h n -> (m <= n)%nat -> room h m;
  halloc_ok : forall h L len n, owns h L -> room h (2 + n) -> 0 <= len <= 4096 ->
    exists a s h', halloc len h = Some (a, h') /\ 0 < a /\ a + s < 2 ^ 64 /\ L !! a = None /\ 0 < s /\ len <= s <= Z.max 16 (2 * len - 1) /\
      (forall b t, L !! b = Some t -> a + s <= b \/ b + t <= a) /\ owns h' (<[a := s]> L) /\ room h' n /\
      (forall c, ~ arena c \/ (exists b t, L !! b = Some t /\ b <= c < b + t) -> ldb (hmem h') c = ldb (hmem h) c);
  hfree_ok : forall h L a s, owns h L -> L !! a = Some s -> reusable s ->
    exists h', hfree a h = Some h' /\ owns h' (delete a L) /\ (forall n, room h n -> room h' n) /\
      (forall b, b < a \/ a + s <= b -> ldb (hmem h') b = ldb (hmem h) b);
  hset_ok : forall h L m, owns h L ->
    (forall b, ~ arena b \/ (exists a s, L !! a = Some s /\ a <= b < a + s) \/ ldb m b = ldb (hmem h) b) ->
    owns (hset m h) L /\ (forall n, room h n -> room (hset m h) n);
  owns_disjoint : forall h L a s b t, owns h L -> L !! a = Some s -> L !! b = Some t -> a <> b ->
    a + s <= b \/ b + t <= a;
  owns_range : forall h L a s, owns h L -> L !! a = Some s ->
    0 < a /\ 0 < s /\ a + s < 2 ^ 64 /\ forall b, a <= b < a + s -> arena b }.

(** A byte a client may store to: one of its blocks, or not the heap's at all. *)
Definition storable {A} {HO : HeapOps A} {H : BlockHeap A} (L : gmap Z Z) (b : Z) : Prop :=
  ~ arena b \/ exists a s, L !! a = Some s /\ a <= b < a + s.

Lemma free_ge_freed mm mm' n :
  free_ge mm n -> (forall j, count_of mm' j = count_of mm j \/ count_of mm' j = Some 0) -> free_ge mm' n.
Proof.
  intros (ks & ? & ? & Hf) Hc. exists ks. split_and!; [done..|].
  eapply Forall_impl; [exact Hf|]. cbn. intros k [Hk Hz]. split; [done|]. destruct (Hc k) as [->|]; done.
Qed.

Lemma kinv_map_ok h L : kinv h L -> map_ok (mem_map (kphys h)).
Proof. intros (bs & fl & Hly & _). apply Hly. Qed.

Lemma kinv_range h L a s : kinv h L -> L !! a = Some s -> 0 < a /\ 0 < s /\ a + s < 2 ^ 64.
Proof.
  intros Hk HL. destruct (kinv_block h L a s Hk HL) as (Hs & _ & _ & k & Hp & H1 & H2 & _).
  pose proof (sizes_facts s Hs). pose proof (page_va_pos k Hp). change (2 ^ 64) with 18446744073709551616. lia.
Qed.

(** Allocation leaves the contents of the live blocks, and what is not the
    heap's, alone. *)
Lemma keeps_live h h' L c : kinv h L -> keeps h h' ->
  ~ (page_va 0 <= c < page_va PAGING_PAGES) \/ (exists b t, L !! b = Some t /\ b <= c < b + t) ->
  ldb (ram (kphys h')) c = ldb (ram (kphys h)) c.
Proof.
  intros Hk [_ Hkeep] [Ha|(b & t & HL & Hc)].
  { apply Hkeep. intros j Hj _. unfold pfn_ok in Hj. rewrite PAGING_PAGES_eq in *. unfold page_va in *. lia. } destruct (kinv_block h L b t Hk HL) as (_ & _ & _ & k & Hp & H1 & H2 & H3).
  apply Hkeep. intros j Hj Hz. destruct (decide (j = k)) as [->|]; [congruence|]. unfold page_va in *. lia.
Qed.

(** ** The promises, kept by mm/kmalloc.c *)

Lemma kmalloc_ok h L len n : kinv h L -> free_ge (mem_map (kphys h)) (2 + n) -> 0 <= len <= 4096 ->
  exists a h', kmalloc len h = Some (a, h') /\ 0 < a /\ a + block_size len < 2 ^ 64 /\ L !! a = None /\ 0 < block_size len /\
    len <= block_size len <= Z.max 16 (2 * len - 1) /\
    (forall b t, L !! b = Some t -> a + block_size len <= b \/ b + t <= a) /\ kinv h' (<[a := block_size len]> L) /\
    free_ge (mem_map (kphys h')) n /\
    (forall c, ~ (page_va 0 <= c < page_va PAGING_PAGES) \/ (exists b t, L !! b = Some t /\ b <= c < b + t) ->
       ldb (ram (kphys h')) c = ldb (ram (kphys h)) c).
Proof.
  intros Hk Hr Hl. destruct (kmalloc_spec h L len n Hk Hl Hr) as (a & h' & E & Hn & Hk' & _ & Hd & _ & Hkeep & Hfr & _).
  exists a, h'. pose proof (block_size_spec len (proj2 Hl)) as (_ & Hs1 & Hs2).
  assert (Hmax : block_size len <= Z.max 16 (2 * len - 1)) by lia.
  destruct (kinv_range h' _ a (block_size len) Hk' (lookup_insert_eq _ _ _)) as (H1 & H2 & H3).
  split_and!; try done. intros c Hc. by eapply keeps_live.
Qed.

Lemma kfree_ok h L a s : kinv h L -> L !! a = Some s ->
  exists h', kfree a h = Some h' /\ kinv h' (delete a L) /\ (forall n, free_ge (mem_map (kphys h)) n -> free_ge (mem_map (kphys h')) n) /\
    (forall b, b < a \/ a + s <= b -> ldb (ram (kphys h')) b = ldb (ram (kphys h)) b).
Proof.
  intros Hk HL. destruct (kinv_block h L a s Hk HL) as (Hs & _). pose proof (sizes_facts s Hs).
  destruct (free_s_spec h L a s 0 Hk HL ltac:(lia)) as (h' & E & Hk' & _ & Hb & Hc).
  exists h'. split_and!; [done|done| |].
  - intros n Hn. eapply free_ge_freed; [exact Hn|]. intros j. destruct (Hc j) as [->|(_ & -> & _)]; [by left|by right].
  - intros b Hb'. apply Hb. lia.
Qed.

Lemma kset_ok h L m : kinv h L ->
  (forall b, ~ (page_va 0 <= b < page_va PAGING_PAGES) \/ (exists a s, L !! a = Some s /\ a <= b < a + s) \/
     ldb m b = ldb (ram (kphys h)) b) -> kinv (set_kram m h) L.
Proof.
  intros Hk Hm. apply kinv_frame; cbn; [done|by eapply kinv_map_ok|done|].
  intros k c b Hp _ _ Hb Hout. destruct (Hm b) as [Ha|[(a & s & HL & Hr)|E]]; [|destruct (Hout a s HL); lia|done].
  destruct Ha. unfold pfn_ok in Hp. rewrite PAGING_PAGES_eq in *. unfold page_va in *. lia.
Qed.

Lemma kinv_arena h L a s : kinv h L -> L !! a = Some s ->
  0 < a /\ 0 < s /\ a + s < 2 ^ 64 /\ forall b, a <= b < a + s -> page_va 0 <= b < page_va PAGING_PAGES.
Proof.
  intros Hk HL. destruct (kinv_range h L a s Hk HL) as (H1 & H2 & H3). split_and!; [done..|].
  destruct (kinv_block h L a s Hk HL) as (_ & _ & _ & k & Hp & Hlo & Hhi & _). intros b Hb.
  unfold pfn_ok in Hp. rewrite PAGING_PAGES_eq in *. unfold page_va in *. lia.
Qed.

Lemma free_ge_le mm m n : free_ge mm n -> (m <= n)%nat -> free_ge mm m.
Proof. intros (ks & Hd & Hl & Hf) Hm. exists ks. split_and!; [done|lia|done]. Qed.

#[export] Instance kheap_ops : HeapOps kheap := {| halloc := kmalloc; hfree := kfree; hmem h := ram (kphys h); hset := set_kram |}.

#[export] Instance kheap_block_heap : BlockHeap kheap.
Proof.
  refine {| owns := kinv;
            room h n := free_ge (mem_map (kphys h)) n; arena b := page_va 0 <= b < page_va PAGING_PAGES;
            reusable _ := True |}.
  - done.
  - done.
  - intros h. apply free_ge_le.
  - intros h L len n Hk Hr Hl. destruct (kmalloc_ok h L len n Hk Hr Hl) as (a & h' & Ha). by exists a, (block_size len), h'.
  - intros h L a s Hk HL _. by apply kfree_ok.
  - intros h L m Hk Hm. split; [by apply kset_ok|done].
  - intros h L a s b t. apply kinv_disjoint.
  - exact kinv_arena.
Defined.

(** ** Pages of others *)

(** A page in use that holds no block of the heap. *)
Definition lone (h : kheap) (L : gmap Z Z) (k : Z) : Prop :=
  (exists c, count_of (mem_map (kphys h)) k = Some c /\ c <> 0) /\
  forall b t, L !! b = Some t -> ~ page_va k <= b < page_va k + 4096.

(** The pages at [P] are such pages: whoever has them keeps them, and the bytes
    in them, whatever the heap does. *)
Definition guarded (P : list Z) (h : kheap) (L : gmap Z Z) : Prop := forall k, pfn_ok k -> page_va k ∈ P -> lone h L k.
Definition guard_byte (P : list Z) (x : Z) : Prop := exists k, pfn_ok k /\ page_va k ∈ P /\ page_va k <= x < page_va k + 4096.

Lemma guarded_sub P P' h L : guarded P h L -> (forall p, p ∈ P' -> p ∈ P) -> guarded P' h L.
Proof. intros Hg Hs k Hk Hp. apply Hg; [done|auto]. Qed.

Lemma guarded_malloc P h L len n a h' :
  kinv h L -> 0 <= len <= 4096 -> free_ge (mem_map (kphys h)) (2 + n) -> kmalloc len h = Some (a, h') ->
  guarded P h L -> guarded P h' (<[a := block_size len]> L).
Proof.
  intros Hk Hl Hr E Hg k Hpk Hp. destruct (Hg k Hpk Hp) as [(c & Hc & Hne) Hb].
  destruct (kmalloc_spec h L len n Hk Hl Hr) as (a' & h2 & E' & _ & _ & _ & _ & _ & [Hkeep _] & _ & j & Hj & H1 & H2 & _ & Hj0 & _).
  assert (a' = a /\ h2 = h') as [-> ->] by (rewrite E in E'; by injection E').
  split; [exists c; split; [by apply Hkeep|done]|].
  intros b t [[<- _]|[_ Hbt]]%lookup_insert_Some; [|by eapply Hb]. intros Hin.
  pose proof (block_size_spec len (proj2 Hl)) as (Hs & _). pose proof (sizes_facts _ Hs).
  assert (j = k) as -> by (unfold page_va in *; lia).
  destruct Hj0 as [H0|(b & u & Hbu & Hbp)]; [congruence|by apply (Hb b u)].
Qed.

Lemma guarded_free P h L a s h' : kinv h L -> L !! a = Some s -> kfree a h = Some h' -> guarded P h L -> guarded P h' (delete a L).
Proof.
  intros Hk HL E Hg k Hpk Hp. destruct (Hg k Hpk Hp) as [(c & Hc & Hne) Hb].
  destruct (kinv_block h L a s Hk HL) as (Hs & _). pose proof (sizes_facts s Hs).
  destruct (free_s_spec h L a s 0 Hk HL ltac:(lia)) as (h2 & E' & _ & _ & _ & Hcnt). assert (h2 = h') as -> by (unfold kfree in E; congruence).
  split.
  - exists c. split; [|done]. destruct (Hcnt k) as [->|(Hin & _)]; [done|]. by destruct (Hb a s HL).
  - intros b t [_ Hbt]%lookup_delete_Some. by apply (Hb b t).
Qed.

(** What is not the heap's: other memory, and the guarded pages. *)
Lemma arena_page b : page_va 0 <= b < page_va PAGING_PAGES -> exists k, pfn_ok k /\ page_va k <= b < page_va k + 4096.
Proof.
  intros Hb. exists ((b - page_va 0) / 4096). unfold pfn_ok. rewrite PAGING_PAGES_eq in *. unfold page_va in *.
  split; Z.div_mod_to_equations; lia.
Qed.

Lemma not_arena P b : ~ (page_va 0 <= b < page_va PAGING_PAGES /\ ~ guard_byte P b) ->
  ~ (page_va 0 <= b < page_va PAGING_PAGES) \/ guard_byte P b.
Proof.
  intros Hn. destruct (decide (page_va 0 <= b < page_va PAGING_PAGES)) as [Ha|]; [right|by left].
  destruct (arena_page b Ha) as (k & Hk & Hb). destruct (decide (page_va k ∈ P)) as [Hp|Hp]; [by exists k|].
  destruct Hn. split; [done|]. intros (j & _ & Hjp & Hj). assert (j = k) as -> by (unfold page_va in *; lia). done.
Qed.

Lemma guard_no_block P h L b a s : kinv h L -> guarded P h L -> guard_byte P b -> L !! a = Some s -> ~ a <= b < a + s.
Proof.
  intros Hk Hg (k & Hp & Hin & Hb) HL Hab. destruct (kinv_block h L a s Hk HL) as (_ & _ & _ & j & Hj & H1 & H2 & _).
  assert (j = k) as -> by (unfold page_va in *; lia). destruct (Hg k Hp Hin) as [_ Hno].
  destruct (kinv_range h L a s Hk HL) as (_ & H3 & _). destruct (Hno a s HL); lia.
Qed.

Lemma guard_keeps P h h' L b : guarded P h L -> keeps h h' -> guard_byte P b -> ldb (ram (kphys h')) b = ldb (ram (kphys h)) b.
Proof.
  intros Hg [_ Hkeep] (k & Hk & Hp & Hb). apply Hkeep. intros j Hj H0. destruct (Hg k Hk Hp) as [(c & Hc & Hne) _].
  assert (j <> k) by congruence. unfold page_va in *. lia.
Qed.

(** The bytes a client may not store to are as before. *)
Lemma guarded_bytes P h L m : kinv h L -> guarded P h L ->
  (forall b, ~ (page_va 0 <= b < page_va PAGING_PAGES /\ ~ guard_byte P b) \/ (exists a s, L !! a = Some s /\ a <= b < a + s) \/
     ldb m b = ldb (ram (kphys h)) b) ->
  forall k b, pfn_ok k -> count_of (mem_map (kphys h)) k = Some 1 -> (exists a s, L !! a = Some s /\ page_va k <= a < page_va k + 4096) ->
    page_va k <= b < page_va k + 4096 -> (forall a s, L !! a = Some s -> b < a \/ a + s <= b) -> ldb m b = ldb (ram (kphys h)) b.
Proof.
  intros Hk Hg Hm k b Hp _ (a & s & HL & Ha) Hb Hout. destruct (Hm b) as [Hn|[(a' & s' & HL' & Hr)|E]]; [|destruct (Hout a' s' HL'); lia|done].
  exfalso. apply not_arena in Hn as [Hn|(j & Hj & Hjp & Hjb)].
  - apply Hn. unfold pfn_ok in Hp. rewrite PAGING_PAGES_eq in *. unfold page_va in *. lia.
  - assert (j = k) as -> by (unfold page_va in *; lia). destruct (Hg k Hp Hjp) as [_ Hno]. by apply (Hno a s).
Qed.

(** The heap with guarded pages keeps the same promises, and the pages: they are
    not its memory.  With [cl] its free blocks of 512 bytes stay clean too: such
    blocks are not given back. *)
Definition kheap_guarded (cl : bool) (P : list Z) : BlockHeap kheap.
Proof.
  refine {| owns h L := kinv h L /\ guarded P h L /\ (cl = true -> kclean h L); room h n := free_ge (mem_map (kphys h)) n;
            arena b := page_va 0 <= b < page_va PAGING_PAGES /\ ~ guard_byte P b; reusable s := cl = true -> s <> 512 |}.
  - done.
  - done.
  - intros h. apply free_ge_le.
  - intros h L len n (Hk & Hg & Hc) Hr Hl. destruct (kmalloc_spec h L len n Hk Hl Hr) as (a' & h2 & E' & _ & _ & _ & _ & _ & Hkeep & _).
    destruct (kmalloc_ok h L len n Hk Hr Hl) as (a & h' & E & H1 & H2 & H3 & H4 & H5 & H6 & H7 & H8 & H9).
    assert (h2 = h') as -> by congruence.
    exists a, (block_size len), h'. pose proof (guarded_malloc P h L len n a h' Hk Hl Hr E Hg).
    assert (Hc' : cl = true -> kclean h' (<[a := block_size len]> L)).
    { intros Ecl. by destruct (kmalloc_clean h L len n a h' Hk (Hc Ecl) Hl Hr E). }
    do 9 (split; [done|]).
    intros c [[Hx|Hx]%not_arena|Hx]; [apply H9; by left|by apply (guard_keeps P h h' L)|apply H9; by right].
  - intros h L a s (Hk & Hg & Hc) HL Hs. destruct (kfree_ok h L a s Hk HL) as (h' & E & H1 & H2).
    exists h'. pose proof (guarded_free P h L a s h' Hk HL E Hg).
    destruct (kinv_range h L a s Hk HL) as (_ & Hp & _).
    assert (cl = true -> kclean h' (delete a L)); [|done].
    intros Ecl. apply (free_clean h L a s 0 h' Hk (Hc Ecl) HL); [lia|by apply Hs|exact E].
  - intros h L m (Hk & Hg & Hc) Hm. pose proof (guarded_bytes P h L m Hk Hg Hm) as Hb. split; [|done]. split_and!; [|done|].
    + apply kinv_frame_live; [done|by eapply kinv_map_ok|done|exact Hb].
    + intros Ecl. apply (kclean_bytes h); [done|by apply Hc|exact Hb].
  - intros h L a s b t (Hk & _). by apply (kinv_disjoint h).
  - intros h L a s (Hk & Hg & _) HL. destruct (kinv_arena h L a s Hk HL) as (H1 & H2 & H3 & H4). split_and!; [done..|].
    intros b Hb. split; [by apply H4|]. intros Hgb. by apply (guard_no_block P h L b a s Hk Hg Hgb HL).
Defined.
