(* ===== verification/SoftTimer.v ===== *)
(** kernel/soft_timer.c: software timers on a linked list.

    A client of the kernel heap and of the list library: it is written against
    the [Allocator] interface, and its [struct timer] objects, whose list node
    is the first member, are a typed heap by address. *)

From S2P Require Import Prelude DList Page Kmalloc.
Local Open Scope Z_scope.

Definition ONESHOT : Z := 0.
Definition PERIODIC : Z := 1.
(** [sizeof(struct timer)]: a list node, four words. *)
Definition sizeof_timer : Z := 48.

Record timer := { count : Z; goal : Z; main : Z; mode : Z }.

Definition with_goal (g : Z) (t : timer) : timer :=
  {| count := count t; goal := g; main := main t; mode := mode t |}.

(** The module's state: the heap it allocates from, the timers and their list
    nodes, the tick counter, and the handlers called so far. *)
Record timers (A : Type) := {
  heap : A; tobjs : gmap Z timer; tnodes : lheap; jiffies : Z; called : list Z }.
#[global] Arguments heap {A}.
#[global] Arguments tobjs {A}.
#[global] Arguments tnodes {A}.
#[global] Arguments jiffies {A}.
#[global] Arguments called {A}.

Section SoftTimer.
Context {A : Type} `{Allocator A}.

(** The address of the static [timer_head]. *)
Variable timer_head : Z.

Implicit Types (s : timers A) (t : timer) (ts : list Z) (L : gmap Z Z).

(** The statement order of the C code: allocate, fill in, link. *)
Definition timer_add (cnt main mode : Z) (s : timers A) : option (timers A) :=
  let! '(new, h) := alloc sizeof_timer (heap s) in
  let t := {| count := cnt; goal := u64 (jiffies s + cnt); main := main; mode := mode |} in
  let! n := list_add (<[new := {| prev := NULL; next := NULL |}]> (tnodes s)) new timer_head in
  Some {| heap := h; tobjs := <[new := t]> (tobjs s); tnodes := n; jiffies := jiffies s; called := called s |}.

(** The object keeps its bytes (but for the heap's link over [list.prev]) until
    the block is handed out again. *)
Definition timer_delete (t : Z) (s : timers A) : option (timers A) :=
  let! n := list_del (tnodes s) t in
  let! h := release t (heap s) in
  Some {| heap := h; tobjs := tobjs s; tnodes := n; jiffies := jiffies s; called := called s |}.

(** Calling a handler is recorded; what the handler itself does is outside the
    module ([timer_handler0] only prints). *)
Definition call_main (t : timer) (s : timers A) : timers A :=
  if main t =? NULL then s
  else {| heap := heap s; tobjs := tobjs s; tnodes := tnodes s; jiffies := jiffies s; called := called s ++ [main t] |}.

Definition set_goal (p g : Z) (s : timers A) : option (timers A) :=
  let! t := tobjs s !! p in
  Some {| heap := heap s; tobjs := <[p := with_goal g t]> (tobjs s); tnodes := tnodes s;
          jiffies := jiffies s; called := called s |}.

(** The body of the loop for the timer at [p]. *)
Definition visit (p : Z) (s : timers A) : option (timers A) :=
  let! t := tobjs s !! p in
  if goal t <? jiffies s then Some s
  else
    let s := call_main t s in
    if mode t =? PERIODIC then set_goal p (u64 (jiffies s + count t)) s
    else timer_delete p s.

(** [list_for_each(pos, &timer_head)], following the links as the body leaves them. *)
Fixpoint walk_from (fuel : nat) (pos : Z) (s : timers A) : option (timers A) :=
  match fuel with
  | O => None
  | S f =>
      if pos =? timer_head then Some s
      else
        let! s := visit pos s in
        let! n := get_next (tnodes s) pos in
        walk_from f n s
  end.

Definition walk_timer_list (fuel : nat) (s : timers A) : option (timers A) :=
  let! n := get_next (tnodes s) timer_head in walk_from fuel n s.

(** [init_timer]: one periodic timer calling [timer_handler0]. *)
Definition init_timer (timer_handler0 : Z) (s : timers A) : option (timers A) :=
  timer_add 100 timer_handler0 PERIODIC s.

(** ** Invariant *)

(** [ts] are the timers, most recent first; each is a live block of the heap. *)
Record timers_ok (s : timers A) (L : gmap Z Z) (ts : list Z) : Prop := {
  tm_list : dlist (tnodes s) timer_head ts;
  tm_objs : Forall (fun p => is_Some (tobjs s !! p)) ts;
  tm_live : Forall (fun p => exists n, L !! p = Some n) ts;
  tm_heap : holds (heap s) L;
  tm_null : tobjs s !! NULL = None }.

(** Whether a walk at time [j] calls a timer's handler. *)
Definition fires (j : Z) (t : timer) : bool := negb (goal t <? j).
(** The handler calls of a walk over [l], and the timer a walk leaves behind. *)
Definition handlers (j : Z) (l : list timer) : list Z :=
  filter (fun m => m <> NULL) (map main (filter (fun t => fires j t = true) l)).
Definition rearm (j : Z) (t : timer) : timer :=
  if fires j t then with_goal (u64 (j + count t)) t else t.


Lemma objs_lookup s ts p : Forall (fun p => is_Some (tobjs s !! p)) ts -> p ∈ ts -> exists t, tobjs s !! p = Some t.
Proof. rewrite Forall_forall. intros H1 H2. by apply H1. Qed.

(** The list head is static data, outside the heap. *)
Lemma timer_add_spec s L ts cnt mn md :
  ~ arena timer_head -> timers_ok s L ts -> ready (heap s) ->
  exists a n s', timer_add cnt mn md s = Some s' /\ L !! a = None /\ a ∉ ts /\
    timers_ok s' (<[a := n]> L) (a :: ts) /\
    tobjs s' = <[a := {| count := cnt; goal := u64 (jiffies s + cnt); main := mn; mode := md |}]> (tobjs s) /\
    jiffies s' = jiffies s /\ called s' = called s.
Proof.
  intros head_static [Hl Ho Hv Hh Hnull] Hr. unfold timer_add.
  destruct (alloc_ok (heap s) L sizeof_timer Hh Hr ltac:(done)) as (a & n & h & -> & Hn & HL & Hs & Har & _ & Hh').
  rewrite bind_Some. change sizeof_timer with 48 in Hs.
  assert (Hnin : a ∉ ts).
  { intros Hin. rewrite Forall_forall in Hv. destruct (Hv a Hin) as (m & Hm). congruence. }
  assert (Hne : a <> timer_head) by (intros ->; apply head_static, Har; lia).
  destruct (dlist_add (<[a := {| prev := NULL; next := NULL |}]> (tnodes s)) timer_head ts a) as (g & -> & Hg & _).
  - apply (dlist_frame (tnodes s)); [done|]. intros b Hb. rewrite lookup_insert_ne; [done|set_solver].
  - rewrite lookup_insert_eq. eauto.
  - set_solver.
  - rewrite bind_Some. exists a, n. eexists. split_and!; [done|done|done| |done|done|done].
    split; cbn; [done| | |done|by rewrite lookup_insert_ne].
    + apply Forall_cons. rewrite lookup_insert_eq. split; [eauto|].
      apply (Forall_impl _ _ _ Ho). intros p [t Ht]. apply lookup_insert_is_Some. destruct (decide (a = p)); eauto.
    + apply Forall_cons. rewrite lookup_insert_eq. split; [eauto|]. apply (Forall_impl _ _ _ Hv).
      intros p [m Hp]. apply lookup_insert_is_Some. destruct (decide (a = p)); eauto.
Qed.

Lemma timer_delete_spec s L xs p ys :
  timers_ok s L (xs ++ p :: ys) ->
  exists s', timer_delete p s = Some s' /\ timers_ok s' (delete p L) (xs ++ ys) /\
    get_next (tnodes s') p = Some NULL /\ release p (heap s) = Some (heap s') /\
    tobjs s' = tobjs s /\ jiffies s' = jiffies s /\ called s' = called s.
Proof.
  intros [Hl Ho Hv Hh Hnull]. unfold timer_delete.
  apply Forall_mid in Ho as [_ Ho]. apply Forall_mid in Hv as [[n Hn] Hv].
  assert (Hnd : p ∉ xs ++ ys).
  { destruct Hl as [Hnd _]. apply NoDup_cons in Hnd as [_ Hnd].
    rewrite <- Permutation_middle in Hnd. by apply NoDup_cons in Hnd as [Hnd _]. }
  destruct (dlist_del (tnodes s) timer_head xs p ys Hl) as (g & -> & Hg & _ & Hx & _).
  destruct (release_ok (heap s) L p n Hh Hn) as (h & Er & Hh'). rewrite Er, !bind_Some.
  eexists. split_and!; [done| |unfold get_next; cbn; by rewrite Hx|done|done|done|done].
  split; cbn; [done|done| |done|done]. rewrite Forall_forall in Hv |- *.
  intros q Hq. destruct (Hv q Hq) as [m Hm]. exists m. rewrite lookup_delete_ne by (intros ->; done). done.
Qed.

(** One visit of a periodic timer. *)
Lemma visit_periodic s p t :
  tobjs s !! p = Some t -> mode t = PERIODIC ->
  visit p s = Some {| heap := heap s; tobjs := <[p := rearm (jiffies s) t]> (tobjs s); tnodes := tnodes s;
                      jiffies := jiffies s; called := called s ++ handlers (jiffies s) [t] |}.
Proof.
  intros Ht Hm. unfold visit, handlers, rearm, fires. rewrite Ht, bind_Some.
  destruct (goal t <? jiffies s) eqn:E; cbn [negb].
  - rewrite filter_cons_False by (unfold fires; by rewrite E). cbn. rewrite app_nil_r, insert_id by done. by destruct s.
  - rewrite filter_cons_True by (unfold fires; by rewrite E). rewrite filter_nil. cbn [map].
    rewrite Hm, Z.eqb_refl. unfold call_main, set_goal. destruct (Z.eqb_spec (main t) NULL) as [E0|E0].
    + rewrite Ht, bind_Some, filter_cons_False by tauto. rewrite filter_nil, app_nil_r. done.
    + cbn [tobjs]. rewrite Ht, bind_Some, filter_cons_True, filter_nil by done. done.
Qed.

(** The timers in list order. *)
Definition objs (s : timers A) (ts : list Z) : list timer := omap (fun p => tobjs s !! p) ts.

Lemma objs_frame s s' ts :
  (forall p, p ∈ ts -> tobjs s' !! p = tobjs s !! p) -> objs s' ts = objs s ts.
Proof.
  unfold objs. induction ts as [|p ts IH]; intros Hf; cbn; [done|].
  rewrite (Hf p) by set_solver. rewrite IH by set_solver. done.
Qed.

Lemma objs_cons s p t ts : tobjs s !! p = Some t -> objs s (p :: ts) = t :: objs s ts.
Proof. intros Ht. unfold objs. cbn. by rewrite Ht. Qed.

Lemma handlers_cons j t l : handlers j (t :: l) = handlers j [t] ++ handlers j l.
Proof. unfold handlers. change (t :: l) with ([t] ++ l). by rewrite filter_app, map_app, filter_app. Qed.

(** A walk over periodic timers [xs], up to the node [b] after them. *)
Lemma walk_from_front s a xs b :
  chain (tnodes s) a xs b -> timer_head ∉ xs -> NoDup xs ->
  Forall (fun p => exists t, tobjs s !! p = Some t /\ mode t = PERIODIC) xs ->
  exists s', (forall fuel, walk_from (length xs + fuel) (hd b xs) s = walk_from fuel b s') /\
    heap s' = heap s /\ tnodes s' = tnodes s /\ jiffies s' = jiffies s /\
    called s' = called s ++ handlers (jiffies s) (objs s xs) /\
    (forall p, tobjs s' !! p = if decide (p ∈ xs) then rearm (jiffies s) <$> tobjs s !! p else tobjs s !! p).
Proof.
  revert s a. induction xs as [|x xs IH]; intros s a Hc Hh Hnd Ho.
  - exists s. split_and!; [done..|cbn; by rewrite app_nil_r|]. intros p. rewrite decide_False; [done|set_solver].
  - apply Forall_cons in Ho as [(t & Ht & Hm) Ho]. apply not_elem_of_cons in Hh as [Hh1 Hh2].
    apply NoDup_cons in Hnd as [Hnx Hnd]. destruct Hc as [_ Hc].
    assert (Hn : get_next (tnodes s) x = Some (hd b xs)) by (destruct xs; cbn in *; apply Hc).
    set (s1' := {| heap := heap s; tobjs := <[x := rearm (jiffies s) t]> (tobjs s); tnodes := tnodes s;
                   jiffies := jiffies s; called := called s ++ handlers (jiffies s) [t] |}).
    assert (Hstep : forall fuel, walk_from (length (x :: xs) + fuel) (hd b (x :: xs)) s = walk_from (length xs + fuel) (hd b xs) s1').
    { intros fuel. cbn [length Nat.add walk_from hd]. destruct (Z.eqb_spec x timer_head) as [|_]; [done|].
      rewrite (visit_periodic s x t Ht Hm), bind_Some. cbn [tnodes]. by rewrite Hn, bind_Some. }
    assert (Hfr : forall p, p ∈ xs -> tobjs s1' !! p = tobjs s !! p).
    { intros p Hp. cbn. by rewrite lookup_insert_ne by (intros ->; done). }
    destruct (IH s1' x Hc Hh2 Hnd) as (s' & E & E1 & E2 & E3 & E4 & E5).
    { rewrite Forall_forall in Ho |- *. intros p Hp. rewrite Hfr by done. by apply Ho. }
    exists s'. split_and!; [intros fuel; rewrite Hstep; apply E|done..| |].
    + rewrite E4, (objs_cons s x t) by done. rewrite (handlers_cons _ t (objs s xs)), app_assoc. f_equal.
      by rewrite (objs_frame s).
    + intros p. rewrite E5. case_decide as D.
      * rewrite decide_True by set_solver. by rewrite Hfr.
      * cbn [tobjs s1']. case_decide as D2.
        -- assert (p = x) as -> by set_solver. by rewrite lookup_insert_eq, Ht.
        -- by rewrite lookup_insert_ne by set_solver.
Qed.

Lemma walk_from_more fuel pos s r : walk_from fuel pos s = Some r -> walk_from (S fuel) pos s = Some r.
Proof.
  revert pos s. induction fuel as [|f IH]; intros pos s; [done|]. cbn [walk_from].
  destruct (pos =? timer_head); [done|]. destruct (visit pos s) as [s1|]; [|done]. rewrite !bind_Some.
  destruct (get_next (tnodes s1) pos); [|done]. rewrite !bind_Some. apply IH.
Qed.

Lemma walk_from_le f f' pos s r : (f <= f')%nat -> walk_from f pos s = Some r -> walk_from f' pos s = Some r.
Proof. induction 1; [done|]. intros Hr. apply walk_from_more. auto. Qed.

(** The list up to [p], then [p]. *)
Lemma walk_to s xs p ys :
  dlist (tnodes s) timer_head (xs ++ p :: ys) ->
  Forall (fun q => exists t, tobjs s !! q = Some t /\ mode t = PERIODIC) xs ->
  exists s', (forall fuel, walk_timer_list (length xs + fuel) s = walk_from fuel p s') /\
    heap s' = heap s /\ tnodes s' = tnodes s /\ jiffies s' = jiffies s /\
    called s' = called s ++ handlers (jiffies s) (objs s xs) /\
    (forall q, tobjs s' !! q = if decide (q ∈ xs) then rearm (jiffies s) <$> tobjs s !! q else tobjs s !! q).
Proof.
  intros Hl Ho. pose proof (dlist_next_head _ _ _ Hl) as Hn. unfold walk_timer_list.
  destruct Hl as [Hnd Hc]. apply chain_app in Hc as [Hc _].
  apply NoDup_cons in Hnd as [Hh Hnd]. apply NoDup_app in Hnd as (Hx & _ & _).
  destruct (walk_from_front s timer_head xs p Hc ltac:(set_solver) Hx Ho) as (s' & E & R).
  exists s'. split; [|done]. intros fuel. rewrite Hn, bind_Some, <- E. by destruct xs.
Qed.

Lemma timers_rearmed s s' L ts (xs : list Z) :
  timers_ok s L ts -> heap s' = heap s -> tnodes s' = tnodes s ->
  (forall q, tobjs s' !! q = if decide (q ∈ xs) then rearm (jiffies s) <$> tobjs s !! q else tobjs s !! q) ->
  timers_ok s' L ts.
Proof.
  intros [Hl Ho Hv Hh Hnull] E1 E2 E5. split; rewrite ?E1, ?E2; try done.
  - apply (Forall_impl _ _ _ Ho). intros q [t Ht]. rewrite E5, Ht. case_decide; cbn; eauto.
  - rewrite E5, Hnull. by case_decide.
Qed.
End SoftTimer.

(** ** Claims *)

(** [timer_add] takes a fresh block, puts the timer in front of the list with
    its goal [cnt] ticks ahead (modulo 2^64), and keeps the other timers. *)
Theorem timer_add_correct {A : Type} `{Allocator A} (timer_head : Z) (s : timers A) (L : gmap Z Z)
    (ts : list Z) (cnt mn md : Z) :
  (~ arena timer_head) -> timers_ok timer_head s L ts -> ready (heap s) ->
  exists a n s', timer_add timer_head cnt mn md s = Some s' /\ L !! a = None /\ a ∉ ts /\
    timers_ok timer_head s' (<[a := n]> L) (a :: ts) /\
    tobjs s' !! a = Some {| count := cnt; goal := u64 (jiffies s + cnt); main := mn; mode := md |} /\
    (forall p, p <> a -> tobjs s' !! p = tobjs s !! p) /\
    jiffies s' = jiffies s /\ called s' = called s.
Proof.
  intros Ha Hok Hr. destruct (timer_add_spec timer_head s L ts cnt mn md Ha Hok Hr)
    as (a & n & s' & E & HL & Hn & Hok' & Eo & Ej & Ec).
  exists a, n, s'. rewrite Eo. split_and!; [done..|apply lookup_insert_eq| |done|done].
  intros p Hp. by rewrite lookup_insert_ne.
Qed.

(** [timer_delete] unlinks the timer and gives its block back; the others keep
    their order and contents. *)
Theorem timer_delete_correct {A : Type} `{Allocator A} (timer_head : Z) (s : timers A) (L : gmap Z Z)
    (xs : list Z) (p : Z) (ys : list Z) :
  timers_ok timer_head s L (xs ++ p :: ys) ->
  exists s', timer_delete p s = Some s' /\ timers_ok timer_head s' (delete p L) (xs ++ ys) /\
    tobjs s' = tobjs s /\ jiffies s' = jiffies s /\ called s' = called s.
Proof.
  intros Hok. destruct (timer_delete_spec timer_head s L xs p ys Hok) as (s' & E & Hok' & _ & _ & R). eauto.
Qed.

(** C39: With periodic timers only, a walk calls, in list order, the handlers of
    exactly the timers whose goal has not passed yet, moves their goals [count]
    ticks ahead, and leaves the timers past their goal alone for ever. *)
Theorem walk_timer_list_periodic {A : Type} `{Allocator A} (timer_head : Z) (s : timers A) (L : gmap Z Z) (ts : list Z) :
  timers_ok timer_head s L ts ->
  Forall (fun p => exists t, tobjs s !! p = Some t /\ mode t = PERIODIC) ts ->
  exists s', walk_timer_list timer_head (S (length ts)) s = Some s' /\ timers_ok timer_head s' L ts /\
    called s' = called s ++ handlers (jiffies s) (objs s ts) /\
    forall p t, p ∈ ts -> tobjs s !! p = Some t ->
      tobjs s' !! p = Some (if goal t <? jiffies s then t else with_goal (u64 (jiffies s + count t)) t).
Proof.
  intros Hok Ho. pose proof (tm_list _ _ _ _ Hok) as Hl. pose proof (dlist_next_head _ _ _ Hl) as Hn.
  unfold walk_timer_list. rewrite Hn, bind_Some. destruct Hl as [Hnd Hc]. apply NoDup_cons in Hnd as [Hh Hnd].
  destruct (walk_from_front timer_head s timer_head ts timer_head Hc Hh Hnd Ho) as (s' & E & E1 & E2 & E3 & E4 & E5).
  exists s'. specialize (E 1%nat). rewrite Nat.add_comm in E. cbn [Nat.add] in E. rewrite E. cbn [walk_from]. rewrite Z.eqb_refl. split_and!; [done|by apply (timers_rearmed timer_head s s' L ts ts)|done|].
  intros p t Hp Ht. rewrite E5, decide_True, Ht by done. cbn. unfold rearm, fires. by destruct (goal t <? jiffies s).
Qed.

(** C40: A one-shot timer that fires, after periodic ones: the walk reaches it, its
    handler is called, it is unlinked and its block given back, the walk goes on
    from its node, whose link is NULL by then, and the read of the timer there
    faults; so the walk never returns, whatever the fuel. *)
Theorem walk_timer_list_oneshot {A : Type} `{Allocator A} (timer_head : Z) (s : timers A) (L : gmap Z Z)
    (xs : list Z) (p : Z) (ys : list Z) (t : timer) :
  timer_head <> NULL -> timers_ok timer_head s L (xs ++ p :: ys) ->
  Forall (fun q => exists u, tobjs s !! q = Some u /\ mode u = PERIODIC) xs ->
  tobjs s !! p = Some t -> mode t = ONESHOT -> jiffies s <= goal t ->
  exists s1 s2, (forall fuel, walk_timer_list timer_head (length xs + fuel) s = walk_from timer_head fuel p s1) /\
    called s1 = called s ++ handlers (jiffies s) (objs s xs) /\
    visit p s1 = Some s2 /\ called s2 = called s1 ++ (if main t =? NULL then [] else [main t]) /\
    timers_ok timer_head s2 (delete p L) (xs ++ ys) /\ release p (heap s) = Some (heap s2) /\
    get_next (tnodes s2) p = Some NULL /\
    (forall fuel, walk_from timer_head (S fuel) p s1 = walk_from timer_head fuel NULL s2) /\
    tobjs s2 !! NULL = None /\ (forall fuel, walk_from timer_head fuel NULL s2 = None) /\
    forall fuel, walk_timer_list timer_head fuel s = None.
Proof.
  intros Hz Hok Ho Ht Hm Hg. pose proof (tm_list _ _ _ _ Hok) as Hl.
  assert (Hp : p ∉ xs /\ p <> timer_head).
  { destruct Hl as [Hnd _]. apply NoDup_cons in Hnd as [Hh Hnd]. apply NoDup_app in Hnd as (_ & Hd & _).
    split; [intros Hx; apply (Hd p Hx); set_solver|set_solver]. }
  destruct Hp as [Hpx Hph]. destruct (walk_to timer_head s xs p ys Hl Ho) as (s1 & E & E1 & E2 & E3 & E4 & E5).
  assert (Ht1 : tobjs s1 !! p = Some t) by (rewrite E5; by case_decide).
  pose proof (timers_rearmed timer_head s s1 L _ xs Hok E1 E2 E5) as Hok1.
  destruct (timer_delete_spec timer_head (call_main t s1) L xs p ys) as (s2 & Ed & Hok2 & Hn2 & Er & _ & _ & Ec).
  { unfold call_main. by destruct (main t =? NULL), Hok1. }
  assert (Ev : visit p s1 = Some s2).
  { unfold visit. rewrite Ht1, bind_Some, E3. destruct (Z.ltb_spec (goal t) (jiffies s)) as [|_]; [lia|]. by rewrite Hm. }
  assert (Estep : forall fuel, walk_from timer_head (S fuel) p s1 = walk_from timer_head fuel NULL s2).
  { intros fuel. cbn [walk_from]. destruct (Z.eqb_spec p timer_head); [done|]. by rewrite Ev, bind_Some, Hn2, bind_Some. }
  assert (Enull : forall fuel, walk_from timer_head fuel NULL s2 = None).
  { intros [|fuel]; [done|]. cbn [walk_from]. destruct (Z.eqb_spec NULL timer_head); [congruence|].
    unfold visit. by rewrite (tm_null _ _ _ _ Hok2). }
  exists s1, s2. split_and!; try done.
  - rewrite Ec. unfold call_main. destruct (main t =? NULL); [by rewrite app_nil_r|done].
  - rewrite <- E1, <- Er. unfold call_main. by destruct (main t =? NULL).
  - exact (tm_null _ _ _ _ Hok2).
  - intros fuel. destruct (walk_timer_list timer_head fuel s) as [r|] eqn:Ew; [exfalso|done].
    pose proof (E (S fuel)) as E'. rewrite Estep, Enull in E'. unfold walk_timer_list in *.
    destruct (get_next (tnodes s) timer_head) as [n|]; [|done]. rewrite bind_Some in E', Ew.
    rewrite (walk_from_le timer_head fuel (length xs + S fuel) n s r) in E' by (done || lia). done.
Qed.

(** ** Witnesses *)

(** The freshly booted heap with an empty timer list at [timer_head]. *)
Definition head0 : Z := 0xffff000000100000.
Definition timers0 : timers kheap :=
  {| heap := kheap_boot; tobjs := ∅; tnodes := {[ head0 := {| prev := head0; next := head0 |} ]};
     jiffies := 7; called := [] |}.

Lemma timers0_ok : timers_ok head0 timers0 ∅ [].
Proof.
  split; [|constructor|constructor|exact kheap_boot_inv|done].
  split; [apply NoDup_singleton|]. split; reflexivity.
Qed.

Lemma head0_static : (arena head0) -> False.
Proof. cbn. unfold page_va, head0. lia. Qed.

(** One timer added to it: periodic or one-shot. *)
Lemma timers_one md : exists s L a, timers_ok head0 s L [a] /\
  tobjs s !! a = Some {| count := 100; goal := 107; main := 42; mode := md |} /\ jiffies s = 7.
Proof.
  destruct (timer_add_spec head0 timers0 ∅ [] 100 42 md head0_static timers0_ok kheap_boot_free)
    as (a & n & s' & _ & _ & _ & Hok & Ho & Hj & _).
  exists s', (<[a := n]> ∅), a. rewrite Ho, lookup_insert_eq. done.
Qed.

Example timer_add_correct_witness :
  exists a s', timer_add head0 100 42 PERIODIC timers0 = Some s' /\
    tobjs s' !! a = Some {| count := 100; goal := 107; main := 42; mode := PERIODIC |}.
Proof.
  destruct (timer_add_correct head0 timers0 ∅ [] 100 42 PERIODIC head0_static timers0_ok kheap_boot_free)
    as (a & n & s' & E & _ & _ & _ & H & _).
  exists a, s'. split; [exact E|exact H].
Defined.

Example timer_delete_correct_witness :
  exists s L a s', timers_ok head0 s L [a] /\ timer_delete a s = Some s' /\ timers_ok head0 s' (delete a L) [].
Proof.
  destruct (timers_one ONESHOT) as (s & L & a & Hok & _).
  destruct (timer_delete_correct head0 s L [] a [] Hok) as (s' & E & Hok' & _).
  exists s, L, a, s'. split; [exact Hok|]. split; [exact E|exact Hok'].
Defined.

Example walk_timer_list_periodic_witness :
  exists s a s', walk_timer_list head0 2 s = Some s' /\ called s' = called s ++ [42] /\
    tobjs s' !! a = Some {| count := 100; goal := 107; main := 42; mode := PERIODIC |}.
Proof.
  destruct (timers_one PERIODIC) as (s & L & a & Hok & Ht & Hj).
  destruct (walk_timer_list_periodic head0 s L [a] Hok) as (s' & E & _ & Hc & Hg).
  - constructor; [|constructor]. eexists. split; [exact Ht|reflexivity].
  - exists s, a, s'. split; [exact E|]. rewrite Hc. unfold objs. cbn. rewrite Ht, Hj. split; [reflexivity|].
    rewrite (Hg a _ ltac:(left) Ht), Hj. reflexivity.
Defined.

Example walk_timer_list_oneshot_witness :
  exists s s1 s2 L a, timers_ok head0 s L [a] /\ visit a s1 = Some s2 /\ called s2 = called s ++ [42] /\
    timers_ok head0 s2 (delete a L) [] /\ forall fuel, walk_timer_list head0 fuel s = None.
Proof.
  destruct (timers_one ONESHOT) as (s & L & a & Hok & Ht & Hj).
  destruct (walk_timer_list_oneshot head0 s L [] a [] _ ltac:(discriminate) Hok ltac:(constructor) Ht ltac:(reflexivity))
    as (s1 & s2 & _ & Ec & Ev & Ec2 & Hok2 & _ & _ & _ & _ & _ & E); [rewrite Hj; discriminate|].
  exists s, s1, s2, L, a. split; [exact Hok|]. split; [exact Ev|]. split; [|split; [exact Hok2|exact E]].
  rewrite Ec2, Ec. change (handlers (jiffies s) (objs s [])) with (@nil Z). rewrite app_nil_r. reflexivity.
Defined.
