(* ===== verification/Task.v ===== *)
(** kernel/task.c and include/task.h: tasks, the round-robin scheduler and the
    context switch (with [cpu_switch_to] and [ret_from_fork] of arch/vector.S).

    A [struct task_struct] sits at the start of the page that also holds the
    task's kernel stack; its list node is at [task_list p].  [callee] is the
    register file the switch saves and restores; [current] is computed from the
    stack pointer as the code does.  [struct mm_struct] objects are bytes of
    heap blocks, read and written through [load_mm]/[store_mm]. *)

From S2P Require Import Prelude Mem Lib DList Page PageTable Aarch64 Kmalloc.
Local Open Scope Z_scope.

Definition STACK_SZ : Z := Z.shiftl 4 10.
Definition USER_STACK_SZ : Z := STACK_SZ.
Definition PSR_MODE_EL0t : Z := 0.
Definition TASK_DEAD : Z := 0.
Definition TASK_RUNNING : Z := 1.
Definition TASK_STOP : Z := 2.
Definition TASK_ZOMBIE : Z := 3.
Definition NR_OPEN : Z := 32.
Definition CANARY_MAGIC_NUM : Z := 0xdeadbeef.

(** ** Data *)

Record cpu_context := {
  x19 : Z; x20 : Z; x21 : Z; x22 : Z; x23 : Z; x24 : Z; x25 : Z; x26 : Z; x27 : Z; x28 : Z;
  x29 : Z; sp : Z; pc : Z }.
Record pt_regs := { pt_x : list Z; pt_sp : Z; pt_pc : Z; pt_spsr : Z }.
Definition sizeof_pt_regs : Z := 272.

(** The list node is a separate object at [task_list p]. *)
Record task_struct := {
  context : cpu_context; state : Z; preempt_count : Z; t_mm : Z; filp : list Z; canary : Z }.
(** [offsetof(struct task_struct, list)]: thirteen registers, [state] and its
    padding, [preempt_count], [mm]. *)
Definition list_offset : Z := 128.
Definition task_list (p : Z) : Z := p + list_offset.
Definition list_entry (pos : Z) : Z := pos - list_offset.

(** Who called [switch_to]: the return address on the kernel stack. *)
Inductive caller := InTick | InSchedule.
(** Where the task that holds the CPU goes on when the scheduler is left; in user
    mode with the registers x0 to x30, the program counter and SP_EL0. *)
Inductive location := Back (c : caller) | Kthread (main : Z) | User (x : list Z) (pc sp : Z).

Record ksys := {
  kh : kheap; callee : cpu_context; tasks : gmap Z task_struct; nodes : lheap;
  frames : gmap Z pt_regs; callers : gmap Z caller; next_task : Z; init_task : Z; loc : location }.

Definition set_kh (h : kheap) (s : ksys) : ksys :=
  {| kh := h; callee := callee s; tasks := tasks s; nodes := nodes s; frames := frames s;
     callers := callers s; next_task := next_task s; init_task := init_task s; loc := loc s |}.
Definition set_callee (r : cpu_context) (s : ksys) : ksys :=
  {| kh := kh s; callee := r; tasks := tasks s; nodes := nodes s; frames := frames s;
     callers := callers s; next_task := next_task s; init_task := init_task s; loc := loc s |}.
Definition set_tasks (m : gmap Z task_struct) (s : ksys) : ksys :=
  {| kh := kh s; callee := callee s; tasks := m; nodes := nodes s; frames := frames s;
     callers := callers s; next_task := next_task s; init_task := init_task s; loc := loc s |}.
Definition set_nodes (n : lheap) (s : ksys) : ksys :=
  {| kh := kh s; callee := callee s; tasks := tasks s; nodes := n; frames := frames s;
     callers := callers s; next_task := next_task s; init_task := init_task s; loc := loc s |}.
Definition set_frames (f : gmap Z pt_regs) (s : ksys) : ksys :=
  {| kh := kh s; callee := callee s; tasks := tasks s; nodes := nodes s; frames := f;
     callers := callers s; next_task := next_task s; init_task := init_task s; loc := loc s |}.
Definition set_callers (m : gmap Z caller) (s : ksys) : ksys :=
  {| kh := kh s; callee := callee s; tasks := tasks s; nodes := nodes s; frames := frames s;
     callers := m; next_task := next_task s; init_task := init_task s; loc := loc s |}.
Definition set_next_task (p : Z) (s : ksys) : ksys :=
  {| kh := kh s; callee := callee s; tasks := tasks s; nodes := nodes s; frames := frames s;
     callers := callers s; next_task := p; init_task := init_task s; loc := loc s |}.
Definition set_loc (l : location) (s : ksys) : ksys :=
  {| kh := kh s; callee := callee s; tasks := tasks s; nodes := nodes s; frames := frames s;
     callers := callers s; next_task := next_task s; init_task := init_task s; loc := l |}.
Definition on_cpu (f : cpu -> cpu) (s : ksys) : ksys := set_kh (set_cpu (f (kcpu (kh s))) (kh s)) s.

Definition with_context (c : cpu_context) (t : task_struct) : task_struct :=
  {| context := c; state := state t; preempt_count := preempt_count t; t_mm := t_mm t; filp := filp t; canary := canary t |}.
Definition with_state (x : Z) (t : task_struct) : task_struct :=
  {| context := context t; state := x; preempt_count := preempt_count t; t_mm := t_mm t; filp := filp t; canary := canary t |}.
Definition with_preempt (x : Z) (t : task_struct) : task_struct :=
  {| context := context t; state := state t; preempt_count := x; t_mm := t_mm t; filp := filp t; canary := canary t |}.
Definition with_mm (p : Z) (t : task_struct) : task_struct :=
  {| context := context t; state := state t; preempt_count := preempt_count t; t_mm := p; filp := filp t; canary := canary t |}.
Definition with_filp (l : list Z) (t : task_struct) : task_struct :=
  {| context := context t; state := state t; preempt_count := preempt_count t; t_mm := t_mm t; filp := l; canary := canary t |}.
Definition with_canary (x : Z) (t : task_struct) : task_struct :=
  {| context := context t; state := state t; preempt_count := preempt_count t; t_mm := t_mm t; filp := filp t; canary := x |}.
Definition with_x19 (v : Z) (c : cpu_context) : cpu_context :=
  {| x19 := v; x20 := x20 c; x21 := x21 c; x22 := x22 c; x23 := x23 c; x24 := x24 c; x25 := x25 c;
     x26 := x26 c; x27 := x27 c; x28 := x28 c; x29 := x29 c; sp := sp c; pc := pc c |}.
Definition with_x20 (v : Z) (c : cpu_context) : cpu_context :=
  {| x19 := x19 c; x20 := v; x21 := x21 c; x22 := x22 c; x23 := x23 c; x24 := x24 c; x25 := x25 c;
     x26 := x26 c; x27 := x27 c; x28 := x28 c; x29 := x29 c; sp := sp c; pc := pc c |}.
Definition with_sp (v : Z) (c : cpu_context) : cpu_context :=
  {| x19 := x19 c; x20 := x20 c; x21 := x21 c; x22 := x22 c; x23 := x23 c; x24 := x24 c; x25 := x25 c;
     x26 := x26 c; x27 := x27 c; x28 := x28 c; x29 := x29 c; sp := v; pc := pc c |}.
Definition with_pc (v : Z) (c : cpu_context) : cpu_context :=
  {| x19 := x19 c; x20 := x20 c; x21 := x21 c; x22 := x22 c; x23 := x23 c; x24 := x24 c; x25 := x25 c;
     x26 := x26 c; x27 := x27 c; x28 := x28 c; x29 := x29 c; sp := sp c; pc := v |}.

(** [*p = f( *p )] for a task. *)
Definition upd_task (p : Z) (f : task_struct -> task_struct) (s : ksys) : option ksys :=
  let! t := tasks s !! p in Some (set_tasks (<[p := f t]> (tasks s)) s).

(** [get_current()]. *)
Definition current (s : ksys) : Z := Z.land (sp (callee s)) (Z.lnot (STACK_SZ - 1)).

(** *** [struct mm_struct] in memory *)

Definition sizeof_mm_struct : Z := 8 + 16 * MAX_USER_PAGES + 8 * MAX_PGTBL_PAGES.

Definition load_mm (m : mem) (a : Z) : mm_struct :=
  {| pgd := ld64 m a;
     vma := map (fun i => {| va := ld64 m (a + 8 + 16 * Z.of_nat i); pa := ld64 m (a + 16 + 16 * Z.of_nat i) |})
              (seq 0 (Z.to_nat MAX_USER_PAGES));
     pgtbl_page := map (fun i => ld64 m (a + 264 + 8 * Z.of_nat i)) (seq 0 (Z.to_nat MAX_PGTBL_PAGES)) |}.

Fixpoint store_words (a : Z) (l : list Z) (m : mem) : mem :=
  match l with
  | [] => m
  | x :: l' => store_words (a + 8) l' (st64 m a x)
  end.
Definition mm_words (mm : mm_struct) : list Z :=
  pgd mm :: concat (map (fun v => [va v; pa v]) (vma mm)) ++ pgtbl_page mm.
Definition store_mm (a : Z) (mm : mm_struct) (m : mem) : mem := store_words a (mm_words mm) m.

(** The structure a [struct mm_struct*] points to. *)
Definition mm_at (s : ksys) (p : Z) : option mm_struct :=
  if p =? NULL then None else Some (load_mm (ram (kphys (kh s))) p).

(** ** Preemption, switching, scheduling *)

Section Sched.
(** The addresses of [ret_from_fork] and of the instruction of [switch_to] after
    its call of [cpu_switch_to]. *)
Variables ret_from_fork switch_ret : Z.

Definition preempt_disable (s : ksys) : option ksys :=
  upd_task (current s) (fun t => with_preempt (u64 (preempt_count t + 1)) t) s.
Definition preempt_enable (s : ksys) : option ksys :=
  upd_task (current s) (fun t => with_preempt (u64 (preempt_count t - 1)) t) s.

(** [cpu_switch_to(prev, next)]: store the callee-saved registers, the stack
    pointer and the return address, load those of [next]. *)
Definition cpu_switch_to (prev next : Z) (s : ksys) : option ksys :=
  let! s := upd_task prev (with_context (with_pc switch_ret (callee s))) s in
  let! t := tasks s !! next in
  Some (set_callee (context t) s).

(** The registers the switch saves as a popped frame leaves them, with the stack
    pointer [a]: x19 to x29, and x30 in the place of [pc]. *)
Definition frame_context (r : pt_regs) (a : Z) : cpu_context :=
  let x i := nth i (pt_x r) 0 in
  {| x19 := x 19%nat; x20 := x 20%nat; x21 := x 21%nat; x22 := x 22%nat; x23 := x 23%nat; x24 := x 24%nat; x25 := x 25%nat;
     x26 := x 26%nat; x27 := x 27%nat; x28 := x 28%nat; x29 := x 29%nat; sp := a; pc := x 30%nat |}.

(** [kernel_exit 0]: load SP_EL0, ELR, SPSR and x0 to x30 from the frame, pop it
    and [eret]; SPSR's mask bits become DAIF. *)
Definition kernel_exit_user (s : ksys) : option ksys :=
  let! r := frames s !! sp (callee s) in
  let s := set_callee (frame_context r (sp (callee s) + sizeof_pt_regs)) s in
  Some (set_loc (User (pt_x r) (pt_pc r) (pt_sp r)) (on_cpu (set_daif (Z.land (pt_spsr r) 0x3c0)) s)).

Definition ret_from_fork_code (s : ksys) : option ksys :=
  if x19 (callee s) =? 0
  then kernel_exit_user (on_cpu (set_ttbr0 (x20 (callee s))) s)
  else Some (set_loc (Kthread (x19 (callee s))) s).

(** What the caller of [switch_to] does when it returns. *)
Definition after_switch (c : caller) (s : ksys) : ksys :=
  match c with
  | InTick => on_cpu disable_irq (set_loc (Back InTick) s)
  | InSchedule => set_loc (Back InSchedule) s
  end.

(** The [ret] of [cpu_switch_to]: into [switch_to] on the new stack, or into
    [ret_from_fork]. *)
Definition resume (s : ksys) : option ksys :=
  if pc (callee s) =? switch_ret then
    let! c := callers s !! current s in
    let! s := preempt_enable s in
    Some (after_switch c s)
  else if pc (callee s) =? ret_from_fork then ret_from_fork_code s
  else None.

Definition switch_to (c : caller) (next : Z) (s : ksys) : option ksys :=
  let prev := current s in
  let! s := preempt_disable s in
  let! out := if (current s =? next) || (next =? NULL) then Some true
              else let! t := tasks s !! next in Some (negb (state t =? TASK_RUNNING)) in
  if out : bool then
    let! s := preempt_enable s in
    Some (after_switch c s)
  else
    let! t := tasks s !! next in
    let s := on_cpu (switch_mm (mm_at s (t_mm t))) s in
    let! s := cpu_switch_to prev next (set_callers (<[prev := c]> (callers s)) s) in
    resume s.

Definition select_next_task (s : ksys) : option ksys :=
  let! s := preempt_disable s in
  let! n := get_next (nodes s) (task_list (current s)) in
  let s := set_next_task (list_entry n) s in
  preempt_enable s.

Definition scheduler_tick (s : ksys) : option ksys :=
  let! t := tasks s !! current s in
  if 0 <? preempt_count t then Some (set_loc (Back InTick) s)
  else
    let! s := select_next_task s in
    let s := on_cpu enable_irq s in
    switch_to InTick (next_task s) s.

Definition schedule (s : ksys) : option ksys :=
  let! t := tasks s !! current s in
  if 0 <? preempt_count t then Some (set_loc (Back InSchedule) s)
  else
    let! s := select_next_task s in
    switch_to InSchedule (next_task s) s.

Definition task_add (new : Z) (s : ksys) : option ksys :=
  let! n := list_add_tail (nodes s) (task_list new) (task_list (init_task s)) in
  upd_task new (with_state TASK_RUNNING) (set_nodes n s).

Definition zero_context : cpu_context :=
  {| x19 := 0; x20 := 0; x21 := 0; x22 := 0; x23 := 0; x24 := 0; x25 := 0; x26 := 0; x27 := 0; x28 := 0;
     x29 := 0; sp := 0; pc := 0 |}.
(** A task in a page just cleared by [get_free_page]. *)
Definition zero_task : task_struct :=
  {| context := zero_context; state := 0; preempt_count := 0; t_mm := NULL;
     filp := replicate (Z.to_nat NR_OPEN) NULL; canary := 0 |}.

(** [get_free_page] for a task: the objects of the cleared page. *)
Definition new_task_page (s : ksys) : option (Z * ksys) :=
  let! '(p, h) := kget_free_page (kh s) in
  let s := set_nodes (<[task_list p := {| prev := NULL; next := NULL |}]> (nodes s)) (set_kh h s) in
  Some (p, set_tasks (<[p := zero_task]> (tasks s)) s).

Definition kthread_create (main : Z) (s : ksys) : option ksys :=
  let! s := preempt_disable s in
  let! '(p, s) := new_task_page s in
  let! s := upd_task p (fun t => with_context (with_pc ret_from_fork
               (with_sp (u64 (p + STACK_SZ)) (with_x19 main (context t)))) t) s in
  let! s := upd_task p (fun t => with_canary CANARY_MAGIC_NUM (with_preempt 0 t)) s in
  let! s := task_add p s in
  preempt_enable s.
End Sched.

(** ** The ring of tasks *)

Section Ring.
Variables ret_from_fork switch_ret : Z.
Implicit Types (s : ksys) (p q cur : Z) (rest : list Z) (t : task_struct) (c : caller).

(** A task that does not hold the CPU: stopped inside [switch_to], or new. *)
Definition suspended s p : Prop :=
  exists t, tasks s !! p = Some t /\
    ((pc (context t) = switch_ret /\ preempt_count t = 1 /\ p <= sp (context t) < p + 4096 /\
      is_Some (callers s !! p)) \/
     (pc (context t) = ret_from_fork /\ preempt_count t = 0 /\ x19 (context t) <> 0 /\
      sp (context t) = p + 4096) \/
     (pc (context t) = ret_from_fork /\ preempt_count t = 0 /\ x19 (context t) = 0 /\
      sp (context t) = p + 4096 - sizeof_pt_regs /\ is_Some (frames s !! sp (context t)))).

(** A task's page is page-aligned, holds a task with an intact canary, and is
    not free. *)
Definition task_ok s p : Prop :=
  p mod 4096 = 0 /\ 0 < p < 2 ^ 64 - 4096 /\
  (exists t, tasks s !! p = Some t /\ canary t = CANARY_MAGIC_NUM) /\
  forall k, pfn_ok k -> p = page_va k -> exists n, count_of (mem_map (kphys (kh s))) k = Some n /\ n <> 0.

(** The tasks in ring order from the one that holds the CPU. *)
Record ring s cur rest : Prop := {
  rg_list : dlist (nodes s) (task_list cur) (map task_list rest);
  rg_tasks : Forall (task_ok s) (cur :: rest);
  rg_susp : Forall (suspended s) rest;
  rg_init : init_task s ∈ cur :: rest }.

(** Registers whose stack pointer lies in the task's own stack. *)
Definition in_stack p (r : cpu_context) : Prop := p <= sp r < p + 4096.

Definition task_state s p : Z := match tasks s !! p with Some t => state t | None => TASK_DEAD end.

Lemma current_eq s p : p mod 4096 = 0 -> p <= sp (callee s) < p + 4096 -> current s = p.
Proof.
  intros Hp Hs. unfold current. change (STACK_SZ - 1) with (2 ^ 12 - 1). rewrite land_lnot_mask by done.
  change (2 ^ 12) with 4096. Z.div_mod_to_equations. lia.
Qed.

Lemma task_list_inj p q : task_list p = task_list q -> p = q.
Proof. unfold task_list. lia. Qed.

Lemma ring_nodup s cur rest : ring s cur rest -> NoDup (cur :: rest).
Proof.
  intros [[Hnd _] _ _ _]. change (task_list cur :: map task_list rest) with (task_list <$> (cur :: rest)) in Hnd.
  by apply NoDup_fmap_1 in Hnd.
Qed.

Lemma ring_task s cur rest p : ring s cur rest -> p ∈ cur :: rest -> task_ok s p.
Proof. intros H Hp. destruct H as [_ Ht _ _]. rewrite Forall_forall in Ht. by apply Ht. Qed.

Lemma preempt_disable_eq s p t :
  current s = p -> tasks s !! p = Some t ->
  preempt_disable s = Some (set_tasks (<[p := with_preempt (u64 (preempt_count t + 1)) t]> (tasks s)) s).
Proof. intros Hp Ht. unfold preempt_disable, upd_task. rewrite Hp, Ht. done. Qed.

Lemma preempt_enable_eq s p t :
  current s = p -> tasks s !! p = Some t ->
  preempt_enable s = Some (set_tasks (<[p := with_preempt (u64 (preempt_count t - 1)) t]> (tasks s)) s).
Proof. intros Hp Ht. unfold preempt_enable, upd_task. rewrite Hp, Ht. done. Qed.

Lemma upd_task_eq p f s t : tasks s !! p = Some t -> upd_task p f s = Some (set_tasks (<[p := f t]> (tasks s)) s).
Proof. intros Ht. unfold upd_task. by rewrite Ht. Qed.

Lemma with_preempt_same t : with_preempt (preempt_count t) t = t.
Proof. by destruct t. Qed.

Lemma set_tasks_same s : set_tasks (tasks s) s = s.
Proof. by destruct s. Qed.

(** Disabling and enabling preemption again. *)
Lemma preempt_pair t : preempt_count t = 0 -> with_preempt (u64 (u64 (preempt_count t + 1) - 1)) t = t.
Proof. intros H. rewrite H. change (u64 (u64 (0 + 1) - 1)) with 0. rewrite <- H. apply with_preempt_same. Qed.

Lemma select_next_task_eq s cur rest t :
  ring s cur rest -> current s = cur -> tasks s !! cur = Some t -> preempt_count t = 0 ->
  select_next_task s = Some (set_next_task (hd cur rest) s).
Proof.
  intros Hr Hc Ht H0. unfold select_next_task. rewrite (preempt_disable_eq s cur t Hc Ht), bind_Some.
  cbn [nodes set_tasks]. change (current (set_tasks _ s)) with (current s). rewrite Hc.
  rewrite (dlist_next_head _ _ _ (rg_list _ _ _ Hr)), bind_Some.
  assert (list_entry (hd (task_list cur) (map task_list rest)) = hd cur rest) as ->.
  { unfold list_entry, task_list. destruct rest; cbn; lia. }
  rewrite (preempt_enable_eq _ cur (with_preempt (u64 (preempt_count t + 1)) t)); [|done|cbn; apply lookup_insert_eq].
  f_equal. cbn [tasks set_next_task set_tasks]. rewrite insert_insert_eq.
  change (with_preempt _ (with_preempt _ t)) with (with_preempt (u64 (u64 (preempt_count t + 1) - 1)) t).
  rewrite preempt_pair, insert_id by done. by destruct s.
Qed.

(** ** Creating tasks *)

(** A page handed out for a task, with the cleared objects in it. *)
Lemma new_task_page_spec s cur rest n :
  ring s cur rest -> map_ok (mem_map (kphys (kh s))) -> free_ge (mem_map (kphys (kh s))) (S n) ->
  exists k h, new_task_page s = Some (page_va k, set_tasks (<[page_va k := zero_task]> (tasks s))
      (set_nodes (<[task_list (page_va k) := {| prev := NULL; next := NULL |}]> (nodes s)) (set_kh h s))) /\
    kget_free_page (kh s) = Some (page_va k, h) /\ pfn_ok k /\ page_va k ∉ cur :: rest /\
    count_of (mem_map (kphys (kh s))) k = Some 0 /\ map_ok (mem_map (kphys h)) /\ free_ge (mem_map (kphys h)) n /\
    (forall j, count_of (mem_map (kphys h)) j = if j =? k then Some 1 else count_of (mem_map (kphys (kh s))) j) /\
    (forall b, ldb (ram (kphys h)) b =
       if (page_va k <=? b) && (b <? page_va k + 4096) then 0 else ldb (ram (kphys (kh s))) b).
Proof.
  intros Hr Hm Hf. destruct (get_free_page_spec (kphys (kh s)) Hm (free_ge_one _ _ Hf))
    as (k & ph & E & Hk & H0 & Hm' & _ & Hcnt & Hram).
  assert (Eg : kget_free_page (kh s) = Some (page_va k, set_phys ph (kh s))) by (unfold kget_free_page; by rewrite E).
  exists k, (set_phys ph (kh s)). unfold new_task_page. rewrite Eg, bind_Some. split_and!; try done.
  - intros Hin. destruct (ring_task _ _ _ _ Hr Hin) as (_ & _ & _ & Hc).
    destruct (Hc k Hk eq_refl) as (c & Hc1 & Hc2). congruence.
  - by eapply free_ge_alloc.
Qed.

(** A new task [p] enters the ring in front of the initial task. *)
Lemma task_add_spec s cur rest p t :
  ring s cur rest -> p ∉ cur :: rest -> is_Some (nodes s !! task_list p) ->
  tasks s !! p = Some t -> canary t = CANARY_MAGIC_NUM -> suspended s p ->
  p mod 4096 = 0 -> 0 < p < 2 ^ 64 - 4096 ->
  (forall k, pfn_ok k -> p = page_va k -> exists n, count_of (mem_map (kphys (kh s))) k = Some n /\ n <> 0) ->
  exists s' l1 l2, task_add p s = Some s' /\ rest = l1 ++ l2 /\ hd cur l2 = init_task s /\
    ring s' cur (l1 ++ p :: l2) /\ tasks s' = <[p := with_state TASK_RUNNING t]> (tasks s) /\
    kh s' = kh s /\ callee s' = callee s /\ frames s' = frames s /\ callers s' = callers s /\
    init_task s' = init_task s /\ next_task s' = next_task s /\ loc s' = loc s.
Proof.
  intros [Hl Ht Hs Hi] Hp Hn Hpt Hcan Hsu Hal Hrg Hpg.
  assert (Hinj : forall q (l : list Z), task_list q ∈ task_list <$> l -> q ∈ l).
  { intros q l (x & Hx & Hin)%list_elem_of_fmap. by apply task_list_inj in Hx as ->. }
  destruct (dlist_add_before (nodes s) (task_list cur) (map task_list rest) (task_list (init_task s)) (task_list p))
    as (h' & m1 & m2 & E & Hm & Hhd & Hl' & _).
  - done.
  - change (task_list cur :: map task_list rest) with (task_list <$> (cur :: rest)). by apply list_elem_of_fmap_2.
  - done.
  - change (task_list cur :: map task_list rest) with (task_list <$> (cur :: rest)). by intros ?%Hinj.
  - apply map_eq_app in Hm as (l1 & l2 & -> & <- & <-).
    exists (set_tasks (<[p := with_state TASK_RUNNING t]> (tasks s)) (set_nodes h' s)), l1, l2.
    unfold task_add, upd_task. rewrite E, bind_Some. cbn [tasks set_nodes]. rewrite Hpt, bind_Some.
    split_and!; try done.
    + destruct l2; cbn in Hhd |- *; by apply task_list_inj in Hhd.
    + assert (Hk : forall q, q <> p -> tasks (set_tasks (<[p := with_state TASK_RUNNING t]> (tasks s)) (set_nodes h' s)) !! q = tasks s !! q).
      { intros q Hq. cbn. by rewrite lookup_insert_ne. }
      assert (Hperm : cur :: l1 ++ p :: l2 ≡ₚ p :: cur :: l1 ++ l2) by (rewrite <- Permutation_middle; apply perm_swap).
      split.
      * cbn. by rewrite map_app.
      * rewrite Hperm. apply Forall_cons. split.
        -- split_and!; [done|lia|lia| |done]. eexists. split; [cbn; apply lookup_insert_eq|done].
        -- rewrite Forall_forall in Ht |- *. intros q Hq. destruct (Ht q Hq) as (A1 & A2 & A3 & A4).
           split_and!; [done|lia|lia| |done]. rewrite Hk by (intros ->; done). done.
      * rewrite <- Permutation_middle. apply Forall_cons. split.
        -- destruct Hsu as (t' & Ht' & Hc). assert (t' = t) as -> by congruence.
           exists (with_state TASK_RUNNING t). split; [cbn; apply lookup_insert_eq|done].
        -- rewrite Forall_forall in Hs |- *. intros q Hq. unfold suspended. rewrite Hk by set_solver. by apply Hs.
      * rewrite Hperm. set_solver.
Qed.

(** Updates that leave the ring's tasks alone, but for counters of the current. *)
Lemma ring_update_pages s s' cur rest t t' :
  ring s cur rest -> tasks s !! cur = Some t -> tasks s' !! cur = Some t' -> canary t' = canary t ->
  (forall p, p ∈ cur :: rest -> nodes s' !! task_list p = nodes s !! task_list p) ->
  (forall p, p ∈ rest -> tasks s' !! p = tasks s !! p) ->
  (forall p, p ∈ rest -> frames s' !! (p + 4096 - sizeof_pt_regs) = frames s !! (p + 4096 - sizeof_pt_regs)) ->
  callers s' = callers s -> init_task s' = init_task s ->
  (forall k, pfn_ok k -> page_va k ∈ cur :: rest -> exists c : Z, count_of (mem_map (kphys (kh s'))) k = Some c /\ c <> 0) ->
  ring s' cur rest.
Proof.
  intros Hr Ht Ht' Hcan Hn Htk Hf Ec Ei Hc. pose proof (ring_nodup _ _ _ Hr) as Hnd.
  apply NoDup_cons in Hnd as [Hcur _]. destruct Hr as [Hl Htasks Hs Hi]. split.
  - eapply dlist_frame; [exact Hl|]. intros a Ha.
    change (task_list cur :: map task_list rest) with (task_list <$> (cur :: rest)) in Ha.
    apply list_elem_of_fmap in Ha as (p & -> & Hp). by apply Hn.
  - rewrite Forall_forall in Htasks |- *. intros p Hp. destruct (Htasks p Hp) as (A1 & A2 & (u & A3 & A4) & A5).
    split_and!; [done|lia|lia| |].
    + apply elem_of_cons in Hp as [->|Hp]; [exists t'; split; [done|congruence]|]. exists u. by rewrite Htk.
    + intros k Hk ->. by apply Hc.
  - rewrite Forall_forall in Hs |- *. intros p Hp. destruct (Hs p Hp) as (u & A1 & A2). exists u. rewrite Htk, Ec by done.
    split; [done|]. destruct A2 as [A2|[A2|(B1 & B2 & B3 & B4 & B5)]]; [by left|by right; left|right; right].
    split_and!; [done..|]. rewrite B4, Hf by done. by rewrite B4 in B5.
  - by rewrite Ei.
Qed.

Lemma ring_update s s' cur rest t t' :
  ring s cur rest -> tasks s !! cur = Some t -> tasks s' !! cur = Some t' -> canary t' = canary t ->
  (forall p, p ∈ cur :: rest -> nodes s' !! task_list p = nodes s !! task_list p) ->
  (forall p, p ∈ rest -> tasks s' !! p = tasks s !! p) ->
  (forall p, p ∈ rest -> frames s' !! (p + 4096 - sizeof_pt_regs) = frames s !! (p + 4096 - sizeof_pt_regs)) ->
  callers s' = callers s -> init_task s' = init_task s ->
  (forall k (c : Z), count_of (mem_map (kphys (kh s))) k = Some c -> c <> 0 ->
     count_of (mem_map (kphys (kh s'))) k = Some c) ->
  ring s' cur rest.
Proof.
  intros Hr Ht Ht' Hcan Hn Htk Hf Ec Ei Hc. apply (ring_update_pages s s' cur rest t t'); try done.
  intros k Hk Hp. pose proof (rg_tasks _ _ _ Hr) as Htasks. rewrite Forall_forall in Htasks.
  destruct (Htasks _ Hp) as (_ & _ & _ & A5). destruct (A5 k Hk eq_refl) as (c & H1 & H2). eauto.
Qed.

Lemma counter_pair t : 0 <= preempt_count t < 2 ^ 64 - 1 -> with_preempt (u64 (u64 (preempt_count t + 1) - 1)) t = t.
Proof.
  intros H. rewrite !wrap_small; change (2 ^ 64) with 18446744073709551616 in *.
  - replace (preempt_count t + 1 - 1) with (preempt_count t) by lia. apply with_preempt_same.
  - lia.
  - rewrite wrap_small; change (2 ^ 64) with 18446744073709551616; lia.
Qed.

(** The descriptor [kthread_create] fills in. *)
Definition kthread_task p main : task_struct :=
  {| context := with_pc ret_from_fork (with_sp (p + STACK_SZ) (with_x19 main zero_context));
     state := TASK_RUNNING; preempt_count := 0; t_mm := NULL; filp := replicate (Z.to_nat NR_OPEN) NULL;
     canary := CANARY_MAGIC_NUM |}.

Lemma kthread_create_spec s cur rest tc main n :
  ring s cur rest -> in_stack cur (callee s) -> tasks s !! cur = Some tc -> 0 <= preempt_count tc < 2 ^ 64 - 1 ->
  map_ok (mem_map (kphys (kh s))) -> free_ge (mem_map (kphys (kh s))) (S n) -> main <> NULL ->
  exists k h l1 l2 s', kthread_create ret_from_fork main s = Some s' /\ kget_free_page (kh s) = Some (page_va k, h) /\
    rest = l1 ++ l2 /\ hd cur l2 = init_task s /\ pfn_ok k /\ count_of (mem_map (kphys (kh s))) k = Some 0 /\
    ring s' cur (l1 ++ page_va k :: l2) /\ tasks s' = <[page_va k := kthread_task (page_va k) main]> (tasks s) /\
    kh s' = h /\ callee s' = callee s /\ loc s' = loc s /\ init_task s' = init_task s.
Proof.
  intros Hr Hin Htc Hpc Hm Hf Hmain. pose proof (ring_nodup _ _ _ Hr) as Hnd. apply NoDup_cons in Hnd as [Hcr _].
  destruct (ring_task _ _ _ cur Hr ltac:(set_solver)) as (Hal & _).
  pose proof (current_eq s cur Hal Hin) as Hcur. unfold kthread_create.
  rewrite (preempt_disable_eq s cur tc Hcur Htc), bind_Some.
  set (tc1 := with_preempt (u64 (preempt_count tc + 1)) tc). set (s1 := set_tasks _ s).
  assert (Hr1 : ring s1 cur rest).
  { apply (ring_update s s1 cur rest tc tc1); try done; [apply lookup_insert_eq|].
    intros p Hp. cbn. by rewrite lookup_insert_ne by (intros ->; done). }
  destruct (new_task_page_spec s1 cur rest n Hr1 Hm Hf) as (k & h & E & Eg & Hk & Hni & H0 & Hm' & Hf' & Hcnt & _).
  rewrite E. cbn [mbind option_bind]. clear E. set (p := page_va k) in *. set (s2 := set_tasks _ _).
  assert (Hpc' : p <> cur /\ (forall q, q ∈ rest -> q <> p)) by (split; [set_solver|intros q Hq ->; set_solver]).
  destruct Hpc' as [Hpcur Hprest].
  pose proof (page_va_pos k Hk) as Hpos. fold p in Hpos.
  assert (Hend : u64 (p + STACK_SZ) = p + STACK_SZ).
  { apply wrap_small. change STACK_SZ with 4096. change (2 ^ 64) with 18446744073709551616. lia. }
  rewrite (upd_task_eq p _ s2 zero_task (lookup_insert_eq _ _ _)). cbn [mbind option_bind].
  rewrite (upd_task_eq p _ _ _ (lookup_insert_eq _ _ _)). cbn [mbind option_bind tasks set_tasks s2].
  rewrite Hend, !insert_insert_eq. cbn [context zero_task].
  match goal with |- context [<[p := ?t]> (tasks _)] => set (t3 := t) end.
  match goal with |- context [task_add p ?st] => set (s3 := st) end.
  assert (Hr3 : ring s3 cur rest).
  { apply (ring_update s1 s3 cur rest tc1 tc1); try done.
    - apply lookup_insert_eq.
    - cbn. rewrite lookup_insert_ne by done. apply lookup_insert_eq.
    - intros q Hq. cbn. rewrite lookup_insert_ne; [done|]. intros ?%task_list_inj. subst. set_solver.
    - intros q Hq. cbn. rewrite lookup_insert_ne; [done|]. intros <-. by eapply Hprest.
    - intros j c Hj Hne. cbn. rewrite Hcnt. zcase; [|done]. subst. cbn in H0, Hj. congruence. }
  destruct (task_add_spec s3 cur rest p t3 Hr3 Hni) as (s4 & l1 & l2 & E & Hl & Hhd & Hr4 & Et & Ek & Ece & Ef & Eca & Ei & En & Elo).
  - cbn. rewrite lookup_insert_eq. eauto.
  - cbn. apply lookup_insert_eq.
  - done.
  - exists t3. split; [cbn; apply lookup_insert_eq|]. right. left. cbn. change STACK_SZ with 4096. done.
  - apply page_va_aligned.
  - change (2 ^ 64) with 18446744073709551616. lia.
  - intros j Hj Hpj. apply page_va_inj in Hpj as <-. cbn. rewrite Hcnt, Z.eqb_refl. by exists 1.
  - rewrite E, bind_Some. clear E.
    assert (Hcur4 : current s4 = cur) by (unfold current; by rewrite Ece).
    assert (Ht4 : tasks s4 !! cur = Some tc1).
    { rewrite Et. cbn. rewrite !lookup_insert_ne by done. apply lookup_insert_eq. }
    rewrite (preempt_enable_eq s4 cur tc1 Hcur4 Ht4).
    assert (Etc : with_preempt (u64 (preempt_count tc1 - 1)) tc1 = tc) by (apply (counter_pair tc Hpc)).
    rewrite Etc. exists k, h, l1, l2, (set_tasks (<[cur := tc]> (tasks s4)) s4). split_and!; try done.
    + apply (ring_update s4 _ cur (l1 ++ p :: l2) tc1 tc); try done; [cbn; apply lookup_insert_eq|].
      intros q Hq. cbn. rewrite lookup_insert_ne; [done|]. intros <-. subst rest. set_solver.
    + cbn. rewrite Et. cbn. apply map_eq. intros q. destruct (decide (q = cur)) as [->|Hqc].
      * by rewrite lookup_insert_eq, lookup_insert_ne.
      * rewrite lookup_insert_ne by done. destruct (decide (q = p)) as [->|Hqp]; [by rewrite !lookup_insert_eq|].
        by rewrite !lookup_insert_ne.
Qed.

(** ** Switching *)

(** The state [cpu_switch_to] leaves: [cur] is stopped, the registers are [q]'s. *)
Definition switched (c : caller) cur q (tc tq : task_struct) s : ksys :=
  set_callee (context tq)
    (set_tasks (<[cur := with_context (with_pc switch_ret (callee s)) (with_preempt 1 tc)]> (tasks s))
      (set_callers (<[cur := c]> (callers s)) (on_cpu (switch_mm (mm_at s (t_mm tq))) s))).

Lemma switch_to_stay s cur q tc tq c :
  current s = cur -> tasks s !! cur = Some tc -> preempt_count tc = 0 ->
  tasks s !! q = Some tq -> q = cur \/ state tq <> TASK_RUNNING ->
  switch_to ret_from_fork switch_ret c q s = Some (after_switch c s).
Proof.
  intros Hc Ht H0 Hq Hst. unfold switch_to. rewrite (preempt_disable_eq s cur tc Hc Ht), bind_Some.
  change (current (set_tasks _ s)) with (current s). rewrite Hc. cbn [tasks set_tasks].
  assert (Hout : (if (cur =? q) || (q =? NULL) then Some true
     else let! t := <[cur := with_preempt (u64 (preempt_count tc + 1)) tc]> (tasks s) !! q in
          Some (negb (state t =? TASK_RUNNING))) = Some true).
  { destruct (Z.eqb_spec cur q) as [|Hne]; [done|]. destruct (q =? NULL); [done|]. cbn [orb].
    rewrite lookup_insert_ne, Hq, bind_Some by done. destruct Hst as [->|Hst]; [done|].
    by destruct (Z.eqb_spec (state tq) TASK_RUNNING). }
  rewrite Hout, bind_Some.
  rewrite (preempt_enable_eq _ cur (with_preempt (u64 (preempt_count tc + 1)) tc)); [|done|cbn; apply lookup_insert_eq].
  rewrite bind_Some. f_equal. f_equal. cbn [tasks set_tasks]. rewrite insert_insert_eq.
  change (with_preempt _ (with_preempt _ tc)) with (with_preempt (u64 (u64 (preempt_count tc + 1) - 1)) tc).
  rewrite preempt_pair, insert_id by done. by destruct s.
Qed.

Lemma switch_to_go s cur q tc tq c :
  current s = cur -> tasks s !! cur = Some tc -> preempt_count tc = 0 -> q <> cur -> q <> NULL ->
  tasks s !! q = Some tq -> state tq = TASK_RUNNING ->
  switch_to ret_from_fork switch_ret c q s = resume ret_from_fork switch_ret (switched c cur q tc tq s).
Proof.
  intros Hc Ht H0 Hne Hn Hq Hst. unfold switch_to. rewrite (preempt_disable_eq s cur tc Hc Ht), bind_Some.
  change (current (set_tasks _ s)) with (current s). rewrite Hc. cbn [tasks set_tasks].
  destruct (Z.eqb_spec cur q) as [|_]; [congruence|]. destruct (Z.eqb_spec q NULL) as [|_]; [done|]. cbn [orb].
  rewrite lookup_insert_ne, Hq by done. cbn [mbind option_bind]. rewrite Hst.
  change (negb (TASK_RUNNING =? TASK_RUNNING)) with false.
  unfold cpu_switch_to, upd_task. cbn [tasks set_callers on_cpu set_kh set_tasks callee].
  rewrite lookup_insert_eq, bind_Some. cbn [mbind option_bind tasks set_tasks].
  rewrite lookup_insert_ne, lookup_insert_ne, Hq by done. cbn [mbind option_bind].
  f_equal. unfold switched. rewrite H0. change (u64 (0 + 1)) with 1.
  change (mm_at (set_tasks _ s) (t_mm tq)) with (mm_at s (t_mm tq)).
  unfold set_callee, set_tasks, set_callers, on_cpu, set_kh. cbn. by rewrite insert_insert_eq.
Qed.

(** The ring after a switch from [cur] to its successor. *)
Lemma ring_switched s s' cur q qs tc tq tq' c :
  ring s cur (q :: qs) -> cur <= sp (callee s) < cur + 4096 ->
  tasks s !! cur = Some tc -> tasks s !! q = Some tq -> canary tq' = canary tq ->
  nodes s' = nodes s -> init_task s' = init_task s -> frames s' = frames s ->
  kphys (kh s') = kphys (kh s) -> callers s' = <[cur := c]> (callers s) ->
  tasks s' = <[q := tq']> (<[cur := with_context (with_pc switch_ret (callee s)) (with_preempt 1 tc)]> (tasks s)) ->
  ring s' q (qs ++ [cur]).
Proof.
  intros Hr Hsp Htc Htq Hcan En Ei Ef Ek Ec Et. pose proof (ring_nodup _ _ _ Hr) as Hnd.
  apply NoDup_cons in Hnd as [Hcur Hnd]. apply NoDup_cons in Hnd as [Hq Hnd].
  destruct Hr as [Hl Ht Hs Hi].
  assert (Hcq : cur <> q) by set_solver.
  split.
  - rewrite En, map_app. cbn [map] in *. by apply (dlist_turn _ _ [] _ (map task_list qs)).
  - assert (Hp : q :: (qs ++ [cur]) ≡ₚ cur :: q :: qs) by (rewrite Permutation_app_comm; apply perm_swap).
    rewrite Hp. apply (Forall_impl _ _ _ Ht). intros p (H1 & H2 & (t & Hpt & Hpc) & H3).
    unfold task_ok. rewrite Ek, Et. split_and!; [done|lia|lia| |done].
    destruct (decide (p = q)) as [->|Hpq]; [rewrite lookup_insert_eq; exists tq'; split; [done|congruence]|].
    rewrite lookup_insert_ne by done.
    destruct (decide (p = cur)) as [->|Hpcur]; [rewrite lookup_insert_eq|rewrite lookup_insert_ne by done; eauto].
    eexists. split; [done|]. cbn. congruence.
  - apply Forall_cons in Hs as [_ Hs]. apply Forall_app. split.
    + rewrite Forall_forall in Hs |- *. intros p Hp.
      assert (p <> q /\ p <> cur) as [Hpq Hpc] by set_solver.
      unfold suspended. rewrite Et, Ec, Ef, lookup_insert_ne, lookup_insert_ne by done.
      rewrite lookup_insert_ne by done. by apply Hs.
    + apply Forall_singleton. unfold suspended. rewrite Et, lookup_insert_ne, lookup_insert_eq by done.
      eexists. split; [done|]. left. cbn. split_and!; [done|done|lia|lia|]. rewrite Ec, lookup_insert_eq. eauto.
  - rewrite Ei. set_solver.
Qed.

Lemma ring_frame s s' cur rest :
  ring s cur rest -> nodes s' = nodes s -> tasks s' = tasks s -> frames s' = frames s ->
  callers s' = callers s -> init_task s' = init_task s -> mem_map (kphys (kh s')) = mem_map (kphys (kh s)) ->
  ring s' cur rest.
Proof.
  intros [Hl Ht Hs Hi] En Et Ef Ec Ei Em. split.
  - by rewrite En.
  - unfold task_ok in *. by rewrite Et, Em.
  - unfold suspended in *. by rewrite Et, Ef, Ec.
  - by rewrite Ei.
Qed.

(** The timer interrupt's scheduling decision, by cases. *)
Lemma tick_masked s cur rest tc :
  ring s cur rest -> cur <= sp (callee s) < cur + 4096 -> tasks s !! cur = Some tc -> 0 < preempt_count tc ->
  scheduler_tick ret_from_fork switch_ret s = Some (set_loc (Back InTick) s).
Proof.
  intros Hr Hsp Htc H0. destruct (ring_task _ _ _ cur Hr ltac:(set_solver)) as (Hal & _).
  unfold scheduler_tick. rewrite (current_eq s cur Hal Hsp), Htc, bind_Some. by destruct (Z.ltb_spec 0 (preempt_count tc)); [|lia].
Qed.

Lemma tick_unfold s cur rest tc :
  ring s cur rest -> cur <= sp (callee s) < cur + 4096 -> tasks s !! cur = Some tc -> preempt_count tc = 0 ->
  scheduler_tick ret_from_fork switch_ret s =
    switch_to ret_from_fork switch_ret InTick (hd cur rest) (on_cpu enable_irq (set_next_task (hd cur rest) s)).
Proof.
  intros Hr Hsp Htc H0. destruct (ring_task _ _ _ cur Hr ltac:(set_solver)) as (Hal & _).
  unfold scheduler_tick. rewrite (current_eq s cur Hal Hsp), Htc, bind_Some, H0. cbn [Z.ltb Z.compare].
  by rewrite (select_next_task_eq s cur rest tc Hr (current_eq s cur Hal Hsp) Htc H0), bind_Some.
Qed.

Lemma tick_stay s cur rest tc :
  ring s cur rest -> cur <= sp (callee s) < cur + 4096 -> tasks s !! cur = Some tc -> preempt_count tc = 0 ->
  hd cur rest = cur \/ task_state s (hd cur rest) <> TASK_RUNNING ->
  exists s', scheduler_tick ret_from_fork switch_ret s = Some s' /\ ring s' cur rest /\ callee s' = callee s /\
    tasks s' = tasks s /\ loc s' = Back InTick /\ irq_masked (kcpu (kh s')) = true.
Proof.
  intros Hr Hsp Htc H0 Hst. destruct (ring_task _ _ _ cur Hr ltac:(set_solver)) as (Hal & _).
  rewrite (tick_unfold s cur rest tc) by done. set (s1 := on_cpu enable_irq _).
  assert (exists tq, tasks s !! hd cur rest = Some tq) as [tq Htq].
  { destruct (ring_task _ _ _ (hd cur rest) Hr) as (_ & _ & (t & Ht & _) & _); [destruct rest; set_solver|eauto]. }
  rewrite (switch_to_stay s1 cur (hd cur rest) tc tq InTick); [|by apply (current_eq s1)|done|done|done|].
  - eexists. split; [done|]. split_and!; [by eapply ring_frame|done|done|done|].
    exact (disable_irqsave_masked _).
  - destruct Hst as [?|Hst]; [by left|right]. unfold task_state in Hst. by rewrite Htq in Hst.
Qed.

Definition ttbr0 s : Z := TTBR0_EL1 (kcpu (kh s)).

(** How the CPU goes on with task [q], whose descriptor was [tq]. *)
Record dispatched s s' q tq : Prop := {
  ds_task : tasks s' !! q = Some (with_preempt 0 tq);
  ds_back : pc (context tq) = switch_ret ->
    exists c, callers s !! q = Some c /\ loc s' = Back c /\ callee s' = context tq;
  ds_kthread : pc (context tq) = ret_from_fork -> x19 (context tq) <> 0 ->
    loc s' = Kthread (x19 (context tq)) /\ callee s' = context tq;
  ds_user : pc (context tq) = ret_from_fork -> x19 (context tq) = 0 ->
    exists r, frames s !! sp (context tq) = Some r /\ loc s' = User (pt_x r) (pt_pc r) (pt_sp r) /\
      callee s' = frame_context r (q + 4096) /\ ttbr0 s' = x20 (context tq) /\ DAIF (kcpu (kh s')) = Z.land (pt_spsr r) 0x3c0;
  ds_mm : x19 (context tq) <> 0 \/ pc (context tq) = switch_ret ->
    ttbr0 s' = match mm_at s (t_mm tq) with Some mm => pgd mm | None => ttbr0 s end }.

(** The rest of the state a switch from [cur] with descriptor [tc] leaves. *)
Record departed s s' (c : caller) cur q (tc : task_struct) : Prop := {
  lf_cur : tasks s' !! cur = Some (with_context (with_pc switch_ret (callee s)) (with_preempt 1 tc));
  lf_tasks : forall p, p <> cur -> p <> q -> tasks s' !! p = tasks s !! p;
  lf_nodes : nodes s' = nodes s;
  lf_frames : frames s' = frames s;
  lf_phys : kphys (kh s') = kphys (kh s);
  lf_callers : callers s' = <[cur := c]> (callers s);
  lf_init : init_task s' = init_task s;
  lf_next : next_task s' = next_task s;
  lf_timer : CNTV_CTL_EL0 (kcpu (kh s')) = CNTV_CTL_EL0 (kcpu (kh s)) /\
             CNTV_CVAL_EL0 (kcpu (kh s')) = CNTV_CVAL_EL0 (kcpu (kh s)) }.

Hypothesis distinct_pc : ret_from_fork <> switch_ret.

Lemma resume_spec s cur q tc tq c :
  cur <> q -> q mod 4096 = 0 -> tasks s !! q = Some tq -> suspended s q ->
  exists s', resume ret_from_fork switch_ret (switched c cur q tc tq s) = Some s' /\
    departed s s' c cur q tc /\ dispatched s s' q tq /\
    tasks s' = <[q := with_preempt 0 tq]> (<[cur := with_context (with_pc switch_ret (callee s)) (with_preempt 1 tc)]> (tasks s)).
Proof.
  intros Hne Hal Hq (t & Ht & Hcase). assert (t = tq) as -> by congruence. unfold resume.
  set (s1 := switched c cur q tc tq s). change (callee s1) with (context tq).
  assert (Hsame : preempt_count tq = 0 -> <[q := with_preempt 0 tq]> (tasks s1) = tasks s1).
  { intros H0. apply insert_id. unfold s1, switched. cbn. rewrite lookup_insert_ne by done. by rewrite <- H0, with_preempt_same. }
  destruct Hcase as [(Hpc & Hp & Hsp & [c' Hc'])|[(Hpc & Hp & Hx & Hsp)|(Hpc & Hp & Hx & Hsp & [r Hr])]]; rewrite Hpc.
  - rewrite Z.eqb_refl. rewrite (current_eq s1 q Hal Hsp). cbn [callers set_callers s1 switched set_callee set_tasks on_cpu set_kh].
    rewrite lookup_insert_ne, Hc', bind_Some by done.
    rewrite (preempt_enable_eq s1 q tq (current_eq s1 q Hal Hsp)), bind_Some, Hp by (cbn; by rewrite lookup_insert_ne).
    change (u64 (1 - 1)) with 0. exists (after_switch c' (set_tasks (<[q := with_preempt 0 tq]> (tasks s1)) s1)).
    split; [done|]. split; [|split].
    + split; destruct c'; try done; try (cbn; by destruct (mm_at s (t_mm tq))); intros; cbn; rewrite lookup_insert_ne by done;
        first [apply lookup_insert_eq | by rewrite lookup_insert_ne].
    + split; [destruct c'; apply lookup_insert_eq| |congruence|congruence|].
      * intros _. exists c'. split; [done|]. by destruct c'.
      * intros _. unfold ttbr0, s1, switched. destruct c'; cbn; by destruct (mm_at s (t_mm tq)).
    + by destruct c'.
  - destruct (Z.eqb_spec ret_from_fork switch_ret) as [|_]; [done|]. rewrite Z.eqb_refl. unfold ret_from_fork_code.
    change (callee s1) with (context tq). destruct (Z.eqb_spec (x19 (context tq)) 0) as [|_]; [done|].
    eexists. split; [done|]. split; [|split].
    + split; try done; try (cbn; by destruct (mm_at s (t_mm tq))); intros; cbn; [apply lookup_insert_eq|by rewrite lookup_insert_ne].
    + split; try done; try congruence.
      * change (tasks s1 !! q = Some (with_preempt 0 tq)). rewrite <- Hsame by done. apply lookup_insert_eq.
      * intros _. unfold ttbr0, s1, switched. cbn. by destruct (mm_at s (t_mm tq)).
    + change (tasks s1 = <[q := with_preempt 0 tq]> (tasks s1)). by rewrite Hsame.
  - destruct (Z.eqb_spec ret_from_fork switch_ret) as [|_]; [done|]. rewrite Z.eqb_refl. unfold ret_from_fork_code.
    change (callee s1) with (context tq). rewrite Hx. cbn [Z.eqb]. unfold kernel_exit_user.
    cbn [frames callee on_cpu set_kh s1 switched set_callee set_tasks set_callers]. rewrite Hr, bind_Some.
    eexists. split; [done|]. split; [|split].
    + split; try done; try (cbn; by destruct (mm_at s (t_mm tq))); intros; cbn; [apply lookup_insert_eq|by rewrite lookup_insert_ne].
    + split; try done; try congruence.
      * change (tasks s1 !! q = Some (with_preempt 0 tq)). rewrite <- Hsame by done. apply lookup_insert_eq.
      * intros _ _. exists r. split_and!; [done|done| |done|done]. cbn. rewrite Hsp. f_equal. unfold sizeof_pt_regs. lia.
      * intros [?|?]; congruence.
    + change (tasks s1 = <[q := with_preempt 0 tq]> (tasks s1)). by rewrite Hsame.
Qed.

(** A scheduling decision in favour of the successor [q]. *)
Lemma switch_spec s cur q qs tc c :
  ring s cur (q :: qs) -> cur <= sp (callee s) < cur + 4096 ->
  tasks s !! cur = Some tc -> preempt_count tc = 0 -> task_state s q = TASK_RUNNING ->
  exists s' tq, switch_to ret_from_fork switch_ret c q s = Some s' /\ tasks s !! q = Some tq /\
    ring s' q (qs ++ [cur]) /\ departed s s' c cur q tc /\ dispatched s s' q tq.
Proof.
  intros Hr Hsp Htc H0 Hst. pose proof (ring_nodup _ _ _ Hr) as Hnd. apply NoDup_cons in Hnd as [Hcur _].
  assert (Hne : cur <> q) by set_solver.
  destruct (ring_task _ _ _ cur Hr ltac:(set_solver)) as (Hal & _).
  destruct (ring_task _ _ _ q Hr ltac:(set_solver)) as (Hqal & Hqr & (tq & Htq & Hcan) & _).
  pose proof (rg_susp _ _ _ Hr) as Hsu. apply Forall_cons in Hsu as [Hsu _].
  unfold task_state in Hst. rewrite Htq in Hst.
  rewrite (switch_to_go s cur q tc tq c (current_eq s cur Hal Hsp) Htc H0) by (done || unfold NULL; lia).
  destruct (resume_spec s cur q tc tq c Hne Hqal Htq Hsu) as (s' & E & Hlf & Hds & Et).
  exists s', tq. split_and!; [done|done| |done|done].
  destruct Hlf. by apply (ring_switched s s' cur q qs tc tq (with_preempt 0 tq) c).
Qed.

Lemma tick_switch s cur q qs tc :
  ring s cur (q :: qs) -> cur <= sp (callee s) < cur + 4096 -> tasks s !! cur = Some tc -> preempt_count tc = 0 ->
  task_state s q = TASK_RUNNING ->
  exists s' tq, scheduler_tick ret_from_fork switch_ret s = Some s' /\ tasks s !! q = Some tq /\
    ring s' q (qs ++ [cur]) /\ departed (set_next_task q s) s' InTick cur q tc /\ dispatched s s' q tq.
Proof.
  intros Hr Hsp Htc H0 Hst. rewrite (tick_unfold s cur (q :: qs) tc) by done. cbn [hd].
  destruct (switch_spec (on_cpu enable_irq (set_next_task q s)) cur q qs tc InTick) as (s' & tq & E & Htq & Hr' & [] & Hds);
    [by eapply ring_frame|done..|].
  exists s', tq. split_and!; [done|done|done| |].
  - by split.
  - destruct Hds as [D1 D2 D3 D4 D5]. split; [done|done|done|done|].
    intros Hx. rewrite (D5 Hx). unfold ttbr0, mm_at. cbn. done.
Qed.

(** ** Time slices *)

(** The task that holds the CPU runs (its registers become [r]) until the tick. *)
Definition quantum (r : cpu_context) s : option ksys := scheduler_tick ret_from_fork switch_ret (set_callee r s).
Fixpoint quanta (rs : list cpu_context) s : option ksys :=
  match rs with
  | [] => Some s
  | r :: rs' => let! s := quantum r s in quanta rs' s
  end.

(** [p] was stopped by a tick while its registers were [r]. *)
Definition stopped s p (r : cpu_context) : Prop :=
  callers s !! p = Some InTick /\ exists t, tasks s !! p = Some t /\ context t = with_pc switch_ret r.

Lemma quanta_spec todo s x d ds rs td :
  ring s x (todo ++ d :: ds) -> (forall p, p ∈ x :: todo ++ d :: ds -> task_state s p = TASK_RUNNING) ->
  (exists tx, tasks s !! x = Some tx /\ preempt_count tx = 0) ->
  tasks s !! d = Some td -> callers s !! d = Some InTick -> pc (context td) = switch_ret ->
  Forall2 in_stack (x :: todo) rs ->
  exists s', quanta rs s = Some s' /\ ring s' d (ds ++ x :: todo) /\ loc s' = Back InTick /\ callee s' = context td /\
    (exists t, tasks s' !! d = Some t /\ preempt_count t = 0) /\
    (forall p, p ∈ ds -> tasks s' !! p = tasks s !! p /\ callers s' !! p = callers s !! p) /\
    Forall2 (stopped s') (x :: todo) rs.
Proof.
  revert s x ds rs. induction todo as [|y todo IH]; intros s x ds rs Hr Hst (tx & Htx & H0) Htd Hcd Hpd Hrs.
  all: inversion Hrs as [|? r ? rs' Hin Hrs' E1 E2]; subst; cbn [quanta app] in *; unfold quantum.
  all: pose proof (ring_frame s (set_callee r s) _ _ Hr eq_refl eq_refl eq_refl eq_refl eq_refl eq_refl) as Hr1.
  all: pose proof (ring_nodup _ _ _ Hr) as Hnd.
  - inversion Hrs'; subst.
    destruct (tick_switch (set_callee r s) x d ds tx Hr1 Hin Htx H0) as (s' & td' & E & Htd' & Hr' & Hlf & Hds).
    { apply Hst. set_solver. }
    rewrite E. cbn [mbind option_bind quanta]. exists s'. assert (td' = td) as -> by (cbn in Htd'; congruence).
    destruct Hlf as [F1 F2 F3 F4 F5 F6 F7 F8 F9]. destruct Hds as [D1 D2 _ _ _].
    destruct (D2 Hpd) as (c & Hc & Hl & Hce). cbn in Hc. assert (c = InTick) as -> by congruence.
    split_and!; [done|done|done|done|by eexists| |].
    + intros p Hp. apply NoDup_cons in Hnd as [Hx [Hd Hnd]%NoDup_cons].
      rewrite F2, F6 by set_solver. split; [done|]. cbn. rewrite lookup_insert_ne by set_solver. done.
    + constructor; [|constructor]. split; [rewrite F6; apply lookup_insert_eq|]. by rewrite F1; eexists.
  - destruct (tick_switch (set_callee r s) x y (todo ++ d :: ds) tx Hr1 Hin Htx H0) as (s1 & ty & E & Hty & Hr' & Hlf & Hds).
    { apply Hst. set_solver. }
    rewrite E. cbn [mbind option_bind]. destruct Hlf as [F1 F2 F3 F4 F5 F6 F7 F8 F9]. destruct Hds as [D1 _ _ _ _].
    apply NoDup_cons in Hnd as [Hx [Hy Hnd]%NoDup_cons]. cbn [tasks set_callee set_next_task callers] in *.
    assert (Hstate : forall p, p ∈ x :: y :: todo ++ d :: ds -> task_state s1 p = TASK_RUNNING).
    { intros p Hp. specialize (Hst p Hp). unfold task_state in *.
      destruct (decide (p = x)) as [->|Hpx]; [rewrite F1; by rewrite Htx in Hst|].
      destruct (decide (p = y)) as [->|Hpy]; [rewrite D1; by rewrite Hty in Hst|]. by rewrite F2. }
    destruct (IH s1 y (ds ++ [x]) rs') as (s' & E' & Hr'' & Hl & Hce & Hp0 & Hfr & Hstop).
    + by rewrite <- app_assoc in Hr'.
    + intros p Hp. apply Hstate. set_solver.
    + by eexists.
    + rewrite F2 by set_solver. done.
    + rewrite F6, lookup_insert_ne by set_solver. done.
    + done.
    + done.
    + exists s'. split_and!; [done| |done|done|done| |].
      * by rewrite <- app_assoc in Hr''.
      * intros p Hp. destruct (Hfr p ltac:(set_solver)) as [-> ->]. rewrite F2, F6 by set_solver.
        rewrite lookup_insert_ne by set_solver. done.
      * constructor; [|done]. unfold stopped. destruct (Hfr x ltac:(set_solver)) as [-> ->].
        split; [rewrite F6; apply lookup_insert_eq|]. rewrite F1. by eexists.
Qed.

End Ring.

(** ** Claims *)

(** C2: The tick of the current task [cur], by cases.  With preemption disabled
    nothing happens.  When the successor on the ring is [cur] itself or is not
    runnable, [cur] goes on, in the handler with interrupts masked.  Otherwise
    the CPU goes to the successor in its own address space: with exactly the
    registers it was stopped with, to its entry point when it is a new kernel
    thread, or to user mode with all the registers of its frame when it is a new
    process; [cur] is stopped with its registers saved, the ring is rotated, and
    no other task changes. *)
Theorem scheduler_tick_correct (ret_from_fork switch_ret : Z) (s : ksys) (cur : Z) (rest : list Z) (tc : task_struct) :
  ret_from_fork <> switch_ret -> ring ret_from_fork switch_ret s cur rest -> in_stack cur (callee s) ->
  tasks s !! cur = Some tc -> 0 <= preempt_count tc ->
  (0 < preempt_count tc -> scheduler_tick ret_from_fork switch_ret s = Some (set_loc (Back InTick) s)) /\
  (preempt_count tc = 0 -> hd cur rest = cur \/ task_state s (hd cur rest) <> TASK_RUNNING ->
     exists s', scheduler_tick ret_from_fork switch_ret s = Some s' /\ ring ret_from_fork switch_ret s' cur rest /\
       callee s' = callee s /\ tasks s' = tasks s /\ loc s' = Back InTick /\ irq_masked (kcpu (kh s')) = true) /\
  (preempt_count tc = 0 -> forall q qs, rest = q :: qs -> task_state s q = TASK_RUNNING ->
     exists s' tq, scheduler_tick ret_from_fork switch_ret s = Some s' /\ tasks s !! q = Some tq /\
       ring ret_from_fork switch_ret s' q (qs ++ [cur]) /\ dispatched ret_from_fork switch_ret s s' q tq /\
       stopped switch_ret s' cur (callee s) /\ kphys (kh s') = kphys (kh s) /\
       forall p, p <> cur -> p <> q -> tasks s' !! p = tasks s !! p).
Proof.
  intros Hd Hr Hin Htc H0. split_and!.
  - intros. by eapply tick_masked.
  - intros. by eapply tick_stay.
  - intros Hz q qs -> Hst. destruct (tick_switch ret_from_fork switch_ret Hd s cur q qs tc Hr Hin Htc Hz Hst)
      as (s' & tq & E & Htq & Hr' & [F1 F2 F3 F4 F5 F6 F7 F8 F9] & Hds).
    exists s', tq. split_and!; try done. split; [rewrite F6; apply lookup_insert_eq|]. rewrite F1. by eexists.
Qed.

(** C4: Round robin: when every task of the ring is runnable, as many ticks as there
    are tasks give each task exactly one slice, in ring order, and bring the CPU
    back to the first task with the registers it had at its own tick; every other
    task is stopped with the registers it had at its tick. *)
Theorem round_robin (ret_from_fork switch_ret : Z) (s : ksys) (cur y : Z) (rest : list Z)
    (r : cpu_context) (rs : list cpu_context) (tc : task_struct) :
  ret_from_fork <> switch_ret -> ring ret_from_fork switch_ret s cur (y :: rest) ->
  (forall p, p ∈ cur :: y :: rest -> task_state s p = TASK_RUNNING) ->
  tasks s !! cur = Some tc -> preempt_count tc = 0 ->
  Forall2 in_stack (cur :: y :: rest) (r :: rs) ->
  exists s', quanta ret_from_fork switch_ret (r :: rs) s = Some s' /\
    ring ret_from_fork switch_ret s' cur (y :: rest) /\
    loc s' = Back InTick /\ callee s' = with_pc switch_ret r /\ Forall2 (stopped switch_ret s') (y :: rest) rs.
Proof.
  intros Hd Hr Hst Htc H0 Hrs. inversion Hrs as [|? ? ? ? Hin Hrs' E1 E2]; subst. cbn [quanta]. unfold quantum.
  pose proof (ring_frame ret_from_fork switch_ret s (set_callee r s) _ _ Hr eq_refl eq_refl eq_refl eq_refl eq_refl eq_refl) as Hr1.
  destruct (tick_switch ret_from_fork switch_ret Hd (set_callee r s) cur y rest tc Hr1 Hin Htc H0)
    as (s1 & ty & E & Hty & Hr' & [F1 F2 F3 F4 F5 F6 F7 F8 F9] & [D1 _ _ _ _]).
  { apply Hst. set_solver. }
  rewrite E. cbn [mbind option_bind]. cbn [tasks set_callee set_next_task callers callee] in *.
  destruct (quanta_spec ret_from_fork switch_ret Hd rest s1 y cur [] rs
              (with_context (with_pc switch_ret r) (with_preempt 1 tc)) Hr')
    as (s' & E' & Hr'' & Hl & Hce & _ & _ & Hstop); [| |done| |done|done|].
  - intros p Hp. assert (Hp' : p ∈ cur :: y :: rest) by set_solver. specialize (Hst p Hp').
    unfold task_state in *. destruct (decide (p = cur)) as [->|Hpc]; [rewrite F1; by rewrite Htc in Hst|].
    destruct (decide (p = y)) as [->|Hpy]; [rewrite D1; by rewrite Hty in Hst|]. by rewrite F2.
  - by eexists.
  - rewrite F6. apply lookup_insert_eq.
  - by exists s'.
Qed.

(** C35: A task that is not runnable, such as a zombie waiting to be removed, stops the
    rotation: the task before it keeps the CPU however many ticks pass. *)
Theorem zombie_blocks_ring (ret_from_fork switch_ret : Z) (s : ksys) (cur q : Z) (qs : list Z)
    (rs : list cpu_context) (tc : task_struct) :
  ring ret_from_fork switch_ret s cur (q :: qs) -> tasks s !! cur = Some tc -> preempt_count tc = 0 ->
  task_state s q <> TASK_RUNNING -> Forall (in_stack cur) rs ->
  exists s', quanta ret_from_fork switch_ret rs s = Some s' /\
    ring ret_from_fork switch_ret s' cur (q :: qs) /\ tasks s' = tasks s.
Proof.
  intros Hr Htc H0 Hst Hrs. revert s Hr Htc Hst. induction Hrs as [|r rs Hin Hrs IH]; intros s Hr Htc Hst; cbn [quanta].
  - by exists s.
  - unfold quantum.
    pose proof (ring_frame ret_from_fork switch_ret s (set_callee r s) _ _ Hr eq_refl eq_refl eq_refl eq_refl eq_refl eq_refl) as Hr1.
    destruct (tick_stay ret_from_fork switch_ret (set_callee r s) cur (q :: qs) tc Hr1 Hin Htc H0)
      as (s1 & E & Hr2 & _ & Et & _); [by right|].
    rewrite E, bind_Some. destruct (IH s1 Hr2) as (s' & E' & Hr' & Et'); [by rewrite Et|by unfold task_state in *; rewrite Et|].
    exists s'. split_and!; [done|done|]. by rewrite Et', Et.
Qed.

(** C34: [kthread_create] turns a free page into a runnable task that enters the ring
    in front of the initial task and will start at [main] on its own stack; no
    other task changes and the caller's preemption count is restored. *)
Theorem kthread_create_correct (ret_from_fork switch_ret : Z) (s : ksys) (cur : Z) (rest : list Z)
    (tc : task_struct) (main : Z) (n : nat) :
  ring ret_from_fork switch_ret s cur rest -> in_stack cur (callee s) ->
  tasks s !! cur = Some tc -> 0 <= preempt_count tc < 2 ^ 64 - 1 ->
  map_ok (mem_map (kphys (kh s))) -> free_ge (mem_map (kphys (kh s))) (S n) -> main <> NULL ->
  exists k l1 l2 s' t, kthread_create ret_from_fork main s = Some s' /\ rest = l1 ++ l2 /\ hd cur l2 = init_task s /\
    pfn_ok k /\ count_of (mem_map (kphys (kh s))) k = Some 0 /\
    ring ret_from_fork switch_ret s' cur (l1 ++ page_va k :: l2) /\
    tasks s' = <[page_va k := t]> (tasks s) /\ state t = TASK_RUNNING /\ preempt_count t = 0 /\ t_mm t = NULL /\
    pc (context t) = ret_from_fork /\ x19 (context t) = main /\ sp (context t) = page_va k + 4096.
Proof.
  intros Hr Hin Htc Hpc Hm Hf Hmain.
  destruct (kthread_create_spec ret_from_fork switch_ret s cur rest tc main n Hr Hin Htc Hpc Hm Hf Hmain)
    as (k & h & l1 & l2 & s' & E & _ & Hl & Hhd & Hk & H0 & Hr' & Et & _).
  exists k, l1, l2, s', (kthread_task ret_from_fork (page_va k) main). done.
Qed.

(** ** Witnesses *)

(** The state after [init_init_task]: one task on the stack in the image. *)
Definition init0 : Z := 0xffff000000090000.
Definition ctx0 : cpu_context := with_sp (init0 + 3000) zero_context.
Definition ksys0 : ksys :=
  {| kh := kheap_boot; callee := ctx0;
     tasks := {[ init0 := with_state TASK_RUNNING (with_canary CANARY_MAGIC_NUM zero_task) ]};
     nodes := {[ task_list init0 := {| prev := task_list init0; next := task_list init0 |} ]};
     frames := ∅; callers := ∅; next_task := NULL; init_task := init0; loc := Back InSchedule |}.

Lemma ksys0_ring : ring 1 2 ksys0 init0 [].
Proof.
  split.
  - split; [apply NoDup_singleton|]. split; reflexivity.
  - constructor; [|constructor]. split_and!; [done|done|done| |].
    + eexists. split; [apply lookup_singleton_eq|done].
    + intros k Hk E. unfold pfn_ok in Hk. unfold page_va, init0 in E. lia.
  - constructor.
  - left.
Qed.

Lemma kheap_boot_pages n : (n <= 3840)%nat -> free_ge (mem_map (kphys kheap_boot)) n.
Proof. apply phys_init_free_ge. Qed.

(** Two tasks: the initial one and a kernel thread. *)
Lemma two_tasks : exists s q t, ring 1 2 s init0 [q] /\ tasks s = <[q := t]> (tasks ksys0) /\ q <> init0 /\
  callee s = ctx0 /\ state t = TASK_RUNNING /\ q mod 4096 = 0.
Proof.
  destruct (kthread_create_spec 1 2 ksys0 init0 [] _ 77 0 ksys0_ring ltac:(done) (lookup_singleton_eq _ _) ltac:(done)
              mem_map_init_ok (kheap_boot_pages 1 ltac:(lia)) ltac:(done))
    as (k & h & l1 & l2 & s' & _ & _ & Hl & _ & _ & _ & Hr & Et & _ & Ec & _).
  symmetry in Hl. apply app_eq_nil in Hl as [-> ->]. exists s', (page_va k), (kthread_task 1 (page_va k) 77).
  pose proof (ring_nodup _ _ _ _ _ Hr) as Hnd. apply NoDup_cons in Hnd as [Hn _]. split_and!; try done; [set_solver|].
  apply page_va_aligned.
Qed.

Lemma two_running s q t :
  tasks s = <[q := t]> (tasks ksys0) -> q <> init0 -> state t = TASK_RUNNING ->
  forall p, p ∈ [init0; q] -> task_state s p = TASK_RUNNING.
Proof.
  intros Et Hq Ht p [->| ->%list_elem_of_singleton]%elem_of_cons; unfold task_state; rewrite Et.
  - rewrite lookup_insert_ne by done. unfold ksys0. cbn [tasks]. rewrite lookup_singleton_eq. done.
  - by rewrite lookup_insert_eq.
Qed.

Example scheduler_tick_correct_witness :
  exists s s' q, scheduler_tick 1 2 s = Some s' /\ ring 1 2 s' q [init0] /\ stopped 2 s' init0 ctx0.
Proof.
  destruct two_tasks as (s & q & t & Hr & Et & Hq & Ec & Ht & Hal).
  destruct (scheduler_tick_correct 1 2 s init0 [q] (with_state TASK_RUNNING (with_canary CANARY_MAGIC_NUM zero_task))
              ltac:(discriminate) Hr) as (_ & _ & H).
  - rewrite Ec. split; [discriminate|reflexivity].
  - rewrite Et, lookup_insert_ne by done. apply lookup_singleton_eq.
  - discriminate.
  - destruct (H eq_refl q [] eq_refl) as (s' & tq & E & _ & Hr' & _ & Hs & _).
    + apply (two_running s q t Et Hq Ht). right. left.
    + exists s, s', q. rewrite <- Ec. split; [exact E|]. split; [exact Hr'|exact Hs].
Defined.

Example round_robin_witness :
  exists s s' q r, quanta 1 2 [ctx0; r] s = Some s' /\ ring 1 2 s' init0 [q] /\ callee s' = with_pc 2 ctx0.
Proof.
  destruct two_tasks as (s & q & t & Hr & Et & Hq & Ec & Ht & Hal).
  destruct (round_robin 1 2 s init0 q [] ctx0 [with_sp (q + 2000) zero_context]
             (with_state TASK_RUNNING (with_canary CANARY_MAGIC_NUM zero_task)) ltac:(discriminate) Hr)
    as (s' & E & Hr' & _ & Hc & _).
  - exact (two_running s q t Et Hq Ht).
  - rewrite Et, lookup_insert_ne by done. apply lookup_singleton_eq.
  - reflexivity.
  - constructor; [split; [discriminate|reflexivity]|]. constructor; [|constructor]. unfold in_stack. cbn. lia.
  - eexists s, s', q, _. split; [exact E|]. split; [exact Hr'|exact Hc].
Defined.

Example zombie_blocks_ring_witness :
  exists s q s', task_state s q = TASK_ZOMBIE /\ quanta 1 2 [ctx0; ctx0; ctx0] s = Some s' /\ ring 1 2 s' init0 [q].
Proof.
  destruct two_tasks as (s & q & t & Hr & Et & Hq & Ec & Ht & Hal).
  set (z := set_tasks (<[q := with_state TASK_ZOMBIE t]> (tasks s)) s).
  assert (Hs : tasks z !! q = Some (with_state TASK_ZOMBIE t)) by (apply lookup_insert_eq).
  assert (Hz : ring 1 2 z init0 [q]).
  { destruct Hr as [H1 H2 H3 H4]. assert (Hsq : tasks s !! q = Some t) by (rewrite Et; apply lookup_insert_eq). split.
    - exact H1.
    - apply Forall_cons in H2 as [(A1 & A2 & (u & A3 & A4) & A5) H2]. apply Forall_singleton in H2 as (B1 & B2 & (w & B3 & B4) & B5).
      constructor; [|constructor; [|constructor]].
      + split_and!; [done|lia|lia| |done]. exists u. split; [|done]. unfold z. cbn. by rewrite lookup_insert_ne.
      + split_and!; [done|lia|lia| |done]. eexists. split; [exact Hs|]. cbn. congruence.
    - apply Forall_singleton in H3 as (u & H3 & H5). constructor; [|constructor]. eexists. split; [exact Hs|].
      assert (u = t) as -> by congruence. exact H5.
    - exact H4. }
  destruct (zombie_blocks_ring 1 2 z init0 q [] [ctx0; ctx0; ctx0]
             (with_state TASK_RUNNING (with_canary CANARY_MAGIC_NUM zero_task)) Hz) as (s' & E & Hr' & _).
  - unfold z. cbn. rewrite lookup_insert_ne, Et, lookup_insert_ne by done. apply lookup_singleton_eq.
  - reflexivity.
  - unfold task_state. rewrite Hs. discriminate.
  - repeat constructor; discriminate.
  - exists z, q, s'. split; [unfold task_state; rewrite Hs; reflexivity|]. split; [exact E|exact Hr'].
Defined.

Example kthread_create_correct_witness :
  exists k s' t, kthread_create 1 77 ksys0 = Some s' /\ ring 1 2 s' init0 [page_va k] /\
    tasks s' !! page_va k = Some t /\ x19 (context t) = 77.
Proof.
  destruct (kthread_create_correct 1 2 ksys0 init0 [] _ 77 0 ksys0_ring ltac:(split; [discriminate|reflexivity])
              (lookup_singleton_eq _ _) ltac:(split; [discriminate|reflexivity])
              mem_map_init_ok (kheap_boot_pages 1 ltac:(lia)) ltac:(discriminate))
    as (k & l1 & l2 & s' & t & E & Hl & _ & _ & _ & Hr & Et & _ & _ & _ & _ & Hx & _).
  symmetry in Hl. apply app_eq_nil in Hl as [H1 H2]. rewrite H1, H2 in Hr.
  exists k, s', t. split; [exact E|]. split; [exact Hr|]. split; [|exact Hx]. rewrite Et. apply lookup_insert_eq.
Defined.
