(* ===== verification/Timer.v ===== *)
(** arch/timer.c and arch/exception.c: the periodic timer and the dispatch of
    interrupts.  The CPU's timer registers are those of [Aarch64.cpu], the
    interrupt controller is any [GicDevice], the tick ends in [scheduler_tick]. *)

From S2P Require Import Prelude Lib DList Page PageTable Aarch64 Kmalloc Gic Task.
Local Open Scope Z_scope.

Definition TIMER_PERIOD_MS : Z := 10.

Record machine (G : Type) := { sys : ksys; gic : G; jiffies : Z; ticks : Z; console : uart }.
#[global] Arguments sys {G}.
#[global] Arguments gic {G}.
#[global] Arguments jiffies {G}.
#[global] Arguments ticks {G}.
#[global] Arguments console {G}.

(** The text of the message of [irq_dispatch]. *)
Definition irq_not_found_msg : list Z := [73; 82; 81; 32; 110; 111; 116; 32; 102; 111; 117; 110; 100; 33; 10].

Section Timer.
Context {G : Type} `{GicDevice G}.
Variables ret_from_fork switch_ret : Z.
Implicit Types (m : machine G) (c : cpu).

Definition set_sys (s : ksys) (m : machine G) : machine G :=
  {| sys := s; gic := gic m; jiffies := jiffies m; ticks := ticks m; console := console m |}.
Definition set_gic (g : G) (m : machine G) : machine G :=
  {| sys := sys m; gic := g; jiffies := jiffies m; ticks := ticks m; console := console m |}.
Definition set_jiffies (j : Z) (m : machine G) : machine G :=
  {| sys := sys m; gic := gic m; jiffies := j; ticks := ticks m; console := console m |}.
Definition set_ticks (t : Z) (m : machine G) : machine G :=
  {| sys := sys m; gic := gic m; jiffies := jiffies m; ticks := t; console := console m |}.
Definition on_mcpu (f : cpu -> cpu) (m : machine G) : machine G := set_sys (on_cpu f (sys m)) m.
Definition mcpu (m : machine G) : cpu := kcpu (kh (sys m)).

Definition timer_handler (m : machine G) : option (machine G) :=
  let m := on_mcpu disable_cntv m in
  let m := set_gic (gicd_clear_pending TIMER_IRQ (gic m)) m in
  let current_cnt := raw_read_cntvct_el0 (mcpu m) in
  let m := on_mcpu (raw_write_cntv_cval_el0 (current_cnt + ticks m)) m in
  let m := set_jiffies (u64 (jiffies m + 1)) m in
  let m := on_mcpu enable_cntv m in
  let! s := scheduler_tick ret_from_fork switch_ret (sys m) in
  Some (set_sys s m).

(** The product is an [unsigned int]. *)
Definition timer_init (fuel : nat) (m : machine G) : option (machine G) :=
  let! g := gic_v3_initialize fuel (gic m) in
  let m := set_gic g m in
  let m := on_mcpu disable_cntv m in
  let cntfrq := raw_read_cntfrq_el0 (mcpu m) in
  let m := set_ticks (u32 (TIMER_PERIOD_MS * (cntfrq / 1000))) m in
  let current_cnt := raw_read_cntvct_el0 (mcpu m) in
  let m := on_mcpu (raw_write_cntv_cval_el0 (current_cnt + ticks m)) m in
  Some (on_mcpu enable_cntv m).

Definition irq_dispatch (m : machine G) : option (machine G) :=
  let '(rc, irq, g) := gic_v3_find_pending_irq 0 (gic m) in
  let m := set_gic g m in
  if rc =? IRQ_NOT_FOUND then
    Some {| sys := sys m; gic := gic m; jiffies := jiffies m; ticks := ticks m;
            console := console m ++ irq_not_found_msg |}
  else if irq =? TIMER_IRQ then timer_handler m
  else Some m.

(** The output of [put_exception]'s decoding of ESR: class and syndrome. *)
Definition ESR_EC_SHIFT : Z := 26.
Definition ESR_EC_MASK : Z := u32 (Z.shiftl 0x3f ESR_EC_SHIFT).
Definition ESR_ISS_MASK : Z := Z.shiftl 1 24 - 1.
Definition exception_class (esr : Z) : Z := Z.shiftr (Z.land esr ESR_EC_MASK) ESR_EC_SHIFT.
Definition exception_iss (esr : Z) : Z := Z.land esr ESR_ISS_MASK.

(** The condition under which the timer asserts its interrupt. *)
Definition cntv_enabled c : bool := Z.testbit (CNTV_CTL_EL0 c) 0.
Definition cntv_asserted c : bool := cntv_enabled c && (CNTV_CVAL_EL0 c <=? CNTVCT_EL0 c).

Lemma enable_cntv_on c : cntv_enabled (enable_cntv c) = true.
Proof.
  unfold cntv_enabled, enable_cntv. cbn [CNTV_CTL_EL0 set_cntv_ctl]. rewrite Z.lor_spec.
  change CNTV_CTL_ENABLE with 1. apply orb_true_r.
Qed.

(** The machine [timer_handler] hands to the scheduler. *)
Definition rearmed (m : machine G) : machine G :=
  on_mcpu enable_cntv (set_jiffies (u64 (jiffies m + 1))
    (on_mcpu (raw_write_cntv_cval_el0 (raw_read_cntvct_el0 (mcpu m) + ticks m))
      (set_gic (gicd_clear_pending TIMER_IRQ (gic m)) (on_mcpu disable_cntv m)))).

Lemma timer_handler_eq m :
  timer_handler m = let! s := scheduler_tick ret_from_fork switch_ret (sys (rearmed m)) in Some (set_sys s (rearmed m)).
Proof. reflexivity. Qed.

Lemma rearmed_cpu m :
  cntv_enabled (mcpu (rearmed m)) = true /\
  CNTV_CVAL_EL0 (mcpu (rearmed m)) = u64 (u64 (CNTVCT_EL0 (mcpu m)) + ticks m) /\
  CNTVCT_EL0 (mcpu (rearmed m)) = CNTVCT_EL0 (mcpu m).
Proof. split; [apply enable_cntv_on|]. done. Qed.

Lemma rearmed_ring m cur rest :
  ring ret_from_fork switch_ret (sys m) cur rest -> ring ret_from_fork switch_ret (sys (rearmed m)) cur rest.
Proof. intros Hr. by eapply ring_frame. Qed.

(** A pending timer interrupt with no lower one pending is dispatched to the handler. *)
Lemma irq_dispatch_timer m :
  pending (look (gic m)) TIMER_IRQ = true -> (forall j, 0 <= j < TIMER_IRQ -> pending (look (gic m)) j = false) ->
  irq_dispatch m = timer_handler m.
Proof.
  intros Hp Hl. unfold irq_dispatch, gic_v3_find_pending_irq. change (Z.to_nat GIC_INT_MAX) with 64%nat.
  rewrite find_pending_loop_spec by lia. destruct (find_up_spec 64 0 (pending (look (gic m)))) as (H1 & H2 & H3).
  cbn zeta. set (i := find_up _ _ _) in *. change TIMER_IRQ with 27 in *.
  assert (i = 27) as ->.
  { destruct (decide (i < 27)) as [Hi|Hi]; [rewrite Hl in H3 by lia; specialize (H3 ltac:(lia)); done|].
    destruct (decide (i = 27)) as [|Hn]; [done|]. rewrite H2 in Hp by lia. done. }
  change (27 <? 0 + Z.of_nat 64) with true. cbn iota. change (IRQ_FOUND =? IRQ_NOT_FOUND) with false.
  change (27 =? 27) with true. cbn iota. by destruct m.
Qed.
End Timer.

(** ** Claims *)

(** C18: One period of the kernel: the timer's interrupt pending and edge-triggered
    (as [gic_v3_initialize] sets it up) and no lower-numbered one pending, with
    a current task whose preemption count is 0 and a running successor in the
    ring, counts one jiffy, ends the pending state of that interrupt and of no
    other, re-arms the timer [ticks] cycles ahead, and hands the CPU to the
    successor: a new process enters user mode with the registers of its frame,
    any other task returns with the registers it had. *)
Theorem timer_tick_correct {G : Type} `{GicDevice G} (ret_from_fork switch_ret : Z) (m : machine G)
    (cur q : Z) (qs : list Z) (tc : task_struct) :
  ret_from_fork <> switch_ret -> ring ret_from_fork switch_ret (sys m) cur (q :: qs) ->
  in_stack cur (callee (sys m)) -> tasks (sys m) !! cur = Some tc -> preempt_count tc = 0 ->
  task_state (sys m) q = TASK_RUNNING ->
  edge (look (gic m)) TIMER_IRQ = true ->
  pending (look (gic m)) TIMER_IRQ = true -> (forall j, 0 <= j < TIMER_IRQ -> pending (look (gic m)) j = false) ->
  0 < ticks m -> 0 <= CNTVCT_EL0 (mcpu m) -> CNTVCT_EL0 (mcpu m) + ticks m < 2 ^ 64 ->
  exists m' tq, irq_dispatch ret_from_fork switch_ret m = Some m' /\
    tasks (sys m) !! q = Some tq /\ ring ret_from_fork switch_ret (sys m') q (qs ++ [cur]) /\
    dispatched ret_from_fork switch_ret (sys m) (sys m') q tq /\ stopped switch_ret (sys m') cur (callee (sys m)) /\
    jiffies m' = u64 (jiffies m + 1) /\ ticks m' = ticks m /\
    cntv_enabled (mcpu m') = true /\ CNTV_CVAL_EL0 (mcpu m') = CNTVCT_EL0 (mcpu m) + ticks m /\
    (forall i, 0 <= i < GIC_INT_MAX ->
       pending (look (gic m')) i = pending (look (gic m)) i && negb (i =? TIMER_IRQ)).
Proof.
  intros Hd Hr Hin Htc H0 Hst He Hp Hl Ht Hc0 Hc. rewrite (irq_dispatch_timer _ _ m Hp Hl), timer_handler_eq.
  destruct (tick_switch ret_from_fork switch_ret Hd (sys (rearmed m)) cur q qs tc (rearmed_ring _ _ m _ _ Hr) Hin Htc H0 Hst)
    as (s' & tq & E & Htq & Hr' & [F1 F2 F3 F4 F5 F6 F7 F8 (F9 & F10)] & [D1 D2 D3 D4 D5]).
  rewrite E, bind_Some. exists (set_sys s' (rearmed m)), tq.
  split_and!; [done|done|done|by split| |done|done| | |].
  - split; [cbn [sys set_sys]; rewrite F6; apply lookup_insert_eq|]. cbn [sys set_sys]. rewrite F1. by eexists.
  - unfold cntv_enabled, mcpu. cbn [sys set_sys]. rewrite F9. apply (rearmed_cpu m).
  - unfold mcpu at 1. cbn [sys set_sys]. rewrite F10. cbn [kh set_next_task].
    change (CNTV_CVAL_EL0 (mcpu (rearmed m)) = CNTVCT_EL0 (mcpu m) + ticks m).
    rewrite (proj1 (proj2 (rearmed_cpu m))). change (2 ^ 64) with 18446744073709551616 in *. word_lia.
  - intros i Hi. cbn [gic set_sys rearmed on_mcpu set_jiffies set_gic].
    apply clear_pending_edge; [done|done|lia].
Qed.

(** Any other interrupt leaves the kernel alone, and none at all only prints the
    message; in both cases nothing is acknowledged. *)
Theorem irq_dispatch_ignores {G : Type} `{GicDevice G} (ret_from_fork switch_ret : Z) (m : machine G) :
  pending (look (gic m)) TIMER_IRQ = false \/ (exists j, 0 <= j < TIMER_IRQ /\ pending (look (gic m)) j = true) ->
  exists m', irq_dispatch ret_from_fork switch_ret m = Some m' /\ sys m' = sys m /\ gic m' = gic m /\
    jiffies m' = jiffies m /\
    ((exists i, 0 <= i < GIC_INT_MAX /\ pending (look (gic m)) i = true) -> console m' = console m) /\
    ((forall i, 0 <= i < GIC_INT_MAX -> pending (look (gic m)) i = false) -> console m' = console m ++ irq_not_found_msg).
Proof.
  intros Hp. unfold irq_dispatch, gic_v3_find_pending_irq. change (Z.to_nat GIC_INT_MAX) with 64%nat.
  change GIC_INT_MAX with 64. change TIMER_IRQ with 27 in *.
  rewrite find_pending_loop_spec by lia. destruct (find_up_spec 64 0 (pending (look (gic m)))) as (H1 & H2 & H3).
  cbn zeta. set (i := find_up _ _ _) in *. destruct (Z.ltb_spec i (0 + Z.of_nat 64)) as [Hlt|Hge].
  - change (IRQ_FOUND =? IRQ_NOT_FOUND) with false. cbn iota. specialize (H3 Hlt).
    assert (i <> 27) as Hi.
    { intros Ei. destruct Hp as [Hp|(j & Hj & Hp)]; [by rewrite Ei, Hp in H3|]. rewrite H2 in Hp by lia. done. }
    destruct (Z.eqb_spec i 27) as [|_]; [done|]. eexists. split; [done|]. split_and!; try done.
    intros Hn. rewrite Hn in H3 by lia. done.
  - change (IRQ_NOT_FOUND =? IRQ_NOT_FOUND) with true. cbn iota. eexists. split; [done|]. split_and!; try done.
    intros (j & Hj & Hpj). rewrite H2 in Hpj by lia. done.
Qed.

(** [timer_init]: the registers of the timer and the controller change. *)
Lemma timer_init_spec {G : Type} `{GicDevice G} (fuel : nat) (m : machine G) :
  0 <= CNTFRQ_EL0 (mcpu m) < 2 ^ 32 -> 0 <= CNTVCT_EL0 (mcpu m) -> CNTVCT_EL0 (mcpu m) + 2 ^ 32 <= 2 ^ 64 ->
  exists m', timer_init fuel m = Some m' /\
    (exists f, sys m' = on_cpu f (sys m)) /\ console m' = console m /\
    ticks m' = 10 * (CNTFRQ_EL0 (mcpu m) / 1000) /\
    cntv_enabled (mcpu m') = true /\ CNTV_CVAL_EL0 (mcpu m') = CNTVCT_EL0 (mcpu m) + ticks m' /\ CNTVCT_EL0 (mcpu m') = CNTVCT_EL0 (mcpu m) /\
    (forall i, GIC_INTNO_PPI0 <= i < GIC_INT_MAX -> enabled (look (gic m')) i = (i =? TIMER_IRQ)) /\
    jiffies m' = jiffies m.
Proof.
  change (2 ^ 32) with 4294967296. change (2 ^ 64) with 18446744073709551616.
  intros Hq Hc0 Hc. destruct (gic_v3_initialize_spec fuel (gic m)) as (g & E & _ & He & _).
  unfold timer_init. rewrite E, bind_Some. cbn zeta. eexists. split; [done|].
  set (m' := on_mcpu enable_cntv _).
  assert (Hsys : exists f, sys m' = on_cpu f (sys m)).
  { exists (fun c => enable_cntv (raw_write_cntv_cval_el0 (raw_read_cntvct_el0 (disable_cntv (mcpu m)) + ticks m') (disable_cntv c))). done. }
  assert (Ht : ticks m' = 10 * (CNTFRQ_EL0 (mcpu m) / 1000)).
  { cbn. unfold raw_read_cntfrq_el0, TIMER_PERIOD_MS. cbn. unfold mcpu in *. word_lia. }
  assert (Hv : CNTV_CVAL_EL0 (mcpu m') = u64 (u64 (CNTVCT_EL0 (mcpu m)) + ticks m')) by done.
  assert (Hct : CNTVCT_EL0 (mcpu m') = CNTVCT_EL0 (mcpu m)) by done.
  assert (Hon : cntv_enabled (mcpu m') = true) by apply enable_cntv_on.
  assert (Hv' : CNTV_CVAL_EL0 (mcpu m') = CNTVCT_EL0 (mcpu m) + ticks m').
  { rewrite Hv. rewrite Ht in *. word_lia. }
  assert (Hg : gic m' = g) by done. assert (Hj : jiffies m' = jiffies m) by done. assert (Hco : console m' = console m) by done.
  clearbody m'. rewrite Hg. by split_and!.
Qed.

(** [timer_init] on a 32-bit counter frequency: ten milliseconds of cycles
    (rounded to whole kilohertz), the timer on and due that many cycles ahead,
    the controller set up with only the timer's interrupt enabled. *)
Theorem timer_init_correct {G : Type} `{GicDevice G} (fuel : nat) (m : machine G) :
  0 <= CNTFRQ_EL0 (mcpu m) < 2 ^ 32 -> 0 <= CNTVCT_EL0 (mcpu m) -> CNTVCT_EL0 (mcpu m) + 2 ^ 32 <= 2 ^ 64 ->
  exists m', timer_init fuel m = Some m' /\
    ticks m' = 10 * (CNTFRQ_EL0 (mcpu m) / 1000) /\
    100 * ticks m' <= CNTFRQ_EL0 (mcpu m) < 100 * ticks m' + 1000 /\
    cntv_enabled (mcpu m') = true /\ CNTV_CVAL_EL0 (mcpu m') = CNTVCT_EL0 (mcpu m) + ticks m' /\
    (1000 <= CNTFRQ_EL0 (mcpu m) -> cntv_asserted (mcpu m') = false) /\
    (forall i, GIC_INTNO_PPI0 <= i < GIC_INT_MAX -> enabled (look (gic m')) i = (i =? TIMER_IRQ)) /\
    jiffies m' = jiffies m.
Proof.
  intros Hq Hc0 Hc. destruct (timer_init_spec fuel m Hq Hc0 Hc) as (m' & E & _ & _ & Ht & Hon & Hv & Hct & He & Hj).
  exists m'. change (2 ^ 32) with 4294967296 in *.
  split_and!; [done|done|rewrite Ht; Z.div_mod_to_equations; lia|rewrite Ht; Z.div_mod_to_equations; lia|done|done| |exact He|done].
  intros Hk. unfold cntv_asserted. rewrite Hon, Hct, Hv, Ht. zcase; [Z.div_mod_to_equations; lia|done].
Qed.

(** ** Witnesses *)

(** The board with the timer's interrupt and interrupt 40 pending. *)
Definition machine0 : machine gic_view :=
  {| sys := ksys0; gic := board0; jiffies := 4; ticks := 10; console := [] |}.

Lemma board0_below j : 0 <= j < TIMER_IRQ -> pending board0 j = false.
Proof.
  intros Hj. change TIMER_IRQ with 27 in Hj. unfold pending. cbn [board0 line latch]. rewrite andb_false_r, orb_false_r.
  zcases; done.
Qed.

Example timer_tick_correct_witness :
  exists m m' q, irq_dispatch 1 2 m = Some m' /\ ring 1 2 (sys m') q [init0] /\ jiffies m' = 5 /\
    pending (look (gic m')) TIMER_IRQ = false.
Proof.
  destruct two_tasks as (s & q & t & Hr & Et & Hq & Ec & Ht & Hal).
  set (m := {| sys := on_cpu (fun _ => cpu_init) s; gic := board0; jiffies := 4; ticks := 10; console := [] |} : machine gic_view).
  destruct (timer_tick_correct 1 2 m init0 q [] (with_state TASK_RUNNING (with_canary CANARY_MAGIC_NUM zero_task))
              ltac:(discriminate)) as (m' & tq & E & _ & Hr' & _ & _ & Hj & _ & _ & _ & Hp).
  - exact (ring_frame 1 2 s (sys m) _ _ Hr eq_refl eq_refl eq_refl eq_refl eq_refl eq_refl).
  - cbn. rewrite Ec. split; [discriminate|reflexivity].
  - cbn. rewrite Et, lookup_insert_ne by done. apply lookup_singleton_eq.
  - reflexivity.
  - exact (two_running s q t Et Hq Ht q ltac:(right; left)).
  - vm_compute. reflexivity.
  - vm_compute. reflexivity.
  - exact board0_below.
  - reflexivity.
  - discriminate.
  - reflexivity.
  - exists m, m', q. split; [exact E|]. split; [exact Hr'|]. split; [rewrite Hj; reflexivity|].
    rewrite (Hp TIMER_IRQ ltac:(split; [discriminate|reflexivity])). apply andb_false_r.
Defined.

Example irq_dispatch_ignores_witness :
  exists m', irq_dispatch 1 2 {| sys := ksys0; gic := gicd_clear_pending 40 (gicd_clear_pending 27 board0);
                                 jiffies := 4; ticks := 10; console := [] |} = Some m' /\ jiffies m' = 4.
Proof.
  destruct (irq_dispatch_ignores 1 2 {| sys := ksys0; gic := gicd_clear_pending 40 (gicd_clear_pending 27 board0);
              jiffies := 4; ticks := 10; console := [] |} ltac:(left; reflexivity)) as (m' & E & _ & _ & Hj & _).
  exists m'. split; [exact E|exact Hj].
Defined.

Example timer_init_correct_witness :
  exists m', timer_init 1 {| sys := on_cpu (fun c => set_cntfrq 62500000 c) ksys0; gic := board0; jiffies := 0; ticks := 0; console := [] |}
      = Some m' /\ ticks m' = 625000.
Proof.
  destruct (timer_init_correct 1 {| sys := on_cpu (fun c => set_cntfrq 62500000 c) ksys0; gic := board0; jiffies := 0;
              ticks := 0; console := [] |}) as (m' & E & Ht & _).
  - split; [discriminate|reflexivity].
  - discriminate.
  - discriminate.
  - exists m'. split; [exact E|]. rewrite Ht. reflexivity.
Defined.
