(* ===== verification/Process.v ===== *)
(** kernel/task.c: user processes.  [copy_process] builds an address space and a
    task for a program, [delete_process] and [clear_zombie] take a finished one
    away, [task_nums] counts the ring.

    Writes to a user address go through the translation of the table in TTBR0;
    a [struct mm_struct] lives in its heap block. *)

From S2P Require Import Prelude Mem Lib DList Page PageTable Aarch64 Kmalloc Heap Task.
Local Open Scope Z_scope.

(** ** Building a process *)

Section Create.
Variable ret_from_fork : Z.

Definition kram (s : ksys) : mem := ram (kphys (kh s)).
Definition set_ram (m : mem) (s : ksys) : ksys := set_kh (set_kram m (kh s)) s.

(** The kernel's own address of the byte the user address [a] is mapped to. *)
Definition user_byte (m : mem) (root a : Z) : option Z :=
  let! pg := translate m root a in Some (__va pg + a mod 4096).

(** [memcpy(dst, src, size)] with [dst] a user address: [int i] counts up. *)
Fixpoint copy_to_user (fuel : nat) (dst src size i : Z) (s : ksys) : option ksys :=
  match fuel with
  | O => None
  | S f =>
      if u64 i <? size then
        let! a := user_byte (kram s) (TTBR0_EL1 (kcpu (kh s))) (dst + i) in
        copy_to_user f dst src size (s32 (i + 1)) (set_ram (stb (kram s) a (ldb (kram s) (src + i))) s)
      else Some s
  end.

(** Run an operation on the [struct mm_struct] at [p]: its fields are read, and
    written back. *)
Definition on_mm (p : Z) (f : phys -> mm_struct -> option (phys * mm_struct)) (s : ksys) : option ksys :=
  let! '(ph, mm) := f (kphys (kh s)) (load_mm (kram s) p) in
  Some (set_kh (set_phys {| ram := store_mm p mm (ram ph); mem_map := mem_map ph |} (kh s)) s).

Definition zero_regs : pt_regs := {| pt_x := replicate 31 0; pt_sp := 0; pt_pc := 0; pt_spsr := 0 |}.
Definition upd_frame (a : Z) (f : pt_regs -> pt_regs) (s : ksys) : option ksys :=
  let! r := frames s !! a in Some (set_frames (<[a := f r]> (frames s)) s).
Definition with_pt_sp (v : Z) (r : pt_regs) : pt_regs :=
  {| pt_x := pt_x r; pt_sp := v; pt_pc := pt_pc r; pt_spsr := pt_spsr r |}.
Definition with_pt_pc (v : Z) (r : pt_regs) : pt_regs :=
  {| pt_x := pt_x r; pt_sp := pt_sp r; pt_pc := v; pt_spsr := pt_spsr r |}.
Definition with_pt_spsr (v : Z) (r : pt_regs) : pt_regs :=
  {| pt_x := pt_x r; pt_sp := pt_sp r; pt_pc := pt_pc r; pt_spsr := v |}.

Definition switch_to_mm (p : Z) (s : ksys) : ksys := on_cpu (switch_mm (mm_at s p)) s.

(** The descriptor and the frame above the kernel stack: [p] and [new]. *)
Definition new_user_task (s : ksys) : option (Z * Z * ksys) :=
  let! '(p, s) := new_task_page s in
  let new := u64 (p + STACK_SZ - sizeof_pt_regs) in
  let s := set_frames (<[new := zero_regs]> (frames s)) s in
  let s := set_tasks (<[p := zero_task]> (tasks s)) s in
  let! s := upd_task p (fun t => with_preempt 0 (with_context
              (with_sp new (with_x19 0 (with_pc ret_from_fork (context t)))) t)) s in
  Some (p, new, s).

(** The address space: an [mm_struct] with an empty root table. *)
Definition new_user_mm (p : Z) (s : ksys) : option (Z * ksys) :=
  let! '(mm, h) := kmalloc sizeof_mm_struct (kh s) in
  let! s := upd_task p (with_mm mm) (set_kh h s) in
  let! '(va, h) := kget_free_page (kh s) in
  let s := set_kh (set_kram (st64 (ram (kphys h)) mm (__pa va)) h) s in
  let! s := upd_task p (fun t => with_context (with_x20 (ld64 (kram s) mm) (context t)) t) s in
  Some (mm, s).

Definition copy_process (start size : Z) (s : ksys) : option ksys :=
  let! s := preempt_disable s in
  let! '(p, new, s) := new_user_task s in
  let! '(mm, s) := new_user_mm p s in
  let! s := on_mm mm (fun ph m => alloc_user_pages ph m (USER_MAX - USER_STACK_SZ) USER_STACK_SZ) s in
  let! s := upd_frame new (with_pt_sp USER_MAX) s in
  let! s := on_mm mm (fun ph m => alloc_user_pages ph m USER_START size) s in
  let! s := upd_frame new (with_pt_pc USER_START) s in
  let s := switch_to_mm mm s in
  let! s := copy_to_user (S (Z.to_nat size)) USER_START start size 0 s in
  let! t := tasks s !! current s in
  let s := switch_to_mm (t_mm t) s in
  let! s := upd_frame new (with_pt_spsr PSR_MODE_EL0t) s in
  let! s := upd_task p (with_canary CANARY_MAGIC_NUM) s in
  let! s := task_add p s in
  preempt_enable s.
End Create.

(** ** Removing a process *)

(** Free the pages of the recorded areas, up to the first empty slot. *)
Fixpoint free_areas (l : list vm_area_struct) (h : kheap) : option kheap :=
  match l with
  | [] => Some h
  | v :: l' =>
      if negb (pa v =? 0)
      then let! h := kfree_page (__va (pa v)) h in free_areas l' h
      else Some h
  end.

(** Free every recorded table. *)
Fixpoint free_tables (l : list Z) (h : kheap) : option kheap :=
  match l with
  | [] => Some h
  | a :: l' =>
      let! h := if negb (a =? NULL) then kfree_page a h else Some h in
      free_tables l' h
  end.

(** A process without address space makes the code follow a NULL [mm]. *)
Definition delete_process (p : Z) (s : ksys) : option ksys :=
  if p =? NULL then Some s
  else
    let! t := tasks s !! p in
    if negb (state t =? TASK_ZOMBIE) then Some s
    else
      let! n := list_del (nodes s) (task_list p) in
      let s := set_nodes n s in
      let! mm := mm_at s (t_mm t) in
      let! h := free_areas (vma mm) (kh s) in
      let! h := free_tables (pgtbl_page mm) h in
      let! h := kfree_page p h in
      Some (set_kh h s).

(** [list_for_each] over the ring, following the links the body leaves. *)
Fixpoint clear_from (fuel : nat) (pos : Z) (s : ksys) : option ksys :=
  match fuel with
  | O => None
  | S f =>
      if pos =? task_list (init_task s) then Some s
      else
        let tmp := list_entry pos in
        let! t := tasks s !! tmp in
        let! s := if state t =? TASK_ZOMBIE then delete_process tmp s else Some s in
        let! n := get_next (nodes s) pos in
        clear_from f n s
  end.

Definition clear_zombie (fuel : nat) (s : ksys) : option ksys :=
  let! s := preempt_disable s in
  let! n := get_next (nodes s) (task_list (init_task s)) in
  let! s := clear_from fuel n s in
  preempt_enable s.

(** The initial task is not on its own list. *)
Definition task_nums (fuel : nat) (s : ksys) : option Z :=
  let! l := list_for_each fuel (nodes s) (task_list (init_task s)) in
  Some (Z.of_nat (length l) + 1).

(** ** A [struct mm_struct] in memory *)

Section Stored.
Implicit Types (m : mem) (a b : Z) (l : list Z) (mm : mm_struct).

Lemma ldb_store_words l a m b : b < a \/ a + 8 * Z.of_nat (length l) <= b -> ldb (store_words a l m) b = ldb m b.
Proof.
  revert a m. induction l as [|x l IH]; intros a m Hb; cbn [store_words length] in *; [done|].
  rewrite IH by lia. apply (ldb_st_ne 8). lia.
Qed.

Lemma ld64_store_words l a m i x :
  l !! i = Some x -> word x -> ld64 (store_words a l m) (a + 8 * Z.of_nat i) = x.
Proof.
  revert a m i. induction l as [|y l IH]; intros a m i Hi Hx; [done|]. cbn [store_words].
  destruct i as [|i]; cbn in Hi.
  - injection Hi as ->. rewrite Z.add_0_r.
    rewrite (ld_agree 8 (st64 m a x)); [by apply ld64_st64_eq|]. intros b Hb. apply ldb_store_words. lia.
  - replace (a + 8 * Z.of_nat (S i)) with (a + 8 + 8 * Z.of_nat i) by lia. by apply IH.
Qed.

Lemma vma_words (l : list vm_area_struct) (r : list Z) (i : nat) v :
  l !! i = Some v ->
  (concat (map (fun v => [va v; pa v]) l) ++ r) !! (2 * i)%nat = Some (va v) /\
  (concat (map (fun v => [va v; pa v]) l) ++ r) !! (2 * i + 1)%nat = Some (pa v).
Proof.
  revert i. induction l as [|w l IH]; intros i Hi; [done|]. destruct i as [|i]; cbn in Hi.
  - injection Hi as ->. done.
  - replace (2 * S i)%nat with (S (S (2 * i))) by lia. cbn [concat map app lookup list_lookup Nat.add]. by apply IH.
Qed.

Lemma length_vma_words (l : list vm_area_struct) : length (concat (map (fun v => [va v; pa v]) l)) = (2 * length l)%nat.
Proof. induction l as [|v l IH]; cbn [concat map app length]; [done|]. rewrite IH. lia. Qed.

Lemma length_mm_words mm : words_ok mm -> length (mm_words mm) = 41%nat.
Proof.
  intros [_ _ _ Hv Ht]. unfold mm_words. cbn [length]. rewrite length_app, length_vma_words.
  change MAX_USER_PAGES with 16 in Hv. change MAX_PGTBL_PAGES with 8 in Ht. lia.
Qed.

Lemma load_store_mm a mm m : words_ok mm -> load_mm (store_mm a mm m) a = mm.
Proof.
  intros Hw. pose proof Hw as [Hp Hv Ht Hlv Hlt]. change MAX_USER_PAGES with 16 in Hlv. change MAX_PGTBL_PAGES with 8 in Hlt.
  unfold load_mm, store_mm. destruct mm as [g vs ts]. cbn [pgd vma pgtbl_page] in *. set (w := mm_words _). f_equal.
  - rewrite <- (ld64_store_words w a m 0 g) by done. f_equal. lia.
  - apply list_eq_same_length with (n := 16%nat); [lia|done|]. intros i x y Hi Ex Ey.
    rewrite list_lookup_fmap, lookup_seq_lt in Ex by done. injection Ex as <-.
    pose proof (Forall_lookup_1 _ _ _ _ Hv Ey) as [H1 H2].
    destruct (vma_words vs ts i y Ey) as [E1 E2]. destruct y as [yv yp]. cbn [va pa] in *. f_equal.
    + rewrite <- (ld64_store_words w a m (S (2 * i)) yv) by done. f_equal. lia.
    + rewrite <- (ld64_store_words w a m (S (2 * i + 1)) yp) by done. f_equal. lia.
  - apply list_eq_same_length with (n := 8%nat); [lia|done|]. intros i x y Hi Ex Ey.
    rewrite list_lookup_fmap, lookup_seq_lt in Ex by done. injection Ex as <-.
    pose proof (Forall_lookup_1 _ _ _ _ Ht Ey) as H1.
    rewrite <- (ld64_store_words w a m (33 + i) y); [f_equal; lia| |done].
    change (w !! (33 + i)%nat) with ((concat (map (fun v => [va v; pa v]) vs) ++ ts) !! (32 + i)%nat).
    rewrite lookup_app_r by (rewrite length_vma_words; lia). rewrite length_vma_words, <- Ey. f_equal. lia.
Qed.

Lemma store_mm_other a mm m b : words_ok mm -> b < a \/ a + 328 <= b -> ldb (store_mm a mm m) b = ldb m b.
Proof. intros Hw Hb. apply ldb_store_words. rewrite length_mm_words by done. lia. Qed.
End Stored.

(** ** What building an address space leaves alone *)

Section Grown.
Implicit Types (A ph : phys) (root lo hi k : Z) (p q tgt : list Z).

(** From [A] to [ph] used pages stay used and keep their bytes, except in
    [lo, hi). *)
Record grown A lo hi ph : Prop := {
  gr_map : map_ok (mem_map ph);
  gr_count : forall k c, count_of (mem_map A) k = Some c -> c <> 0 -> count_of (mem_map ph) k = Some c;
  gr_bytes : forall k c b, pfn_ok k -> count_of (mem_map A) k = Some c -> c <> 0 ->
    page_va k <= b < page_va k + 4096 -> b < lo \/ hi <= b -> ldb (ram ph) b = ldb (ram A) b }.

(** Every page of the address space was free in [A]. *)
Definition fresh_space A ph root : Prop :=
  forall p x, (length p <= 4)%nat -> Forall idx_ok p -> walk (ram ph) root p = Some x ->
    exists k, x = pfn_to_pa k /\ pfn_ok k /\ count_of (mem_map A) k = Some 0.

Lemma grown_free A lo hi ph k :
  map_ok (mem_map A) -> grown A lo hi ph -> pfn_ok k -> count_of (mem_map ph) k = Some 0 -> count_of (mem_map A) k = Some 0.
Proof.
  intros Hm Hg Hk H0. destruct (count_of_Some _ k Hm Hk) as [c Hc].
  destruct (decide (c = 0)) as [->|Hne]; [done|]. rewrite (gr_count _ _ _ _ Hg k c Hc Hne) in H0. congruence.
Qed.

Lemma grown_step A lo hi ph ph' root :
  map_ok (mem_map A) -> grown A lo hi ph -> fresh_space A ph root -> pt_grow 4 ph ph' root -> map_ok (mem_map ph') ->
  grown A lo hi ph' /\ fresh_space A ph' root.
Proof.
  intros Hm Hg Hf [Hn Hc Hd] Hm'. split; [split; [done| |]|].
  - intros k c Hk Hne. apply Hc; [|done]. by apply (gr_count _ _ _ _ Hg).
  - intros k c b Hk Hck Hne Hb Hout. rewrite <- (gr_bytes _ _ _ _ Hg k c b Hk Hck Hne Hb Hout).
    apply (Hd k c); [done|by apply (gr_count _ _ _ _ Hg)|done| |done].
    intros p Hl Hp Hw. destruct (Hf p _ ltac:(lia) Hp Hw) as (k' & E & Hk' & H0).
    rewrite !pfn_to_pa_eq in E by done. assert (k = k') as -> by lia. congruence.
  - intros p x Hl Hp Hw. destruct (Hn p x Hl Hp Hw) as [Hw'|(k & Hk & -> & H0)]; [by apply (Hf p)|].
    exists k. split_and!; [done|done|]. by eapply grown_free.
Qed.

(** Walks only read the entries of the tables they pass. *)
Lemma walk_tables_same m m' root p :
  (forall q i x, q ++ [i] `prefix_of` p -> walk m root q = Some x ->
     ld64 m' (entry_addr x i) = ld64 m (entry_addr x i)) ->
  walk m' root p = walk m root p.
Proof.
  revert root. induction p as [|i p IH]; intros root H; cbn [walk]; [done|].
  rewrite (H [] i root) by (try apply prefix_cons, prefix_nil; done). zcase; [done|]. apply IH.
  intros q j x Hq Hw. apply (H (i :: q)); [by apply prefix_cons|]. cbn. by zcase.
Qed.

(** Bytes that belong to no table of the address space can change. *)
Lemma walks_kept A ph m' root p :
  pt_wf 4 ph root -> fresh_space A ph root -> (length p <= 4)%nat -> Forall idx_ok p ->
  (forall k b q, pfn_ok k -> page_va k <= b < page_va k + 4096 -> count_of (mem_map A) k = Some 0 ->
     (length q < 4)%nat -> Forall idx_ok q -> walk (ram ph) root q = Some (pfn_to_pa k) -> ldb m' b = ldb (ram ph) b) ->
  walk m' root p = walk (ram ph) root p.
Proof.
  intros Hwf Hf Hl Hp Hsame. apply walk_tables_same. intros q i x [r ->] Hw.
  rewrite !length_app in Hl. cbn in Hl. apply Forall_app in Hp as [Hp _]. apply Forall_app in Hp as [Hq Hi]. rewrite Forall_singleton in Hi.
  destruct (Hf q x ltac:(lia) Hq Hw) as (k & -> & Hk & H0). pose proof (entry_in_page k i Hk Hi).
  apply (ld_agree 8). intros b Hb. apply (Hsame k b q); try done; lia.
Qed.

Lemma space_kept A ph m' root :
  pt_wf 4 ph root -> fresh_space A ph root ->
  (forall p, (length p <= 4)%nat -> Forall idx_ok p -> walk m' root p = walk (ram ph) root p) ->
  pt_wf 4 {| ram := m'; mem_map := mem_map ph |} root /\ fresh_space A {| ram := m'; mem_map := mem_map ph |} root.
Proof.
  intros [Hm Hok Htree] Hf Hw. split; [split|].
  - done.
  - intros p x Hl Hp. cbn. rewrite Hw by done. by apply Hok.
  - intros p q x Hl1 Hl2 Hp Hq. cbn. rewrite !Hw by done. by apply Htree.
  - intros p x Hl Hp. cbn. rewrite Hw by done. by apply Hf.
Qed.

(** Writing in [lo, hi), which lies in used pages, keeps the address space. *)
Lemma grown_write A lo hi ph m' root :
  grown A lo hi ph -> pt_wf 4 ph root -> fresh_space A ph root ->
  (exists k c, pfn_ok k /\ count_of (mem_map A) k = Some c /\ c <> 0 /\ page_va k <= lo /\ hi <= page_va k + 4096) ->
  (forall b, b < lo \/ hi <= b -> ldb m' b = ldb (ram ph) b) ->
  grown A lo hi {| ram := m'; mem_map := mem_map ph |} /\
  pt_wf 4 {| ram := m'; mem_map := mem_map ph |} root /\ fresh_space A {| ram := m'; mem_map := mem_map ph |} root /\
  (forall p, (length p <= 4)%nat -> Forall idx_ok p -> walk m' root p = walk (ram ph) root p).
Proof.
  intros Hg Hwf Hf (k0 & c0 & Hk0 & Hc0 & Hn0 & Hlo & Hhi) Hm'.
  assert (Hw : forall p, (length p <= 4)%nat -> Forall idx_ok p -> walk m' root p = walk (ram ph) root p).
  { intros p Hl Hp. apply (walks_kept A); try done. intros k b q Hk Hb H0 _ _ _. apply Hm'.
    assert (k <> k0) by congruence. unfold page_va in *. lia. }
  destruct (space_kept A ph m' root Hwf Hf Hw) as [H1 H2]. split_and!; try done.
  destruct Hg as [G1 G2 G3]. split; [done|done|]. intros k c b Hk Hc Hne Hb Hout. cbn. rewrite Hm' by done. by eapply G3.
Qed.
End Grown.

(** ** The address space under construction *)

Section Build.
Context (A : phys) (mm root : Z).
Hypotheses (HA : map_ok (mem_map A))
  (Hmm : exists k c, pfn_ok k /\ count_of (mem_map A) k = Some c /\ c <> 0 /\ page_va k <= mm /\ mm + 328 <= page_va k + 4096).
Implicit Types (ph : phys) (v : mm_struct) (i top a q : Z) (extra : nat).

(** [v], the structure stored at [mm], describes the tables under [root], all of
    pages that were free in [A]; [i] pages and at most [top] tables are recorded. *)
Record built ph v i top extra : Prop := {
  bt_load : load_mm (ram ph) mm = v;
  bt_words : words_ok v;
  bt_root : pgd v = root;
  bt_wf : pt_wf 4 ph root;
  bt_grown : grown A mm (mm + 328) ph;
  bt_fresh : fresh_space A ph root;
  bt_tables : exists n, mm_ok ph v n /\ n <= top;
  bt_used : forall j, 0 <= j < i -> exists e, arr_get (vma v) j = Some e /\ pa e <> 0;
  bt_empty : forall j, i <= j < MAX_USER_PAGES -> exists e, arr_get (vma v) j = Some e /\ pa e = 0;
  bt_free : free_ge (mem_map ph) extra }.

(** A page of the address space is not the one that holds the structure. *)
Lemma fresh_page ph q b :
  pfn_ok q -> count_of (mem_map A) q = Some 0 -> page_va q <= b < page_va q + 4096 -> b < mm \/ mm + 328 <= b.
Proof.
  intros Hq H0 Hb. destruct Hmm as (k & c & Hk & Hc & Hn & Hlo & Hhi). assert (q <> k) by congruence.
  unfold page_va in *. lia.
Qed.

Lemma mm_ok_walks ph m' v n :
  pgd v = root -> (forall p, (length p <= 4)%nat -> Forall idx_ok p -> walk m' root p = walk (ram ph) root p) ->
  mm_ok ph v n -> mm_ok {| ram := m'; mem_map := mem_map ph |} v n.
Proof.
  intros Hr Hw [H1 H2 H3 H4]. split; [done..|]. intros p x Hp Hl Hi. cbn. rewrite Hr, Hw by (done || lia).
  rewrite <- Hr. by apply H4.
Qed.

Lemma build_pages ph v i top extra start size :
  let cnt := (size + 4095) / 4096 in
  built ph v i top (3 + Z.to_nat cnt + extra) ->
  0 <= start -> start mod 4096 = 0 -> 0 <= size ->
  start mod 2097152 + 4096 * cnt <= 2097152 -> start + 4096 * cnt <= 2 ^ 48 ->
  0 <= i -> i + cnt <= MAX_USER_PAGES -> top + 3 <= MAX_PGTBL_PAGES ->
  (forall k, 0 <= k < cnt -> translate (ram ph) root (start + 4096 * k) = None) ->
  exists ph1 v', alloc_user_pages ph v start size = Some (ph1, v') /\
    let ph' := {| ram := store_mm mm v' (ram ph1); mem_map := mem_map ph1 |} in
    built ph' v' (i + cnt) (top + 3) extra /\
    (forall k, 0 <= k < cnt -> exists q, pfn_ok q /\ count_of (mem_map A) q = Some 0 /\
       translate (ram ph') root (start + 4096 * k) = Some (pfn_to_pa q) /\
       forall b, page_va q <= b < page_va q + 4096 -> ldb (ram ph') b = 0) /\
    (forall a, 0 <= a < 2 ^ 48 -> (forall k, 0 <= k < cnt -> a / 4096 <> (start + 4096 * k) / 4096) ->
       translate (ram ph') root a = translate (ram ph) root a) /\
    (forall a q b, 0 <= a -> pfn_ok q -> translate (ram ph) root a = Some (pfn_to_pa q) ->
       page_va q <= b < page_va q + 4096 -> ldb (ram ph') b = ldb (ram ph) b).
Proof.
  intros cnt [Hload Hwords Hroot Hwf Hgr Hfr (n & Hok & Hn) Hused Hempty Hfree] H1 H2 H3 H4 H5 H6 H7 H8 Hun.
  assert (Hc : 0 <= cnt) by (apply Z.div_pos; lia).
  pose proof (tables_needed_le (ram ph) root start) as Htn.
  destruct (alloc_user_pages_run ph v start i size (top + 3) extra) as (ph1 & v' & E & Hinv); try done.
  { rewrite <- Hroot in *. split; cbn [fst snd]; rewrite ?Z.add_0_r, ?Z.sub_0_r; try done.
    - exists n. split; [done|lia].
    - eapply free_ge_mono; [|exact Hfree]. fold cnt. lia.
    - apply (wo_vmas _ Hwords).
    - intros j Hj. apply Hempty. fold cnt in Hj. lia.
    - intros; lia.
    - apply pt_grow_refl. }
  fold cnt in Hinv. destruct Hinv as [Jwf Jpgd (n' & Jok & Jn) Jfree _ Jused _ _ Jmap Joth Jgrow Jrest].
  cbn [fst snd] in *. rewrite Hroot in *.
  exists ph1, v'. split; [done|]. cbv zeta.
  destruct (grown_step A mm (mm + 328) ph ph1 root HA Hgr Hfr Jgrow (wf_map _ _ _ Jwf)) as [Hgr1 Hfr1].
  pose proof (alloc_user_pages_words _ _ _ _ _ _ E Hwords) as Hwords'.
  destruct (grown_write A mm (mm + 328) ph1 (store_mm mm v' (ram ph1)) root Hgr1 Jwf Hfr1 Hmm) as (Hgr2 & Hwf2 & Hfr2 & Hw2).
  { intros b Hb. by apply store_mm_other. }
  assert (Htr : forall a, 0 <= a -> translate (store_mm mm v' (ram ph1)) root a = translate (ram ph1) root a).
  { intros a Ha. apply Hw2; [done|by apply path_ok]. }
  split_and!.
  - split; cbn [ram mem_map]; try done.
    + by apply load_store_mm.
    + exists n'. split; [by apply mm_ok_walks|lia].
    + intros j Hj. rewrite Jrest by lia. apply Hempty. lia.
    + eapply free_ge_mono; [|exact Jfree]. lia.
  - intros k Hk. destruct (Jmap k Hk) as (q & Hq & H0 & Ht & _ & Hz). exists q.
    assert (HA0 : count_of (mem_map A) q = Some 0) by (by apply (grown_free A mm (mm + 328) ph)). cbn [ram]. split_and!; [done|done| |].
    + rewrite Htr by lia. exact Ht.
    + intros b Hb. rewrite store_mm_other; [by apply Hz|done|by eapply fresh_page].
  - intros a Ha Hk. cbn [ram]. rewrite Htr by lia. by apply Joth.
  - intros a q b Ha Hq Ht Hb. cbn [ram].
    destruct (Hfr (path a) _ ltac:(done) (path_ok a Ha) Ht) as (k & Ek & Hk & H0).
    rewrite !pfn_to_pa_eq in Ek by done. assert (q = k) as -> by lia.
    rewrite store_mm_other; [|done|by eapply fresh_page].
    destruct (wf_ok _ _ _ Hwf (path a) _ ltac:(done) (path_ok a Ha) Ht) as (_ & _ & Hcnt).
    destruct (Hcnt k Hk eq_refl) as (c & Hck & Hne).
    apply (grow_data _ _ _ _ Jgrow k c); try done. intros p Hl Hp Hw.
    assert (p = path a) as -> by (eapply (wf_tree _ _ _ Hwf); [lia|done|done|by apply path_ok|done|done]).
    rewrite path_length in Hl. lia.
Qed.
End Build.

(** ** Loading the program *)

Section Load.
Context (A : phys) (root : Z).
Implicit Types (ph : phys) (m : mem) (s : ksys) (a b j q : Z).

Lemma user_byte_eq ph a :
  fresh_space A ph root -> 0 <= a -> translate (ram ph) root a <> None ->
  exists q, pfn_ok q /\ count_of (mem_map A) q = Some 0 /\ translate (ram ph) root a = Some (pfn_to_pa q) /\
    user_byte (ram ph) root a = Some (page_va q + a mod 4096).
Proof.
  intros Hf Ha Ht. destruct (translate (ram ph) root a) as [x|] eqn:E; [|done].
  destruct (Hf (path a) x ltac:(done) (path_ok a Ha) E) as (q & -> & Hq & H0). exists q. split_and!; try done.
  unfold user_byte. by rewrite E, bind_Some, __va_pfn.
Qed.

Lemma user_byte_inj ph a b x :
  pt_wf 4 ph root -> fresh_space A ph root -> 0 <= a < 2 ^ 48 -> 0 <= b < 2 ^ 48 ->
  user_byte (ram ph) root a = Some x -> user_byte (ram ph) root b = Some x -> a = b.
Proof.
  intros Hwf Hf Ha Hb Ea Eb.
  destruct (user_byte_eq ph a Hf ltac:(lia)) as (q & Hq & _ & Ta & Ua); [unfold user_byte in Ea; by destruct (translate _ _ a)|].
  destruct (user_byte_eq ph b Hf ltac:(lia)) as (r & Hr & _ & Tb & Ub); [unfold user_byte in Eb; by destruct (translate _ _ b)|].
  rewrite Ua in Ea. rewrite Ub in Eb. injection Ea as Ea. injection Eb as Eb.
  pose proof (Z.mod_pos_bound a 4096 ltac:(lia)). pose proof (Z.mod_pos_bound b 4096 ltac:(lia)).
  assert (q = r) as <- by (unfold page_va in *; lia).
  assert (Ep : path a = path b).
  { apply (wf_tree _ _ _ Hwf (path a) (path b) (pfn_to_pa q)); [done|done|apply path_ok; lia|apply path_ok; lia|exact Ta|exact Tb]. }
  apply path_inj in Ep; [|done|done]. Z.div_mod_to_equations. lia.
Qed.

(** A store to a mapped byte. *)
Lemma user_store ph a x v :
  pt_wf 4 ph root -> fresh_space A ph root -> 0 <= a -> user_byte (ram ph) root a = Some x ->
  let ph' := {| ram := stb (ram ph) x v; mem_map := mem_map ph |} in
  pt_wf 4 ph' root /\ fresh_space A ph' root /\
  (forall p, (length p <= 4)%nat -> Forall idx_ok p -> walk (ram ph') root p = walk (ram ph) root p).
Proof.
  intros Hwf Hf Ha Ex ph'.
  destruct (user_byte_eq ph a Hf Ha) as (q & Hq & Hq0 & Tq & Uq); [unfold user_byte in Ex; by destruct (translate _ _ a)|].
  rewrite Uq in Ex. injection Ex as <-. pose proof (Z.mod_pos_bound a 4096 ltac:(lia)).
  assert (Hw : forall p, (length p <= 4)%nat -> Forall idx_ok p -> walk (ram ph') root p = walk (ram ph) root p).
  { intros p Hl Hp. apply (walks_kept A ph); try done. intros k b r Hk Hb _ Hlr Hr Hwr. apply ldb_stb_ne. intros ->.
    assert (k = q) as -> by (unfold page_va in *; lia).
    assert (r = path a) as -> by (eapply (wf_tree _ _ _ Hwf); [lia|done|done|by apply path_ok|done|done]).
    rewrite path_length in Hlr. lia. }
  destruct (space_kept A ph (ram ph') root Hwf Hf Hw). done.
Qed.

(** The copy of [size] bytes to the addresses from 0, all mapped: byte [j] gets
    the byte at [src + j]; nothing but mapped bytes changes. *)
Lemma copy_to_user_spec fuel src size i s :
  TTBR0_EL1 (kcpu (kh s)) = root -> pt_wf 4 (kphys (kh s)) root -> fresh_space A (kphys (kh s)) root ->
  size <= 65536 -> (forall j, 0 <= j < size -> translate (kram s) root j <> None) ->
  (forall j q, 0 <= j < size -> pfn_ok q -> count_of (mem_map A) q = Some 0 -> ~ page_va q <= src + j < page_va q + 4096) ->
  0 <= i <= size -> (Z.to_nat (size - i) < fuel)%nat ->
  exists m, copy_to_user fuel 0 src size i s = Some (set_ram m s) /\
    (forall p, (length p <= 4)%nat -> Forall idx_ok p -> walk m root p = walk (kram s) root p) /\
    (forall j x, i <= j < size -> user_byte (kram s) root j = Some x -> ldb m x = ldb (kram s) (src + j)) /\
    (forall b, (forall j, i <= j < size -> user_byte (kram s) root j <> Some b) -> ldb m b = ldb (kram s) b).
Proof.
  intros Hroot. revert i s Hroot. induction fuel as [|fuel IH]; intros i s Hroot Hwf Hf Hsz Hmap Hsrc Hi Hfu; [lia|]. cbn [copy_to_user].
  rewrite wrap_small by (change (2 ^ 64) with 18446744073709551616; lia). destruct (Z.ltb_spec i size).
  2: { exists (kram s). split; [|split_and!; [done|intros; lia|done]]. destruct s as [[? [] ? ? ?]]. done. }
  destruct (user_byte_eq (kphys (kh s)) i Hf ltac:(lia) (Hmap i ltac:(lia))) as (q & Hq & Hq0 & _ & Ui).
  rewrite Z.add_0_l, Hroot. change (ram (kphys (kh s))) with (kram s) in Ui. rewrite Ui, bind_Some.
  rewrite swrap_small by (done || (change (2 ^ (32 - 1)) with 2147483648; lia)).
  set (x := page_va q + i mod 4096) in *. set (s1 := set_ram (stb (kram s) x (ldb (kram s) (src + i))) s).
  pose proof (Z.mod_pos_bound i 4096 ltac:(lia)).
  destruct (user_store (kphys (kh s)) i x (ldb (kram s) (src + i)) Hwf Hf ltac:(lia) Ui) as (Hwf1 & Hf1 & Hw1).
  assert (Hub : forall j, 0 <= j -> user_byte (kram s1) root j = user_byte (kram s) root j).
  { intros j Hj. unfold user_byte, translate. f_equal. apply Hw1; [done|by apply path_ok]. }
  destruct (IH (i + 1) s1) as (m & E & Hw & Hby & Hk); try done; try lia.
  { intros j Hj E. apply (Hmap j Hj). unfold translate in *. rewrite <- E. symmetry. apply Hw1; [done|apply path_ok; lia]. }
  exists m. split; [exact E|]. split_and!.
  - intros p Hl Hp. rewrite Hw by done. by apply Hw1.
  - intros j y Hj Ey. destruct (decide (j = i)) as [->|Hne].
    + rewrite Ui in Ey. injection Ey as <-. rewrite Hk.
      * unfold s1, set_ram, kram at 1. cbn. rewrite ldb_stb, Z.eqb_refl. apply wrap_small. apply ldb_range.
      * intros j Hj' E'. rewrite Hub in E' by lia.
        assert (i = j); [|lia]. apply (user_byte_inj (kphys (kh s)) i j x Hwf Hf); [lia|lia|exact Ui|exact E'].
    + rewrite (Hby j y) by (lia || by rewrite Hub by lia). unfold s1, set_ram, kram at 1. cbn. apply ldb_stb_ne.
      intros Ex. apply (Hsrc j q ltac:(lia) Hq Hq0). rewrite Ex. unfold x. lia.
  - intros y Hy. rewrite Hk.
    + unfold s1, set_ram, kram at 1. cbn. apply ldb_stb_ne. intros ->. by apply (Hy i ltac:(lia)).
    + intros j Hj. rewrite Hub by lia. apply Hy. lia.
Qed.
End Load.

(** A structure without recorded pages and tables. *)
Definition clean_mm (v : mm_struct) : Prop := Forall (fun e => pa e = 0) (vma v) /\ Forall (fun x => x = NULL) (pgtbl_page v).

Lemma load_mm_words m a : words_ok (load_mm m a).
Proof.
  split; [apply ld64_range| | |done|done].
  - apply Forall_map, Forall_forall. intros i _. split; apply ld64_range.
  - apply Forall_map, Forall_forall. intros i _. apply ld64_range.
Qed.

Lemma load_mm_rest m m' a :
  (forall b, a + 8 <= b < a + 328 -> ldb m' b = ldb m b) ->
  vma (load_mm m' a) = vma (load_mm m a) /\ pgtbl_page (load_mm m' a) = pgtbl_page (load_mm m a).
Proof.
  intros H. split; apply list_fmap_ext; intros i x [-> Hi]%lookup_seq; cbn in Hi |- *.
  - change MAX_USER_PAGES with 16 in Hi. f_equal; apply (ld_agree 8); intros b Hb; apply H; lia.
  - change MAX_PGTBL_PAGES with 8 in Hi. apply (ld_agree 8); intros b Hb; apply H; lia.
Qed.

Lemma arr_get_Forall {X : Type} (P : X -> Prop) (l : list X) n j :
  Forall P l -> Z.of_nat (length l) = n -> 0 <= j < n -> exists x, arr_get l j = Some x /\ P x.
Proof.
  intros Hl Hn Hj. destruct (arr_get_Some l j ltac:(lia)) as [x E]. exists x. split; [done|].
  unfold arr_get in E. destruct (0 <=? j); [|done]. by eapply Forall_lookup_1.
Qed.

(** The address space before its first page: a cleared root table. *)
Lemma built_start (A : phys) mm extra :
  map_ok (mem_map A) ->
  (exists k c, pfn_ok k /\ count_of (mem_map A) k = Some c /\ c <> 0 /\ page_va k <= mm /\ mm + 328 <= page_va k + 4096) ->
  clean_mm (load_mm (ram A) mm) -> free_ge (mem_map A) (S extra) ->
  exists k ph, get_free_page A = Some (page_va k, ph) /\ pfn_ok k /\ count_of (mem_map A) k = Some 0 /\
    let ph' := {| ram := st64 (ram ph) mm (__pa (page_va k)); mem_map := mem_map ph |} in
    built A mm (pfn_to_pa k) ph' (load_mm (ram ph') mm) 0 0 extra /\
    forall a, 0 <= a -> translate (ram ph') (pfn_to_pa k) a = None.
Proof.
  intros HA Hmm [Hcv Hct] Hfr.
  destruct (get_free_page_spec A HA (free_ge_one _ _ Hfr)) as (k & ph & E & Hk & H0 & Hm & _ & Hcnt & Hram).
  exists k, ph. split_and!; [done..|]. cbv zeta. set (ram' := st64 (ram ph) mm (__pa (page_va k))). cbn [ram mem_map].
  assert (Hz : forall b, page_va k <= b < page_va k + 4096 -> ldb (ram ph) b = 0) by (intros b Hb; rewrite Hram; by zcases).
  assert (Hwf : pt_wf 4 ph (pfn_to_pa k)).
  { split; [done| |].
    - intros p x _ Hp Hw. apply walk_zero in Hw as [_ ->]; [|done..]. apply (tbl_ok_page _ k 1); [done| |done].
      by rewrite Hcnt, Z.eqb_refl.
    - intros p q x _ _ Hp Hq Hwp Hwq. apply walk_zero in Hwp as [-> _]; [|done..]. by apply walk_zero in Hwq as [-> _]. }
  assert (Hkeep : forall j c b, pfn_ok j -> count_of (mem_map A) j = Some c -> c <> 0 -> page_va j <= b < page_va j + 4096 ->
            ldb (ram ph) b = ldb (ram A) b).
  { intros j c b Hj Hc Hne Hb. rewrite Hram. assert (j <> k) by congruence. unfold page_va in *. by zcases. }
  assert (Hgr : grown A mm (mm + 328) ph).
  { split; [done| |].
    - intros j c Hc Hne. rewrite Hcnt. zcase; [congruence|done].
    - intros j c b Hj Hc Hne Hb _. by apply (Hkeep j c). }
  assert (Hf : fresh_space A ph (pfn_to_pa k)).
  { intros p x _ Hp Hw. apply walk_zero in Hw as [_ ->]; [|done..]. by exists k. }
  destruct (grown_write A mm (mm + 328) ph ram' _ Hgr Hwf Hf Hmm) as (Hgr' & Hwf' & Hf' & Hw').
  { intros b Hb. unfold ram'. apply (ldb_st_ne 8). lia. }
  destruct (load_mm_rest (ram A) ram' mm) as [Ev Et].
  { intros b Hb. destruct Hmm as (j & c & Hj & Hc & Hne & Hlo & Hhi). rewrite <- (Hkeep j c b) by (done || lia).
    unfold ram'. apply (ldb_st_ne 8). lia. }
  assert (Hnone : forall p x, p <> [] -> (length p <= 4)%nat -> Forall idx_ok p -> walk ram' (pfn_to_pa k) p <> Some x).
  { intros p x Hne Hl Hp Hw. rewrite Hw' in Hw by done. by apply walk_zero in Hw as [-> _]. }
  assert (Hroot : pgd (load_mm ram' mm) = pfn_to_pa k).
  { cbn. unfold ram'. rewrite ld64_st64_eq; [by apply __pa_page|]. rewrite __pa_page by done. rewrite pfn_to_pa_eq by done. unfold pfn_ok in Hk. rewrite PAGING_PAGES_eq in Hk. lia. }
  split.
  - split; cbn [ram mem_map]; try done.
    + apply load_mm_words.
    + exists 0. split; [|done]. split; [done|done| |].
      * intros j Hj. destruct (arr_get_Forall _ _ MAX_PGTBL_PAGES j Hct ltac:(done) Hj) as (x & Ex & ->).
        exists NULL. rewrite Et. split; [done|]. split; [lia|done].
      * intros p x Hne Hl Hp Hw. rewrite Hroot in Hw. by destruct (Hnone p x Hne ltac:(lia) Hp).
    + intros; lia.
    + intros j Hj. destruct (arr_get_Forall _ _ MAX_USER_PAGES j Hcv ltac:(done) Hj) as (x & Ex & Hx). exists x. by rewrite Ev.
    + by apply (free_ge_alloc (mem_map A) (mem_map ph) extra k (Some 1)).
  - intros a Ha. destruct (translate ram' (pfn_to_pa k) a) as [x|] eqn:Ea; [|done].
    exfalso. apply (Hnone (path a) x); [done|done|by apply path_ok|exact Ea].
Qed.

(** ** [copy_process] step by step *)

Section Run.
Variables (ret_from_fork switch_ret : Z).
Implicit Types (s : ksys) (h : kheap) (p mm start size : Z) (T : gmap Z task_struct) (N : lheap) (F : gmap Z pt_regs).

(** [s] with another heap, tasks, list nodes and frames. *)
Definition mks s h T N F : ksys :=
  {| kh := h; callee := callee s; tasks := T; nodes := N; frames := F;
     callers := callers s; next_task := next_task s; init_task := init_task s; loc := loc s |}.

Lemma upd_task_mks p f s h T N F t : T !! p = Some t -> upd_task p f (mks s h T N F) = Some (mks s h (<[p := f t]> T) N F).
Proof. intros E. unfold upd_task. cbn. by rewrite E. Qed.

Lemma upd_frame_mks a f s h T N F r : F !! a = Some r -> upd_frame a f (mks s h T N F) = Some (mks s h T N (<[a := f r]> F)).
Proof. intros E. unfold upd_frame. cbn. by rewrite E. Qed.

(** The structure [v] stored back at [mm]. *)
Definition stored_at mm (ph : phys) (v : mm_struct) : phys := {| ram := store_mm mm v (ram ph); mem_map := mem_map ph |}.

Lemma on_mm_mks mm f s h T N F ph v :
  f (kphys h) (load_mm (ram (kphys h)) mm) = Some (ph, v) ->
  on_mm mm f (mks s h T N F) = Some (mks s (set_phys (stored_at mm ph v) h) T N F).
Proof. intros E. unfold on_mm, kram. cbn [kh mks]. by rewrite E, bind_Some. Qed.

(** The descriptor and the frame of the new process. *)
Definition user_task p mm root : task_struct :=
  {| context := with_x20 root (with_sp (u64 (p + STACK_SZ - sizeof_pt_regs)) (with_x19 0 (with_pc ret_from_fork zero_context)));
     state := 0; preempt_count := 0; t_mm := mm; filp := replicate (Z.to_nat NR_OPEN) NULL; canary := 0 |}.
Definition user_frame : pt_regs := {| pt_x := replicate 31 0; pt_sp := USER_MAX; pt_pc := USER_START; pt_spsr := PSR_MODE_EL0t |}.

(** The heap with the address space: [P2] is what the two allocations leave. *)
Definition loading s cur tc p mm root h P2 : ksys :=
  let T := <[p := user_task p mm root]> (<[cur := with_preempt (u64 (preempt_count tc + 1)) tc]> (tasks s)) in
  let N := <[task_list p := {| prev := NULL; next := NULL |}]> (nodes s) in
  let F := <[u64 (p + STACK_SZ - sizeof_pt_regs) := with_pt_pc USER_START (with_pt_sp USER_MAX zero_regs)]> (frames s) in
  mks s (set_cpu (set_ttbr0 (pgd (load_mm (ram P2) mm)) (kcpu h)) (set_phys P2 h)) T N F.

(** ... and with the program in it, ready to enter the ring. *)
Definition loaded s cur tc p mm root h P2 m : ksys :=
  let h' := set_kram m (set_cpu (set_ttbr0 (pgd (load_mm (ram P2) mm)) (kcpu h)) (set_phys P2 h)) in
  mks s (set_cpu (switch_mm (if t_mm tc =? NULL then None else Some (load_mm m (t_mm tc))) (kcpu h')) h')
    (<[p := with_canary CANARY_MAGIC_NUM (user_task p mm root)]> (<[cur := with_preempt (u64 (preempt_count tc + 1)) tc]> (tasks s)))
    (<[task_list p := {| prev := NULL; next := NULL |}]> (nodes s))
    (<[u64 (p + STACK_SZ - sizeof_pt_regs) := user_frame]> (frames s)).

Lemma new_user_task_mks s h T N F p h1 :
  kget_free_page h = Some (p, h1) ->
  new_user_task ret_from_fork (mks s h T N F) = Some (p, u64 (p + STACK_SZ - sizeof_pt_regs),
    mks s h1 (<[p := user_task p NULL 0]> T) (<[task_list p := {| prev := NULL; next := NULL |}]> N)
      (<[u64 (p + STACK_SZ - sizeof_pt_regs) := zero_regs]> F)).
Proof.
  intros E. unfold new_user_task, new_task_page. cbn [kh mks]. rewrite E, !bind_Some. cbn zeta.
  rewrite (upd_task_eq _ _ _ zero_task) by apply lookup_insert_eq. rewrite bind_Some. cbn. by rewrite !insert_insert_eq.
Qed.

Lemma new_user_mm_mks s h1 T N F p mm h2 r h3 :
  kmalloc sizeof_mm_struct h1 = Some (mm, h2) -> kget_free_page h2 = Some (r, h3) -> word (__pa r) ->
  let P0 := {| ram := st64 (ram (kphys h3)) mm (__pa r); mem_map := mem_map (kphys h3) |} in
  new_user_mm p (mks s h1 (<[p := user_task p NULL 0]> T) N F) =
  Some (mm, mks s (set_phys P0 h3) (<[p := user_task p mm (__pa r)]> T) N F).
Proof.
  intros E2 E3 Hr P0. unfold new_user_mm. cbn [kh mks]. rewrite E2, bind_Some.
  rewrite (upd_task_eq _ _ _ (user_task p NULL 0)) by apply lookup_insert_eq. rewrite bind_Some. cbn [kh set_kh set_tasks mks].
  rewrite E3, bind_Some. cbn zeta. rewrite (upd_task_eq _ _ _ (with_mm mm (user_task p NULL 0))) by apply lookup_insert_eq.
  rewrite bind_Some. unfold kram. cbn. rewrite !insert_insert_eq, ld64_st64_eq by exact Hr. done.
Qed.

Lemma copy_process_run s cur tc start size p h1 mm h2 r h3 ph1 v1 ph2 v2 m :
  current s = cur -> tasks s !! cur = Some tc -> p <> cur ->
  kget_free_page (kh s) = Some (p, h1) -> kmalloc sizeof_mm_struct h1 = Some (mm, h2) -> mm <> NULL ->
  kget_free_page h2 = Some (r, h3) -> word (__pa r) ->
  let P0 := {| ram := st64 (ram (kphys h3)) mm (__pa r); mem_map := mem_map (kphys h3) |} in
  alloc_user_pages P0 (load_mm (ram P0) mm) (USER_MAX - USER_STACK_SZ) USER_STACK_SZ = Some (ph1, v1) ->
  let P1 := stored_at mm ph1 v1 in
  alloc_user_pages P1 (load_mm (ram P1) mm) USER_START size = Some (ph2, v2) ->
  let P2 := stored_at mm ph2 v2 in
  copy_to_user (S (Z.to_nat size)) USER_START start size 0 (loading s cur tc p mm (__pa r) h3 P2) =
    Some (set_ram m (loading s cur tc p mm (__pa r) h3 P2)) ->
  copy_process ret_from_fork start size s =
    let! s' := task_add p (loaded s cur tc p mm (__pa r) h3 P2 m) in preempt_enable s'.
Proof.
  intros Hcur Htc Hp E1 E2 Hmm E3 Hr P0 A1 P1 A2 P2 Hcopy. unfold copy_process.
  rewrite (preempt_disable_eq s cur tc Hcur Htc), bind_Some.
  set (T := <[cur := with_preempt (u64 (preempt_count tc + 1)) tc]> (tasks s)) in *.
  change (set_tasks T s) with (mks s (kh s) T (nodes s) (frames s)).
  rewrite (new_user_task_mks _ _ _ _ _ _ _ E1), bind_Some, (new_user_mm_mks _ _ _ _ _ _ _ _ _ _ E2 E3 Hr), bind_Some.
  set (new := u64 (p + STACK_SZ - sizeof_pt_regs)).
  rewrite (on_mm_mks _ _ _ _ _ _ _ ph1 v1) by exact A1. rewrite bind_Some, (upd_frame_mks _ _ _ _ _ _ _ zero_regs) by apply lookup_insert_eq.
  rewrite bind_Some, (on_mm_mks _ _ _ _ _ _ _ ph2 v2) by exact A2.
  rewrite bind_Some, (upd_frame_mks _ _ _ _ _ _ _ (with_pt_sp USER_MAX zero_regs)) by apply lookup_insert_eq.
  rewrite bind_Some, !insert_insert_eq.
  match goal with |- context [switch_to_mm mm ?st] => replace (switch_to_mm mm st) with (loading s cur tc p mm (__pa r) h3 P2) end.
  2: { unfold switch_to_mm, on_cpu, mm_at, loading. apply Z.eqb_neq in Hmm. rewrite Hmm. done. }
  rewrite Hcopy, bind_Some.
  assert (Hc1 : tasks (set_ram m (loading s cur tc p mm (__pa r) h3 P2)) !! current (set_ram m (loading s cur tc p mm (__pa r) h3 P2)) =
    Some (with_preempt (u64 (preempt_count tc + 1)) tc)).
  { change (current _) with (current s). rewrite Hcur. cbn. rewrite lookup_insert_ne by done. apply lookup_insert_eq. }
  rewrite Hc1, bind_Some.
  set (h' := set_kram m (set_cpu (set_ttbr0 (pgd (load_mm (ram P2) mm)) (kcpu h3)) (set_phys P2 h3))).
  change (switch_to_mm _ _) with (mks s (set_cpu (switch_mm (if t_mm tc =? NULL then None else Some (load_mm m (t_mm tc))) (kcpu h')) h')
    (<[p := user_task p mm (__pa r)]> T) (<[task_list p := {| prev := NULL; next := NULL |}]> (nodes s))
    (<[new := with_pt_pc USER_START (with_pt_sp USER_MAX zero_regs)]> (frames s))).
  rewrite (upd_frame_mks _ _ _ _ _ _ _ (with_pt_pc USER_START (with_pt_sp USER_MAX zero_regs))) by apply lookup_insert_eq.
  rewrite bind_Some, (upd_task_mks _ _ _ _ _ _ _ (user_task p mm (__pa r))) by apply lookup_insert_eq.
  rewrite bind_Some, !insert_insert_eq. done.
Qed.
End Run.

(** ** The address space of a process *)

(** The pages of the program and of the stack. *)
Definition in_space (size a : Z) : Prop := 0 <= a < 4096 * ((size + 4095) / 4096) \/ USER_MAX - 4096 <= a < USER_MAX.

Section Space.
Context (A : phys) (mm root : Z).
Hypotheses (HA : map_ok (mem_map A))
  (Hmm : exists k c, pfn_ok k /\ count_of (mem_map A) k = Some c /\ c <> 0 /\ page_va k <= mm /\ mm + 328 <= page_va k + 4096).

(** The byte of a page of zeros that [a] is mapped to. *)
Lemma zero_byte ph b a q :
  0 <= a -> a / 4096 = b / 4096 -> 0 <= b < 2 ^ 48 -> a < 2 ^ 48 -> pfn_ok q -> translate (ram ph) root b = Some (pfn_to_pa q) ->
  (forall x, page_va q <= x < page_va q + 4096 -> ldb (ram ph) x = 0) ->
  exists x, user_byte (ram ph) root a = Some x /\ ldb (ram ph) x = 0.
Proof.
  intros Ha Hab Hb Ha2 Hq Ht Hz. pose proof (Z.mod_pos_bound a 4096 ltac:(lia)).
  assert (Et : translate (ram ph) root a = Some (pfn_to_pa q)).
  { unfold translate in *. by rewrite (proj2 (path_inj a b ltac:(done) ltac:(done))). }
  exists (page_va q + a mod 4096). split; [|apply Hz; lia]. unfold user_byte. by rewrite Et, bind_Some, __va_pfn.
Qed.

Lemma build_space ph v size extra :
  let cnt := (size + 4095) / 4096 in
  built A mm root ph v 0 0 (7 + Z.to_nat cnt + extra) -> 0 <= size <= 61440 ->
  (forall a, 0 <= a -> translate (ram ph) root a = None) ->
  exists ph1 v1 ph2 v2, alloc_user_pages ph v (USER_MAX - USER_STACK_SZ) USER_STACK_SZ = Some (ph1, v1) /\
    let P1 := stored_at mm ph1 v1 in let P2 := stored_at mm ph2 v2 in
    load_mm (ram P1) mm = v1 /\ alloc_user_pages P1 v1 USER_START size = Some (ph2, v2) /\
    built A mm root P2 v2 (1 + cnt) 6 extra /\
    (forall a, in_space size a -> exists x, user_byte (ram P2) root a = Some x /\ ldb (ram P2) x = 0) /\
    (forall a, 0 <= a < 2 ^ 48 -> ~ in_space size a -> translate (ram P2) root a = None).
Proof.
  intros cnt Hb Hsize Hun. assert (Hc : 0 <= cnt <= 15) by (unfold cnt; Z.div_mod_to_equations; lia).
  unfold in_space. fold cnt. change USER_MAX with 1073741824 in *. change USER_STACK_SZ with 4096 in *. change USER_START with 0.
  destruct (build_pages A mm root HA Hmm ph v 0 0 (3 + Z.to_nat cnt + extra) (1073741824 - 4096) 4096)
    as (ph1 & v1 & E1 & Hb1 & Hmap1 & Hoth1 & Hkeep1); [|try done..|].
  { by replace (3 + Z.to_nat ((4096 + 4095) / 4096) + (3 + Z.to_nat cnt + extra))%nat with (7 + Z.to_nat cnt + extra)%nat by (change ((4096 + 4095) / 4096) with 1; lia). }
  { intros k Hk. change ((4096 + 4095) / 4096) with 1 in Hk. apply Hun. lia. }
  change ((4096 + 4095) / 4096) with 1 in *. cbn [Z.add] in Hb1. fold (stored_at mm ph1 v1) in Hb1, Hmap1, Hoth1, Hkeep1.
  change (2 ^ 48) with 281474976710656 in *.
  destruct (build_pages A mm root HA Hmm (stored_at mm ph1 v1) v1 1 3 extra 0 size)
    as (ph2 & v2 & E2 & Hb2 & Hmap2 & Hoth2 & Hkeep2); try done; fold cnt;
    change MAX_USER_PAGES with 16; change (0 mod 2097152) with 0; change (2 ^ 48) with 281474976710656; try lia.
  { intros k Hk. fold cnt in Hk. rewrite Hoth1; [apply Hun; lia|lia|]. intros k' Hk'. Z.div_mod_to_equations. lia. }
  fold cnt in Hb2, Hmap2, Hoth2. fold (stored_at mm ph2 v2) in Hb2, Hmap2, Hoth2, Hkeep2.
  change (2 ^ 48) with 281474976710656 in *.
  exists ph1, v1, ph2, v2. split_and!; [exact E1|apply (bt_load _ _ _ _ _ _ _ _ Hb1)|exact E2|exact Hb2| |].
  - intros a [Ha|Ha].
    + assert (Hk : 0 <= a / 4096 < cnt) by (Z.div_mod_to_equations; lia).
      destruct (Hmap2 (a / 4096) Hk) as (q & Hq & _ & Ht & Hz).
      apply (zero_byte _ (0 + 4096 * (a / 4096)) a q); try done; change (2 ^ 48) with 281474976710656; Z.div_mod_to_equations; lia.
    + destruct (Hmap1 0 ltac:(lia)) as (q & Hq & _ & Ht & Hz).
      apply (zero_byte _ (1073741824 - 4096 + 4096 * 0) a q); try done; change (2 ^ 48) with 281474976710656; try (Z.div_mod_to_equations; lia).
      * rewrite Hoth2; [exact Ht|lia|]. intros k Hk. Z.div_mod_to_equations. lia.
      * intros x Hx. rewrite (Hkeep2 (1073741824 - 4096 + 4096 * 0) q x) by (done || lia). by apply Hz.
  - intros a Ha Hn. rewrite Hoth2; [rewrite Hoth1; [apply Hun; lia|lia|]|lia|].
    + intros k Hk E. apply Hn. right. Z.div_mod_to_equations. lia.
    + intros k Hk E. apply Hn. left. Z.div_mod_to_equations. lia.
Qed.
End Space.

(** ** What [copy_process] does to the memory *)

Section ProcessMemory.
Variable ret_from_fork : Z.
Implicit Types (h : kheap) (L : gmap Z Z) (k r mm size : Z) (A ph : phys).

(** [q] is a page of the address space at [root]: a table or a page mapped. *)
Definition space_page (m : mem) (root q : Z) : Prop :=
  exists p, (length p <= 4)%nat /\ Forall idx_ok p /\ walk m root p = Some (pfn_to_pa q).

(** A byte of a live block. *)
Definition owned L (x : Z) : Prop := exists b t, L !! b = Some t /\ b <= x < b + t.

(** [A]: the memory when the descriptor's page [k] and the block [mm] are taken. *)
Record prepared h L k mm A : Prop := {
  pr_page : pfn_ok k /\ count_of (mem_map (kphys h)) k = Some 0 /\ exists c, count_of (mem_map A) k = Some c /\ c <> 0;
  pr_used : forall j c, count_of (mem_map (kphys h)) j = Some c -> c <> 0 -> count_of (mem_map A) j = Some c;
  pr_bytes : forall x q c, pfn_ok q -> count_of (mem_map (kphys h)) q = Some c -> c <> 0 -> page_va q <= x < page_va q + 4096 ->
    ldb (ram A) x = ldb (ram (kphys h)) x;
  pr_block : forall x, owned L x -> x < mm \/ mm + 328 <= x;
  pr_pages : forall x q, owned L x -> pfn_ok q -> count_of (mem_map A) q = Some 0 ->
    ~ page_va q <= x < page_va q + 4096;
  pr_apart : exists j, pfn_ok j /\ page_va j <= mm /\ mm + 328 <= page_va j + 4096 /\ j <> k /\
    (count_of (mem_map (kphys h)) j = Some 0 \/ exists b t, L !! b = Some t /\ page_va j <= b < page_va j + 4096) }.

Lemma owned_used h L x q :
  kinv h L -> owned L x -> pfn_ok q -> count_of (mem_map (kphys h)) q = Some 0 ->
  x < page_va q \/ page_va q + 4096 <= x.
Proof.
  intros Hk (b & t & HL & Hx) Hq H0.
  destruct (kinv_block h L b t Hk HL) as (_ & _ & _ & k & Hp & H1 & H2 & H3). assert (k <> q) by congruence.
  unfold page_va in *. lia.
Qed.

(** A clean block holds a [mm_struct] without stale entries. *)
Lemma clean_block_mm (m : mem) mm : (forall x, mm + 8 <= x < mm + 512 -> ldb m x = 0) -> clean_mm (load_mm m mm).
Proof.
  intros Hz. assert (H0 : forall o, 8 <= o -> o + 8 <= 512 -> ld64 m (mm + o) = 0).
  { intros o Ho1 Ho2. apply ld_zero. intros x Hx. apply Hz. lia. }
  split; cbn [vma pgtbl_page load_mm]; apply Forall_map, Forall_forall; intros i Hi; apply elem_of_seq in Hi;
    [change (Z.to_nat MAX_USER_PAGES) with 16%nat in Hi|change (Z.to_nat MAX_PGTBL_PAGES) with 8%nat in Hi]; cbn [pa].
  - replace (mm + 16 + 16 * Z.of_nat i) with (mm + (16 + 16 * Z.of_nat i)) by lia. apply H0; lia.
  - replace (mm + 264 + 8 * Z.of_nat i) with (mm + (264 + 8 * Z.of_nat i)) by lia. apply H0; lia.
Qed.

Lemma prepare h L n :
  kinv h L -> kclean h L -> free_ge (mem_map (kphys h)) (3 + n) ->
  exists k h1 mm h2, kget_free_page h = Some (page_va k, h1) /\ kmalloc sizeof_mm_struct h1 = Some (mm, h2) /\
    (kinv h2 (<[mm := 512]> L) /\ kclean h2 (<[mm := 512]> L)) /\ clean_mm (load_mm (ram (kphys h2)) mm) /\
    L !! mm = None /\ prepared h L k mm (kphys h2) /\ free_ge (mem_map (kphys h2)) n /\
    (exists j c, pfn_ok j /\ count_of (mem_map (kphys h2)) j = Some c /\ c <> 0 /\ page_va j <= mm /\ mm + 328 <= page_va j + 4096).
Proof.
  intros Hk Hcl Hf. pose proof Hk as (bs & fl & Hly & Hu & HL).
  destruct (kget_free_page_spec h bs fl (2 + n) Hly Hf) as (k & h1 & E1 & Hly1 & Hpk & H0 & Hf1 & Hc1 & _ & _ & _ & _ & Hb1).
  assert (Hk1 : kinv h1 L) by (exists bs, fl; done).
  assert (Hcl1 : kclean h1 L).
  { apply (kclean_bytes h); [done|done|]. intros q x Hq Hcq _ Hx _. apply Hb1. assert (q <> k) by congruence. unfold page_va in *. lia. }
  destruct (kmalloc_spec h1 L sizeof_mm_struct n Hk1 ltac:(done) Hf1)
    as (mm & h2 & E2 & Hn & Hk2 & _ & Hd & _ & Hkeep & Hf2 & j & Hj & Hlo & Hhi & Hcj & Hj0 & _).
  destruct (kmalloc_clean h1 L sizeof_mm_struct n mm h2 Hk1 Hcl1 ltac:(done) Hf1 E2) as [Hcl2 Hz].
  change (block_size sizeof_mm_struct) with 512 in *.
  exists k, h1, mm, h2. split_and!; try done; [by apply clean_block_mm, Hz| |].
  2: { exists j, 1. split_and!; [done|done|done|done|lia]. }
  assert (Hkk : count_of (mem_map (kphys h2)) k = Some 1) by (apply Hkeep; [by rewrite Hc1, Z.eqb_refl|done]).
  assert (Hst : forall x, owned L x -> x < page_va k \/ page_va k + 4096 <= x) by (intros x Hx; by apply (owned_used h L)).
  split.
  - split_and!; [done|done|]. by exists 1.
  - intros i c Hi Hne. apply Hkeep; [|done]. rewrite Hc1. zcase; [congruence|done].
  - intros x q c Hq Hc Hne Hx. assert (q <> k) by congruence. assert (Hout : x < page_va k \/ page_va k + 4096 <= x) by (unfold page_va in *; lia).
    rewrite <- (Hb1 x Hout). apply Hkeep. intros i Hi Hi0. rewrite Hc1 in Hi0. destruct (Z.eqb_spec i k) as [->|_]; [congruence|].
    assert (i <> q) by congruence. unfold page_va in *. lia.
  - intros x (b & t & HLb & Hx). destruct (Hd b t HLb); lia.
  - intros x q Hx Hq Hq0. destruct (owned_used h2 (<[mm := 512]> L) x q Hk2) as [?|?]; try done; try lia.
    destruct Hx as (b & t & HLb & ?). exists b, t. split; [|done]. rewrite lookup_insert_ne; [done|]. intros ->. congruence.
  - assert (Hjk : j <> k).
    { intros ->. destruct Hj0 as [Hj0|(b & t & HLb & Hb)]; [rewrite Hc1, Z.eqb_refl in Hj0; done|].
      destruct (kinv_block h L b t Hk HLb) as (Hs & _). pose proof (sizes_facts t Hs).
      destruct (Hst b); [exists b, t; split; [done|lia]|lia|lia]. }
    exists j. split_and!; [done|done|lia|done|]. destruct Hj0 as [Hj0|Hj0]; [left|by right].
    rewrite Hc1 in Hj0. by apply Z.eqb_neq in Hjk as E; rewrite E in Hj0.
Qed.

(** The address space of the new process before the program is loaded. *)
Definition space_ready h L k h1 mm h2 r h3 ph1 v1 ph2 v2 size n : Prop :=
  let P0 := {| ram := st64 (ram (kphys h3)) mm (__pa (page_va r)); mem_map := mem_map (kphys h3) |} in
  let P1 := stored_at mm ph1 v1 in
  let P2 := stored_at mm ph2 v2 in
  kget_free_page h = Some (page_va k, h1) /\ kmalloc sizeof_mm_struct h1 = Some (mm, h2) /\
  kget_free_page h2 = Some (page_va r, h3) /\ pfn_ok r /\
  alloc_user_pages P0 (load_mm (ram P0) mm) (USER_MAX - USER_STACK_SZ) USER_STACK_SZ = Some (ph1, v1) /\
  alloc_user_pages P1 (load_mm (ram P1) mm) USER_START size = Some (ph2, v2) /\
  (exists ph, h3 = set_phys ph h2) /\ (kinv h2 (<[mm := 512]> L) /\ kclean h2 (<[mm := 512]> L)) /\ L !! mm = None /\ prepared h L k mm (kphys h2) /\
  built (kphys h2) mm (pfn_to_pa r) P2 v2 (1 + (size + 4095) / 4096) 6 n /\
  (forall a, in_space size a -> exists x, user_byte (ram P2) (pfn_to_pa r) a = Some x /\ ldb (ram P2) x = 0) /\
  (forall a, 0 <= a < 2 ^ 48 -> ~ in_space size a -> translate (ram P2) (pfn_to_pa r) a = None).

Lemma prepare_space h L size n :
  kinv h L -> kclean h L -> free_ge (mem_map (kphys h)) (32 + n) -> 0 <= size <= 61440 ->
  exists k h1 mm h2 r h3 ph1 v1 ph2 v2, space_ready h L k h1 mm h2 r h3 ph1 v1 ph2 v2 size n.
Proof.
  intros Hk Hcl Hf Hsz. destruct (prepare h L (29 + n) Hk Hcl Hf) as (k & h1 & mm & h2 & E1 & E2 & Hk2 & Hcm & Hn & Hpr & Hf2 & Hmm).
  pose proof (kinv_map_ok _ _ (proj1 Hk2)) as HA. assert (Hc : 0 <= (size + 4095) / 4096 <= 15) by (Z.div_mod_to_equations; lia).
  destruct (built_start (kphys h2) mm (7 + Z.to_nat ((size + 4095) / 4096) + n) HA Hmm Hcm)
    as (r & ph & E3 & Hr & _ & Hb & Hun).
  { eapply free_ge_mono; [|exact Hf2]. lia. }
  destruct (build_space (kphys h2) mm (pfn_to_pa r) HA Hmm _ _ size n Hb Hsz Hun)
    as (ph1 & v1 & ph2 & v2 & A1 & L1 & A2 & Hb2 & Hz & Hnone).
  destruct Hk2 as [Hk2 Hcl2].
  exists k, h1, mm, h2, r, (set_phys ph h2), ph1, v1, ph2, v2. unfold space_ready. cbn zeta. rewrite L1.
  split_and!; try done.
  - unfold kget_free_page. by rewrite E3.
  - by exists ph.
Qed.

Lemma owned_page h L x : kinv h L -> owned L x ->
  exists q, pfn_ok q /\ page_va q <= x < page_va q + 4096 /\ count_of (mem_map (kphys h)) q = Some 1.
Proof.
  intros Hk (b & t & HL & Hx). destruct (kinv_block h L b t Hk HL) as (_ & _ & _ & q & Hq & H1 & H2 & H3).
  exists q. split_and!; [done|lia|lia|done].
Qed.

(** The bytes of the pages in use are as at the start, the new block apart. *)
Lemma page_kept h L k mm A lo hi ph x q c :
  prepared h L k mm A -> grown A lo hi ph -> pfn_ok q -> count_of (mem_map (kphys h)) q = Some c -> c <> 0 ->
  page_va q <= x < page_va q + 4096 -> x < lo \/ hi <= x -> ldb (ram ph) x = ldb (ram (kphys h)) x.
Proof.
  intros Hpr Hgr Hq Hc Hne Hx Hout. rewrite (gr_bytes _ _ _ _ Hgr q c x); [|done|by apply (pr_used _ _ _ _ _ Hpr)|done..].
  by apply (pr_bytes _ _ _ _ _ Hpr x q c).
Qed.

(** A guarded byte is in a page in use, apart from the new block. *)
Lemma guarded_page P h L k mm A x :
  prepared h L k mm A -> guarded P h L -> guard_byte P x ->
  (exists q c, pfn_ok q /\ count_of (mem_map (kphys h)) q = Some c /\ c <> 0 /\ page_va q <= x < page_va q + 4096) /\
  (x < mm \/ mm + 328 <= x).
Proof.
  intros Hpr Hg (q & Hq & Hp & Hx). destruct (Hg q Hq Hp) as [(c & Hc & Hne) Hb].
  split; [by exists q, c|]. destruct (pr_apart _ _ _ _ _ Hpr) as (j & Hj & J1 & J2 & _ & Hj0).
  assert (j <> q); [|unfold page_va in *; lia]. intros ->. destruct Hj0 as [Hj0|(b & t & Hbt & Hin)]; [congruence|by apply (Hb b t)].
Qed.

(** The program in place: byte [j] of the program is at address [j], the rest of
    the pages is zero, and what was stored elsewhere is as before. *)
Lemma load_program s cur tc h L k h1 mm h2 r h3 ph1 v1 ph2 v2 start size n :
  kinv h L -> space_ready h L k h1 mm h2 r h3 ph1 v1 ph2 v2 size n -> 0 <= size <= 61440 ->
  (forall j, 0 <= j < size -> owned L (start + j)) ->
  let P2 := stored_at mm ph2 v2 in let root := pfn_to_pa r in
  let s2 := loading ret_from_fork s cur tc (page_va k) mm root h3 P2 in
  exists m, copy_to_user (S (Z.to_nat size)) USER_START start size 0 s2 = Some (set_ram m s2) /\
    (forall p, (length p <= 4)%nat -> Forall idx_ok p -> walk m root p = walk (ram P2) root p) /\
    (forall j, 0 <= j < size -> exists x, user_byte m root j = Some x /\ ldb m x = ldb (ram (kphys h)) (start + j)) /\
    (forall a, in_space size a -> size <= a -> exists x, user_byte m root a = Some x /\ ldb m x = 0) /\
    (forall b q, pfn_ok q -> page_va q <= b < page_va q + 4096 -> (exists c, count_of (mem_map (kphys h2)) q = Some c /\ c <> 0) ->
       ldb m b = ldb (ram P2) b).
Proof.
  intros Hkh (E1 & E2 & E3 & Hr & A1 & A2 & _ & Hk2 & Hn & Hpr & Hb & Hz & Hnone) Hsz Hsrc P2 root s2.
  destruct Hb as [Hload _ Hroot Hwf Hgr Hfr _ _ _ _]. fold P2 root in Hload, Hroot, Hwf, Hgr, Hfr, Hz, Hnone.
  assert (Hin : forall j, 0 <= j < size -> in_space size j) by (intros j Hj; left; Z.div_mod_to_equations; lia).
  destruct (copy_to_user_spec (kphys h2) root (S (Z.to_nat size)) start size 0 s2) as (m & E & Hw & Hby & Hk); try done; try lia.
  - change (pgd (load_mm (ram P2) mm) = root). by rewrite Hload.
  - intros j Hj. destruct (Hz j (Hin j Hj)) as (x & Ex & _). unfold user_byte in Ex.
    change (kram s2) with (ram P2). by destruct (translate _ _ j).
  - intros j q Hj Hq H0. by apply (pr_pages _ _ _ _ _ Hpr); [apply Hsrc|..].
  - change (kram s2) with (ram P2) in *.
    assert (Hub : forall a, 0 <= a -> user_byte m root a = user_byte (ram P2) root a).
    { intros a Ha. unfold user_byte, translate. f_equal. apply Hw; [done|by apply path_ok]. }
    assert (H48 : forall a, in_space size a -> 0 <= a < 2 ^ 48).
    { intros a [Ha|Ha]; change USER_MAX with 1073741824 in *; change (2 ^ 48) with 281474976710656; Z.div_mod_to_equations; lia. }
    exists m. split_and!; [exact E|exact Hw| | |].
    + intros j Hj. destruct (Hz j (Hin j Hj)) as (x & Ex & _). exists x. rewrite Hub by lia. split; [exact Ex|].
      rewrite (Hby j x) by done. destruct (owned_page h L _ Hkh (Hsrc j Hj)) as (q & Hq & Hxq & Hc).
      by apply (page_kept h L k mm (kphys h2) mm (mm + 328) P2 _ q 1), (pr_block _ _ _ _ _ Hpr), Hsrc.
    + intros a Ha Hge. destruct (Hz a Ha) as (x & Ex & Hx). exists x. pose proof (H48 a Ha). rewrite Hub by lia. split; [exact Ex|].
      rewrite Hk; [exact Hx|]. intros j Hj E'.
      assert (a = j); [|lia]. apply (user_byte_inj (kphys h2) root P2 a j x Hwf Hfr); [done|apply H48, Hin; lia|done|done].
    + intros b q Hq Hbq (c & Hc & Hne). apply Hk. intros j Hj E'.
      destruct (user_byte_eq (kphys h2) root P2 j Hfr ltac:(lia)) as (q' & Hq' & H0 & _ & U).
      { unfold user_byte in E'. by destruct (translate _ _ j). }
      rewrite U in E'. injection E' as <-. pose proof (Z.mod_pos_bound j 4096 ltac:(lia)). assert (q <> q') by congruence.
      unfold page_va in *. lia.
Qed.

(** The memory with the program loaded. *)
Lemma loaded_memory h L k h1 mm h2 r h3 ph1 v1 ph2 v2 size n m :
  let P2 := stored_at mm ph2 v2 in let root := pfn_to_pa r in let ph := {| ram := m; mem_map := mem_map P2 |} in
  kinv h L -> space_ready h L k h1 mm h2 r h3 ph1 v1 ph2 v2 size n ->
  (forall p, (length p <= 4)%nat -> Forall idx_ok p -> walk m root p = walk (ram P2) root p) ->
  (forall b q, pfn_ok q -> page_va q <= b < page_va q + 4096 -> (exists c, count_of (mem_map (kphys h2)) q = Some c /\ c <> 0) ->
     ldb m b = ldb (ram P2) b) ->
  (kinv (set_phys ph h2) (<[mm := 512]> L) /\ kclean (set_phys ph h2) (<[mm := 512]> L)) /\ pt_wf 4 ph root /\ pgd (load_mm m mm) = root /\
  fresh_space (kphys h) ph root /\ (forall q, pfn_ok q -> space_page m root q -> lone (set_phys ph h2) (<[mm := 512]> L) q) /\
  (forall x q c, pfn_ok q -> count_of (mem_map (kphys h)) q = Some c -> c <> 0 -> page_va q <= x < page_va q + 4096 ->
     x < mm \/ mm + 328 <= x -> ldb m x = ldb (ram (kphys h)) x) /\
  (forall j c, count_of (mem_map (kphys h)) j = Some c -> c <> 0 -> count_of (mem_map ph) j = Some c) /\
  (exists c, count_of (mem_map ph) k = Some c /\ c <> 0) /\ free_ge (mem_map ph) n.
Proof.
  intros P2 root ph Hk (_ & _ & _ & _ & _ & _ & _ & [Hk2 Hcl2] & Hn & Hpr & Hb & _ & _) Hw Hused.
  destruct Hb as [Hload _ Hroot Hwf Hgr Hfr _ _ _ Hfree]. fold P2 root in Hload, Hroot, Hwf, Hgr, Hfr.
  destruct (space_kept (kphys h2) P2 m root Hwf Hfr Hw) as [Hwf' Hfr'].
  assert (Hm : L !! mm = None -> exists q, pfn_ok q /\ page_va q <= mm /\ mm + 512 <= page_va q + 4096 /\ count_of (mem_map (kphys h2)) q = Some 1).
  { intros _. destruct (kinv_block h2 _ mm 512 Hk2 (lookup_insert_eq _ _ _)) as (_ & _ & _ & q & Hq & H1 & H2 & H3). by exists q. }
  assert (Hby : forall q c b, pfn_ok q -> count_of (mem_map (kphys h2)) q = Some c -> c <> 0 -> page_va q <= b < page_va q + 4096 ->
    (forall a s, <[mm := 512]> L !! a = Some s -> b < a \/ a + s <= b) -> ldb (ram ph) b = ldb (ram (kphys h2)) b).
  { intros q c b Hq Hc Hne Hb Hout. change (ram ph) with m. rewrite (Hused b q Hq Hb (ex_intro _ c (conj Hc Hne))). apply (gr_bytes _ _ _ _ Hgr q c); try done.
    destruct (Hout mm 512 (lookup_insert_eq _ _ _)); lia. }
  destruct (Hm Hn) as (qm & Hqm & Hlo & Hhi & Hcm). split_and!.
  - apply kinv_frame; [done|apply (wf_map _ _ _ Hwf')|apply (gr_count _ _ _ _ Hgr)|exact Hby].
  - apply (kclean_bytes h2); [done|done|]. intros q b Hq Hc _. by apply (Hby q 1).
  - exact Hwf'.
  - rewrite <- Hroot, <- Hload. cbn. apply (ld_agree 8). intros b Hb. apply (Hused b qm); [done|lia|by exists 1].
  - intros p x Hl Hp Hx. destruct (Hfr' p x Hl Hp Hx) as (q & -> & Hq & H0). exists q. split_and!; [done|done|].
    destruct (count_of_Some (mem_map (kphys h)) q (kinv_map_ok _ _ Hk) Hq) as [c Hc].
    destruct (decide (c = 0)) as [->|Hne]; [done|]. rewrite (pr_used _ _ _ _ _ Hpr q c Hc Hne) in H0. congruence.
  - intros q Hq (p & Hl & Hp & Ex). split.
    + apply (wf_ok _ _ _ Hwf' p _ Hl Hp Ex); [done|reflexivity].
    + destruct (Hfr' p _ Hl Hp Ex) as (q' & E & Hq' & H0). rewrite !pfn_to_pa_eq in E by done. assert (q' = q) as -> by lia.
      intros b t Hb Hin. destruct (kinv_block h2 _ b t Hk2 Hb) as (Hs & _ & _ & j & _ & J1 & J2 & J3). pose proof (sizes_facts t Hs).
      assert (j <> q) by congruence. unfold page_va in *. lia.
  - intros x q c Hq Hc Hne Hx Hout. rewrite (Hused x q Hq Hx) by (exists c; split; [by apply (pr_used _ _ _ _ _ Hpr)|done]).
    by apply (page_kept h L k mm (kphys h2) mm (mm + 328) P2 x q c).
  - intros j c Hj Hne. apply (gr_count _ _ _ _ Hgr); [|done]. by apply (pr_used _ _ _ _ _ Hpr).
  - destruct (pr_page _ _ _ _ _ Hpr) as (_ & _ & c & Hc & Hne). exists c. split; [|done]. by apply (gr_count _ _ _ _ Hgr).
  - exact Hfree.
Qed.

(** The page of the new descriptor is guarded with the others. *)
Lemma guard_new P h L k mm A (h' : kheap) :
  kinv h L -> guarded P h L -> prepared h L k mm A -> L !! mm = None ->
  (forall j c, count_of (mem_map (kphys h)) j = Some c -> c <> 0 -> count_of (mem_map (kphys h')) j = Some c) ->
  (exists c, count_of (mem_map (kphys h')) k = Some c /\ c <> 0) -> guarded (page_va k :: P) h' (<[mm := 512]> L).
Proof.
  intros Hk Hg Hpr Hn Hcnt Hck j Hj Hp. pose proof (pr_page _ _ _ _ _ Hpr) as (Hkp & Hk0 & _).
  destruct (pr_apart _ _ _ _ _ Hpr) as (i & Hi & I1 & I2 & Hik & Hi0).
  apply elem_of_cons in Hp as [E|Hp].
  - apply page_va_inj in E as ->. split; [done|]. intros b t [[<- _]|[_ Hbt]]%lookup_insert_Some.
    + intros Hin. assert (i = k); [unfold page_va in *; lia|done].
    + intros Hin. destruct (kinv_block h L b t Hk Hbt) as (Hs & _). pose proof (sizes_facts t Hs).
      destruct (owned_used h L b k Hk) as [?|?]; try done; try lia. exists b, t. split; [done|lia].
  - destruct (Hg j Hj Hp) as [(c & Hc & Hne) Hb]. split; [exists c; split; [by apply Hcnt|done]|].
    intros b t [[<- _]|[_ Hbt]]%lookup_insert_Some; [|by apply (Hb b t)]. intros Hin.
    assert (i = j) as -> by (unfold page_va in *; lia). destruct Hi0 as [Hi0|(b & u & Hbu & Hbp)]; [congruence|by apply (Hb b u)].
Qed.

Lemma kinv_cpu c h L : kinv h L -> kinv (set_cpu c h) L.
Proof. intros (bs & fl & Hly & Hr). exists bs, fl. split; [by apply layout_cpu|done]. Qed.
End ProcessMemory.

(** ** The new process on the ring *)

Section Enter.
Variables (ret_from_fork switch_ret : Z).
Implicit Types (s : ksys) (h : kheap) (L : gmap Z Z) (k r mm size : Z).
Abbreviation ring := (ring ret_from_fork switch_ret).

(** A task built on [p] enters the ring of [s], whatever was built in between:
    the memory keeps its used pages, the ring's tasks and frames are the same. *)
Lemma enter_ring s cur rest tc p t h F :
  ring s cur rest -> in_stack cur (callee s) -> tasks s !! cur = Some tc -> 0 <= preempt_count tc < 2 ^ 64 - 1 ->
  p ∉ cur :: rest -> p mod 4096 = 0 -> 0 < p < 2 ^ 64 - 8192 ->
  (forall j c, count_of (mem_map (kphys (kh s))) j = Some c -> c <> 0 -> count_of (mem_map (kphys h)) j = Some c) ->
  (forall j, pfn_ok j -> p = page_va j -> exists c, count_of (mem_map (kphys h)) j = Some c /\ c <> 0) ->
  canary t = CANARY_MAGIC_NUM -> pc (context t) = ret_from_fork -> preempt_count t = 0 -> x19 (context t) = 0 ->
  sp (context t) = p + 4096 - sizeof_pt_regs -> is_Some (F !! sp (context t)) ->
  (forall a, a <> p + 4096 - sizeof_pt_regs -> F !! a = frames s !! a) ->
  let sl := mks s h (<[p := t]> (<[cur := with_preempt (u64 (preempt_count tc + 1)) tc]> (tasks s)))
              (<[task_list p := {| prev := NULL; next := NULL |}]> (nodes s)) F in
  exists s' l1 l2, (let! s' := task_add p sl in preempt_enable s') = Some s' /\ rest = l1 ++ l2 /\ hd cur l2 = init_task s /\
    ring s' cur (l1 ++ p :: l2) /\ tasks s' = <[p := with_state TASK_RUNNING t]> (tasks s) /\ kh s' = h /\ frames s' = F /\
    callee s' = callee s.
Proof.
  intros Hr Hin Htc Hpc Hni Hal Hp Hcnt Hpg Hcan Ht1 Ht2 Ht3 Ht4 HF1 HF2 sl.
  pose proof (ring_nodup _ _ _ _ _ Hr) as Hnd. apply NoDup_cons in Hnd as [Hcr _].
  destruct (ring_task _ _ _ _ _ cur Hr ltac:(set_solver)) as (Hcal & _). pose proof (current_eq s cur Hcal Hin) as Hcur.
  assert (Hpcur : p <> cur) by set_solver. assert (Hprest : forall q, q ∈ rest -> q <> p) by (intros q Hq ->; set_solver).
  set (tc1 := with_preempt (u64 (preempt_count tc + 1)) tc) in *.
  assert (Hrl : ring sl cur rest).
  { apply (ring_update _ _ s sl cur rest tc tc1); try done.
    - cbn. rewrite lookup_insert_ne by done. apply lookup_insert_eq.
    - intros q Hq. cbn. rewrite lookup_insert_ne; [done|]. intros ?%task_list_inj. subst. set_solver.
    - intros q Hq. cbn. rewrite !lookup_insert_ne; [done|by intros <-|intros <-; by apply (Hprest p)].
    - intros q Hq. cbn. apply HF2. intros E. apply (Hprest q Hq). lia. }
  destruct (task_add_spec _ _ sl cur rest p t Hrl Hni) as (s4 & l1 & l2 & E & Hl & Hhd & Hr4 & Et & Ek & Ece & Ef & Eca & Ei & En & Elo).
  - cbn. rewrite lookup_insert_eq. eauto.
  - cbn. apply lookup_insert_eq.
  - done.
  - exists t. split; [cbn; apply lookup_insert_eq|]. right. right. split_and!; try done.
  - done.
  - lia.
  - exact Hpg.
  - rewrite E, bind_Some. clear E.
    assert (Hcur4 : current s4 = cur) by (unfold current; rewrite Ece; exact Hcur).
    assert (Ht5 : tasks s4 !! cur = Some tc1) by (rewrite Et; cbn; rewrite !lookup_insert_ne by done; apply lookup_insert_eq).
    rewrite (preempt_enable_eq s4 cur tc1 Hcur4 Ht5).
    assert (Etc : with_preempt (u64 (preempt_count tc1 - 1)) tc1 = tc) by (apply (counter_pair tc Hpc)).
    rewrite Etc. exists (set_tasks (<[cur := tc]> (tasks s4)) s4), l1, l2. split_and!; try done.
    + apply (ring_update _ _ s4 _ cur (l1 ++ p :: l2) tc1 tc); try done; [cbn; apply lookup_insert_eq|].
      intros q Hq. cbn. rewrite lookup_insert_ne; [done|]. intros <-. subst rest. set_solver.
    + cbn. rewrite Et. cbn. apply map_eq. intros q. destruct (decide (q = cur)) as [->|Hqc].
      * by rewrite lookup_insert_eq, lookup_insert_ne.
      * rewrite lookup_insert_ne by done. destruct (decide (q = p)) as [->|Hqp]; [by rewrite !lookup_insert_eq|].
        by rewrite !lookup_insert_ne.
Qed.
End Enter.

(** ** A new process *)

(** [s'] is [s] with a process on the page [p], which will run the [size] bytes
    of [prog] at the addresses from 0: its registers, its memory, and what is
    as before. *)
Record new_process (ret_from_fork switch_ret : Z) (s : ksys) (L : gmap Z Z) (cur : Z) (rest : list Z) (s' : ksys)
    (p mm root size : Z) (prog : Z -> Z) : Prop := {
  np_ring : exists l1 l2, rest = l1 ++ l2 /\ hd cur l2 = init_task s /\ ring ret_from_fork switch_ret s' cur (l1 ++ p :: l2);
  np_task : exists t, tasks s' = <[p := t]> (tasks s) /\ state t = TASK_RUNNING /\ t_mm t = mm /\ x20 (context t) = root /\
    pc (context t) = ret_from_fork /\ frames s' !! sp (context t) = Some user_frame;
  np_frames : forall a, a <> p + 4096 - sizeof_pt_regs -> frames s' !! a = frames s !! a;
  np_page : exists k, p = page_va k;
  np_new : p ∉ cur :: rest;
  np_heap : (kinv (kh s') (<[mm := 512]> L) /\ kclean (kh s') (<[mm := 512]> L)) /\ L !! mm = None;
  np_tables : pgd (load_mm (kram s') mm) = root /\ pt_wf 4 (kphys (kh s')) root;
  np_program : forall j, 0 <= j < size -> exists x, user_byte (kram s') root j = Some x /\ ldb (kram s') x = prog j;
  np_zero : forall a, in_space size a -> size <= a -> exists x, user_byte (kram s') root a = Some x /\ ldb (kram s') x = 0;
  np_only : forall a, 0 <= a < 2 ^ 48 -> ~ in_space size a -> translate (kram s') root a = None;
  np_fresh : fresh_space (kphys (kh s)) (kphys (kh s')) root;
  np_lone : forall q, pfn_ok q -> space_page (kram s') root q -> lone (kh s') (<[mm := 512]> L) q;
  np_kept : forall x, owned L x -> ldb (kram s') x = ldb (kram s) x;
  np_pages : forall P x, guarded P (kh s) L -> guard_byte P x -> ldb (kram s') x = ldb (kram s) x;
  np_guard : forall P, guarded P (kh s) L -> guarded (p :: P) (kh s') (<[mm := 512]> L);
  np_callee : callee s' = callee s }.

Lemma copy_process_spec (ret_from_fork switch_ret : Z) (s : ksys) (cur : Z) (rest : list Z) (tc : task_struct)
    (L : gmap Z Z) (start size : Z) (n : nat) :
  ring ret_from_fork switch_ret s cur rest -> in_stack cur (callee s) ->
  tasks s !! cur = Some tc -> 0 <= preempt_count tc < 2 ^ 64 - 1 ->
  kinv (kh s) L -> kclean (kh s) L -> free_ge (mem_map (kphys (kh s))) (32 + n) ->
  0 <= size <= 61440 -> (forall j, 0 <= j < size -> owned L (start + j)) ->
  exists s' p mm root, copy_process ret_from_fork start size s = Some s' /\ free_ge (mem_map (kphys (kh s'))) n /\
    new_process ret_from_fork switch_ret s L cur rest s' p mm root size (fun j => ldb (kram s) (start + j)).
Proof.
  intros Hr Hin Htc Hpc Hk Hcl Hf Hsz Hsrc.
  destruct (prepare_space (kh s) L size n Hk Hcl Hf Hsz) as (k & h1 & mm & h2 & r & h3 & ph1 & v1 & ph2 & v2 & Hsp).
  pose proof (load_program ret_from_fork s cur tc _ _ _ _ _ _ _ _ _ _ _ _ start size n Hk Hsp Hsz Hsrc) as (m & Ecopy & Hw & Hby & Hz & Hused).
  destruct (loaded_memory (kh s) L k h1 mm h2 r h3 ph1 v1 ph2 v2 size n m Hk Hsp Hw Hused) as ([Hkf Hclf] & Hwf & Hpgd & Hiso & Hlone & Hbytes & Hcnt & Hck & Hfree).
  destruct Hsp as (E1 & E2 & E3 & Hrp & A1 & A2 & (ph & ->) & [Hk2 _] & Hn & Hpr & _ & _ & Hnone).
  destruct (pr_page _ _ _ _ _ Hpr) as (Hkp & Hk0 & _). pose proof (page_va_pos k Hkp) as Hpos.
  assert (Hni : page_va k ∉ cur :: rest).
  { intros Hi. destruct (ring_task _ _ _ _ _ _ Hr Hi) as (_ & _ & _ & Hc). destruct (Hc k Hkp eq_refl) as (c & Hc1 & Hc2). congruence. }
  destruct (ring_task _ _ _ _ _ cur Hr ltac:(set_solver)) as (Hcal & _).
  assert (Hmm : mm <> NULL).
  { apply (kinv_block h2 _ mm 512 Hk2 (lookup_insert_eq _ _ _)). }
  assert (Hne : page_va k <> cur) by (intros E; apply Hni; rewrite E; by left).
  rewrite <- (__pa_page r Hrp) in Ecopy.
  pose proof (copy_process_run ret_from_fork s cur tc start size _ _ _ _ _ _ _ _ _ _ m (current_eq s cur Hcal Hin) Htc Hne
    E1 E2 Hmm E3 (word_u64 _) A1 A2 Ecopy) as Erun. rewrite (__pa_page r Hrp) in Erun.
  assert (Enew : u64 (page_va k + STACK_SZ - sizeof_pt_regs) = page_va k + 4096 - sizeof_pt_regs).
  { apply wrap_small. change STACK_SZ with 4096. change sizeof_pt_regs with 272. change (2 ^ 64) with 18446744073709551616. unfold page_va, pfn_ok in *. rewrite PAGING_PAGES_eq in *. lia. }
  destruct (enter_ring ret_from_fork switch_ret s cur rest tc (page_va k) (with_canary CANARY_MAGIC_NUM (user_task ret_from_fork (page_va k) mm (pfn_to_pa r)))
    (kh (loaded ret_from_fork s cur tc (page_va k) mm (pfn_to_pa r) (set_phys ph h2) (stored_at mm ph2 v2) m))
    (<[u64 (page_va k + STACK_SZ - sizeof_pt_regs) := user_frame]> (frames s)) Hr Hin Htc Hpc Hni)
    as (s' & l1 & l2 & E & Hl & Hhd & Hr' & Et & Eh & Ef & Ec); rewrite ?Enew; try done.
  - apply page_va_aligned.
  - change (2 ^ 64) with 18446744073709551616. unfold page_va, pfn_ok in *. rewrite PAGING_PAGES_eq in *. lia.
  - intros j Hj Ej. apply page_va_inj in Ej as <-. exact Hck.
  - cbn [sp context with_canary user_task with_x20 with_sp]. rewrite Enew, lookup_insert_eq. by eexists.
  - intros a Ha. by rewrite lookup_insert_ne by congruence.
  - rewrite Enew in Ef. assert (Em : kram s' = m) by (unfold kram; by rewrite Eh).
    assert (Ep : kphys (kh s') = {| ram := m; mem_map := mem_map (stored_at mm ph2 v2) |}) by (by rewrite Eh).
    exists s', (page_va k), mm, (pfn_to_pa r). split; [rewrite Erun, <- E; unfold loaded; by rewrite Enew|]. split; [by rewrite Ep|].
    split; rewrite ?Em, ?Ep; try done.
    + by exists l1, l2.
    + eexists. split; [exact Et|]. split_and!; try done.
      rewrite Ef. cbn [sp context with_canary with_state user_task with_x20 with_sp]. rewrite Enew. apply lookup_insert_eq.
    + intros a Ha. rewrite Ef. by rewrite lookup_insert_ne by congruence.
    + by exists k.
    + split; [|done]. rewrite Eh. split; [|exact Hclf].
      exact (kinv_cpu (kcpu (kh (loaded ret_from_fork s cur tc (page_va k) mm (pfn_to_pa r) (set_phys ph h2) (stored_at mm ph2 v2) m))) _ _ Hkf).
    + intros a Ha Hout. unfold translate. rewrite Hw by (done || apply path_ok; lia). by apply Hnone.
    + intros q Hq Hsq. rewrite Eh. exact (Hlone q Hq Hsq).
    + intros x Hx. destruct (owned_page (kh s) L x Hk Hx) as (q & Hq & Hxq & Hc).
      by apply (Hbytes x q 1), (pr_block _ _ _ _ _ Hpr).
    + intros P x Hg Hx. destruct (guarded_page P (kh s) L k mm (kphys h2) x Hpr Hg Hx) as [(q & c & Hq & Hc & Hcq & Hxq) Hout].
      by apply (Hbytes x q c).
    + intros P Hg. by apply (guard_new P (kh s) L k mm (kphys h2)); rewrite ?Ep.
Qed.

(** ** Removing a process *)

Section Remove.
Variables (ret_from_fork switch_ret : Z).
Implicit Types (s : ksys) (h : kheap) (k p : Z) (ks : list Z).
Abbreviation ring := (ring ret_from_fork switch_ret).

(** The physical addresses [free_areas] frees, and the tables of [free_tables]. *)
Fixpoint used_areas (l : list vm_area_struct) : list Z :=
  match l with
  | [] => []
  | v :: l' => if pa v =? 0 then [] else pa v :: used_areas l'
  end.
Definition used_tables (l : list Z) : list Z := filter (fun a => a <> NULL) l.

(** [h'] is [h] with the pages [ks] given back. *)
Definition freed h ks h' : Prop :=
  exists m, h' = set_phys {| ram := ram (kphys h); mem_map := m |} h /\ map_ok m /\
    forall j, count_of m j = if decide (j ∈ ks) then Some 0 else count_of (mem_map (kphys h)) j.

Definition in_use h k : Prop := pfn_ok k /\ count_of (mem_map (kphys h)) k = Some 1.

Lemma freed_nil h : map_ok (mem_map (kphys h)) -> freed h [] h.
Proof.
  intros Hm. exists (mem_map (kphys h)). split_and!; [by destruct h as [? [] ? ? ?]|done|]. intros j.
  destruct (decide (j ∈ [])) as [Hj|]; [by apply not_elem_of_nil in Hj|done].
Qed.

Lemma kfree_page_spec h k :
  map_ok (mem_map (kphys h)) -> in_use h k -> exists h1, kfree_page (page_va k) h = Some h1 /\ freed h [k] h1.
Proof.
  intros Hm [Hk Hc]. destruct (free_page_spec _ k 1 Hm Hk Hc) as (m & E & Hm' & Hcm). unfold kfree_page. rewrite E, bind_Some.
  eexists. split; [done|]. exists m. split_and!; [done|done|]. intros j. rewrite Hcm. zcase; subst.
  - by rewrite decide_True by set_solver.
  - by rewrite decide_False by set_solver.
Qed.

Lemma freed_app h ks h1 ks' h2 : freed h ks h1 -> freed h1 ks' h2 -> freed h (ks ++ ks') h2.
Proof.
  intros (m & -> & Hm & Hc) (m' & -> & Hm' & Hc'). exists m'. split_and!; [done|done|]. intros j. rewrite Hc'. cbn. rewrite Hc.
  repeat case_decide; set_solver.
Qed.

Lemma in_use_freed h ks h1 k : freed h ks h1 -> k ∉ ks -> in_use h k -> in_use h1 k.
Proof. intros (m & -> & _ & Hc) Hk [H1 H2]. split; [done|]. cbn. by rewrite Hc, decide_False. Qed.

Lemma freed_map h ks h1 : freed h ks h1 -> map_ok (mem_map (kphys h1)).
Proof. by intros (m & -> & Hm & _). Qed.

Lemma still_in_use h k ks h1 : freed h [k] h1 -> k ∉ ks -> Forall (in_use h) ks -> Forall (in_use h1) ks.
Proof.
  intros Hf Hk Hu. rewrite Forall_forall in Hu |- *. intros x Hx. apply (in_use_freed h [k]); [done|set_solver|by apply Hu].
Qed.

Lemma free_areas_spec l ks h :
  used_areas l = pfn_to_pa <$> ks -> map_ok (mem_map (kphys h)) -> NoDup ks -> Forall (in_use h) ks ->
  exists h', free_areas l h = Some h' /\ freed h ks h'.
Proof.
  revert ks h. induction l as [|v l IH]; intros ks h E Hm Hnd Hu; cbn [used_areas free_areas] in *.
  { symmetry in E. apply fmap_nil_inv in E as ->. exists h. split; [done|by apply freed_nil]. }
  destruct (pa v =? 0) eqn:Ev; cbn [negb].
  { symmetry in E. apply fmap_nil_inv in E as ->. exists h. split; [done|by apply freed_nil]. }
  symmetry in E. apply fmap_cons_inv in E as (k & ks' & Ek & E & ->). apply NoDup_cons in Hnd as [Hk Hnd].
  apply Forall_cons in Hu as [Hu1 Hu]. rewrite Ek, __va_pfn by apply Hu1.
  destruct (kfree_page_spec h k Hm Hu1) as (h1 & -> & Hf1). rewrite bind_Some.
  destruct (IH ks' h1) as (h' & -> & Hf'); [done|by eapply freed_map|done| |].
  { by apply (still_in_use h k ks'). }
  exists h'. split; [done|]. by apply (freed_app h [k] h1).
Qed.

Lemma free_tables_spec l ks h :
  used_tables l = page_va <$> ks -> map_ok (mem_map (kphys h)) -> NoDup ks -> Forall (in_use h) ks ->
  exists h', free_tables l h = Some h' /\ freed h ks h'.
Proof.
  revert ks h. induction l as [|a l IH]; intros ks h E Hm Hnd Hu; cbn [free_tables] in *.
  { symmetry in E. apply fmap_nil_inv in E as ->. exists h. split; [done|by apply freed_nil]. }
  unfold used_tables in E. rewrite filter_cons in E. destruct (decide (a <> NULL)) as [Ha|Ha].
  - symmetry in E. apply fmap_cons_inv in E as (k & ks' & -> & E & ->). apply NoDup_cons in Hnd as [Hk Hnd].
    apply Forall_cons in Hu as [Hu1 Hu]. apply Z.eqb_neq in Ha. rewrite Ha. cbn [negb].
    destruct (kfree_page_spec h k Hm Hu1) as (h1 & -> & Hf1). rewrite bind_Some.
    destruct (IH ks' h1) as (h' & -> & Hf'); [done|by eapply freed_map|done|by apply (still_in_use h k ks')|].
    exists h'. split; [done|]. by apply (freed_app h [k] h1).
  - apply dec_stable in Ha as ->. cbn [negb Z.eqb NULL]. rewrite bind_Some. by apply IH.
Qed.

(** The pages a process gives back: its recorded areas and tables, and its own. *)
Definition owned_pages s (t : task_struct) ka kt kp : Prop :=
  let v := load_mm (kram s) (t_mm t) in
  used_areas (vma v) = pfn_to_pa <$> ka /\ used_tables (pgtbl_page v) = page_va <$> kt /\
  NoDup (ka ++ kt ++ [kp]) /\ Forall (in_use (kh s)) (ka ++ kt ++ [kp]).

Lemma NoDup_mid_notin (cur : Z) (l1 l2 : list Z) p : NoDup (cur :: l1 ++ p :: l2) -> p ∉ cur :: l1 ++ l2.
Proof.
  intros Hnd. apply NoDup_cons in Hnd as [H1 H2]. rewrite <- Permutation_middle in H2. apply NoDup_cons in H2 as [H2 _].
  rewrite elem_of_cons. intros [->|?]; [|done]. apply H1. rewrite elem_of_app, elem_of_cons. tauto.
Qed.

Lemma delete_process_spec s cur l1 p l2 t ka kt kp :
  ring s cur (l1 ++ p :: l2) -> p <> init_task s -> tasks s !! p = Some t -> state t = TASK_ZOMBIE -> t_mm t <> NULL ->
  p = page_va kp -> map_ok (mem_map (kphys (kh s))) -> owned_pages s t ka kt kp ->
  (forall k, k ∈ ka ++ kt -> page_va k ∉ cur :: l1 ++ l2) ->
  exists s', delete_process p s = Some s' /\ ring s' cur (l1 ++ l2) /\ freed (kh s) (ka ++ kt ++ [kp]) (kh s') /\
    s' = set_kh (kh s') (set_nodes (nodes s') s) /\ nodes s' !! task_list p = Some {| prev := NULL; next := NULL |}.
Proof.
  intros Hr Hp Ht Hz Hmm Ep Hm (Ea & Et & Hnd & Hu) Hout. pose proof (ring_nodup _ _ _ _ _ Hr) as Hndr.
  destruct Hr as [Hl Htasks Hs Hi].
  assert (Hpos : p <> NULL) by (rewrite Ep; pose proof (page_va_pos kp (proj1 (proj1 (Forall_forall _ _) Hu kp ltac:(rewrite !elem_of_app; right; right; by apply list_elem_of_singleton)))); unfold NULL; lia).
  rewrite map_app in Hl. cbn [map] in Hl. destruct (dlist_del _ _ _ _ _ Hl) as (n & En & Hl' & _ & Hn & Hrest).
  rewrite <- map_app in Hl'.
  rewrite !Forall_app in Hu. destruct Hu as (Hua & Hut & Hup). apply NoDup_app in Hnd as (Hna & Hda & Hnd). apply NoDup_app in Hnd as (Hnt & Hdt & _).
  destruct (free_areas_spec _ ka (kh s) Ea Hm Hna Hua) as (ha & Eha & Hfa).
  destruct (free_tables_spec _ kt ha Et (freed_map _ _ _ Hfa) Hnt) as (ht & Eht & Hft).
  { rewrite Forall_forall in Hut |- *. intros k Hk. apply (in_use_freed _ _ _ _ Hfa); [|by apply Hut].
    intros Hka. apply (Hda k Hka). apply elem_of_app. by left. }
  apply (Forall_singleton (in_use (kh s)) kp) in Hup.
  destruct (kfree_page_spec ht kp (freed_map _ _ _ Hft)) as (hp & Ehp & Hfp).
  { assert (Hkp : kp ∈ [kp]) by (by apply list_elem_of_singleton).
    apply (in_use_freed _ _ _ _ Hft); [intros Hk; exact (Hdt kp Hk Hkp)|].
    apply (in_use_freed _ _ _ _ Hfa); [|done]. intros Hk. apply (Hda kp Hk). apply elem_of_app. by right. }
  pose proof (freed_app _ _ _ _ _ (freed_app _ _ _ _ _ Hfa Hft) Hfp) as Hf. rewrite <- app_assoc in Hf.
  exists (set_kh hp (set_nodes n s)). split_and!; [| |exact Hf|done|exact Hn].
  - unfold delete_process. apply Z.eqb_neq in Hpos. rewrite Hpos, Ht, bind_Some, Hz. cbn [negb Z.eqb Pos.eqb TASK_ZOMBIE].
    rewrite En, bind_Some. unfold mm_at. apply Z.eqb_neq in Hmm. rewrite Hmm, bind_Some. cbn [kh set_nodes].
    fold (kram s). rewrite Eha, bind_Some, Eht, bind_Some. rewrite Ep at 1. rewrite Ehp, bind_Some. done.
  - assert (Hsub : forall q, q ∈ cur :: l1 ++ l2 -> q ∈ cur :: l1 ++ p :: l2).
    { intros q. rewrite !elem_of_cons, !elem_of_app, elem_of_cons. tauto. }
    split.
    + exact Hl'.
    + rewrite Forall_forall in Htasks |- *. intros q Hq. destruct (Htasks q (Hsub q Hq)) as (B1 & B2 & B3 & B4).
      split_and!; [done|lia|lia|done|]. intros k Hk Eq. destruct (B4 k Hk Eq) as (c & Hc & Hne). exists c. split; [|done].
      destruct Hf as (m & -> & _ & Hcm). cbn. rewrite Hcm, decide_False; [done|].
      rewrite app_assoc, elem_of_app, list_elem_of_singleton. intros [Hk'| ->].
      * apply (Hout k Hk'). by rewrite <- Eq.
      * apply (NoDup_mid_notin cur l1 l2 p Hndr). by rewrite Ep, <- Eq.
    + apply Forall_app in Hs as [Hs1 Hs2]. apply Forall_cons in Hs2 as [_ Hs2]. by apply Forall_app.
    + change (init_task s ∈ cur :: l1 ++ l2). rewrite elem_of_cons, elem_of_app.
      rewrite elem_of_cons, elem_of_app, elem_of_cons in Hi. destruct Hi as [Hi|[Hi|[Hi|Hi]]]; [tauto|tauto|by destruct Hp|tauto].
Qed.

Lemma list_entry_task p : list_entry (task_list p) = p.
Proof. unfold list_entry, task_list. lia. Qed.

(** The walk passes the tasks that are no zombies and stops at the first one: it
    goes on from a node whose links are NULL. *)
(** More fuel does not change a result. *)
Lemma clear_from_more n fuel pos s r : clear_from fuel pos s = Some r -> clear_from (fuel + n) pos s = Some r.
Proof.
  revert pos s. induction fuel as [|fuel IH]; intros pos s; [done|]. cbn [clear_from Nat.add].
  destruct (pos =? task_list (init_task s)); [done|]. destruct (tasks s !! list_entry pos) as [t|]; [|done]. rewrite !bind_Some.
  destruct (if state t =? TASK_ZOMBIE then _ else _) as [s'|]; [|done]. rewrite !bind_Some.
  destruct (get_next (nodes s') pos) as [q|]; [|done]. rewrite !bind_Some. apply IH.
Qed.

(** The walk passes the tasks that are no zombies. *)
Lemma clear_from_walk s cur l1 p l2 fuel pre suf :
  ring s cur (l1 ++ p :: l2) -> cur = init_task s -> l1 = pre ++ suf -> (forall q, q ∈ suf -> task_state s q <> TASK_ZOMBIE) ->
  clear_from (length suf + fuel) (task_list (hd p suf)) s = clear_from fuel (task_list p) s.
Proof.
  intros Hr Hcur. pose proof (ring_nodup _ _ _ _ _ Hr) as [Hcn _]%NoDup_cons.
  revert pre. induction suf as [|q suf IH]; intros pre El Hsuf; [done|].
  assert (Hin : q ∈ l1 ++ p :: l2) by (rewrite El, !elem_of_app, elem_of_cons; tauto).
  cbn [length Nat.add clear_from hd]. destruct (Z.eqb_spec (task_list q) (task_list (init_task s))) as [E|_].
  { exfalso. apply Hcn. rewrite Hcur. apply task_list_inj in E. by rewrite <- E. }
  rewrite list_entry_task. pose proof (Hsuf q ltac:(apply elem_of_cons; by left)) as Hq. unfold task_state in Hq.
  destruct (ring_task _ _ _ _ _ q Hr) as (_ & _ & (u & Hu & _) & _); [by apply elem_of_cons; right|].
  rewrite Hu, bind_Some in *. apply Z.eqb_neq in Hq. rewrite Hq, bind_Some.
  pose proof (rg_list _ _ _ _ _ Hr) as Hl. rewrite El, <- app_assoc, map_app in Hl. cbn [app map] in Hl.
  rewrite (dlist_next _ _ _ _ _ Hl), bind_Some.
  replace (hd (task_list cur) (map task_list (suf ++ p :: l2))) with (task_list (hd p suf)) by (by destruct suf).
  apply (IH (pre ++ [q])); [by rewrite <- app_assoc|]. intros q' Hq'. apply Hsuf. apply elem_of_cons. by right.
Qed.

(** At the zombie: it is removed, and the walk goes on from its cleared link. *)
Lemma clear_from_zombie s cur l1 p l2 t ka kt kp :
  ring s cur (l1 ++ p :: l2) -> cur = init_task s -> tasks s !! p = Some t -> state t = TASK_ZOMBIE -> t_mm t <> NULL ->
  p = page_va kp -> map_ok (mem_map (kphys (kh s))) -> owned_pages s t ka kt kp ->
  (forall k, k ∈ ka ++ kt -> page_va k ∉ cur :: l1 ++ l2) ->
  exists s', delete_process p s = Some s' /\ ring s' cur (l1 ++ l2) /\ nodes s' !! task_list p = Some {| prev := NULL; next := NULL |} /\
    tasks s' = tasks s /\ init_task s' = init_task s /\
    forall fuel, clear_from (S fuel) (task_list p) s = clear_from fuel NULL s'.
Proof.
  intros Hr Hcur Ht Hz Hmm Ep Hm Ho Hout. pose proof (ring_nodup _ _ _ _ _ Hr) as [Hcn _]%NoDup_cons.
  assert (Hpi : p <> init_task s) by (intros E; apply Hcn; rewrite Hcur, <- E, elem_of_app, elem_of_cons; tauto).
  destruct (delete_process_spec s cur l1 p l2 t ka kt kp Hr Hpi Ht Hz Hmm Ep Hm Ho Hout) as (s' & E & Hr' & _ & Es & Hn).
  exists s'. split_and!; [done|done|done|by rewrite Es|by rewrite Es|]. intros fuel. cbn [clear_from].
  destruct (Z.eqb_spec (task_list p) (task_list (init_task s))) as [E'%task_list_inj|_]; [done|].
  rewrite list_entry_task, Ht, bind_Some, Hz. change (TASK_ZOMBIE =? TASK_ZOMBIE) with true. cbn iota.
  rewrite E, bind_Some. unfold get_next. by rewrite Hn.
Qed.
End Remove.

(** ** Claims *)

(** C10: [copy_process] of a program of at most 61440 bytes (15 pages) in live heap
    blocks, with 32 free pages, on a heap whose free blocks of 512 bytes are clean
    ([kclean]: the [mm_struct] is taken from them and never cleared; so it is from
    boot until a program or a path is read into a block of that size and given
    back): the process enters the ring in front of the initial task, it will start at address 0 with its stack
    pointer at the top of a cleared stack page, the program's bytes are at the
    addresses from 0 and the rest of its pages is zero; nothing else is mapped,
    every page mapped was free before (so no other process has it), the blocks
    that were live keep their bytes, and the heap keeps its invariant and its
    clean blocks. *)
Theorem copy_process_correct (ret_from_fork switch_ret : Z) (s : ksys) (cur : Z) (rest : list Z) (tc : task_struct)
    (L : gmap Z Z) (start size : Z) :
  ring ret_from_fork switch_ret s cur rest -> in_stack cur (callee s) ->
  tasks s !! cur = Some tc -> 0 <= preempt_count tc < 2 ^ 64 - 1 ->
  kinv (kh s) L -> kclean (kh s) L -> free_ge (mem_map (kphys (kh s))) 32 ->
  0 <= size <= 61440 -> (forall j, 0 <= j < size -> owned L (start + j)) ->
  exists k mm root l1 l2 s' t, let m := kram s' in
    copy_process ret_from_fork start size s = Some s' /\ rest = l1 ++ l2 /\ hd cur l2 = init_task s /\
    ring ret_from_fork switch_ret s' cur (l1 ++ page_va k :: l2) /\
    tasks s' = <[page_va k := t]> (tasks s) /\ state t = TASK_RUNNING /\ t_mm t = mm /\ x20 (context t) = root /\
    pc (context t) = ret_from_fork /\ frames s' !! sp (context t) = Some user_frame /\
    kinv (kh s') (<[mm := 512]> L) /\ kclean (kh s') (<[mm := 512]> L) /\ L !! mm = None /\
    pgd (load_mm m mm) = root /\ pt_wf 4 (kphys (kh s')) root /\
    (forall j, 0 <= j < size -> exists x, user_byte m root j = Some x /\ ldb m x = ldb (kram s) (start + j)) /\
    (forall a, in_space size a -> size <= a -> exists x, user_byte m root a = Some x /\ ldb m x = 0) /\
    (forall a, 0 <= a < 2 ^ 48 -> ~ in_space size a -> translate m root a = None) /\
    (forall a x, 0 <= a -> translate m root a = Some x ->
       exists q, pfn_ok q /\ x = pfn_to_pa q /\ count_of (mem_map (kphys (kh s))) q = Some 0) /\
    (forall x, owned L x -> ldb m x = ldb (kram s) x).
Proof.
  intros Hr Hin Htc Hpc Hk Hcl Hf Hsz Hsrc.
  destruct (copy_process_spec ret_from_fork switch_ret s cur rest tc L start size 0 Hr Hin Htc Hpc Hk Hcl Hf Hsz Hsrc)
    as (s' & p & mm & root & E & _ & [(l1 & l2 & H1 & H2 & H3) (t & T1 & T2 & T3 & T4 & T5 & T6) _ (k & ->) _ [[H4 H4c] H5] [H6 H7] H8 H9 H10 H11 _ H12 _ _ _]).
  exists k, mm, root, l1, l2, s', t. cbn zeta. split_and!; try done.
  intros a x Ha Hx. destruct (H11 (path a) x ltac:(done) (path_ok a Ha) Hx) as (q & H13 & H14 & H15). by exists q.
Qed.

(** C29: [delete_process] of a zombie on the ring takes it off and gives back its own
    page, the pages it recorded and the tables it recorded, each once; the rest
    of the ring and of the memory stays.  The root table and the block of the
    [mm_struct] are not among them: they are never given back. *)
Theorem delete_process_correct (ret_from_fork switch_ret : Z) (s : ksys) (cur : Z) (l1 l2 : list Z) (p : Z)
    (t : task_struct) (ka kt : list Z) (kp : Z) :
  ring ret_from_fork switch_ret s cur (l1 ++ p :: l2) -> p <> init_task s -> tasks s !! p = Some t -> state t = TASK_ZOMBIE ->
  t_mm t <> NULL -> p = page_va kp -> map_ok (mem_map (kphys (kh s))) -> owned_pages s t ka kt kp ->
  (forall k, k ∈ ka ++ kt -> page_va k ∉ cur :: l1 ++ l2) ->
  exists s', delete_process p s = Some s' /\ ring ret_from_fork switch_ret s' cur (l1 ++ l2) /\
    (forall j, count_of (mem_map (kphys (kh s'))) j =
       if decide (j ∈ ka ++ kt ++ [kp]) then Some 0 else count_of (mem_map (kphys (kh s))) j) /\
    kram s' = kram s /\ tasks s' = tasks s /\ descs (kh s') = descs (kh s) /\ bucket_dir (kh s') = bucket_dir (kh s).
Proof.
  intros Hr Hp Ht Hz Hmm Ep Hm Ho Hout.
  destruct (delete_process_spec _ _ s cur l1 p l2 t ka kt kp Hr Hp Ht Hz Hmm Ep Hm Ho Hout)
    as (s' & E & Hr' & (m & Eh & _ & Hc) & Es & _).
  exists s'. split_and!; [done|done|by rewrite Eh| | |by rewrite Eh|by rewrite Eh].
  - unfold kram. by rewrite Eh.
  - by rewrite Es.
Qed.

(** C30: Called by the initial task, [clear_zombie] goes wrong with the first zombie
    [p] of the ring: the walk reaches it, [delete_process] takes it off the ring
    and clears the links of its node, the walk goes on from that node, that is
    from NULL, and the access to the task there faults; so the call never
    returns, whatever the fuel. *)
Theorem clear_zombie_faults (ret_from_fork switch_ret : Z) (s : ksys) (cur : Z) (tc : task_struct) (l1 l2 : list Z) (p : Z)
    (t : task_struct) (ka kt : list Z) (kp : Z) :
  ring ret_from_fork switch_ret s cur (l1 ++ p :: l2) -> cur = init_task s -> in_stack cur (callee s) ->
  tasks s !! cur = Some tc -> (forall q, q ∈ l1 -> task_state s q <> TASK_ZOMBIE) ->
  tasks s !! p = Some t -> state t = TASK_ZOMBIE -> t_mm t <> NULL -> p = page_va kp ->
  map_ok (mem_map (kphys (kh s))) -> owned_pages s t ka kt kp ->
  (forall k, k ∈ ka ++ kt -> page_va k ∉ cur :: l1 ++ l2) -> tasks s !! list_entry NULL = None ->
  exists s1 s2, preempt_disable s = Some s1 /\ get_next (nodes s1) (task_list cur) = Some (task_list (hd p l1)) /\
    (forall fuel, clear_from (length l1 + fuel) (task_list (hd p l1)) s1 = clear_from fuel (task_list p) s1) /\
    delete_process p s1 = Some s2 /\ ring ret_from_fork switch_ret s2 cur (l1 ++ l2) /\
    nodes s2 !! task_list p = Some {| prev := NULL; next := NULL |} /\
    (forall fuel, clear_from (S fuel) (task_list p) s1 = clear_from fuel NULL s2) /\
    (forall fuel, clear_from fuel NULL s2 = None) /\
    forall fuel, clear_zombie fuel s = None.
Proof.
  intros Hr Hcur Hin Htc Hl1 Ht Hz Hmm Ep Hm Ho Hout Hnull. pose proof (ring_nodup _ _ _ _ _ Hr) as [Hcn _]%NoDup_cons.
  destruct (ring_task _ _ _ _ _ cur Hr ltac:(apply elem_of_cons; by left)) as (Hal & Hpos & _).
  set (tc1 := with_preempt (u64 (preempt_count tc + 1)) tc). set (s1 := set_tasks (<[cur := tc1]> (tasks s)) s).
  assert (Hother : forall q, q ∈ l1 ++ p :: l2 -> tasks s1 !! q = tasks s !! q).
  { intros q Hq. cbn. apply lookup_insert_ne. by intros <-. }
  assert (Hr1 : ring ret_from_fork switch_ret s1 cur (l1 ++ p :: l2)).
  { apply (ring_update _ _ s s1 cur _ tc tc1); try done; apply lookup_insert_eq. }
  destruct (clear_from_zombie ret_from_fork switch_ret s1 cur l1 p l2 t ka kt kp Hr1 Hcur) as (s2 & E2 & Hr2 & Hn2 & Et2 & Ei2 & Hgo); try done.
  { rewrite Hother; [done|]. rewrite elem_of_app, elem_of_cons. tauto. }
  assert (Hwalk : forall fuel, clear_from (length l1 + fuel) (task_list (hd p l1)) s1 = clear_from fuel (task_list p) s1).
  { intros fuel. apply (clear_from_walk ret_from_fork switch_ret s1 cur l1 p l2 fuel [] l1 Hr1 Hcur eq_refl).
    intros q Hq. unfold task_state. rewrite Hother; [by apply Hl1|]. rewrite elem_of_app. by left. }
  assert (Hend : forall fuel, clear_from fuel NULL s2 = None).
  { intros [|fuel]; [done|]. cbn [clear_from]. rewrite Ei2, Et2. destruct (Z.eqb_spec NULL (task_list (init_task s1))) as [E|_].
    { exfalso. unfold task_list, NULL in E. change (init_task s1) with (init_task s) in E. rewrite <- Hcur in E. unfold list_offset in E. lia. }
    cbn [tasks set_tasks s1]. rewrite lookup_insert_ne, Hnull; [done|]. unfold list_entry, NULL, list_offset. lia. }
  pose proof (preempt_disable_eq s cur tc (current_eq s cur Hal Hin) Htc : preempt_disable s = Some s1) as E1.
  assert (Hnx : get_next (nodes s1) (task_list cur) = Some (task_list (hd p l1))).
  { change (nodes s1) with (nodes s). rewrite (dlist_next_head _ _ _ (rg_list _ _ _ _ _ Hr)). by destruct l1. }
  exists s1, s2. split_and!; try done. intros fuel. unfold clear_zombie. rewrite E1, bind_Some.
  change (init_task s1) with (init_task s). rewrite <- Hcur, Hnx, bind_Some.
  destruct (clear_from fuel (task_list (hd p l1)) s1) as [r|] eqn:E; [exfalso|done].
  apply (clear_from_more (length l1 + 1)) in E. replace (fuel + (length l1 + 1))%nat with (length l1 + S fuel)%nat in E by lia.
  by rewrite Hwalk, Hgo, Hend in E.
Qed.

(** ** A concrete process *)

(** A program of 100 bytes in the first block of the heap. *)
Definition program0 : Z * kheap := default (0, kheap_boot) (kmalloc 100 kheap_boot).
Definition ksys_program : ksys := set_kh program0.2 ksys0.

Lemma program0_ok : kinv program0.2 {[ program0.1 := 128 ]} /\ kclean program0.2 {[ program0.1 := 128 ]} /\
  free_ge (mem_map (kphys program0.2)) 32.
Proof.
  destruct (kmalloc_spec kheap_boot ∅ 100 32 kheap_boot_inv ltac:(done) (kheap_boot_pages 34 ltac:(lia)))
    as (a & h & E & _ & Hk & _ & _ & _ & _ & Hf & _).
  pose proof (proj1 (kmalloc_clean _ _ 100 32 a h kheap_boot_inv kheap_boot_clean ltac:(clear; lia) (kheap_boot_pages 34 ltac:(lia)) E)) as Hc.
  unfold program0. rewrite E. exact (conj Hk (conj Hc Hf)).
Qed.

Lemma ksys_program_ring : ring 1 2 ksys_program init0 [].
Proof.
  set (t := with_state TASK_RUNNING (with_canary CANARY_MAGIC_NUM zero_task)).
  refine (ring_update 1 2 ksys0 ksys_program init0 [] t t ksys0_ring (lookup_singleton_eq _ _) (lookup_singleton_eq _ _)
    eq_refl (fun p _ => eq_refl) (fun p _ => eq_refl) (fun p _ => eq_refl) eq_refl eq_refl _).
  intros j c Hj Hne. unfold ksys_program, program0. cbn [kh set_kh].
  destruct (kmalloc_spec kheap_boot ∅ 100 32 kheap_boot_inv ltac:(done) (kheap_boot_pages 34 ltac:(lia)))
    as (a & h & E & _ & _ & _ & _ & _ & [Hkeep _] & _). rewrite E. by apply Hkeep.
Qed.

Example copy_process_correct_witness :
  exists k s', copy_process 1 program0.1 100 ksys_program = Some s' /\ ring 1 2 s' init0 [page_va k].
Proof.
  destruct (copy_process_correct 1 2 ksys_program init0 [] (with_state TASK_RUNNING (with_canary CANARY_MAGIC_NUM zero_task)) {[ program0.1 := 128 ]} program0.1 100 ksys_program_ring)
    as (k & mm & root & l1 & l2 & s' & t & E & Hl & _ & Hr & _).
  - split; discriminate || reflexivity.
  - apply lookup_singleton_eq.
  - split; [discriminate|reflexivity].
  - exact (proj1 program0_ok).
  - exact (proj1 (proj2 program0_ok)).
  - exact (proj2 (proj2 program0_ok)).
  - split; discriminate.
  - intros j Hj. exists program0.1, 128. split; [apply lookup_singleton_eq|lia].
  - symmetry in Hl. apply app_eq_nil in Hl as [-> ->]. exists k, s'. split; [exact E|exact Hr].
Defined.

(** A zombie on the ring of the initial task, with an empty [mm_struct]. *)
Definition zombie0 : Z := page_va 3839.
Definition zombie_task : task_struct :=
  {| context := with_pc 1 (with_sp (zombie0 + 4096) (with_x19 77 zero_context)); state := TASK_ZOMBIE; preempt_count := 0;
     t_mm := 8192; filp := replicate (Z.to_nat NR_OPEN) NULL; canary := CANARY_MAGIC_NUM |}.
Definition ksys_zombie : ksys :=
  {| kh := set_phys {| ram := ∅; mem_map := (alloc_page mem_map_init).2 |} kheap_boot; callee := ctx0;
     tasks := {[ init0 := with_state TASK_RUNNING (with_canary CANARY_MAGIC_NUM zero_task); zombie0 := zombie_task ]};
     nodes := {[ task_list init0 := {| prev := task_list zombie0; next := task_list zombie0 |};
                 task_list zombie0 := {| prev := task_list init0; next := task_list init0 |} ]};
     frames := ∅; callers := ∅; next_task := NULL; init_task := init0; loc := Back InSchedule |}.

Lemma zombie_count : count_of (mem_map (kphys (kh ksys_zombie))) 3839 = Some 1.
Proof. vm_compute. reflexivity. Qed.

Lemma ksys_zombie_ring : ring 1 2 ksys_zombie init0 [zombie0].
Proof.
  split.
  - split; [|split; split; reflexivity]. apply NoDup_cons. split; [|apply NoDup_singleton].
    intros E%list_elem_of_singleton. vm_compute in E. discriminate E.
  - constructor; [|constructor; [|constructor]].
    + split_and!; [done|done|done| |].
      * eexists. split; [reflexivity|done].
      * intros k Hk E. unfold pfn_ok in Hk. unfold page_va, init0 in E. lia.
    + split_and!; [done|done|done| |].
      * exists zombie_task. split; [reflexivity|done].
      * intros k Hk E. unfold zombie0, page_va in E. assert (k = 3839) as -> by lia. exists 1. split; [exact zombie_count|done].
  - constructor; [|constructor]. exists zombie_task. split; [reflexivity|]. right. left. by split_and!.
  - left.
Qed.

Lemma ksys_zombie_pages : owned_pages ksys_zombie zombie_task [] [] 3839.
Proof.
  split_and!; [reflexivity|reflexivity|apply NoDup_singleton|]. apply Forall_singleton. split; [done|exact zombie_count].
Qed.

Lemma ksys_zombie_map : map_ok (mem_map (kphys (kh ksys_zombie))).
Proof. reflexivity. Qed.

Lemma no_pages (l : list Z) k : k ∈ ([] : list Z) ++ [] -> page_va k ∉ l.
Proof. intros Hk. by apply not_elem_of_nil in Hk. Qed.

Example delete_process_correct_witness :
  exists s', delete_process zombie0 ksys_zombie = Some s' /\ ring 1 2 s' init0 [].
Proof.
  destruct (delete_process_correct 1 2 ksys_zombie init0 [] [] zombie0 zombie_task [] [] 3839 ksys_zombie_ring
    ltac:(discriminate) eq_refl eq_refl ltac:(discriminate) eq_refl ksys_zombie_map ksys_zombie_pages (no_pages _)) as (s' & E & Hr & _).
  exists s'. split; [exact E|exact Hr].
Defined.

Example clear_zombie_faults_witness :
  clear_zombie 5 ksys_zombie = None /\
  exists s1 s2, preempt_disable ksys_zombie = Some s1 /\ delete_process zombie0 s1 = Some s2 /\ ring 1 2 s2 init0 [].
Proof.
  destruct (clear_zombie_faults 1 2 ksys_zombie init0 (with_state TASK_RUNNING (with_canary CANARY_MAGIC_NUM zero_task)) [] [] zombie0
    zombie_task [] [] 3839 ksys_zombie_ring eq_refl ltac:(split; discriminate || reflexivity) eq_refl
    ltac:(intros q Hq; by apply not_elem_of_nil in Hq) eq_refl eq_refl ltac:(discriminate) eq_refl
    ksys_zombie_map ksys_zombie_pages (no_pages _) eq_refl) as (s1 & s2 & E1 & _ & _ & E2 & Hr & _ & _ & _ & E).
  split; [exact (E 5%nat)|]. exists s1, s2. split; [exact E1|]. split; [exact E2|exact Hr].
Defined.
