(* ===== verification/Printf.v ===== *)
(** lib/printf.c: formatted output.

    The output function the C code passes around as a pointer is a function on
    an abstract output state, so the same definitions run on the UART ([_out_char]),
    on a memory buffer ([_out_buffer]), on nothing ([_out_null]), on a caller's
    function ([_out_fct]) and on a recorder of the characters sent.  [char] is
    unsigned on AArch64, [long] and [long long] have 64 bits; the variable
    arguments are the list of values not yet consumed, and running out of them
    leaves defined behaviour.  The floating-point conversions are compiled out. *)

From S2P Require Import Prelude Mem Lib.
Local Open Scope Z_scope.

(** ** Flags and characters *)

Definition PRINTF_NTOA_BUFFER_SIZE : Z := 32.
Definition FLAGS_ZEROPAD : Z := Z.shiftl 1 0.
Definition FLAGS_LEFT : Z := Z.shiftl 1 1.
Definition FLAGS_PLUS : Z := Z.shiftl 1 2.
Definition FLAGS_SPACE : Z := Z.shiftl 1 3.
Definition FLAGS_HASH : Z := Z.shiftl 1 4.
Definition FLAGS_UPPERCASE : Z := Z.shiftl 1 5.
Definition FLAGS_CHAR : Z := Z.shiftl 1 6.
Definition FLAGS_SHORT : Z := Z.shiftl 1 7.
Definition FLAGS_LONG : Z := Z.shiftl 1 8.
Definition FLAGS_LONG_LONG : Z := Z.shiftl 1 9.
Definition FLAGS_PRECISION : Z := Z.shiftl 1 10.

(** [flags & f] as a condition, [flags & ~f] as a value. *)
Definition has (flags f : Z) : bool := negb (Z.land flags f =? 0).
Definition clear (flags f : Z) : Z := Z.land flags (Z.lnot f).

Definition c_space : Z := 32.
Definition c_hash : Z := 35.
Definition c_percent : Z := 37.
Definition c_star : Z := 42.
Definition c_plus : Z := 43.
Definition c_minus : Z := 45.
Definition c_dot : Z := 46.
Definition c_0 : Z := 48.

Definition _is_digit (ch : Z) : bool := (c_0 <=? ch) && (ch <=? 57).

(** ** Output functions *)

(** What the output functions can reach: the memory and the UART. *)
Record pstate := { pmem : mem; puart : uart }.

Definition out_fct (St : Type) := Z -> Z -> Z -> Z -> St -> St.

Definition _out_buffer : out_fct pstate := fun character buffer idx maxlen s =>
  if idx <? maxlen then {| pmem := stb (pmem s) (buffer + idx) character; puart := puart s |} else s.

Definition _out_null {St : Type} : out_fct St := fun _ _ _ _ s => s.

Definition _out_char : out_fct pstate := fun character _ _ _ s =>
  if negb (character =? 0) then {| pmem := pmem s; puart := _putchar (puart s) character |} else s.

(** [buffer] points to the caller's function and its argument. *)
Definition _out_fct {St : Type} (fct : Z -> Z -> St -> St) (arg : Z) : out_fct St := fun character _ _ _ s =>
  if negb (character =? 0) then fct character arg s else s.

Section Format.
Context {St : Type}.
(** How the state is read, the output function, the target and its limit. *)
Variables (rd : St -> Z -> option Z) (out : out_fct St) (buffer maxlen : Z).

(** The position and the state behind it; every output is
    [out(c, buffer, idx++, maxlen)], with [c] converted to [char]. *)
Definition sink : Type := Z * St.
Definition emit (c : Z) (x : sink) : sink := (u64 (fst x + 1), out (u8 c) buffer (fst x) maxlen (snd x)).
Definition rdx (x : sink) (a : Z) : option Z := rd (snd x) a.

(** ** Scanning *)

Fixpoint _strnlen_s (fuel : nat) (x : sink) (str s maxsize : Z) : option Z :=
  match fuel with
  | O => None
  | S f =>
      let! c := rdx x s in
      if negb (c =? 0) && negb (maxsize =? 0) then _strnlen_s f x str (s + 1) (u64 (maxsize - 1))
      else Some (u32 (s - str))
  end.

(** The value read and the advanced pointer. *)
Fixpoint _atoi (fuel : nat) (x : sink) (str i : Z) : option (Z * Z) :=
  match fuel with
  | O => None
  | S f =>
      let! c := rdx x str in
      if _is_digit c then _atoi f x (str + 1) (u32 (i * 10 + u32 (c - c_0))) else Some (i, str)
  end.

(** ** Output of numbers *)

(** [while (l++ < width) out(' ')]. *)
Fixpoint pad_loop (fuel : nat) (l width : Z) (x : sink) : option sink :=
  match fuel with
  | O => None
  | S f => if l <? width then pad_loop f (u32 (l + 1)) width (emit c_space x) else Some x
  end.
Definition pad (l width : Z) (x : sink) : option sink := pad_loop (S (Z.to_nat (width - l))) l width x.

(** [for (size_t i = len; i < width; i++) out(' ')]. *)
Fixpoint pad_pre (fuel : nat) (i width : Z) (x : sink) : option sink :=
  match fuel with
  | O => None
  | S f => if i <? width then pad_pre f (u64 (i + 1)) width (emit c_space x) else Some x
  end.

(** [while (idx - start_idx < width) out(' ')]. *)
Fixpoint pad_post (fuel : nat) (start_idx width : Z) (x : sink) : option sink :=
  match fuel with
  | O => None
  | S f => if u64 (fst x - start_idx) <? width then pad_post f start_idx width (emit c_space x) else Some x
  end.

(** [while (len) out(buf[--len])]. *)
Fixpoint out_digits (len : nat) (buf : list Z) (x : sink) : option sink :=
  match len with
  | O => Some x
  | S n => let! c := buf !! n in out_digits n buf (emit c x)
  end.

Definition _out_rev (buf : list Z) (len width flags : Z) (x : sink) : option sink :=
  let start_idx := fst x in
  let! x := if negb (has flags FLAGS_LEFT) && negb (has flags FLAGS_ZEROPAD)
            then pad_pre (S (Z.to_nat (width - len))) len width x else Some x in
  let! x := out_digits (Z.to_nat len) buf x in
  if has flags FLAGS_LEFT then pad_post (S (Z.to_nat width)) start_idx width x else Some x.

(** The local buffer and its fill: [buf[len++] = c]. *)
Definition digits : Type := list Z * Z.
Definition push (c : Z) (b : digits) : option digits :=
  let! l := arr_set (fst b) (snd b) c in Some (l, snd b + 1).

(** [while ((len < bound) && (len < PRINTF_NTOA_BUFFER_SIZE)) buf[len++] = '0']. *)
Fixpoint zeros (fuel : nat) (bound : Z) (b : digits) : option digits :=
  match fuel with
  | O => None
  | S f =>
      if (snd b <? bound) && (snd b <? PRINTF_NTOA_BUFFER_SIZE)
      then let! b := push c_0 b in zeros f bound b
      else Some b
  end.

(** Leading zeros, with the field width less the place of a sign. *)
Definition ntoa_zeros (b : digits) (negative : bool) (prec width flags : Z) : option (digits * Z) :=
  if negb (has flags FLAGS_LEFT) then
    let width := if negb (width =? 0) && has flags FLAGS_ZEROPAD
                    && (negative || has flags (Z.lor FLAGS_PLUS FLAGS_SPACE)) then u32 (width - 1) else width in
    let! b := zeros 33 prec b in
    let! b := if has flags FLAGS_ZEROPAD then zeros 33 width b else Some b in
    Some (b, width)
  else Some (b, width).

(** '#' takes its place back from padding zeros where it can. *)
Definition hash_shorten (b : digits) (base prec width flags : Z) : digits :=
  if negb (has flags FLAGS_PRECISION) && negb (snd b =? 0) && ((snd b =? prec) || (snd b =? width)) then
    let len := snd b - 1 in
    (fst b, if negb (len =? 0) && (base =? 16) then len - 1 else len)
  else b.

(** The letter of the base. *)
Definition hash_letter (b : digits) (base flags : Z) : option digits :=
  if (base =? 16) && negb (has flags FLAGS_UPPERCASE) && (snd b <? PRINTF_NTOA_BUFFER_SIZE) then push 120 b
  else if (base =? 16) && has flags FLAGS_UPPERCASE && (snd b <? PRINTF_NTOA_BUFFER_SIZE) then push 88 b
  else if (base =? 2) && (snd b <? PRINTF_NTOA_BUFFER_SIZE) then push 98 b
  else Some b.

Definition ntoa_hash (b : digits) (base prec width flags : Z) : option digits :=
  if has flags FLAGS_HASH then
    let! b := hash_letter (hash_shorten b base prec width flags) base flags in
    if snd b <? PRINTF_NTOA_BUFFER_SIZE then push c_0 b else Some b
  else Some b.

Definition ntoa_sign (b : digits) (negative : bool) (flags : Z) : option digits :=
  if snd b <? PRINTF_NTOA_BUFFER_SIZE then
    if negative then push c_minus b
    else if has flags FLAGS_PLUS then push c_plus b
    else if has flags FLAGS_SPACE then push c_space b
    else Some b
  else Some b.

Definition _ntoa_format (b : digits) (negative : bool) (base prec width flags : Z) (x : sink) : option sink :=
  let! '(b, width) := ntoa_zeros b negative prec width flags in
  let! b := ntoa_hash b base prec width flags in
  let! b := ntoa_sign b negative flags in
  _out_rev (fst b) (snd b) width flags x.

(** The character of a digit, and the do-while over the digits. *)
Definition digit_char (flags digit : Z) : Z :=
  u8 (if digit <? 10 then c_0 + digit else (if has flags FLAGS_UPPERCASE then 65 else 97) + digit - 10).

Fixpoint ntoa_digits (fuel : nat) (value base flags : Z) (b : digits) : option digits :=
  match fuel with
  | O => None
  | S f =>
      let! b := push (digit_char flags (u8 (value mod base))) b in
      let value := value / base in
      if negb (value =? 0) && (snd b <? PRINTF_NTOA_BUFFER_SIZE) then ntoa_digits f value base flags b else Some b
  end.

(** [char buf[32]]: its contents are not read before they are written. *)
Definition ntoa_buffer : digits := (replicate 32 0, 0).

Definition _ntoa_long (value : Z) (negative : bool) (base prec width flags : Z) (x : sink) : option sink :=
  let flags := if value =? 0 then clear flags FLAGS_HASH else flags in
  let! b := if negb (has flags FLAGS_PRECISION) || negb (value =? 0)
            then ntoa_digits 33 value base flags ntoa_buffer else Some ntoa_buffer in
  _ntoa_format b negative (u32 base) prec width flags x.

Definition _ntoa_long_long (value : Z) (negative : bool) (base prec width flags : Z) (x : sink) : option sink :=
  let flags := if value =? 0 then clear flags FLAGS_HASH else flags in
  let! b := if negb (has flags FLAGS_PRECISION) || negb (value =? 0)
            then ntoa_digits 33 value base flags ntoa_buffer else Some ntoa_buffer in
  _ntoa_format b negative (u32 base) prec width flags x.

(** ** Format directives *)

(** The variable arguments not yet consumed. *)
Definition va_list : Type := list Z.
Definition va_arg (va : va_list) : option (Z * va_list) :=
  match va with [] => None | v :: va' => Some (v, va') end.

(** The flag a character stands for. *)
Definition flag_of (c : Z) : option Z :=
  if c =? c_0 then Some FLAGS_ZEROPAD
  else if c =? c_minus then Some FLAGS_LEFT
  else if c =? c_plus then Some FLAGS_PLUS
  else if c =? c_space then Some FLAGS_SPACE
  else if c =? c_hash then Some FLAGS_HASH
  else None.

Fixpoint eval_flags (fuel : nat) (x : sink) (format flags : Z) : option (Z * Z) :=
  match fuel with
  | O => None
  | S f =>
      let! c := rdx x format in
      match flag_of c with
      | Some b => eval_flags f x (format + 1) (Z.lor flags b)
      | None => Some (flags, format)
      end
  end.

(** [(flags, width, format, va)] after the width field. *)
Definition eval_width (fuel : nat) (x : sink) (format flags : Z) (va : va_list)
  : option (Z * Z * Z * va_list) :=
  let! c := rdx x format in
  if _is_digit c then
    let! '(w, format) := _atoi fuel x format 0 in Some (flags, w, format, va)
  else if c =? c_star then
    let! '(v, va) := va_arg va in
    let w := s32 v in
    if w <? 0 then Some (Z.lor flags FLAGS_LEFT, u32 (- w), format + 1, va)
    else Some (flags, u32 w, format + 1, va)
  else Some (flags, 0, format, va).

Definition eval_precision (fuel : nat) (x : sink) (format flags : Z) (va : va_list)
  : option (Z * Z * Z * va_list) :=
  let! c := rdx x format in
  if c =? c_dot then
    let flags := Z.lor flags FLAGS_PRECISION in
    let format := format + 1 in
    let! c := rdx x format in
    if _is_digit c then
      let! '(p, format) := _atoi fuel x format 0 in Some (flags, p, format, va)
    else if c =? c_star then
      let! '(v, va) := va_arg va in
      let prec := s32 v in
      Some (flags, if 0 <? prec then u32 prec else 0, format + 1, va)
    else Some (flags, 0, format, va)
  else Some (flags, 0, format, va).

(** The length field: 'l', 'll', 'h', 'hh', 't', 'j', 'z'; [ptrdiff_t], [intmax_t]
    and [size_t] have the size of [long]. *)
Definition eval_length (x : sink) (format flags : Z) : option (Z * Z) :=
  let! c := rdx x format in
  if c =? 108 then
    let flags := Z.lor flags FLAGS_LONG in
    let! c := rdx x (format + 1) in
    if c =? 108 then Some (Z.lor flags FLAGS_LONG_LONG, format + 2) else Some (flags, format + 1)
  else if c =? 104 then
    let flags := Z.lor flags FLAGS_SHORT in
    let! c := rdx x (format + 1) in
    if c =? 104 then Some (Z.lor flags FLAGS_CHAR, format + 2) else Some (flags, format + 1)
  else if c =? 116 then Some (Z.lor flags FLAGS_LONG, format + 1)
  else if c =? 106 then Some (Z.lor flags FLAGS_LONG, format + 1)
  else if c =? 122 then Some (Z.lor flags FLAGS_LONG, format + 1)
  else Some (flags, format).

(** ** Specifiers *)

(** 'd' 'i' 'u' 'x' 'X' 'o' 'b'. *)
Definition is_int_spec (c : Z) : bool :=
  (c =? 100) || (c =? 105) || (c =? 117) || (c =? 120) || (c =? 88) || (c =? 111) || (c =? 98).
Definition is_signed_spec (c : Z) : bool := (c =? 105) || (c =? 100).

Definition int_base (c flags : Z) : Z * Z :=
  if (c =? 120) || (c =? 88) then (16, flags)
  else if c =? 111 then (8, flags)
  else if c =? 98 then (2, flags)
  else (10, clear flags FLAGS_HASH).

Definition int_flags (c flags : Z) : Z :=
  let flags := if c =? 88 then Z.lor flags FLAGS_UPPERCASE else flags in
  let flags := if negb (is_signed_spec c) then clear flags (Z.lor FLAGS_PLUS FLAGS_SPACE) else flags in
  if has flags FLAGS_PRECISION then clear flags FLAGS_ZEROPAD else flags.

(** [value > 0 ? value : 0 - value] at the width of the type. *)
Definition magnitude (value : Z) : Z := if 0 <? value then value else 0 - value.

Definition print_signed (base precision width flags : Z) (va : va_list) (x : sink) : option (sink * va_list) :=
  let! '(v, va) := va_arg va in
  let! x :=
    if has flags FLAGS_LONG_LONG then
      let value := s64 v in
      _ntoa_long_long (u64 (magnitude value)) (value <? 0) base precision width flags x
    else if has flags FLAGS_LONG then
      let value := s64 v in
      _ntoa_long (u64 (magnitude value)) (value <? 0) base precision width flags x
    else
      let value := if has flags FLAGS_CHAR then u8 (s32 v)
                   else if has flags FLAGS_SHORT then swrap 16 (s32 v) else s32 v in
      _ntoa_long (u32 (magnitude value)) (value <? 0) base precision width flags x in
  Some (x, va).

Definition print_unsigned (base precision width flags : Z) (va : va_list) (x : sink) : option (sink * va_list) :=
  let! '(v, va) := va_arg va in
  let! x :=
    if has flags FLAGS_LONG_LONG then _ntoa_long_long (u64 v) false base precision width flags x
    else if has flags FLAGS_LONG then _ntoa_long (u64 v) false base precision width flags x
    else
      let value := if has flags FLAGS_CHAR then u8 (u32 v)
                   else if has flags FLAGS_SHORT then u16 (u32 v) else u32 v in
      _ntoa_long value false base precision width flags x in
  Some (x, va).

Definition print_int (c precision width flags : Z) (va : va_list) (x : sink) : option (sink * va_list) :=
  let '(base, flags) := int_base c flags in
  let flags := int_flags c flags in
  if is_signed_spec c then print_signed base precision width flags va x
  else print_unsigned base precision width flags va x.

Definition print_char (width flags : Z) (va : va_list) (x : sink) : option (sink * va_list) :=
  let! x := if negb (has flags FLAGS_LEFT) then pad 1 width x else Some x in
  let! '(v, va) := va_arg va in
  let x := emit (u8 v) x in
  let! x := if has flags FLAGS_LEFT then pad 1 width x else Some x in
  Some (x, va).

(** Up to the terminator, or to [precision] characters when one is given. *)
Fixpoint out_string (fuel : nat) (p precision flags : Z) (x : sink) : option sink :=
  match fuel with
  | O => None
  | S f =>
      let! c := rdx x p in
      if negb (c =? 0) && (negb (has flags FLAGS_PRECISION) || negb (precision =? 0))
      then let! c := rdx x p in out_string f (p + 1) (if has flags FLAGS_PRECISION then u32 (precision - 1) else precision) flags (emit c x)
      else Some x
  end.

Definition print_string (fuel : nat) (precision width flags : Z) (va : va_list) (x : sink) : option (sink * va_list) :=
  let! '(p, va) := va_arg va in
  let! l := _strnlen_s fuel x p p (if negb (precision =? 0) then precision else u64 (-1)) in
  let l := if has flags FLAGS_PRECISION then (if l <? precision then l else precision) else l in
  let! x := if negb (has flags FLAGS_LEFT) then pad l width x else Some x in
  let! x := out_string fuel p precision flags x in
  let! x := if has flags FLAGS_LEFT then pad l width x else Some x in
  Some (x, va).

(** [uintptr_t] has the size of [long long]. *)
Definition print_pointer (precision flags : Z) (va : va_list) (x : sink) : option (sink * va_list) :=
  let width := u32 (8 * 2) in
  let flags := Z.lor flags (Z.lor FLAGS_ZEROPAD FLAGS_UPPERCASE) in
  let! '(v, va) := va_arg va in
  let! x := _ntoa_long_long (u64 v) false 16 precision width flags x in
  Some (x, va).

(** The switch on the conversion character [c]; each case ends with [format++]. *)
Definition print_spec (fuel : nat) (c precision width flags : Z) (va : va_list) (x : sink)
  : option (sink * va_list) :=
  if is_int_spec c then print_int c precision width flags va x
  else if c =? 99 then print_char width flags va x
  else if c =? 115 then print_string fuel precision width flags va x
  else if c =? 112 then print_pointer precision flags va x
  else if c =? c_percent then Some (emit c_percent x, va)
  else Some (emit c x, va).

(** A directive after its '%': flags, width, precision, length, specifier. *)
Definition directive (fuel : nat) (format : Z) (va : va_list) (x : sink) : option (Z * va_list * sink) :=
  let! '(flags, format) := eval_flags fuel x format 0 in
  let! '(flags, width, format, va) := eval_width fuel x format flags va in
  let! '(flags, precision, format, va) := eval_precision fuel x format flags va in
  let! '(flags, format) := eval_length x format flags in
  let! c := rdx x format in
  let! '(x, va) := print_spec fuel c precision width flags va x in
  Some (format + 1, va, x).

Fixpoint format_loop (n fuel : nat) (format : Z) (va : va_list) (x : sink) : option sink :=
  match n with
  | O => None
  | S n' =>
      let! c := rdx x format in
      if c =? 0 then Some x
      else if negb (c =? c_percent) then format_loop n' fuel (format + 1) va (emit c x)
      else
        let! '(format, va, x) := directive fuel (format + 1) va x in
        format_loop n' fuel format va x
  end.

(** [out((char)0, buffer, idx < maxlen ? idx : maxlen - 1U, maxlen)]; the result
    is [(int)idx]. *)
Definition finish (x : sink) : Z * St :=
  (s32 (fst x), out 0 buffer (if fst x <? maxlen then fst x else u64 (maxlen - 1)) maxlen (snd x)).
End Format.

Definition _vsnprintf {St : Type} (rd : St -> Z -> option Z) (out : out_fct St)
    (fuel : nat) (buffer maxlen format : Z) (va : va_list) (s : St) : option (Z * St) :=
  let out := if buffer =? NULL then _out_null else out in
  let! x := format_loop rd out buffer maxlen fuel fuel format va (0, s) in
  Some (finish out buffer maxlen x).

(** ** Entry points *)

Definition rd_mem (s : pstate) (a : Z) : option Z := Some (ldb (pmem s) a).

(** [local] is the address of [char buffer[1]] on the stack. *)
Definition vprintf_ (fuel : nat) (local format : Z) (va : va_list) (s : pstate) : option (Z * pstate) :=
  _vsnprintf rd_mem _out_char fuel local (u64 (-1)) format va s.
Definition printf_ := vprintf_.
Definition vsnprintf_ (fuel : nat) (buffer count format : Z) (va : va_list) (s : pstate) : option (Z * pstate) :=
  _vsnprintf rd_mem _out_buffer fuel buffer count format va s.
Definition snprintf_ := vsnprintf_.
Definition sprintf_ (fuel : nat) (buffer format : Z) (va : va_list) (s : pstate) : option (Z * pstate) :=
  _vsnprintf rd_mem _out_buffer fuel buffer (u64 (-1)) format va s.
(** [wrap] is the address of the local [out_fct_wrap]. *)
Definition fctprintf (fct : Z -> Z -> pstate -> pstate) (fuel : nat) (arg wrap format : Z) (va : va_list) (s : pstate)
  : option (Z * pstate) :=
  _vsnprintf rd_mem (_out_fct fct arg) fuel wrap (u64 (-1)) format va s.

(** ** Reading a number back *)

Definition digit_val (c : Z) : option Z :=
  if _is_digit c then Some (c - c_0)
  else if (97 <=? c) && (c <=? 122) then Some (c - 87)
  else if (65 <=? c) && (c <=? 90) then Some (c - 55)
  else None.

Definition parse_step (base : Z) (acc : option Z) (c : Z) : option Z :=
  let! a := acc in let! d := digit_val c in
  if d <? base then Some (a * base + d) else None.
Definition parse (base : Z) (ds : list Z) : option Z := foldl (parse_step base) (Some 0) ds.

Lemma parse_snoc base ds c : parse base (ds ++ [c]) = parse_step base (parse base ds) c.
Proof. unfold parse. by rewrite foldl_app. Qed.

Lemma parse_zeros base n ds : 0 < base -> parse base (replicate n c_0 ++ ds) = parse base ds.
Proof.
  intros Hb. unfold parse. rewrite foldl_app. f_equal. induction n as [|n IH]; [done|].
  cbn [replicate foldl]. replace (parse_step base (Some 0) c_0) with (Some 0); [done|].
  unfold parse_step. cbn. zcase; [done|lia].
Qed.

Lemma digit_char_val flags d : 0 <= d < 16 -> digit_val (digit_char flags d) = Some d.
Proof.
  intros Hd. unfold digit_char.
  assert (Hall : forall n, (n < 16)%nat -> forall b : bool,
    digit_val (u8 (if Z.of_nat n <? 10 then c_0 + Z.of_nat n else (if b then 65 else 97) + Z.of_nat n - 10)) = Some (Z.of_nat n)).
  { intros n Hn b. do 16 (destruct n as [|n]; [destruct b; reflexivity|]). lia. }
  specialize (Hall (Z.to_nat d) ltac:(lia) (has flags FLAGS_UPPERCASE)). by rewrite Z2Nat.id in Hall by lia.
Qed.

Lemma digit_char_pos flags d : 0 <= d < 16 -> digit_char flags d <> 0.
Proof. intros Hd E. pose proof (digit_char_val flags d Hd) as H. by rewrite E in H. Qed.

(** ** The conversion buffer *)

(** The buffer holds the characters [c], the first ones first. *)
Definition holds (b : digits) (c : list Z) : Prop :=
  length (fst b) = 32%nat /\ snd b = Z.of_nat (length c) /\ take (length c) (fst b) = c.

Lemma holds_len b c : holds b c -> (length c <= 32)%nat.
Proof. intros (H1 & _ & H3). apply (f_equal length) in H3. rewrite length_take in H3. lia. Qed.

Lemma holds_empty : holds ntoa_buffer [].
Proof. done. Qed.

Lemma holds_push b c d :
  holds b c -> (length c < 32)%nat -> exists b', push d b = Some b' /\ holds b' (c ++ [d]).
Proof.
  intros (H1 & H2 & H3) Hl. unfold push. rewrite arr_set_Some by lia. rewrite bind_Some. eexists. split; [done|].
  unfold holds. cbn [fst snd]. rewrite length_insert, length_app, H2, Nat2Z.id. cbn. split_and!; [done|lia|].
  rewrite Nat.add_1_r, (take_S_r _ _ d); [|by rewrite list_lookup_insert_eq by lia].
  f_equal. rewrite take_insert_ge by lia. done.
Qed.

Lemma holds_shorter b c n :
  holds b c -> (n <= length c)%nat -> holds (fst b, Z.of_nat n) (take n c).
Proof.
  intros (H1 & H2 & H3) Hn. unfold holds. cbn [fst snd]. rewrite length_take. split_and!; [done|lia|].
  transitivity (take n (take (length c) (fst b))); [rewrite take_take; f_equal; lia|by rewrite H3].
Qed.

Lemma zeros_spec fuel bound b c :
  holds b c -> (32 - length c < fuel)%nat ->
  exists b', zeros fuel bound b = Some b' /\
    holds b' (c ++ replicate (Z.to_nat (Z.min bound 32) - length c) c_0).
Proof.
  revert b c. induction fuel as [|fuel IH]; intros b c Hb Hf; [lia|]. cbn [zeros].
  pose proof (holds_len b c Hb) as Hl. pose proof Hb as (_ & E & _). rewrite E. unfold PRINTF_NTOA_BUFFER_SIZE.
  destruct (Z.ltb_spec (Z.of_nat (length c)) bound), (Z.ltb_spec (Z.of_nat (length c)) 32); cbn [andb].
  1: { destruct (holds_push b c c_0 Hb ltac:(lia)) as (b' & -> & Hb'). rewrite bind_Some.
       destruct (IH b' _ Hb') as (b2 & -> & H2); [rewrite length_app; cbn; lia|]. exists b2. split; [done|].
       rewrite length_app in H2. cbn [length] in H2. rewrite <- app_assoc in H2.
       replace (Z.to_nat (Z.min bound 32) - length c)%nat with (S (Z.to_nat (Z.min bound 32) - (length c + 1))) by lia. done. }
  all: replace (Z.to_nat (Z.min bound 32) - length c)%nat with O by lia; cbn; rewrite app_nil_r; eauto.
Qed.

(** The digits are the shortest ones, or the low 32. *)
Lemma ntoa_digits_spec fuel value base flags b c :
  holds b c -> (32 - length c < fuel)%nat -> (length c < 32)%nat -> 2 <= base <= 16 -> 0 <= value ->
  exists b' le, ntoa_digits fuel value base flags b = Some b' /\ holds b' (c ++ le) /\ le <> [] /\
    Forall (fun d => d <> 0) le /\
    (value < base ^ (32 - Z.of_nat (length c)) -> parse base (rev le) = Some value) /\
    (forall k, value < base ^ k -> 0 < k -> Z.of_nat (length le) <= k).
Proof.
  revert value b c. induction fuel as [|fuel IH]; intros value b c Hb Hf Hl Hbase Hv; [lia|]. cbn [ntoa_digits].
  pose proof (Z.mod_pos_bound value base ltac:(lia)) as Hm.
  assert (Hu : u8 (value mod base) = value mod base) by (apply wrap_small; lia).
  set (d := digit_char flags (u8 (value mod base))).
  assert (Hd : d <> 0) by (unfold d; rewrite Hu; apply digit_char_pos; lia).
  assert (Hstep : forall ds v, parse base ds = Some v -> parse base (ds ++ [d]) = Some (v * base + value mod base)).
  { intros ds v E. rewrite parse_snoc, E. unfold parse_step, d. rewrite bind_Some, Hu, digit_char_val, bind_Some by lia.
    zcase; [done|lia]. }
  destruct (holds_push b c d Hb Hl) as (b' & -> & Hb'). rewrite bind_Some.
  pose proof (Z.div_mod value base ltac:(lia)) as Hdm. pose proof (Z.div_pos value base Hv ltac:(lia)) as Hq.
  pose proof Hb' as (_ & E & _). rewrite E, length_app. cbn [length]. unfold PRINTF_NTOA_BUFFER_SIZE.
  destruct (Z.eqb_spec (value / base) 0) as [E0|Hn]; cbn [andb negb].
  { exists b', [d]. split_and!; [done|done|done|by constructor| |cbn; lia]. intros _. cbn [rev].
    rewrite (Hstep [] 0 eq_refl). f_equal. lia. }
  destruct (Z.ltb_spec (Z.of_nat (length c + 1)) 32) as [Hlt|Hge].
  - destruct (IH (value / base) b' _ Hb') as (b2 & le & -> & H2 & Hne & Hall & Hp & Hk);
      [rewrite length_app; cbn; lia|rewrite length_app; cbn; lia|lia|lia|].
    exists b2, (d :: le). rewrite <- app_assoc in H2. split_and!; [done|done|done|by constructor| |].
    + intros Hv'. cbn [rev]. rewrite length_app in Hp. cbn [length] in Hp.
      rewrite (Hstep _ (value / base)); [f_equal; lia|]. apply Hp.
      apply Z.div_lt_upper_bound; [lia|]. rewrite <- Z.pow_succ_r by lia. eapply Z.lt_le_trans; [exact Hv'|].
      apply Z.pow_le_mono_r; lia.
    + intros k Hk1 Hk2. cbn [length]. assert (k <> 1). { intros ->. rewrite Z.pow_1_r in Hk1. rewrite Z.div_small in Hn by lia. done. }
      specialize (Hk (k - 1)). enough (Z.of_nat (length le) <= k - 1) by lia. apply Hk; [|lia].
      apply Z.div_lt_upper_bound; [lia|]. rewrite <- Z.pow_succ_r by lia. by replace (Z.succ (k - 1)) with k by lia.
  - exists b', [d]. split_and!; [done|done|done|by constructor| |cbn; lia].
    intros Hv'. exfalso. replace (32 - Z.of_nat (length c)) with 1 in Hv' by lia. rewrite Z.pow_1_r in Hv'.
    rewrite Z.div_small in Hn by lia. done.
Qed.

(** ** Text sent to the output *)

Section Emit.
Context {St : Type}.
Variables (out : out_fct St) (buffer maxlen : Z).
Implicit Types (x : @sink St) (c : list Z).

Definition emit_all (l : list Z) (x : sink) : sink := foldl (fun x d => emit out buffer maxlen d x) x l.

Lemma emit_all_app l1 l2 x : emit_all (l1 ++ l2) x = emit_all l2 (emit_all l1 x).
Proof. apply foldl_app. Qed.

Lemma emit_all_idx l x z : u64 (fst (emit_all l x) - z) = u64 (fst x + Z.of_nat (length l) - z).
Proof.
  revert x. induction l as [|a l IH]; intros x; cbn [emit_all foldl length]; [f_equal; lia|].
  change (foldl _ ?y l) with (emit_all l y). rewrite IH. unfold emit. cbn [fst]. word_lia.
Qed.

Lemma pad_pre_eq fuel i width x :
  0 <= i -> width < 2 ^ 32 -> (Z.to_nat (width - i) < fuel)%nat ->
  pad_pre out buffer maxlen fuel i width x = Some (emit_all (replicate (Z.to_nat (width - i)) c_space) x).
Proof.
  change (2 ^ 32) with 4294967296. revert i x. induction fuel as [|fuel IH]; intros i x Hi Hw Hf; [lia|].
  cbn [pad_pre]. destruct (Z.ltb_spec i width); [|by replace (Z.to_nat (width - i)) with O by lia].
  rewrite wrap_small by (change (2 ^ 64) with 18446744073709551616; lia). rewrite IH by lia.
  by replace (Z.to_nat (width - i)) with (S (Z.to_nat (width - (i + 1)))) by lia.
Qed.

Lemma pad_eq l width x :
  0 <= l -> width < 2 ^ 32 ->
  pad out buffer maxlen l width x = Some (emit_all (replicate (Z.to_nat (width - l)) c_space) x).
Proof.
  change (2 ^ 32) with 4294967296. intros Hl Hw. unfold pad.
  assert (H : (Z.to_nat (width - l) < S (Z.to_nat (width - l)))%nat) by lia. revert H.
  generalize (S (Z.to_nat (width - l))) as fuel. intros fuel. revert l x Hl.
  induction fuel as [|fuel IH]; intros l x Hl Hf; [lia|].
  cbn [pad_loop]. destruct (Z.ltb_spec l width); [|by replace (Z.to_nat (width - l)) with O by lia].
  rewrite wrap_small by (change (2 ^ 32) with 4294967296; lia). rewrite IH by lia.
  by replace (Z.to_nat (width - l)) with (S (Z.to_nat (width - (l + 1)))) by lia.
Qed.

Lemma pad_post_eq fuel start width x k :
  u64 (fst x - start) = k -> width < 2 ^ 32 -> (Z.to_nat (width - k) < fuel)%nat ->
  pad_post out buffer maxlen fuel start width x = Some (emit_all (replicate (Z.to_nat (width - k)) c_space) x).
Proof.
  change (2 ^ 32) with 4294967296. revert k x. induction fuel as [|fuel IH]; intros k x Hk Hw Hf; [lia|].
  cbn [pad_post]. rewrite Hk. pose proof (wrap_range 64 (fst x - start) ltac:(lia)) as Hr. rewrite Hk in Hr.
  destruct (Z.ltb_spec k width); [|by replace (Z.to_nat (width - k)) with O by lia].
  rewrite (IH (k + 1)); [|cbn [emit fst]; word_lia|lia|lia].
  by replace (Z.to_nat (width - k)) with (S (Z.to_nat (width - (k + 1)))) by lia.
Qed.

Lemma out_digits_eq b c n x :
  take (length c) b = c -> (n <= length c)%nat ->
  out_digits out buffer maxlen n b x = Some (emit_all (rev (take n c)) x).
Proof.
  intros Hb. revert x. induction n as [|n IH]; intros x Hn; cbn [out_digits]; [done|].
  destruct (lookup_lt_is_Some_2 c n ltac:(lia)) as [d Hd].
  assert (b !! n = Some d) as ->. { rewrite <- Hb in Hd. rewrite lookup_take in Hd. by case_decide. }
  rewrite bind_Some, IH, (take_S_r _ _ _ Hd), rev_app_distr by lia. done.
Qed.

Definition spaces (n : Z) : list Z := replicate (Z.to_nat n) c_space.
Definition text_rev (c : list Z) (width flags : Z) : list Z :=
  (if negb (has flags FLAGS_LEFT) && negb (has flags FLAGS_ZEROPAD) then spaces (width - Z.of_nat (length c)) else []) ++
  rev c ++
  (if has flags FLAGS_LEFT then spaces (width - Z.of_nat (length c)) else []).

Lemma out_rev_eq b c width flags x :
  holds b c -> width < 2 ^ 32 ->
  _out_rev out buffer maxlen (fst b) (snd b) width flags x = Some (emit_all (text_rev c width flags) x).
Proof.
  intros Hb Hw. pose proof (holds_len b c Hb) as Hl. destruct Hb as (H1 & H2 & H3). unfold _out_rev, text_rev.
  rewrite H2, Nat2Z.id.
  assert (Hpost : forall y, u64 (fst y - fst x) = Z.of_nat (length c) -> has flags FLAGS_LEFT = true ->
    pad_post out buffer maxlen (S (Z.to_nat width)) (fst x) width y = Some (emit_all (spaces (width - Z.of_nat (length c))) y)).
  { intros y Hy _. rewrite (pad_post_eq _ _ _ _ _ Hy) by lia. done. }
  destruct (has flags FLAGS_LEFT) eqn:EL; cbn [negb andb].
  - rewrite bind_Some, (out_digits_eq _ c), bind_Some, firstn_all by done. cbn [app].
    rewrite Hpost; [by rewrite emit_all_app| |done].
    rewrite emit_all_idx, length_rev. apply wrap_small || idtac.
    replace (fst x + Z.of_nat (length c) - fst x) with (Z.of_nat (length c)) by lia.
    apply wrap_small. change (2 ^ 64) with 18446744073709551616. lia.
  - destruct (has flags FLAGS_ZEROPAD); cbn [negb andb].
    + rewrite bind_Some, (out_digits_eq _ c), bind_Some, firstn_all by done. cbn [app]. by rewrite app_nil_r.
    + rewrite pad_pre_eq, bind_Some, (out_digits_eq _ c), bind_Some, firstn_all by (done || lia).
      by rewrite app_nil_r, emit_all_app.
Qed.

Lemma text_rev_length c width flags :
  Z.of_nat (length (text_rev c width flags)) =
  if has flags FLAGS_ZEROPAD && negb (has flags FLAGS_LEFT) then Z.of_nat (length c)
  else Z.max width (Z.of_nat (length c)).
Proof.
  unfold text_rev, spaces. rewrite !length_app, length_rev.
  destruct (has flags FLAGS_LEFT), (has flags FLAGS_ZEROPAD); cbn [negb andb length]; rewrite ?length_replicate; lia.
Qed.
End Emit.

(** ** Formatting a number *)

Section Ntoa.
Implicit Types (b : digits) (c : list Z) (value base prec width flags : Z) (negative : bool).

(** A shorter field leaves the place of a sign. *)
Definition field_width negative width flags : Z :=
  if negb (has flags FLAGS_LEFT) && (negb (width =? 0) && has flags FLAGS_ZEROPAD
       && (negative || has flags (Z.lor FLAGS_PLUS FLAGS_SPACE))) then u32 (width - 1) else width.

(** How many zeros are put before [n] digits. *)
Definition zero_count (n : nat) prec width flags : nat :=
  if has flags FLAGS_LEFT then 0
  else
    let k := (Z.to_nat (Z.min prec 32) - n)%nat in
    k + (if has flags FLAGS_ZEROPAD then Z.to_nat (Z.min width 32) - (n + k) else 0).

Definition sign_text negative flags : list Z :=
  if negative then [c_minus] else if has flags FLAGS_PLUS then [c_plus]
  else if has flags FLAGS_SPACE then [c_space] else [].

Lemma ntoa_zeros_spec b c negative prec width flags :
  holds b c ->
  exists b', ntoa_zeros b negative prec width flags = Some (b', field_width negative width flags) /\
    holds b' (c ++ replicate (zero_count (length c) prec (field_width negative width flags) flags) c_0).
Proof.
  intros Hb. unfold ntoa_zeros, zero_count, field_width. destruct (has flags FLAGS_LEFT); cbn [negb andb].
  { exists b. by rewrite app_nil_r. }
  set (w := if negb (width =? 0) && has flags FLAGS_ZEROPAD && _ then _ else _). clearbody w.
  destruct (zeros_spec 33 prec b c Hb ltac:(lia)) as (b1 & -> & H1). rewrite bind_Some.
  destruct (has flags FLAGS_ZEROPAD); [|rewrite Nat.add_0_r; eauto].
  destruct (zeros_spec 33 w b1 _ H1 ltac:(lia)) as (b2 & -> & H2). rewrite bind_Some. exists b2. split; [done|].
  rewrite length_app, length_replicate, <- app_assoc, <- replicate_add in H2. done.
Qed.

Lemma push_room b c d :
  holds b c -> (snd b <? PRINTF_NTOA_BUFFER_SIZE) = true -> exists b', push d b = Some b' /\ holds b' (c ++ [d]).
Proof.
  intros Hb H. apply holds_push; [done|]. destruct Hb as (_ & E & _). unfold PRINTF_NTOA_BUFFER_SIZE in H. lia.
Qed.

Lemma ntoa_sign_spec b c negative flags :
  holds b c ->
  exists b', ntoa_sign b negative flags = Some b' /\
    holds b' (c ++ (if decide (length c < 32)%nat then sign_text negative flags else [])).
Proof.
  intros Hb. unfold ntoa_sign, sign_text. pose proof Hb as (_ & E & _).
  destruct (Z.ltb_spec (snd b) PRINTF_NTOA_BUFFER_SIZE) as [H|H]; unfold PRINTF_NTOA_BUFFER_SIZE in H;
    (case_decide; [|try lia]); [|try lia|rewrite app_nil_r; eauto].
  - destruct negative; [by apply holds_push|]. destruct (has flags FLAGS_PLUS); [by apply holds_push|].
    destruct (has flags FLAGS_SPACE); [by apply holds_push|]. rewrite app_nil_r. eauto.
Qed.

Lemma hash_shorten_spec b c base prec width flags :
  holds b c -> exists n, (n <= length c)%nat /\ holds (hash_shorten b base prec width flags) (take n c).
Proof.
  intros Hb. unfold hash_shorten. pose proof Hb as (_ & El & _).
  destruct (negb (has flags FLAGS_PRECISION) && _ && _) eqn:E; [|exists (length c); by rewrite firstn_all].
  rewrite El in *. assert (Z.of_nat (length c) <> 0). { intros E0. rewrite E0 in E. cbn in E. by rewrite andb_false_r in E. }
  case_match eqn:E2.
  - assert (Z.of_nat (length c) - 1 <> 0). { intros E0. by rewrite E0 in E2. }
    exists (length c - 2)%nat. split; [lia|].
    replace (Z.of_nat (length c) - 1 - 1) with (Z.of_nat (length c - 2)) by lia. apply holds_shorter; [done|lia].
  - exists (length c - 1)%nat. split; [lia|].
    replace (Z.of_nat (length c) - 1) with (Z.of_nat (length c - 1)) by lia. apply holds_shorter; [done|lia].
Qed.

Lemma hash_letter_spec b c base flags :
  holds b c -> Forall (fun d => d <> 0) c ->
  exists b' c', hash_letter b base flags = Some b' /\ holds b' c' /\ Forall (fun d => d <> 0) c'.
Proof.
  intros Hb Hc. unfold hash_letter. destruct (snd b <? PRINTF_NTOA_BUFFER_SIZE) eqn:Hr; rewrite ?andb_false_r, ?andb_true_r; [|eauto].
  assert (Hpush : forall d, d <> 0 -> exists b1 c1, push d b = Some b1 /\ holds b1 c1 /\ Forall (fun d => d <> 0) c1).
  { intros d Hd. destruct (push_room b c d Hb Hr) as (b1 & -> & H1). exists b1, (c ++ [d]).
    split_and!; [done|done|]. by rewrite Forall_app, Forall_singleton. }
  repeat case_match; eauto; by apply Hpush.
Qed.

Lemma ntoa_hash_spec b c base prec width flags :
  holds b c -> Forall (fun d => d <> 0) c ->
  exists b' c', ntoa_hash b base prec width flags = Some b' /\ holds b' c' /\ Forall (fun d => d <> 0) c'.
Proof.
  intros Hb Hc. unfold ntoa_hash. destruct (has flags FLAGS_HASH); [|eauto].
  destruct (hash_shorten_spec b c base prec width flags Hb) as (n & _ & H0).
  destruct (hash_letter_spec _ _ base flags H0) as (b1 & c1 & -> & H1 & Hc1); [by apply Forall_take|].
  rewrite bind_Some. destruct (snd b1 <? PRINTF_NTOA_BUFFER_SIZE) eqn:E; [|eauto].
  destruct (push_room b1 c1 c_0 H1 E) as (b2 & -> & H2). exists b2, (c1 ++ [c_0]).
  split_and!; [done|done|]. by rewrite Forall_app, Forall_singleton.
Qed.

Lemma sign_nonzero negative flags : Forall (fun d => d <> 0) (sign_text negative flags).
Proof. unfold sign_text. repeat case_match; by repeat constructor. Qed.

Lemma spaces_nonzero n : Forall (fun d => d <> 0) (spaces n).
Proof. by apply Forall_replicate. Qed.

Lemma text_rev_nonzero c width flags : Forall (fun d => d <> 0) c -> Forall (fun d => d <> 0) (text_rev c width flags).
Proof.
  intros Hc. unfold text_rev. rewrite !Forall_app.
  split_and!; [|by apply Forall_rev|]; case_match; (apply spaces_nonzero || constructor).
Qed.

Lemma field_width_range negative width flags : 0 <= width < 2 ^ 32 -> 0 <= field_width negative width flags <= width.
Proof.
  change (2 ^ 32) with 4294967296. intros H. unfold field_width. case_match eqn:E; [|lia].
  assert (width <> 0). { intros ->. cbn in E. by rewrite andb_false_r in E. }
  rewrite wrap_32, Z.mod_small by lia. lia.
Qed.

(** Whatever the flags, the conversion stays inside its buffer and sends a text
    that does not depend on where it is sent. *)
Lemma ntoa_format_total b c negative base prec width flags :
  holds b c -> Forall (fun d => d <> 0) c -> 0 <= width < 2 ^ 32 ->
  exists text, Forall (fun d => d <> 0) text /\ Z.of_nat (length text) <= Z.max width 32 /\
    forall St (out : out_fct St) buffer maxlen x,
      _ntoa_format out buffer maxlen b negative base prec width flags x = Some (emit_all out buffer maxlen text x).
Proof.
  intros Hb Hc Hw. pose proof (field_width_range negative width flags Hw) as Hfw.
  destruct (ntoa_zeros_spec b c negative prec width flags Hb) as (b1 & E1 & H1).
  set (w := field_width negative width flags) in *.
  destruct (ntoa_hash_spec b1 _ base prec w flags H1) as (b2 & c2 & E2 & H2 & Hc2).
  { rewrite Forall_app. split; [done|]. by apply Forall_replicate. }
  destruct (ntoa_sign_spec b2 c2 negative flags H2) as (b3 & E3 & H3).
  eexists. split_and!; [| |intros St out buffer maxlen x; unfold _ntoa_format;
    rewrite E1, bind_Some, E2, bind_Some, E3, bind_Some; eapply out_rev_eq; [exact H3|lia]].
  - apply text_rev_nonzero. rewrite Forall_app. split; [done|]. case_decide; [apply sign_nonzero|constructor].
  - rewrite text_rev_length. apply holds_len in H3. destruct (has flags FLAGS_ZEROPAD && _); lia.
Qed.
End Ntoa.

Lemma clear_absent flags f : has flags f = false -> clear flags f = flags.
Proof.
  unfold has, clear. intros H. apply negb_false_iff, Z.eqb_eq in H.
  rewrite <- Z.ldiff_land. apply Z.bits_inj'. intros n Hn. rewrite Z.ldiff_spec.
  assert (E : Z.testbit (Z.land flags f) n = false) by (rewrite H; apply Z.bits_0).
  rewrite Z.land_spec in E. by destruct (Z.testbit flags n), (Z.testbit f n).
Qed.

Lemma has_lor flags f g : has flags (Z.lor f g) = has flags f || has flags g.
Proof.
  unfold has. rewrite Z.land_lor_distr_r, <- negb_andb. f_equal. apply eq_true_iff_eq.
  rewrite andb_true_iff, !Z.eqb_eq. apply Z.lor_eq_0_iff.
Qed.

Section Numbers.
Implicit Types (value base prec width flags : Z) (negative : bool).

Lemma ntoa_total value negative base prec width flags :
  2 <= base <= 16 -> 0 <= value -> 0 <= width < 2 ^ 32 ->
  exists text, Forall (fun d => d <> 0) text /\ Z.of_nat (length text) <= Z.max width 32 /\
    forall St (out : out_fct St) buffer maxlen x,
      _ntoa_long out buffer maxlen value negative base prec width flags x = Some (emit_all out buffer maxlen text x) /\
      _ntoa_long_long out buffer maxlen value negative base prec width flags x = Some (emit_all out buffer maxlen text x).
Proof.
  intros Hb Hv Hw. set (fl := if value =? 0 then clear flags FLAGS_HASH else flags).
  assert (exists b c, (if negb (has fl FLAGS_PRECISION) || negb (value =? 0)
            then ntoa_digits 33 value base fl ntoa_buffer else Some ntoa_buffer) = Some b /\
            holds b c /\ Forall (fun d => d <> 0) c) as (b & c & E & H & Hc).
  { destruct (_ || _); [|by exists ntoa_buffer, []; split_and!; [done|apply holds_empty|]].
    destruct (ntoa_digits_spec 33 value base fl _ _ holds_empty) as (b & le & E & H & _ & Hle & _); cbn [length]; try lia.
    exists b, le. by split_and!. }
  destruct (ntoa_format_total b c negative (u32 base) prec width fl H Hc Hw) as (text & Hn & Hl & Ht).
  exists text. split_and!; [done|done|]. intros. unfold _ntoa_long, _ntoa_long_long. cbv zeta. fold fl.
  rewrite !E, !bind_Some. by split.
Qed.

Lemma field_width_room negative width flags :
  0 <= width <= 32 ->
  if has flags FLAGS_LEFT || negb (has flags FLAGS_ZEROPAD) then field_width negative width flags = width
  else field_width negative width flags = Z.max 0 (width - Z.of_nat (length (sign_text negative flags))).
Proof.
  intros Hw. unfold field_width, sign_text. rewrite has_lor.
  destruct (has flags FLAGS_LEFT), (has flags FLAGS_ZEROPAD); cbn [orb negb andb]; rewrite ?andb_false_r; try done.
  destruct (Z.eqb_spec width 0) as [->|]; cbn [negb andb].
  { destruct negative, (has flags FLAGS_PLUS), (has flags FLAGS_SPACE); done. }
  destruct negative, (has flags FLAGS_PLUS), (has flags FLAGS_SPACE); cbn [orb andb length]; try lia;
    rewrite wrap_32, Z.mod_small by lia; lia.
Qed.

Lemma zero_count_len n prec w flags :
  0 <= prec < 32 -> 0 <= w <= 32 ->
  Z.of_nat (n + zero_count n prec w flags) =
  if has flags FLAGS_LEFT then Z.of_nat n
  else Z.max (Z.max (Z.of_nat n) prec) (if has flags FLAGS_ZEROPAD then w else 0).
Proof.
  intros Hp Hw. unfold zero_count. destruct (has flags FLAGS_LEFT); [lia|].
  rewrite !Z.min_l by lia. destruct (has flags FLAGS_ZEROPAD); lia.
Qed.

Lemma sign_text_short negative flags : (length (sign_text negative flags) <= 1)%nat.
Proof. unfold sign_text. repeat case_match; cbn; lia. Qed.

Lemma rev_short {A : Type} (l : list A) : (length l <= 1)%nat -> rev l = l.
Proof. destruct l as [|a [|b l]]; cbn; [done|done|lia]. Qed.

Lemma rev_repeat_zeros n : rev (replicate n c_0) = replicate n c_0.
Proof.
  induction n as [|n IH]; [done|]. cbn [replicate rev]. rewrite IH.
  change [c_0] with (replicate 1 c_0). rewrite <- replicate_add. by replace (n + 1)%nat with (S n) by lia.
Qed.

(** C20: A number without '#' is printed as blanks, its sign, its digits (zeros in
    front where the precision or the '0' flag asks for them) and blanks; the
    digits read back as the number, and the field has the width asked for. *)
Theorem ntoa_long_roundtrip value negative base prec width flags :
  2 <= base <= 16 -> 0 <= value < base ^ 31 -> 0 <= prec < 32 -> 0 <= width <= 32 ->
  has flags FLAGS_HASH = false -> (value <> 0 \/ has flags FLAGS_PRECISION = false) ->
  exists pre ds post,
    (forall St (out : out_fct St) buffer maxlen x,
       _ntoa_long out buffer maxlen value negative base prec width flags x =
       Some (emit_all out buffer maxlen (spaces pre ++ sign_text negative flags ++ ds ++ spaces post) x)) /\
    parse base ds = Some value /\
    (has flags FLAGS_LEFT = false -> prec <= Z.of_nat (length ds)) /\
    0 <= pre /\ 0 <= post /\ (pre = 0 \/ has flags FLAGS_LEFT = false) /\ (post = 0 \/ has flags FLAGS_LEFT = true) /\
    Z.of_nat (length (sign_text negative flags ++ ds)) + pre + post =
      Z.max width (Z.of_nat (length (sign_text negative flags ++ ds))).
Proof.
  intros Hb Hv Hp Hw Hh Hz.
  assert (Hfl : (if value =? 0 then clear flags FLAGS_HASH else flags) = flags).
  { zcase; [by apply clear_absent|done]. }
  assert (Hc : negb (has flags FLAGS_PRECISION) || negb (value =? 0) = true).
  { destruct Hz as [Hz| ->]; [|done]. zcase; [done|]. apply orb_true_r. }
  destruct (ntoa_digits_spec 33 value base flags _ _ holds_empty) as (b & le & E & H & _ & _ & Hparse & Hlen); cbn [length app] in *; try lia.
  assert (Hl : (length le <= 31)%nat). { specialize (Hlen 31 ltac:(lia)). lia. }
  specialize (Hparse ltac:(eapply Z.lt_le_trans; [apply Hv|apply Z.pow_le_mono_r; lia])).
  destruct (ntoa_zeros_spec b le negative prec width flags H) as (b1 & E1 & H1).
  set (w := field_width negative width flags) in *. set (z := zero_count (length le) prec w flags) in *.
  pose proof (field_width_range negative width flags ltac:(lia)) as Hfw. fold w in Hfw.
  pose proof (field_width_room negative width flags ltac:(lia)) as Hroom. fold w in Hroom.
  pose proof (zero_count_len (length le) prec w flags ltac:(lia) ltac:(lia)) as Hz0. fold z in Hz0.
  set (c1 := le ++ replicate z c_0) in *. assert (Hc1 : length c1 = (length le + z)%nat) by (unfold c1; by rewrite length_app, length_replicate).
  pose proof (sign_text_short negative flags) as Hs.
  destruct (ntoa_sign_spec b1 c1 negative flags H1) as (b2 & E2 & H2).
  assert (Hfit : (if decide (length c1 < 32)%nat then sign_text negative flags else []) = sign_text negative flags).
  { case_decide; [done|]. destruct (sign_text negative flags) eqn:Es; [done|]. exfalso. cbn [length] in *.
    destruct (has flags FLAGS_LEFT), (has flags FLAGS_ZEROPAD); cbn [orb negb] in *; lia. }
  rewrite Hfit in H2.
  exists (if negb (has flags FLAGS_LEFT) && negb (has flags FLAGS_ZEROPAD) then Z.max 0 (w - Z.of_nat (length (c1 ++ sign_text negative flags))) else 0),
    (rev c1), (if has flags FLAGS_LEFT then Z.max 0 (w - Z.of_nat (length (c1 ++ sign_text negative flags))) else 0).
  split_and!.
  - intros St out buffer maxlen x. unfold _ntoa_long. rewrite Hfl, Hc, E, bind_Some. unfold _ntoa_format.
    rewrite E1, bind_Some. unfold ntoa_hash. rewrite Hh, bind_Some, E2, bind_Some.
    rewrite (out_rev_eq out buffer maxlen _ _ w flags x H2) by lia. f_equal. f_equal.
    unfold text_rev. rewrite rev_app_distr, (rev_short _ Hs), <- app_assoc. unfold spaces.
    destruct (has flags FLAGS_LEFT), (has flags FLAGS_ZEROPAD); cbn [negb andb]; rewrite ?Z2Nat.inj_max; cbn [Z.to_nat Nat.max replicate]; done.
  - unfold c1. rewrite rev_app_distr, rev_repeat_zeros, parse_zeros by lia. done.
  - intros EL. rewrite length_rev, Hc1. rewrite EL in Hz0. lia.
  - destruct (has flags FLAGS_LEFT), (has flags FLAGS_ZEROPAD); cbn [negb andb]; lia.
  - destruct (has flags FLAGS_LEFT), (has flags FLAGS_ZEROPAD); cbn [negb andb]; lia.
  - destruct (has flags FLAGS_LEFT); [by left|by right].
  - destruct (has flags FLAGS_LEFT); [by right|by left].
  - rewrite !length_app, length_rev.
    destruct (has flags FLAGS_LEFT), (has flags FLAGS_ZEROPAD); cbn [negb andb orb] in *; lia.
Qed.
End Numbers.

(** ** Every conversion sends a text *)

Section Texts.
Context {St : Type}.
Variables (rd : St -> Z -> option Z) (out : out_fct St) (buffer maxlen : Z).
Implicit Types (x y : @sink St) (va : va_list) (fuel : nat).

(** [y] is [x] after some characters. *)
Definition sent x y : Prop := exists text, y = emit_all out buffer maxlen text x.

Lemma sent_refl x : sent x x.
Proof. by exists []. Qed.
Lemma sent_emit c x : sent x (emit out buffer maxlen c x).
Proof. by exists [c]. Qed.
Lemma sent_trans x y z : sent x y -> sent y z -> sent x z.
Proof. intros [l1 ->] [l2 ->]. exists (l1 ++ l2). by rewrite emit_all_app. Qed.

Lemma atoi_range fuel x str i v p :
  0 <= i < 2 ^ 32 -> _atoi rd fuel x str i = Some (v, p) -> 0 <= v < 2 ^ 32.
Proof.
  revert str i. induction fuel as [|fuel IH]; intros str i Hi; cbn [_atoi]; [done|].
  destruct (rdx rd x str) as [c|]; [rewrite bind_Some|done]. case_match; [|by intros [= <- _]].
  apply IH. by apply wrap_range.
Qed.

Lemma eval_width_range fuel x format flags va r :
  eval_width rd fuel x format flags va = Some r -> 0 <= snd (fst (fst r)) < 2 ^ 32.
Proof.
  unfold eval_width. destruct (rdx rd x format) as [c|]; [rewrite bind_Some|done].
  destruct (_is_digit c).
  { destruct (_atoi _ _ _ _ _) as [[w p]|] eqn:E; [rewrite bind_Some|done]. intros [= <-]. by eapply atoi_range. }
  destruct (c =? c_star); [|by intros [= <-]].
  destruct (va_arg va) as [[v va']|]; [rewrite bind_Some|done].
  case_match; intros [= <-]; by apply wrap_range.
Qed.

Lemma ntoa_sent value negative base prec width flags x y :
  2 <= base <= 16 -> 0 <= value -> 0 <= width < 2 ^ 32 ->
  (_ntoa_long out buffer maxlen value negative base prec width flags x = Some y \/
   _ntoa_long_long out buffer maxlen value negative base prec width flags x = Some y) -> sent x y.
Proof.
  intros Hb Hv Hw. destruct (ntoa_total value negative base prec width flags Hb Hv Hw) as (text & _ & _ & Ht).
  destruct (Ht St out buffer maxlen x) as [-> ->]. intros [[= <-]|[= <-]]; by exists text.
Qed.

Lemma int_base_range c flags : 2 <= fst (int_base c flags) <= 16.
Proof. unfold int_base. repeat case_match; cbn; lia. Qed.
End Texts.

(** The magnitude of a signed value and the unsigned conversions are not negative. *)
Lemma wrap_nonneg w v : 0 <= w -> 0 <= wrap w v.
Proof. intros. by apply wrap_range. Qed.
#[export] Hint Resolve wrap_nonneg sent_refl sent_emit : nbos.

Section Texts2.
Context {St : Type}.
Variables (rd : St -> Z -> option Z) (out : out_fct St) (buffer maxlen : Z).
Implicit Types (x y : @sink St) (va : va_list) (fuel : nat) (base precision width flags : Z).
#[local] Abbreviation sent := (sent out buffer maxlen).

Lemma print_signed_sent base precision width flags va x y va' :
  2 <= base <= 16 -> 0 <= width < 2 ^ 32 ->
  print_signed out buffer maxlen base precision width flags va x = Some (y, va') -> sent x y.
Proof.
  intros Hb Hw. unfold print_signed. destruct (va_arg va) as [[v va1]|]; [rewrite bind_Some|done]. cbv zeta.
  set (o := if has flags FLAGS_LONG_LONG then _ else _). destruct o as [z|] eqn:E; [|done]. rewrite bind_Some.
  intros [= -> _]. unfold o in E. clear o.
  repeat case_match; eapply (ntoa_sent out buffer maxlen); eauto; apply wrap_nonneg; lia.
Qed.

Lemma print_unsigned_sent base precision width flags va x y va' :
  2 <= base <= 16 -> 0 <= width < 2 ^ 32 ->
  print_unsigned out buffer maxlen base precision width flags va x = Some (y, va') -> sent x y.
Proof.
  intros Hb Hw. unfold print_unsigned. destruct (va_arg va) as [[v va1]|]; [rewrite bind_Some|done]. cbv zeta.
  set (o := if has flags FLAGS_LONG_LONG then _ else _). destruct o as [z|] eqn:E; [|done]. rewrite bind_Some.
  intros [= -> _]. unfold o in E. clear o.
  repeat case_match; eapply (ntoa_sent out buffer maxlen); eauto; apply wrap_nonneg; lia.
Qed.

Lemma pad_sent l width x y : 0 <= l -> width < 2 ^ 32 -> pad out buffer maxlen l width x = Some y -> sent x y.
Proof. intros Hl Hw. rewrite pad_eq by done. intros [= <-]. by eexists. Qed.

Lemma opt_pad_sent (b : bool) l width x y :
  0 <= l -> width < 2 ^ 32 -> (if b then pad out buffer maxlen l width x else Some x) = Some y -> sent x y.
Proof. destruct b; [apply pad_sent|intros _ _ [= <-]; apply sent_refl]. Qed.

Lemma print_char_sent width flags va x y va' :
  width < 2 ^ 32 -> print_char out buffer maxlen width flags va x = Some (y, va') -> sent x y.
Proof.
  intros Hw. unfold print_char.
  destruct (if negb _ then pad _ _ _ 1 width x else Some x) as [x1|] eqn:E1; [rewrite bind_Some|done].
  destruct (va_arg va) as [[v va1]|]; [rewrite bind_Some|done]. cbv zeta.
  destruct (if has flags FLAGS_LEFT then _ else _) as [x2|] eqn:E2; [rewrite bind_Some|done]. intros [= <- _].
  apply opt_pad_sent in E1; [|lia|done]. apply opt_pad_sent in E2; [|lia|done].
  eapply sent_trans, sent_trans; [exact E1|apply sent_emit|exact E2].
Qed.

Lemma out_string_sent fuel p precision flags x y :
  out_string rd out buffer maxlen fuel p precision flags x = Some y -> sent x y.
Proof.
  revert p precision x. induction fuel as [|fuel IH]; intros p precision x; cbn [out_string]; [done|].
  destruct (rdx rd x p) as [c|]; [rewrite !bind_Some|done]. case_match; [|intros [= <-]; apply sent_refl].
  intros Hy. eapply sent_trans; [apply sent_emit|]. by eapply IH.
Qed.

Lemma strnlen_range fuel x str s maxsize l : _strnlen_s rd fuel x str s maxsize = Some l -> 0 <= l < 2 ^ 32.
Proof.
  revert s maxsize. induction fuel as [|fuel IH]; intros s maxsize; cbn [_strnlen_s]; [done|].
  destruct (rdx rd x s) as [c|]; [rewrite bind_Some|done]. case_match; [apply IH|].
  intros [= <-]. by apply wrap_range.
Qed.

Lemma print_string_sent fuel precision width flags va x y va' :
  0 <= precision -> width < 2 ^ 32 ->
  print_string rd out buffer maxlen fuel precision width flags va x = Some (y, va') -> sent x y.
Proof.
  intros Hp Hw. unfold print_string. destruct (va_arg va) as [[p va1]|]; [rewrite bind_Some|done].
  destruct (_strnlen_s _ _ _ _ _ _) as [l|] eqn:El; [rewrite bind_Some|done]. apply strnlen_range in El. cbv zeta.
  set (l' := if has flags FLAGS_PRECISION then _ else l).
  assert (0 <= l'). { unfold l'. case_match; [|lia]. case_match; lia. }
  destruct (if negb _ then pad _ _ _ l' width x else Some x) as [x1|] eqn:E1; [rewrite bind_Some|done].
  destruct (out_string _ _ _ _ _ _ _ _ _) as [x2|] eqn:E2; [rewrite bind_Some|done].
  destruct (if has flags FLAGS_LEFT then _ else _) as [x3|] eqn:E3; [rewrite bind_Some|done]. intros [= <- _].
  apply opt_pad_sent in E1; [|lia|done]. apply opt_pad_sent in E3; [|lia|done]. apply out_string_sent in E2.
  eapply sent_trans, sent_trans; eassumption.
Qed.

Lemma print_spec_sent fuel c precision width flags va x y va' :
  0 <= precision -> 0 <= width < 2 ^ 32 ->
  print_spec rd out buffer maxlen fuel c precision width flags va x = Some (y, va') -> sent x y.
Proof.
  intros Hp Hw. unfold print_spec. destruct (is_int_spec c).
  { unfold print_int. pose proof (int_base_range c flags) as Hb. destruct (int_base c flags) as [base fl]. cbn [fst] in Hb.
    case_match; [by apply print_signed_sent|by apply print_unsigned_sent]. }
  destruct (c =? 99); [apply print_char_sent; lia|].
  destruct (c =? 115); [apply print_string_sent; lia|].
  destruct (c =? 112).
  { unfold print_pointer. destruct (va_arg va) as [[v va1]|]; [rewrite bind_Some|done].
    destruct (_ntoa_long_long _ _ _ _ _ _ _ _ _ _) as [z|] eqn:E; [rewrite bind_Some|done]. intros [= -> _].
    eapply ntoa_sent; [| | |right; exact E]; [lia|apply wrap_nonneg; lia|by apply wrap_range]. }
  case_match; intros [= <- _]; apply sent_emit.
Qed.

Lemma eval_precision_range fuel x format flags va r :
  eval_precision rd fuel x format flags va = Some r -> 0 <= snd (fst (fst r)) < 2 ^ 32.
Proof.
  unfold eval_precision. destruct (rdx rd x format) as [c|]; [rewrite bind_Some|done].
  destruct (c =? c_dot); [|by intros [= <-]]. cbv zeta.
  destruct (rdx rd x (format + 1)) as [c1|]; [rewrite bind_Some|done].
  destruct (_is_digit c1).
  { destruct (_atoi _ _ _ _ _) as [[w p]|] eqn:E; [rewrite bind_Some|done]. intros [= <-]. by eapply atoi_range. }
  destruct (c1 =? c_star); [|by intros [= <-]].
  destruct (va_arg va) as [[v va']|]; [rewrite bind_Some|done].
  intros [= <-]. cbn [fst snd]. case_match; [by apply wrap_range|done].
Qed.

Lemma directive_sent fuel format va x r :
  directive rd out buffer maxlen fuel format va x = Some r -> sent x (snd r).
Proof.
  unfold directive. destruct (eval_flags _ _ _ _ _) as [[fl f]|]; [rewrite bind_Some|done].
  destruct (eval_width _ _ _ _ _ _) as [[[[fl1 w] f1] va1]|] eqn:Ew; [rewrite bind_Some|done].
  destruct (eval_precision _ _ _ _ _ _) as [[[[fl2 p] f2] va2]|] eqn:Ep; [rewrite bind_Some|done].
  destruct (eval_length _ _ _ _) as [[fl3 f3]|]; [rewrite bind_Some|done].
  destruct (rdx rd x f3) as [c|]; [rewrite bind_Some|done].
  destruct (print_spec _ _ _ _ _ _ _ _ _ _ _) as [[y va3]|] eqn:E; [rewrite bind_Some|done].
  intros [= <-]. apply eval_width_range in Ew. apply eval_precision_range in Ep. cbn in *.
  eapply print_spec_sent; [| |exact E]; lia.
Qed.

Lemma format_loop_sent n fuel format va x y :
  format_loop rd out buffer maxlen n fuel format va x = Some y -> sent x y.
Proof.
  revert format va x. induction n as [|n IH]; intros format va x; cbn [format_loop]; [done|].
  destruct (rdx rd x format) as [c|]; [rewrite bind_Some|done].
  destruct (c =? 0); [intros [= <-]; apply sent_refl|]. destruct (negb (c =? c_percent)).
  { intros H. eapply sent_trans; [apply sent_emit|by eapply IH]. }
  destruct (directive _ _ _ _ _ _ _ _) as [[[f va'] x']|] eqn:E; [rewrite bind_Some|done].
  intros H. apply directive_sent in E. eapply sent_trans; [exact E|by eapply IH].
Qed.
End Texts2.

(** ** The text does not depend on the output *)

(** The recorder: a memory [ro] that is only read (and may be partial), and the
    characters sent so far. *)
Definition out_rec : out_fct (list Z) := fun c _ _ _ l => l ++ [c].
Definition rd_rec (ro : Z -> option Z) (_ : list Z) (a : Z) : option Z := ro a.
Definition text_of (ro : Z -> option Z) (fuel : nat) (format : Z) (va : va_list) : option (list Z) :=
  let! x := format_loop (rd_rec ro) out_rec 1 0 fuel fuel format va (0, []) in Some (snd x).

Section Sim.
Context {St : Type}.
Variables (rd : St -> Z -> option Z) (out : out_fct St) (buffer maxlen : Z) (ro : Z -> option Z).
Implicit Types (x y : @sink St) (r : @sink (list Z)) (va : va_list) (fuel : nat) (base precision width flags : Z).
#[local] Abbreviation rrd := (rd_rec ro).
#[local] Abbreviation rec_all := (emit_all out_rec 1 0).
#[local] Abbreviation real_all := (emit_all out buffer maxlen).

(** Whatever is sent, the memory [ro] can still be read. *)
Definition readable x : Prop := forall text a c, ro a = Some c -> rdx rd (real_all text x) a = Some c.

Lemma readable_now x a c : readable x -> ro a = Some c -> rdx rd x a = Some c.
Proof. intros H. apply (H []). Qed.
Lemma readable_sent x text : readable x -> readable (real_all text x).
Proof. intros H t a c. rewrite <- emit_all_app. apply H. Qed.

(** Both runs send the same text. *)
Definition same x r y (r' : @sink (list Z)) : Prop := exists text, y = real_all text x /\ r' = rec_all text r.

Lemma same_refl x r : same x r x r.
Proof. by exists []. Qed.
Lemma same_emit c x r : same x r (emit out buffer maxlen c x) (emit out_rec 1 0 c r).
Proof. by exists [c]. Qed.
Lemma same_trans x r y r' z r'' : same x r y r' -> same y r' z r'' -> same x r z r''.
Proof. intros [t1 [-> ->]] [t2 [-> ->]]. exists (t1 ++ t2). by rewrite !emit_all_app. Qed.
Lemma same_readable x r y r' : same x r y r' -> readable x -> readable y.
Proof. intros [t [-> _]]. apply readable_sent. Qed.

(** A run that the recorder finishes is finished on the output, with the same text. *)
Definition follows {A : Type} x r (o2 : option (A * @sink (list Z))) (o1 : option (A * @sink St)) : Prop :=
  forall a r', o2 = Some (a, r') -> exists y, o1 = Some (a, y) /\ same x r y r'.

Lemma read_sim x r a c : readable x -> rdx rrd r a = Some c -> rdx rd x a = Some c.
Proof. intros H. by apply readable_now. Qed.

Lemma flags_sim fuel x r format flags o :
  readable x -> eval_flags rrd fuel r format flags = Some o -> eval_flags rd fuel x format flags = Some o.
Proof.
  intros Hx. revert format flags. induction fuel as [|fuel IH]; intros format flags; cbn [eval_flags]; [done|].
  destruct (rdx rrd r format) as [c|] eqn:E; [|done]. rewrite (read_sim _ _ _ _ Hx E), !bind_Some.
  case_match; [apply IH|done].
Qed.

Lemma atoi_sim fuel x r str i o :
  readable x -> _atoi rrd fuel r str i = Some o -> _atoi rd fuel x str i = Some o.
Proof.
  intros Hx. revert str i. induction fuel as [|fuel IH]; intros str i; cbn [_atoi]; [done|].
  destruct (rdx rrd r str) as [c|] eqn:E; [|done]. rewrite (read_sim _ _ _ _ Hx E), !bind_Some.
  case_match; [apply IH|done].
Qed.

Lemma width_sim fuel x r format flags va o :
  readable x -> eval_width rrd fuel r format flags va = Some o -> eval_width rd fuel x format flags va = Some o.
Proof.
  intros Hx. unfold eval_width. destruct (rdx rrd r format) as [c|] eqn:E; [|done].
  rewrite (read_sim _ _ _ _ Hx E), !bind_Some. destruct (_is_digit c); [|done].
  destruct (_atoi rrd fuel r format 0) as [p|] eqn:Ea; [|done]. by rewrite (atoi_sim _ _ _ _ _ _ Hx Ea).
Qed.

Lemma precision_sim fuel x r format flags va o :
  readable x -> eval_precision rrd fuel r format flags va = Some o -> eval_precision rd fuel x format flags va = Some o.
Proof.
  intros Hx. unfold eval_precision. destruct (rdx rrd r format) as [c|] eqn:E; [|done].
  rewrite (read_sim _ _ _ _ Hx E), !bind_Some. destruct (c =? c_dot); [|done]. cbv zeta.
  destruct (rdx rrd r (format + 1)) as [c1|] eqn:E1; [|done].
  rewrite (read_sim _ _ _ _ Hx E1), !bind_Some. destruct (_is_digit c1); [|done].
  destruct (_atoi rrd fuel r (format + 1) 0) as [p|] eqn:Ea; [|done]. by rewrite (atoi_sim _ _ _ _ _ _ Hx Ea).
Qed.

Lemma length_sim x r format flags o :
  readable x -> eval_length rrd r format flags = Some o -> eval_length rd x format flags = Some o.
Proof.
  intros Hx. unfold eval_length. destruct (rdx rrd r format) as [c|] eqn:E; [|done].
  rewrite (read_sim _ _ _ _ Hx E), !bind_Some. cbv zeta.
  destruct (rdx rrd r (format + 1)) as [c1|] eqn:E1; [by rewrite (read_sim _ _ _ _ Hx E1)|].
  repeat case_match; done.
Qed.

Lemma strnlen_sim fuel x r str s maxsize o :
  readable x -> _strnlen_s rrd fuel r str s maxsize = Some o -> _strnlen_s rd fuel x str s maxsize = Some o.
Proof.
  intros Hx. revert s maxsize. induction fuel as [|fuel IH]; intros s maxsize; cbn [_strnlen_s]; [done|].
  destruct (rdx rrd r s) as [c|] eqn:E; [|done]. rewrite (read_sim _ _ _ _ Hx E), !bind_Some.
  case_match; [apply IH|done].
Qed.

Lemma ntoa_sim value negative base prec width flags x r :
  2 <= base <= 16 -> 0 <= value -> 0 <= width < 2 ^ 32 ->
  exists y r', same x r y r' /\
    _ntoa_long out buffer maxlen value negative base prec width flags x = Some y /\
    _ntoa_long_long out buffer maxlen value negative base prec width flags x = Some y /\
    _ntoa_long out_rec 1 0 value negative base prec width flags r = Some r' /\
    _ntoa_long_long out_rec 1 0 value negative base prec width flags r = Some r'.
Proof.
  intros Hb Hv Hw. destruct (ntoa_total value negative base prec width flags Hb Hv Hw) as (text & _ & _ & Ht).
  exists (real_all text x), (rec_all text r). split; [by exists text|].
  destruct (Ht _ out buffer maxlen x) as [-> ->]. destruct (Ht _ out_rec 1 0 r) as [-> ->]. done.
Qed.

(** Two outcomes with the same remaining arguments and the same text. *)
Definition agrees x r (o2 : option (@sink (list Z) * va_list)) (o1 : option (@sink St * va_list)) : Prop :=
  forall r' va, o2 = Some (r', va) -> exists y, o1 = Some (y, va) /\ same x r y r'.

Ltac use_ntoa x r :=
  match goal with
  | |- context [_ntoa_long_long out_rec 1 0 ?v ?n ?b ?p ?w ?f r] =>
      destruct (ntoa_sim v n b p w f x r) as (y & r1 & Hs & ? & E1 & ? & E2);
        [lia|try (apply wrap_nonneg; lia)|lia|rewrite ?E1, ?E2]
  | |- context [_ntoa_long out_rec 1 0 ?v ?n ?b ?p ?w ?f r] =>
      destruct (ntoa_sim v n b p w f x r) as (y & r1 & Hs & E1 & ? & E2 & ?);
        [lia|try (apply wrap_nonneg; lia)|lia|rewrite ?E1, ?E2]
  end.

Lemma print_int_sim c precision width flags va x r :
  0 <= width < 2 ^ 32 ->
  agrees x r (print_int out_rec 1 0 c precision width flags va r) (print_int out buffer maxlen c precision width flags va x).
Proof.
  intros Hw r' va'. unfold print_int, print_signed, print_unsigned.
  pose proof (int_base_range c flags) as Hb. destruct (int_base c flags) as [base fl]. cbn [fst] in Hb.
  destruct (va_arg va) as [[v va1]|]; [|by case_match]. rewrite !bind_Some.
  destruct (is_signed_spec c); cbv zeta; destruct (has _ FLAGS_LONG_LONG); [| destruct (has _ FLAGS_LONG)|
    |destruct (has _ FLAGS_LONG)].
  all: use_ntoa x r; try (by rewrite !bind_Some; intros [= <- <-]; eauto).
  destruct (has _ FLAGS_CHAR); [apply wrap_nonneg; lia|]. destruct (has _ FLAGS_SHORT); apply wrap_nonneg; lia.
Qed.

Lemma pad_sim (b : bool) l width x r r' :
  0 <= l -> width < 2 ^ 32 -> (if b then pad out_rec 1 0 l width r else Some r) = Some r' ->
  exists y, (if b then pad out buffer maxlen l width x else Some x) = Some y /\ same x r y r'.
Proof.
  intros Hl Hw. destruct b; [rewrite !pad_eq by done|]; intros [= <-]; eexists; (split; [done|]);
    [by eexists|apply same_refl].
Qed.

Lemma print_char_sim width flags va x r :
  width < 2 ^ 32 -> agrees x r (print_char out_rec 1 0 width flags va r) (print_char out buffer maxlen width flags va x).
Proof.
  intros Hw r' va'. unfold print_char.
  destruct (if negb _ then pad out_rec _ _ 1 width r else Some r) as [r1|] eqn:E1; [|done].
  destruct (pad_sim _ 1 width x r r1 ltac:(lia) Hw E1) as (x1 & -> & S1). rewrite !bind_Some.
  destruct (va_arg va) as [[v va1]|]; [|done]. rewrite !bind_Some. cbv zeta.
  destruct (if has flags FLAGS_LEFT then pad out_rec _ _ _ _ _ else _) as [r2|] eqn:E2; [|done].
  destruct (pad_sim _ 1 width (emit out buffer maxlen (u8 v) x1) _ r2 ltac:(lia) Hw E2) as (x2 & -> & S2).
  rewrite !bind_Some. intros [= <- <-]. exists x2. split; [done|].
  eapply same_trans, same_trans; [exact S1|apply same_emit|exact S2].
Qed.

Lemma out_string_sim fuel p precision flags x r r' :
  readable x -> out_string rrd out_rec 1 0 fuel p precision flags r = Some r' ->
  exists y, out_string rd out buffer maxlen fuel p precision flags x = Some y /\ same x r y r'.
Proof.
  revert p precision x r. induction fuel as [|fuel IH]; intros p precision x r Hx; cbn [out_string]; [done|].
  destruct (rdx rrd r p) as [c|] eqn:E; [|done]. rewrite (read_sim _ _ _ _ Hx E), !bind_Some.
  case_match; [|intros [= <-]; exists x; split; [done|apply same_refl]]. intros Hr.
  destruct (IH (p + 1) _ (emit out buffer maxlen c x) _ (readable_sent x [c] Hx) Hr) as (y & -> & Sy).
  exists y. split; [done|]. eapply same_trans; [apply same_emit|exact Sy].
Qed.

Lemma print_string_sim fuel precision width flags va x r :
  readable x -> 0 <= precision -> width < 2 ^ 32 ->
  agrees x r (print_string rrd out_rec 1 0 fuel precision width flags va r)
             (print_string rd out buffer maxlen fuel precision width flags va x).
Proof.
  intros Hx Hp Hw r' va'. unfold print_string. destruct (va_arg va) as [[p va1]|]; [|done]. rewrite !bind_Some.
  destruct (_strnlen_s rrd _ _ _ _ _) as [l|] eqn:El; [|done].
  rewrite (strnlen_sim _ _ _ _ _ _ _ Hx El), !bind_Some. apply strnlen_range in El. cbv zeta.
  set (l' := if has flags FLAGS_PRECISION then _ else l).
  assert (0 <= l'). { unfold l'. case_match; [|lia]. case_match; lia. }
  destruct (if negb _ then pad out_rec _ _ l' width r else Some r) as [r1|] eqn:E1; [|done].
  destruct (pad_sim _ l' width x r r1 ltac:(lia) Hw E1) as (x1 & -> & S1). rewrite !bind_Some.
  destruct (out_string rrd _ _ _ _ _ _ _ _) as [r2|] eqn:E2; [|done].
  destruct (out_string_sim _ _ _ _ x1 _ _ (same_readable _ _ _ _ S1 Hx) E2) as (x2 & -> & S2). rewrite !bind_Some.
  destruct (if has flags FLAGS_LEFT then pad out_rec _ _ _ _ _ else _) as [r3|] eqn:E3; [|done].
  destruct (pad_sim _ l' width x2 r2 r3 ltac:(lia) Hw E3) as (x3 & -> & S3). rewrite !bind_Some.
  intros [= <- <-]. exists x3. split; [done|]. eapply same_trans, same_trans; eassumption.
Qed.

Lemma print_spec_sim fuel c precision width flags va x r :
  readable x -> 0 <= precision -> 0 <= width < 2 ^ 32 ->
  agrees x r (print_spec rrd out_rec 1 0 fuel c precision width flags va r)
             (print_spec rd out buffer maxlen fuel c precision width flags va x).
Proof.
  intros Hx Hp Hw. unfold print_spec. destruct (is_int_spec c); [by apply print_int_sim|].
  destruct (c =? 99); [apply print_char_sim; lia|].
  destruct (c =? 115); [apply print_string_sim; [done|lia|lia]|].
  destruct (c =? 112).
  { intros r' va'. unfold print_pointer. destruct (va_arg va) as [[v va1]|]; [|done]. rewrite !bind_Some. cbv zeta.
    destruct (ntoa_sim (u64 v) false 16 precision (u32 (8 * 2)) (Z.lor flags (Z.lor FLAGS_ZEROPAD FLAGS_UPPERCASE)) x r)
      as (y & r1 & Hs & _ & -> & _ & ->); [lia|apply wrap_nonneg; lia|by apply wrap_range|].
    rewrite !bind_Some. intros [= <- <-]. eauto. }
  case_match; intros r' va' [= <- <-]; eexists; (split; [done|apply same_emit]).
Qed.

Lemma directive_sim fuel format va x r f va' r' :
  readable x -> directive rrd out_rec 1 0 fuel format va r = Some (f, va', r') ->
  exists y, directive rd out buffer maxlen fuel format va x = Some (f, va', y) /\ same x r y r'.
Proof.
  intros Hx. unfold directive.
  destruct (eval_flags rrd _ _ _ _) as [[fl f0]|] eqn:Ef; [|done]. rewrite (flags_sim _ _ _ _ _ _ Hx Ef), !bind_Some.
  destruct (eval_width rrd _ _ _ _ _) as [[[[fl1 w] f1] va1]|] eqn:Ew; [|done].
  rewrite (width_sim _ _ _ _ _ _ _ Hx Ew), !bind_Some.
  destruct (eval_precision rrd _ _ _ _ _) as [[[[fl2 p] f2] va2]|] eqn:Ep; [|done].
  rewrite (precision_sim _ _ _ _ _ _ _ Hx Ep), !bind_Some.
  destruct (eval_length rrd _ _ _) as [[fl3 f3]|] eqn:El; [|done]. rewrite (length_sim _ _ _ _ _ Hx El), !bind_Some.
  destruct (rdx rrd r f3) as [c|] eqn:Ec; [|done]. rewrite (read_sim _ _ _ _ Hx Ec), !bind_Some.
  apply eval_width_range in Ew. apply eval_precision_range in Ep. cbn in Ew, Ep.
  destruct (print_spec rrd _ _ _ _ _ _ _ _ _ _) as [[r1 va3]|] eqn:E; [|done].
  destruct (print_spec_sim fuel c p w fl3 va2 x r Hx ltac:(lia) ltac:(lia) _ _ E) as (y & -> & Sy).
  rewrite !bind_Some. intros [= <- <- <-]. eauto.
Qed.

Lemma format_loop_sim n fuel format va x r r' :
  readable x -> format_loop rrd out_rec 1 0 n fuel format va r = Some r' ->
  exists y, format_loop rd out buffer maxlen n fuel format va x = Some y /\ same x r y r'.
Proof.
  revert format va x r. induction n as [|n IH]; intros format va x r Hx; cbn [format_loop]; [done|].
  destruct (rdx rrd r format) as [c|] eqn:E; [|done]. rewrite (read_sim _ _ _ _ Hx E), !bind_Some.
  destruct (c =? 0); [intros [= <-]; exists x; split; [done|apply same_refl]|].
  destruct (negb (c =? c_percent)).
  { intros Hr. destruct (IH _ _ (emit out buffer maxlen c x) _ (readable_sent x [c] Hx) Hr) as (y & -> & Sy).
    exists y. split; [done|]. eapply same_trans; [apply same_emit|exact Sy]. }
  destruct (directive rrd _ _ _ _ _ _ _) as [[[f va'] r1]|] eqn:Ed; [|done]. rewrite bind_Some. intros Hr.
  destruct (directive_sim _ _ _ x _ _ _ _ Hx Ed) as (x1 & -> & S1). rewrite bind_Some.
  destruct (IH _ _ x1 _ (same_readable _ _ _ _ S1 Hx) Hr) as (y & -> & Sy).
  exists y. split; [done|]. eapply same_trans; eassumption.
Qed.
End Sim.

(** ** The outputs *)

Section Outputs.
Implicit Types (text : list Z) (buffer count i : Z).

Lemma rec_emit_all text i l :
  snd (emit_all out_rec 1 0 text (i, l)) = l ++ (wrap 8 <$> text).
Proof.
  revert i l. induction text as [|c text IH]; intros i l; [by rewrite app_nil_r|].
  cbn [emit_all foldl fmap list_fmap]. unfold emit at 2. cbn [fst snd]. unfold emit_all in IH. rewrite IH.
  unfold out_rec. by rewrite <- app_assoc.
Qed.

Lemma idx_emit_all {St : Type} (out : out_fct St) buffer maxlen text s :
  Z.of_nat (length text) < 2 ^ 64 -> fst (emit_all out buffer maxlen text (0, s)) = Z.of_nat (length text).
Proof.
  intros Hl. assert (H : forall x, 0 <= fst x -> fst x + Z.of_nat (length text) < 2 ^ 64 ->
    fst (emit_all out buffer maxlen text x) = fst x + Z.of_nat (length text)); [|by rewrite H].
  clear Hl. induction text as [|c text IH]; intros x H0 Hx; cbn [emit_all foldl length] in *; [lia|].
  unfold emit_all in IH. change (2 ^ 64) with 18446744073709551616 in *.
  rewrite IH; unfold emit; cbn [fst]; rewrite wrap_64, ?Z.mod_small; lia.
Qed.

Lemma null_emit_all {St : Type} buffer maxlen text (x : @sink St) : snd (emit_all _out_null buffer maxlen text x) = snd x.
Proof. revert x. induction text as [|c text IH]; intros x; [done|]. cbn [emit_all foldl]. unfold emit_all in IH. by rewrite IH. Qed.

Lemma uart_emit_all buffer maxlen text (x : @sink pstate) :
  snd (emit_all _out_char buffer maxlen text x) =
  {| pmem := pmem (snd x); puart := puart (snd x) ++ filter (fun c => c <> 0) (wrap 8 <$> text) |}.
Proof.
  revert x. induction text as [|c text IH]; intros [i [m u]]; cbn [emit_all foldl fmap list_fmap snd]; [by rewrite app_nil_r|].
  unfold emit_all in IH. rewrite IH. unfold emit, _out_char, _putchar. cbn [snd fst pmem puart]. rewrite filter_cons.
  destruct (Z.eqb_spec (u8 c) 0), (decide (u8 c <> 0)); cbn [negb pmem puart]; try done. by rewrite <- app_assoc.
Qed.

Lemma stb_u8 (m : mem) a v : stb m a (u8 v) = stb m a v.
Proof. unfold stb. by rewrite wrap_idemp. Qed.

Lemma buffer_emit_all buffer count text i s :
  0 <= i -> i + Z.of_nat (length text) < 2 ^ 64 ->
  snd (emit_all _out_buffer buffer count text (i, s)) =
  {| pmem := put (pmem s) (buffer + i) (take (Z.to_nat (count - i)) (wrap 8 <$> text)); puart := puart s |}.
Proof.
  change (2 ^ 64) with 18446744073709551616. revert i s. induction text as [|c text IH]; intros i s Hi Hl; cbn [emit_all foldl fmap list_fmap length] in *.
  { rewrite take_nil. by destruct s. }
  unfold emit_all in IH. unfold emit at 2. cbn [fst snd]. rewrite (wrap_small 64) by (change (2 ^ 64) with 18446744073709551616; lia).
  rewrite IH by lia. unfold _out_buffer. destruct (Z.ltb_spec i count).
  - cbn [pmem puart]. replace (Z.to_nat (count - i)) with (S (Z.to_nat (count - (i + 1)))) by lia. cbn [take put].
    by replace (buffer + i + 1) with (buffer + (i + 1)) by lia.
  - replace (Z.to_nat (count - i)) with O by lia. replace (Z.to_nat (count - (i + 1))) with O by lia. done.
Qed.

Lemma put_app (m : mem) a l1 l2 : put m a (l1 ++ l2) = put (put m a l1) (a + Z.of_nat (length l1)) l2.
Proof.
  revert m a. induction l1 as [|c l1 IH]; intros m a; cbn [app put length]; [by rewrite Z.add_0_r|].
  rewrite IH. f_equal. lia.
Qed.

Lemma ldb_put_outside (m : mem) a l b n :
  b < a \/ a + n <= b -> Z.of_nat (length l) <= n -> ldb (put m a l) b = ldb m b.
Proof. intros. rewrite ldb_put. by zcases. Qed.

(** The terminator goes after the text, or in the last cell. *)
Lemma finish_buffer buffer count text s :
  0 <= count < 2 ^ 64 -> Z.of_nat (length text) < 2 ^ 64 ->
  finish _out_buffer buffer count (emit_all _out_buffer buffer count text (0, s)) =
  (s32 (Z.of_nat (length text)),
   {| pmem := if count =? 0 then pmem s else put (pmem s) buffer (take (Z.to_nat (count - 1)) (wrap 8 <$> text) ++ [0]);
      puart := puart s |}).
Proof.
  intros Hc Hl. unfold finish. rewrite idx_emit_all, buffer_emit_all by lia. cbn [pmem puart]. f_equal.
  unfold _out_buffer. cbn [pmem puart]. rewrite Z.add_0_r, Z.sub_0_r. change (2 ^ 64) with 18446744073709551616 in *.
  destruct (Z.eqb_spec count 0) as [->|Hn].
  { destruct (Z.ltb_spec (Z.of_nat (length text)) 0); [lia|]. rewrite wrap_64. cbn. by destruct s. }
  destruct (Z.ltb_spec (Z.of_nat (length text)) count).
  - zcase; [|lia]. f_equal. rewrite !take_ge by (rewrite length_fmap; lia). rewrite put_app, length_fmap. done.
  - rewrite wrap_64, Z.mod_small by lia. zcase; [|lia]. f_equal.
    destruct (lookup_lt_is_Some_2 (wrap 8 <$> text) (Z.to_nat (count - 1))) as [c E]; [rewrite length_fmap; lia|].
    replace (Z.to_nat count) with (S (Z.to_nat (count - 1))) by lia. rewrite (take_S_r _ _ _ E), !put_app.
    rewrite length_take, length_fmap, Nat.min_l by lia. replace (Z.of_nat (Z.to_nat (count - 1))) with (count - 1) by lia.
    cbn [put]. unfold stb. by rewrite insert_insert_eq.
Qed.
End Outputs.

(** ** What the entry points do *)

(** The memory outside a buffer; inside, it must not be read. *)
Definition outside (m : mem) (buffer count a : Z) : option Z :=
  if (buffer <=? a) && (a <? buffer + count) then None else Some (ldb m a).

Section Entry.
Implicit Types (fuel : nat) (buffer count format : Z) (va : va_list) (s : pstate) (text : list Z).

Lemma buffer_keeps buffer count text x :
  0 <= fst x ->
  let y := emit_all _out_buffer buffer count text x in
  0 <= fst y /\ puart (snd y) = puart (snd x) /\
  forall a, a < buffer \/ buffer + count <= a -> ldb (pmem (snd y)) a = ldb (pmem (snd x)) a.
Proof.
  revert x. induction text as [|c text IH]; intros x Hx; cbn [emit_all foldl]; [done|].
  unfold emit_all in IH. destruct (IH (emit _out_buffer buffer count c x)) as (H1 & H2 & H3); [by apply wrap_nonneg|].
  cbv zeta. split_and!; [done| |].
  - rewrite H2. cbn [emit snd]. unfold _out_buffer. by zcase.
  - intros a Ha. rewrite H3 by done. cbn [emit snd]. unfold _out_buffer. zcase; [|done]. cbn [pmem]. apply ldb_stb_ne. lia.
Qed.

(** What a run leaves: nothing sent to the UART or written outside the [count]
    bytes of the buffer, and a terminator in it. *)
Definition bounded buffer count s s' : Prop :=
  puart s' = puart s /\
  (forall a, a < buffer \/ buffer + count <= a -> ldb (pmem s') a = ldb (pmem s) a) /\
  (0 < count -> exists k, 0 <= k < count /\ ldb (pmem s') (buffer + k) = 0).

Lemma snprintf_bounded fuel buffer count format va s n s' :
  buffer <> NULL -> 0 <= count < 2 ^ 64 ->
  snprintf_ fuel buffer count format va s = Some (n, s') -> bounded buffer count s s'.
Proof.
  change (2 ^ 64) with 18446744073709551616. intros Hb Hc. unfold bounded, snprintf_, vsnprintf_, _vsnprintf.
  zcase; [done|]. destruct (format_loop _ _ _ _ _ _ _ _ _) as [x|] eqn:E; [rewrite bind_Some|done].
  apply format_loop_sent in E as [text ->]. intros [= _ <-].
  destruct (buffer_keeps buffer count text (0, s) ltac:(cbn; lia)) as (H1 & H2 & H3). cbv zeta in *.
  set (y := emit_all _ _ _ _ _) in *. clearbody y. cbn [snd fst] in *. unfold _out_buffer at 1 2 3.
  destruct (Z.ltb_spec (fst y) count).
  { destruct (Z.ltb_spec (fst y) count); [|lia]. cbn [pmem puart]. split_and!; [done| |].
    - intros a Ha. rewrite ldb_stb_ne by lia. by apply H3.
    - intros _. exists (fst y). split; [lia|]. by apply ldb_stb_eq. }
  destruct (Z.eqb_spec count 0) as [->|Hn].
  { destruct (Z.ltb_spec (u64 (0 - 1)) 0) as [Hx|]; [done|]. split_and!; [done|done|lia]. }
  rewrite wrap_64, Z.mod_small by lia. destruct (Z.ltb_spec (count - 1) count); [|lia].
  cbn [pmem puart]. split_and!; [done| |].
  - intros a Ha. rewrite ldb_stb_ne by lia. by apply H3.
  - intros _. exists (count - 1). split; [lia|]. by apply ldb_stb_eq.
Qed.

Lemma readable_buffer buffer count s :
  readable rd_mem _out_buffer buffer count (outside (pmem s) buffer count) (0, s).
Proof.
  intros text a c. unfold outside. destruct (_ && _) eqn:E; [done|]. intros [= <-]. unfold rdx, rd_mem. f_equal.
  destruct (buffer_keeps buffer count text (0, s)) as (_ & _ & H); [done|]. apply H.
  apply andb_false_iff in E as [E|E]; lia.
Qed.

(** A text is printed to every buffer that it is not read from. *)
Lemma snprintf_returns fuel buffer count format va s text :
  buffer <> NULL -> text_of (outside (pmem s) buffer count) fuel format va = Some text ->
  exists n s', snprintf_ fuel buffer count format va s = Some (n, s').
Proof.
  intros Hb. unfold text_of, snprintf_, vsnprintf_, _vsnprintf.
  destruct (format_loop (rd_rec _) _ _ _ _ _ _ _ _) as [r|] eqn:E; [rewrite bind_Some|done]. intros _.
  destruct (format_loop_sim rd_mem _out_buffer buffer count _ _ _ _ _ (0, s) _ _ (readable_buffer buffer count s) E) as (y & Ey & _).
  zcase; [done|]. rewrite Ey, bind_Some. eauto.
Qed.

(** C22: When neither the format nor the strings it prints lie in the buffer,
    [snprintf] returns the length of the text and leaves its first [count - 1]
    characters in the buffer, terminated. *)
Theorem snprintf_text fuel buffer count format va s text :
  buffer <> NULL -> 0 < count < 2 ^ 64 -> Z.of_nat (length text) < 2 ^ 31 ->
  text_of (outside (pmem s) buffer count) fuel format va = Some text ->
  exists s', snprintf_ fuel buffer count format va s = Some (Z.of_nat (length text), s') /\
    bytes (pmem s') buffer (S (length (take (Z.to_nat (count - 1)) text))) = take (Z.to_nat (count - 1)) text ++ [0] /\
    puart s' = puart s /\
    (forall a, a < buffer \/ buffer + count <= a -> ldb (pmem s') a = ldb (pmem s) a).
Proof.
  change (2 ^ 31) with 2147483648. intros Hb Hc Hl. unfold text_of, snprintf_, vsnprintf_, _vsnprintf.
  destruct (format_loop (rd_rec _) _ _ _ _ _ _ _ _) as [r|] eqn:E; [rewrite bind_Some|done]. intros [= <-].
  destruct (format_loop_sim rd_mem _out_buffer buffer count _ _ _ _ _ (0, s) _ _ (readable_buffer buffer count s) E)
    as (y & Ey & t & -> & ->). rewrite rec_emit_all in *. cbn [app] in *. rewrite length_fmap in *.
  zcase; [done|]. rewrite Ey, bind_Some, finish_buffer by (change (2 ^ 64) with 18446744073709551616 in *; lia).
  destruct (Z.eqb_spec count 0); [lia|]. eexists. split; [rewrite swrap_small by (done || (change (2 ^ (32 - 1)) with 2147483648; lia)); done|].
  cbn [pmem puart]. set (l := take (Z.to_nat (count - 1)) (wrap 8 <$> t)).
  assert (Hll : Z.of_nat (length l) <= count - 1) by (unfold l; rewrite length_take; lia). split_and!; [|done|].
  - replace (S (length l)) with (length (l ++ [0])) by (rewrite length_app; cbn; lia).
    apply bytes_put. rewrite Forall_app. split; [|by repeat constructor]. apply Forall_take, Forall_fmap, Forall_true.
    intros c. by apply wrap_range.
  - intros a Ha. apply (ldb_put_outside _ _ _ _ count); [lia|]. rewrite length_app. cbn. lia.
Qed.

(** C24: [printf] sends the same text to the UART, without its zero characters, and
    changes no memory. *)
Theorem printf_text fuel local format va s text :
  local <> NULL -> Z.of_nat (length text) < 2 ^ 31 ->
  text_of (fun a => Some (ldb (pmem s) a)) fuel format va = Some text ->
  printf_ fuel local format va s =
  Some (Z.of_nat (length text), {| pmem := pmem s; puart := puart s ++ filter (fun c => c <> 0) text |}).
Proof.
  change (2 ^ 31) with 2147483648. intros Hb Hl. unfold text_of, printf_, vprintf_, _vsnprintf.
  destruct (format_loop (rd_rec _) _ _ _ _ _ _ _ _) as [r|] eqn:E; [rewrite bind_Some|done]. intros [= <-].
  assert (Hr : readable rd_mem _out_char local (u64 (-1)) (fun a => Some (ldb (pmem s) a)) (0, s)).
  { intros t a c [= <-]. unfold rdx, rd_mem. by rewrite uart_emit_all. }
  destruct (format_loop_sim _ _ _ _ _ _ _ _ _ _ _ _ Hr E) as (y & Ey & t & -> & ->).
  rewrite rec_emit_all in *. cbn [app] in *. rewrite length_fmap in *.
  zcase; [done|]. rewrite Ey, bind_Some. unfold finish. rewrite idx_emit_all by (change (2 ^ 64) with 18446744073709551616; lia).
  rewrite uart_emit_all. rewrite swrap_small by (done || (change (2 ^ (32 - 1)) with 2147483648; lia)). done.
Qed.

(** With a NULL buffer nothing is written and the length is still returned. *)
Theorem snprintf_measures fuel count format va s text :
  Z.of_nat (length text) < 2 ^ 31 ->
  text_of (fun a => Some (ldb (pmem s) a)) fuel format va = Some text ->
  snprintf_ fuel NULL count format va s = Some (Z.of_nat (length text), s).
Proof.
  change (2 ^ 31) with 2147483648. intros Hl. unfold text_of, snprintf_, vsnprintf_, _vsnprintf.
  destruct (format_loop (rd_rec _) _ _ _ _ _ _ _ _) as [r|] eqn:E; [rewrite bind_Some|done]. intros [= <-].
  assert (Hr : readable rd_mem _out_null NULL count (fun a => Some (ldb (pmem s) a)) (0, s)).
  { intros t a c [= <-]. unfold rdx, rd_mem. by rewrite null_emit_all. }
  destruct (format_loop_sim _ _ _ _ _ _ _ _ _ _ _ _ Hr E) as (y & Ey & t & -> & ->).
  rewrite rec_emit_all in *. cbn [app] in *. rewrite length_fmap in *.
  cbn [Z.eqb NULL]. rewrite Ey, bind_Some. unfold finish. rewrite idx_emit_all by (change (2 ^ 64) with 18446744073709551616; lia).
  rewrite null_emit_all. rewrite swrap_small by (done || (change (2 ^ (32 - 1)) with 2147483648; lia)). done.
Qed.
End Entry.

(** ** Termination *)

Section Scan.
Implicit Types (s t : list Z) (ks : list bool) (va : va_list) (fuel : nat).

(** The argument kinds of a format, [true] for a string, when every directive
    is complete. *)
Fixpoint skip_flags s : list Z :=
  match s with c :: s' => if flag_of c then skip_flags s' else s | [] => [] end.
Fixpoint skip_digits s : list Z :=
  match s with c :: s' => if _is_digit c then skip_digits s' else s | [] => [] end.
Definition scan_number s : list bool * list Z :=
  match s with
  | c :: s' => if _is_digit c then ([], skip_digits s) else if c =? c_star then ([false], s') else ([], s)
  | [] => ([], [])
  end.
Definition scan_precision s : list bool * list Z :=
  match s with c :: s' => if c =? c_dot then scan_number s' else ([], s) | [] => ([], []) end.
Definition scan_length s : list Z :=
  match s with
  | c :: s' =>
      if c =? 108 then match s' with d :: s'' => if d =? 108 then s'' else s' | [] => [] end
      else if c =? 104 then match s' with d :: s'' => if d =? 104 then s'' else s' | [] => [] end
      else if (c =? 116) || (c =? 106) || (c =? 122) then s' else s
  | [] => []
  end.
Definition scan_spec (c : Z) : list bool :=
  if is_int_spec c || (c =? 99) || (c =? 112) then [false] else if c =? 115 then [true] else [].
Definition scan_directive s : option (list bool * list Z) :=
  let '(k1, s) := scan_number (skip_flags s) in
  let '(k2, s) := scan_precision s in
  match scan_length s with [] => None | c :: s' => Some (k1 ++ k2 ++ scan_spec c, s') end.
Fixpoint scan (n : nat) s : option (list bool) :=
  match n with
  | O => None
  | S n' =>
      match s with
      | [] => Some []
      | c :: s' =>
          if c =? c_percent
          then let! '(ks, s'') := scan_directive s' in let! ks' := scan n' s'' in Some (ks ++ ks')
          else scan n' s'
      end
  end.

Variable ro : Z -> option Z.

(** The readable string [s] at [a]. *)
Fixpoint str_at (a : Z) s : Prop :=
  match s with [] => ro a = Some 0 | c :: s' => ro a = Some c /\ c <> 0 /\ str_at (a + 1) s' end.

(** Enough arguments, and short enough strings where strings are printed. *)
Fixpoint args_ok fuel ks va : Prop :=
  match ks, va with
  | [], _ => True
  | b :: ks', v :: va' => (b = true -> exists t, str_at v t /\ (length t < fuel)%nat) /\ args_ok fuel ks' va'
  | _, [] => False
  end.

Lemma args_ok_app fuel k1 k2 va : args_ok fuel (k1 ++ k2) va -> args_ok fuel k1 va /\ args_ok fuel k2 (drop (length k1) va).
Proof.
  revert va. induction k1 as [|b k1 IH]; intros va; [done|]. destruct va as [|v va]; [done|].
  cbn. intros [Hb H%IH]. tauto.
Qed.

#[local] Abbreviation rrd := (rd_rec ro).
Implicit Types (x : @sink (list Z)).

Lemma str_head a s : str_at a s -> exists c, ro a = Some c /\ (c = 0 <-> s = []).
Proof. destruct s as [|c s]; cbn; [intros ->; by exists 0|]. intros (-> & Hc & _). by exists c. Qed.

Lemma flags_total fuel x a s fl :
  str_at a s -> (length s < fuel)%nat ->
  exists fl' a', eval_flags rrd fuel x a fl = Some (fl', a') /\ str_at a' (skip_flags s).
Proof.
  revert a s fl. induction fuel as [|fuel IH]; intros a s fl Hs Hl; [lia|]. cbn [eval_flags].
  unfold rdx, rd_rec. destruct s as [|c s]; cbn [str_at skip_flags] in *; [rewrite Hs, bind_Some; cbn; eauto 12|].
  destruct Hs as (E & Hc & Hs). rewrite E, bind_Some. destruct (flag_of c) as [b|]; [|cbn; eauto 12].
  cbn [length] in Hl. apply IH; [done|lia].
Qed.

Lemma atoi_total fuel x a s i :
  str_at a s -> (length s < fuel)%nat ->
  exists v a', _atoi rrd fuel x a i = Some (v, a') /\ str_at a' (skip_digits s).
Proof.
  revert a s i. induction fuel as [|fuel IH]; intros a s i Hs Hl; [lia|]. cbn [_atoi].
  unfold rdx, rd_rec. destruct s as [|c s]; cbn [str_at skip_digits] in *; [rewrite Hs, bind_Some; cbn; eauto 12|].
  destruct Hs as (E & Hc & Hs). rewrite E, bind_Some. destruct (_is_digit c); [|cbn; eauto 12].
  cbn [length] in Hl. apply IH; [done|lia].
Qed.

Lemma skip_flags_len s : (length (skip_flags s) <= length s)%nat.
Proof. induction s as [|c s IH]; cbn; [done|]. case_match; cbn; lia. Qed.
Lemma skip_digits_len s : (length (skip_digits s) <= length s)%nat.
Proof. induction s as [|c s IH]; cbn; [done|]. case_match; cbn; lia. Qed.
Lemma scan_number_len s : (length (snd (scan_number s)) <= length s)%nat.
Proof.
  destruct s as [|c s]; cbn [scan_number]; [done|]. case_match; [cbn [snd]; apply skip_digits_len|].
  case_match; cbn; lia.
Qed.
Lemma scan_precision_len s : (length (snd (scan_precision s)) <= length s)%nat.
Proof.
  destruct s as [|c s]; cbn [scan_precision]; [done|]. case_match; [|done].
  pose proof (scan_number_len s). cbn. lia.
Qed.
Lemma scan_length_len s : (length (scan_length s) <= length s)%nat.
Proof. unfold scan_length. repeat case_match; cbn; lia. Qed.

Lemma width_total fuel x a s fl va :
  str_at a s -> (length s < fuel)%nat -> args_ok fuel (fst (scan_number s)) va ->
  exists fl' w a', eval_width rrd fuel x a fl va = Some (fl', w, a', drop (length (fst (scan_number s))) va) /\
    str_at a' (snd (scan_number s)).
Proof.
  intros Hs Hl Ha. unfold eval_width, rdx, rd_rec. destruct s as [|c s].
  { cbn in Hs. rewrite Hs, bind_Some. cbn. eauto. }
  pose proof Hs as (E & Hc & Hs'). rewrite E, bind_Some. cbn [scan_number] in *. destruct (_is_digit c).
  { destruct (atoi_total fuel x a (c :: s) 0 Hs Hl) as (v & a' & E1 & H). unfold rrd in E1. unfold rd_rec in E1.
    unfold rd_rec. rewrite E1, bind_Some. cbn. eauto. }
  destruct (c =? c_star); [|cbn; eauto 12]. destruct va as [|v va]; cbn in Ha; [by destruct Ha|].
  cbn [va_arg]. rewrite bind_Some. cbv zeta. case_match; cbn; eauto 12.
Qed.

Lemma precision_total fuel x a s fl va :
  str_at a s -> (length s < fuel)%nat -> args_ok fuel (fst (scan_precision s)) va ->
  exists fl' w a', eval_precision rrd fuel x a fl va = Some (fl', w, a', drop (length (fst (scan_precision s))) va) /\
    str_at a' (snd (scan_precision s)).
Proof.
  intros Hs Hl Ha. unfold eval_precision, rdx, rd_rec. destruct s as [|c s].
  { cbn in Hs. rewrite Hs, bind_Some. cbn. eauto. }
  pose proof Hs as (E & Hc & Hs'). rewrite E, bind_Some. cbn [scan_precision] in *. destruct (c =? c_dot); [|cbn; eauto 12].
  cbv zeta. destruct s as [|d s].
  { cbn in Hs'. rewrite Hs', bind_Some. cbn. eauto. }
  pose proof Hs' as (E' & Hd & Hs''). rewrite E', bind_Some. cbn [scan_number] in *. destruct (_is_digit d).
  { destruct (atoi_total fuel x (a + 1) (d :: s) 0 Hs' ltac:(cbn in *; lia)) as (v & a' & E1 & H). unfold rd_rec in *.
    rewrite E1, bind_Some. cbn. eauto. }
  destruct (d =? c_star); [|cbn; eauto 12]. destruct va as [|v va]; cbn in Ha; [by destruct Ha|].
  cbn [va_arg]. rewrite bind_Some. cbv zeta. cbn. eauto.
Qed.

Lemma length_total x a s fl :
  str_at a s -> exists fl' a', eval_length rrd x a fl = Some (fl', a') /\ str_at a' (scan_length s).
Proof.
  intros Hs. unfold eval_length, rdx, rd_rec, scan_length. destruct s as [|c s].
  { cbn in Hs. rewrite Hs, bind_Some. cbn. eauto. }
  pose proof Hs as (E & Hc & Hs'). rewrite E, bind_Some. cbv zeta.
  destruct (str_head _ _ Hs') as (d & Ed & Hd0). rewrite Ed, !bind_Some.
  replace (a + 2) with (a + 1 + 1) by lia.
  destruct (c =? 108); [|destruct (c =? 104); [|repeat case_match; eauto 12; done]].
  all: destruct s as [|d' s]; [assert (d = 0) as -> by tauto; cbn; eauto 12|].
  all: pose proof Hs' as (E' & _ & Hs''); rewrite Ed in E'; injection E' as ->; case_match; eauto 12.
Qed.

Lemma strnlen_total fuel x a t p m :
  str_at a t -> (length t < fuel)%nat -> is_Some (_strnlen_s rrd fuel x p a m).
Proof.
  revert a t m. induction fuel as [|fuel IH]; intros a t m Ht Hl; [lia|]. cbn [_strnlen_s]. unfold rdx, rd_rec.
  destruct t as [|c t]; cbn [str_at length] in *; [rewrite Ht, bind_Some; cbn; eauto|].
  destruct Ht as (E & Hc & Ht). rewrite E, bind_Some. case_match; [|eauto]. apply (IH _ t); [done|lia].
Qed.

Lemma out_string_total fuel x a t pr fl :
  str_at a t -> (length t < fuel)%nat -> is_Some (out_string rrd out_rec 1 0 fuel a pr fl x).
Proof.
  revert a t pr x. induction fuel as [|fuel IH]; intros a t pr x Ht Hl; [lia|]. cbn [out_string]. unfold rdx, rd_rec.
  destruct t as [|c t]; cbn [str_at length] in *; [rewrite Ht, bind_Some; cbn; eauto|].
  destruct Ht as (E & Hc & Ht). rewrite E, !bind_Some. case_match; [|eauto]. apply (IH _ t); [done|lia].
Qed.

Lemma opt_pad_total (b : bool) l width x :
  0 <= l -> width < 2 ^ 32 -> is_Some (if b then pad out_rec 1 0 l width x else Some x).
Proof. intros Hl Hw. destruct b; [|eauto]. rewrite pad_eq by done. eauto. Qed.

Lemma print_int_total x c pr w fl v va :
  0 <= w < 2 ^ 32 -> exists y, print_int out_rec 1 0 c pr w fl (v :: va) x = Some (y, va).
Proof.
  intros Hw. unfold print_int, print_signed, print_unsigned. pose proof (int_base_range c fl) as Hb.
  destruct (int_base c fl) as [base fl']. cbn [fst] in Hb. cbn [va_arg].
  assert (H : forall value neg, 0 <= value -> exists y,
    _ntoa_long out_rec 1 0 value neg base pr w (int_flags c fl') x = Some y /\
    _ntoa_long_long out_rec 1 0 value neg base pr w (int_flags c fl') x = Some y).
  { intros value neg Hv. destruct (ntoa_total value neg base pr w (int_flags c fl') Hb Hv Hw) as (text & _ & _ & Ht).
    destruct (Ht _ out_rec 1 0 x) as [-> ->]. eauto. }
  rewrite !bind_Some. cbv zeta.
  destruct (is_signed_spec c), (has (int_flags c fl') FLAGS_LONG_LONG), (has (int_flags c fl') FLAGS_LONG),
    (has (int_flags c fl') FLAGS_CHAR), (has (int_flags c fl') FLAGS_SHORT).
  all: match goal with |- context [_ntoa_long _ _ _ ?v ?n _ _ _ _ _] => destruct (H v n) as (y & E1 & E2)
       | |- context [_ntoa_long_long _ _ _ ?v ?n _ _ _ _ _] => destruct (H v n) as (y & E1 & E2) end;
    [apply wrap_nonneg; lia|rewrite ?E1, ?E2, bind_Some; eauto].
Qed.

Lemma print_spec_total fuel x c pr w fl va :
  0 <= pr -> 0 <= w < 2 ^ 32 -> args_ok fuel (scan_spec c) va ->
  exists y, print_spec rrd out_rec 1 0 fuel c pr w fl va x = Some (y, drop (length (scan_spec c)) va).
Proof.
  intros Hp Hw. unfold print_spec, scan_spec. destruct (is_int_spec c); cbn [orb].
  { cbn [args_ok length]. destruct va as [|v va]; [by intros []|]. intros _. cbn [drop]. by apply print_int_total. }
  destruct (c =? 99); cbn [orb].
  { cbn [args_ok length]. destruct va as [|v va]; [by intros []|]. intros _. cbn [drop]. unfold print_char.
    destruct (opt_pad_total (negb (has fl FLAGS_LEFT)) 1 w x) as [x1 ->]; [lia|lia|]. rewrite bind_Some. cbn [va_arg].
    rewrite bind_Some. cbv zeta.
    destruct (opt_pad_total (has fl FLAGS_LEFT) 1 w (emit out_rec 1 0 (u8 v) x1)) as [x2 ->]; [lia|lia|].
    rewrite bind_Some. eauto. }
  destruct (c =? 115) eqn:E115; [apply Z.eqb_eq in E115 as ->; cbn [Z.eqb]|].
  { cbn [args_ok length]. destruct va as [|v va]; [by intros []|]. intros [Hs _]. destruct (Hs eq_refl) as (t & Ht & Hl).
    cbn [drop]. unfold print_string. cbn [va_arg]. rewrite bind_Some.
    destruct (strnlen_total fuel x v t v (if negb (pr =? 0) then pr else u64 (-1)) Ht Hl) as [l E].
    rewrite E, bind_Some. apply strnlen_range in E. cbv zeta.
    set (l' := if has fl FLAGS_PRECISION then _ else l).
    assert (0 <= l'). { unfold l'. case_match; [|lia]. case_match; lia. }
    destruct (opt_pad_total (negb (has fl FLAGS_LEFT)) l' w x) as [x1 ->]; [lia|lia|]. rewrite bind_Some.
    destruct (out_string_total fuel x1 v t pr fl Ht Hl) as [x2 ->]. rewrite bind_Some.
    destruct (opt_pad_total (has fl FLAGS_LEFT) l' w x2) as [x3 ->]; [lia|lia|]. rewrite bind_Some. eauto. }
  destruct (c =? 112).
  { cbn [args_ok length]. destruct va as [|v va]; [by intros []|]. intros _. cbn [drop]. unfold print_pointer. cbn [va_arg].
    rewrite bind_Some. cbv zeta.
    destruct (ntoa_total (u64 v) false 16 pr (u32 (8 * 2)) (Z.lor fl (Z.lor FLAGS_ZEROPAD FLAGS_UPPERCASE)))
      as (text & _ & _ & Ht); [lia|apply wrap_nonneg; lia|by apply wrap_range|].
    destruct (Ht _ out_rec 1 0 x) as [_ ->]. rewrite bind_Some. eauto. }
  intros _. cbn [length drop]. case_match; eauto.
Qed.

Lemma directive_total fuel x a s va ks s' :
  str_at a s -> (length s < fuel)%nat -> scan_directive s = Some (ks, s') -> args_ok fuel ks va ->
  (length s' < length s)%nat /\
  exists a' y, directive rrd out_rec 1 0 fuel a va x = Some (a', drop (length ks) va, y) /\ str_at a' s'.
Proof.
  intros Hs Hl. unfold scan_directive.
  destruct (flags_total fuel x a s 0 Hs Hl) as (fl & a0 & E0 & H0). pose proof (skip_flags_len s) as L0.
  pose proof (scan_number_len (skip_flags s)) as L1.
  pose proof (fun va => width_total fuel x a0 (skip_flags s) fl va H0 ltac:(lia)) as W.
  destruct (scan_number (skip_flags s)) as [k1 s1]. cbn [fst snd] in *.
  pose proof (scan_precision_len s1) as L2.
  pose proof (fun a fl va H => precision_total fuel x a s1 fl va H ltac:(lia)) as P.
  destruct (scan_precision s1) as [k2 s2]. cbn [fst snd] in *.
  pose proof (scan_length_len s2) as L3.
  pose proof (fun a fl H => length_total x a s2 fl H) as Q.
  destruct (scan_length s2) as [|c s3]; [done|]. cbn [length] in L3. intros [= <- <-].
  intros [Hk1 [Hk2 Hk3]%args_ok_app]%args_ok_app. split; [lia|].
  unfold directive. rewrite E0, bind_Some.
  destruct (W va Hk1) as (fl1 & w & a1 & E1 & H1). rewrite E1, bind_Some.
  destruct (P a1 fl1 _ H1 Hk2) as (fl2 & pr & a2 & E2 & H2). rewrite E2, bind_Some.
  destruct (Q a2 fl2 H2) as (fl3 & a3 & -> & Ec & Hc & H3). rewrite bind_Some.
  change (rdx rrd x a3) with (ro a3). rewrite Ec, bind_Some.
  apply eval_width_range in E1. apply eval_precision_range in E2. cbn in E1, E2.
  destruct (print_spec_total fuel x c pr w fl3 (drop (length k2) (drop (length k1) va))) as [y ->]; [lia|lia|done|].
  rewrite bind_Some. exists (a3 + 1), y. split; [|done]. rewrite !drop_drop, !length_app.
  by repeat f_equal; lia.
Qed.

Lemma format_loop_total n fuel x a s va ks :
  str_at a s -> (length s < fuel)%nat -> (length s < n)%nat -> scan n s = Some ks -> args_ok fuel ks va ->
  is_Some (format_loop rrd out_rec 1 0 n fuel a va x).
Proof.
  revert x a s va ks. induction n as [|n IH]; intros x a s va ks Hs Hl Hn; [lia|]. cbn [scan format_loop].
  destruct s as [|c s].
  { cbn in Hs. unfold rdx, rd_rec. rewrite Hs, bind_Some. eauto. }
  pose proof Hs as (E & Hc & Hs'). change (rdx rrd x a) with (ro a). rewrite E, bind_Some.
  destruct (Z.eqb_spec c 0); [done|]. cbn [length] in *. destruct (c =? c_percent); cbn [negb].
  - destruct (scan_directive s) as [[k1 s1]|] eqn:Ed; [rewrite bind_Some|done].
    destruct (scan n s1) as [k2|] eqn:E2; [rewrite bind_Some|done]. intros [= <-] [H1 H2]%args_ok_app.
    destruct (directive_total fuel x (a + 1) s va k1 s1 Hs' ltac:(lia) Ed H1) as (L & a' & y & -> & Hs1).
    rewrite bind_Some. apply (IH _ _ s1 _ k2); try done; lia.
  - intros Ek Ha. apply (IH _ _ s _ ks); try done; lia.
Qed.

(** C23: A format whose directives are complete, with an argument for each of them,
    is always printed: the loops need no more rounds than its characters. *)
Theorem format_terminates fuel format s va ks :
  str_at format s -> (length s < fuel)%nat -> scan fuel s = Some ks -> args_ok fuel ks va ->
  exists text, text_of ro fuel format va = Some text.
Proof.
  intros Hs Hl Hk Ha. unfold text_of. destruct (format_loop_total fuel fuel (0, []) format s va ks) as [x ->]; try done.
  rewrite bind_Some. eauto.
Qed.
End Scan.

(** C21: A format whose directives are complete, with an argument for each of them
    and terminated strings, none of them in the buffer: [snprintf] returns, it
    has written nothing outside the [count] bytes of the buffer and sent nothing
    to the UART, and it has left a terminator in the buffer.  Any other call that
    returns, whatever its format and arguments and wherever they lie, keeps
    these bounds too. *)
Theorem snprintf_bounds fuel buffer count format va (s : pstate) :
  buffer <> NULL -> 0 <= count < 2 ^ 64 ->
  (forall str ks, let ro := outside (pmem s) buffer count in
     str_at ro format str -> (length str < fuel)%nat -> scan fuel str = Some ks -> args_ok ro fuel ks va ->
     exists n s', snprintf_ fuel buffer count format va s = Some (n, s') /\ bounded buffer count s s') /\
  (forall n s', snprintf_ fuel buffer count format va s = Some (n, s') -> bounded buffer count s s').
Proof.
  intros Hb Hc. split; [|intros n s'; by apply snprintf_bounded]. intros str ks ro Hs Hl Hk Ha.
  destruct (format_loop_total ro fuel fuel (0, []) format str va ks) as [x Ex]; try done.
  destruct (snprintf_returns fuel buffer count format va s (snd x) Hb) as (n & s' & E); [unfold text_of; fold ro; by rewrite Ex|].
  exists n, s'. split; [done|]. by apply (snprintf_bounded fuel buffer count format va s n s').
Qed.

(** A format that ends inside a directive is read past its terminator: a zero
    character is sent and what follows in memory is taken as format. *)
Theorem trailing_percent_overruns fuel ro format va :
  ro format = Some c_percent -> ro (format + 1) = Some 0 ->
  text_of ro (S (S fuel)) format va =
  let! x := format_loop (rd_rec ro) out_rec 1 0 (S fuel) (S (S fuel)) (format + 2) va (1, [0]) in Some (snd x).
Proof.
  intros E1 E2. unfold text_of. cbn [format_loop]. change (rdx (rd_rec ro) (0, []) format) with (ro format). rewrite E1, bind_Some. cbn [Z.eqb c_percent negb].
  assert (directive (rd_rec ro) out_rec 1 0 (S (S fuel)) (format + 1) va (0, []) = Some (format + 2, va, (1, [0]))) as ->.
  { unfold directive. cbn [eval_flags]. unfold rdx, rd_rec. rewrite E2, bind_Some. cbn [flag_of Z.eqb c_0 c_minus c_plus c_space c_hash].
    unfold flag_of; cbn. unfold eval_width, eval_precision, eval_length, rdx, rd_rec. rewrite E2, !bind_Some. cbn.
    rewrite E2. cbn. rewrite E2. cbn. rewrite E2. cbn. replace (format + 1 + 1) with (format + 2) by lia. done. }
  done.
Qed.

(** ** Concrete runs *)

(** ["n=%-4d%s"] at 1000 and ["hi"] at 2000. *)
Definition demo : pstate :=
  {| pmem := put (put ∅ 1000 [110; 61; 37; 45; 52; 100; 37; 115; 0]) 2000 [104; 105; 0]; puart := [] |}.

Example ntoa_long_roundtrip_witness :
  exists ds, parse 16 ds = Some 255 /\ 3 <= Z.of_nat (length ds).
Proof.
  destruct (ntoa_long_roundtrip 255 true 16 3 8 FLAGS_ZEROPAD) as (pre & ds & post & _ & H1 & H2 & _);
    [lia|split; [lia|reflexivity]|lia|lia|reflexivity|left; lia|].
  exists ds. split; [exact H1|]. apply H2. reflexivity.
Defined.

Example snprintf_bounds_witness :
  exists n s', snprintf_ 20 3000 6 1000 [-7; 2000] demo = Some (n, s') /\ ldb (pmem s') 999 = ldb (pmem demo) 999 /\
    exists k, 0 <= k < 6 /\ ldb (pmem s') (3000 + k) = 0.
Proof.
  destruct (snprintf_bounds 20 3000 6 1000 [-7; 2000] demo ltac:(discriminate) ltac:(lia)) as [H _].
  destruct (H [110; 61; 37; 45; 52; 100; 37; 115] [false; true]) as (n & s' & E & _ & Hk & Ht).
  - vm_compute. repeat split; discriminate.
  - cbn. lia.
  - reflexivity.
  - cbn [args_ok]. split; [discriminate|]. split; [|exact I]. intros _. exists [104; 105].
    split; [vm_compute; repeat split; discriminate|cbn; lia].
  - exists n, s'. split; [exact E|]. split; [apply Hk; left; reflexivity|apply Ht; reflexivity].
Defined.

Example snprintf_text_witness :
  exists s', snprintf_ 20 3000 6 1000 [-7; 2000] demo = Some (8, s') /\
    bytes (pmem s') 3000 6 = [110; 61; 45; 55; 32; 0].
Proof.
  destruct (snprintf_text 20 3000 6 1000 [-7; 2000] demo [110; 61; 45; 55; 32; 32; 104; 105]) as (s' & E & H & _);
    [discriminate|lia|reflexivity|vm_compute; reflexivity|].
  exists s'. split; [exact E|exact H].
Defined.

Example printf_text_witness :
  printf_ 20 9000 1000 [-7; 2000] demo =
  Some (8, {| pmem := pmem demo; puart := [110; 61; 45; 55; 32; 32; 104; 105] |}).
Proof.
  apply (printf_text 20 9000 1000 [-7; 2000] demo [110; 61; 45; 55; 32; 32; 104; 105]);
    [discriminate|reflexivity|vm_compute; reflexivity].
Defined.

Example snprintf_measures_witness : snprintf_ 20 NULL 0 1000 [-7; 2000] demo = Some (8, demo).
Proof.
  apply (snprintf_measures 20 0 1000 [-7; 2000] demo [110; 61; 45; 55; 32; 32; 104; 105]);
    [reflexivity|vm_compute; reflexivity].
Defined.

Example format_terminates_witness :
  exists text, text_of (fun a => Some (ldb (pmem demo) a)) 20 1000 [-7; 2000] = Some text.
Proof.
  apply (format_terminates _ 20 1000 [110; 61; 37; 45; 52; 100; 37; 115] [-7; 2000] [false; true]).
  - vm_compute. repeat split; discriminate.
  - cbn. lia.
  - reflexivity.
  - cbn [args_ok]. split; [discriminate|]. split; [|exact I]. intros _. exists [104; 105].
    split; [vm_compute; repeat split; discriminate|cbn; lia].
Defined.

Example trailing_percent_overruns_witness :
  text_of (fun a => Some (ldb (put ∅ 1000 [37; 0; 104; 105; 0]) a)) 9 1000 [] = Some [0; 104; 105].
Proof.
  rewrite (trailing_percent_overruns 7); [vm_compute; reflexivity|reflexivity|reflexivity].
Defined.

(** '#' takes two digits back from a field it believes zero-padded: a number with
    exactly as many hexadecimal digits as the field is wide loses them.  With a
    field of two, every number of two digits is printed as "0x". *)
Theorem hash_field_loses_digits value :
  16 <= value < 256 ->
  _ntoa_long out_rec 1 0 value false 16 0 2 FLAGS_HASH (0, []) = Some (2, [48; 120]).
Proof.
  intros Hv.
  assert (H : forallb (fun n => bool_decide (_ntoa_long out_rec 1 0 (Z.of_nat n) false 16 0 2 FLAGS_HASH (0, []) = Some (2, [48; 120])))
    (seq 16 240) = true) by (vm_compute; reflexivity).
  rewrite forallb_forall in H. specialize (H (Z.to_nat value)). rewrite bool_decide_eq_true, Z2Nat.id in H by lia.
  apply H, in_seq. lia.
Qed.

Example hash_field_loses_digits_witness :
  _ntoa_long out_rec 1 0 255 false 16 0 2 FLAGS_HASH (0, []) = Some (2, [48; 120]).
Proof. apply hash_field_loses_digits. lia. Defined.
