(* ===== verification/Buffer.v ===== *)
(** fs/fs.c: the flash block device and the buffer cache.

    The flash chip is a device of the class [FlashDevice], known by its command
    protocol; the heap is a [BlockHeap].  [struct buffer_head] objects are a typed
    heap by address that loses an object when it is freed; the block contents are
    bytes of heap blocks.  The byte memory is the virtual memory the kernel sees
    while the calling task's page tables are installed. *)

From S2P Require Import Prelude Mem Lib DList Page PageTable Kmalloc Heap.
Local Open Scope Z_scope.

(** ** The flash chip *)

(** What the chip does with its next write, or answers to a read: the array, a
    program command waiting for its data byte, or the status register of an
    operation that reports itself ready after some more reads. *)
Inductive flash_mode := ReadArray | ProgramSetup | Status (busy : nat).

(** The documented command set: 0x10 sets up the programming of a byte, the next
    write gives the byte, bit 7 of the status register tells when it is done, 0xff
    goes back to reading the array. *)
Class FlashDevice (F : Type) := {
  fl_read : Z -> F -> Z * F;
  fl_write : Z -> Z -> F -> F;
  fl_data : F -> Z -> Z;
  fl_mode : F -> flash_mode;
  fl_data_range : forall f o, 0 <= fl_data f o < 256;
  fl_read_array : forall f o, fl_mode f = ReadArray -> fl_read o f = (fl_data f o, f);
  fl_setup : forall f o, (fl_mode f = ReadArray \/ exists n, fl_mode f = Status n) ->
    fl_mode (fl_write o 16 f) = ProgramSetup /\ forall a, fl_data (fl_write o 16 f) a = fl_data f a;
  fl_program : forall f o v, fl_mode f = ProgramSetup -> 0 <= v < 256 ->
    (exists n, fl_mode (fl_write o v f) = Status n) /\
    forall a, fl_data (fl_write o v f) a = if a =? o then v else fl_data f a;
  fl_status : forall f o n, fl_mode f = Status n -> exists r f', fl_read o f = (r, f') /\
    (forall a, fl_data f' a = fl_data f a) /\
    match n with
    | O => Z.testbit r 7 = true /\ fl_mode f' = Status O
    | S n' => Z.testbit r 7 = false /\ fl_mode f' = Status n'
    end;
  fl_array : forall f o n, fl_mode f = Status n ->
    fl_mode (fl_write o 255 f) = ReadArray /\ forall a, fl_data (fl_write o 255 f) a = fl_data f a }.

(** ** Data *)

Definition BLOCK_SZ : Z := 1024.
Definition CMD_WR : Z := 0x10.
Definition CMD_WR_END : Z := 0xff.
Definition CMD_STATE_REG : Z := 0x70.
Definition SR_7 : Z := 0x80.
Definition BH_Uptodate : Z := 0.
Definition BH_Dirty : Z := 1.

Record gendisk := { sector_sz : Z; nr_sector : Z }.
(** The one disk; its operations are [pflash_read] and [pflash_write]. *)
Definition pflash : gendisk := {| sector_sz := BLOCK_SZ; nr_sector := PFLASH1_SIZE / BLOCK_SZ |}.

Record block_device := { nr_blk : Z; bd_sb : Z; genhd : gendisk }.
Definition sizeof_block_device : Z := 24.

(** The list node [lru] is a separate object at [bh_lru p]. *)
Record buffer_head := { b_state : Z; data : Z; b_bd : Z; blk_no : Z }.
Definition sizeof_buffer_head : Z := 48.
Definition bh_lru (p : Z) : Z := p + 16.
Definition bh_entry (pos : Z) : Z := pos - 16.

Definition with_bstate (x : Z) (b : buffer_head) : buffer_head :=
  {| b_state := x; data := data b; b_bd := b_bd b; blk_no := blk_no b |}.

(** The state of the cache and of what it uses. *)
Record cache (A F : Type) := {
  cheap : A; chip : F; bufs : gmap Z buffer_head; lists : lheap }.
#[global] Arguments cheap {A F}.
#[global] Arguments chip {A F}.
#[global] Arguments bufs {A F}.
#[global] Arguments lists {A F}.

Section Buffer.
Context {A F : Type} {HO : HeapOps A} {H0 : FlashDevice F}.
(** The address of the static [bh_head]. *)
Variable bh_head : Z.
Implicit Types (s : cache A F).

Definition set_heap (h : A) s : cache A F := {| cheap := h; chip := chip s; bufs := bufs s; lists := lists s |}.
Definition set_chip (f : F) s : cache A F := {| cheap := cheap s; chip := f; bufs := bufs s; lists := lists s |}.
Definition set_bufs (m : gmap Z buffer_head) s : cache A F := {| cheap := cheap s; chip := chip s; bufs := m; lists := lists s |}.
Definition set_lists (l : lheap) s : cache A F := {| cheap := cheap s; chip := chip s; bufs := bufs s; lists := l |}.
Definition cmem s : mem := hmem (cheap s).
Definition set_mem (m : mem) s : cache A F := set_heap (hset m (cheap s)) s.

(** [*pflash1_addr(o)]: only the chip's own range is mapped there. *)
Definition flash_in (o : Z) : bool := (0 <=? o) && (o <? PFLASH1_SIZE).
Definition flash_rd (o : Z) s : option (Z * cache A F) :=
  assert! flash_in o in let '(r, f) := fl_read o (chip s) in Some (r, set_chip f s).
Definition flash_wr (o v : Z) s : option (cache A F) :=
  assert! flash_in o in Some (set_chip (fl_write o v (chip s)) s).

(** [memcpy(bh->data, (void* )(PFLASH1_BASE + sect * BLOCK_SZ), BLOCK_SZ)]. *)
Definition pflash_read (sect d : Z) s : option (cache A F) :=
  for_up (Z.to_nat BLOCK_SZ) 0
    (fun i s => let! '(v, s) := flash_rd (u64 (sect * BLOCK_SZ) + i) s in
                Some (set_mem (stb (cmem s) (d + i) v) s)) s.

Definition pflash_write_byte (addr val : Z) s : option (cache A F) :=
  let! s := flash_wr addr CMD_WR s in
  flash_wr addr val s.

(** [while ( !( *pflash1_addr(CMD_STATE_REG) & SR_7) );]. *)
Fixpoint pflash_wait (fuel : nat) s : option (cache A F) :=
  match fuel with
  | O => None
  | S f =>
      let! '(r, s) := flash_rd CMD_STATE_REG s in
      if Z.land r SR_7 =? 0 then pflash_wait f s else Some s
  end.

Definition pflash_write (fuel : nat) (sect d : Z) s : option (Z * cache A F) :=
  let base := u64 (sect * BLOCK_SZ) in
  let! s := for_up (Z.to_nat BLOCK_SZ) 0
    (fun i s => pflash_write_byte (base + i) (ldb (cmem s) (d + i)) s) s in
  let! s := pflash_wait fuel s in
  let! s := flash_wr 0 CMD_WR_END s in
  Some (BLOCK_SZ, s).

(** The header is filled field by field; the read sees its [data]. *)
Definition bread (bd blk : Z) s : option (Z * cache A F) :=
  let! '(bh, h) := halloc sizeof_buffer_head (cheap s) in
  let! '(d, h) := halloc BLOCK_SZ h in
  let! s := pflash_read blk d (set_heap h s) in
  let s := set_bufs (<[bh := {| b_state := BH_Uptodate; data := d; b_bd := bd; blk_no := blk |}]> (bufs s)) s in
  let! l := list_add (<[bh_lru bh := {| prev := NULL; next := NULL |}]> (lists s)) (bh_lru bh) bh_head in
  Some (bh, set_lists l s).

(** [list_for_each(pos, &bh_head)] with its early return. *)
Fixpoint find_buf (fuel : nat) (bd blk pos : Z) s : option (option Z) :=
  match fuel with
  | O => None
  | S f =>
      if pos =? bh_head then Some None
      else
        let bh := bh_entry pos in
        let! b := bufs s !! bh in
        if (blk_no b =? blk) && (b_bd b =? bd) then Some (Some bh)
        else let! n := get_next (lists s) pos in find_buf f bd blk n s
  end.

Definition get_blk (bd blk : Z) s : option (Z * cache A F) :=
  let! n := get_next (lists s) bh_head in
  let! r := find_buf (S (size (lists s))) bd blk n s in
  match r with
  | Some bh => Some (bh, s)
  | None => bread bd blk s
  end.

Definition brelse (fuel : nat) (bh : Z) s : option (cache A F) :=
  let! b := bufs s !! bh in
  let! s := if b_state b =? BH_Dirty
            then let! '(_, s) := pflash_write fuel (blk_no b) (data b) s in Some s
            else Some s in
  let! h := hfree (data b) (cheap s) in
  let! l := list_del (lists s) (bh_lru bh) in
  let! h := hfree bh h in
  Some (set_bufs (delete bh (bufs s)) (set_lists l (set_heap h s))).

Definition mark_buffer_dirty (bh : Z) s : option (cache A F) :=
  let! b := bufs s !! bh in Some (set_bufs (<[bh := with_bstate BH_Dirty b]> (bufs s)) s).
End Buffer.

(** ** Transfers between the chip and memory *)

Lemma sr_7_test r : (Z.land r SR_7 =? 0) = negb (Z.testbit r 7).
Proof.
  change SR_7 with (2 ^ 7). destruct (Z.eqb_spec (Z.land r (2 ^ 7)) 0) as [E|E].
  - assert (T : Z.testbit (Z.land r (2 ^ 7)) 7 = false) by (rewrite E; apply Z.bits_0).
    rewrite Z.land_spec, Z.pow2_bits_true, andb_true_r in T by lia. by rewrite T.
  - destruct (Z.testbit r 7) eqn:T; [done|]. destruct E. apply Z.bits_inj'. intros i Hi.
    rewrite Z.land_spec, Z.bits_0. destruct (decide (i = 7)) as [->|]; [by rewrite T|].
    rewrite Z.pow2_bits_false by lia. apply andb_false_r.
Qed.

Section Transfer.
Context {A F : Type} {HO : HeapOps A} {H : BlockHeap A} {H0 : FlashDevice F}.
Implicit Types (s : cache A F) (L : gmap Z Z) (h : A) (f : F) (d sect o : Z).

(** A block number whose block lies on the chip. *)
Definition block_in (sect : Z) : Prop := 0 <= sect < 65536.

Lemma flash_in_block sect i : block_in sect -> 0 <= i < 1024 -> flash_in (u64 (sect * BLOCK_SZ) + i) = true.
Proof.
  intros Hs Hi. unfold block_in, BLOCK_SZ, flash_in, PFLASH1_SIZE in *. rewrite wrap_64, Z.mod_small by lia. lia.
Qed.

Lemma block_base sect : block_in sect -> u64 (sect * BLOCK_SZ) = sect * 1024.
Proof. unfold block_in, BLOCK_SZ. intros. rewrite wrap_64, Z.mod_small by lia. done. Qed.

(** Storing a byte of a live block. *)
Lemma store_owned h L d n i v :
  owns h L -> L !! d = Some n -> 0 <= i < n ->
  owns (hset (stb (hmem h) (d + i) v) h) L /\
  (forall k, room h k -> room (hset (stb (hmem h) (d + i) v) h) k).
Proof.
  intros Ho Hd Hi. apply (hset_ok h L); [done|]. intros b. right.
  destruct (decide (b = d + i)) as [->|Hne]; [left; exists d, n; split; [done|lia]|right; by apply ldb_stb_ne].
Qed.

Lemma pflash_read_spec s L d n sect :
  owns (cheap s) L -> L !! d = Some n -> 1024 <= n -> fl_mode (chip s) = ReadArray -> block_in sect ->
  exists h, pflash_read sect d s = Some (set_heap h s) /\ owns h L /\ (forall k, room (cheap s) k -> room h k) /\
    (forall i, 0 <= i < 1024 -> ldb (hmem h) (d + i) = fl_data (chip s) (sect * 1024 + i)) /\
    (forall b, b < d \/ d + 1024 <= b -> ldb (hmem h) b = ldb (cmem s) b).
Proof.
  intros Ho Hd Hn Hm Hs. unfold pflash_read.
  pose (I := fun i s' => exists h, s' = set_heap h s /\ owns h L /\ (forall k, room (cheap s) k -> room h k) /\
    (forall j, 0 <= j < i -> ldb (hmem h) (d + j) = fl_data (chip s) (sect * 1024 + j)) /\
    (forall b, b < d \/ d + i <= b -> ldb (hmem h) b = ldb (cmem s) b)).
  destruct (for_up_inv I (fun i s => let! '(v, s) := flash_rd (u64 (sect * BLOCK_SZ) + i) s in
     Some (set_mem (stb (cmem s) (d + i) v) s)) (Z.to_nat BLOCK_SZ) 0 s) as (s' & E & h & -> & H1 & H2 & H3 & H4).
  - exists (cheap s). split_and!; [by destruct s|done|done|lia|done].
  - intros i s' Hi (h & -> & H1 & H2 & H3 & H4). change (0 + Z.of_nat (Z.to_nat BLOCK_SZ)) with 1024 in Hi.
    unfold flash_rd. rewrite flash_in_block by done. cbn [chip set_heap]. rewrite fl_read_array by done.
    rewrite bind_Some. eexists. split; [done|]. cbn [set_mem set_chip set_heap cheap chip bufs lists cmem].
    unfold cmem. cbn [cheap set_chip set_heap].
    destruct (store_owned h L d n i (fl_data (chip s) (u64 (sect * BLOCK_SZ) + i)) H1 Hd ltac:(lia)) as [S1 S2].
    eexists. split; [done|]. split_and!; [done|eauto| |].
    + intros j Hj. rewrite hset_mem, ldb_stb. destruct (Z.eqb_spec (d + j) (d + i)).
      * rewrite block_base by done. replace j with i by lia. apply wrap_small, fl_data_range.
      * apply H3. lia.
    + intros b Hb. rewrite hset_mem, ldb_stb_ne by lia. apply H4. lia.
  - exists h. by split_and!.
Qed.

Definition writable f : Prop := fl_mode f = ReadArray \/ exists n, fl_mode f = Status n.

Lemma write_byte_spec s o v :
  flash_in o = true -> writable (chip s) -> 0 <= v < 256 ->
  exists f, pflash_write_byte o v s = Some (set_chip f s) /\ (exists n, fl_mode f = Status n) /\
    forall a, fl_data f a = if a =? o then v else fl_data (chip s) a.
Proof.
  intros Ho Hw Hv. unfold pflash_write_byte, flash_wr. rewrite Ho, bind_Some. change CMD_WR with 16.
  destruct (fl_setup (chip s) o Hw) as [M1 D1]. cbn [chip set_chip].
  destruct (fl_program _ o v M1 Hv) as [M2 D2]. eexists. split; [done|]. split; [done|].
  intros a. rewrite D2. by zcase.
Qed.

Lemma pflash_wait_spec n s :
  fl_mode (chip s) = Status n ->
  exists f, (forall fuel, (n < fuel)%nat -> pflash_wait fuel s = Some (set_chip f s)) /\ fl_mode f = Status O /\
    forall a, fl_data f a = fl_data (chip s) a.
Proof.
  revert s. induction n as [|n IH]; intros s Hm;
    destruct (fl_status (chip s) CMD_STATE_REG _ Hm) as (r & f & E & D & T & M).
  - exists f. split_and!; [|done|done]. intros [|fuel] Hf; [lia|]. cbn [pflash_wait].
    unfold flash_rd. change (flash_in CMD_STATE_REG) with true. cbn beta iota. by rewrite E, bind_Some, sr_7_test, T.
  - destruct (IH (set_chip f s) M) as (f' & E' & M' & D'). exists f'. split_and!; [|done|].
    + intros [|fuel] Hf; [lia|]. cbn [pflash_wait]. unfold flash_rd. change (flash_in CMD_STATE_REG) with true.
      cbn beta iota. rewrite E, bind_Some, sr_7_test, T. cbn [negb]. apply E'. lia.
    + intros a. rewrite D'. apply D.
Qed.

(** The reads the chip needs after the last byte is unknown beforehand. *)
Lemma pflash_write_spec s d sect :
  fl_mode (chip s) = ReadArray -> block_in sect ->
  exists f n, (forall fuel, (n < fuel)%nat -> pflash_write fuel sect d s = Some (1024, set_chip f s)) /\
    fl_mode f = ReadArray /\
    forall a, fl_data f a = if (sect * 1024 <=? a) && (a <? sect * 1024 + 1024)
                            then ldb (cmem s) (d + (a - sect * 1024)) else fl_data (chip s) a.
Proof.
  intros Hm Hs. unfold pflash_write.
  pose (I := fun i s' => exists f, s' = set_chip f s /\ (if i =? 0 then fl_mode f = ReadArray else exists n, fl_mode f = Status n) /\
    forall a, fl_data f a = if (sect * 1024 <=? a) && (a <? sect * 1024 + i)
                            then ldb (cmem s) (d + (a - sect * 1024)) else fl_data (chip s) a).
  destruct (for_up_inv I (fun i s => pflash_write_byte (u64 (sect * BLOCK_SZ) + i) (ldb (cmem s) (d + i)) s)
    (Z.to_nat BLOCK_SZ) 0 s) as (s' & E & f & -> & [n M] & D).
  - exists (chip s). split_and!; [by destruct s|done|]. intros a. by zcases.
  - intros i s' Hi (f & -> & M & D). change (0 + Z.of_nat (Z.to_nat BLOCK_SZ)) with 1024 in Hi.
    destruct (write_byte_spec (set_chip f s) (u64 (sect * BLOCK_SZ) + i) (ldb (cmem s) (d + i)))
      as (f' & E & M' & D'); [by apply flash_in_block| |apply ldb_range|].
    { cbn. destruct (Z.eqb_spec i 0); [by left|by right]. }
    eexists. split; [exact E|]. exists f'. split_and!; [done|zcase; [lia|done]|].
    intros a. rewrite D', block_base by done. cbn [chip set_chip].
    destruct (Z.eqb_spec a (sect * 1024 + i)) as [->|]; [|rewrite D; zcases; done].
    zcases. f_equal. lia.
  - destruct (pflash_wait_spec n (set_chip f s) M) as (f1 & E1 & M1 & D1).
    destruct (fl_array f1 0 O M1) as [M2 D2]. exists (fl_write 0 CMD_WR_END f1), n. split_and!; [|done|].
    + intros fuel Hf. rewrite E, bind_Some, E1, bind_Some by done. done.
    + intros a. unfold CMD_WR_END. change 0xff with 255. rewrite D2, D1. apply D.
Qed.
End Transfer.

(** ** The invariant of the cache *)

(** Storable stays storable as the heap grows. *)
Lemma storable_insert `{BlockHeap A} (L : gmap Z Z) x a n : L !! a = None -> storable L x -> storable (<[a := n]> L) x.
Proof.
  intros Hn [Hx|(b & t & Hb & Hx)]; [by left|right]. exists b, t. split; [|done].
  rewrite lookup_insert_ne; [done|congruence].
Qed.

Section Cache.
Context {A F : Type} {HO : HeapOps A} {H : BlockHeap A} {H0 : FlashDevice F}.
Variable bh_head : Z.
Implicit Types (s : cache A F) (L : gmap Z Z) (h : A) (f : F) (p d blk bd : Z) (b : buffer_head).
Implicit Types (bl : list (Z * buffer_head)).

(** The static list head is outside the heap. *)
Definition head_static : Prop := forall h L a n, owns h L -> L !! a = Some n -> bh_head < a \/ a + n <= bh_head.

Definition lrus bl : list Z := map (fun pb => bh_lru pb.1) bl.
Definition blocks bl : list Z := map fst bl ++ map (fun pb => data pb.2) bl.

(** [bl] are the cached buffers, the most recent first; headers and contents are
    distinct heap blocks. *)
Record cache_ok s L bl : Prop := {
  ck_list : dlist (lists s) bh_head (lrus bl);
  ck_bufs : Forall (fun pb => bufs s !! pb.1 = Some pb.2 /\ (exists n, L !! pb.1 = Some n /\ 48 <= n < 512) /\
                              exists m, L !! data pb.2 = Some m /\ 1024 <= m) bl;
  ck_own : NoDup (blocks bl);
  ck_heap : owns (cheap s) L;
  ck_chip : fl_mode (chip s) = ReadArray }.

Lemma blocks_owned s L bl a : cache_ok s L bl -> a ∈ blocks bl -> exists n, L !! a = Some n.
Proof.
  intros Hc Ha. pose proof (ck_bufs _ _ _ Hc) as Hb. rewrite Forall_forall in Hb. unfold blocks in Ha.
  apply elem_of_app in Ha as [(x & -> & Hx)%list_elem_of_fmap|(x & -> & Hx)%list_elem_of_fmap];
    destruct (Hb x Hx) as (_ & (n & Hn & _) & m & Hm & _); eauto.
Qed.

Lemma lrus_in bl a : a ∈ lrus bl -> exists p, a = bh_lru p /\ p ∈ map fst bl.
Proof.
  intros (x & -> & Hx)%list_elem_of_fmap. exists x.1. split; [done|]. by apply list_elem_of_fmap_2.
Qed.

Lemma bread_spec s L bl bd blk n :
  head_static -> cache_ok s L bl -> room (cheap s) (4 + n) -> block_in blk ->
  exists p d np nd s', bread bh_head bd blk s = Some (p, s') /\
    L !! p = None /\ L !! d = None /\ p <> d /\
    cache_ok s' (<[d := nd]> (<[p := np]> L)) ((p, {| b_state := BH_Uptodate; data := d; b_bd := bd; blk_no := blk |}) :: bl) /\
    room (cheap s') n /\
    bufs s' = <[p := {| b_state := BH_Uptodate; data := d; b_bd := bd; blk_no := blk |}]> (bufs s) /\ chip s' = chip s /\
    (forall i, 0 <= i < 1024 -> ldb (cmem s') (d + i) = fl_data (chip s) (blk * 1024 + i)) /\
    (forall x, storable L x -> ldb (cmem s') x = ldb (cmem s) x /\ ~ (d <= x < d + nd) /\ ~ (p <= x < p + np)) /\
    (forall q, q ∉ bh_lru p :: bh_head :: lrus bl -> lists s' !! q = lists s !! q).
Proof.
  intros Hst Hck Hr Hin. pose proof Hck as [Hl Hb Hown Ho Hm]. unfold bread.
  destruct (halloc_ok (cheap s) L sizeof_buffer_head (2 + n) Ho Hr ltac:(done))
    as (p & np & h1 & -> & Hp1 & Hp2 & Hpn & Hnp & Hlp & Hdp & Ho1 & Hr1 & Hk1). rewrite bind_Some.
  destruct (halloc_ok h1 _ BLOCK_SZ n Ho1 Hr1 ltac:(done))
    as (d & nd & h2 & -> & Hd1 & Hd2 & Hdn & Hnd & Hld & Hdd & Ho2 & Hr2 & Hk2). rewrite bind_Some.
  apply lookup_insert_None in Hdn as [Hdn Hpd].
  destruct (pflash_read_spec (set_heap h2 s) _ d nd blk Ho2 (lookup_insert_eq _ _ _)) as (h3 & -> & Ho3 & Hr3 & Hrd & Hkeep);
    [unfold BLOCK_SZ in Hld; lia|done|done|]. rewrite bind_Some.
  cbn [set_heap set_bufs cheap chip bufs lists].
  assert (Hfresh : bh_lru p ∉ bh_head :: lrus bl).
  { intros [E|Hi]%elem_of_cons.
    - destruct (Hst h1 _ p np Ho1 (lookup_insert_eq _ _ _)); unfold bh_lru, sizeof_buffer_head in *; lia.
    - apply lrus_in in Hi as (q & E & Hq). assert (q = p) as -> by (unfold bh_lru in E; lia).
      destruct (blocks_owned s L bl p Hck) as [x Hx]; [unfold blocks; rewrite elem_of_app; by left|]. congruence. }
  destruct (dlist_add (<[bh_lru p := {| prev := NULL; next := NULL |}]> (lists s)) bh_head (lrus bl) (bh_lru p))
    as (l & -> & Hl' & _ & Hlf).
  - apply (dlist_frame (lists s)); [done|]. intros a Ha. rewrite lookup_insert_ne; [done|]. by intros <-.
  - rewrite lookup_insert_eq. eauto.
  - done.
  - rewrite bind_Some. exists p, d, np, nd. eexists. split; [done|]. split_and!; try done.
    + split; cbn [set_lists set_bufs set_heap lists bufs cheap chip lrus map]; [done| | |done|done].
      * apply Forall_cons. cbn [fst snd data]. split.
        { split; [by rewrite lookup_insert_eq|]. split; [exists np|exists nd].
          - rewrite lookup_insert_ne, lookup_insert_eq by congruence. split; [done|unfold sizeof_buffer_head in Hlp; lia].
          - rewrite lookup_insert_eq. split; [done|unfold BLOCK_SZ in Hld; lia]. }
        apply (Forall_impl _ _ _ Hb). intros [q b] (H1 & (x & H2 & H3) & y & H4 & H5). cbn [fst snd] in *.
        assert (q <> p) by congruence. assert (q <> d) by congruence.
        assert (data b <> p) by congruence. assert (data b <> d) by congruence.
        rewrite !lookup_insert_ne by congruence. split; [done|]. split; [by exists x|by exists y].
      * unfold blocks. cbn [map fst snd data]. rewrite <- app_comm_cons, <- Permutation_middle.
        assert (forall a, L !! a = None -> a ∉ map fst bl ++ map (fun pb => data pb.2) bl).
        { intros a Ha Hi. destruct (blocks_owned s L bl a Hck Hi). congruence. }
        apply NoDup_cons. split; [|apply NoDup_cons; split; [by auto|done]].
        rewrite elem_of_cons. intros [->|Hi]; [done|]. by apply (H1 p).
    + cbn. by apply Hr3.
    + intros x Hx. pose proof (lookup_insert_eq (<[p := np]> L) d nd) as Ld.
      assert (Lp : <[d := nd]> (<[p := np]> L) !! p = Some np) by (rewrite lookup_insert_ne, lookup_insert_eq by congruence; done).
      assert (Hx1 : storable (<[p := np]> L) x) by (by apply storable_insert).
      assert (Hsep : ~ (d <= x < d + nd) /\ ~ (p <= x < p + np)).
      { destruct (owns_range _ _ _ _ Ho2 Ld) as (_ & _ & _ & Ad). destruct (owns_range _ _ _ _ Ho2 Lp) as (_ & _ & _ & Ap).
        destruct Hx as [Hx|(a & t & Ha & Hx)]; [split; intros Hr0; [by apply Hx, Ad|by apply Hx, Ap]|].
        assert (a <> d) by congruence. assert (a <> p) by congruence.
        assert (La : <[d := nd]> (<[p := np]> L) !! a = Some t) by (rewrite !lookup_insert_ne by congruence; done).
        destruct (owns_disjoint _ _ _ _ _ _ Ho2 Ld La ltac:(done)), (owns_disjoint _ _ _ _ _ _ Ho2 Lp La ltac:(done)); lia. }
      split; [|done]. unfold cmem. cbn [cheap set_lists set_bufs set_heap].
      rewrite Hkeep by (unfold BLOCK_SZ in Hld; lia). unfold cmem. cbn [cheap set_heap].
      rewrite Hk2 by exact Hx1. by apply Hk1.
    + intros q Hq. cbn [set_lists set_bufs set_heap lists]. rewrite Hlf; [|set_solver]. rewrite lookup_insert_ne; [done|set_solver].
Qed.

Lemma lrus_app bl1 bl2 : lrus (bl1 ++ bl2) = lrus bl1 ++ lrus bl2.
Proof. apply map_app. Qed.

Lemma blocks_mid bl1 p b bl2 : blocks (bl1 ++ (p, b) :: bl2) ≡ₚ p :: data b :: blocks (bl1 ++ bl2).
Proof.
  unfold blocks. rewrite !map_app. cbn [map fst snd]. rewrite <- !app_assoc. cbn [app].
  rewrite <- Permutation_middle. apply perm_skip.
  rewrite !app_assoc. rewrite <- Permutation_middle. by rewrite <- !app_assoc.
Qed.

(** The headers of the other buffers stay, so does the cache around them. *)
Lemma brelse_spec s L bl1 p b bl2 :
  cache_ok s L (bl1 ++ (p, b) :: bl2) -> (b_state b = BH_Dirty -> block_in (blk_no b)) ->
  exists s' n, (forall fuel, (n < fuel)%nat -> brelse fuel p s = Some s') /\ (b_state b <> BH_Dirty -> n = O) /\
    cache_ok s' (delete p (delete (data b) L)) (bl1 ++ bl2) /\
    (forall k, room (cheap s) k -> room (cheap s') k) /\
    bufs s' = delete p (bufs s) /\
    (forall a, fl_data (chip s') a =
       if (b_state b =? BH_Dirty) && ((blk_no b * 1024 <=? a) && (a <? blk_no b * 1024 + 1024))
       then ldb (cmem s) (data b + (a - blk_no b * 1024)) else fl_data (chip s) a) /\
    (forall x, storable (delete p (delete (data b) L)) x -> ldb (cmem s') x = ldb (cmem s) x) /\
    (forall q, q ∉ bh_head :: bh_lru p :: lrus (bl1 ++ bl2) -> lists s' !! q = lists s !! q) /\
    (b_state b <> BH_Dirty -> chip s' = chip s).
Proof.
  intros Hck Hdirty. pose proof Hck as [Hl Hb Hown Ho Hm]. unfold brelse.
  apply Forall_mid in Hb as [(Ep & (np & Hnp & Hnp1) & nd & Hnd & Hnd1) Hb]. cbn [fst snd] in *.
  rewrite blocks_mid in Hown. apply NoDup_cons in Hown as [Hp [Hd Hrest]%NoDup_cons].
  assert (Hpd : p <> data b) by (intros E; apply Hp; rewrite elem_of_cons; by left).
  assert (Hp' : p ∉ blocks (bl1 ++ bl2)) by (intros Hi; apply Hp; rewrite elem_of_cons; by right).
  assert (exists f n, (forall fuel, (n < fuel)%nat ->
      (if b_state b =? BH_Dirty then let! '(_, s) := pflash_write fuel (blk_no b) (data b) s in Some s else Some s) = Some (set_chip f s)) /\
    (b_state b <> BH_Dirty -> n = O /\ f = chip s) /\
    fl_mode f = ReadArray /\
    forall a, fl_data f a = if (b_state b =? BH_Dirty) && ((blk_no b * 1024 <=? a) && (a <? blk_no b * 1024 + 1024))
       then ldb (cmem s) (data b + (a - blk_no b * 1024)) else fl_data (chip s) a) as (f & n & E & Hn0 & Mf & Df).
  { destruct (Z.eqb_spec (b_state b) BH_Dirty) as [Eb|_]; cbn [andb].
    - destruct (pflash_write_spec s (data b) (blk_no b) Hm (Hdirty Eb)) as (f & n & E & Mf & Df). exists f, n.
      split_and!; [|done|done|done]. intros fuel Hf. by rewrite E.
    - exists (chip s), O. split_and!; [by destruct s|done|done|done]. }
  destruct (hfree_ok (cheap s) L (data b) nd Ho Hnd ltac:(apply reusable_ok; lia)) as (h1 & Eh1 & Ho1 & Hr1 & Hk1).
  rewrite lrus_app in Hl. cbn [lrus map fst] in Hl.
  destruct (dlist_del (lists s) bh_head (lrus bl1) (bh_lru p) (lrus bl2) Hl) as (l & El & Hl' & _ & _ & Hlf).
  destruct (hfree_ok h1 (delete (data b) L) p np Ho1) as (h2 & Eh2 & Ho2 & Hr2 & Hk2);
    [by rewrite lookup_delete_ne by congruence|apply reusable_ok; lia|].
  exists (set_bufs (delete p (bufs s)) (set_lists l (set_heap h2 (set_chip f s)))), n. split_and!.
  - intros fuel Hf. rewrite Ep, bind_Some, (E fuel Hf), bind_Some. cbn [cheap lists set_chip bufs].
    rewrite Eh1, bind_Some, El, bind_Some, Eh2, bind_Some. done.
  - intros Hd0. apply (Hn0 Hd0).
  - split; cbn [set_bufs set_lists set_heap set_chip lists bufs cheap chip]; [by rewrite lrus_app| |done|done|done].
    apply Forall_forall. intros [q c] Hq. rewrite Forall_forall in Hb.
    destruct (Hb _ Hq) as (H1 & (x & H2 & H3) & y & H4 & H5). cbn [fst snd] in *.
    assert (Hqb : q ∈ blocks (bl1 ++ bl2) /\ data c ∈ blocks (bl1 ++ bl2)).
    { unfold blocks. rewrite !elem_of_app. split; [left|right];
        [by apply (list_elem_of_fmap_2 fst _ _ Hq)|by apply (list_elem_of_fmap_2 (fun pb => data pb.2) _ _ Hq)]. }
    destruct Hqb as [Hq1 Hq2].
    assert (q <> p /\ data c <> p /\ q <> data b /\ data c <> data b) as (N1 & N2 & N3 & N4).
    { split_and!; intros E0; rewrite E0 in *; contradiction. }
    rewrite !lookup_delete_ne by congruence. split; [done|]. split; [by exists x|by exists y].
  - intros k Hk. cbn. by apply Hr2, Hr1.
  - done.
  - done.
  - intros x Hx. unfold cmem. cbn [set_bufs set_lists set_heap set_chip cheap].
    destruct (owns_range _ _ _ _ Ho Hnp) as (_ & _ & _ & Ap). destruct (owns_range _ _ _ _ Ho Hnd) as (_ & _ & _ & Ad).
    assert (~ (p <= x < p + np) /\ ~ (data b <= x < data b + nd)).
    { destruct Hx as [Hx|(a & t & Ha & Hx)]; [split; intros Hr0; [by apply Hx, Ap|by apply Hx, Ad]|].
      apply lookup_delete_Some in Ha as [Hap [Had Ha]%lookup_delete_Some].
      destruct (owns_disjoint _ _ _ _ _ _ Ho Hnp Ha Hap), (owns_disjoint _ _ _ _ _ _ Ho Hnd Ha Had); lia. }
    rewrite Hk2 by lia. apply Hk1. lia.
  - intros q Hq. cbn [set_bufs set_lists set_heap set_chip lists]. apply Hlf. rewrite lrus_app in Hq. set_solver.
  - intros Hd0. apply (Hn0 Hd0).
Qed.

Lemma lrus_size s L bl : cache_ok s L bl -> (length (lrus bl) < size (lists s))%nat.
Proof.
  intros [[Hnd Hc] _ _ _ _]. apply NoDup_cons in Hnd as Hnd'. destruct Hnd' as [Hh Hnd'].
  rewrite <- size_dom. enough (length (bh_head :: lrus bl) <= size (dom (lists s)))%nat as Hle by (cbn in Hle; lia).
  rewrite <- (size_list_to_set (C := gset Z) (bh_head :: lrus bl)) by done. apply subseteq_size.
  intros a Ha%elem_of_list_to_set. apply elem_of_dom. eapply dlist_dom; [split; [exact Hnd|exact Hc]|done].
Qed.

(** The search finds the first cached buffer of the block. *)
Lemma find_buf_spec s L bl1 bl2 bd blk fuel :
  cache_ok s L (bl1 ++ bl2) -> (length bl2 < fuel)%nat ->
  find_buf bh_head fuel bd blk (hd bh_head (lrus bl2)) s =
  Some (fst <$> find (fun pb => (blk_no pb.2 =? blk) && (b_bd pb.2 =? bd)) bl2).
Proof.
  revert bl1 fuel. induction bl2 as [|[p b] bl2 IH]; intros bl1 fuel Hck Hf; (destruct fuel as [|fuel]; [lia|]);
    cbn [find_buf lrus map hd fst find].
  - by rewrite Z.eqb_refl.
  - pose proof (ck_list _ _ _ Hck) as Hl. pose proof (ck_bufs _ _ _ Hck) as Hb.
    apply Forall_mid in Hb as [(Ep & _) _]. cbn [fst snd] in *.
    destruct (Z.eqb_spec (bh_lru p) bh_head) as [E|_].
    { destruct Hl as [[Hn _]%NoDup_cons _]. rewrite lrus_app in Hn. cbn in Hn. rewrite E in Hn. set_solver. }
    replace (bh_entry (bh_lru p)) with p by (unfold bh_entry, bh_lru; lia). rewrite Ep, bind_Some. case_match; [done|].
    rewrite lrus_app in Hl. cbn [lrus map fst] in Hl. rewrite (dlist_next _ _ _ _ _ Hl), bind_Some.
    cbn [length] in Hf. apply (IH (bl1 ++ [(p, b)])); [by rewrite <- app_assoc|lia].
Qed.

Lemma get_blk_eq s L bl bd blk :
  cache_ok s L bl ->
  get_blk bh_head bd blk s =
  match find (fun pb => (blk_no pb.2 =? blk) && (b_bd pb.2 =? bd)) bl with
  | Some (p, _) => Some (p, s)
  | None => bread bh_head bd blk s
  end.
Proof.
  intros Hck. unfold get_blk. rewrite (dlist_next_head _ _ _ (ck_list _ _ _ Hck)), bind_Some.
  rewrite (find_buf_spec s L [] bl bd blk _ Hck), bind_Some.
  - by destruct (find _ bl) as [[p b]|].
  - pose proof (lrus_size s L bl Hck) as Hs. unfold lrus in Hs. rewrite length_map in Hs. lia.
Qed.

(** No cached buffer holds the block. *)
Definition uncached bl bd blk : Prop := Forall (fun pb => ~ (blk_no pb.2 = blk /\ b_bd pb.2 = bd)) bl.

Lemma uncached_find bl bd blk :
  uncached bl bd blk -> find (fun pb => (blk_no pb.2 =? blk) && (b_bd pb.2 =? bd)) bl = None.
Proof.
  induction 1 as [|[p b] bl Hn _ IH]; [done|]. cbn [find snd] in *.
  destruct (Z.eqb_spec (blk_no b) blk), (Z.eqb_spec (b_bd b) bd); cbn [andb]; tauto.
Qed.

Lemma mark_dirty_spec s L bl1 p b bl2 :
  cache_ok s L (bl1 ++ (p, b) :: bl2) ->
  exists s', mark_buffer_dirty p s = Some s' /\ cache_ok s' L (bl1 ++ (p, with_bstate BH_Dirty b) :: bl2) /\
    cheap s' = cheap s /\ chip s' = chip s /\ lists s' = lists s /\ bufs s' = <[p := with_bstate BH_Dirty b]> (bufs s).
Proof.
  intros Hck. pose proof Hck as [Hl Hb Hown Ho Hm]. unfold mark_buffer_dirty.
  pose proof Hb as Hb0. apply Forall_mid in Hb as [(Ep & Hn & Hd) Hb]. cbn [fst snd] in *. rewrite Ep, bind_Some.
  eexists. split; [done|]. split_and!; [|done..]. split; cbn [set_bufs lists bufs cheap chip].
  - rewrite lrus_app in *. exact Hl.
  - apply Forall_mid. cbn [fst snd]. split; [rewrite lookup_insert_eq; by split_and!|].
    apply Forall_forall. intros [q c] Hq. rewrite Forall_forall in Hb. destruct (Hb _ Hq) as (H1 & H2 & H3). cbn [fst snd] in *.
    split_and!; [|done|done]. rewrite lookup_insert_ne; [done|]. intros ->.
    rewrite blocks_mid in Hown. apply NoDup_cons in Hown as [Hp _]. apply Hp. rewrite elem_of_cons. right.
    unfold blocks. rewrite elem_of_app. left. by apply (list_elem_of_fmap_2 fst _ _ Hq).
  - rewrite blocks_mid in *. exact Hown.
  - done.
  - done.
Qed.

(** C27: Releasing a dirty buffer and asking for its block again gives a buffer with
    the same contents, and no other block of the device has changed. *)
Theorem write_back_roundtrip s L bl1 p b bl2 n :
  head_static -> cache_ok s L (bl1 ++ (p, b) :: bl2) -> b_state b = BH_Dirty -> block_in (blk_no b) ->
  uncached (bl1 ++ bl2) (b_bd b) (blk_no b) -> room (cheap s) (4 + n) ->
  exists s1 n0, (forall fuel, (n0 < fuel)%nat -> brelse fuel p s = Some s1) /\
    (forall a, a < blk_no b * 1024 \/ blk_no b * 1024 + 1024 <= a -> fl_data (chip s1) a = fl_data (chip s) a) /\
    exists q c s2, get_blk bh_head (b_bd b) (blk_no b) s1 = Some (q, s2) /\ bufs s2 !! q = Some c /\
      blk_no c = blk_no b /\ b_state c = BH_Uptodate /\
      (forall i, 0 <= i < 1024 -> ldb (cmem s2) (data c + i) = ldb (cmem s) (data b + i)).
Proof.
  intros Hst Hck Hd Hb Hu Hr.
  destruct (brelse_spec s L bl1 p b bl2 Hck (fun _ => Hb)) as (s1 & n0 & E & _ & Hck1 & Hr1 & _ & Df & _).
  rewrite Hd in Df. cbn [Z.eqb BH_Dirty andb] in Df. exists s1, n0. split_and!; [done| |].
  { intros a Ha. rewrite Df. by zcases. }
  rewrite (get_blk_eq s1 _ _ _ _ Hck1), uncached_find by done.
  destruct (bread_spec s1 _ _ (b_bd b) (blk_no b) n Hst Hck1 (Hr1 _ Hr) Hb)
    as (q & d & nq & nd & s2 & -> & _ & _ & _ & _ & _ & Eb & _ & Hrd & _).
  exists q. eexists. exists s2. split_and!; [done|rewrite Eb; apply lookup_insert_eq|done|done|].
  intros i Hi. cbn [data]. rewrite Hrd, Df by done. zcases. f_equal. lia.
Qed.
End Cache.

(** ** A concrete chip and a concrete cache *)

Record board_flash := { bf_data : gmap Z Z; bf_mode : flash_mode }.
Definition bf_byte (f : board_flash) (o : Z) : Z := u8 (default 0 (bf_data f !! o)).
Definition bf_read (o : Z) (f : board_flash) : Z * board_flash :=
  match bf_mode f with
  | ReadArray => (bf_byte f o, f)
  | ProgramSetup => (0, f)
  | Status O => (128, f)
  | Status (S n) => (0, {| bf_data := bf_data f; bf_mode := Status n |})
  end.
Definition bf_write (o v : Z) (f : board_flash) : board_flash :=
  match bf_mode f with
  | ProgramSetup => {| bf_data := <[o := v]> (bf_data f); bf_mode := Status 2 |}
  | _ => if v =? 16 then {| bf_data := bf_data f; bf_mode := ProgramSetup |}
         else if v =? 255 then {| bf_data := bf_data f; bf_mode := ReadArray |} else f
  end.

#[export] Instance board_flash_device : FlashDevice board_flash.
Proof.
  refine {| fl_read := bf_read; fl_write := bf_write; fl_data := bf_byte; fl_mode := bf_mode |}.
  - intros f o. by apply wrap_range.
  - intros f o E. unfold bf_read. by rewrite E.
  - intros f o [E|[n E]]; unfold bf_write; rewrite E; done.
  - intros f o v E Hv. unfold bf_write. rewrite E. split; [by exists 2%nat|]. intros a. unfold bf_byte. cbn [bf_data].
    destruct (Z.eqb_spec a o) as [->|]; [rewrite lookup_insert_eq; by apply wrap_small|by rewrite lookup_insert_ne].
  - intros f o n E. unfold bf_read. rewrite E. destruct n as [|n]; eexists _, _; (split; [done|split; [done|]]); done.
  - intros f o n E. unfold bf_write. rewrite E. done.
Defined.

(** The state at boot: an empty cache on an erased chip. *)
Definition bh_head0 : Z := 0xffff0000000a0000.
Definition cache_boot : cache kheap board_flash :=
  {| cheap := kheap_boot; chip := {| bf_data := ∅; bf_mode := ReadArray |}; bufs := ∅;
     lists := {[ bh_head0 := {| prev := bh_head0; next := bh_head0 |} ]} |}.

Lemma head_static0 : head_static (A := kheap) bh_head0.
Proof.
  intros h L a n Ho HL. left. destruct (owns_range h L a n Ho HL) as (_ & Hn & _ & Ha).
  destruct (Ha a ltac:(lia)) as [Hlo _]. unfold page_va, bh_head0 in *. lia.
Qed.

Lemma cache_boot_ok : cache_ok bh_head0 cache_boot ∅ [].
Proof.
  split; [split; [apply NoDup_singleton|split; reflexivity]|constructor|constructor|exact kheap_boot_inv|done].
Qed.

Lemma room_boot n : (n <= 3840)%nat -> room (cheap cache_boot) n.
Proof. apply phys_init_free_ge. Qed.

(** One dirty buffer, of block 5. *)
Lemma cache_dirty : exists (s : cache kheap board_flash) L p b, cache_ok bh_head0 s L [(p, b)] /\ b_state b = BH_Dirty /\ blk_no b = 5 /\ room (cheap s) 4.
Proof.
  destruct (bread_spec bh_head0 cache_boot ∅ [] 7 5 4 head_static0 cache_boot_ok (room_boot 8 ltac:(lia)) ltac:(split; done))
    as (p & d & np & nd & s & _ & _ & _ & _ & Hck & Hr & _).
  destruct (mark_dirty_spec bh_head0 s _ [] p _ [] Hck) as (s' & _ & Hck' & Eh & _).
  exists s'. eexists _, p, _. split; [exact Hck'|]. cbn [b_state blk_no with_bstate]. rewrite Eh. done.
Qed.

Example write_back_roundtrip_witness :
  exists (s s1 : cache kheap board_flash) n0 p, forall fuel, (n0 < fuel)%nat -> brelse fuel p s = Some s1.
Proof.
  destruct cache_dirty as (s & L & p & b & Hck & Hd & Hb & Hr).
  destruct (write_back_roundtrip bh_head0 s L [] p b [] 0 head_static0 Hck Hd) as (s1 & n0 & E & _).
  - rewrite Hb. split; done.
  - constructor.
  - exact Hr.
  - exists s, s1, n0, p. exact E.
Defined.
