(* ===== verification/Minix.v ===== *)
(** fs/minix_fs.c and the inode part of fs/fs.c: the Minix file system on the
    buffer cache.

    [struct inode] is embedded in [struct minix_inode_info]; both are one object
    of the typed heap [inodes], by the address of the [struct inode].  Freed
    objects leave the typed heaps, so that using them is a fault.  The i_op and
    s_op pointers are which static table they point to; calling an operation the
    table does not have is a call through NULL.  On-disk structures are read from
    and written to the bytes of a buffer, little-endian. *)

From S2P Require Import Prelude Mem Lib DList Page Kmalloc Heap Buffer.
Local Open Scope Z_scope.

(** ** Constants and data *)

Definition S_IFMT : Z := 0xf000.
Definition S_IFREG : Z := 0x8000.
Definition S_IFDIR : Z := 0x4000.
Definition S_ISREG (m : Z) : bool := Z.land m S_IFMT =? S_IFREG.
Definition S_ISDIR (m : Z) : bool := Z.land m S_IFMT =? S_IFDIR.
Definition I_NEW : Z := 8.
Definition MINIX_SB_OFFSET : Z := 1.
Definition MINIX_ROOT_INO : Z := 1.
Definition NAME_LEN : Z := 30.
Definition BLK_NO_SZ : Z := 2.
(** [sizeof(struct minix_inode)] and [sizeof(struct dir_entry)]. *)
Definition I_SZ : Z := 32.
Definition sizeof_dir_entry : Z := 32.
Definition MINIX_INODES_PER_BLOCK : Z := BLOCK_SZ / I_SZ.
Definition DIR_PER_BLK : Z := BLOCK_SZ / sizeof_dir_entry.

Inductive inode_operations := NoOps | FileOps | DirOps.

Record inode := {
  i_mode : Z; i_uid : Z; i_gid : Z; i_size : Z; i_atime : Z; i_mtime : Z; i_ctime : Z; i_state : Z; i_nlink : Z;
  i_ino : Z; i_op : inode_operations; i_sb : Z; i_count : Z;
  (** [i_data] of the enclosing [struct minix_inode_info]. *)
  i_data : list Z }.
Definition sizeof_minix_inode_info : Z := 152.
(** [offsetof(struct minix_inode_info, vfs_inode)], [offsetof(struct inode, list)]. *)
Definition vfs_inode (mi : Z) : Z := mi + 32.
Definition minix_i (p : Z) : Z := p - 32.
Definition inode_list (p : Z) : Z := p + 80.
Definition inode_entry (pos : Z) : Z := pos - 80.

Inductive super_operations := NoSuperOps | MinixSops.
Record super_block := { s_op : super_operations; sb_bd : Z; s_fs_info : Z }.
Definition sizeof_super_block : Z := 40.
Definition s_inodes (sb : Z) : Z := sb + 24.

Record minix_sb_info := {
  s_ninodes : Z; s_nzones : Z; s_imap_blocks : Z; s_zmap_blocks : Z; s_firstdatazone : Z; s_log_zone_size : Z;
  s_max_size : Z; s_imap : Z; s_zmap : Z; s_sbh : Z; s_ms : Z }.
Definition sizeof_minix_sb_info : Z := 88.

Record file := { f_inode : Z; f_count : Z; f_flags : Z; f_pos : Z }.

(** What the file system prints. *)
Inductive message := BadInode (ino : Z) | PutUnused | CloseUnused.

Record fsys (A F : Type) := {
  fc : cache A F; bdevs : gmap Z block_device; supers : gmap Z super_block; sbis : gmap Z minix_sb_info;
  inodes : gmap Z inode; root_bdev : Z; root_inode : Z; file_tbl : list file; cur_filp : list Z;
  messages : list message }.
#[global] Arguments fc {A F}.
#[global] Arguments bdevs {A F}.
#[global] Arguments supers {A F}.
#[global] Arguments sbis {A F}.
#[global] Arguments inodes {A F}.
#[global] Arguments root_bdev {A F}.
#[global] Arguments root_inode {A F}.
#[global] Arguments file_tbl {A F}.
#[global] Arguments cur_filp {A F}.
#[global] Arguments messages {A F}.

Section Update.
Context {A F : Type}.
Implicit Types (s : fsys A F).

Definition set_fc (c : cache A F) s : fsys A F :=
  {| fc := c; bdevs := bdevs s; supers := supers s; sbis := sbis s; inodes := inodes s; root_bdev := root_bdev s;
     root_inode := root_inode s; file_tbl := file_tbl s; cur_filp := cur_filp s; messages := messages s |}.
Definition set_bdevs (m : gmap Z block_device) s : fsys A F :=
  {| fc := fc s; bdevs := m; supers := supers s; sbis := sbis s; inodes := inodes s; root_bdev := root_bdev s;
     root_inode := root_inode s; file_tbl := file_tbl s; cur_filp := cur_filp s; messages := messages s |}.
Definition set_supers (m : gmap Z super_block) s : fsys A F :=
  {| fc := fc s; bdevs := bdevs s; supers := m; sbis := sbis s; inodes := inodes s; root_bdev := root_bdev s;
     root_inode := root_inode s; file_tbl := file_tbl s; cur_filp := cur_filp s; messages := messages s |}.
Definition set_sbis (m : gmap Z minix_sb_info) s : fsys A F :=
  {| fc := fc s; bdevs := bdevs s; supers := supers s; sbis := m; inodes := inodes s; root_bdev := root_bdev s;
     root_inode := root_inode s; file_tbl := file_tbl s; cur_filp := cur_filp s; messages := messages s |}.
Definition set_inodes (m : gmap Z inode) s : fsys A F :=
  {| fc := fc s; bdevs := bdevs s; supers := supers s; sbis := sbis s; inodes := m; root_bdev := root_bdev s;
     root_inode := root_inode s; file_tbl := file_tbl s; cur_filp := cur_filp s; messages := messages s |}.
Definition set_roots (b i : Z) s : fsys A F :=
  {| fc := fc s; bdevs := bdevs s; supers := supers s; sbis := sbis s; inodes := inodes s; root_bdev := b;
     root_inode := i; file_tbl := file_tbl s; cur_filp := cur_filp s; messages := messages s |}.
Definition set_file_tbl (l : list file) s : fsys A F :=
  {| fc := fc s; bdevs := bdevs s; supers := supers s; sbis := sbis s; inodes := inodes s; root_bdev := root_bdev s;
     root_inode := root_inode s; file_tbl := l; cur_filp := cur_filp s; messages := messages s |}.
Definition set_cur_filp (l : list Z) s : fsys A F :=
  {| fc := fc s; bdevs := bdevs s; supers := supers s; sbis := sbis s; inodes := inodes s; root_bdev := root_bdev s;
     root_inode := root_inode s; file_tbl := file_tbl s; cur_filp := l; messages := messages s |}.
Definition say (m : message) s : fsys A F :=
  {| fc := fc s; bdevs := bdevs s; supers := supers s; sbis := sbis s; inodes := inodes s; root_bdev := root_bdev s;
     root_inode := root_inode s; file_tbl := file_tbl s; cur_filp := cur_filp s; messages := messages s ++ [m] |}.
End Update.

Definition with_count (n : Z) (i : inode) : inode :=
  {| i_mode := i_mode i; i_uid := i_uid i; i_gid := i_gid i; i_size := i_size i; i_atime := i_atime i; i_mtime := i_mtime i;
     i_ctime := i_ctime i; i_state := i_state i; i_nlink := i_nlink i; i_ino := i_ino i; i_op := i_op i; i_sb := i_sb i;
     i_count := n; i_data := i_data i |}.

Section Minix.
Context {A F : Type} {HO : HeapOps A} {H0 : FlashDevice F}.
(** The static list head of the buffers, and what an uninitialised inode holds:
    [kmalloc] does not clear its blocks. *)
Variables (bh_head : Z) (stale_inode : Z -> inode).
Implicit Types (s : fsys A F) (fuel : nat) (p sb ino bh blk : Z).

Definition fmem s : mem := cmem (fc s).
Definition set_fmem (m : mem) s : fsys A F := set_fc (set_mem m (fc s)) s.

(** The heap and the cache operations on the whole state. *)
Definition falloc (n : Z) s : option (Z * fsys A F) :=
  let! '(a, h) := halloc n (cheap (fc s)) in Some (a, set_fc (set_heap h (fc s)) s).
Definition ffree (a : Z) s : option (fsys A F) :=
  let! h := hfree a (cheap (fc s)) in Some (set_fc (set_heap h (fc s)) s).
Definition fbread (bd blk : Z) s : option (Z * fsys A F) :=
  let! '(bh, c) := bread bh_head bd blk (fc s) in Some (bh, set_fc c s).
Definition fget_blk (bd blk : Z) s : option (Z * fsys A F) :=
  let! '(bh, c) := get_blk bh_head bd blk (fc s) in Some (bh, set_fc c s).
Definition fbrelse fuel bh s : option (fsys A F) :=
  let! c := brelse fuel bh (fc s) in Some (set_fc c s).
Definition fdirty bh s : option (fsys A F) :=
  let! c := mark_buffer_dirty bh (fc s) in Some (set_fc c s).
Definition bh_data s bh : option Z := data <$> bufs (fc s) !! bh.

(** ** Inodes *)

Definition minix_alloc_inode s : option (Z * fsys A F) :=
  let! '(ei, s) := falloc sizeof_minix_inode_info s in Some (vfs_inode ei, s).

Definition minix_destroy_inode p s : option (fsys A F) :=
  if p =? NULL then Some s
  else
    let! s := ffree (minix_i p) s in
    Some (set_inodes (delete p (inodes s)) s).

Definition get_new_inode sb ino s : option (Z * fsys A F) :=
  let! sblk := supers s !! sb in
  match s_op sblk with
  | NoSuperOps => None
  | MinixSops =>
      let! '(p, s) := minix_alloc_inode s in
      let g := stale_inode p in
      let i := {| i_mode := i_mode g; i_uid := i_uid g; i_gid := i_gid g; i_size := i_size g; i_atime := i_atime g;
                  i_mtime := i_mtime g; i_ctime := i_ctime g; i_state := I_NEW; i_nlink := i_nlink g; i_ino := ino;
                  i_op := NoOps; i_sb := sb; i_count := 1; i_data := i_data g |} in
      let! l := list_add (<[inode_list p := {| prev := NULL; next := NULL |}]> (lists (fc s))) (inode_list p) (s_inodes sb) in
      Some (p, set_inodes (<[p := i]> (inodes s)) (set_fc (set_lists l (fc s)) s))
  end.

(** [list_for_each(pos, &sb->s_inodes)] with its early return. *)
Fixpoint find_inode (n : nat) sb ino (pos : Z) s : option (option Z) :=
  match n with
  | O => None
  | S f =>
      if pos =? s_inodes sb then Some None
      else
        let p := inode_entry pos in
        let! i := inodes s !! p in
        if (i_ino i =? ino) && (i_sb i =? sb) then Some (Some p)
        else let! nx := get_next (lists (fc s)) pos in find_inode f sb ino nx s
  end.

Definition get_inode sb ino s : option (Z * fsys A F) :=
  let! nx := get_next (lists (fc s)) (s_inodes sb) in
  let! r := find_inode (S (size (lists (fc s)))) sb ino nx s in
  match r with
  | Some p =>
      let! i := inodes s !! p in
      Some (p, set_inodes (<[p := with_count (u64 (i_count i + 1)) i]> (inodes s)) s)
  | None => get_new_inode sb ino s
  end.

(** The address of the raw inode in its buffer, and the buffer; nothing for a
    number out of range. *)
Definition minix_raw_inode sb ino s : option (option (Z * Z) * fsys A F) :=
  let! sblk := supers s !! sb in
  let! sbi := sbis s !! s_fs_info sblk in
  if (ino =? 0) || (s_ninodes sbi <? ino) then Some (None, say (BadInode ino) s)
  else
    let ino := ino - 1 in
    let block := s32 (2 + s_imap_blocks sbi + s_zmap_blocks sbi + ino / MINIX_INODES_PER_BLOCK) in
    let! '(bh, s) := fbread (sb_bd sblk) (u64 block) s in
    let! d := bh_data s bh in
    Some (Some (d + I_SZ * (ino mod MINIX_INODES_PER_BLOCK), bh), s).

(** The nine zone numbers of a raw inode at [r]. *)
Definition raw_zones (m : mem) (r : Z) : list Z := map (fun i => ld16 m (r + 14 + 2 * Z.of_nat i)) (seq 0 9).

(** [i_data[0..8]] from the disk, the rest of the sixteen entries as they were. *)
Definition fill_inode (m : mem) (r : Z) (i : inode) : inode :=
  {| i_mode := ld16 m r; i_uid := ld16 m (r + 2); i_gid := ldb m (r + 12); i_size := ld32 m (r + 4);
     i_atime := ld32 m (r + 8); i_mtime := ld32 m (r + 8); i_ctime := ld32 m (r + 8);
     i_state := Z.land (i_state i) (Z.lnot I_NEW); i_nlink := i_nlink i; i_ino := i_ino i;
     i_op := if S_ISDIR (ld16 m r) then DirOps else if S_ISREG (ld16 m r) then FileOps else i_op i;
     i_sb := i_sb i; i_count := i_count i; i_data := raw_zones m r ++ drop 9 (i_data i) |}.

Definition minix_iget sb ino s : option (Z * fsys A F) :=
  if ino =? 0 then Some (NULL, s)
  else
    let! '(p, s) := get_inode sb ino s in
    let! i := inodes s !! p in
    if negb (Z.land (i_state i) I_NEW =? 0) then
      let! '(r, s) := minix_raw_inode sb ino s in
      match r with
      | None => None
      | Some (raw, _) => Some (p, set_inodes (<[p := fill_inode (fmem s) raw i]> (inodes s)) s)
      end
    else Some (p, s).

(** ** File contents *)

Definition i_zone (i : inode) (k : Z) : option Z := arr_get (i_data i) k.

(** The buffer of the block that holds byte [offset], NULL when out of range.
    The indirect entries are read through a pointer to [unsigned long]. *)
Definition inode_get_blk p (offset : Z) s : option (Z * fsys A F) :=
  let! i := inodes s !! p in
  let! sblk := supers s !! i_sb i in
  let bd := sb_bd sblk in
  let blk_offset := offset / BLOCK_SZ in
  if blk_offset <? 7 then
    let! blk := i_zone i blk_offset in fget_blk bd blk s
  else if blk_offset <? 7 + 512 then
    let! z := i_zone i 7 in
    let! '(bh, s) := fget_blk bd z s in
    let! d := bh_data s bh in
    fget_blk bd (ld64 (fmem s) (d + BLK_NO_SZ * (blk_offset - 7))) s
  else if blk_offset <? 7 + 512 + 512 * 512 then
    let! z := i_zone i 8 in
    let! '(bh, s) := fget_blk bd z s in
    let! d := bh_data s bh in
    fget_blk bd (ld64 (fmem s) (d + BLK_NO_SZ * (blk_offset - 7 - 512) / 512)) s
  else Some (NULL, s).

(** One block of directory entries from the one at [de] on: the inode number of
    the first whose name matches.  The names compared have at most [NAME_LEN]
    characters, which bounds [strcmp]. *)
Fixpoint scan_entries (n : nat) (m : mem) (name de : Z) : option (option Z) :=
  match n with
  | O => Some None
  | S n' =>
      let! c := strcmp (S (Z.to_nat NAME_LEN)) m name (de + 2) in
      if c =? 0 then Some (Some (ld16 m de)) else scan_entries n' m name (de + sizeof_dir_entry)
  end.

(** [for (offset = 0; offset < sz; offset += BLOCK_SZ)]. *)
Fixpoint lookup_from fuel p sb (name offset sz : Z) s : option (Z * fsys A F) :=
  match fuel with
  | O => None
  | S f =>
      if offset <? sz then
        let! '(bh, s) := inode_get_blk p offset s in
        let! d := bh_data s bh in
        let! r := scan_entries (Z.to_nat DIR_PER_BLK) (fmem s) name d in
        match r with
        | Some ino => minix_iget sb ino s
        | None => lookup_from f p sb name (u64 (offset + BLOCK_SZ)) sz s
        end
      else Some (NULL, s)
  end.

Definition minix_lookup fuel p (name : Z) s : option (Z * fsys A F) :=
  let! i := inodes s !! p in
  if negb (S_ISDIR (i_mode i)) then Some (NULL, s)
  else
    let! len := strlen fuel (fmem s) name in
    if NAME_LEN <? len then Some (NULL, s)
    else lookup_from (S (Z.to_nat (i_size i / BLOCK_SZ + 1))) p (i_sb i) name 0 (i_size i) s.

(** [while (chars-- > 0) *d++ = *s++]. *)
Definition copy_bytes (d src chars : Z) (m : mem) : mem :=
  loop_up (Z.to_nat chars) 0 (fun i m => stb m (d + i) (ldb m (src + i))) m.

Fixpoint read_loop n fuel p (buf pos left count : Z) s : option (Z * fsys A F) :=
  match n with
  | O => None
  | S n' =>
      if left =? 0 then Some (if negb (count - left =? 0) then count - left else -1, s)
      else
        let! '(bh, s) := inode_get_blk p (u64 pos) s in
        if bh =? NULL then Some (-1, s)
        else
          let nr := Z.rem pos BLOCK_SZ in
          let chars := Z.min (BLOCK_SZ - nr) left in
          let! d := bh_data s bh in
          let s := set_fmem (copy_bytes buf (nr + d) chars (fmem s)) s in
          let! s := fbrelse fuel bh s in
          read_loop n' fuel p (buf + Z.max 0 chars) (s32 (pos + chars)) (s32 (left - chars)) count s
  end.

Definition minix_read fuel p (buf pos count : Z) s : option (Z * fsys A F) :=
  read_loop (S (Z.to_nat count)) fuel p buf pos count count s.

Fixpoint write_loop n fuel p (buf pos left count : Z) s : option (Z * fsys A F) :=
  match n with
  | O => None
  | S n' =>
      if left =? 0 then Some (if negb (count - left =? 0) then count - left else -1, s)
      else
        let! '(bh, s) := inode_get_blk p (u64 pos) s in
        if bh =? NULL then Some (-1, s)
        else
          let nr := Z.rem pos BLOCK_SZ in
          let chars := Z.min (BLOCK_SZ - nr) left in
          let! d := bh_data s bh in
          let s := set_fmem (copy_bytes (nr + d) buf chars (fmem s)) s in
          let! s := fdirty bh s in
          let! s := fbrelse fuel bh s in
          write_loop n' fuel p (buf + Z.max 0 chars) (s32 (pos + chars)) (s32 (left - chars)) count s
  end.

Definition minix_write fuel p (buf pos count : Z) s : option (Z * fsys A F) :=
  write_loop (S (Z.to_nat count)) fuel p buf pos count count s.

(** ** Writing inodes back, dropping them *)

(** [for (i = 0; i < 9; i++) raw_inode->i_zone[i] = minix_inode->i_data[i]]. *)
Fixpoint store_zones (l : list Z) (a : Z) (m : mem) : mem :=
  match l with [] => m | z :: l' => store_zones l' (a + 2) (st16 m a z) end.

Definition store_fields (r : Z) (i : inode) (m : mem) : mem :=
  let m := st16 m r (i_mode i) in
  let m := st16 m (r + 2) (i_uid i) in
  let m := stb m (r + 12) (i_gid i) in
  let m := stb m (r + 13) (i_nlink i) in
  let m := st32 m (r + 4) (i_size i) in
  st32 m (r + 8) (i_mtime i).
Definition store_inode (r : Z) (i : inode) (m : mem) : mem :=
  store_zones (take 9 (i_data i)) (r + 14) (store_fields r i m).

Definition minix_write_inode fuel p s : option (Z * fsys A F) :=
  let! i := inodes s !! p in
  let! '(r, s) := minix_raw_inode (i_sb i) (i_ino i) s in
  match r with
  | None => Some (0, s)
  | Some (raw, bh) =>
      let s := set_fmem (store_inode raw i (fmem s)) s in
      let! s := fdirty bh s in
      let! s := fbrelse fuel bh s in
      Some (0, s)
  end.

Definition write_inode fuel p s : option (fsys A F) :=
  let! i := inodes s !! p in
  let! sblk := supers s !! i_sb i in
  match s_op sblk with
  | NoSuperOps => None
  | MinixSops => let! '(_, s) := minix_write_inode fuel p s in Some s
  end.

Definition generic_drop_inode fuel p s : option (fsys A F) :=
  let! s := write_inode fuel p s in
  minix_destroy_inode p s.

Definition put_inode fuel p s : option (Z * fsys A F) :=
  let! i := inodes s !! p in
  if i_count i =? 0 then Some (-1, say PutUnused s)
  else
    let n := u64 (i_count i - 1) in
    let s := set_inodes (<[p := with_count n i]> (inodes s)) s in
    let! s := if n =? 0 then generic_drop_inode fuel p s else Some s in
    Some (0, s).

(** ** The super block *)

(** [for (i = 0; i < n; i++) arr[i] = get_blk(sb->bd, first + i)]. *)
Definition load_map (arr bd first n : Z) s : option (fsys A F) :=
  for_up (Z.to_nat n) 0 (fun i s =>
    let! '(bh, s) := fget_blk bd (first + i) s in
    Some (set_fmem (st64 (fmem s) (arr + 8 * i) bh) s)) s.

Definition with_maps (im zm : Z) (b : minix_sb_info) : minix_sb_info :=
  {| s_ninodes := s_ninodes b; s_nzones := s_nzones b; s_imap_blocks := s_imap_blocks b; s_zmap_blocks := s_zmap_blocks b;
     s_firstdatazone := s_firstdatazone b; s_log_zone_size := s_log_zone_size b; s_max_size := s_max_size b;
     s_imap := im; s_zmap := zm; s_sbh := s_sbh b; s_ms := s_ms b |}.

Definition init_minix_bitmap sb s : option (fsys A F) :=
  let! sblk := supers s !! sb in
  let! sbi := sbis s !! s_fs_info sblk in
  let! '(im, s) := falloc (sizeof_buffer_head * s_imap_blocks sbi) s in
  let! '(zm, s) := falloc (sizeof_buffer_head * s_zmap_blocks sbi) s in
  let s := set_sbis (<[s_fs_info sblk := with_maps im zm sbi]> (sbis s)) s in
  let! s := load_map im (sb_bd sblk) (MINIX_SB_OFFSET + 1) (s_imap_blocks sbi) s in
  load_map zm (sb_bd sblk) (MINIX_SB_OFFSET + s_imap_blocks sbi + 1) (s_zmap_blocks sbi) s.

(** The fields of the on-disk super block at [d]; the two bitmap arrays are not
    set yet. *)
Definition read_super (m : mem) (d bh : Z) : minix_sb_info :=
  {| s_ninodes := ld16 m d; s_nzones := ld16 m (d + 2); s_imap_blocks := ld16 m (d + 4); s_zmap_blocks := ld16 m (d + 6);
     s_firstdatazone := ld16 m (d + 8); s_log_zone_size := ld16 m (d + 10); s_max_size := ld32 m (d + 12);
     s_imap := NULL; s_zmap := NULL; s_sbh := bh; s_ms := d |}.

Definition minix_fill_super sb s : option (Z * fsys A F) :=
  let! '(m_sbi, s) := falloc sizeof_minix_sb_info s in
  let! sblk := supers s !! sb in
  let! '(bh, s) := fget_blk (sb_bd sblk) MINIX_SB_OFFSET s in
  let! d := bh_data s bh in
  let s := set_sbis (<[m_sbi := read_super (fmem s) d bh]> (sbis s)) s in
  let s := set_supers (<[sb := {| s_op := MinixSops; sb_bd := sb_bd sblk; s_fs_info := m_sbi |}]> (supers s)) s in
  let! l := INIT_LIST_HEAD (lists (fc s)) (s_inodes sb) in
  let! s := init_minix_bitmap sb (set_fc (set_lists l (fc s)) s) in
  Some (0, s).

(** [for (i = 0; i < n; i++) brelse(arr[i])]. *)
Definition release_map fuel (arr n : Z) s : option (fsys A F) :=
  for_up (Z.to_nat n) 0 (fun i s => fbrelse fuel (ld64 (fmem s) (arr + 8 * i)) s) s.

Definition minix_put_super fuel sb s : option (fsys A F) :=
  let! sblk := supers s !! sb in
  let! sbi := sbis s !! s_fs_info sblk in
  let! s := release_map fuel (s_imap sbi) (s_imap_blocks sbi) s in
  let! s := release_map fuel (s_zmap sbi) (s_zmap_blocks sbi) s in
  let! s := fbrelse fuel (s_sbh sbi) s in
  let! s := ffree (s_imap sbi) s in
  let! s := ffree (s_zmap sbi) s in
  let s := set_supers (<[sb := {| s_op := s_op sblk; sb_bd := sb_bd sblk; s_fs_info := NULL |}]> (supers s)) s in
  let! s := ffree (s_fs_info sblk) s in
  Some (set_sbis (delete (s_fs_info sblk) (sbis s)) s).

(** The super block's list node becomes an object with the block. *)
Definition init_fs s : option (fsys A F) :=
  let! '(bd, s) := falloc sizeof_block_device s in
  let nr := u64 (sector_sz pflash * nr_sector pflash) / BLOCK_SZ in
  let! '(sb, s) := falloc sizeof_super_block s in
  let s := set_bdevs (<[bd := {| nr_blk := nr; bd_sb := sb; genhd := pflash |}]> (bdevs s)) s in
  let s := set_supers (<[sb := {| s_op := NoSuperOps; sb_bd := bd; s_fs_info := NULL |}]> (supers s)) s in
  let s := set_fc (set_lists (<[s_inodes sb := {| prev := NULL; next := NULL |}]> (lists (fc s))) (fc s)) s in
  let! '(_, s) := minix_fill_super sb (set_roots bd (root_inode s) s) in
  let! '(root, s) := minix_iget sb MINIX_ROOT_INO s in
  Some (set_roots bd root s).
End Minix.

(** ** Moving file contents *)

Lemma copy_bytes_spec (d src n : Z) (m : mem) :
  d + n <= src \/ src + n <= d ->
  forall b, ldb (copy_bytes d src n m) b = if (d <=? b) && (b <? d + n) then ldb m (src + (b - d)) else ldb m b.
Proof.
  intros Hdis. unfold copy_bytes. destruct (decide (n <= 0)) as [Hn|Hn].
  { replace (Z.to_nat n) with O by lia. intros b. cbn. zcases; done. }
  assert (Hi : forall b, ldb (loop_up (Z.to_nat n) 0 (fun i m => stb m (d + i) (ldb m (src + i))) m) b =
    if (d <=? b) && (b <? d + (0 + Z.of_nat (Z.to_nat n))) then ldb m (src + (b - d)) else ldb m b).
  { apply (loop_up_inv (fun k (m' : mem) => forall b, ldb m' b = if (d <=? b) && (b <? d + k) then ldb m (src + (b - d)) else ldb m b)).
    - intros b. zcases; done.
    - intros i m0 Hi H0 b. rewrite ldb_stb, H0. destruct (Z.eqb_spec b (d + i)) as [->|].
      + rewrite (wrap_small 8) by (case_match; apply ldb_range). zcases; try done; f_equal; lia.
      + rewrite H0. zcases; done. }
  intros b. rewrite Hi. by replace (0 + Z.of_nat (Z.to_nat n)) with n by lia.
Qed.

Section Contents.
Context {A F : Type} {HO : HeapOps A} {H : BlockHeap A} {H0 : FlashDevice F}.
Variable bh_head : Z.
Implicit Types (s : fsys A F) (c : cache A F) (L : gmap Z Z) (bl : list (Z * buffer_head)) (fuel : nat).
Implicit Types (p bd blk off buf pos left : Z) (i : inode).

(** Byte [off] of the file as it is on the device, for a file in direct blocks. *)
Definition zone_of i (k : Z) : Z := default 0 (i_zone i k).
Definition file_byte (f : F) i off : Z := fl_data f (zone_of i (off / 1024) * 1024 + off mod 1024).

(** The blocks of [off .. off+n) are direct, on the chip and not cached. *)
Definition direct bl bd i off n : Prop :=
  0 <= off /\ off + n <= 7168 /\
  forall k, off <= k < off + n ->
    i_zone i (k / 1024) = Some (zone_of i (k / 1024)) /\ block_in (zone_of i (k / 1024)) /\
    uncached bl bd (zone_of i (k / 1024)).

Lemma inode_get_blk_direct s p i sb off blk :
  inodes s !! p = Some i -> supers s !! i_sb i = Some sb -> off / 1024 < 7 ->
  i_zone i (off / 1024) = Some blk ->
  inode_get_blk bh_head p off s = fget_blk bh_head (sb_bd sb) blk s.
Proof.
  intros Hi Hs Ho Hz. unfold inode_get_blk. rewrite Hi, bind_Some, Hs, bind_Some.
  change BLOCK_SZ with 1024. cbn zeta. zcase; [|lia]. by rewrite Hz, bind_Some.
Qed.

(** A block that is not cached gets a new buffer with its contents. *)
Lemma fget_blk_new s L bl bd blk n :
  head_static (A := A) bh_head -> cache_ok bh_head (fc s) L bl -> uncached bl bd blk -> block_in blk ->
  room (cheap (fc s)) (4 + n) ->
  exists q d nq nd c b, fget_blk bh_head bd blk s = Some (q, set_fc c s) /\ q <> NULL /\
    b = {| b_state := BH_Uptodate; data := d; b_bd := bd; blk_no := blk |} /\
    L !! q = None /\ L !! d = None /\ q <> d /\ 1024 <= nd /\
    cache_ok bh_head c (<[d := nd]> (<[q := nq]> L)) ((q, b) :: bl) /\ bufs c !! q = Some b /\ room (cheap c) n /\
    chip c = chip (fc s) /\
    (forall j, 0 <= j < 1024 -> ldb (cmem c) (d + j) = fl_data (chip (fc s)) (blk * 1024 + j)) /\
    (forall x, storable L x -> ldb (cmem c) x = ldb (fmem s) x /\ ~ (d <= x < d + nd) /\ ~ (q <= x < q + nq)).
Proof.
  intros Hst Hck Hu Hin Hr. unfold fget_blk. rewrite (get_blk_eq bh_head _ _ _ _ _ Hck), uncached_find by done.
  destruct (bread_spec bh_head (fc s) L bl bd blk n Hst Hck Hr Hin)
    as (q & d & nq & nd & c & -> & Hq & Hd & Hqd & Hck' & Hr' & Eb & Ec & Hrd & Hk & _). rewrite bind_Some.
  exists q, d, nq, nd, c. eexists. split; [done|].
  pose proof (ck_heap _ _ _ _ Hck') as Ho.
  assert (Lq : <[d:=nd]> (<[q:=nq]> L) !! q = Some nq) by (rewrite lookup_insert_ne, lookup_insert_eq by done; done).
  assert (Ld : <[d:=nd]> (<[q:=nq]> L) !! d = Some nd) by apply lookup_insert_eq.
  destruct (owns_range _ _ q nq Ho Lq) as (Hq0 & _ & _ & Aq). destruct (owns_range _ _ d nd Ho Ld) as (Hd0 & _ & _ & Ad).
  assert (H1024 : 1024 <= nd).
  { pose proof (ck_bufs _ _ _ _ Hck') as Hb. apply Forall_cons in Hb as [(_ & _ & m & Em & Hm) _]. cbn in Em. congruence. }
  split_and!; try done; [unfold NULL; lia|rewrite Eb; apply lookup_insert_eq].
Qed.

(** Stores to bytes a client may store to. *)
Lemma cache_store c L bl (m : mem) :
  cache_ok bh_head c L bl -> (forall b, storable L b \/ ldb m b = ldb (cmem c) b) ->
  cache_ok bh_head (set_mem m c) L bl /\ (forall n, room (cheap c) n -> room (cheap (set_mem m c)) n) /\
  cmem (set_mem m c) = m.
Proof.
  intros [H1 H2 H3 H4 H5] Hm. destruct (hset_ok (cheap c) L m H4) as [Ho Hr].
  { intros b. destruct (Hm b) as [[Ha|Ha]|E]; auto. }
  split_and!; [by split|done|]. unfold cmem, set_mem. cbn [cheap set_heap]. apply hset_mem.
Qed.

(** The body of the loop of [minix_read] for one block: [d] is the data of the
    new buffer, freed again at the end. *)
Lemma read_block s L bl bd blk buf nr chars n fuel :
  head_static (A := A) bh_head -> cache_ok bh_head (fc s) L bl -> uncached bl bd blk -> block_in blk ->
  room (cheap (fc s)) (4 + n) -> 0 <= nr -> 0 < chars -> nr + chars <= 1024 -> (0 < fuel)%nat ->
  (forall x, buf <= x < buf + chars -> storable L x) ->
  exists q s1 d c2, fget_blk bh_head bd blk s = Some (q, s1) /\ q <> NULL /\ bh_data s1 q = Some d /\
    fbrelse fuel q (set_fmem (copy_bytes buf (nr + d) chars (fmem s1)) s1) = Some (set_fc c2 s) /\
    cache_ok bh_head c2 L bl /\ room (cheap c2) n /\ (forall a, fl_data (chip c2) a = fl_data (chip (fc s)) a) /\
    (forall j, 0 <= j < chars -> ldb (cmem c2) (buf + j) = fl_data (chip (fc s)) (blk * 1024 + nr + j)) /\
    (forall x, storable L x -> x < buf \/ buf + chars <= x -> ldb (cmem c2) x = ldb (fmem s) x).
Proof.
  intros Hst Hck Hu Hin Hr Hnr Hch Hle Hf Hbuf.
  destruct (fget_blk_new s L bl bd blk n Hst Hck Hu Hin Hr)
    as (q & d & nq & nd & c & b & E & Hq0 & -> & Hq & Hd & Hqd & Hnd & Hck1 & Eb & Hr1 & Ec & Hrd & Hk).
  assert (Hdis : buf + chars <= nr + d \/ nr + d + chars <= buf).
  { destruct (decide (buf + chars <= nr + d)) as [|N1]; [by left|].
    destruct (decide (nr + d + chars <= buf)) as [|N2]; [by right|]. exfalso.
    destruct (Hk (Z.max buf (nr + d)) ltac:(apply Hbuf; lia)) as (_ & Hx & _). lia. }
  pose proof (copy_bytes_spec buf (nr + d) chars (cmem c) Hdis) as Hcp.
  destruct (cache_store c _ _ (copy_bytes buf (nr + d) chars (cmem c)) Hck1) as (Hck2 & Hr2 & Em2).
  { intros x. rewrite Hcp. zcases; [left|by right|by right].
    apply storable_insert; [by rewrite lookup_insert_ne by congruence|]. apply storable_insert; [done|]. apply Hbuf. lia. }
  destruct (brelse_spec bh_head _ _ [] q _ bl Hck2 ltac:(done)) as (c2 & n0 & Er & Hn0 & Hck3 & Hr3 & _ & Df & Hk3 & _).
  cbn [data b_state] in *. specialize (Hn0 ltac:(done)). subst n0.
  assert (EL : delete q (delete d (<[d:=nd]> (<[q:=nq]> L))) = L).
  { apply map_eq. intros a. destruct (decide (a = q)) as [->|]; [by rewrite lookup_delete_eq|].
    rewrite lookup_delete_ne by done. destruct (decide (a = d)) as [->|]; [by rewrite ?lookup_delete_eq|].
    by rewrite ?lookup_delete_ne, ?lookup_insert_ne by done. }
  rewrite EL in *. exists q, (set_fc c s), d, c2. split_and!; try done.
  - unfold bh_data. cbn [fc set_fc]. by rewrite Eb.
  - unfold fbrelse, set_fmem. cbn [fc set_fc]. change (fmem (set_fc c s)) with (cmem c). rewrite Er by done. done.
  - by apply Hr3, Hr2.
  - intros a. rewrite Df. cbn. by rewrite Ec.
  - intros j Hj. rewrite Hk3 by (apply Hbuf; lia). rewrite Em2, Hcp. zcases.
    replace (nr + d + (buf + j - buf)) with (d + (nr + j)) by lia. rewrite Hrd by lia. f_equal. lia.
  - intros x Hx Hout. rewrite Hk3, Em2, Hcp by done. zcases; by apply Hk.
Qed.

Lemma direct_sub bl bd i off n off' n' :
  direct bl bd i off n -> off <= off' -> off' + n' <= off + n -> direct bl bd i off' n'.
Proof.
  intros (H1 & H2 & H3) Ho Hn. split_and!; [lia|lia|]. intros k Hk. apply H3. lia.
Qed.

(** The position and length of the next piece of [pos .. pos+left). *)
Lemma piece_facts pos left :
  0 <= pos -> 0 < left -> pos + left <= 7168 ->
  let nr := Z.rem pos BLOCK_SZ in let chars := Z.min (BLOCK_SZ - nr) left in
  nr = pos mod 1024 /\ 0 < chars <= left /\ nr + chars <= 1024 /\ pos / 1024 < 7 /\ u64 pos = pos /\
  s32 (pos + chars) = pos + chars /\ s32 (left - chars) = left - chars /\ Z.max 0 chars = chars /\
  (forall j, 0 <= j < chars -> (pos + j) / 1024 = pos / 1024 /\ (pos + j) mod 1024 = nr + j) /\
  (chars < left -> (pos + chars) / 1024 = pos / 1024 + 1).
Proof.
  intros Hp Hl Hm. unfold BLOCK_SZ. cbn zeta. rewrite Z.rem_mod_nonneg by lia.
  pose proof (Z.mod_pos_bound pos 1024 ltac:(lia)). pose proof (Z.div_mod pos 1024 ltac:(lia)).
  assert (Hs : forall z, 0 <= z <= 7168 -> s32 z = z).
  { intros z Hz. apply swrap_small; [done|]. change (2 ^ (32 - 1)) with 2147483648. lia. }
  split_and!; try lia.
  - apply wrap_small. change (2 ^ 64) with 18446744073709551616. lia.
  - apply Hs. lia.
  - apply Hs. lia.
  - intros j Hj. split; [symmetry; apply (Z.div_unique _ _ _ (pos mod 1024 + j)); lia|
      symmetry; apply (Z.mod_unique _ _ (pos / 1024)); lia].
  - intros Hlt. symmetry. apply (Z.div_unique _ _ _ 0); lia.
Qed.

Lemma read_loop_spec n fuel s L bl p i sb buf pos left count k r :
  head_static (A := A) bh_head -> cache_ok bh_head (fc s) L bl ->
  inodes s !! p = Some i -> supers s !! i_sb i = Some sb -> direct bl (sb_bd sb) i pos left ->
  0 <= left -> (Z.to_nat left < n)%nat -> (0 < fuel)%nat -> 0 < count ->
  (forall x, buf <= x < buf + left -> storable L x) ->
  room (cheap (fc s)) (4 * k + 4 + r) -> (left = 0 \/ 7 <= pos / 1024 + Z.of_nat k) ->
  exists c, read_loop bh_head n fuel p buf pos left count s = Some (count, set_fc c s) /\
    cache_ok bh_head c L bl /\ room (cheap c) r /\ (forall a, fl_data (chip c) a = fl_data (chip (fc s)) a) /\
    (forall j, 0 <= j < left -> ldb (cmem c) (buf + j) = file_byte (chip (fc s)) i (pos + j)) /\
    (forall x, storable L x -> x < buf \/ buf + left <= x -> ldb (cmem c) x = ldb (fmem s) x).
Proof.
  intros Hst Hck Hi Hs. revert s buf pos left k Hck Hi Hs.
  induction n as [|n IH]; intros s buf pos left k Hck Hi Hs Hdir Hl Hn Hf Hcount Hbuf Hr Hk; [lia|]. cbn [read_loop].
  destruct (Z.eqb_spec left 0) as [->|Hne].
  { rewrite Z.sub_0_r. destruct (Z.eqb_spec count 0); [lia|]. exists (fc s). split_and!; try done; [by destruct s|apply (room_le _ _ _ Hr); lia|lia]. }
  pose proof Hdir as (Hp & Hmax & Hz). destruct (Hz pos ltac:(lia)) as (Ez & Hin & Hu).
  destruct (piece_facts pos left Hp ltac:(lia) Hmax) as (Enr & Hc & Hnc & H7 & Eu & Ep & El & Em & Hj & Hnext).
  cbn zeta in *. set (nr := Z.rem pos BLOCK_SZ) in *. set (chars := Z.min (BLOCK_SZ - nr) left) in *.
  pose proof (Z.mod_pos_bound pos 1024 ltac:(lia)) as Hnr.
  destruct k as [|k]; [lia|].
  destruct (read_block s L bl (sb_bd sb) (zone_of i (pos / 1024)) buf nr chars (4 * k + 4 + r) fuel Hst Hck Hu Hin)
    as (q & s1 & d & c2 & E1 & Hq0 & E2 & E3 & Hck2 & Hr2 & Hd2 & Hb2 & Hk2); try lia;
    [by replace (4 + (4 * k + 4 + r))%nat with (4 * S k + 4 + r)%nat by lia|intros x Hx; apply Hbuf; lia|].
  rewrite Eu, (inode_get_blk_direct s p i sb pos _ Hi Hs H7 Ez), E1, bind_Some.
  destruct (Z.eqb_spec q NULL); [done|]. rewrite E2, bind_Some, E3, bind_Some, Em, Ep, El.
  destruct (IH (set_fc c2 s) (buf + chars) (pos + chars) (left - chars) k Hck2 Hi Hs) as (c & E & Hck' & Hr' & Hd' & Hb' & Hk').
  - apply (direct_sub _ _ _ pos left); [done|lia|lia].
  - lia.
  - lia.
  - done.
  - done.
  - intros x Hx. apply Hbuf. lia.
  - done.
  - destruct (decide (chars < left)) as [Hlt|]; [|left; lia]. right. rewrite (Hnext Hlt). lia.
  - exists c. split; [exact E|]. split_and!; [done|done| | |].
    + intros a. by rewrite Hd', Hd2.
    + intros j Hjj. destruct (decide (j < chars)) as [Hlt|Hge].
      * rewrite Hk' by (try (apply Hbuf; lia); lia). change (fmem (set_fc c2 s)) with (cmem c2). rewrite Hb2 by lia.
        unfold file_byte. destruct (Hj j ltac:(lia)) as [-> ->]. f_equal. lia.
      * replace (buf + j) with (buf + chars + (j - chars)) by lia. rewrite Hb' by lia.
        replace (pos + chars + (j - chars)) with (pos + j) by lia. unfold file_byte. apply Hd2.
    + intros x Hx Hout. rewrite Hk' by (done || lia). apply Hk2; [done|lia].
Qed.

(** Reading [count] bytes at [pos] of a file whose blocks are direct fills the
    buffer with the file's bytes on the device and returns [count]; the cache,
    the heap's blocks, the device and every other byte are as before. *)
Theorem minix_read_correct s L bl p i sb buf pos count fuel :
  head_static (A := A) bh_head -> cache_ok bh_head (fc s) L bl ->
  inodes s !! p = Some i -> supers s !! i_sb i = Some sb -> direct bl (sb_bd sb) i pos count -> 0 < count ->
  (forall x, buf <= x < buf + count -> storable L x) -> room (cheap (fc s)) 32 -> (0 < fuel)%nat ->
  exists c, minix_read bh_head fuel p buf pos count s = Some (count, set_fc c s) /\
    cache_ok bh_head c L bl /\ (forall a, fl_data (chip c) a = fl_data (chip (fc s)) a) /\
    (forall j, 0 <= j < count -> ldb (cmem c) (buf + j) = file_byte (chip (fc s)) i (pos + j)) /\
    (forall x, storable L x -> x < buf \/ buf + count <= x -> ldb (cmem c) x = ldb (fmem s) x).
Proof.
  intros Hst Hck Hi Hs Hd Hc Hbuf Hr Hf. unfold minix_read.
  destruct (read_loop_spec (S (Z.to_nat count)) fuel s L bl p i sb buf pos count count 7 0) as (c & E & H1 & _ & H2); try done; try lia.
  - right. destruct Hd as (Hp & _). pose proof (Z.div_pos pos 1024). lia.
  - by exists c.
Qed.

(** Removing the two blocks a buffer took. *)
Lemma give_back L q nq d nd :
  L !! q = None -> L !! d = None -> delete q (delete d (<[d:=nd]> (<[q:=nq]> L))) = L.
Proof.
  intros Hq Hd. apply map_eq. intros a. destruct (decide (a = q)) as [->|]; [by rewrite lookup_delete_eq|].
  rewrite lookup_delete_ne by done. destruct (decide (a = d)) as [->|]; [by rewrite ?lookup_delete_eq|].
  by rewrite ?lookup_delete_ne, ?lookup_insert_ne by done.
Qed.

(** The body of the loop of [minix_write] for one block. *)
Lemma write_block s L bl bd blk buf nr chars n :
  head_static (A := A) bh_head -> cache_ok bh_head (fc s) L bl -> uncached bl bd blk -> block_in blk ->
  room (cheap (fc s)) (4 + n) -> 0 <= nr -> 0 < chars -> nr + chars <= 1024 ->
  (forall x, buf <= x < buf + chars -> storable L x) ->
  exists q s1 d s3 c2 n0, fget_blk bh_head bd blk s = Some (q, s1) /\ q <> NULL /\ bh_data s1 q = Some d /\
    fdirty q (set_fmem (copy_bytes (nr + d) buf chars (fmem s1)) s1) = Some s3 /\
    (forall fuel, (n0 < fuel)%nat -> fbrelse fuel q s3 = Some (set_fc c2 s)) /\
    cache_ok bh_head c2 L bl /\ room (cheap c2) n /\
    (forall a, fl_data (chip c2) a = if (blk * 1024 + nr <=? a) && (a <? blk * 1024 + nr + chars)
       then ldb (fmem s) (buf + (a - (blk * 1024 + nr))) else fl_data (chip (fc s)) a) /\
    (forall x, storable L x -> ldb (cmem c2) x = ldb (fmem s) x).
Proof.
  intros Hst Hck Hu Hin Hr Hnr Hch Hle Hbuf.
  destruct (fget_blk_new s L bl bd blk n Hst Hck Hu Hin Hr)
    as (q & d & nq & nd & c & b & E & Hq0 & -> & Hq & Hd & Hqd & Hnd & Hck1 & Eb & Hr1 & Ec & Hrd & Hk).
  assert (Hdis : nr + d + chars <= buf \/ buf + chars <= nr + d).
  { destruct (decide (buf + chars <= nr + d)) as [|N1]; [by right|].
    destruct (decide (nr + d + chars <= buf)) as [|N2]; [by left|]. exfalso.
    destruct (Hk (Z.max buf (nr + d)) ltac:(apply Hbuf; lia)) as (_ & Hx & _). lia. }
  pose proof (copy_bytes_spec (nr + d) buf chars (cmem c) Hdis) as Hcp.
  destruct (cache_store c _ _ (copy_bytes (nr + d) buf chars (cmem c)) Hck1) as (Hck2 & Hr2 & Em2).
  { intros x. rewrite Hcp. zcases; [left|by right|by right]. right. exists d, nd. rewrite lookup_insert_eq. split; [done|lia]. }
  destruct (mark_dirty_spec bh_head _ _ [] q _ bl Hck2) as (c3 & Ed & Hck3 & Eh3 & Ec3 & _).
  destruct (brelse_spec bh_head _ _ [] q _ bl Hck3 ltac:(done)) as (c2 & n0 & Er & _ & Hck4 & Hr4 & _ & Df & Hk4 & _).
  cbn [data b_state with_bstate blk_no app] in *. rewrite give_back in * by done.
  assert (Em3 : cmem c3 = copy_bytes (nr + d) buf chars (cmem c)) by (unfold cmem at 1; rewrite Eh3; exact Em2).
  exists q, (set_fc c s), d, (set_fc c3 s), c2, n0. split_and!; try done.
  - unfold bh_data. cbn [fc set_fc]. by rewrite Eb.
  - unfold fdirty, set_fmem. cbn [fc set_fc]. change (fmem (set_fc c s)) with (cmem c). rewrite Ed. done.
  - intros fuel Hf. unfold fbrelse. cbn [fc set_fc]. rewrite Er by done. done.
  - apply Hr4. rewrite Eh3. by apply Hr2.
  - intros a. rewrite Df, Ec3. cbn [Z.eqb BH_Dirty andb]. rewrite Em3, Hcp.
    change (chip (set_mem (copy_bytes (nr + d) buf chars (cmem c)) c)) with (chip c). rewrite Ec.
    destruct (Z.leb_spec (blk * 1024) a), (Z.ltb_spec a (blk * 1024 + 1024)); cbn [andb]; [|zcases; done..].
    destruct (decide (blk * 1024 + nr <= a < blk * 1024 + nr + chars)).
    + zcases. rewrite (proj1 (Hk (buf + (d + (a - blk * 1024) - (nr + d))) ltac:(apply Hbuf; lia))). f_equal. lia.
    + rewrite Hrd by lia. zcases; f_equal; lia.
  - intros x Hx. rewrite Hk4, Em3, Hcp by done. destruct (Hk x Hx) as (E1 & E2 & _). zcases; done.
Qed.

(** The device address of byte [off] of the file. *)
Definition file_addr i off : Z := zone_of i (off / 1024) * 1024 + off mod 1024.
(** Different blocks of the file are different blocks of the device. *)
Definition distinct_zones i : Prop :=
  forall k k', 0 <= k < 7 -> 0 <= k' < 7 -> zone_of i k = zone_of i k' -> k = k'.

Lemma file_addr_inj i off off' :
  distinct_zones i -> 0 <= off < 7168 -> 0 <= off' < 7168 -> file_addr i off = file_addr i off' -> off = off'.
Proof.
  intros Hz Ho Ho'. unfold file_addr. intros E.
  pose proof (Z.mod_pos_bound off 1024 ltac:(lia)). pose proof (Z.mod_pos_bound off' 1024 ltac:(lia)).
  pose proof (Z.div_mod off 1024 ltac:(lia)). pose proof (Z.div_mod off' 1024 ltac:(lia)).
  assert (off / 1024 = off' / 1024); [|lia]. apply Hz; [lia|lia|lia].
Qed.

Lemma write_loop_spec n s L bl p i sb buf pos left count k r :
  head_static (A := A) bh_head -> cache_ok bh_head (fc s) L bl ->
  inodes s !! p = Some i -> supers s !! i_sb i = Some sb -> direct bl (sb_bd sb) i pos left -> distinct_zones i ->
  0 <= left -> (Z.to_nat left < n)%nat -> 0 < count ->
  (forall x, buf <= x < buf + left -> storable L x) ->
  room (cheap (fc s)) (4 * k + 4 + r) -> (left = 0 \/ 7 <= pos / 1024 + Z.of_nat k) ->
  exists c n0, (forall fuel, (n0 < fuel)%nat ->
      write_loop bh_head n fuel p buf pos left count s = Some (count, set_fc c s)) /\
    cache_ok bh_head c L bl /\ room (cheap c) r /\
    (forall j, 0 <= j < left -> fl_data (chip c) (file_addr i (pos + j)) = ldb (fmem s) (buf + j)) /\
    (forall a, (forall j, 0 <= j < left -> a <> file_addr i (pos + j)) -> fl_data (chip c) a = fl_data (chip (fc s)) a) /\
    (forall x, storable L x -> ldb (cmem c) x = ldb (fmem s) x).
Proof.
  intros Hst Hck Hi Hs. revert s buf pos left k Hck Hi Hs.
  induction n as [|n IH]; intros s buf pos left k Hck Hi Hs Hdir Hdz Hl Hn Hcount Hbuf Hr Hk; [lia|].
  destruct (decide (left = 0)) as [->|Hne].
  { exists (fc s), O. split_and!; [|done|apply (room_le _ _ _ Hr); lia|lia|done|done]. intros fuel _. cbn [write_loop]. rewrite Z.sub_0_r.
    cbn [Z.eqb]. destruct (Z.eqb_spec count 0); [lia|]. by destruct s. }
  pose proof Hdir as (Hp & Hmax & Hz). destruct (Hz pos ltac:(lia)) as (Ez & Hin & Hu).
  destruct (piece_facts pos left Hp ltac:(lia) Hmax) as (Enr & Hc & Hnc & H7 & Eu & Ep & El & Em & Hj & Hnext).
  cbn zeta in *. set (nr := Z.rem pos BLOCK_SZ) in *. set (chars := Z.min (BLOCK_SZ - nr) left) in *.
  pose proof (Z.mod_pos_bound pos 1024 ltac:(lia)) as Hnr.
  destruct k as [|k]; [lia|].
  destruct (write_block s L bl (sb_bd sb) (zone_of i (pos / 1024)) buf nr chars (4 * k + 4 + r) Hst Hck Hu Hin)
    as (q & s1 & d & s3 & c2 & n1 & E1 & Hq0 & E2 & E3 & E4 & Hck2 & Hr2 & Hd2 & Hk2); try lia;
    [by replace (4 + (4 * k + 4 + r))%nat with (4 * S k + 4 + r)%nat by lia|intros x Hx; apply Hbuf; lia|].
  destruct (IH (set_fc c2 s) (buf + chars) (pos + chars) (left - chars) k Hck2 Hi Hs) as (c & n2 & E & Hck' & Hr' & Hb' & Hd' & Hk').
  - apply (direct_sub _ _ _ pos left); [done|lia|lia].
  - done.
  - lia.
  - lia.
  - done.
  - intros x Hx. apply Hbuf. lia.
  - done.
  - destruct (decide (chars < left)) as [Hlt|]; [|left; lia]. right. rewrite (Hnext Hlt). lia.
  - assert (Haddr : forall j, 0 <= j < chars -> file_addr i (pos + j) = zone_of i (pos / 1024) * 1024 + nr + j).
    { intros j Hjj. unfold file_addr. destruct (Hj j Hjj) as [-> ->]. lia. }
    exists c, (Nat.max n1 n2). split_and!.
    + intros fuel Hf. cbn [write_loop]. destruct (Z.eqb_spec left 0); [done|].
      rewrite Eu, (inode_get_blk_direct s p i sb pos _ Hi Hs H7 Ez), E1, bind_Some.
      destruct (Z.eqb_spec q NULL); [done|]. fold nr chars. rewrite E2, bind_Some, E3, bind_Some, E4, bind_Some, Em, Ep, El by lia.
      apply E. lia.
    + done.
    + done.
    + intros j Hjj. destruct (decide (j < chars)) as [Hlt|Hge].
      * rewrite Hd'.
        { cbn [fc set_fc]. rewrite Hd2, Haddr by lia. zcases. f_equal. lia. }
        intros j' Hj' E'. apply file_addr_inj in E'; [lia|done|lia|lia].
      * replace (pos + j) with (pos + chars + (j - chars)) by lia. rewrite Hb' by lia.
        change (fmem (set_fc c2 s)) with (cmem c2). rewrite Hk2 by (apply Hbuf; lia). f_equal. lia.
    + intros a Ha. rewrite Hd'.
      * cbn [fc set_fc]. rewrite Hd2. zcases; try done. exfalso.
        apply (Ha (a - (zone_of i (pos / 1024) * 1024 + nr)) ltac:(lia)). rewrite Haddr by lia. lia.
      * intros j Hjj. replace (pos + chars + j) with (pos + (chars + j)) by lia. apply Ha. lia.
    + intros x Hx. rewrite Hk' by done. by apply Hk2.
Qed.

(** C11: Writing [count] bytes at [pos] of a file whose blocks are direct stores them
    in the file's blocks on the device, and nowhere else. *)
Theorem minix_write_correct s L bl p i sb buf pos count :
  head_static (A := A) bh_head -> cache_ok bh_head (fc s) L bl ->
  inodes s !! p = Some i -> supers s !! i_sb i = Some sb -> direct bl (sb_bd sb) i pos count -> distinct_zones i ->
  0 < count -> (forall x, buf <= x < buf + count -> storable L x) -> room (cheap (fc s)) 32 ->
  exists c n0, (forall fuel, (n0 < fuel)%nat ->
      minix_write bh_head fuel p buf pos count s = Some (count, set_fc c s)) /\
    cache_ok bh_head c L bl /\
    (forall j, 0 <= j < count -> file_byte (chip c) i (pos + j) = ldb (fmem s) (buf + j)) /\
    (forall a, (forall j, 0 <= j < count -> a <> file_addr i (pos + j)) -> fl_data (chip c) a = fl_data (chip (fc s)) a) /\
    (forall x, storable L x -> ldb (cmem c) x = ldb (fmem s) x).
Proof.
  intros Hst Hck Hi Hs Hd Hz Hc Hbuf Hr. unfold minix_write.
  destruct (write_loop_spec (S (Z.to_nat count)) s L bl p i sb buf pos count count 7 0) as (c & n0 & E & H1 & _ & H2); try done; try lia.
  - right. destruct Hd as (Hp & _). pose proof (Z.div_pos pos 1024). lia.
  - by exists c, n0.
Qed.
End Contents.

(** ** Inodes on disk *)

Section Disk.
Implicit Types (m : mem) (r a : Z) (i : inode) (l : list Z).

Lemma store_zones_ne l a m b : b < a \/ a + 2 * Z.of_nat (length l) <= b -> ldb (store_zones l a m) b = ldb m b.
Proof.
  revert a m. induction l as [|z l IH]; intros a m Hb; cbn [store_zones length] in *; [done|].
  rewrite IH by lia. apply (ldb_st_ne 2). lia.
Qed.

Lemma store_zones_get l a m k z :
  l !! k = Some z -> ld16 (store_zones l a m) (a + 2 * Z.of_nat k) = u16 z.
Proof.
  revert a m k. induction l as [|y l IH]; intros a m [|k] Hk; cbn [store_zones] in *; try done.
  - injection Hk as ->. rewrite Z.add_0_r.
    rewrite (ld_agree 2 (st16 m a z)); [by apply (ld_st_mod 2)|]. intros b Hb. apply store_zones_ne. lia.
  - replace (a + 2 * Z.of_nat (S k)) with (a + 2 + 2 * Z.of_nat k) by lia. by apply IH.
Qed.

Lemma store_inode_ne r i m b : b < r \/ r + 32 <= b -> ldb (store_inode r i m) b = ldb m b.
Proof.
  intros Hb. unfold store_inode. rewrite store_zones_ne by (rewrite length_take; lia). unfold store_fields.
  rewrite !(ldb_st_ne 4) by lia. rewrite !ldb_stb_ne by lia. by rewrite !(ldb_st_ne 2) by lia.
Qed.

Lemma ld_stb_ne n m a v b : b + Z.of_nat n <= a \/ a + 1 <= b -> ld n (stb m a v) b = ld n m b.
Proof. intros Hb. apply ld_agree. intros x Hx. apply ldb_stb_ne. lia. Qed.

(** What the on-disk fields can hold. *)
Record fits i : Prop := {
  ft_mode : 0 <= i_mode i < 65536; ft_uid : 0 <= i_uid i < 65536; ft_gid : 0 <= i_gid i < 256;
  ft_size : 0 <= i_size i < 2 ^ 32; ft_time : 0 <= i_mtime i < 2 ^ 32;
  ft_zones : Forall (fun z => 0 <= z < 65536) (take 9 (i_data i)) }.

(** The fields before the block numbers, read back. *)
Lemma store_fields_get r i m :
  let m' := store_fields r i m in
  ld16 m' r = u16 (i_mode i) /\ ld16 m' (r + 2) = u16 (i_uid i) /\ ldb m' (r + 12) = u8 (i_gid i) /\
  ldb m' (r + 13) = u8 (i_nlink i) /\ ld32 m' (r + 4) = u32 (i_size i) /\ ld32 m' (r + 8) = u32 (i_mtime i).
Proof.
  cbn zeta. unfold store_fields. split_and!.
  - rewrite !(ld_st_ne 4), !ld_stb_ne, (ld_st_ne 2) by lia. apply (ld_st_mod 2).
  - rewrite !(ld_st_ne 4), !ld_stb_ne by lia. apply (ld_st_mod 2).
  - rewrite !(ldb_st_ne 4), ldb_stb_ne, ldb_stb, Z.eqb_refl by lia. done.
  - rewrite !(ldb_st_ne 4), ldb_stb, Z.eqb_refl by lia. done.
  - rewrite (ld_st_ne 4) by lia. apply (ld_st_mod 4).
  - apply (ld_st_mod 4).
Qed.

(** C33: What is left of an inode after [minix_write_inode]'s stores and
    [minix_iget]'s loads into the inode [j]: mode, owner, group, size,
    modification time and the first nine block numbers, each cut to its width on
    disk (when they fit, they come back as they were).  The access and change
    times become the modification time; the other seven entries of [i_data], the
    number, the superblock and the use count are those of [j].  The link count is
    stored, but never loaded: it is that of [j] too.  Only the 32 bytes of the
    record change. *)
Theorem inode_roundtrip r i m j :
  (9 <= length (i_data i))%nat ->
  let m' := store_inode r i m in
  fill_inode m' r j =
    {| i_mode := u16 (i_mode i); i_uid := u16 (i_uid i); i_gid := u8 (i_gid i); i_size := u32 (i_size i);
       i_atime := u32 (i_mtime i); i_mtime := u32 (i_mtime i); i_ctime := u32 (i_mtime i);
       i_state := Z.land (i_state j) (Z.lnot I_NEW); i_nlink := i_nlink j; i_ino := i_ino j;
       i_op := (let mode := u16 (i_mode i) in if S_ISDIR mode then DirOps else if S_ISREG mode then FileOps else i_op j);
       i_sb := i_sb j; i_count := i_count j; i_data := (wrap 16 <$> take 9 (i_data i)) ++ drop 9 (i_data j) |} /\
  (fits i -> let i' := fill_inode m' r j in
     i_mode i' = i_mode i /\ i_uid i' = i_uid i /\ i_gid i' = i_gid i /\ i_size i' = i_size i /\ i_mtime i' = i_mtime i /\
     take 9 (i_data i') = take 9 (i_data i)) /\
  ldb m' (r + 13) = u8 (i_nlink i) /\
  forall b, b < r \/ r + 32 <= b -> ldb m' b = ldb m b.
Proof.
  intros Hd. cbn zeta. destruct (store_fields_get r i m) as (G1 & G2 & G3 & G4 & G5 & G6).
  assert (Hl9 : length (take 9 (i_data i)) = 9%nat) by (rewrite length_take; lia).
  set (m0 := store_fields r i m) in *.
  assert (E : store_inode r i m = store_zones (take 9 (i_data i)) (r + 14) m0) by done.
  assert (A16 : forall n b, r <= b -> b + Z.of_nat n <= r + 14 -> ld n (store_inode r i m) b = ld n m0 b).
  { intros n b H1 H2. apply ld_agree. intros x Hx. rewrite E. apply store_zones_ne. lia. }
  assert (A8 : forall b, r <= b < r + 14 -> ldb (store_inode r i m) b = ldb m0 b).
  { intros b Hb. rewrite E. apply store_zones_ne. lia. }
  assert (Ez : raw_zones (store_inode r i m) r = wrap 16 <$> take 9 (i_data i)).
  { apply list_eq_same_length with (n := 9%nat); [by rewrite length_fmap|unfold raw_zones; by rewrite length_map, length_seq|].
    intros k x y Hk Hx Hy. unfold raw_zones in Hx. rewrite list_lookup_fmap, lookup_seq_lt in Hx by lia. injection Hx as <-.
    rewrite list_lookup_fmap in Hy. destruct (take 9 (i_data i) !! k) as [z|] eqn:Ek; [|done]. injection Hy as <-.
    rewrite E. by apply store_zones_get. }
  match goal with |- ?x = ?y /\ _ => assert (Ef : x = y) end.
  { unfold fill_inode. rewrite !A16, A8, G1, G2, G3, G5, G6, Ez by lia. reflexivity. }
  rewrite Ef. split_and!; [done| |by rewrite A8 by lia|].
  - change (2 ^ 32) with 4294967296. intros [Hm Hu Hg Hs Ht Hz]. change (2 ^ 32) with 4294967296 in *.
    cbn [i_mode i_uid i_gid i_size i_mtime i_data]. split_and!; try (by apply wrap_small).
    rewrite take_app_le, take_ge by (rewrite length_fmap; lia).
    rewrite <- (list_fmap_id (take 9 (i_data i))) at 2. apply list_fmap_ext. intros k z Hk.
    rewrite Forall_forall in Hz. apply wrap_small. apply Hz. by apply list_elem_of_lookup_2 in Hk.
  - intros b Hb. by apply store_inode_ne.
Qed.

(** A word read through a pointer to [long] is four block numbers at once. *)
Lemma ld64_ld16 m a : ld64 m a = ld16 m a + 2 ^ 16 * ld16 m (a + 2) + 2 ^ 32 * ld16 m (a + 4) + 2 ^ 48 * ld16 m (a + 6).
Proof. unfold ld. replace (a + 1 + 1) with (a + 2) by lia. replace (a + 2 + 1 + 1) with (a + 4) by lia.
  replace (a + 4 + 1 + 1) with (a + 6) by lia. replace (a + 2 + 1) with (a + 3) by lia.
  change (2 ^ 16) with 65536. change (2 ^ 32) with 4294967296. change (2 ^ 48) with 281474976710656. lia.
Qed.
End Disk.

(** ** What the code does not do *)

Section Defects.
Context {A F : Type} {HO : HeapOps A} {H : BlockHeap A} {H0 : FlashDevice F}.
Variables (bh_head : Z) (stale_inode : Z -> inode).
Implicit Types (s : fsys A F).

Lemma fget_blk_cached s L bl bd blk bh b :
  cache_ok bh_head (fc s) L bl -> find (fun pb => (blk_no pb.2 =? blk) && (b_bd pb.2 =? bd)) bl = Some (bh, b) ->
  fget_blk bh_head bd blk s = Some (bh, s) /\ bh_data s bh = Some (data b).
Proof.
  intros Hck Hf. unfold fget_blk. rewrite (get_blk_eq bh_head _ _ _ _ _ Hck), Hf, bind_Some. split; [by destruct s|].
  apply find_some in Hf as [Hin _]. pose proof (ck_bufs _ _ _ _ Hck) as Hbs. rewrite List.Forall_forall in Hbs.
  destruct (Hbs _ Hin) as [E _]. unfold bh_data. cbn [fst snd] in E. by rewrite E.
Qed.

(** A block behind the indirect block is looked for under four consecutive
    entries at once: the entry is read as eight bytes although it has two. *)
Theorem indirect_reads_four_entries s L bl p i sb off bh b :
  cache_ok bh_head (fc s) L bl -> inodes s !! p = Some i -> supers s !! i_sb i = Some sb ->
  7 <= off / 1024 < 519 -> i_zone i 7 = Some (blk_no b) -> b_bd b = sb_bd sb ->
  find (fun pb => (blk_no pb.2 =? blk_no b) && (b_bd pb.2 =? sb_bd sb)) bl = Some (bh, b) ->
  inode_get_blk bh_head p off s =
  let a := data b + 2 * (off / 1024 - 7) in
  fget_blk bh_head (sb_bd sb)
    (ld16 (fmem s) a + 2 ^ 16 * ld16 (fmem s) (a + 2) + 2 ^ 32 * ld16 (fmem s) (a + 4) + 2 ^ 48 * ld16 (fmem s) (a + 6)) s.
Proof.
  intros Hck Hi Hs Ho Hz Hb Hf. unfold inode_get_blk. rewrite Hi, bind_Some, Hs, bind_Some. change BLOCK_SZ with 1024. cbn zeta.
  destruct (Z.ltb_spec (off / 1024) 7); [lia|]. destruct (Z.ltb_spec (off / 1024) (7 + 512)); [|lia].
  destruct (fget_blk_cached s L bl _ _ bh b Hck Hf) as [E1 E2].
  by rewrite Hz, bind_Some, E1, bind_Some, E2, bind_Some, ld64_ld16.
Qed.

(** Dropping an inode frees it but leaves it on the list of its super block: the
    next search that starts there follows the freed inode. *)
Theorem dropped_inode_dangles s s' p sb ino :
  minix_destroy_inode p s = Some s' -> p <> NULL -> inode_list p <> s_inodes sb ->
  get_next (lists (fc s)) (s_inodes sb) = Some (inode_list p) ->
  get_inode stale_inode sb ino s' = None.
Proof.
  unfold minix_destroy_inode. intros E Hp Hne Hn. zcase_in E; [done|].
  unfold ffree in E. destruct (hfree _ _) as [h|]; [|done]. injection E as <-.
  unfold get_inode. cbn [fc set_fc set_inodes lists set_heap]. rewrite Hn, bind_Some. cbn [find_inode].
  zcase; [done|]. replace (inode_entry (inode_list p)) with p by (unfold inode_entry, inode_list; lia).
  cbn [inodes set_inodes set_fc]. by rewrite lookup_delete_eq.
Qed.
End Defects.

(** ** Concrete states *)

(** A regular file of two blocks, 9 and 12, on a booted cache. *)
Definition file0 : inode :=
  {| i_mode := 0x81a4; i_uid := 0; i_gid := 0; i_size := 2000; i_atime := 0; i_mtime := 0; i_ctime := 0; i_state := 0;
     i_nlink := 1; i_ino := 2; i_op := FileOps; i_sb := 500; i_count := 1;
     i_data := [9; 12; 13; 14; 15; 16; 17; 0; 0; 0; 0; 0; 0; 0; 0; 0] |}.
Definition fsys0 : fsys kheap board_flash :=
  {| fc := cache_boot; bdevs := ∅; supers := {[ 500 := {| s_op := MinixSops; sb_bd := 400; s_fs_info := 600 |} ]};
     sbis := ∅; inodes := {[ 700 := file0 ]}; root_bdev := 400; root_inode := 700;
     file_tbl := replicate 64 {| f_inode := 0; f_count := 0; f_flags := 0; f_pos := 0 |};
     cur_filp := replicate 32 0; messages := [] |}.

Lemma user_storable x : 0 <= x < 2 ^ 30 -> storable (A := kheap) ∅ x.
Proof.
  change (2 ^ 30) with 1073741824. intros Hx. left. intros [Hlo _]. unfold page_va in Hlo. lia.
Qed.

Lemma file0_direct : direct [] 400 file0 1000 100.
Proof.
  split_and!; [lia|lia|]. intros k Hk. assert (Hq : k / 1024 = 0 \/ k / 1024 = 1).
  { pose proof (Z.div_mod k 1024 ltac:(lia)). pose proof (Z.mod_pos_bound k 1024 ltac:(lia)). lia. }
  destruct Hq as [-> | ->]; (split_and!; [reflexivity|split; reflexivity || discriminate|constructor]).
Qed.

Lemma file0_distinct : distinct_zones file0.
Proof.
  assert (H : forallb (fun a => forallb (fun b => negb (zone_of file0 (Z.of_nat a) =? zone_of file0 (Z.of_nat b)) || (a =? b)%nat)
    (seq 0 7)) (seq 0 7) = true) by reflexivity.
  rewrite forallb_forall in H. intros k k' Hk Hk' E.
  specialize (H (Z.to_nat k) ltac:(apply in_seq; lia)). rewrite forallb_forall in H.
  specialize (H (Z.to_nat k') ltac:(apply in_seq; lia)). rewrite !Z2Nat.id, E, Z.eqb_refl in H by lia.
  cbn [negb orb] in H. apply Nat.eqb_eq in H. lia.
Qed.

Example minix_read_correct_witness :
  exists c, minix_read bh_head0 1 700 8192 1000 100 fsys0 = Some (100, set_fc c fsys0) /\ cache_ok bh_head0 c ∅ [].
Proof.
  destruct (minix_read_correct bh_head0 fsys0 ∅ [] 700 file0 {| s_op := MinixSops; sb_bd := 400; s_fs_info := 600 |}
    8192 1000 100 1 head_static0 cache_boot_ok (lookup_singleton_eq _ _) (lookup_singleton_eq _ _) file0_direct)
    as (c & E & Hck & _); [reflexivity| |exact (room_boot 32 ltac:(lia))|lia|].
  - intros x Hx. apply user_storable. change (2 ^ 30) with 1073741824. lia.
  - exists c. split; [exact E|exact Hck].
Defined.

Example minix_write_correct_witness :
  exists c n0, (forall fuel, (n0 < fuel)%nat -> minix_write bh_head0 fuel 700 8192 1000 100 fsys0 = Some (100, set_fc c fsys0)) /\
    file_byte (chip c) file0 1000 = ldb (fmem fsys0) 8192.
Proof.
  destruct (minix_write_correct bh_head0 fsys0 ∅ [] 700 file0 {| s_op := MinixSops; sb_bd := 400; s_fs_info := 600 |}
    8192 1000 100 head_static0 cache_boot_ok (lookup_singleton_eq _ _) (lookup_singleton_eq _ _) file0_direct file0_distinct)
    as (c & n0 & E & _ & Hb & _); [reflexivity| |exact (room_boot 32 ltac:(lia))|].
  - intros x Hx. apply user_storable. change (2 ^ 30) with 1073741824. lia.
  - exists c, n0. split; [exact E|]. exact (Hb 0 ltac:(lia)).
Defined.

Example inode_roundtrip_witness :
  i_mode (fill_inode (store_inode 4096 file0 ∅) 4096 file0) = 0x81a4.
Proof. rewrite (proj1 (inode_roundtrip 4096 file0 ∅ file0 ltac:(cbn; lia))). reflexivity. Defined.
