(* ===== verification/File.v ===== *)
(** fs/fs.c: path names and open files.

    A [struct file*] is the address of an entry of the static [file_tbl]; the
    descriptors are the [filp] array of the running task. *)

From S2P Require Import Prelude Mem Lib DList Page Kmalloc Heap Buffer Task Minix.
Local Open Scope Z_scope.

Definition NR_FILE : Z := 64.
Definition SEEK_SET : Z := 0.
Definition SEEK_CUR : Z := 1.
Definition SEEK_END : Z := 2.
Definition sizeof_file : Z := 32.
Definition c_slash : Z := 47.
Definition c_dot : Z := 46.

(** ** Path components *)

(** [while (test( *path)) { path++; n++; }]. *)
Fixpoint skip_while (fuel : nat) (test : Z -> bool) (m : mem) (path n : Z) : option (Z * Z) :=
  match fuel with
  | O => None
  | S f => if test (ldb m path) then skip_while f test m (path + 1) (n + 1) else Some (path, n)
  end.

(** The length of the next component and the slashes before it. *)
Definition path_len (fuel : nat) (m : mem) (path : Z) : option (Z * Z) :=
  if (path =? NULL) || (ldb m path =? 0) then Some (0, 0)
  else
    let! '(path, offset) := skip_while fuel (fun c => c =? c_slash) m path 0 in
    let! '(_, i) := skip_while fuel (fun c => negb (c =? c_slash) && negb (c =? 0)) m path 0 in
    Some (s32 i, offset).

Section File.
Context {A F : Type} {HO : HeapOps A} {H0 : FlashDevice F}.
Variables (bh_head : Z) (stale_inode : Z -> inode) (file_base : Z).
Implicit Types (s : fsys A F) (fuel : nat) (p fd : Z).

(** [dir->i_op->lookup(dir, name)]. *)
Definition op_lookup fuel p name s : option (Z * fsys A F) :=
  let! i := inodes s !! p in
  match i_op i with
  | DirOps => minix_lookup bh_head stale_inode fuel p name s
  | NoOps | FileOps => None
  end.

Fixpoint namei_loop n fuel dir (path name : Z) s : option (Z * fsys A F) :=
  match n with
  | O => None
  | S n' =>
      let! '(length, offset) := path_len fuel (fmem s) path in
      if length =? 0 then Some (dir, s)
      else
        let path := path + offset in
        let! m := memcpy (fmem s) name path length in
        let path := path + length in
        let s := set_fmem (stb m (name + length) 0) s in
        let! '(dir, s) := op_lookup fuel dir name s in
        if dir =? NULL then Some (dir, s) else namei_loop n' fuel dir path name s
  end.

Definition namei fuel (cur_dir path : Z) s : option (Z * fsys A F) :=
  if path =? NULL then Some (NULL, s)
  else
    let c := ldb (fmem s) path in
    if negb (c =? c_slash) && (cur_dir =? NULL) then Some (NULL, s)
    else
      let dir := if c =? c_slash then root_inode s else cur_dir in
      let path := if (c =? c_dot) && (ldb (fmem s) (path + 1) =? c_slash) then path + 2 else path in
      let! len := strlen fuel (fmem s) path in
      let! '(name, s) := falloc (len + 4) s in
      let! '(dir, s) := namei_loop fuel fuel dir path name s in
      let! s := ffree name s in
      Some (dir, s).

(** ** Open files *)

Definition file_ptr (i : Z) : Z := file_base + sizeof_file * i.

(** The entry a [struct file*] points to. *)
Definition file_index (p : Z) s : option Z :=
  assert! (0 <=? p - file_base) && ((p - file_base) mod sizeof_file =? 0) &&
          ((p - file_base) / sizeof_file <? Z.of_nat (length (file_tbl s))) in
  Some ((p - file_base) / sizeof_file).
Definition get_file (p : Z) s : option file := let! i := file_index p s in arr_get (file_tbl s) i.
Definition set_file (p : Z) (f : file) s : option (fsys A F) :=
  let! i := file_index p s in
  let! l := arr_set (file_tbl s) i f in Some (set_file_tbl l s).
Definition get_fd fd s : option Z := arr_get (cur_filp s) fd.
Definition set_fd fd (p : Z) s : option (fsys A F) :=
  let! l := arr_set (cur_filp s) fd p in Some (set_cur_filp l s).

(** The index of the first entry that passes the test, or the bound. *)
Definition free_fd s : Z :=
  find_up (Z.to_nat NR_OPEN) 0 (fun fd => match get_fd fd s with Some p => p =? NULL | None => false end).
Definition free_file s : Z :=
  find_up (Z.to_nat NR_FILE) 0 (fun i => match arr_get (file_tbl s) i with Some f => f_count f =? 0 | None => false end).

Definition file_open fuel (filename flag mode : Z) s : option (Z * fsys A F) :=
  let fd := free_fd s in
  if NR_OPEN <=? fd then Some (-1, s)
  else
    let i := free_file s in
    if NR_FILE <=? i then Some (-2, s)
    else
      let f := file_ptr i in
      let! s := set_fd fd f s in
      let! '(inode, s) := namei fuel NULL filename s in
      let! old := get_file f s in
      if inode =? NULL then
        let! s := set_fd fd NULL s in
        let! s := set_file f {| f_inode := f_inode old; f_count := 0; f_flags := f_flags old; f_pos := f_pos old |} s in
        Some (-3, s)
      else
        let! s := set_file f {| f_inode := inode; f_count := 1; f_flags := s32 flag; f_pos := 0 |} s in
        Some (fd, s).

Definition file_close fuel fd s : option (Z * fsys A F) :=
  if (NR_OPEN <=? fd) || (fd <? 0) then Some (-1, s)
  else
    let! p := get_fd fd s in
    let! s := set_fd fd NULL s in
    let! f := get_file p s in
    let! s := if f_count f =? 0 then Some (say CloseUnused s)
              else set_file p {| f_inode := f_inode f; f_count := u64 (f_count f - 1); f_flags := f_flags f; f_pos := f_pos f |} s in
    let! '(_, s) := put_inode bh_head fuel (f_inode f) s in
    Some (0, s).

(** [inode->i_op->read] and [inode->i_op->write]. *)
Definition op_read fuel p (buf pos count : Z) s : option (Z * fsys A F) :=
  let! i := inodes s !! p in
  match i_op i with
  | FileOps => minix_read bh_head fuel p buf pos count s
  | NoOps | DirOps => None
  end.
Definition op_write fuel p (buf pos count : Z) s : option (Z * fsys A F) :=
  let! i := inodes s !! p in
  match i_op i with
  | FileOps => minix_write bh_head fuel p buf pos count s
  | NoOps | DirOps => None
  end.

(** [filp->f_pos += ret]. *)
Definition advance (p ret : Z) s : option (fsys A F) :=
  let! f := get_file p s in
  set_file p {| f_inode := f_inode f; f_count := f_count f; f_flags := f_flags f; f_pos := u64 (f_pos f + ret) |} s.

Definition file_read fuel (filp buf count : Z) s : option (Z * fsys A F) :=
  if count <=? 0 then Some (0, s)
  else
    let! f := get_file filp s in
    let! '(ret, s) := op_read fuel (f_inode f) buf (s32 (f_pos f)) count s in
    let! s := if 0 <? ret then advance filp ret s else Some s in
    Some (if negb (ret =? 0) then ret else -1, s).

Definition file_write fuel (filp buf count : Z) s : option (Z * fsys A F) :=
  if count <=? 0 then Some (0, s)
  else
    let! f := get_file filp s in
    let! '(ret, s) := op_write fuel (f_inode f) buf (s32 (f_pos f)) count s in
    let! s := if 0 <? ret then advance filp ret s else Some s in
    Some (if negb (ret =? 0) then ret else -1, s).

(** [pos > filp->f_inode->i_size] compares at the unsigned type. *)
Definition seek_pos (f : file) (offset whence : Z) s : option Z :=
  let pos := s32 (f_pos f) in
  if whence =? SEEK_SET then Some (s32 offset)
  else if whence =? SEEK_CUR then Some (s32 (pos + offset))
  else if whence =? SEEK_END then let! i := inodes s !! f_inode f in Some (s32 (s32 (i_size i) + offset))
  else Some pos.

Definition file_lseek (filp offset whence : Z) s : option (Z * fsys A F) :=
  let! f := get_file filp s in
  let! pos := seek_pos f offset whence s in
  if pos <? 0 then Some (-1, s)
  else
    let! i := inodes s !! f_inode f in
    if i_size i <? u64 pos then Some (-1, s)
    else
      let! s := set_file filp {| f_inode := f_inode f; f_count := f_count f; f_flags := f_flags f; f_pos := u64 pos |} s in
      Some (pos, s).
End File.

(** ** Paths *)

Section Paths.
Implicit Types (m : mem) (path n : Z) (l rest : list Z) (fuel : nat).

(** [l] is stored at [a]. *)
Definition stored m (a : Z) l : Prop := forall k c, l !! k = Some c -> ldb m (a + Z.of_nat k) = c.

Lemma stored_cons m a c l : stored m a (c :: l) -> ldb m a = c /\ stored m (a + 1) l.
Proof.
  intros H. split; [rewrite <- (H 0%nat c eq_refl); f_equal; lia|]. intros k d Hk. rewrite <- (H (S k) d Hk). f_equal. lia.
Qed.

Lemma skip_while_spec fuel test m path n l d rest :
  stored m path (l ++ d :: rest) -> Forall (fun c => test c = true) l -> test d = false -> (length l < fuel)%nat ->
  skip_while fuel test m path n = Some (path + Z.of_nat (length l), n + Z.of_nat (length l)).
Proof.
  revert path n fuel. induction l as [|c l IH]; intros path n fuel Hs Hl Hd Hf; (destruct fuel as [|fuel]; [lia|]);
    cbn [skip_while app length] in *; apply stored_cons in Hs as [-> Hs].
  - rewrite Hd, !Z.add_0_r. done.
  - apply Forall_cons in Hl as [-> Hl]. rewrite (IH _ _ _ Hs Hl Hd) by lia. f_equal. f_equal; lia.
Qed.

Definition no_slash l : Prop := Forall (fun c => c <> c_slash /\ c <> 0) l.
(** The end of the path or of a component. *)
Definition ends (d : Z) : Prop := d = c_slash \/ d = 0.

(** [path_len] measures the leading slashes and the component after them,
    whatever follows; at the end of the path the component is empty. *)
Lemma path_len_correct fuel m path k comp d rest :
  path <> NULL -> stored m path (replicate k c_slash ++ comp ++ d :: rest) ->
  no_slash comp -> ends d -> (comp = [] -> d = 0) ->
  (k < fuel)%nat -> (length comp < fuel)%nat -> Z.of_nat (length comp) < 2 ^ 31 ->
  path_len fuel m path =
  Some (Z.of_nat (length comp), if bool_decide (k = 0%nat /\ comp = []) then 0 else Z.of_nat k).
Proof.
  change (2 ^ 31) with 2147483648. intros Hp Hs Hc Hd He Hk Hl Hi. unfold path_len.
  destruct (Z.eqb_spec path NULL); [done|]. cbn [orb].
  assert (exists c l, replicate k c_slash ++ comp ++ d :: rest = c :: l /\ (c = 0 <-> k = 0%nat /\ comp = [])) as (c0 & l0 & E0 & Hz).
  { destruct k as [|k]; cbn; [|eexists _, _; split; [done|]; unfold c_slash; split; [lia|intros [? _]; lia]].
    destruct comp as [|c comp]; cbn; [rewrite (He eq_refl); eexists _, _; split; [done|tauto]|].
    apply Forall_cons in Hc as [[_ Hc] _]. eexists _, _. split; [done|]. split; [done|intros [_ ?]; done]. }
  pose proof Hs as Hs0. rewrite E0 in Hs0. apply stored_cons in Hs0 as [E1 _]. rewrite E1.
  destruct (Z.eqb_spec c0 0) as [Ez|Hn].
  { apply Hz in Ez as [-> ->]. rewrite bool_decide_eq_true_2 by done. done. }
  rewrite bool_decide_eq_false_2 by tauto.
  assert (exists c l, comp ++ d :: rest = c :: l /\ (c =? c_slash) = false) as (c1 & l1 & E2 & H1).
  { destruct comp as [|c comp]; cbn.
    - rewrite (He eq_refl). eexists _, _. split; [done|done].
    - apply Forall_cons in Hc as [[Hc _] _]. eexists _, _. split; [done|]. by apply Z.eqb_neq. }

  rewrite (skip_while_spec fuel _ m path 0 (replicate k c_slash) c1 l1); rewrite ?length_replicate; [|by rewrite <- E2| |done|done].
  2: { by apply Forall_replicate. }
  rewrite bind_Some, (skip_while_spec fuel _ m _ 0 comp d rest), bind_Some; [| |apply (Forall_impl _ _ _ Hc)| |done].
  - rewrite Z.add_0_l, swrap_small; [done|done|]. change (2 ^ (32 - 1)) with 2147483648. lia.
  - intros j x Hj. rewrite <- (Hs (k + j)%nat x); [f_equal; lia|]. rewrite lookup_app_r by (rewrite length_replicate; lia).
    rewrite length_replicate. by replace (k + j - k)%nat with j by lia.
  - intros x [Hx1 Hx2]. apply Z.eqb_neq in Hx1, Hx2. by rewrite Hx1, Hx2.
  - destruct Hd as [->| ->]; done.
Qed.
End Paths.

(** ** Seeking *)

Section Seek.
Context {A F : Type}.
Variable file_base : Z.
Implicit Types (s : fsys A F) (p : Z) (f : file).

Lemma get_file_index s p f :
  get_file file_base p s = Some f -> exists k, file_index file_base p s = Some k /\ 0 <= k < Z.of_nat (length (file_tbl s)) /\
    arr_get (file_tbl s) k = Some f.
Proof.
  unfold get_file. destruct (file_index file_base p s) as [k|]; [rewrite bind_Some|done]. intros E. exists k.
  pose proof (arr_get_range _ _ _ E). done.
Qed.

Lemma file_index_ptr s p k : file_index file_base p s = Some k -> p = file_ptr file_base k.
Proof.
  unfold file_index. destruct (_ && _ && _) eqn:E; [|done]. intros [= <-]. unfold file_ptr, sizeof_file in *.
  apply andb_true_iff in E as [[_ E]%andb_true_iff _]. apply Z.eqb_eq in E. pose proof (Z.div_mod (p - file_base) 32). lia.
Qed.

Lemma set_file_spec s p f g :
  get_file file_base p s = Some f ->
  exists s', set_file file_base p g s = Some s' /\ get_file file_base p s' = Some g /\
    (forall q, q <> p -> get_file file_base q s' = get_file file_base q s) /\
    s' = set_file_tbl (file_tbl s') s /\ length (file_tbl s') = length (file_tbl s).
Proof.
  intros (k & Ek & Hr & Ef)%get_file_index. unfold set_file. rewrite Ek, bind_Some, arr_set_Some, bind_Some by done.
  assert (Hi : forall q, file_index file_base q (set_file_tbl (<[Z.to_nat k := g]> (file_tbl s)) s) = file_index file_base q s).
  { intros q. unfold file_index. cbn [file_tbl set_file_tbl]. by rewrite length_insert. }
  eexists. split; [done|]. split_and!; [| |done|cbn; by rewrite length_insert].
  - unfold get_file. rewrite Hi, Ek, bind_Some. cbn [file_tbl set_file_tbl]. by rewrite arr_get_insert, Z.eqb_refl.
  - intros q Hq. unfold get_file. rewrite Hi. destruct (file_index file_base q s) as [j|] eqn:Ej; [rewrite !bind_Some|done].
    cbn [file_tbl set_file_tbl]. rewrite arr_get_insert by done. destruct (Z.eqb_spec j k) as [->|]; [|done].
    exfalso. apply Hq. apply file_index_ptr in Ek, Ej. congruence.
Qed.

(** C32: Seeking an open file ends with a position inside the file, which it returns,
    or fails with -1 and changes nothing. *)
Theorem lseek_bounds s p f i offset whence :
  get_file file_base p s = Some f -> inodes s !! f_inode f = Some i ->
  file_lseek file_base p offset whence s = Some (-1, s) \/
  exists pos s', file_lseek file_base p offset whence s = Some (pos, s') /\ 0 <= pos <= i_size i /\ pos < 2 ^ 31 /\
    get_file file_base p s' = Some {| f_inode := f_inode f; f_count := f_count f; f_flags := f_flags f; f_pos := pos |} /\
    (forall q, q <> p -> get_file file_base q s' = get_file file_base q s) /\ s' = set_file_tbl (file_tbl s') s /\
    (whence = SEEK_SET -> pos = s32 offset) /\ (whence = SEEK_CUR -> pos = s32 (s32 (f_pos f) + offset)).
Proof.
  intros Hf Hi. unfold file_lseek. rewrite Hf, bind_Some.
  assert (exists pos, seek_pos f offset whence s = Some pos /\ pos < 2147483648 /\
    (whence = SEEK_SET -> pos = s32 offset) /\ (whence = SEEK_CUR -> pos = s32 (s32 (f_pos f) + offset))) as (pos & -> & Hlt & H1 & H2).
  { pose proof (fun z => swrap_range 32 z ltac:(done)) as Hr. change (2 ^ (32 - 1)) with 2147483648 in Hr.
    unfold seek_pos. rewrite Hi, bind_Some.
    destruct (Z.eqb_spec whence SEEK_SET); [eexists; split_and!; [done|apply Hr|done|unfold SEEK_SET, SEEK_CUR in *; lia]|].
    destruct (Z.eqb_spec whence SEEK_CUR); [eexists; split_and!; [done|apply Hr|done|done]|].
    destruct (Z.eqb_spec whence SEEK_END); eexists; (split_and!; [done|apply Hr|done|done]). }
  rewrite bind_Some. destruct (Z.ltb_spec pos 0); [by left|]. rewrite Hi, bind_Some.
  assert (Eu : u64 pos = pos) by (apply wrap_small; change (2 ^ 64) with 18446744073709551616; lia). rewrite Eu.
  destruct (Z.ltb_spec (i_size i) pos); [by left|]. right.
  destruct (set_file_spec s p f {| f_inode := f_inode f; f_count := f_count f; f_flags := f_flags f; f_pos := pos |} Hf)
    as (s' & -> & Hg & Hq & Hs & _).
  rewrite bind_Some. exists pos, s'. change (2 ^ 31) with 2147483648. by split_and!.
Qed.
End Seek.

(** ** Opening files *)

Section Files.
Context {A F : Type} {HO : HeapOps A} {H : BlockHeap A} {H0 : FlashDevice F}.
Variables (bh_head : Z) (stale_inode : Z -> inode) (file_base : Z).
Implicit Types (s : fsys A F) (fuel : nat) (p fd : Z).

(** The open files of the system and of the task. *)
Definition files s : list file * list Z := (file_tbl s, cur_filp s).

(** Follow a successful run of straight-line code. *)
Ltac run_step :=
  match goal with
  | E : Some _ = Some _ |- _ => injection E as E; subst
  | E : (_, _) = (_, _) |- _ => injection E as E; subst
  | E : None = Some _ |- _ => discriminate E
  | E : mbind _ ?o = Some _ |- _ => let Eo := fresh "Eo" in destruct o eqn:Eo; [rewrite bind_Some in E|discriminate E]
  | E : context [let '(_, _) := ?x in _] |- _ => destruct x
  | E : (if ?b then _ else _) = Some _ |- _ => destruct b
  | E : match ?o with Some _ => _ | None => _ end = Some _ |- _ => destruct o
  | E : match ?o with NoSuperOps => _ | MinixSops => _ end = Some _ |- _ => destruct o
  | E : match ?o with NoOps => _ | FileOps => _ | DirOps => _ end = Some _ |- _ => destruct o
  end.
Ltac run := cbn beta iota zeta in *; repeat (run_step; cbn beta iota zeta in *).

Lemma falloc_files n s r s' : falloc n s = Some (r, s') -> files s' = files s.
Proof. unfold falloc. intros E. by run. Qed.
Lemma ffree_files a s s' : ffree a s = Some s' -> files s' = files s.
Proof. unfold ffree. intros E. by run. Qed.
Lemma fget_blk_files bd blk s r s' : fget_blk bh_head bd blk s = Some (r, s') -> files s' = files s.
Proof. unfold fget_blk. intros E. by run. Qed.
Lemma fbread_files bd blk s r s' : fbread bh_head bd blk s = Some (r, s') -> files s' = files s.
Proof. unfold fbread. intros E. by run. Qed.

Lemma get_new_inode_files sb ino s r s' : get_new_inode stale_inode sb ino s = Some (r, s') -> files s' = files s.
Proof.
  unfold get_new_inode, minix_alloc_inode. intros E. run.
  match goal with Ef : falloc _ s = Some _ |- _ => apply falloc_files in Ef; exact Ef end.
Qed.
Lemma get_inode_files sb ino s r s' : get_inode stale_inode sb ino s = Some (r, s') -> files s' = files s.
Proof. unfold get_inode. intros E. run; [done|]. by eapply get_new_inode_files. Qed.

Lemma raw_inode_files sb ino s r s' : minix_raw_inode bh_head sb ino s = Some (r, s') -> files s' = files s.
Proof.
  unfold minix_raw_inode. intros E. run; [done|].
  match goal with Ef : fbread _ _ _ s = Some _ |- _ => apply fbread_files in Ef; exact Ef end.
Qed.

Lemma iget_files sb ino s r s' : minix_iget bh_head stale_inode sb ino s = Some (r, s') -> files s' = files s.
Proof.
  unfold minix_iget. intros E. run; try done;
    repeat match goal with
    | Ef : get_inode _ _ _ _ = Some _ |- _ => apply get_inode_files in Ef
    | Ef : minix_raw_inode _ _ _ _ = Some _ |- _ => apply raw_inode_files in Ef end; unfold files in *; cbn in *; congruence.
Qed.

Lemma inode_blk_files p off s r s' : inode_get_blk bh_head p off s = Some (r, s') -> files s' = files s.
Proof.
  unfold inode_get_blk. intros E. run; try done;
    repeat match goal with Ef : fget_blk _ _ _ _ = Some _ |- _ => apply fget_blk_files in Ef end; congruence.
Qed.

Lemma lookup_files fuel p sb name off sz s r s' :
  lookup_from bh_head stale_inode fuel p sb name off sz s = Some (r, s') -> files s' = files s.
Proof.
  revert off s. induction fuel as [|fuel IH]; intros off s E; cbn [lookup_from] in E; [done|]. run; try done.
  - apply inode_blk_files in Eo. apply iget_files in E. congruence.
  - apply inode_blk_files in Eo. apply IH in E. congruence.
Qed.

Lemma op_lookup_files fuel p name s r s' : op_lookup bh_head stale_inode fuel p name s = Some (r, s') -> files s' = files s.
Proof. unfold op_lookup, minix_lookup. intros E. run; try done. by eapply lookup_files. Qed.

Lemma namei_loop_files n fuel dir path name s r s' :
  namei_loop bh_head stale_inode n fuel dir path name s = Some (r, s') -> files s' = files s.
Proof.
  revert dir path s. induction n as [|n IH]; intros dir path s E; cbn [namei_loop] in E; [done|]. run; try done.
  all: match goal with Ef : op_lookup _ _ _ _ _ _ = Some _ |- _ => apply op_lookup_files in Ef as E2 end.
  - by rewrite E2.
  - apply IH in E. rewrite E, E2. done.
Qed.

Lemma namei_files fuel cur path s r s' : namei bh_head stale_inode fuel cur path s = Some (r, s') -> files s' = files s.
Proof.
  unfold namei. intros E. run; try done.
  all: repeat match goal with
    | Ef : falloc _ _ = Some _ |- _ => apply falloc_files in Ef
    | Ef : ffree _ _ = Some _ |- _ => apply ffree_files in Ef
    | Ef : namei_loop _ _ _ _ _ _ _ _ = Some _ |- _ => apply namei_loop_files in Ef end; congruence.
Qed.

(** [i] is the first index of [l] whose entry passes the test. *)
Definition first_index {X : Type} (q : X -> bool) (l : list X) (i : Z) : Prop :=
  (exists x, arr_get l i = Some x /\ q x = true) /\ forall j x, arr_get l j = Some x -> j < i -> q x = false.

Lemma find_first {X : Type} (q : X -> bool) (l : list X) (n : nat) :
  length l = n ->
  let i := find_up n 0 (fun j => match arr_get l j with Some x => q x | None => false end) in
  (Z.of_nat n <= i /\ Forall (fun x => q x = false) l) \/ (0 <= i < Z.of_nat n /\ first_index q l i).
Proof.
  intros Hn i. destruct (find_up_spec n 0 (fun j => match arr_get l j with Some x => q x | None => false end)) as (Hr & Hlo & Hhit).
  fold i in Hr, Hlo, Hhit.
  assert (Hlt : forall j x, arr_get l j = Some x -> j < i -> q x = false).
  { intros j x E Hj. pose proof (arr_get_range _ _ _ E). specialize (Hlo j ltac:(lia)). by rewrite E in Hlo. }
  destruct (Z.ltb_spec i (Z.of_nat n)) as [Hi|Hi]; [right|left]; (split; [lia|]).
  - split; [|done]. specialize (Hhit ltac:(lia)). destruct (arr_get l i) as [x|]; [by exists x|done].
  - apply Forall_lookup. intros j x E. rewrite <- arr_get_nat in E. pose proof (arr_get_range _ _ _ E). apply (Hlt _ _ E). lia.
Qed.

Lemma first_index_none {X : Type} (q : X -> bool) (l : list X) i : Forall (fun x => q x = false) l -> ~ first_index q l i.
Proof. intros Hf [(x & E & Hq) _]. rewrite Forall_lookup in Hf. unfold arr_get in E. destruct (0 <=? i); [|done]. apply Hf in E. congruence. Qed.

Lemma first_index_eq {X : Type} (q : X -> bool) (l : list X) i j : first_index q l i -> first_index q l j -> i = j.
Proof.
  intros [(x & Ex & Hx) Hi] [(y & Ey & Hy) Hj]. destruct (Z.lt_trichotomy i j) as [Hc|[Hc|Hc]]; [|done|].
  - rewrite (Hj _ _ Ex Hc) in Hx. done.
  - rewrite (Hi _ _ Ey Hc) in Hy. done.
Qed.

Lemma file_index_of_ptr s i : 0 <= i < Z.of_nat (length (file_tbl s)) -> file_index file_base (file_ptr file_base i) s = Some i.
Proof.
  intros Hi. unfold file_index, file_ptr, sizeof_file. replace (file_base + 32 * i - file_base) with (i * 32) by lia.
  rewrite Z.mod_mul, Z.div_mul by lia. destruct (Z.leb_spec 0 (i * 32)); [|lia]. destruct (Z.ltb_spec i (Z.of_nat (length (file_tbl s)))); [done|lia].
Qed.

(** [file_open] in each of its outcomes: no descriptor left, no file entry left,
    no such path (the tables are what they were), or the first free descriptor
    bound to the first free entry, which is the only one that changes. *)
Theorem file_open_correct s fuel filename flag mode :
  length (cur_filp s) = Z.to_nat NR_OPEN -> length (file_tbl s) = Z.to_nat NR_FILE ->
  let open := file_open bh_head stale_inode file_base fuel filename flag mode s in
  let free_slot := first_index (fun p => p =? NULL) (cur_filp s) in
  let free_entry := first_index (fun f => f_count f =? 0) (file_tbl s) in
  ((forall fd, ~ free_slot fd) -> open = Some (-1, s)) /\
  ((exists fd, free_slot fd) -> (forall i, ~ free_entry i) -> open = Some (-2, s)) /\
  (forall fd i p s1, free_slot fd -> free_entry i ->
    namei bh_head stale_inode fuel NULL filename
      (set_cur_filp (<[Z.to_nat fd := file_ptr file_base i]> (cur_filp s)) s) = Some (p, s1) ->
    open = Some (if p =? NULL then (-3, set_cur_filp (cur_filp s) s1)
                 else (fd, set_file_tbl (<[Z.to_nat i := {| f_inode := p; f_count := 1; f_flags := s32 flag; f_pos := 0 |}]>
                                           (file_tbl s)) s1)) /\
    files s1 = (file_tbl s, <[Z.to_nat fd := file_ptr file_base i]> (cur_filp s))).
Proof.
  intros Hl Ht open slot entry. unfold open, file_open.
  pose proof (find_first (fun p => p =? NULL) (cur_filp s) _ Hl) as Hfd.
  pose proof (find_first (fun f => f_count f =? 0) (file_tbl s) _ Ht) as Hfi.
  change (find_up _ _ _) with (free_fd s) in Hfd. change (find_up _ _ _) with (free_file s) in Hfi.
  cbn zeta in Hfd, Hfi. generalize dependent (free_fd s). intros fd0 Hfd. generalize dependent (free_file s). intros i0 Hfi.
  destruct Hfd as [[Hfd Hfull]|[Hfd Hfirst]]; (destruct (Z.leb_spec NR_OPEN fd0); [try (unfold NR_OPEN in *; lia)|try (unfold NR_OPEN in *; lia)]).
  { pose proof (first_index_none (fun p => p =? NULL) (cur_filp s)) as Hn. split_and!; [done|intros [fd E]; destruct (Hn _ Hfull E)|].
    intros fd i p s1 E. destruct (Hn _ Hfull E). }
  split; [intros Hn; destruct (Hn _ Hfirst)|].
  destruct Hfi as [[Hfi Hfull]|[Hfi Hfirst']]; (destruct (Z.leb_spec NR_FILE i0); [try (unfold NR_FILE in *; lia)|try (unfold NR_FILE in *; lia)]).
  { split; [done|]. intros fd i p s1 _ E. destruct (first_index_none (fun f => f_count f =? 0) (file_tbl s) i Hfull E). }
  split; [intros _ Hn; destruct (Hn _ Hfirst')|].
  intros fd i p s1 E1 E2 Hn. rewrite (first_index_eq _ _ _ _ E1 Hfirst), (first_index_eq _ _ _ _ E2 Hfirst') in Hn |- *.
  pose proof (namei_files _ _ _ _ _ _ Hn) as Hs1. unfold files in Hs1. cbn [file_tbl cur_filp set_cur_filp] in Hs1.
  split; [|exact Hs1]. injection Hs1 as Htbl Hcur.
  destruct Hfirst' as [(old & Eold & Hc) _]. apply Z.eqb_eq in Hc.
  unfold set_fd. rewrite (arr_set_Some (cur_filp s)) by (rewrite Hl; unfold NR_OPEN in *; lia).
  rewrite !bind_Some, Hn, bind_Some.
  assert (Hi1 : file_index file_base (file_ptr file_base i0) s1 = Some i0) by (apply file_index_of_ptr; rewrite Htbl, Ht; lia).
  unfold get_file. rewrite Hi1, bind_Some, Htbl, Eold, bind_Some.
  destruct (Z.eqb_spec p NULL) as [->|Hp].
  - rewrite Hcur, arr_set_Some, !bind_Some by (rewrite length_insert, Hl; unfold NR_OPEN in *; lia).
    unfold set_file, file_index. cbn [set_cur_filp file_tbl]. fold (file_index file_base (file_ptr file_base i0) s1).
    rewrite Hi1, bind_Some, Htbl, arr_set_Some, bind_Some, bind_Some by (rewrite Ht; unfold NR_FILE in *; lia).
    do 2 f_equal. destruct Hfirst as [(x & Ex & Hx) _]. apply Z.eqb_eq in Hx.
    rewrite list_insert_insert_eq. subst x.
    assert (R1 : <[Z.to_nat fd0 := NULL]> (cur_filp s) = cur_filp s).
    { apply list_insert_id. by rewrite <- arr_get_nat, Z2Nat.id by lia. }
    assert (R2 : <[Z.to_nat i0 := {| f_inode := f_inode old; f_count := 0; f_flags := f_flags old; f_pos := f_pos old |}]> (file_tbl s)
                 = file_tbl s1).
    { rewrite Htbl. apply list_insert_id. rewrite <- arr_get_nat, Z2Nat.id, Eold by lia. rewrite <- Hc. by destruct old. }
    rewrite R1, R2. done.
  - unfold set_file. rewrite Hi1, bind_Some, Htbl, arr_set_Some, !bind_Some by (rewrite Ht; unfold NR_FILE in *; lia). done.
Qed.
End Files.

(** ** Reading and writing at the position of an open file *)

Section Transfer.
Context {A F : Type} {HO : HeapOps A} {H : BlockHeap A} {H0 : FlashDevice F}.
Variables (bh_head : Z) (file_base : Z).
Implicit Types (s : fsys A F) (fuel : nat) (p : Z) (f : file).

(** The file [f] after [n] bytes. *)
Definition moved f (n : Z) : file :=
  {| f_inode := f_inode f; f_count := f_count f; f_flags := f_flags f; f_pos := f_pos f + n |}.

(** [p] is open on a regular file whose next [count] bytes are in direct blocks. *)
Record at_data s (bl : list (Z * buffer_head)) p f (i : inode) (sb : super_block) (count : Z) : Prop := {
  ad_file : get_file file_base p s = Some f;
  ad_inode : inodes s !! f_inode f = Some i;
  ad_op : i_op i = FileOps;
  ad_super : supers s !! i_sb i = Some sb;
  ad_direct : direct bl (sb_bd sb) i (f_pos f) count }.

(** What the transfer of [count] bytes does to the open files. *)
Definition files_moved s s' p f (count : Z) (c : cache A F) : Prop :=
  s' = set_file_tbl (file_tbl s') (set_fc c s) /\ get_file file_base p s' = Some (moved f count) /\
  forall q, q <> p -> get_file file_base q s' = get_file file_base q s.

Lemma advance_spec s c p f n :
  get_file file_base p s = Some f -> 0 <= f_pos f + n < 2 ^ 64 ->
  exists s', advance file_base p n (set_fc c s) = Some s' /\ files_moved s s' p f n c.
Proof.
  intros Hf Hn. unfold advance. change (get_file file_base p (set_fc c s)) with (get_file file_base p s). rewrite Hf, bind_Some.
  destruct (set_file_spec file_base (set_fc c s) p f {| f_inode := f_inode f; f_count := f_count f; f_flags := f_flags f;
    f_pos := u64 (f_pos f + n) |} Hf) as (s' & -> & Hg & Hq & Hs & _).
  exists s'. split; [done|]. split_and!; [exact Hs| |exact Hq]. rewrite Hg. unfold moved. by rewrite wrap_small.
Qed.

Lemma position_facts bl bd i pos count : direct bl bd i pos count -> 0 < count -> s32 pos = pos /\ 0 <= pos + count < 2 ^ 64.
Proof.
  intros (Hp & Hm & _) Hc. split; [|change (2 ^ 64) with 18446744073709551616; lia].
  apply swrap_small; [done|]. change (2 ^ (32 - 1)) with 2147483648. lia.
Qed.

Lemma file_read_spec s L bl p f i sb buf count fuel r :
  head_static (A := A) bh_head -> cache_ok bh_head (fc s) L bl -> at_data s bl p f i sb count -> 0 < count ->
  (forall x, buf <= x < buf + count -> storable L x) -> room (cheap (fc s)) (32 + r) -> (0 < fuel)%nat ->
  exists c s', file_read bh_head file_base fuel p buf count s = Some (count, s') /\ files_moved s s' p f count c /\
    cache_ok bh_head c L bl /\ room (cheap c) r /\ (forall a, fl_data (chip c) a = fl_data (chip (fc s)) a) /\
    (forall j, 0 <= j < count -> ldb (cmem c) (buf + j) = file_byte (chip (fc s)) i (f_pos f + j)) /\
    (forall x, storable L x -> x < buf \/ buf + count <= x -> ldb (cmem c) x = ldb (fmem s) x).
Proof.
  intros Hst Hck [Hf Hi Hop Hs Hd] Hc Hbuf Hr Hfuel. destruct (position_facts _ _ _ _ _ Hd Hc) as [Hp Hn].
  unfold file_read. destruct (Z.leb_spec count 0); [lia|]. rewrite Hf, bind_Some. unfold op_read. rewrite Hi, bind_Some, Hop, Hp.
  destruct (read_loop_spec bh_head (S (Z.to_nat count)) fuel s L bl (f_inode f) i sb buf (f_pos f) count count 7 r)
    as (c & E & Hck' & Hr' & Hch & Hb & Hk); try done; try lia.
  { right. destruct Hd as (Hp0 & _). pose proof (Z.div_pos (f_pos f) 1024). lia. }
  unfold minix_read. rewrite E, bind_Some. destruct (Z.ltb_spec 0 count); [|lia].
  destruct (advance_spec s c p f count Hf Hn) as (s' & -> & Hm). rewrite bind_Some.
  destruct (Z.eqb_spec count 0); [lia|]. exists c, s'. by split_and!.
Qed.

Lemma file_write_spec s L bl p f i sb buf count r :
  head_static (A := A) bh_head -> cache_ok bh_head (fc s) L bl -> at_data s bl p f i sb count -> distinct_zones i -> 0 < count ->
  (forall x, buf <= x < buf + count -> storable L x) -> room (cheap (fc s)) (32 + r) ->
  exists c s' n0, (forall fuel, (n0 < fuel)%nat -> file_write bh_head file_base fuel p buf count s = Some (count, s')) /\
    files_moved s s' p f count c /\ cache_ok bh_head c L bl /\ room (cheap c) r /\
    (forall j, 0 <= j < count -> file_byte (chip c) i (f_pos f + j) = ldb (fmem s) (buf + j)) /\
    (forall x, storable L x -> ldb (cmem c) x = ldb (fmem s) x).
Proof.
  intros Hst Hck [Hf Hi Hop Hs Hd] Hz Hc Hbuf Hr. destruct (position_facts _ _ _ _ _ Hd Hc) as [Hp Hn].
  destruct (write_loop_spec bh_head (S (Z.to_nat count)) s L bl (f_inode f) i sb buf (f_pos f) count count 7 r)
    as (c & n0 & E & Hck' & Hr' & Hb & _ & Hk); try done; try lia.
  { right. destruct Hd as (Hp0 & _). pose proof (Z.div_pos (f_pos f) 1024). lia. }
  destruct (advance_spec s c p f count Hf Hn) as (s' & Ea & Hm). exists c, s', n0. split_and!; try done.
  intros fuel Hfu. unfold file_write. destruct (Z.leb_spec count 0); [lia|]. rewrite Hf, bind_Some.
  unfold op_write. rewrite Hi, bind_Some, Hop, Hp. unfold minix_write. rewrite (E _ Hfu), bind_Some.
  destruct (Z.ltb_spec 0 count); [|lia]. rewrite Ea, bind_Some. by destruct (Z.eqb_spec count 0); [lia|].
Qed.

(** Seeking to an absolute position inside the file. *)
Lemma file_lseek_set s p f i off :
  get_file file_base p s = Some f -> inodes s !! f_inode f = Some i -> 0 <= off <= i_size i -> off < 2 ^ 31 ->
  exists s', file_lseek file_base p off SEEK_SET s = Some (off, s') /\ files_moved s s' p f (off - f_pos f) (fc s).
Proof.
  change (2 ^ 31) with 2147483648. intros Hf Hi Ho Hlt. unfold file_lseek, seek_pos. rewrite Hf, !bind_Some. cbn [Z.eqb SEEK_SET].
  assert (Es : s32 off = off) by (apply swrap_small; [done|]; change (2 ^ (32 - 1)) with 2147483648; lia). rewrite Es, bind_Some.
  destruct (Z.ltb_spec off 0); [lia|]. rewrite Hi, bind_Some.
  assert (Eu : u64 off = off) by (apply wrap_small; change (2 ^ 64) with 18446744073709551616; lia). rewrite Eu.
  destruct (Z.ltb_spec (i_size i) off); [lia|].
  destruct (set_file_spec file_base s p f {| f_inode := f_inode f; f_count := f_count f; f_flags := f_flags f; f_pos := off |} Hf)
    as (s' & -> & Hg & Hq & Hs & _).
  rewrite bind_Some. exists s'. split; [done|]. split_and!; [|rewrite Hg; unfold moved; do 2 f_equal; lia|done].
  assert (E : set_fc (fc s) s = s) by (by destruct s). by rewrite E.
Qed.
End Transfer.

(** ** Concrete runs *)

(** The path "//ab" is at 8192. *)
Definition path_mem : mem := put ∅ 8192 [c_slash; c_slash; 97; 98; 0].

Example path_len_correct_witness : path_len 5 path_mem 8192 = Some (2, 2).
Proof.
  apply (path_len_correct 5 path_mem 8192 2 [97; 98] 0 []); [done| | |by right|done|cbn; lia|cbn; lia|done].
  - intros k c Hk. cbn in Hk. do 5 (destruct k as [|k]; [injection Hk as <-; reflexivity|]). done.
  - repeat constructor; done.
Defined.

(** A file of 2000 bytes at position 10, open on the entry 2 of [file_tbl]. *)
Definition fsys_open : fsys kheap board_flash :=
  set_file_tbl (<[2%nat := {| f_inode := 700; f_count := 1; f_flags := 0; f_pos := 10 |}]> (file_tbl fsys0)) fsys0.

Example lseek_bounds_witness :
  exists s', file_lseek 4096 (file_ptr 4096 2) 30 SEEK_CUR fsys_open = Some (40, s') /\
    get_file 4096 (file_ptr 4096 2) s' = Some {| f_inode := 700; f_count := 1; f_flags := 0; f_pos := 40 |}.
Proof.
  destruct (lseek_bounds 4096 fsys_open (file_ptr 4096 2) {| f_inode := 700; f_count := 1; f_flags := 0; f_pos := 10 |} file0 30 SEEK_CUR
    eq_refl (lookup_singleton_eq _ _)) as [E|(pos & s' & E & _ & _ & Hg & _ & _ & _ & Hc)].
  - discriminate E.
  - specialize (Hc eq_refl). cbn in Hc. change (s32 (s32 10 + 30)) with 40 in Hc. subst pos. by exists s'.
Defined.

(** The path "/" is at 8192. *)
Definition fsys_path : fsys kheap board_flash := set_fmem (put (fmem fsys0) 8192 [c_slash; 0]) fsys0.

Lemma namei_root :
  exists s1, namei bh_head0 (fun _ => file0) 9 NULL 8192
    (set_cur_filp (<[Z.to_nat 0 := file_ptr 4096 0]> (cur_filp fsys_path)) fsys_path) = Some (700, s1).
Proof.
  destruct (namei _ _ _ _ _ _) as [[p s1]|] eqn:E.
  - assert (Ep : fst <$> namei bh_head0 (fun _ => file0) 9 NULL 8192
      (set_cur_filp (<[Z.to_nat 0 := file_ptr 4096 0]> (cur_filp fsys_path)) fsys_path) = Some 700) by (vm_compute; reflexivity).
    rewrite E in Ep. injection Ep as ->. by exists s1.
  - exfalso. assert (Ep : fst <$> namei bh_head0 (fun _ => file0) 9 NULL 8192
      (set_cur_filp (<[Z.to_nat 0 := file_ptr 4096 0]> (cur_filp fsys_path)) fsys_path) = Some 700) by (vm_compute; reflexivity).
    by rewrite E in Ep.
Qed.

Lemma first_index_head {X : Type} (q : X -> bool) x (l : list X) : q x = true -> first_index q (x :: l) 0.
Proof. intros Hx. split; [by exists x|]. intros j y Hj. pose proof (arr_get_range _ _ _ Hj). lia. Qed.

Example file_open_correct_witness :
  exists s', file_open bh_head0 (fun _ => file0) 4096 9 8192 2 0 fsys_path = Some (0, s') /\
    file_tbl s' = <[0%nat := {| f_inode := 700; f_count := 1; f_flags := 2; f_pos := 0 |}]> (file_tbl fsys0).
Proof.
  destruct namei_root as [s1 E].
  destruct (file_open_correct bh_head0 (fun _ => file0) 4096 fsys_path 9 8192 2 0 eq_refl eq_refl) as (_ & _ & H).
  destruct (H 0 0 700 s1) as [E2 E3]; [| |exact E|].
  - exact (first_index_head _ 0 (replicate 31 0) eq_refl).
  - exact (first_index_head _ _ (replicate 63 {| f_inode := 0; f_count := 0; f_flags := 0; f_pos := 0 |}) eq_refl).
  - eexists. split; [exact E2|reflexivity].
Defined.
