(* ===== verification/Namei.v ===== *)
(** Inodes, directories and paths against the device: what fs/minix_fs.c and
    fs/fs.c find when they look for a file.

    The device's bytes determine inodes, directory entries and the outcome of a
    path ([dir_find], [resolve]).  [fs_ok] is the invariant of a mounted file
    system: buffers and inodes in memory agree with the device.  The lookups of
    the code return what the device says and keep the invariant. *)

From S2P Require Import Prelude Mem Lib DList Page Kmalloc Heap Buffer Task Minix File.
Local Open Scope Z_scope.

(** ** The file system on the device *)

Section Disk.
Implicit Types (f : Z -> Z) (b : minix_sb_info) (ino off e a : Z) (nm str : list Z).

(** Little-endian numbers. *)
Fixpoint dld (n : nat) f a : Z := match n with O => 0 | S n' => f a + 256 * dld n' f (a + 1) end.

(** The record of an inode, and its fields. *)
Definition ino_block b ino : Z := 2 + s_imap_blocks b + s_zmap_blocks b + (ino - 1) / 32.
Definition ino_addr b ino : Z := ino_block b ino * 1024 + 32 * ((ino - 1) mod 32).
Definition d_mode f b ino : Z := dld 2 f (ino_addr b ino).
Definition d_size f b ino : Z := dld 4 f (ino_addr b ino + 4).
Definition d_zone f b ino k : Z := dld 2 f (ino_addr b ino + 14 + 2 * k).

(** The address of byte [off] of a file in direct blocks. *)
Definition d_addr f b ino off : Z := d_zone f b ino (off / 1024) * 1024 + off mod 1024.
Definition d_byte f b ino off : Z := f (d_addr f b ino off).

(** Directory entry [e] of [ino]: its inode number and whether it has the name. *)
Definition entry_ino f b ino e : Z := dld 2 f (d_addr f b ino (32 * e)).
Definition entry_has f b ino nm e : bool :=
  forallb (fun k => f (d_addr f b ino (32 * e) + 2 + Z.of_nat k) =? default 0 (nm !! k)) (seq 0 (S (length nm))).

(** All entries of the blocks the size reaches into, the last one whole. *)
Definition entries f b ino : list Z := Z.of_nat <$> seq 0 (Z.to_nat (32 * ((d_size f b ino + 1023) / 1024))).

(** The inode number found under a name, 0 when there is none. *)
Definition dir_find f b ino nm : Z :=
  match List.find (entry_has f b ino nm) (entries f b ino) with Some e => entry_ino f b ino e | None => 0 end.

(** A path: the components, and where they lead from [ino]. *)
Fixpoint components (cur str : list Z) : list (list Z) :=
  match str with
  | [] => match cur with [] => [] | _ => [cur] end
  | c :: l => if c =? c_slash then match cur with [] => components [] l | _ => cur :: components [] l end
              else components (cur ++ [c]) l
  end.
Fixpoint resolve f b ino (cs : list (list Z)) : Z :=
  match cs with
  | [] => ino
  | nm :: cs' => let n := dir_find f b ino nm in if n =? 0 then 0 else resolve f b n cs'
  end.

(** A directory the code can search for [nm]: in direct blocks, with a number
    the inode table has. *)
Definition searchable f b ino nm : Prop :=
  S_ISDIR (d_mode f b ino) = true /\ d_size f b ino <= 7168 /\ Z.of_nat (length nm) < NAME_LEN /\
  dir_find f b ino nm <= s_ninodes b.
Fixpoint walkable f b ino (cs : list (list Z)) : Prop :=
  match cs with
  | [] => True
  | nm :: cs' => searchable f b ino nm /\ (dir_find f b ino nm <> 0 -> walkable f b (dir_find f b ino nm) cs')
  end.

(** Block [blk] of the device is at [d] in memory. *)
Definition holds (m : mem) f d blk : Prop := forall j, 0 <= j < 1024 -> ldb m (d + j) = f (blk * 1024 + j).

Lemma dld_holds n m f d blk o :
  holds m f d blk -> 0 <= o -> o + Z.of_nat n <= 1024 -> ld n m (d + o) = dld n f (blk * 1024 + o).
Proof.
  intros Hh. revert o. induction n as [|n IH]; intros o Ho Hn; cbn [ld dld]; [done|].
  change (ld (S n) m (d + o)) with (ldb m (d + o) + 256 * ld n m (d + o + 1)). rewrite (Hh o) by lia. replace (d + o + 1) with (d + (o + 1)) by lia. rewrite IH by lia. do 3 f_equal. lia.
Qed.

Lemma dld_range n f a : (forall o, 0 <= f o < 256) -> 0 <= dld n f a < 2 ^ (8 * Z.of_nat n).
Proof.
  intros Hf. revert a. induction n as [|n IH]; intros a; cbn [dld]; [done|].
  specialize (IH (a + 1)). specialize (Hf a). replace (8 * Z.of_nat (S n)) with (8 + 8 * Z.of_nat n) by lia.
  rewrite Z.pow_add_r by lia. lia.
Qed.

Lemma dld_ext n f g a : (forall o, f o = g o) -> dld n f a = dld n g a.
Proof. intros Hf. revert a. induction n as [|n IH]; intros a; cbn [dld]; [done|]. by rewrite Hf, IH. Qed.

Lemma d_zone_block f b ino k : (forall o, 0 <= f o < 256) -> block_in (d_zone f b ino k).
Proof. intros Hf. unfold block_in. apply (dld_range 2 f _ Hf). Qed.

(** The number of an inode the table has, and its block. *)
Definition geometry b : Prop :=
  0 <= s_imap_blocks b /\ 0 <= s_zmap_blocks b /\ 2 + s_imap_blocks b + s_zmap_blocks b + s_ninodes b / 32 < 65536.

Lemma ino_block_in b ino : geometry b -> 1 <= ino <= s_ninodes b -> block_in (ino_block b ino).
Proof.
  intros (H1 & H2 & H3) Hi. unfold block_in, ino_block.
  assert ((ino - 1) / 32 <= s_ninodes b / 32) by (apply Z.div_le_mono; lia). pose proof (Z.div_pos (ino - 1) 32). lia.
Qed.
End Disk.

(** ** Inodes in memory *)

(** [i] was read from the device. *)
Record on_disk (f : Z -> Z) (b : minix_sb_info) (i : inode) : Prop := {
  od_ino : 1 <= i_ino i <= s_ninodes b;
  od_mode : i_mode i = d_mode f b (i_ino i);
  od_size : i_size i = d_size f b (i_ino i);
  od_zones : forall k, 0 <= k < 9 -> i_zone i k = Some (d_zone f b (i_ino i) k);
  od_op : i_op i = if S_ISDIR (i_mode i) then DirOps else if S_ISREG (i_mode i) then FileOps else NoOps;
  od_state : Z.land (i_state i) I_NEW = 0 }.

Lemma on_disk_count f b i n : on_disk f b i -> on_disk f b (with_count n i).
Proof. intros []. by split. Qed.

(** What [minix_iget] makes of a new inode. *)
Lemma fill_on_disk (m : mem) (f : Z -> Z) b (j : inode) d :
  holds m f d (ino_block b (i_ino j)) -> 1 <= i_ino j <= s_ninodes b -> i_state j = I_NEW -> i_op j = NoOps ->
  on_disk f b (fill_inode m (d + 32 * ((i_ino j - 1) mod 32)) j).
Proof.
  intros Hh Hi Hs Ho. set (o := 32 * ((i_ino j - 1) mod 32)).
  assert (Hlo : 0 <= o /\ o + 32 <= 1024) by (unfold o; pose proof (Z.mod_pos_bound (i_ino j - 1) 32); lia).
  assert (Hld : forall n k, 0 <= k -> k + Z.of_nat n <= 32 -> ld n m (d + o + k) = dld n f (ino_addr b (i_ino j) + k)).
  { intros n k Hk Hn. rewrite <- Z.add_assoc, (dld_holds n m f d _ (o + k) Hh) by lia. unfold ino_addr. fold o. f_equal. lia. }
  assert (Em : ld16 m (d + o) = d_mode f b (i_ino j)).
  { rewrite <- (Z.add_0_r (d + o)), (Hld 2%nat 0) by lia. by rewrite Z.add_0_r. }
  split; cbn [fill_inode i_ino i_mode i_size i_op i_state].
  - done.
  - done.
  - apply (Hld 4%nat 4); lia.
  - intros k Hk. unfold i_zone. cbn [i_data fill_inode]. unfold arr_get. destruct (Z.leb_spec 0 k); [|lia].
    rewrite lookup_app_l by (unfold raw_zones; rewrite length_map, length_seq; lia).
    unfold raw_zones. rewrite list_lookup_fmap, lookup_seq_lt by lia. cbn [fmap option_fmap option_map]. f_equal.
    rewrite Nat.add_0_l, Z2Nat.id by lia. replace (d + o + 14 + 2 * k) with (d + o + (14 + 2 * k)) by lia.
    rewrite (Hld 2%nat) by lia. unfold d_zone. f_equal. lia.
  - by rewrite Ho.
  - by rewrite Hs.
Qed.

(** ** Names *)

(** Comparing a string with a field of characters: equal when the field starts
    with the string and its terminator. *)
Lemma strcmp_field fuel (m : mem) x y nm :
  cstr m x nm -> (length nm < fuel)%nat ->
  exists r, strcmp fuel m x y = Some r /\
    (r = 0 <-> forall k, (k <= length nm)%nat -> ldb m (y + Z.of_nat k) = default 0 (nm !! k)).
Proof.
  revert x y fuel. induction nm as [|c nm IH]; intros x y fuel Hc Hf; (destruct fuel as [|fuel]; [cbn in Hf; lia|]); cbn [strcmp].
  - apply cstr_nil in Hc. rewrite Hc. destruct (Z.eqb_spec (ldb m y) 0) as [E|E].
    + rewrite andb_false_r. eexists. split; [done|]. split; [|lia]. intros _ k Hk. cbn in Hk.
      replace k with O by lia. by rewrite Z.add_0_r.
    + destruct (Z.eqb_spec (0 - ldb m y) 0); [lia|]. cbn [andb negb]. eexists. split; [done|]. split; [lia|].
      intros Hk. specialize (Hk 0%nat ltac:(cbn; lia)). rewrite Z.add_0_r in Hk. done.
  - apply cstr_cons in Hc as (Hc1 & Hc2 & Hc). cbn [length] in *. rewrite Hc1.
    destruct (Z.eqb_spec (c - ldb m y) 0) as [E|E].
    + assert (ldb m y = c) as Ey by lia. rewrite Ey. destruct (Z.eqb_spec c 0); [done|]. cbn [andb negb].
      destruct (IH (x + 1) (y + 1) fuel Hc ltac:(lia)) as (r & -> & Hr). exists r. split; [done|]. rewrite Hr. split.
      * intros Hk [|k] Hle; [by rewrite Z.add_0_r|]. change (default 0 ((c :: nm) !! S k)) with (default 0 (nm !! k)).
        rewrite <- Hk by lia. f_equal. lia.
      * intros Hk k Hle. specialize (Hk (S k) ltac:(lia)).
        change (default 0 ((c :: nm) !! S k)) with (default 0 (nm !! k)) in Hk. rewrite <- Hk. f_equal. lia.
    + cbn [andb]. eexists. split; [done|]. split; [lia|]. intros Hk. specialize (Hk 0%nat ltac:(lia)).
      rewrite Z.add_0_r in Hk. cbn in Hk. lia.
Qed.

(** Searching the 32 entries of a block that is in memory at [d]: they are the
    entries from [32 k] of the directory. *)
Lemma scan_entries_spec (f : Z -> Z) b ino k (m : mem) name d nm n j :
  cstr m name nm -> Z.of_nat (length nm) < NAME_LEN -> holds m f d (d_zone f b ino k) -> 0 <= k -> (j + n <= 32)%nat ->
  scan_entries n m name (d + 32 * Z.of_nat j) =
  Some (entry_ino f b ino <$> List.find (entry_has f b ino nm) (Z.of_nat <$> seq (32 * Z.to_nat k + j) n)).
Proof.
  intros Hc Hl Hh Hk. revert j. induction n as [|n IH]; intros j Hj; [done|]. cbn [scan_entries seq fmap list_fmap List.find].
  set (e := Z.of_nat (32 * Z.to_nat k + j)).
  assert (He : 32 * e = 1024 * k + 32 * Z.of_nat j) by (unfold e; lia).
  assert (Ha : d_addr f b ino (32 * e) = d_zone f b ino k * 1024 + 32 * Z.of_nat j).
  { unfold d_addr. rewrite He. f_equal.
    - do 2 f_equal. symmetry. apply (Z.div_unique _ _ _ (32 * Z.of_nat j)); lia.
    - symmetry. apply (Z.mod_unique _ _ k); lia. }
  destruct (strcmp_field (S (Z.to_nat NAME_LEN)) m name (d + 32 * Z.of_nat j + 2) nm Hc) as (r & -> & Hr);
    [unfold NAME_LEN in *; lia|]. rewrite bind_Some.
  assert (Hm : (r =? 0) = entry_has f b ino nm e).
  { apply eq_true_iff_eq. rewrite Z.eqb_eq, Hr. unfold entry_has. rewrite forallb_forall. rewrite Ha. unfold NAME_LEN in Hl.
    split; intros Hx x Hin.
    - apply in_seq in Hin. apply Z.eqb_eq. rewrite <- Hx by lia.
      replace (d + 32 * Z.of_nat j + 2 + Z.of_nat x) with (d + (32 * Z.of_nat j + 2 + Z.of_nat x)) by lia.
      rewrite Hh by lia. f_equal. lia.
    - specialize (Hx x ltac:(apply in_seq; lia)). apply Z.eqb_eq in Hx. rewrite <- Hx.
      replace (d + 32 * Z.of_nat j + 2 + Z.of_nat x) with (d + (32 * Z.of_nat j + 2 + Z.of_nat x)) by lia.
      rewrite Hh by lia. f_equal. lia. }
  rewrite Hm. destruct (entry_has f b ino nm e).
  - cbn [fmap option_fmap option_map]. do 2 f_equal. unfold entry_ino. rewrite Ha. apply dld_holds; [done|lia|lia].
  - replace (d + 32 * Z.of_nat j + sizeof_dir_entry) with (d + 32 * Z.of_nat (S j)) by (unfold sizeof_dir_entry; lia).
    rewrite IH by lia. do 5 f_equal. lia.
Qed.

(** ** Paths *)

Definition slash_free (l : list Z) : Prop := Forall (fun c => c <> c_slash) l.

(** A component up to the next slash or the end. *)
Lemma components_run cur str :
  cur <> [] -> exists comp rest, str = comp ++ rest /\ slash_free comp /\ (rest = [] \/ exists l, rest = c_slash :: l) /\
    components cur str = (cur ++ comp) :: components [] rest.
Proof.
  revert cur. induction str as [|c str IH]; intros cur Hc; cbn [components].
  - exists [], []. split_and!; [done|by apply Forall_nil|by left|]. rewrite app_nil_r. destruct cur; [congruence|done].
  - destruct (Z.eqb_spec c c_slash) as [->|Hn].
    + exists [], (c_slash :: str). split_and!; [done|by apply Forall_nil|right; by exists str|].
      rewrite app_nil_r. cbn [components]. rewrite Z.eqb_refl. destruct cur; [congruence|done].
    + destruct (IH (cur ++ [c])) as (comp & rest & -> & Hs & Hr & ->); [by destruct cur|].
      exists (c :: comp), rest. rewrite <- app_assoc. split_and!; [done|apply Forall_cons; by split|done|done].
Qed.

(** The slashes in front, the first component and what follows it. *)
Lemma components_step str :
  exists k comp rest, str = replicate k c_slash ++ comp ++ rest /\ slash_free comp /\
    (rest = [] \/ exists l, rest = c_slash :: l) /\ (comp = [] -> rest = []) /\
    components [] str = match comp with [] => [] | _ => comp :: components [] rest end.
Proof.
  induction str as [|c str IH].
  - exists O, [], []. split_and!; [done|by apply Forall_nil|by left|done|done].
  - cbn [components]. destruct (Z.eqb_spec c c_slash) as [->|Hn].
    + destruct IH as (k & comp & rest & -> & H1 & H2 & H3 & H4). by exists (S k), comp, rest.
    + destruct (components_run [c] str) as (comp & rest & -> & H1 & H2 & H3); [done|].
      exists O, (c :: comp), rest. split_and!; [done|apply Forall_cons; by split|done|done|exact H3].
Qed.

Lemma cstr_stored (m : mem) a str : cstr m a str -> stored m a (str ++ [0]).
Proof.
  intros (Hb & _ & Hz) k c Hk. destruct (decide (k < length str)%nat) as [Hlt|].
  - rewrite lookup_app_l in Hk by done. rewrite <- Hb, lookup_bytes in Hk by done. congruence.
  - apply lookup_lt_Some in Hk as Hk'. rewrite length_app in Hk'. cbn in Hk'.
    replace k with (length str) in * by lia. rewrite lookup_app_r, Nat.sub_diag in Hk by lia. cbn in Hk. congruence.
Qed.

Lemma cstr_drop (m : mem) a l1 l2 : cstr m a (l1 ++ l2) -> cstr m (a + Z.of_nat (length l1)) l2.
Proof.
  revert a. induction l1 as [|c l1 IH]; intros a; cbn [app length]; [by rewrite Z.add_0_r|].
  intros (_ & _ & Hc)%cstr_cons. specialize (IH _ Hc). by replace (a + Z.of_nat (S (length l1))) with (a + 1 + Z.of_nat (length l1)) by lia.
Qed.

(** One call of [path_len] on a string. *)
Lemma path_len_step fuel (m : mem) path str k comp rest :
  path <> NULL -> cstr m path str -> str = replicate k c_slash ++ comp ++ rest -> slash_free comp ->
  (rest = [] \/ exists l, rest = c_slash :: l) -> (comp = [] -> rest = []) -> (length str < fuel)%nat -> Z.of_nat (length str) < 2 ^ 31 ->
  path_len fuel m path = Some (Z.of_nat (length comp), if bool_decide (k = 0%nat /\ comp = []) then 0 else Z.of_nat k).
Proof.
  intros Hp Hc Hs Hf Hr Hn Hfu Hl. pose proof (cstr_pos m path str Hc) as Hpos.
  assert (exists d l, rest ++ [0] = d :: l /\ ends d /\ (rest = [] -> d = 0)) as (d & l & Ed & He & Hd0).
  { destruct Hr as [->|(l & ->)]; cbn; eexists _, _; (split; [done|]); [split; [by right|done]|split; [by left|done]]. }
  rewrite Hs, !length_app, length_replicate in Hfu, Hl.
  apply (path_len_correct fuel m path k comp d l); try done; try lia.
  - rewrite <- Ed. apply cstr_stored in Hc. rewrite Hs in Hc. by rewrite <- !app_assoc in Hc.
  - rewrite Hs, !Forall_app in Hpos. destruct Hpos as (_ & Hpos & _). unfold no_slash.
    apply Forall_forall. intros c Hin. unfold slash_free in Hf. rewrite Forall_forall in Hf, Hpos. specialize (Hf c Hin). specialize (Hpos c Hin). lia.
  - intros E. by apply Hd0, Hn.
Qed.

(** ** The mounted file system *)

(** The blocks of the heap, the cached buffers, the inodes in memory. *)
Record fview := { vL : gmap Z Z; vbl : list (Z * buffer_head); vps : list Z }.

Section Mounted.
Context {A F : Type} {HO : HeapOps A} {H : BlockHeap A} {H0 : FlashDevice F}.
Variables (bh_head : Z) (stale_inode : Z -> inode).
(** The super block, its device and the file system's data on it. *)
Variables (sb bd si : Z) (b : minix_sb_info).
Implicit Types (s : fsys A F) (v : fview) (fuel : nat) (p q d blk ino nw : Z) (i : inode).

(** The heap blocks of the file system. *)
Definition own v : list Z := blocks (vbl v) ++ map minix_i (vps v) ++ [sb].

(** Buffers and inodes agree with the device; [nw] is an inode being read. *)
Record fs_part nw s v : Prop := {
  fp_cache : cache_ok bh_head (fc s) (vL v) (vbl v);
  fp_coh : Forall (fun pb => (b_state pb.2 = BH_Uptodate /\ block_in (blk_no pb.2)) /\
                             holds (fmem s) (fl_data (chip (fc s))) (data pb.2) (blk_no pb.2)) (vbl v);
  fp_super : supers s !! sb = Some {| s_op := MinixSops; sb_bd := bd; s_fs_info := si |};
  fp_info : sbis s !! si = Some b;
  fp_nodes : dlist (lists (fc s)) (s_inodes sb) (map inode_list (vps v));
  fp_inodes : Forall (fun p => exists i, inodes s !! p = Some i /\ i_sb i = sb /\
                                (p = nw \/ on_disk (fl_data (chip (fc s))) b i)) (vps v);
  fp_blocks : Forall (fun p => exists n, vL v !! minix_i p = Some n /\ 152 <= n < 512) (vps v);
  fp_sblk : exists n, vL v !! sb = Some n /\ 40 <= n < 512;
  fp_sep : NoDup (own v) }.
Definition fs_ok s v : Prop := fs_part NULL s v.

(** The inode of a number that is in memory, if any. *)
Definition numbered (m : gmap Z inode) ino (l : list Z) : option Z :=
  List.find (fun p => match m !! p with Some i => i_ino i =? ino | None => false end) l.
Definition cached s v ino : option Z := numbered (inodes s) ino (vps v).

(** What a lookup may do to the state, getting inodes [k] times. *)
Record fext (k : nat) s v s' v' : Prop := {
  fx_state : s' = set_inodes (inodes s') (set_fc (fc s') s);
  fx_chip : chip (fc s') = chip (fc s);
  fx_live : vL v ⊆ vL v';
  fx_bytes : forall x, storable (vL v) x -> ldb (fmem s') x = ldb (fmem s) x;
  fx_inodes : forall p i, p ∈ vps v -> inodes s !! p = Some i ->
    exists n, inodes s' !! p = Some (with_count n i) /\
      (1 <= i_count i -> i_count i + Z.of_nat k < 2 ^ 64 -> i_count i <= n <= i_count i + Z.of_nat k);
  fx_ps : forall p, p ∈ vps v -> p ∈ vps v';
  fx_cached : forall r p, cached s v r = Some p -> cached s' v' r = Some p;
  fx_own : forall a, a ∈ own v' -> a ∈ own v \/ vL v !! a = None;
  fx_bufs : forall c, c ∈ vbl v -> c ∈ vbl v';
  fx_new : forall a n, vL v' !! a = Some n -> a ∈ own v' \/ vL v !! a = Some n }.

Lemma storable_sub (L L' : gmap Z Z) x : L ⊆ L' -> storable L x -> storable L' x.
Proof.
  intros Hs [Hx|(a & n & Ha & Hx)]; [by left|right]. exists a, n. split; [|done]. by eapply lookup_weaken.
Qed.

Lemma with_count_id i : with_count (i_count i) i = i.
Proof. by destruct i. Qed.

Lemma same_count i k : exists n, i = with_count n i /\
  (1 <= i_count i -> i_count i + Z.of_nat k < 2 ^ 64 -> i_count i <= n <= i_count i + Z.of_nat k).
Proof. exists (i_count i). split; [by rewrite with_count_id|lia]. Qed.

Lemma keep_inode (m : gmap Z inode) p i k : m !! p = Some i -> exists n, m !! p = Some (with_count n i) /\
  (1 <= i_count i -> i_count i + Z.of_nat k < 2 ^ 64 -> i_count i <= n <= i_count i + Z.of_nat k).
Proof. intros ->. destruct (same_count i k) as (n & E & Hn). exists n. by rewrite <- E. Qed.

Lemma fext_refl s v : fext 0 s v s v.
Proof.
  split; try done; [by destruct s as [[]]| |by left|by right]. intros p i _ Hi. by apply keep_inode.
Qed.

(** What the file system owns, it keeps. *)
Lemma own_grow v v' : (forall p, p ∈ vps v -> p ∈ vps v') -> (forall c, c ∈ vbl v -> c ∈ vbl v') -> forall a, a ∈ own v -> a ∈ own v'.
Proof.
  intros Hp Hb a. unfold own, blocks. rewrite !elem_of_app.
  intros [[(c & -> & Hc)%list_elem_of_fmap|(c & -> & Hc)%list_elem_of_fmap]|[(p & -> & Hi)%list_elem_of_fmap|Ha]]; [left; left|left; right|right; left|by right; right].
  - apply list_elem_of_fmap_2. auto.
  - apply (list_elem_of_fmap_2 (fun pb => data pb.2)). auto.
  - apply list_elem_of_fmap_2. auto.
Qed.

Lemma fext_trans k1 k2 s v s1 v1 s2 v2 : fext k1 s v s1 v1 -> fext k2 s1 v1 s2 v2 -> fext (k1 + k2) s v s2 v2.
Proof.
  intros [A1 A2 A3 A4 A5 A6 A8 A7 A9 A10] [B1 B2 B3 B4 B5 B6 B8 B7 B9 B10]. split.
  - rewrite B1 at 1. rewrite A1. reflexivity.
  - congruence.
  - by transitivity (vL v1).
  - intros x Hx. rewrite B4 by (by apply (storable_sub (vL v))). by apply A4.
  - intros p i Hp Hi. destruct (A5 p i Hp Hi) as (n & Hn & Cn). destruct (B5 p _ (A6 p Hp) Hn) as (m & Hm & Cm).
    cbn [i_count with_count] in Cm. exists m. split; [done|lia].
  - auto.
  - auto.
  - intros a [Ha|Ha]%B7; [auto|right]. destruct (vL v !! a) as [n|] eqn:E; [|done].
    by rewrite (lookup_weaken _ _ _ _ E A3) in Ha.
  - auto.
  - intros a n [Ha|Ha]%B10; [by left|]. apply A10 in Ha as [Ha|Ha]; [left; by eapply own_grow|by right].
Qed.

(** The view without a block of the file system's client. *)
Definition without (a : Z) v : fview := {| vL := delete a (vL v); vbl := vbl v; vps := vps v |}.

Lemma fext_client k s v s' v' a : fext k s v s' v' -> fext k s (without a v) s' (without a v').
Proof.
  intros [A1 A2 A3 A4 A5 A6 A8 A7 A9 A10]. split; try done; cbn [vL without].
  - by apply delete_mono.
  - intros x [Hx|(c & n & [_ Hc]%lookup_delete_Some & Hx)]; apply A4; [by left|right; by exists c, n].
  - intros c [Hc|Hc]%A7; [by left|right]. apply lookup_delete_None. by right.
  - intros c n [Hne Hc]%lookup_delete_Some. apply A10 in Hc as [Hc|Hc]; [by left|right]. by rewrite lookup_delete_ne.
Qed.

Lemma fext_more k k' s v s' v' : (k <= k')%nat -> fext k s v s' v' -> fext k' s v s' v'.
Proof.
  intros Hk [A1 A2 A3 A4 A5 A6 A8 A7 A9 A10]. split; try done. intros p i Hp Hi. destruct (A5 p i Hp Hi) as (n & E & Hn).
  exists n. split; [done|lia].
Qed.

Lemma own_live nw s v a : fs_part nw s v -> a ∈ own v -> exists n, vL v !! a = Some n.
Proof.
  intros Hf. unfold own. rewrite !elem_of_app. intros [Ha|[(p & -> & Hp)%list_elem_of_fmap|Ha]].
  - eapply blocks_owned; [apply Hf|done].
  - pose proof (fp_blocks _ _ _ Hf) as Hb. rewrite Forall_forall in Hb. destruct (Hb p Hp) as (n & Hn & _). eauto.
  - apply list_elem_of_singleton in Ha as ->. destruct (fp_sblk _ _ _ Hf) as (n & Hn & _). eauto.
Qed.

Lemma vps_not_null nw s v p : fs_part nw s v -> p ∈ vps v -> p <> NULL.
Proof.
  intros Hf Hp. pose proof (fp_blocks _ _ _ Hf) as Hb. rewrite Forall_forall in Hb. destruct (Hb p Hp) as (m & Hm & _).
  destruct (owns_range _ _ _ _ (ck_heap _ _ _ _ (fp_cache _ _ _ Hf)) Hm) as (Hpos & _). unfold minix_i, NULL in *. lia.
Qed.

(** Addresses inside different blocks are different. *)
Lemma block_apart h (L : gmap Z Z) a n c m x y :
  owns (A := A) h L -> L !! a = Some n -> L !! c = Some m -> a <> c -> a <= x < a + n -> c <= y < c + m -> x <> y.
Proof. intros Ho Ha Hc Hne Hx Hy. destruct (owns_disjoint h L a n c m Ho Ha Hc Hne); lia. Qed.

(** The list nodes of inodes and of the super block. *)
Lemma node_block nw s v x :
  fs_part nw s v -> x ∈ s_inodes sb :: map inode_list (vps v) ->
  exists a n, a ∈ map minix_i (vps v) ++ [sb] /\ vL v !! a = Some n /\ a <= x < a + n.
Proof.
  intros Hf [->|(p & -> & Hp)%list_elem_of_fmap]%elem_of_cons.
  - destruct (fp_sblk _ _ _ Hf) as (n & Hn & Hle). exists sb, n. split_and!; [set_solver|done|unfold s_inodes; lia|unfold s_inodes; lia].
  - pose proof (fp_blocks _ _ _ Hf) as Hb. rewrite Forall_forall in Hb. destruct (Hb p Hp) as (n & Hn & Hle).
    exists (minix_i p), n. split; [|split; [done|unfold inode_list, minix_i; lia]].
    apply elem_of_app. left. by apply list_elem_of_fmap_2.
Qed.

(** The two kinds of lists share no node. *)
Lemma nodes_apart nw s v x :
  head_static (A := A) bh_head -> fs_part nw s v -> x ∈ s_inodes sb :: map inode_list (vps v) -> x ∉ bh_head :: lrus (vbl v).
Proof.
  intros Hst Hf Hx Hin. pose proof (fp_cache _ _ _ Hf) as Hck.
  destruct (node_block _ _ _ _ Hf Hx) as (a & na & Ha & La & Hax).
  apply elem_of_cons in Hin as [Ex|Hlr].
  - destruct (Hst _ _ a na (ck_heap _ _ _ _ Hck) La); lia.
  - apply lrus_in in Hlr as (p & -> & Hp).
    assert (Hpb : p ∈ blocks (vbl v)) by (unfold blocks; rewrite elem_of_app; by left).
    apply list_elem_of_fmap in Hp as ([p0 c0] & -> & Hp). cbn [fst] in *.
    pose proof (ck_bufs _ _ _ _ Hck) as Hb. rewrite Forall_forall in Hb.
    destruct (Hb _ Hp) as (_ & (m & Hm & Hm2) & _). cbn [fst] in *.
    pose proof (fp_sep _ _ _ Hf) as Hsep. unfold own in Hsep. apply NoDup_app in Hsep as (_ & Hdis & _).
    eapply (block_apart _ (vL v) a na p0 m _ _); [apply Hck|done|done| |exact Hax| |done].
    + intros ->. by apply (Hdis p0).
    + unfold bh_lru. lia.
Qed.

Lemma own_buffer L q c bl ps :
  own {| vL := L; vbl := (q, c) :: bl; vps := ps |} ≡ₚ q :: data c :: own {| vL := L; vbl := bl; vps := ps |}.
Proof.
  unfold own, blocks. cbn [vbl vps map fst snd]. rewrite <- !app_comm_cons. apply perm_skip.
  rewrite <- !app_assoc, <- app_comm_cons. by rewrite <- Permutation_middle.
Qed.

Lemma own_inode L bl p ps :
  own {| vL := L; vbl := bl; vps := p :: ps |} ≡ₚ minix_i p :: own {| vL := L; vbl := bl; vps := ps |}.
Proof. unfold own. cbn [vbl vps map app]. by rewrite <- Permutation_middle. Qed.

(** Reading a block into a new buffer. *)
Lemma fbread_part nw s v blk n :
  head_static (A := A) bh_head -> fs_part nw s v -> block_in blk -> room (cheap (fc s)) (4 + n) ->
  exists q d s' v', fbread bh_head bd blk s = Some (q, s') /\ fs_part nw s' v' /\ fext 0 s v s' v' /\
    vps v' = vps v /\ inodes s' = inodes s /\ room (cheap (fc s')) n /\ q <> NULL /\
    (exists c, (q, c) ∈ vbl v' /\ blk_no c = blk /\ data c = d) /\
    bh_data s' q = Some d /\ holds (fmem s') (fl_data (chip (fc s))) d blk.
Proof.
  intros Hst Hf Hin Hr. pose proof Hf as [Hck Hcoh Hsup Hinf Hnd Hino Hblk (ns & Hsb & Hns) Hsep].
  destruct (bread_spec bh_head (fc s) (vL v) (vbl v) bd blk n Hst Hck Hr Hin)
    as (q & d & nq & nd & c & E & Hq & Hd & Hqd & Hck' & Hr' & Eb & Ec & Hrd & Hk & Hl).
  set (L' := <[d := nd]> (<[q := nq]> (vL v))) in *.
  assert (HL : vL v ⊆ L') by (unfold L'; by apply insert_subseteq_r; [|apply insert_subseteq]).
  assert (Hbytes : forall x, storable (vL v) x -> ldb (cmem c) x = ldb (fmem s) x) by (intros x Hx; by apply Hk).
  assert (Hown : forall a, a ∈ own v -> a <> q /\ a <> d).
  { intros a Ha. destruct (own_live _ _ _ _ Hf Ha) as [x Hx]. split; congruence. }
  pose proof (owns_range _ _ q nq (ck_heap _ _ _ _ Hck')) as Rq.
  assert (Lq : L' !! q = Some nq) by (unfold L'; rewrite lookup_insert_ne, lookup_insert_eq by done; done).
  specialize (Rq Lq) as (Hq0 & _).
  exists q, d, (set_fc c s), {| vL := L'; vbl := (q, {| b_state := BH_Uptodate; data := d; b_bd := bd; blk_no := blk |}) :: vbl v; vps := vps v |}.
  unfold fbread. rewrite E, bind_Some. split; [done|]. split_and!; try done.
  - split; cbn [vL vbl vps fc set_fc supers sbis inodes]; try done.
    + apply Forall_cons. cbn [snd blk_no data]. split; [split; [done|]|].
      * intros j Hj. change (fmem (set_fc c s)) with (cmem c). rewrite Ec. by apply Hrd.
      * apply Forall_forall. intros [p c0] Hp. rewrite Forall_forall in Hcoh. destruct (Hcoh _ Hp) as [H1 H2]. cbn [snd] in *.
        split; [done|]. intros j Hj. change (fmem (set_fc c s)) with (cmem c). rewrite Ec, <- H2 by done.
        apply Hbytes. right. pose proof (ck_bufs _ _ _ _ Hck) as Hb. rewrite Forall_forall in Hb.
        destruct (Hb _ Hp) as (_ & _ & m & Hm & Hm2). cbn [snd] in *. exists (data c0), m. split; [done|lia].
    + eapply dlist_frame; [exact Hnd|]. intros x Hx. apply Hl. intros Hin2.
      destruct (node_block _ _ _ _ Hf Hx) as (a & na & Ha & La & Hax).
      assert (Hao : a ∈ own v) by (unfold own; rewrite elem_of_app; by right).
      assert (La' : L' !! a = Some na) by (by eapply lookup_weaken).
      apply elem_of_cons in Hin2 as [Ex|Hin2].
      * destruct (Hown a Hao) as [Naq _].
        eapply (block_apart _ L' a na q nq x x); [apply Hck'|done|done|done|done| |done].
        pose proof (ck_bufs _ _ _ _ Hck') as Hb. apply Forall_cons in Hb as [(_ & (nq' & Enq & Hnq) & _) _]. cbn [fst] in *.
        assert (nq' = nq) as -> by congruence. rewrite Ex. unfold bh_lru. lia.
      * by apply (nodes_apart _ _ _ _ Hst Hf Hx).
    + apply (Forall_impl _ _ _ Hino). intros p (i & H1 & H2 & H3). exists i. by rewrite Ec.
    + apply (Forall_impl _ _ _ Hblk). intros p (m & H1 & H2). exists m. split; [by eapply lookup_weaken|done].
    + exists ns. split; [by eapply lookup_weaken|done].
    + rewrite own_buffer. cbn [data]. apply NoDup_cons. split; [|apply NoDup_cons; split; [|exact Hsep]].
      * intros [->|Hi]%elem_of_cons; [done|]. by destruct (Hown q Hi).
      * intros Hi. by destruct (Hown d Hi).
  - split; cbn [vL vbl vps fc set_fc inodes]; try done.
    + intros p i _ Hi. by apply keep_inode.
    + intros a. rewrite own_buffer. cbn [data]. intros [->|[->|Ha]%elem_of_cons]%elem_of_cons; auto.
    + intros a Ha. apply elem_of_cons. by right.
    + intros a n0 Ha. rewrite own_buffer. cbn [data]. rewrite !elem_of_cons. unfold L' in Ha.
      apply lookup_insert_Some in Ha as [[-> _]|[_ [[-> _]|[_ Ha]]%lookup_insert_Some]]; auto.
  - unfold NULL. lia.
  - eexists. split; [apply elem_of_cons; by left|done].
  - unfold bh_data. cbn [fc set_fc]. rewrite Eb, lookup_insert_eq. done.
Qed.
(** A block, from the cache or from the device. *)
Lemma fget_blk_part nw s v blk n :
  head_static (A := A) bh_head -> fs_part nw s v -> block_in blk -> room (cheap (fc s)) (4 + n) ->
  exists q d s' v', fget_blk bh_head bd blk s = Some (q, s') /\ fs_part nw s' v' /\ fext 0 s v s' v' /\
    vps v' = vps v /\ inodes s' = inodes s /\ room (cheap (fc s')) n /\
    (exists c, (q, c) ∈ vbl v' /\ blk_no c = blk /\ data c = d) /\
    bh_data s' q = Some d /\ holds (fmem s') (fl_data (chip (fc s))) d blk.
Proof.
  intros Hst Hf Hin Hr. pose proof (fp_cache _ _ _ Hf) as Hck.
  destruct (find (fun pb => (blk_no pb.2 =? blk) && (b_bd pb.2 =? bd)) (vbl v)) as [[q c]|] eqn:Ef.
  - destruct (fget_blk_cached bh_head s _ _ bd blk q c Hck Ef) as [E Ed].
    apply find_some in Ef as [Hi Heq]. apply list_elem_of_In in Hi. cbn [snd] in Heq.
    apply andb_true_iff in Heq as [<-%Z.eqb_eq _].
    pose proof (fp_coh _ _ _ Hf) as Hc. rewrite Forall_forall in Hc. destruct (Hc _ Hi) as [_ Hh]. cbn [snd] in *.
    exists q, (data c), s, v. split_and!; try done; [apply fext_refl|apply (room_le _ _ _ Hr); lia|by exists c].
  - assert (E : fget_blk bh_head bd blk s = fbread bh_head bd blk s).
    { unfold fget_blk. by rewrite (get_blk_eq bh_head _ _ _ _ _ Hck), Ef. }
    rewrite E. destruct (fbread_part nw s v blk n Hst Hf Hin Hr) as (q & d & s' & v' & H1 & H2 & H3 & H4 & H5 & H6 & _ & H7).
    by exists q, d, s', v'.
Qed.

(** The search of the inode list. *)
Lemma find_inode_spec s v nw ps1 ps2 ino n :
  fs_part nw s v -> vps v = ps1 ++ ps2 -> (length ps2 < n)%nat ->
  find_inode n sb ino (hd (s_inodes sb) (map inode_list ps2)) s =
  Some (List.find (fun p => match inodes s !! p with Some i => i_ino i =? ino | None => false end) ps2).
Proof.
  intros Hf. revert ps1 n. induction ps2 as [|p ps2 IH]; intros ps1 n Hv Hn; (destruct n as [|n]; [cbn in Hn; lia|]);
    cbn [find_inode map hd List.find].
  - by rewrite Z.eqb_refl.
  - pose proof (fp_nodes _ _ _ Hf) as Hl. rewrite Hv, map_app in Hl. cbn [map] in Hl.
    destruct (Z.eqb_spec (inode_list p) (s_inodes sb)) as [E|_].
    { destruct Hl as [[Hh _]%NoDup_cons _]. destruct Hh. rewrite <- E, elem_of_app, elem_of_cons. by right; left. }
    replace (inode_entry (inode_list p)) with p by (unfold inode_entry, inode_list; lia).
    pose proof (fp_inodes _ _ _ Hf) as Hi. rewrite Hv in Hi. apply Forall_mid in Hi as [(i & Ei & Es & _) _].
    rewrite Ei, bind_Some, Es, Z.eqb_refl, andb_true_r. case_match; [done|].
    rewrite (dlist_next _ _ _ _ _ Hl), bind_Some. cbn [length] in Hn. apply (IH (ps1 ++ [p])); [by rewrite <- app_assoc|lia].
Qed.

Lemma nodes_size s v nw : fs_part nw s v -> (length (vps v) < size (lists (fc s)))%nat.
Proof.
  intros Hf. pose proof (fp_nodes _ _ _ Hf) as Hl. destruct Hl as [Hnd Hc].
  rewrite <- size_dom. enough (length (s_inodes sb :: map inode_list (vps v)) <= size (dom (lists (fc s))))%nat as Hle
    by (cbn in Hle; rewrite length_map in Hle; lia).
  rewrite <- (size_list_to_set (C := gset Z) (s_inodes sb :: map inode_list (vps v))) by done. apply subseteq_size.
  intros a Ha%elem_of_list_to_set. apply elem_of_dom. eapply dlist_dom; [split; [exact Hnd|exact Hc]|done].
Qed.

(** The search finds an inode or makes a new one. *)
Lemma get_inode_eq s v nw ino :
  fs_part nw s v ->
  get_inode stale_inode sb ino s =
  match cached s v ino with
  | Some p => let! i := inodes s !! p in
      Some (p, set_inodes (<[p := with_count (u64 (i_count i + 1)) i]> (inodes s)) s)
  | None => get_new_inode stale_inode sb ino s
  end.
Proof.
  intros Hf. unfold get_inode. rewrite (dlist_next_head _ _ _ (fp_nodes _ _ _ Hf)), bind_Some.
  rewrite (find_inode_spec s v nw [] (vps v) ino _ Hf eq_refl), bind_Some; [done|].
  pose proof (nodes_size s v nw Hf). lia.
Qed.
Lemma cached_spec s v nw ino p :
  fs_part nw s v -> cached s v ino = Some p -> p ∈ vps v /\ exists i, inodes s !! p = Some i /\ i_ino i = ino.
Proof.
  intros Hf Hc. apply find_some in Hc as [Hi Hm]. apply list_elem_of_In in Hi. split; [done|].
  destruct (inodes s !! p) as [i|]; [|done]. exists i. by apply Z.eqb_eq in Hm.
Qed.

(** Storing an inode that agrees with the device. *)
Lemma set_inode_part nw nw' s v p i :
  fs_part nw s v -> (nw = p \/ nw = nw') -> i_sb i = sb -> on_disk (fl_data (chip (fc s))) b i ->
  fs_part nw' (set_inodes (<[p := i]> (inodes s)) s) v.
Proof.
  intros [H1 H2 H3 H4 H5 H6 H7 H8 H9] Hnw Hs Hd. split; try done.
  apply Forall_forall. intros q Hq. rewrite Forall_forall in H6. destruct (H6 q Hq) as (j & A1 & A2 & A3).
  cbn [inodes set_inodes fc]. destruct (decide (q = p)) as [->|Hne].
  - exists i. rewrite lookup_insert_eq. split; [done|split; [done|by right]].
  - exists j. rewrite lookup_insert_ne by done. split_and!; [done|done|]. destruct A3 as [->|A3]; [|by right].
    left. by destruct Hnw.
Qed.

Lemma count_part s v p i n :
  fs_ok s v -> p ∈ vps v -> inodes s !! p = Some i -> fs_ok (set_inodes (<[p := with_count n i]> (inodes s)) s) v.
Proof.
  intros Hf Hp Hi. pose proof (fp_inodes _ _ _ Hf) as Ha. rewrite Forall_forall in Ha.
  destruct (Ha p Hp) as (j & Ej & Hs & Hd). assert (j = i) as -> by congruence.
  pose proof (vps_not_null _ _ _ _ Hf Hp).
  destruct Hd as [Hd|Hd]; [done|]. apply (set_inode_part NULL); [done|by right|done|by apply on_disk_count].
Qed.

(** Replacing an inode by one of the same number; a new inode. *)
Lemma numbered_insert (m : gmap Z inode) p i j r l :
  m !! p = Some i -> i_ino j = i_ino i -> numbered (<[p := j]> m) r l = numbered m r l.
Proof.
  intros Hi Ej. induction l as [|q l IH]; [done|]. cbn [numbered List.find]. fold (numbered (<[p := j]> m) r l) (numbered m r l).
  destruct (decide (q = p)) as [->|]; [rewrite lookup_insert_eq, Hi, Ej|rewrite lookup_insert_ne by done]; by case_match.
Qed.

Lemma numbered_fresh (m : gmap Z inode) p i r l : p ∉ l -> numbered (<[p := i]> m) r l = numbered m r l.
Proof.
  intros Hp. induction l as [|q l IH]; [done|]. apply not_elem_of_cons in Hp as [Hne Hp]. cbn [numbered List.find].
  fold (numbered (<[p := i]> m) r l) (numbered m r l). rewrite lookup_insert_ne by done. rewrite IH by done. done.
Qed.

Lemma numbered_new (m : gmap Z inode) p i r l q :
  p ∉ l -> numbered m (i_ino i) l = None -> numbered m r l = Some q -> numbered (<[p := i]> m) r (p :: l) = Some q.
Proof.
  intros Hp Hn Hr. cbn [numbered List.find]. fold (numbered (<[p := i]> m) r l). rewrite lookup_insert_eq.
  destruct (Z.eqb_spec (i_ino i) r) as [<-|_]; [congruence|]. by rewrite numbered_fresh.
Qed.

Lemma count_ext s v p i :
  inodes s !! p = Some i -> fext 1 s v (set_inodes (<[p := with_count (u64 (i_count i + 1)) i]> (inodes s)) s) v.
Proof.
  intros Hi. split; try done; [| |by left|by right]; [|intros r q; unfold cached; cbn [inodes set_inodes]; by rewrite (numbered_insert _ p i)].
  intros q j _ Hj. cbn [inodes set_inodes].
  destruct (decide (q = p)) as [->|]; [|rewrite lookup_insert_ne by done; by apply keep_inode].
  rewrite lookup_insert_eq. assert (j = i) as -> by congruence. eexists. split; [done|]. intros H1 H2.
  rewrite wrap_small by (change (2 ^ 64) with 18446744073709551616 in *; lia). lia.
Qed.

(** A new inode, not read yet. *)
Lemma get_new_inode_part s v ino n :
  head_static (A := A) bh_head -> fs_ok s v -> room (cheap (fc s)) (2 + n) -> cached s v ino = None ->
  exists p i s' v', get_new_inode stale_inode sb ino s = Some (p, s') /\ fs_part p s' v' /\ fext 0 s v s' v' /\
    room (cheap (fc s')) n /\ p ∈ vps v' /\ p ∉ vps v /\ p <> NULL /\ vps v' = p :: vps v /\
    inodes s' = <[p := i]> (inodes s) /\ i_ino i = ino /\ i_sb i = sb /\ i_state i = I_NEW /\ i_op i = NoOps /\ i_count i = 1.
Proof.
  intros Hst Hf Hr Hnone. pose proof Hf as [Hck Hcoh Hsup Hinf Hnd Hino Hblk (ns & Hsb & Hns) Hsep].
  destruct (halloc_ok (cheap (fc s)) (vL v) sizeof_minix_inode_info n (ck_heap _ _ _ _ Hck) Hr ltac:(done))
    as (a & m & h & E & Ha0 & Ha1 & Hna & Hm & Hle & Hdis & Ho & Hr' & Hk).
  set (p := vfs_inode a). set (s1 := set_fc (set_heap h (fc s)) s).
  assert (Hpa : minix_i p = a) by (unfold minix_i, p, vfs_inode; lia).
  assert (HL : vL v ⊆ <[a := m]> (vL v)) by (apply insert_subseteq; done).
  assert (Hnp : p ∉ vps v).
  { intros Hp. rewrite Forall_forall in Hblk. destruct (Hblk p Hp) as (x & Hx & _). rewrite Hpa in Hx. congruence. }
  assert (Hfresh : inode_list p ∉ s_inodes sb :: map inode_list (vps v) /\ inode_list p ∉ bh_head :: lrus (vbl v)).
  { assert (Hx : a <= inode_list p < a + m) by (unfold inode_list, p, vfs_inode, sizeof_minix_inode_info in *; lia).
    split; intros Hi.
    - destruct (node_block _ _ _ _ Hf Hi) as (c & k & _ & Hc & Hcx). destruct (Hdis c k Hc); lia.
    - apply elem_of_cons in Hi as [Ei|(q & Eq & Hq)%lrus_in].
      + destruct (Hst h _ a m Ho (lookup_insert_eq _ _ _)); lia.
      + apply list_elem_of_fmap in Hq as ([q0 c0] & -> & Hq). pose proof (ck_bufs _ _ _ _ Hck) as Hb.
        rewrite Forall_forall in Hb. destruct (Hb _ Hq) as (_ & (k & Hk1 & Hk2) & _). cbn [fst] in *.
        destruct (Hdis _ _ Hk1); unfold bh_lru in Eq; lia. }
  destruct Hfresh as [Hf1 Hf2]. set (l0 := <[inode_list p := {| prev := NULL; next := NULL |}]> (lists (fc s))).
  destruct (dlist_add l0 (s_inodes sb) (map inode_list (vps v)) (inode_list p)) as (l & El & Hl' & _ & Hlf).
  { apply (dlist_frame (lists (fc s))); [done|]. intros x Hx. unfold l0. rewrite lookup_insert_ne; [done|]. by intros <-. }
  { unfold l0. rewrite lookup_insert_eq. eauto. }
  { done. }
  assert (Hbytes : forall x, storable (vL v) x -> ldb (hmem h) x = ldb (fmem s) x).
  { intros x [Hx|(c & k & Hc & Hx)]; apply Hk; [by left|right; by exists c, k]. }
  eexists p, _, _, {| vL := <[a := m]> (vL v); vbl := vbl v; vps := p :: vps v |}.
  unfold get_new_inode. rewrite Hsup, bind_Some. cbn [s_op]. unfold minix_alloc_inode, falloc. rewrite E, !bind_Some.
  fold p. fold s1. cbn [fc s1 set_fc set_heap lists]. fold l0. rewrite El, bind_Some.
  split; [reflexivity|]. split_and!; try done.
  - split; cbn [vL vbl vps fc set_fc set_lists set_inodes set_heap supers sbis inodes]; try done.
    + split; cbn [lists set_lists set_heap bufs cheap chip]; try apply Hck; [| |done].
      * apply (dlist_frame (lists (fc s))); [apply Hck|]. intros x Hx. rewrite Hlf.
        { unfold l0. rewrite lookup_insert_ne; [done|]. by intros <-. }
        intros [->|Hx']%elem_of_cons; [done|]. by apply (nodes_apart _ _ _ _ Hst Hf Hx').
      * apply (Forall_impl _ _ _ (ck_bufs _ _ _ _ Hck)). intros c (H1 & (k & H2 & H3) & k' & H4 & H5).
        split; [done|]. split; [exists k|exists k']; (split; [by eapply lookup_weaken|done]).
    + apply Forall_forall. intros c Hc. rewrite Forall_forall in Hcoh. destruct (Hcoh c Hc) as [H1 H2]. split; [done|].
      intros j Hj. rewrite <- H2 by done. apply Hbytes. right.
      pose proof (ck_bufs _ _ _ _ Hck) as Hb. rewrite Forall_forall in Hb. destruct (Hb _ Hc) as (_ & _ & k & Hk1 & Hk2).
      exists (data c.2), k. split; [done|lia].
    + apply Forall_cons. split; [eexists; split; [apply lookup_insert_eq|split; [done|by left]]|].
      rewrite Forall_forall in Hino |- *. intros q Hq. destruct (Hino q Hq) as (j & A1 & A2 & A3).
      exists j. rewrite lookup_insert_ne by (intros <-; done). split; [done|split; [done|right]].
      destruct A3 as [->|A3]; [|done]. by destruct (vps_not_null _ _ _ _ Hf Hq).
    + apply Forall_cons. split; [exists m; rewrite Hpa, lookup_insert_eq; split; [done|unfold sizeof_minix_inode_info in *; lia]|].
      apply (Forall_impl _ _ _ Hblk). intros q (k & H1 & H2). exists k. split; [by eapply lookup_weaken|done].
    + exists ns. split; [by eapply lookup_weaken|done].
    + rewrite own_inode, Hpa. apply NoDup_cons. split; [|exact Hsep].
      intros Hi. destruct (own_live _ _ _ _ Hf Hi). congruence.
  - split; cbn [vL vbl vps fc set_fc set_lists set_inodes set_heap inodes]; try done.
    + intros q i Hq Hi. apply keep_inode. by rewrite lookup_insert_ne by (intros <-; done).
    + intros q Hq. apply elem_of_cons. by right.
    + intros r q. unfold cached in *. by apply numbered_new.
    + intros x. rewrite own_inode, Hpa. intros [->|Hx]%elem_of_cons; auto.
    + intros x k Hx. rewrite own_inode, Hpa, elem_of_cons. apply lookup_insert_Some in Hx as [[-> _]|[_ Hx]]; auto.
  - apply elem_of_cons. by left.
  - unfold p, vfs_inode, NULL. lia.
Qed.
Lemma fext_inode s v p i k :
  p ∉ vps v -> forall s1 v1 j, inodes s1 !! p = Some j -> i_ino i = i_ino j -> fext k s v s1 v1 ->
  fext k s v (set_inodes (<[p := i]> (inodes s1)) s1) v1.
Proof.
  intros Hp s1 v1 j1 Hj1 Ej1 [A1 A2 A3 A4 A5 A6 A8 A7 A9 A10]. split; try done.
  - rewrite A1. reflexivity.
  - intros q j Hq Hj. cbn [inodes set_inodes]. rewrite lookup_insert_ne by (intros <-; done). by apply A5.
  - intros r q Hq%A8. unfold cached in *. cbn [inodes set_inodes]. by rewrite (numbered_insert _ p j1).
Qed.

(** The block an inode is read from. *)
Lemma raw_inode_part nw s v ino n :
  head_static (A := A) bh_head -> geometry b -> fs_part nw s v -> 1 <= ino <= s_ninodes b -> room (cheap (fc s)) (4 + n) ->
  exists q d s' v', minix_raw_inode bh_head sb ino s = Some (Some (d + 32 * ((ino - 1) mod 32), q), s') /\
    fs_part nw s' v' /\ fext 0 s v s' v' /\ vps v' = vps v /\ inodes s' = inodes s /\ room (cheap (fc s')) n /\
    holds (fmem s') (fl_data (chip (fc s))) d (ino_block b ino).
Proof.
  intros Hst Hgeo Hf Hino Hr. pose proof (ino_block_in b ino Hgeo Hino) as Hin.
  destruct (fbread_part nw s v (ino_block b ino) n Hst Hf Hin Hr)
    as (q & d & s' & v' & E & Hf' & Hx & Hps & Hi & Hr' & _ & _ & Hd & Hh).
  exists q, d, s', v'. split; [|by split_and!]. unfold minix_raw_inode.
  rewrite (fp_super _ _ _ Hf), bind_Some. cbn [s_fs_info sb_bd]. rewrite (fp_info _ _ _ Hf), bind_Some.
  destruct (Z.eqb_spec ino 0); [lia|]. destruct (Z.ltb_spec (s_ninodes b) ino); [lia|]. cbn [orb].
  change (2 + s_imap_blocks b + s_zmap_blocks b + (ino - 1) / MINIX_INODES_PER_BLOCK) with (ino_block b ino).
  unfold block_in in Hin. rewrite swrap_small by (done || (change (2 ^ (32 - 1)) with 2147483648; lia)).
  rewrite wrap_small by (change (2 ^ 64) with 18446744073709551616; lia). rewrite E, bind_Some, Hd, bind_Some. done.
Qed.

(** An inode the table has comes from memory or from the device; it agrees with
    the device, and one more user is counted. *)
Lemma minix_iget_spec s v ino n :
  head_static (A := A) bh_head -> geometry b -> fs_ok s v -> 1 <= ino <= s_ninodes b -> room (cheap (fc s)) (6 + n) ->
  exists p i s' v', minix_iget bh_head stale_inode sb ino s = Some (p, s') /\ fs_ok s' v' /\ fext 1 s v s' v' /\
    room (cheap (fc s')) n /\ p ∈ vps v' /\ p <> NULL /\ inodes s' !! p = Some i /\ i_ino i = ino /\ cached s' v' ino = Some p /\
    match cached s v ino with
    | Some q => p = q /\ fc s' = fc s /\ v' = v /\ i_count i = u64 (match inodes s !! q with Some j => i_count j | None => 0 end + 1)
    | None => i_count i = 1 /\ vps v' = p :: vps v
    end.
Proof.
  intros Hst Hgeo Hf Hino Hr. unfold minix_iget. destruct (Z.eqb_spec ino 0); [lia|]. rewrite (get_inode_eq s v NULL ino Hf).
  destruct (cached s v ino) as [p|] eqn:Ec.
  - destruct (cached_spec s v NULL ino p Hf Ec) as (Hp & i & Hi & Ei). rewrite Hi, !bind_Some.
    cbn [inodes set_inodes]. rewrite lookup_insert_eq, bind_Some. cbn [with_count i_state].
    pose proof (count_part s v p i (u64 (i_count i + 1)) Hf Hp Hi) as Hf'. pose proof (count_ext s v p i Hi) as Hx.
    pose proof (fp_inodes _ _ _ Hf) as Ha. rewrite Forall_forall in Ha. destruct (Ha p Hp) as (j & Ej & _ & [Hz|Hd]).
    + by destruct (vps_not_null _ _ _ _ Hf Hp).
    + assert (j = i) as -> by congruence. rewrite (od_state _ _ _ Hd). cbn [Z.eqb negb].
      eexists p, (with_count (u64 (i_count i + 1)) i), _, v. split; [done|]. pose proof (vps_not_null _ _ _ _ Hf Hp).
      split_and!; try done; cbn [inodes set_inodes]; rewrite ?lookup_insert_eq, ?Hi; try done; [apply (room_le _ _ _ Hr); lia|by apply (fx_cached _ _ _ _ _ Hx)].
  - destruct (get_new_inode_part s v ino (4 + n) Hst Hf Hr Ec)
      as (p & i & s1 & v1 & E1 & Hf1 & Hx1 & Hr1 & Hp1 & Hnp & Hp0 & Ev1 & Ei1 & Hn & Hs & Hst1 & Ho & Hc).
    rewrite E1, bind_Some, Ei1, lookup_insert_eq, bind_Some, Hst1. change (negb (Z.land I_NEW I_NEW =? 0)) with true. cbn iota.
    destruct (raw_inode_part p s1 v1 ino n Hst Hgeo Hf1 Hino Hr1)
      as (q & d & s2 & v2 & E2 & Hf2 & Hx2 & Ev2 & Ei2 & Hr2 & Hh). rewrite E2, bind_Some.
    set (j := fill_inode (fmem s2) (d + 32 * ((ino - 1) mod 32)) i).
    assert (Hj : on_disk (fl_data (chip (fc s2))) b j).
    { unfold j. rewrite <- Hn. apply fill_on_disk; [|by rewrite Hn|done|done]. by rewrite Hn, (fx_chip _ _ _ _ _ Hx2). }
    exists p, j, (set_inodes (<[p := j]> (inodes s2)) s2), v2. split; [done|].
    split_and!; try done.
    + apply (set_inode_part p); [done|by left|done|done].
    + apply (fext_inode _ _ _ _ _ Hnp _ _ i); [by rewrite Ei2, Ei1, lookup_insert_eq|done|]. apply (fext_more 0); [lia|]. by apply (fext_trans 0 0 _ _ s1 v1).
    + by rewrite Ev2.
    + cbn [inodes set_inodes]. apply lookup_insert_eq.
    + unfold cached. rewrite Ev2, Ev1. cbn [numbered List.find inodes set_inodes]. rewrite lookup_insert_eq.
      change (i_ino j) with (i_ino i). by rewrite Hn, Z.eqb_refl.
    + by rewrite Ev2.
Qed.

(** ** Searching a directory *)

(** The inode number [r] is in memory at [q], counted once more. *)
Record found s v s' v' q r : Prop := {
  fd_in : q ∈ vps v';
  fd_inode : exists j, inodes s' !! q = Some j /\ i_ino j = r;
  fd_null : q <> NULL;
  fd_count : forall p i, cached s v r = Some p -> inodes s !! p = Some i ->
    q = p /\ exists j, inodes s' !! q = Some j /\ i_count j = u64 (i_count i + 1) }.

Definition outcome s v s' v' q r : Prop := if r =? 0 then q = NULL else found s v s' v' q r.

Lemma entry_ino_pos s ino e : 0 <= entry_ino (fl_data (chip (fc s))) b ino e.
Proof. unfold entry_ino. apply dld_range. intros o. apply fl_data_range. Qed.

Lemma cached_same s v s1 v1 r : vps v1 = vps v -> inodes s1 = inodes s -> cached s1 v1 r = cached s v r.
Proof. unfold cached. by intros -> ->. Qed.

Lemma lookup_from_spec nb fuel k s v p i name nm n :
  head_static (A := A) bh_head -> geometry b -> fs_ok s v -> inodes s !! p = Some i -> i_sb i = sb ->
  on_disk (fl_data (chip (fc s))) b i -> cstr (fmem s) name nm ->
  (forall x, name <= x <= name + Z.of_nat (length nm) -> storable (vL v) x) -> Z.of_nat (length nm) < NAME_LEN ->
  i_size i <= 7168 -> 0 <= k -> k + Z.of_nat nb = (i_size i + 1023) / 1024 -> (nb < fuel)%nat ->
  let r := match List.find (entry_has (fl_data (chip (fc s))) b (i_ino i) nm) (Z.of_nat <$> seq (32 * Z.to_nat k) (32 * nb)) with
           | Some e => entry_ino (fl_data (chip (fc s))) b (i_ino i) e | None => 0 end in
  r <= s_ninodes b -> room (cheap (fc s)) (4 * nb + 6 + n) ->
  exists q s' v', lookup_from bh_head stale_inode fuel p sb name (1024 * k) (i_size i) s = Some (q, s') /\
    fs_ok s' v' /\ fext 1 s v s' v' /\ room (cheap (fc s')) n /\ outcome s v s' v' q r.
Proof.
  intros Hst Hgeo. revert fuel k s v. induction nb as [|nb IH];
    intros fuel k s v Hf Hi Hs Hd Hc Hsto Hl Hsz Hk Hnb Hfu r Hr Hroom; (destruct fuel as [|fuel]; [lia|]); cbn [lookup_from].
  - destruct (Z.ltb_spec (1024 * k) (i_size i)); [Z.div_mod_to_equations; lia|].
    exists NULL, s, v. split_and!; [done|done|apply (fext_more 0); [lia|apply fext_refl]|apply (room_le _ _ _ Hroom); lia|].
    unfold outcome, r. done.
  - destruct (Z.ltb_spec (1024 * k) (i_size i)); [|Z.div_mod_to_equations; lia].
    assert (H7 : k < 7) by (Z.div_mod_to_equations; lia).
    assert (Ediv : 1024 * k / 1024 = k) by (rewrite Z.mul_comm; apply Z.div_mul; lia).
    rewrite (inode_get_blk_direct bh_head s p i {| s_op := MinixSops; sb_bd := bd; s_fs_info := si |} (1024 * k)
      (d_zone (fl_data (chip (fc s))) b (i_ino i) k)); [|done|rewrite Hs; apply Hf|lia|rewrite Ediv; apply Hd; lia].
    cbn [sb_bd].
    destruct (fget_blk_part NULL s v (d_zone (fl_data (chip (fc s))) b (i_ino i) k) (4 * nb + 6 + n) Hst Hf)
      as (q & d & s1 & v1 & E & Hf1 & Hx1 & Ev1 & Ei1 & Hr1 & _ & Ed & Hh);
      [apply d_zone_block; intros o; apply fl_data_range|apply (room_le _ _ _ Hroom); lia|].
    rewrite E, bind_Some, Ed, bind_Some. pose proof (fx_chip _ _ _ _ _ Hx1) as Ech.
    assert (Hc1 : cstr (fmem s1) name nm).
    { apply (cstr_agree (fmem s)); [|done]. intros x Hx. apply Hx1. apply Hsto. lia. }
    pose proof (scan_entries_spec (fl_data (chip (fc s))) b (i_ino i) k (fmem s1) name d nm 32 0 Hc1 Hl Hh Hk ltac:(lia)) as Hscan.
    rewrite Z.mul_0_r, Z.add_0_r, Nat.add_0_r in Hscan. change (Z.to_nat DIR_PER_BLK) with 32%nat. rewrite Hscan, bind_Some.
    assert (Er : r = match List.find (entry_has (fl_data (chip (fc s))) b (i_ino i) nm) (Z.of_nat <$> seq (32 * Z.to_nat k) 32) with
       | Some e => entry_ino (fl_data (chip (fc s))) b (i_ino i) e
       | None => match List.find (entry_has (fl_data (chip (fc s))) b (i_ino i) nm)
                         (Z.of_nat <$> seq (32 * Z.to_nat (k + 1)) (32 * nb)) with
                 | Some e => entry_ino (fl_data (chip (fc s))) b (i_ino i) e | None => 0 end end).
    { unfold r. replace (32 * S nb)%nat with (32 + 32 * nb)%nat by lia. rewrite seq_app, fmap_app, find_app.
      replace (32 * Z.to_nat k + 32)%nat with (32 * Z.to_nat (k + 1))%nat by lia.
      destruct (List.find _ (Z.of_nat <$> seq (32 * Z.to_nat k) 32)); done. }
    destruct (List.find _ (Z.of_nat <$> seq (32 * Z.to_nat k) 32)) as [e|]; cbn [fmap option_fmap option_map].
    + cbn iota in Er. clearbody r. subst r. pose proof (entry_ino_pos s (i_ino i) e) as Hpos. unfold outcome.
      destruct (Z.eqb_spec (entry_ino (fl_data (chip (fc s))) b (i_ino i) e) 0) as [Ez|Hnz].
      * rewrite Ez. unfold minix_iget. cbn [Z.eqb]. exists NULL, s1, v1.
        split_and!; [done|done|by apply (fext_more 0); [lia|]|apply (room_le _ _ _ Hr1); lia|done].
      * assert (Hrange : 1 <= entry_ino (fl_data (chip (fc s))) b (i_ino i) e <= s_ninodes b) by (clear - Hr Hpos Hnz; lia).
        destruct (minix_iget_spec s1 v1 (entry_ino (fl_data (chip (fc s))) b (i_ino i) e) n Hst Hgeo Hf1 Hrange)
          as (q2 & j & s2 & v2 & E2 & Hf2 & Hx2 & Hr2 & Hq2 & Hn2 & Hj & Ej & _ & Hcase); [apply (room_le _ _ _ Hr1); lia|].
        exists q2, s2, v2. split_and!; [done|done|by apply (fext_trans 0 1 _ _ s1 v1)|done|].
        split; [done|by exists j|done|]. intros p0 i0 Hp0 Hi0. rewrite (cached_same s v s1 v1 _ Ev1 Ei1), Hp0 in Hcase.
        destruct Hcase as (-> & _ & _ & Hcount). split; [done|]. exists j. by rewrite Hcount, Ei1, Hi0.
    + assert (Eoff : u64 (1024 * k + BLOCK_SZ) = 1024 * (k + 1)).
      { unfold BLOCK_SZ. rewrite wrap_small; [lia|]. change (2 ^ 64) with 18446744073709551616. lia. }
      rewrite Eoff. cbn iota in Er. clearbody r. subst r. rewrite <- Ech in *.
      destruct (IH fuel (k + 1) s1 v1 Hf1) as (q2 & s2 & v2 & E2 & Hf2 & Hx2 & Hr2 & Ho); try done; try lia.
      * by rewrite Ei1.
      * intros x Hx. eapply storable_sub; [apply Hx1|by apply Hsto].
      * exists q2, s2, v2. split_and!; [done|done|by apply (fext_trans 0 1 _ _ s1 v1)|done|].
        unfold outcome in *. case_match; [done|]. destruct Ho as [O1 O2 O3 O4]. split; [done|done|done|].
        intros p0 i0 Hp0 Hi0. apply O4; [by rewrite (cached_same s v s1 v1 _ Ev1 Ei1)|by rewrite Ei1].
Qed.

(** [dir->i_op->lookup(dir, name)] on a directory in direct blocks. *)
Lemma op_lookup_spec fuel s v p i name nm n :
  head_static (A := A) bh_head -> geometry b -> fs_ok s v -> p ∈ vps v -> inodes s !! p = Some i ->
  let r := dir_find (fl_data (chip (fc s))) b (i_ino i) nm in
  searchable (fl_data (chip (fc s))) b (i_ino i) nm -> cstr (fmem s) name nm ->
  (forall x, name <= x <= name + Z.of_nat (length nm) -> storable (vL v) x) -> (length nm < fuel)%nat ->
  room (cheap (fc s)) (34 + n) ->
  exists q s' v', op_lookup bh_head stale_inode fuel p name s = Some (q, s') /\
    fs_ok s' v' /\ fext 1 s v s' v' /\ room (cheap (fc s')) n /\ outcome s v s' v' q r.
Proof.
  intros Hst Hgeo Hf Hp Hi r (Hdir & Hsz & Hlen & Hr) Hc Hsto Hfu Hroom.
  pose proof (fp_inodes _ _ _ Hf) as Ha. rewrite Forall_forall in Ha. destruct (Ha p Hp) as (i' & Ei & Hs & Hd).
  assert (i' = i) as -> by congruence. destruct Hd as [Hd|Hd]; [by destruct (vps_not_null _ _ _ _ Hf Hp)|].
  unfold op_lookup. rewrite Hi, bind_Some, (od_op _ _ _ Hd), (od_mode _ _ _ Hd), Hdir.
  unfold minix_lookup. rewrite Hi, bind_Some, (od_mode _ _ _ Hd), Hdir. cbn [negb].
  unfold strlen. unfold NAME_LEN in *. rewrite (strlen_loop_spec fuel (fmem s) name nm 0 Hc Hfu), bind_Some, Z.add_0_l
    by (try (change (2 ^ 32) with 4294967296); lia).
  destruct (Z.ltb_spec 30 (Z.of_nat (length nm))); [lia|]. rewrite Hs.
  pose proof (dld_range 4 (fl_data (chip (fc s))) (ino_addr b (i_ino i) + 4) (fun o => fl_data_range _ o)) as Hz0.
  fold (d_size (fl_data (chip (fc s))) b (i_ino i)) in Hz0. rewrite <- (od_size _ _ _ Hd) in *.
  set (nb := Z.to_nat ((i_size i + 1023) / 1024)).
  assert (Hnb : Z.of_nat nb = (i_size i + 1023) / 1024) by (unfold nb; Z.div_mod_to_equations; lia).
  assert (Hnb7 : (nb <= 7)%nat) by (Z.div_mod_to_equations; lia).
  assert (Hent : entries (fl_data (chip (fc s))) b (i_ino i) = Z.of_nat <$> seq 0 (32 * nb)).
  { unfold entries. rewrite <- (od_size _ _ _ Hd). do 2 f_equal. lia. }
  subst r. unfold dir_find in *. rewrite Hent in *.
  apply (lookup_from_spec nb _ 0 s v p i name nm n Hst Hgeo Hf Hi Hs Hd Hc Hsto); try done; try lia.
  - change BLOCK_SZ with 1024. Z.div_mod_to_equations; lia.
  - apply (room_le _ _ _ Hroom). lia.
Qed.

(** ** Temporary blocks *)

(** Bytes outside the file system's blocks that may be stored to. *)
Definition scratch v (x : Z) : Prop := ~ arena x \/ exists a n, vL v !! a = Some n /\ a ∉ own v /\ a <= x < a + n.

Lemma own_bytes nw s v a n x : fs_part nw s v -> a ∈ own v -> vL v !! a = Some n -> a <= x < a + n -> ~ scratch v x.
Proof.
  intros Hf Ha Hn Hx [Hs|(c & m & Hm & Hc & Hcx)].
  - apply Hs. by apply (owns_range _ _ a n (ck_heap _ _ _ _ (fp_cache _ _ _ Hf)) Hn).
  - destruct (owns_disjoint _ _ a n c m (ck_heap _ _ _ _ (fp_cache _ _ _ Hf)) Hn Hm); [by intros ->|lia|lia].
Qed.

(** Changing the heap's bytes or its other blocks. *)
Lemma fs_part_heap nw s v h L' :
  fs_part nw s v -> owns h L' -> (forall a, a ∈ own v -> L' !! a = vL v !! a) ->
  (forall a n x, a ∈ own v -> vL v !! a = Some n -> a <= x < a + n -> ldb (hmem h) x = ldb (fmem s) x) ->
  fs_part nw (set_fc (set_heap h (fc s)) s) {| vL := L'; vbl := vbl v; vps := vps v |}.
Proof.
  intros [Hck Hcoh Hsup Hinf Hnd Hino Hblk (ns & Hsb & Hns) Hsep] Ho HL Hb.
  assert (Hin : forall c, c ∈ vbl v -> c.1 ∈ own v /\ data c.2 ∈ own v).
  { intros c Hc. unfold own, blocks. rewrite !elem_of_app. split; left; [left|right].
    - by apply list_elem_of_fmap_2.
    - by apply (list_elem_of_fmap_2 (fun pb => data pb.2)). }
  pose proof (ck_bufs _ _ _ _ Hck) as Hbufs. rewrite Forall_forall in Hbufs.
  split; cbn [fc set_fc set_heap supers sbis inodes vL vbl vps chip lists]; try done.
  - split; cbn [lists bufs cheap chip set_heap]; try apply Hck; [|done].
    apply Forall_forall. intros c Hc. destruct (Hbufs c Hc) as (H1 & H2 & H3). destruct (Hin c Hc) as [I1 I2].
    rewrite (HL _ I1), (HL _ I2). done.
  - rewrite Forall_forall in Hcoh |- *. intros c Hc. destruct (Hcoh c Hc) as [H1 H2]. split; [done|].
    intros j Hj. rewrite <- H2 by done. destruct (Hbufs c Hc) as (_ & _ & m & Hm & Hm2). destruct (Hin c Hc) as [_ I2].
    unfold fmem, cmem. cbn [fc set_fc set_heap cheap]. apply (Hb (data c.2) m); [done|done|lia].
  - rewrite Forall_forall in Hblk |- *. intros p Hp. rewrite HL; [by apply Hblk|]. unfold own. rewrite !elem_of_app.
    right; left. by apply list_elem_of_fmap_2.
  - exists ns. rewrite HL; [done|]. unfold own. rewrite !elem_of_app, list_elem_of_singleton. by right; right.
Qed.

Lemma falloc_part nw s v len n :
  fs_part nw s v -> room (cheap (fc s)) (2 + n) -> 0 <= len <= 4096 ->
  exists a m s', falloc len s = Some (a, s') /\ vL v !! a = None /\ len <= m <= Z.max 16 (2 * len - 1) /\ 0 < a /\ a + m < 2 ^ 64 /\
    s' = set_fc (fc s') s /\ chip (fc s') = chip (fc s) /\ bufs (fc s') = bufs (fc s) /\ lists (fc s') = lists (fc s) /\
    fs_part nw s' {| vL := <[a := m]> (vL v); vbl := vbl v; vps := vps v |} /\ room (cheap (fc s')) n /\
    (forall x, storable (vL v) x -> ldb (fmem s') x = ldb (fmem s) x /\ ~ a <= x < a + m).
Proof.
  intros Hf Hr Hlen. pose proof (ck_heap _ _ _ _ (fp_cache _ _ _ Hf)) as Ho.
  destruct (halloc_ok (cheap (fc s)) (vL v) len n Ho Hr Hlen) as (a & m & h & E & Ha0 & Ha1 & Hna & Hm & Hle & Hdis & Ho' & Hr' & Hk).
  exists a, m, (set_fc (set_heap h (fc s)) s). unfold falloc. rewrite E, bind_Some. split; [done|].
  assert (Hbytes : forall x, storable (vL v) x -> ldb (hmem h) x = ldb (fmem s) x).
  { intros x [Hx|(c & k & Hc & Hx)]; apply Hk; [by left|right; by exists c, k]. }
  split_and!; try done; try lia.
  - apply fs_part_heap; try done.
    + intros c Hc. destruct (own_live _ _ _ _ Hf Hc) as [k Hc']. rewrite lookup_insert_ne; [done|congruence].
    + intros c k x _ Hc Hx. apply Hbytes. right. by exists c, k.
  - intros x Hx. split; [by apply Hbytes|]. intros Hax. destruct Hx as [Hx|(c & k & Hc & Hx)].
    + apply Hx. by apply (owns_range _ _ a m Ho' (lookup_insert_eq _ _ _)).
    + destruct (Hdis c k Hc); lia.
Qed.

Lemma ffree_part nw s v a m :
  fs_part nw s v -> vL v !! a = Some m -> a ∉ own v -> reusable m ->
  exists s', ffree a s = Some s' /\ s' = set_fc (fc s') s /\ chip (fc s') = chip (fc s) /\
    fs_part nw s' {| vL := delete a (vL v); vbl := vbl v; vps := vps v |} /\
    (forall n, room (cheap (fc s)) n -> room (cheap (fc s')) n) /\
    (forall x, x < a \/ a + m <= x -> ldb (fmem s') x = ldb (fmem s) x).
Proof.
  intros Hf Ha Hna Hre. pose proof (ck_heap _ _ _ _ (fp_cache _ _ _ Hf)) as Ho.
  destruct (hfree_ok (cheap (fc s)) (vL v) a m Ho Ha Hre) as (h & E & Ho' & Hr & Hk).
  exists (set_fc (set_heap h (fc s)) s). unfold ffree. rewrite E, bind_Some. split_and!; try done.
  apply fs_part_heap; try done.
  - intros c Hc. rewrite lookup_delete_ne; [done|]. by intros ->.
  - intros c k x Hc Hk' Hx. apply Hk. destruct (owns_disjoint _ _ c k a m Ho Hk' Ha); [by intros ->|lia|lia].
Qed.

Lemma set_fmem_part nw s v (m : mem) :
  fs_part nw s v -> (forall x, scratch v x \/ ldb m x = ldb (fmem s) x) ->
  fs_part nw (set_fmem m s) v /\ fmem (set_fmem m s) = m /\
  (forall n, room (cheap (fc s)) n -> room (cheap (fc (set_fmem m s))) n).
Proof.
  intros Hf Hm. pose proof (ck_heap _ _ _ _ (fp_cache _ _ _ Hf)) as Ho.
  destruct (hset_ok (cheap (fc s)) (vL v) m Ho) as [Ho' Hr].
  { intros x. destruct (Hm x) as [[Hx|(a & n & Ha & _ & Hx)]|E]; [by left|right; left; by exists a, n|by right; right]. }
  split_and!; [|apply hset_mem|done]. destruct v as [L bl ps].
  apply (fs_part_heap nw s {| vL := L; vbl := bl; vps := ps |} (hset m (cheap (fc s))) L); try done.
  intros a n x Ha Hn Hx. rewrite hset_mem. destruct (Hm x) as [Hs|E]; [|done]. by destruct (own_bytes _ _ _ a n x Hf Ha Hn Hx).
Qed.

(** ** Resolving a path *)

(** A user counted since [s0], among at most [k]. *)
Definition counted (k : nat) (s0 : fsys A F) (v0 : fview) s q t : Prop :=
  forall p i, cached s0 v0 t = Some p -> inodes s0 !! p = Some i -> 1 <= i_count i -> i_count i + Z.of_nat k < 2 ^ 64 ->
    q = p /\ exists j, inodes s !! q = Some j /\ i_count i + 1 <= i_count j <= i_count i + Z.of_nat k.

(** Inode [t] is in memory at [q]. *)
Definition at_inode s v q t : Prop := q ∈ vps v /\ exists j, inodes s !! q = Some j /\ i_ino j = t.

Lemma cached_in s v r p : cached s v r = Some p -> p ∈ vps v.
Proof. intros Hc. apply find_some in Hc as [Hi _]. by apply list_elem_of_In in Hi. Qed.

Lemma found_counted k s0 v0 s v s' v' q r :
  fext k s0 v0 s v -> found s v s' v' q r -> counted (S k) s0 v0 s' q r.
Proof.
  intros Hx [_ _ _ Hc] p i Hp Hi H1 H2. pose proof (cached_in _ _ _ _ Hp) as Hin.
  destruct (fx_inodes _ _ _ _ _ Hx p i Hin Hi) as (n & En & Hn).
  destruct (Hc p _ (fx_cached _ _ _ _ _ Hx _ _ Hp) En) as (-> & j & Ej & Hj). split; [done|]. exists j. split; [done|].
  cbn [with_count i_count] in Hj. rewrite Hj. change (2 ^ 64) with 18446744073709551616 in *.
  rewrite wrap_small by (change (2 ^ 64) with 18446744073709551616; lia). lia.
Qed.

(** Putting a component into the name buffer. *)
Lemma copy_name nw s v name nn src comp :
  fs_part nw s v -> vL v !! name = Some nn -> name ∉ own v -> Z.of_nat (length comp) < nn -> Z.of_nat (length comp) < 2 ^ 31 ->
  (forall j, (j <= length comp)%nat -> ~ name <= src + Z.of_nat j < name + nn) ->
  (forall j c, comp !! j = Some c -> ldb (fmem s) (src + Z.of_nat j) = c) -> Forall (fun c => 0 < c < 256) comp ->
  exists m, memcpy (fmem s) name src (Z.of_nat (length comp)) = Some m /\
    let s1 := set_fmem (stb m (name + Z.of_nat (length comp)) 0) s in
    fs_part nw s1 v /\ cstr (fmem s1) name comp /\ (forall n, room (cheap (fc s)) n -> room (cheap (fc s1)) n) /\
    (forall x, ~ name <= x < name + nn -> ldb (fmem s1) x = ldb (fmem s) x).
Proof.
  intros Hf Hn Hown Hlen Hnn Hdis Hsrc Hcomp.
  assert (Hov : name <= src \/ src + Z.of_nat (length comp) <= name).
  { destruct (decide (name <= src)) as [|Hlt]; [by left|]. right. destruct (decide (src + Z.of_nat (length comp) <= name)) as [|Hge]; [done|].
    exfalso. apply (Hdis (Z.to_nat (name - src))); lia. }
  destruct (memcpy_ldb (fmem s) name src (Z.of_nat (length comp))) as (m & E & Hm1 & Hm2); [lia|done|].
  exists m. split; [done|]. cbn zeta. set (m1 := stb m (name + Z.of_nat (length comp)) 0).
  assert (Hout : forall x, ~ name <= x < name + nn -> ldb m1 x = ldb (fmem s) x).
  { intros x Hx. unfold m1. rewrite ldb_stb_ne by lia. apply Hm2. lia. }
  destruct (set_fmem_part nw s v m1 Hf) as (Hf1 & Em & Hr).
  { intros x. destruct (decide (name <= x < name + nn)) as [Hx|Hx]; [|right; by apply Hout].
    left. right. exists name, nn. done. }
  rewrite Em. split_and!; try done. unfold cstr. split_and!.
  - apply list_eq_same_length with (n := length comp); [done|apply length_bytes|]. intros j x y Hj Hx Hy.
    rewrite lookup_bytes in Hx by done. injection Hx as <-. unfold m1. rewrite ldb_stb_ne by lia. rewrite Hm1 by lia. by apply Hsrc.
  - apply (Forall_impl _ _ _ Hcomp). lia.
  - unfold m1. rewrite ldb_stb, Z.eqb_refl. done.
Qed.

Lemma fmem_set (m : mem) s : fmem (set_fmem m s) = m.
Proof. apply hset_mem. Qed.

Lemma fext_store k s0 v0 s v (m : mem) name nn :
  fext k s0 v0 s v -> fmem (set_fmem m s) = m -> (forall x, ~ name <= x < name + nn -> ldb m x = ldb (fmem s) x) ->
  (forall x, storable (vL v0) x -> ~ name <= x < name + nn) -> fext k s0 v0 (set_fmem m s) v.
Proof.
  intros [A1 A2 A3 A4 A5 A6 A7 A8 A9 A10] Em Hm Hd. split; try done.
  - rewrite A1. reflexivity.
  - intros x Hx. rewrite Em, Hm by (by apply Hd). by apply A4.
Qed.

Lemma resolve_cons f ino nm cs :
  resolve f b ino (nm :: cs) = if dir_find f b ino nm =? 0 then 0 else resolve f b (dir_find f b ino nm) cs.
Proof. done. Qed.

(** What a walk along a path that leads to [t] ends with. *)
Definition walked (k : nat) (s0 : fsys A F) (v0 : fview) s v q t : Prop :=
  fext k s0 v0 s v /\ if t =? 0 then q = NULL else at_inode s v q t.

Lemma namei_loop_spec (s0 : fsys A F) (v0 : fview) fuel name nn r :
  head_static (A := A) bh_head -> geometry b -> (forall x, storable (vL v0) x -> ~ name <= x < name + nn) ->
  forall n k s v str path dir i (started : Prop),
  fs_ok s v -> fext k s0 v0 s (without name v) -> vL v !! name = Some nn -> name ∉ own v -> dir ∈ vps v -> inodes s !! dir = Some i ->
  (started -> counted k s0 v0 s dir (i_ino i)) ->
  cstr (fmem s0) path str -> 0 < path -> (forall x, path <= x <= path + Z.of_nat (length str) -> storable (vL v0) x) ->
  Z.of_nat (length str) < nn -> Z.of_nat (length str) < 2 ^ 31 -> (length str < fuel)%nat ->
  walkable (fl_data (chip (fc s))) b (i_ino i) (components [] str) ->
  (length (components [] str) < n)%nat -> room (cheap (fc s)) (34 * length (components [] str) + r) ->
  let t := resolve (fl_data (chip (fc s))) b (i_ino i) (components [] str) in
  exists q s' v', namei_loop bh_head stale_inode n fuel dir path name s = Some (q, s') /\
    fs_ok s' v' /\ walked (k + length (components [] str)) s0 v0 s' (without name v') q t /\ vL v' !! name = Some nn /\ name ∉ own v' /\
    room (cheap (fc s')) r /\
    (t <> 0 -> started \/ components [] str <> [] -> counted (k + length (components [] str)) s0 v0 s' q t).
Proof.
  intros Hst Hgeo Hfr. induction n as [|n IH];
    intros k s v str path dir i started Hf Hx Hn Hown Hdir Hi Hstart Hc Hp Hsto Hlen H31 Hfu Hw Hcs Hr t; [lia|].
  destruct (components_step str) as (ns & comp & rest & Es & Hsf & Hrest & Hnil & Ecs). cbn [namei_loop].
  pose proof (fp_inodes _ _ _ Hf) as Ha. rewrite Forall_forall in Ha. destruct (Ha dir Hdir) as (i' & Ei' & _ & Hd).
  assert (i' = i) as -> by congruence. destruct Hd as [Hd|Hd]; [by destruct (vps_not_null _ _ _ _ Hf Hdir)|].
  assert (Hcs0 : cstr (fmem s) path str).
  { apply (cstr_agree (fmem s0)); [|done]. intros x Hxx. apply Hx, Hsto. lia. }
  rewrite (path_len_step fuel (fmem s) path str ns comp rest) by (done || (unfold NULL; lia)). rewrite bind_Some.
  destruct comp as [|c0 comp0] eqn:Ecomp.
  - cbn [length Z.of_nat]. change (0 =? 0) with true. cbn iota. exists dir, s, v. split; [done|].
    subst t. rewrite Ecs. cbn [length resolve]. rewrite Nat.add_0_r.
    assert (i_ino i <> 0) by (destruct Hd as [? _]; lia).
    split_and!; [done|split; [done|]|done|done|apply (room_le _ _ _ Hr); lia|].
    + destruct (Z.eqb_spec (i_ino i) 0); [done|]. split; [done|by exists i].
    + intros _ [Hst'|[]]; [by apply Hstart|done].
  - rewrite bool_decide_eq_false_2 by (intros [_ ?]; done). rewrite <- Ecomp in *.
    assert (Hcn : comp <> []) by (by rewrite Ecomp). clear Ecomp c0 comp0.
    assert (Ecs' : components [] str = comp :: components [] rest) by (rewrite Ecs; by destruct comp).
    rewrite Ecs' in *. clear Ecs. cbn [length] in Hcs, Hr.
    assert (Hl : (length str = ns + (length comp + length rest))%nat) by (rewrite Es, !length_app, length_replicate; done).
    destruct (Z.eqb_spec (Z.of_nat (length comp)) 0) as [E0|_]; [by destruct comp|].
    set (src := path + Z.of_nat ns).
    assert (Hcsrc : cstr (fmem s) src (comp ++ rest)).
    { rewrite Es in Hcs0. apply cstr_drop in Hcs0. by rewrite length_replicate in Hcs0. }
    destruct (copy_name NULL s v name nn src comp Hf Hn Hown) as (m & Em & Hf1 & Hc1 & Hr1 & Hout1); try lia.
    { intros j Hj. apply Hfr, Hsto. unfold src. lia. }
    { intros j c Hj. destruct Hcsrc as (Hb & _ & _). pose proof (lookup_lt_Some _ _ _ Hj).
      assert (Hjj : (comp ++ rest) !! j = Some c) by (rewrite lookup_app_l; done).
      rewrite <- Hb, lookup_bytes in Hjj by (rewrite length_app; lia). congruence. }
    { apply cstr_pos, Forall_app in Hcsrc. apply Hcsrc. }
    rewrite Em, bind_Some. set (s1 := set_fmem (stb m (name + Z.of_nat (length comp)) 0) s) in *. cbn zeta in *.
    assert (Hx1 : fext k s0 v0 s1 (without name v)).
    { apply (fext_store _ _ _ _ _ _ name nn); [done| | |done].
      - apply fmem_set.
      - intros x Hxx. rewrite <- Hout1 by done. unfold s1. by rewrite fmem_set. }
    cbn [walkable] in Hw. destruct Hw as [Hsearch Hw].
    destruct (op_lookup_spec fuel s1 v dir i name comp (34 * length (components [] rest) + r) Hst Hgeo Hf1 Hdir Hi Hsearch Hc1)
      as (q1 & s2 & v2 & E2 & Hf2 & Hx2 & Hr2 & Ho).
    { intros x Hxx. right. exists name, nn. split; [done|lia]. }
    { lia. }
    { apply Hr1. apply (room_le _ _ _ Hr). lia. }
    rewrite E2, bind_Some. change (chip (fc s1)) with (chip (fc s)) in Ho.
    pose proof (fext_trans _ _ _ _ _ _ _ _ Hx1 (fext_client _ _ _ _ _ name Hx2)) as Hx02.
    assert (Hname2 : vL v2 !! name = Some nn /\ name ∉ own v2).
    { split; [by apply (lookup_weaken (vL v)); [|apply Hx2]|]. intros [Hi2|Hi2]%(fx_own _ _ _ _ _ Hx2); [done|congruence]. }
    destruct Hname2 as [Hn2 Hown2]. subst t. rewrite ?Ecs', resolve_cons. unfold outcome in Ho.
    destruct (Z.eqb_spec (dir_find (fl_data (chip (fc s))) b (i_ino i) comp) 0) as [Ez|Hnz].
    + subst q1. change (NULL =? NULL) with true. cbn iota. exists NULL, s2, v2. split; [done|].
      split_and!; [done|split; [|done]|done|done|apply (room_le _ _ _ Hr2); lia|done].
      apply (fext_more (k + 1)); [cbn [length]; lia|done].
    + pose proof Ho as [Hq1 (j & Ej & Hj) Hq0 _]. destruct (Z.eqb_spec q1 NULL); [done|].
      assert (Hrestc : cstr (fmem s0) (src + Z.of_nat (length comp)) rest).
      { rewrite Es in Hc. apply cstr_drop in Hc. rewrite length_replicate in Hc. by apply cstr_drop in Hc. }
      assert (Ech : chip (fc s2) = chip (fc s)) by (rewrite (fx_chip _ _ _ _ _ Hx2); done).
      destruct (IH (k + 1)%nat s2 v2 rest (src + Z.of_nat (length comp)) q1 j True Hf2 Hx02 Hn2 Hown2 Hq1 Ej)
        as (q & s' & v' & E & Hf' & (Hx' & Hq) & Hn' & Hown' & Hr' & Hcount); rewrite ?Ech, ?Hj; try done; try (unfold src; lia).
      * intros _. replace (k + 1)%nat with (S k) by lia. apply (found_counted k s0 v0 s1 (without name v) s2 v2); [done|]. destruct Ho. by split.
      * intros x Hxx. apply Hsto. unfold src in *. lia.
      * by apply Hw.
      * rewrite Ech, Hj in *. exists q, s', v'. cbn [length].
        replace (k + S (length (components [] rest)))%nat with (k + 1 + length (components [] rest))%nat by lia.
        split; [exact E|]. split_and!; [done|split; done|done|done|done|]. intros Ht _. apply Hcount; [done|by left].
Qed.

(** A leading "./" is skipped. *)
Definition strip (str : list Z) : list Z :=
  match str with c :: d :: l => if (c =? c_dot) && (d =? c_slash) then l else str | _ => str end.

Lemma strip_spec (m : mem) path str :
  cstr m path str -> exists k, cstr m (path + Z.of_nat k) (strip str) /\ length str = (k + length (strip str))%nat /\
    path + Z.of_nat k = if (ldb m path =? c_dot) && (ldb m (path + 1) =? c_slash) then path + 2 else path.
Proof.
  intros Hc. destruct str as [|c [|d l]]; cbn [strip].
  - exists 0%nat. rewrite Z.add_0_r. pose proof Hc as E%cstr_nil. by rewrite E.
  - exists 0%nat. rewrite Z.add_0_r. pose proof Hc as (_ & _ & E%cstr_nil)%cstr_cons. rewrite E.
    change (0 =? c_slash) with false. by rewrite andb_false_r.
  - pose proof Hc as (E1 & _ & (E2 & _ & Hl)%cstr_cons)%cstr_cons. rewrite E1, E2. destruct (_ && _).
    + exists 2%nat. replace (path + 1 + 1) with (path + Z.of_nat 2) in Hl by lia. split_and!; [done|done|lia].
    + exists 0%nat. rewrite Z.add_0_r. done.
Qed.

Lemma components_length cur str : (length (components cur str) <= S (length str))%nat.
Proof.
  revert cur. induction str as [|c str IH]; intros cur; cbn [components length].
  - destruct cur; cbn; lia.
  - destruct (c =? c_slash); [|specialize (IH (cur ++ [c])); lia]. specialize (IH []). destruct cur; cbn [length]; lia.
Qed.

(** The block [namei] copies a name into may be given back. *)
Definition reusable_name (str : list Z) : Prop :=
  let len := Z.of_nat (length (strip str)) + 4 in forall m, len <= m <= Z.max 16 (2 * len - 1) -> reusable m.

Lemma reusable_short str : (length str <= 251)%nat -> reusable_name str.
Proof.
  intros Hl m Hm. apply reusable_ok.
  assert (length (strip str) <= length str)%nat by (destruct str as [|c [|d l]]; cbn; [done..|]; destruct (_ && _); cbn; lia). lia.
Qed.

Lemma namei_spec s v fuel cur path str dir i r :
  head_static (A := A) bh_head -> geometry b -> fs_ok s v -> cstr (fmem s) path str -> 0 < path ->
  (forall x, path <= x <= path + Z.of_nat (length str) -> storable (vL v) x) -> Z.of_nat (length str) <= 4092 -> reusable_name str ->
  dir = (if ldb (fmem s) path =? c_slash then root_inode s else cur) -> dir ∈ vps v -> inodes s !! dir = Some i ->
  let cs := components [] (strip str) in
  walkable (fl_data (chip (fc s))) b (i_ino i) cs -> (S (length str) < fuel)%nat ->
  room (cheap (fc s)) (2 + (34 * length cs + r)) ->
  let t := resolve (fl_data (chip (fc s))) b (i_ino i) cs in
  exists q s' v', namei bh_head stale_inode fuel cur path s = Some (q, s') /\
    fs_ok s' v' /\ walked (length cs) s v s' v' q t /\ room (cheap (fc s')) r /\
    (t <> 0 -> cs <> [] -> counted (length cs) s v s' q t).
Proof.
  intros Hst Hgeo Hf Hc Hp Hsto Hlen Hre Edir Hdir Hi cs Hw Hfu Hr t.
  destruct (strip_spec (fmem s) path str Hc) as (k & Hc1 & Hk & Epath).
  pose proof (components_length [] (strip str)) as Hcl. fold cs in Hcl.
  unfold namei. destruct (Z.eqb_spec path NULL); [unfold NULL in *; lia|].
  assert (Enull : negb (ldb (fmem s) path =? c_slash) && (cur =? NULL) = false).
  { destruct (ldb (fmem s) path =? c_slash); [done|]. subst dir. pose proof (vps_not_null _ _ _ _ Hf Hdir) as Hn.
    apply Z.eqb_neq in Hn. by rewrite Hn. }
  rewrite Enull, <- Edir, <- Epath. unfold strlen.
  rewrite (strlen_loop_spec fuel (fmem s) (path + Z.of_nat k) (strip str) 0 Hc1), Z.add_0_l, bind_Some
    by (try (change (2 ^ 32) with 4294967296); lia).
  destruct (falloc_part NULL s v (Z.of_nat (length (strip str)) + 4) (34 * length cs + r) Hf Hr ltac:(lia))
    as (name & nn & s1 & E & Hna & Hnn & Hn0 & Hn1 & Es1 & Ec1 & _ & _ & Hf1 & Hr1 & Hb1).
  rewrite E, bind_Some. set (v1 := {| vL := <[name := nn]> (vL v); vbl := vbl v; vps := vps v |}) in *.
  assert (Hown : name ∉ own v1).
  { intros Ho. change (own v1) with (own v) in Ho. destruct (own_live _ _ _ _ Hf Ho). congruence. }
  assert (Ei1 : inodes s1 = inodes s) by (by rewrite Es1).
  assert (Hx1 : fext 0 s v s1 (without name v1)).
  { split; try done.
    - rewrite Es1. cbn. by destruct s.
    - apply map_subseteq_spec. intros a m Ha. cbn [vL without v1]. rewrite lookup_delete_ne, lookup_insert_ne by congruence. done.
    - intros x Hx. by apply Hb1.
    - intros p j _ Hj. apply keep_inode. by rewrite Ei1.
    - intros t' p. unfold cached. by rewrite Ei1.
    - intros a Ha. by left.
    - intros a m Ha. right. cbn [vL without v1] in Ha. apply lookup_delete_Some in Ha as [Hne Ha]. by rewrite lookup_insert_ne in Ha. }
  destruct (namei_loop_spec s v fuel name nn r Hst Hgeo (fun x Hx => proj2 (Hb1 x Hx)) fuel 0 s1 v1 (strip str)
    (path + Z.of_nat k) dir i False Hf1 Hx1 (lookup_insert_eq _ _ _) Hown Hdir ltac:(by rewrite Ei1) ltac:(done))
    as (q & s2 & v2 & E2 & Hf2 & (Hx2 & Hq) & Hn2 & Hown2 & Hr2 & Hcnt); try done; try lia.
  - intros x Hx. apply Hsto. lia.
  - by rewrite Ec1.
  - fold cs. lia.
  - rewrite E2, bind_Some. destruct (ffree_part NULL s2 v2 name nn Hf2 Hn2 Hown2 (Hre nn Hnn)) as (s3 & E3 & Es3 & Ec3 & Hf3 & Hr3 & Hb3).
    rewrite E3, bind_Some. rewrite Ec1 in *. exists q, s3, {| vL := delete name (vL v2); vbl := vbl v2; vps := vps v2 |}.
    assert (Ei3 : inodes s3 = inodes s2) by (by rewrite Es3).
    split; [done|]. split_and!; [exact Hf3|split|by apply Hr3|].
    + destruct Hx2 as [A1 A2 A3 A4 A5 A6 A7 A8 A9 A10]. split; try done.
      * rewrite Es3 at 1. rewrite A1. rewrite Es3. reflexivity.
      * by rewrite Ec3.
      * intros x Hx. rewrite Hb3; [by apply A4|]. destruct (Hb1 x Hx). lia.
      * by rewrite Ei3.
      * unfold cached in *. by rewrite Ei3.
    + change (if t =? 0 then q = NULL else at_inode s2 v2 q t) in Hq. destruct (t =? 0); [done|]. destruct Hq as [Hq1 Hq2]. split; [done|]. by rewrite Ei3.
    + intros Ht Hcs p j Hp' Hj H1 H2. destruct (Hcnt Ht (or_intror Hcs) p j Hp' Hj H1 H2) as (-> & j' & Hj' & Hb). split; [done|].
      exists j'. by rewrite Ei3.
Qed.
End Mounted.

#[global] Arguments fp_cache {A F HO H H0 bh_head sb bd si b nw s v}.
#[global] Arguments fp_coh {A F HO H H0 bh_head sb bd si b nw s v}.
#[global] Arguments fp_super {A F HO H H0 bh_head sb bd si b nw s v}.
#[global] Arguments fp_info {A F HO H H0 bh_head sb bd si b nw s v}.
#[global] Arguments fp_nodes {A F HO H H0 bh_head sb bd si b nw s v}.
#[global] Arguments fp_inodes {A F HO H H0 bh_head sb bd si b nw s v}.
#[global] Arguments fp_blocks {A F HO H H0 bh_head sb bd si b nw s v}.
#[global] Arguments fp_sblk {A F HO H H0 bh_head sb bd si b nw s v}.
#[global] Arguments fp_sep {A F HO H H0 bh_head sb bd si b nw s v}.
#[global] Arguments fx_state {A F HO H sb k s v s' v'}.
#[global] Arguments fx_chip {A F HO H sb k s v s' v'}.
#[global] Arguments fx_live {A F HO H sb k s v s' v'}.
#[global] Arguments fx_bytes {A F HO H sb k s v s' v'}.
#[global] Arguments fx_inodes {A F HO H sb k s v s' v'}.
#[global] Arguments fx_ps {A F HO H sb k s v s' v'}.
#[global] Arguments fx_cached {A F HO H sb k s v s' v'}.
#[global] Arguments fx_own {A F HO H sb k s v s' v'}.
#[global] Arguments fx_bufs {A F HO H sb k s v s' v'}.
#[global] Arguments fx_new {A F HO H sb k s v s' v'}.
