(* ===== verification/Mount.v ===== *)
(** Mounting: what init_fs and minix_fill_super (fs/fs.c, fs/minix_fs.c) make of
    a device that holds a file system.

    From an empty buffer cache they build the invariant of Namei.v: the super
    block read from block 1, the bitmaps in the cache, the root inode in memory. *)

From S2P Require Import Prelude Mem Lib DList Page Kmalloc Heap Buffer Task Minix File Namei.
Local Open Scope Z_scope.

(** ** The super block on the device *)

Implicit Types (f : Z -> Z).

Definition d_imap_blocks f : Z := dld 2 f (1024 + 4).
Definition d_zmap_blocks f : Z := dld 2 f (1024 + 6).

(** The super block in memory says what block 1 says. *)
Definition super_on_disk f (b : minix_sb_info) : Prop :=
  s_ninodes b = dld 2 f 1024 /\ s_nzones b = dld 2 f (1024 + 2) /\ s_imap_blocks b = d_imap_blocks f /\
  s_zmap_blocks b = d_zmap_blocks f /\ s_firstdatazone b = dld 2 f (1024 + 8) /\
  s_log_zone_size b = dld 2 f (1024 + 10) /\ s_max_size b = dld 4 f (1024 + 12).

(** The bitmap arrays fit in a page, and there is a root inode. *)
Definition mountable f : Prop := d_imap_blocks f <= 85 /\ d_zmap_blocks f <= 85 /\ 1 <= dld 2 f 1024.

Lemma read_super_on_disk (m : mem) f d q : holds m f d 1 -> super_on_disk f (read_super m d q).
Proof.
  intros Hh. assert (H : forall n o, 0 <= o -> o + Z.of_nat n <= 1024 -> ld n m (d + o) = dld n f (1024 + o)).
  { intros n o H1 H2. rewrite (dld_holds n m f d 1 o Hh H1 H2). f_equal; lia. }
  unfold super_on_disk, d_imap_blocks, d_zmap_blocks, read_super. cbn [s_ninodes s_nzones s_imap_blocks s_zmap_blocks s_firstdatazone s_log_zone_size s_max_size].
  rewrite !H by (cbn; lia). rewrite <- (Z.add_0_r d), (H 2%nat 0) by (cbn; lia). by rewrite Z.add_0_r.
Qed.

Lemma mountable_geometry f b : (forall o, 0 <= f o < 256) -> super_on_disk f b -> mountable f -> geometry b /\ 1 <= s_ninodes b.
Proof.
  intros Hf (E1 & _ & E2 & E3 & _) (H1 & H2 & H3). unfold geometry. rewrite E1, E2, E3.
  pose proof (dld_range 2 f 1024 Hf). pose proof (dld_range 2 f (1024 + 4) Hf). pose proof (dld_range 2 f (1024 + 6) Hf).
  unfold d_imap_blocks, d_zmap_blocks in *. cbn in *. split; [|done]. split_and!; [lia|lia|]. Z.div_mod_to_equations. lia.
Qed.

Section Mount.
Context {A F : Type} {HO : HeapOps A} {H : BlockHeap A} {H0 : FlashDevice F}.
Variables (bh_head : Z) (stale_inode : Z -> inode).
Implicit Types (s : fsys A F) (v : fview) (p q d : Z) (b : minix_sb_info) (L : gmap Z Z).

(** ** The bitmaps *)

(** Entries [0 .. n - 1] of the array point to the buffers of the blocks from [first]. *)
Definition loaded s v (arr first n : Z) : Prop :=
  (exists na, vL v !! arr = Some na /\ 8 * n <= na) /\
  forall k, 0 <= k < n -> exists c, (ld64 (fmem s) (arr + 8 * k), c) ∈ vbl v /\ blk_no c = first + k.

Lemma without_storable L h a n x : owns (A := A) h L -> L !! a = Some n -> storable (delete a L) x -> storable L x /\ ~ a <= x < a + n.
Proof.
  intros Ho Ha [Hx|(c & m & Hc & Hx)].
  - split; [by left|]. intros Hr. apply Hx. by apply (owns_range h L a n Ho Ha).
  - apply lookup_delete_Some in Hc as [Hne Hc]. split; [right; by exists c, m|]. destruct (owns_disjoint h L c m a n Ho Hc Ha); [done|lia|lia].
Qed.

Lemma fext_without sb k s0 v0 s v a : vL v0 !! a = None -> fext sb k s0 v0 s v -> fext sb k s0 v0 s (without a v).
Proof.
  intros Ha [A1 A2 A3 A4 A5 A6 A7 A8 A9 A10]. split; try done.
  - apply map_subseteq_spec. intros c n Hc. cbn [vL without]. rewrite lookup_delete_ne by congruence. by apply (lookup_weaken (vL v0)).
  - intros c n Hc. cbn [vL without] in Hc. apply lookup_delete_Some in Hc as [_ Hc]. by apply A10.
Qed.

Lemma loaded_keep sb k s v s' v' arr first n :
  fext sb k s v s' v' -> loaded s v arr first n -> loaded s' v' arr first n.
Proof.
  intros Hx [(na & Ha & Hn) Hl]. split; [exists na; split; [by apply (lookup_weaken (vL v)), Hx|done]|].
  intros j Hj. destruct (Hl j Hj) as (c & Hc & Eb). exists c. split; [|done].
  apply (fx_bufs Hx). rewrite (ld_agree 8 (fmem s) (fmem s')); [done|]. intros x Hx1.
  apply (fx_bytes Hx). right. exists arr, na. split; [done|lia].
Qed.

Lemma loaded_without s v a arr first n : loaded s (without a v) arr first n -> loaded s v arr first n.
Proof.
  intros [(na & Ha & Hn) Hl]. split; [|done]. exists na. split; [|done]. cbn [vL without] in Ha. by apply lookup_delete_Some in Ha as [_ ?].
Qed.

Lemma without_comm a c v : without a (without c v) = without c (without a v).
Proof. unfold without. cbn [vL vbl vps]. by rewrite delete_delete. Qed.

Lemma load_map_spec sb bd si b s v arr na first n r :
  head_static (A := A) bh_head -> fs_part bh_head sb bd si b NULL s v -> vL v !! arr = Some na -> arr ∉ own sb v ->
  0 <= n -> 8 * n <= na -> 0 <= first -> first + n <= 65536 -> room (cheap (fc s)) (4 * Z.to_nat n + r) ->
  exists s' v', load_map bh_head arr bd first n s = Some s' /\ fs_part bh_head sb bd si b NULL s' v' /\
    fext sb 0 s (without arr v) s' (without arr v') /\ vps v' = vps v /\ inodes s' = inodes s /\ vL v' !! arr = Some na /\ arr ∉ own sb v' /\
    room (cheap (fc s')) r /\ loaded s' v' arr first n.
Proof.
  intros Hst Hf Ha Hown Hn Hna Hfi Hbl Hr. unfold load_map.
  destruct (for_up_inv (fun i s' => exists v', fs_part bh_head sb bd si b NULL s' v' /\ fext sb 0 s (without arr v) s' (without arr v') /\
      vps v' = vps v /\ inodes s' = inodes s /\ vL v' !! arr = Some na /\ arr ∉ own sb v' /\
      room (cheap (fc s')) (4 * Z.to_nat (n - i) + r) /\ loaded s' v' arr first i)
    (fun i s => let! '(bh, s) := fget_blk bh_head bd (first + i) s in Some (set_fmem (st64 (fmem s) (arr + 8 * i) bh) s))
    (Z.to_nat n) 0 s) as (s' & E & v' & HI).
  - exists v. split_and!; try done.
    + apply fext_refl.
    + by rewrite Z.sub_0_r.
    + split; [exists na; split; [done|lia]|]. intros k Hk. lia.
  - intros i s1 Hi (v1 & Hf1 & Hx1 & Ep1 & Ei1 & Ha1 & Ho1 & Hr1 & Hl1).
    destruct (fget_blk_part bh_head stale_inode sb bd si b NULL s1 v1 (first + i) (4 * Z.to_nat (n - (i + 1)) + r) Hst Hf1)
      as (q & d & s2 & v2 & E2 & Hf2 & Hx2 & Ep2 & Ei2 & Hr2 & (c & Hc & Eb & _) & _ & _).
    { unfold block_in. lia. }
    { apply (room_le _ _ _ Hr1). lia. }
    rewrite E2, bind_Some. eexists. split; [done|].
    pose proof (ck_heap _ _ _ _ (fp_cache Hf1)) as Hh1.
    assert (Ha2 : vL v2 !! arr = Some na) by (apply (lookup_weaken (vL v1)); [done|apply Hx2]).
    assert (Ho2 : arr ∉ own sb v2).
    { intros [Hi2|Hi2]%(fx_own Hx2); [done|congruence]. }
    assert (Hq : 0 <= q < 18446744073709551616).
    { destruct (own_live bh_head sb bd si b NULL s2 v2 q Hf2) as [m Hm].
      - unfold own, blocks. rewrite !elem_of_app. left. left. by apply (list_elem_of_fmap_2 fst _ (q, c)).
      - destruct (owns_range _ _ _ _ (ck_heap _ _ _ _ (fp_cache Hf2)) Hm). change (2 ^ 64) with 18446744073709551616 in *. lia. }
    set (m := st64 (fmem s2) (arr + 8 * i) q).
    assert (Hout : forall x, ~ arr <= x < arr + na -> ldb m x = ldb (fmem s2) x) by (intros x Hx; apply ldb_st_ne; lia).
    destruct (set_fmem_part bh_head sb bd si b NULL s2 v2 m Hf2) as (Hf3 & Em & Hr3).
    { intros x. destruct (decide (arr <= x < arr + na)) as [Hx|Hx]; [|right; by apply Hout]. left. right. by exists arr, na. }
    exists v2. split_and!; try done.
    + apply (fext_store sb _ _ _ _ _ _ arr na); [by apply (fext_trans sb 0 0 _ _ s1 (without arr v1)); [|apply fext_client]|done|exact Hout|].
      intros x Hx. by apply (without_storable (vL v) (cheap (fc s)) arr na x (ck_heap _ _ _ _ (fp_cache Hf)) Ha).
    + by rewrite Ep2.
    + cbn [inodes set_fmem set_fc]. by rewrite Ei2.
    + apply Hr3, (room_le _ _ _ Hr2). lia.
    + split; [exists na; split; [done|lia]|]. intros k Hk. rewrite Em. destruct (decide (k = i)) as [->|Hne].
      * exists c. unfold m. by rewrite ld64_st64_eq.
      * unfold m. rewrite ld_st_ne by lia. apply (loaded_keep sb 0 s1 v1 s2 v2 arr first i Hx2 Hl1). lia.
  - rewrite Z.add_0_l, Z2Nat.id in HI by lia. destruct HI as (Hf' & Hx' & Ep' & Ei' & Ha' & Ho' & Hr' & Hl').
    exists s', v'. split_and!; try done. apply (room_le _ _ _ Hr'). lia.
Qed.

(** ** From an empty cache *)

Lemma falloc_empty s L len n :
  cache_ok bh_head (fc s) L [] -> room (cheap (fc s)) (2 + n) -> 0 <= len <= 4096 ->
  exists a m c, falloc len s = Some (a, set_fc c s) /\ L !! a = None /\ len <= m <= Z.max 16 (2 * len - 1) /\ cache_ok bh_head c (<[a := m]> L) [] /\
    room (cheap c) n /\ chip c = chip (fc s) /\ lists c = lists (fc s) /\
    (forall x, storable L x -> ldb (cmem c) x = ldb (fmem s) x).
Proof.
  intros [H1 H2 H3 H4 H5] Hr Hl.
  destruct (halloc_ok (cheap (fc s)) L len n H4 Hr Hl) as (a & m & h & E & _ & _ & Ha & _ & Hm & _ & Ho & Hr' & Hk).
  exists a, m, (set_heap h (fc s)). unfold falloc. rewrite E, bind_Some. split; [done|].
  split_and!; try done; lia.
Qed.

(** A list node outside the list of buffers. *)
Lemma cache_node c L bl x y :
  cache_ok bh_head c L bl -> x ∉ bh_head :: lrus bl -> cache_ok bh_head (set_lists (<[x := y]> (lists c)) c) L bl.
Proof.
  intros [H1 H2 H3 H4 H5] Hx. split; try done. cbn [lists set_lists]. apply (dlist_frame (lists c)); [done|].
  intros z Hz. rewrite lookup_insert_ne; [done|]. by intros <-.
Qed.

(** The first block read. *)
Lemma first_block s L bd blk n :
  head_static (A := A) bh_head -> cache_ok bh_head (fc s) L [] -> block_in blk -> room (cheap (fc s)) (4 + n) ->
  exists q d L' c, fget_blk bh_head bd blk s = Some (q, set_fc c s) /\ L ⊆ L' /\ L !! q = None /\ L !! d = None /\
    (forall a m, L' !! a = Some m -> L !! a = Some m \/ a = q \/ a = d) /\
    cache_ok bh_head c L' [(q, {| b_state := BH_Uptodate; data := d; b_bd := bd; blk_no := blk |})] /\
    room (cheap c) n /\ chip c = chip (fc s) /\ holds (cmem c) (fl_data (chip (fc s))) d blk /\
    (forall x, storable L x -> ldb (cmem c) x = ldb (fmem s) x) /\
    (forall x, x <> bh_lru q -> x <> bh_head -> lists c !! x = lists (fc s) !! x) /\
    bh_data (set_fc c s) q = Some d.
Proof.
  intros Hst Hck Hin Hr. unfold fget_blk. rewrite (get_blk_eq bh_head _ _ _ _ _ Hck). cbn [find].
  destruct (bread_spec bh_head (fc s) L [] bd blk n Hst Hck Hr Hin)
    as (q & d & nq & nd & c & E & Hq & Hd & Hqd & Hck' & Hr' & Eb & Ec & Hrd & Hk & Hl).
  rewrite E, bind_Some. exists q, d, (<[d := nd]> (<[q := nq]> L)), c. split; [done|].
  split_and!; try done.
  - by apply insert_subseteq_r; [|apply insert_subseteq].
  - intros a m [[-> _]|[_ [[-> _]|[_ Ha]]%lookup_insert_Some]]%lookup_insert_Some; auto.
  - intros x Hx. by apply Hk.
  - intros x Hx1 Hx2. apply Hl. rewrite !not_elem_of_cons. split_and!; [done|done|apply not_elem_of_nil].
  - unfold bh_data. cbn [fc set_fc]. by rewrite Eb, lookup_insert_eq.
Qed.

(** The invariant with the super block's buffer alone. *)
Lemma super_part s L sb bd si b nsb q c :
  cache_ok bh_head (fc s) L [(q, c)] -> holds (fmem s) (fl_data (chip (fc s))) (data c) (blk_no c) -> b_state c = BH_Uptodate -> block_in (blk_no c) ->
  supers s !! sb = Some {| s_op := MinixSops; sb_bd := bd; s_fs_info := si |} -> sbis s !! si = Some b ->
  L !! sb = Some nsb -> 40 <= nsb < 512 -> sb <> q -> sb <> data c -> dlist (lists (fc s)) (s_inodes sb) [] ->
  fs_part bh_head sb bd si b NULL s {| vL := L; vbl := [(q, c)]; vps := [] |}.
Proof.
  intros Hck Hh Hu Hb Hs Hi Hsb Hn Hq Hd Hl. split; cbn [vL vbl vps]; try done.
  - apply Forall_cons. split; [done|by apply Forall_nil].
  - by exists nsb.
  - pose proof (ck_own _ _ _ _ Hck) as Ho. unfold own, blocks in *. cbn [map app vbl vps fst snd] in *.
    apply NoDup_cons in Ho as [H1 H2]. rewrite list_elem_of_singleton in H1.
    apply NoDup_cons. split; [rewrite !elem_of_cons; intros [?|[?|?%elem_of_nil]]; congruence|].
    apply NoDup_cons. split; [rewrite !elem_of_cons; intros [?|?%elem_of_nil]; congruence|apply NoDup_singleton].
Qed.

Lemma sbis_part sb bd si b b' s v :
  fs_part bh_head sb bd si b NULL s v -> vps v = [] ->
  fs_part bh_head sb bd si b' NULL (set_sbis (<[si := b']> (sbis s)) s) v.
Proof.
  intros [H1 H2 H3 H4 H5 H6 H7 H8 H9] Hp. split; try done; cbn [sbis set_sbis inodes].
  - by rewrite lookup_insert_eq.
  - rewrite Hp. by apply Forall_nil.
Qed.

(** ** Mounting *)

(** The state with the super block and its data in place. *)
Definition with_super sb bd si b s : fsys A F :=
  set_supers (<[sb := {| s_op := MinixSops; sb_bd := bd; s_fs_info := si |}]> (supers s)) (set_sbis (<[si := b]> (sbis s)) s).

Definition blank L : fview := {| vL := L; vbl := []; vps := [] |}.

(** The super block read, before the bitmaps. *)
Lemma read_super_spec s L sb nsb bd op x r :
  head_static (A := A) bh_head -> cache_ok bh_head (fc s) L [] ->
  supers s !! sb = Some {| s_op := op; sb_bd := bd; s_fs_info := x |} -> is_Some (lists (fc s) !! s_inodes sb) ->
  L !! sb = Some nsb -> 40 <= nsb < 512 -> room (cheap (fc s)) (6 + r) ->
  exists si b v c, let s' := with_super sb bd si b (set_fc c s) in
    minix_fill_super bh_head sb s = (let! s := init_minix_bitmap bh_head sb s' in Some (0, s)) /\
    fs_part bh_head sb bd si b NULL s' v /\ super_on_disk (fl_data (chip (fc s))) b /\
    vps v = [] /\ L ⊆ vL v /\ (forall a, a ∈ own sb v -> a = sb \/ L !! a = None) /\
    (forall a n, vL v !! a = Some n -> L !! a = Some n \/ a ∈ own sb v \/ n < 512) /\ room (cheap c) r /\ chip c = chip (fc s) /\
    (forall x, storable L x -> ldb (cmem c) x = ldb (fmem s) x).
Proof.
  intros Hst Hck Hsup [node Hnode] Hsb Hnsb Hr.
  destruct (falloc_empty s L sizeof_minix_sb_info (4 + r) Hck Hr ltac:(done))
    as (si & m & c1 & E1 & Hsi & Hm & Hck1 & Hr1 & Ech1 & El1 & Hk1).
  destruct (first_block (set_fc c1 s) _ bd MINIX_SB_OFFSET r Hst Hck1 ltac:(done) Hr1)
    as (q & d & L' & c2 & E2 & HL' & Hq & Hd & Hnew & Hck2 & Hr2 & Ech2 & Hh & Hk2 & Hl2 & Ed).
  cbn [fc set_fc] in *. apply lookup_insert_None in Hq as [Hq Hsq]. apply lookup_insert_None in Hd as [Hd Hsd].
  assert (HLL : L ⊆ L') by (transitivity (<[si := m]> L); [by apply insert_subseteq|done]).
  assert (Hsb' : L' !! sb = Some nsb) by (by eapply lookup_weaken).
  pose proof (ck_heap _ _ _ _ Hck2) as Ho2. pose proof (ck_bufs _ _ _ _ Hck2) as Hb2.
  apply Forall_cons in Hb2 as [(Eb & (nq & Lq & Hnq) & nd & Ld & Hnd) _]. cbn [fst snd data] in *.
  assert (Nq : sb <> q) by congruence. assert (Nd : sb <> d) by congruence.
  assert (Hn1 : s_inodes sb <> bh_lru q).
  { eapply (block_apart _ L' sb nsb q nq); [done..| |]; unfold s_inodes, bh_lru; lia. }
  assert (Hn2 : s_inodes sb <> bh_head).
  { destruct (Hst _ _ sb nsb Ho2 Hsb'); unfold s_inodes; lia. }
  destruct (dlist_init (lists c2) (s_inodes sb)) as (l & El & Hl & Hlf).
  { rewrite Hl2, El1 by done. by exists node. }
  set (b := read_super (cmem c2) d q). set (c := set_lists l c2).
  exists si, b, {| vL := L'; vbl := [(q, {| b_state := BH_Uptodate; data := d; b_bd := bd; blk_no := MINIX_SB_OFFSET |})]; vps := [] |}, c.
  cbn zeta. rewrite Ech1 in *. split_and!.
  - unfold minix_fill_super. rewrite E1, bind_Some. cbn [supers set_fc]. rewrite Hsup, bind_Some. cbn [sb_bd].
    rewrite E2, bind_Some. rewrite Ed, bind_Some. cbn [fc set_fc set_supers set_sbis]. rewrite El, bind_Some. reflexivity.
  - apply (super_part _ L' sb bd si b nsb); try done.
    + destruct Hck2 as [G1 G2 G3 G4 G5]. split; try done. cbn [fc set_fc with_super set_supers set_sbis c lists set_lists].
      apply (dlist_frame (lists c2)); [done|]. intros z Hz. apply Hlf. intros ->.
      apply elem_of_cons in Hz as [?|[?|?%elem_of_nil]%elem_of_cons]; done.
    + unfold fmem. cbn [fc set_fc with_super set_supers set_sbis chip c set_lists data blk_no]. by rewrite Ech2.
    + cbn [supers with_super set_supers]. apply lookup_insert_eq.
    + cbn [sbis with_super set_supers set_sbis]. apply lookup_insert_eq.
  - by apply (read_super_on_disk _ _ d).
  - done.
  - done.
  - unfold own, blocks. cbn [vbl vps map app fst snd data]. intros a. rewrite !elem_of_cons.
    intros [->|[->|[->|?%elem_of_nil]]]; auto. done.
  - unfold own, blocks. cbn [vbl vps vL map app fst snd data]. intros a n [Ha|Ha]%Hnew; [|right; left; rewrite !elem_of_cons; tauto].
    apply lookup_insert_Some in Ha as [[_ <-]|[_ Ha]]; [right; right; unfold sizeof_minix_sb_info in *; lia|by left].
  - done.
  - exact Ech2.
  - intros y Hy. rewrite <- Hk1 by done. apply Hk2. by apply storable_insert.
Qed.

(** Two blocks for the arrays, and the bitmaps in the cache. *)
Lemma init_bitmap_spec sb bd si b s v r :
  head_static (A := A) bh_head -> fs_part bh_head sb bd si b NULL s v -> vps v = [] -> geometry b ->
  s_imap_blocks b <= 85 -> s_zmap_blocks b <= 85 ->
  room (cheap (fc s)) (4 + 4 * (Z.to_nat (s_imap_blocks b) + Z.to_nat (s_zmap_blocks b)) + r) ->
  exists im zm s' v', let b' := with_maps im zm b in
    init_minix_bitmap bh_head sb s = Some s' /\ fs_part bh_head sb bd si b' NULL s' v' /\
    fext sb 0 (set_sbis (<[si := b']> (sbis s)) s) v s' (without zm (without im v')) /\ vps v' = [] /\
    (forall a n, vL v' !! a = Some n -> a = im \/ a = zm -> n < Z.max 512 (2 * sizeof_buffer_head * Z.max (s_imap_blocks b) (s_zmap_blocks b))) /\ room (cheap (fc s')) r /\
    loaded s' v' im 2 (s_imap_blocks b) /\ loaded s' v' zm (2 + s_imap_blocks b) (s_zmap_blocks b).
Proof.
  intros Hst Hf Hp (Gi & Gz & G) Hi85 Hz85 Hr. unfold init_minix_bitmap.
  rewrite (fp_super Hf), bind_Some. cbn [s_fs_info sb_bd]. rewrite (fp_info Hf), bind_Some.
  set (ni := s_imap_blocks b) in *. set (nz := s_zmap_blocks b) in *. set (rr := (4 * Z.to_nat ni + (4 * Z.to_nat nz + r))%nat).
  destruct (falloc_part bh_head sb bd si b NULL s v (sizeof_buffer_head * ni) (2 + rr) Hf)
    as (im & mi & s1 & E1 & Him & Hmi & _ & _ & Es1 & Ec1 & _ & _ & Hf1 & Hr1 & Hk1); [apply (room_le _ _ _ Hr); lia|unfold sizeof_buffer_head; lia|].
  rewrite E1, bind_Some.
  destruct (falloc_part bh_head sb bd si b NULL s1 _ (sizeof_buffer_head * nz) rr Hf1 Hr1)
    as (zm & mz & s2 & E2 & Hzm & Hmz & _ & _ & Es2 & Ec2 & _ & _ & Hf2 & Hr2 & Hk2); [unfold sizeof_buffer_head; lia|].
  rewrite E2, bind_Some. cbn [vL vbl vps] in *. apply lookup_insert_None in Hzm as [Hzm Hiz].
  set (b' := with_maps im zm b). set (v2 := {| vL := <[zm := mz]> (<[im := mi]> (vL v)); vbl := vbl v; vps := vps v |}) in *.
  assert (Eb2 : sbis s2 = sbis s) by (rewrite Es2; cbn; rewrite Es1; done). rewrite ?Eb2.
  set (s3 := set_sbis (<[si := b']> (sbis s)) s2).
  assert (Hf3 : fs_part bh_head sb bd si b' NULL s3 v2) by (unfold s3; rewrite <- Eb2; by apply (sbis_part sb bd si b)).
  assert (Hown : forall a, vL v !! a = None -> a ∉ own sb v2).
  { intros a Ha Ho. change (own sb v2) with (own sb v) in Ho. destruct (own_live _ _ _ _ _ _ _ _ _ Hf Ho). congruence. }
  assert (Hx3 : fext sb 0 (set_sbis (<[si := b']> (sbis s)) s) v s3 (without zm (without im v2))).
  { split; try done; [|..].
    - unfold s3. rewrite Es2, Es1. reflexivity.
    - cbn [fc set_sbis s3]. congruence.
    - apply map_subseteq_spec. intros a n Ha. cbn [vL without v2].
      by rewrite !lookup_delete_ne, !lookup_insert_ne by congruence.
    - intros x Hx. change (fmem s3) with (fmem s2). destruct (Hk2 x) as [-> _]; [by apply storable_insert|]. by apply Hk1.
    - intros p i. rewrite Hp. intros ?%elem_of_nil. done.
    - intros t p. unfold cached. rewrite Hp. done.
    - intros a Ha. by left.
    - intros a n Ha. right. cbn [vL without v2] in Ha. apply lookup_delete_Some in Ha as [N1 [N2 Ha]%lookup_delete_Some].
      by rewrite !lookup_insert_ne in Ha. }
  assert (Lim : vL v2 !! im = Some mi) by (cbn [vL v2]; rewrite lookup_insert_ne, lookup_insert_eq by done; done).
  destruct (load_map_spec sb bd si b' s3 v2 im mi (MINIX_SB_OFFSET + 1) ni (4 * Z.to_nat nz + r) Hst Hf3 Lim (Hown im Him))
    as (s4 & v4 & E4 & Hf4 & Hx4 & Ep4 & _ & Lim4 & Him4 & Hr4 & Hl4);
    try (unfold sizeof_buffer_head, MINIX_SB_OFFSET in *; lia); [exact Hr2|].
  rewrite E4, bind_Some.
  assert (Lzm : vL (without im v2) !! zm = Some mz) by (cbn [vL v2 without]; rewrite lookup_delete_ne, lookup_insert_eq by done; done).
  assert (Lzm4 : vL v4 !! zm = Some mz).
  { pose proof (lookup_weaken _ _ _ _ Lzm (fx_live Hx4)) as Hz4. cbn [vL without] in Hz4. by apply lookup_delete_Some in Hz4 as [_ ?]. }
  assert (Hzm4 : zm ∉ own sb v4).
  { intros [Ho|Ho]%(fx_own Hx4); [by apply (Hown zm)|congruence]. }
  destruct (load_map_spec sb bd si b' s4 v4 zm mz (MINIX_SB_OFFSET + ni + 1) nz r Hst Hf4 Lzm4 Hzm4)
    as (s5 & v5 & E5 & Hf5 & Hx5 & Ep5 & _ & Lzm5 & _ & Hr5 & Hl5);
    try (unfold sizeof_buffer_head, MINIX_SB_OFFSET in *; lia); [exact Hr4|].
  assert (Lim5 : vL v5 !! im = Some mi).
  { assert (Hi5 : vL (without zm v5) !! im = Some mi).
    { apply (lookup_weaken (vL (without zm v4))); [cbn [vL without]; by rewrite lookup_delete_ne by congruence|apply Hx5]. }
    cbn [vL without] in Hi5. by apply lookup_delete_Some in Hi5 as [_ ?]. }
  exists im, zm, s5, v5. cbn zeta. split_and!; try done.
  - apply (fext_trans sb 0 0 _ _ s4 (without zm (without im v4))).
    + apply (fext_trans sb 0 0 _ _ s3 (without zm (without im v2))); [done|]. by apply fext_client.
    + rewrite (without_comm zm im v4), (without_comm zm im v5). by apply fext_client.
  - by rewrite Ep5, Ep4.
  - intros a n Ha Hor. unfold sizeof_buffer_head in *.
    assert (n = mi \/ n = mz) as [-> | ->] by (destruct Hor as [->| ->]; [left|right]; congruence); lia.
  - apply (loaded_without s5 v5 zm), (loaded_keep sb 0 _ _ _ _ _ _ _ Hx5). destruct Hl4 as [(mi' & Lmi & Hmi') Hl4]. split; [|done].
    exists mi'. split; [cbn [vL without]; by rewrite lookup_delete_ne by congruence|done].
  - replace (2 + ni) with (MINIX_SB_OFFSET + ni + 1) by (unfold MINIX_SB_OFFSET; lia). done.
Qed.

(** A bound on the blocks mounting takes besides those of the cache: the bitmap
    arrays can be the largest. *)
Definition array_bound f : Z := Z.max 512 (2 * sizeof_buffer_head * Z.max (d_imap_blocks f) (d_zmap_blocks f)).

(** What mounting makes of [s], whose client blocks are [L]. *)
Record mounted s L s' v sb bd si b root : Prop := {
  mt_ok : fs_ok bh_head sb bd si b s' v;
  mt_super : super_on_disk (fl_data (chip (fc s))) b;
  mt_geometry : geometry b;
  mt_bdev : root_bdev s' = bd /\ bdevs s' !! bd = Some {| nr_blk := nr_sector pflash; bd_sb := sb; genhd := pflash |};
  mt_root : root_inode s' = root /\ root ∈ vps v /\
    vps v = [root] /\
    exists i : inode, inodes s' !! root = Some i /\ i_ino i = MINIX_ROOT_INO /\ i_count i = 1;
  mt_imap : loaded s' v (s_imap b) 2 (s_imap_blocks b);
  mt_zmap : loaded s' v (s_zmap b) (2 + s_imap_blocks b) (s_zmap_blocks b);
  mt_chip : chip (fc s') = chip (fc s);
  mt_live : L ⊆ vL v;
  mt_own : forall a, a ∈ own sb v -> L !! a = None;
  mt_new : forall a n, vL v !! a = Some n -> L !! a = Some n \/ a ∈ own sb v \/ n < array_bound (fl_data (chip (fc s)));
  mt_bytes : forall x, storable L x -> ldb (fmem s') x = ldb (fmem s) x;
  mt_files : files s' = files s /\ messages s' = messages s }.

Lemma minix_fill_super_spec s L sb nsb bd op x r :
  head_static (A := A) bh_head -> cache_ok bh_head (fc s) L [] -> mountable (fl_data (chip (fc s))) ->
  supers s !! sb = Some {| s_op := op; sb_bd := bd; s_fs_info := x |} -> is_Some (lists (fc s) !! s_inodes sb) ->
  L !! sb = Some nsb -> 40 <= nsb < 512 ->
  room (cheap (fc s)) (10 + 4 * (Z.to_nat (d_imap_blocks (fl_data (chip (fc s)))) + Z.to_nat (d_zmap_blocks (fl_data (chip (fc s))))) + r) ->
  exists si b v s', minix_fill_super bh_head sb s = Some (0, s') /\ fs_ok bh_head sb bd si b s' v /\
    super_on_disk (fl_data (chip (fc s))) b /\ vps v = [] /\ L ⊆ vL v /\ (forall a, a ∈ own sb v -> a = sb \/ L !! a = None) /\
    (forall a n, vL v !! a = Some n -> L !! a = Some n \/ a ∈ own sb v \/ n < array_bound (fl_data (chip (fc s)))) /\
    room (cheap (fc s')) r /\ chip (fc s') = chip (fc s) /\ (forall y, storable L y -> ldb (fmem s') y = ldb (fmem s) y) /\
    s' = set_inodes (inodes s') (set_fc (fc s') (with_super sb bd si b s)) /\
    loaded s' v (s_imap b) 2 (s_imap_blocks b) /\ loaded s' v (s_zmap b) (2 + s_imap_blocks b) (s_zmap_blocks b).
Proof.
  intros Hst Hck Hmt Hsup Hnode Hsb Hnsb Hr. pose proof Hmt as (M1 & M2 & _).
  set (g := fl_data (chip (fc s))) in *.
  destruct (read_super_spec s L sb nsb bd op x (4 + 4 * (Z.to_nat (d_imap_blocks g) + Z.to_nat (d_zmap_blocks g)) + r)
    Hst Hck Hsup Hnode Hsb Hnsb Hr) as (si & b & v & c & E & Hf & Hb & Hp & HL & Hown & Hnew & Hr1 & Ech & Hk).
  destruct (mountable_geometry g b (fun o => fl_data_range _ o) Hb Hmt) as [Hgeo _].
  fold g in Hb. pose proof Hb as (_ & _ & Ei & Ez & _). rewrite <- Ei in M1, Hr1. rewrite <- Ez in M2, Hr1.
  destruct (init_bitmap_spec sb bd si b _ v r Hst Hf Hp Hgeo M1 M2 Hr1)
    as (im & zm & s' & v' & E' & Hf' & Hx & Hp' & Hsm & Hr' & Hl1 & Hl2).
  exists si, (with_maps im zm b), v', s'. rewrite E, E', bind_Some. split; [done|]. split_and!; try done.
  - transitivity (vL v); [done|]. transitivity (vL (without zm (without im v'))); [apply Hx|].
    cbn [vL without]. transitivity (delete im (vL v')); apply delete_subseteq.
  - intros a [Ha|Ha]%(fx_own Hx); [by apply Hown|right]. destruct (L !! a) as [n|] eqn:La; [|done].
    by rewrite (lookup_weaken _ _ _ _ La HL) in Ha.
  - unfold array_bound. fold g. rewrite <- Ei, <- Ez. intros a n Ha.
    destruct (decide (a = im \/ a = zm)) as [Hor|Hor]; [right; right; by apply (Hsm a)|].
    assert (Ha' : vL (without zm (without im v')) !! a = Some n).
    { cbn [vL without]. rewrite !lookup_delete_ne by (intros ->; tauto). done. }
    apply (fx_new Hx) in Ha' as [Ha'|Ha']; [right; by left|]. apply Hnew in Ha' as [Ha'|[Ha'|Ha']]; [by left|right; left|right; right; lia].
    eapply (own_grow sb v); [..|exact Ha']; apply Hx.
  - by rewrite (fx_chip Hx).
  - intros y Hy. rewrite (fx_bytes Hx) by (by apply (storable_sub L)). by apply Hk.
  - rewrite (fx_state Hx) at 1. unfold with_super. cbn. by rewrite insert_insert_eq.
Qed.

Lemma set_roots_ok sb bd si b s v bd' p : fs_ok bh_head sb bd si b s v -> fs_ok bh_head sb bd si b (set_roots bd' p s) v.
Proof. intros []. by split. Qed.

Lemma init_fs_spec s L r :
  head_static (A := A) bh_head -> cache_ok bh_head (fc s) L [] -> mountable (fl_data (chip (fc s))) ->
  room (cheap (fc s)) (20 + 4 * (Z.to_nat (d_imap_blocks (fl_data (chip (fc s)))) + Z.to_nat (d_zmap_blocks (fl_data (chip (fc s))))) + r) ->
  exists s' v sb bd si b root, init_fs bh_head stale_inode s = Some s' /\ mounted s L s' v sb bd si b root /\ room (cheap (fc s')) r.
Proof.
  intros Hst Hck Hmt Hr. unfold init_fs. set (g := fl_data (chip (fc s))) in *.
  set (k := (10 + 4 * (Z.to_nat (d_imap_blocks g) + Z.to_nat (d_zmap_blocks g)) + (6 + r))%nat).
  destruct (falloc_empty s L sizeof_block_device (2 + k) Hck) as (bd & n1 & c1 & E1 & Hbd & Hn1 & Hck1 & Hr1 & Ec1 & _ & Hk1);
    [apply (room_le _ _ _ Hr); lia|done|].
  rewrite E1, bind_Some.
  destruct (falloc_empty (set_fc c1 s) _ sizeof_super_block k Hck1 Hr1 ltac:(done))
    as (sb & nsb & c2 & E2 & Hsb & Hnsb & Hck2 & Hr2 & Ec2 & _ & Hk2).
  rewrite E2, bind_Some. apply lookup_insert_None in Hsb as [Hsb Hbs]. cbn [fc set_fc] in *.
  cbn [fc set_fc set_bdevs set_supers lists bdevs supers].
  match goal with |- context [minix_fill_super bh_head sb ?t] => set (s3 := t) end.
  set (L2 := <[sb := nsb]> (<[bd := n1]> L)) in *.
  assert (Hnode : s_inodes sb ∉ bh_head :: lrus []).
  { intros [Eh|?%elem_of_nil]%elem_of_cons; [|done].
    destruct (Hst _ _ sb nsb (ck_heap _ _ _ _ Hck2) (lookup_insert_eq _ _ _)); unfold s_inodes, sizeof_super_block in *; lia. }
  destruct (minix_fill_super_spec s3 L2 sb nsb bd NoSuperOps NULL (6 + r) Hst)
    as (si & b & v & s4 & E4 & Hf4 & Hb & Hp & HL & Hown & Hnew & Hr4 & Ech & Hk & Es4 & Hl1 & Hl2).
  { by apply cache_node. }
  { subst s3. cbn [fc set_fc set_roots chip set_lists]. by rewrite Ec2, Ec1. }
  { apply lookup_insert_eq. }
  { subst s3. cbn [fc set_fc set_roots lists set_lists]. rewrite lookup_insert_eq. eauto. }
  { apply lookup_insert_eq. }
  { unfold sizeof_super_block in Hnsb. lia. }
  { subst s3. cbn [fc set_fc set_roots chip set_lists cheap]. by rewrite Ec2, Ec1. }
  rewrite E4, bind_Some.
  assert (Eg : chip (fc s3) = chip (fc s)) by (subst s3; cbn [fc set_fc set_roots chip set_lists]; by rewrite Ec2, Ec1).
  rewrite Eg in *. destruct (mountable_geometry g b (fun o => fl_data_range _ o) Hb Hmt) as [Hgeo Hni].
  destruct (minix_iget_spec bh_head stale_inode sb bd si b s4 v MINIX_ROOT_INO r Hst Hgeo Hf4)
    as (p & i & s5 & v5 & E5 & Hf5 & Hx5 & Hr5 & Hp5 & _ & Hi5 & Ei5 & _ & Hc5); [unfold MINIX_ROOT_INO; lia|done|].
  rewrite E5, bind_Some. exists (set_roots bd p s5), v5, sb, bd, si, b, p. split; [done|]. split; [|done].
  assert (HLL : L ⊆ vL v) by (transitivity L2; [apply insert_subseteq_r; [done|by apply insert_subseteq]|done]).
  assert (Hfi : bdevs s5 = bdevs s4 /\ files s5 = files s4 /\ messages s5 = messages s4) by (rewrite (fx_state Hx5); done).
  assert (Hfi4 : bdevs s4 = bdevs s3 /\ files s4 = files s3 /\ messages s4 = messages s3) by (rewrite Es4; done).
  assert (Ho4 : owns (cheap (fc s4)) (vL v)) by apply (ck_heap _ _ _ _ (fp_cache Hf4)).
  split; try done.
  - by apply set_roots_ok.
  - split; [done|]. cbn [bdevs set_roots]. destruct Hfi as (-> & _), Hfi4 as (-> & _). apply lookup_insert_eq.
  - unfold cached in Hc5. rewrite Hp in Hc5. destruct Hc5 as [Hc5 Hv5].
    split; [done|]. split; [done|]. split; [done|]. by exists i.
  - by apply (loaded_keep sb 1 _ _ _ _ _ _ _ Hx5).
  - by apply (loaded_keep sb 1 _ _ _ _ _ _ _ Hx5).
  - cbn [fc set_roots]. rewrite (fx_chip Hx5). congruence.
  - transitivity (vL v); [done|apply Hx5].
  - intros a [Ha|Ha]%(fx_own Hx5).
    + apply Hown in Ha as [->|Ha]; [done|]. unfold L2 in Ha.
      apply lookup_insert_None in Ha as [Ha _]. by apply lookup_insert_None in Ha as [Ha _].
    + destruct (L !! a) eqn:La; [|done]. by rewrite (lookup_weaken _ _ _ _ La HLL) in Ha.
  - intros a n [Ha|Ha]%(fx_new Hx5); [by right; left|]. apply Hnew in Ha as [Ha|[Ha|Ha]]; [|right; left|by right; right].
    + apply lookup_insert_Some in Ha as [[_ <-]|[_ [[_ <-]|[_ Ha]]%lookup_insert_Some]]; [right; right|right; right|by left];
        unfold sizeof_super_block, sizeof_block_device, array_bound in *; lia.
    + eapply (own_grow sb v); [..|exact Ha]; apply Hx5.
  - intros x Hx. change (fmem (set_roots bd p s5)) with (fmem s5).
    assert (Hx1 : storable (<[bd := n1]> L) x) by (by apply storable_insert).
    assert (Hx2 : storable L2 x) by (apply storable_insert; [by rewrite lookup_insert_ne|done]).
    rewrite (fx_bytes Hx5) by (by apply (storable_sub L)). rewrite Hk by done.
    change (fmem s3) with (cmem c2). rewrite Hk2 by done. by apply Hk1.
  - destruct Hfi as (_ & E6 & E7), Hfi4 as (_ & E8 & E9). change (files (set_roots bd p s5)) with (files s5).
    cbn [messages set_roots]. rewrite E6, E7, E8, E9. done.
Qed.

(** C13: [init_fs] on a device with a file system and an empty cache returns; it
    mounts it ([mounted]): the invariant of the file system holds, the super
    block in memory says what block 1 says, [root_bdev] and [root_inode] are set,
    the bitmap arrays point to the buffers of the bitmap blocks, and the root
    inode, used once, agrees with its record on the device.  Nothing that was
    allocated before changes. *)
Theorem init_fs_correct s L r :
  head_static (A := A) bh_head -> cache_ok bh_head (fc s) L [] -> mountable (fl_data (chip (fc s))) ->
  room (cheap (fc s)) (20 + 4 * (Z.to_nat (d_imap_blocks (fl_data (chip (fc s)))) + Z.to_nat (d_zmap_blocks (fl_data (chip (fc s))))) + r) ->
  exists s' v sb bd si b root i, init_fs bh_head stale_inode s = Some s' /\ mounted s L s' v sb bd si b root /\
    room (cheap (fc s')) r /\ inodes s' !! root = Some i /\ i_ino i = MINIX_ROOT_INO /\ i_sb i = sb /\
    on_disk (fl_data (chip (fc s))) b i.
Proof.
  intros Hst Hck Hmt Hr. destruct (init_fs_spec s L r Hst Hck Hmt Hr) as (s' & v & sb & bd & si & b & root & E & Hm & Hr').
  pose proof (mt_root _ _ _ _ _ _ _ _ _ Hm) as (_ & Hin & _ & i & Hi & Ei & _).
  pose proof (mt_ok _ _ _ _ _ _ _ _ _ Hm) as Hf. pose proof (fp_inodes Hf) as Ha. rewrite Forall_forall in Ha.
  destruct (Ha root Hin) as (j & Ej & Hs & Hd). assert (j = i) as -> by congruence.
  destruct Hd as [->|Hd]; [by destruct (vps_not_null _ _ _ _ _ _ _ _ _ Hf Hin)|].
  rewrite (mt_chip _ _ _ _ _ _ _ _ _ Hm) in Hd. exists s', v, sb, bd, si, b, root, i. by split_and!.
Qed.
End Mount.

#[global] Arguments mt_ok {A F HO H H0 bh_head s L s' v sb bd si b root}.
#[global] Arguments mt_super {A F HO H H0 bh_head s L s' v sb bd si b root}.
#[global] Arguments mt_geometry {A F HO H H0 bh_head s L s' v sb bd si b root}.
#[global] Arguments mt_bdev {A F HO H H0 bh_head s L s' v sb bd si b root}.
#[global] Arguments mt_root {A F HO H H0 bh_head s L s' v sb bd si b root}.
#[global] Arguments mt_imap {A F HO H H0 bh_head s L s' v sb bd si b root}.
#[global] Arguments mt_zmap {A F HO H H0 bh_head s L s' v sb bd si b root}.
#[global] Arguments mt_chip {A F HO H H0 bh_head s L s' v sb bd si b root}.
#[global] Arguments mt_live {A F HO H H0 bh_head s L s' v sb bd si b root}.
#[global] Arguments mt_own {A F HO H H0 bh_head s L s' v sb bd si b root}.
#[global] Arguments mt_new {A F HO H H0 bh_head s L s' v sb bd si b root}.
#[global] Arguments mt_bytes {A F HO H H0 bh_head s L s' v sb bd si b root}.
#[global] Arguments mt_files {A F HO H H0 bh_head s L s' v sb bd si b root}.

(** ** A device with a file system *)

(** A super block (32 inodes, one bitmap block of each kind), the inodes of the
    root directory (block 5) and of a file of 24 bytes (block 6), the directory
    with the entries "." and "user_code.bin", the bytes of the file. *)
Definition user_code_bin : list Z := [117; 115; 101; 114; 95; 99; 111; 100; 101; 46; 98; 105; 110].
Definition disk_image : gmap Z Z :=
  put (put (put (put (put (put ∅ 1024 [32; 0; 100; 0; 1; 0; 1; 0; 5; 0; 0; 0; 0; 28; 8; 16])
    4096 [0xed; 0x41; 0; 0; 64; 0; 0; 0; 0; 0; 0; 0; 0; 2; 5; 0])
    4128 [0xa4; 0x81; 0; 0; 24; 0; 0; 0; 0; 0; 0; 0; 0; 1; 6; 0])
    5120 [1; 0; c_dot]) 5152 (2 :: 0 :: user_code_bin)) 6144 (Z.of_nat <$> seq 1 24).
Definition chip0 : board_flash := {| bf_data := disk_image; bf_mode := ReadArray |}.

(** Not mounted yet; the path "/user_code.bin" is in memory at 8192. *)
Definition fsys_blank : fsys kheap board_flash :=
  {| fc := set_mem (put (cmem cache_boot) 8192 (c_slash :: user_code_bin ++ [0])) (set_chip chip0 cache_boot); bdevs := ∅; supers := ∅; sbis := ∅; inodes := ∅; root_bdev := NULL; root_inode := NULL;
     file_tbl := replicate 64 {| f_inode := 0; f_count := 0; f_flags := 0; f_pos := 0 |};
     cur_filp := replicate 32 0; messages := [] |}.

Lemma blank_ok : cache_ok bh_head0 (fc fsys_blank) ∅ [].
Proof.
  assert (Hck : cache_ok bh_head0 (set_chip chip0 cache_boot) ∅ []) by (destruct cache_boot_ok as [H1 H2 H3 H4 _]; by split).
  apply (cache_store bh_head0 _ _ _ _ Hck). intros x. rewrite ldb_put. destruct (_ && _) eqn:Ex; [left|by right].
  apply andb_true_iff in Ex as [Ex1%Z.leb_le Ex2%Z.ltb_lt]. apply user_storable. change (2 ^ 30) with 1073741824. cbn in *. lia.
Qed.

Lemma chip0_mountable : mountable (fl_data (chip (fc fsys_blank))).
Proof. vm_compute. split_and!; discriminate. Qed.

Example init_fs_correct_witness :
  exists s' root i, init_fs bh_head0 (fun _ => file0) fsys_blank = Some s' /\ inodes s' !! root = Some i /\ i_size i = 64.
Proof.
  destruct (init_fs_correct bh_head0 (fun _ => file0) fsys_blank ∅ 100 head_static0 blank_ok chip0_mountable)
    as (s' & v & sb & bd & si & b & root & i & E & Hm & _ & Hi & Ei & _ & Hd).
  - apply (room_boot 128). lia.
  - exists s', root, i. split; [exact E|]. split; [exact Hi|].
    rewrite (od_size _ _ _ Hd), Ei. destruct (mt_super Hm) as (_ & _ & E1 & E2 & _).
    unfold d_size, ino_addr, ino_block. rewrite E1, E2. vm_compute. reflexivity.
Defined.
