(* ===== verification/Open.v ===== *)
(** Opening a path of a mounted file system: namei and file_open (fs/fs.c)
    against the directories on the device. *)

From S2P Require Import Prelude Mem Lib DList Page Kmalloc Heap Buffer Task Minix File Namei Mount.
Local Open Scope Z_scope.

Section Open.
Context {A F : Type} {HO : HeapOps A} {H : BlockHeap A} {H0 : FlashDevice F}.
Variables (bh_head : Z) (stale_inode : Z -> inode) (file_base : Z).
Variables (sb bd si : Z) (b : minix_sb_info).
Implicit Types (s : fsys A F) (v : fview) (fuel : nat) (p q : Z).

(** A path that can be followed from [dir]: a string in memory outside the
    blocks that are free, at most 4092 characters, whose directories lie in
    direct blocks.  The block its names are copied into may be given back: so
    any block may, to the allocator itself ([kheap_block_heap]). *)
Record path_ok s v (path : Z) (str : list Z) (dir : inode) : Prop := {
  po_string : cstr (fmem s) path str;
  po_addr : 0 < path;
  po_storable : forall x, path <= x <= path + Z.of_nat (length str) -> storable (vL v) x;
  po_length : Z.of_nat (length str) <= 4092;
  po_reuse : reusable_name str;
  po_walk : walkable (fl_data (chip (fc s))) b (i_ino dir) (components [] (strip str)) }.

(** The inode number a path leads to. *)
Definition target s (str : list Z) (dir : inode) : Z :=
  resolve (fl_data (chip (fc s))) b (i_ino dir) (components [] (strip str)).
Definition depth (str : list Z) : nat := length (components [] (strip str)).

(** [q] is the inode [t] of the device, in memory. *)
Definition is_inode s v q t : Prop :=
  q ∈ vps v /\ q <> NULL /\ exists j, inodes s !! q = Some j /\ i_ino j = t /\ on_disk (fl_data (chip (fc s))) b j.

Lemma at_is_inode s v q t : fs_ok bh_head sb bd si b s v -> at_inode s v q t -> is_inode s v q t.
Proof.
  intros Hf (Hq & j & Hj & Ej). pose proof (vps_not_null _ _ _ _ _ _ _ _ _ Hf Hq) as Hn.
  split; [done|]. split; [done|]. exists j. split; [done|]. split; [done|].
  pose proof (fp_inodes Hf) as Ha. rewrite Forall_forall in Ha. destruct (Ha q Hq) as (j' & Ej' & _ & [->|Hd]); [done|].
  by assert (j' = j) as -> by congruence.
Qed.

(** C12: [namei] on a path of a mounted file system returns; it finds the inode the
    directories of the device lead to, NULL exactly when they lead nowhere.
    The inode found is the device's; the state keeps its invariant, and what was
    in memory before is still there ([fext]). *)
Theorem namei_correct s v fuel cur path str dir i r :
  head_static (A := A) bh_head -> geometry b -> fs_ok bh_head sb bd si b s v -> path_ok s v path str i ->
  dir = (if ldb (fmem s) path =? c_slash then root_inode s else cur) -> dir ∈ vps v -> inodes s !! dir = Some i ->
  (S (length str) < fuel)%nat -> room (cheap (fc s)) (2 + (34 * depth str + r)) ->
  exists q s' v', namei bh_head stale_inode fuel cur path s = Some (q, s') /\
    fs_ok bh_head sb bd si b s' v' /\ fext sb (depth str) s v s' v' /\ room (cheap (fc s')) r /\
    (q = NULL <-> target s str i = 0) /\ (q <> NULL -> is_inode s' v' q (target s str i)).
Proof.
  intros Hst Hgeo Hf [P1 P2 P3 P4 P6 P5] Hdir Hin Hi Hfu Hr.
  destruct (namei_spec bh_head stale_inode sb bd si b s v fuel cur path str dir i r Hst Hgeo Hf P1 P2 P3 P4 P6 Hdir Hin Hi P5 Hfu Hr)
    as (q & s' & v' & E & Hf' & (Hx & Hq) & Hr' & _).
  exists q, s', v'. split; [done|]. split; [done|]. split; [done|]. split; [done|].
  change (resolve _ b (i_ino i) _) with (target s str i) in Hq. destruct (Z.eqb_spec (target s str i) 0) as [E0|E0].
  - subst q. done.
  - apply (at_is_inode _ _ _ _ Hf') in Hq as Hq'. destruct Hq' as (H1 & H2 & H3). split; [done|]. intros _. done.
Qed.

(** ** Opening *)

(** The tables do not matter to the file system's invariant. *)
Definition with_files (x : list file * list Z) s : fsys A F := set_cur_filp x.2 (set_file_tbl x.1 s).

Lemma with_files_ok x s v : fs_ok bh_head sb bd si b s v -> fs_ok bh_head sb bd si b (with_files x s) v.
Proof. intros []. by split. Qed.

Lemma with_files_ext k s0 v0 s v x y : fext sb k s0 v0 s v -> fext sb k (with_files x s0) v0 (with_files x (with_files y s)) v.
Proof. intros [A1 A2 A3 A4 A5 A6 A7 A8 A9 A10]. split; try done. rewrite A1. done. Qed.

Lemma with_files_same s : with_files (files s) s = s.
Proof. by destruct s. Qed.

(** What [file_open] ends with: descriptor [fd] bound to entry [e], which is
    open on the inode [t]; or, when [t] is 0, the tables as they were. *)
Definition opened k s v s' v' fd e (flag t : Z) ret : Prop :=
  fs_ok bh_head sb bd si b s' v' /\ fext sb k s v (with_files (files s) s') v' /\
  if t =? 0 then ret = -3 /\ files s' = files s
  else ret = fd /\ exists q, is_inode s' v' q t /\
    files s' = (<[Z.to_nat e := {| f_inode := q; f_count := 1; f_flags := s32 flag; f_pos := 0 |}]> (file_tbl s),
                <[Z.to_nat fd := file_ptr file_base e]> (cur_filp s)) /\
    counted k s v s' q t.

Lemma file_open_spec s v fuel path str i flag mode fd e r :
  head_static (A := A) bh_head -> geometry b -> fs_ok bh_head sb bd si b s v -> path_ok s v path str i ->
  ldb (fmem s) path = c_slash -> root_inode s ∈ vps v -> inodes s !! root_inode s = Some i -> components [] (strip str) <> [] ->
  length (cur_filp s) = Z.to_nat NR_OPEN -> length (file_tbl s) = Z.to_nat NR_FILE ->
  first_index (fun p => p =? NULL) (cur_filp s) fd -> first_index (fun f => f_count f =? 0) (file_tbl s) e ->
  (S (length str) < fuel)%nat -> room (cheap (fc s)) (2 + (34 * depth str + r)) ->
  exists ret s' v', file_open bh_head stale_inode file_base fuel path flag mode s = Some (ret, s') /\
    room (cheap (fc s')) r /\ opened (depth str) s v s' v' fd e flag (target s str i) ret.
Proof.
  intros Hst Hgeo Hf [P1 P2 P3 P4 P6 P5] Hsl Hin Hi Hne Hl Ht Hfd He Hfu Hr.
  set (s1 := set_cur_filp (<[Z.to_nat fd := file_ptr file_base e]> (cur_filp s)) s).
  assert (E1 : s1 = with_files (file_tbl s, <[Z.to_nat fd := file_ptr file_base e]> (cur_filp s)) s) by (by destruct s).
  assert (Hf1 : fs_ok bh_head sb bd si b s1 v) by (rewrite E1; by apply with_files_ok).
  destruct (namei_spec bh_head stale_inode sb bd si b s1 v fuel NULL path str (root_inode s) i r Hst Hgeo Hf1 P1 P2 P3 P4 P6)
    as (q & s2 & v2 & E & Hf2 & (Hx2 & Hq) & Hr2 & Hc); try done.
  { change (fmem s1) with (fmem s). by rewrite Hsl. }
  destruct (file_open_correct bh_head stale_inode file_base s fuel path flag mode Hl Ht) as (_ & _ & Hopen).
  destruct (Hopen fd e q s2 Hfd He E) as [Eo Efi]. change (resolve _ b (i_ino i) _) with (target s str i) in *.
  set (t := target s str i) in *. fold (depth str) in *.
  assert (Hxx : forall s3 x, s3 = with_files x s2 -> fext sb (depth str) s v (with_files (files s) s3) v2).
  { intros s3 x ->. pose proof (with_files_ext _ _ _ _ _ (files s) x Hx2) as Hx3. rewrite E1 in Hx3.
    change (with_files (files s) (with_files _ s)) with (with_files (files s) s) in Hx3. by rewrite with_files_same in Hx3. }
  destruct (Z.eqb_spec t 0) as [E0|E0].
  - subst q. change (NULL =? NULL) with true in Eo. eexists _, _, v2. split; [exact Eo|]. split; [done|].
    assert (E3 : set_cur_filp (cur_filp s) s2 = with_files (file_tbl s, cur_filp s) s2).
    { injection Efi as <- _. by destruct s2. }
    rewrite E3. split; [by apply with_files_ok|]. split; [by eapply Hxx|].
    destruct (Z.eqb_spec t 0); [|done]. split; [done|by destruct s].
  - pose proof (at_is_inode _ _ _ _ Hf2 Hq) as (H1 & H2 & j & Hj & Ej & Hd).
    destruct (Z.eqb_spec q NULL) as [|_]; [done|]. eexists _, _, v2. split; [exact Eo|]. split; [done|].
    assert (E3 : set_file_tbl (<[Z.to_nat e := {| f_inode := q; f_count := 1; f_flags := s32 flag; f_pos := 0 |}]> (file_tbl s)) s2
               = with_files (<[Z.to_nat e := {| f_inode := q; f_count := 1; f_flags := s32 flag; f_pos := 0 |}]> (file_tbl s),
                             <[Z.to_nat fd := file_ptr file_base e]> (cur_filp s)) s2).
    { injection Efi as _ <-. by destruct s2. }
    rewrite E3. split; [by apply with_files_ok|]. split; [by eapply Hxx|].
    destruct (Z.eqb_spec t 0) as [|_]; [done|]. split; [done|]. exists q. split; [|split].
    + split; [done|]. split; [done|]. by exists j.
    + done.
    + by apply Hc.
Qed.

(** C15: [file_open] of a path of a mounted file system: -1 when every descriptor is
    taken and -2 when every entry of [file_tbl] is, with nothing changed; -3 when
    the directories lead nowhere, with the tables unchanged; otherwise the first
    free descriptor, bound to the first free entry, open at position 0 on the
    inode the path leads to.  The file system keeps its invariant. *)
Theorem file_open_path s v fuel path str i flag mode r :
  head_static (A := A) bh_head -> geometry b -> fs_ok bh_head sb bd si b s v -> path_ok s v path str i ->
  ldb (fmem s) path = c_slash -> root_inode s ∈ vps v -> inodes s !! root_inode s = Some i -> components [] (strip str) <> [] ->
  length (cur_filp s) = Z.to_nat NR_OPEN -> length (file_tbl s) = Z.to_nat NR_FILE ->
  (S (length str) < fuel)%nat -> room (cheap (fc s)) (2 + (34 * depth str + r)) ->
  let open := file_open bh_head stale_inode file_base fuel path flag mode s in
  let free_slot := first_index (fun p => p =? NULL) (cur_filp s) in
  let free_entry := first_index (fun f => f_count f =? 0) (file_tbl s) in
  ((forall fd, ~ free_slot fd) -> open = Some (-1, s)) /\
  ((exists fd, free_slot fd) -> (forall e, ~ free_entry e) -> open = Some (-2, s)) /\
  (forall fd e, free_slot fd -> free_entry e -> exists ret s' v', open = Some (ret, s') /\ room (cheap (fc s')) r /\
     opened (depth str) s v s' v' fd e flag (target s str i) ret).
Proof.
  intros Hst Hgeo Hf Hp Hsl Hin Hi Hne Hl Ht Hfu Hr open slot entry.
  destruct (file_open_correct bh_head stale_inode file_base s fuel path flag mode Hl Ht) as (H1 & H2 & _).
  split; [exact H1|]. split; [exact H2|]. intros fd e Hfd He.
  exact (file_open_spec s v fuel path str i flag mode fd e r Hst Hgeo Hf Hp Hsl Hin Hi Hne Hl Ht Hfd He Hfu Hr).
Qed.
End Open.

(** ** On the device of Mount.v *)

Definition path0 : list Z := c_slash :: user_code_bin.

(** The path leads from the root directory to inode 2. *)
Lemma path0_facts b : super_on_disk (fl_data chip0) b ->
  resolve (fl_data chip0) b 1 (components [] (strip path0)) = 2 /\ walkable (fl_data chip0) b 1 (components [] (strip path0)) /\
  d_size (fl_data chip0) b 2 = 24 /\ d_mode (fl_data chip0) b 2 = 0x81a4 /\ forall k, 0 <= k < 9 -> d_zone (fl_data chip0) b 2 k = if k =? 0 then 6 else 0.
Proof.
  destruct b as [ni nz im zm fd lz ms x1 x2 x3 x4]. unfold super_on_disk. cbn [s_ninodes s_nzones s_imap_blocks s_zmap_blocks s_firstdatazone s_log_zone_size s_max_size].
  intros (E1 & _ & E2 & E3 & _).
  assert (ni = 32) as -> by (rewrite E1; vm_compute; reflexivity).
  assert (im = 1) as -> by (rewrite E2; vm_compute; reflexivity).
  assert (zm = 1) as -> by (rewrite E3; vm_compute; reflexivity). clear.
  split; [vm_compute; reflexivity|]. split.
  - vm_compute. split_and!; [reflexivity|discriminate|reflexivity|discriminate|done].
  - split; [vm_compute; reflexivity|]. split; [vm_compute; reflexivity|]. intros k Hk.
    assert (forall n, (n < 9)%nat -> d_zone (fl_data chip0) {| s_ninodes := 32; s_nzones := nz; s_imap_blocks := 1; s_zmap_blocks := 1; s_firstdatazone := fd; s_log_zone_size := lz; s_max_size := ms; s_imap := x1; s_zmap := x2; s_sbh := x3; s_ms := x4 |} 2 (Z.of_nat n) = if Z.of_nat n =? 0 then 6 else 0).
    { do 9 (destruct n as [|n]; [intros _; vm_compute; reflexivity|]). lia. }
    specialize (H (Z.to_nat k) ltac:(lia)). by rewrite Z2Nat.id in H by lia.
Qed.

Lemma mounted_disk :
  exists s v sb bd si b i, init_fs bh_head0 (fun _ => file0) fsys_blank = Some s /\ fs_ok bh_head0 sb bd si b s v /\ geometry b /\
    super_on_disk (fl_data chip0) b /\ chip (fc s) = chip0 /\
    root_inode s ∈ vps v /\ inodes s !! root_inode s = Some i /\ i_ino i = 1 /\ path_ok b s v 8192 path0 i /\
    target b s path0 i = 2 /\ files s = files fsys_blank /\ room (cheap (fc s)) 300.
Proof.
  destruct (init_fs_spec bh_head0 (fun _ => file0) fsys_blank ∅ 300 head_static0 blank_ok chip0_mountable)
    as (s & v & sb & bd & si & b & root & E & Hm & Hr).
  { apply (room_boot 328). lia. }
  pose proof (mt_root Hm) as (<- & Hin & _ & i & Hi & Ei & _). pose proof (mt_super Hm) as Hb. pose proof (mt_chip Hm) as Ech.
  change (chip (fc fsys_blank)) with chip0 in *. destruct (path0_facts b Hb) as (Ht & Hw & _).
  assert (Hs : forall x, 8192 <= x <= 8192 + Z.of_nat (length path0) -> storable (A := kheap) ∅ x).
  { intros x Hx. apply user_storable. change (2 ^ 30) with 1073741824. cbn in Hx. lia. }
  assert (Hc : cstr (fmem s) 8192 path0).
  { apply (cstr_agree (fmem fsys_blank)).
    - intros x Hx. apply (mt_bytes Hm), Hs. lia.
    - split; [|split]; [vm_compute; reflexivity|repeat constructor; done|vm_compute; reflexivity]. }
  exists s, v, sb, bd, si, b, i. split; [done|]. split; [apply (mt_ok Hm)|]. split; [apply (mt_geometry Hm)|].
  split; [done|]. split; [done|]. split; [done|]. split; [done|]. split; [done|]. split.
  - split; [done|lia| |done|by apply reusable_short; cbn; lia|by rewrite Ech, Ei].
    intros x Hx. apply (storable_sub ∅); [apply (mt_live Hm)|by apply Hs].
  - split; [unfold target; by rewrite Ech, Ei|]. split; [apply (mt_files Hm)|done].
Qed.

Lemma path0_slash b (s : fsys kheap board_flash) v i : path_ok b s v 8192 path0 i -> ldb (fmem s) 8192 = c_slash.
Proof. intros Hp. by destruct (proj1 (cstr_cons _ _ _ _) (po_string _ _ _ _ _ _ Hp)). Qed.

Example namei_correct_witness :
  exists s0 q s, init_fs bh_head0 (fun _ => file0) fsys_blank = Some s0 /\
    namei bh_head0 (fun _ => file0) 100 NULL 8192 s0 = Some (q, s) /\ exists j, inodes s !! q = Some j /\ i_ino j = 2.
Proof.
  destruct mounted_disk as (s0 & v & sb & bd & si & b & i & E & Hf & Hgeo & _ & _ & Hin & Hi & _ & Hp & Ht & _ & Hr).
  destruct (namei_correct bh_head0 (fun _ => file0) sb bd si b s0 v 100 NULL 8192 path0 (root_inode s0) i 100
    head_static0 Hgeo Hf Hp) as (q & s & v' & En & _ & _ & _ & Hq & Hi'); [|done|done|cbn; lia|apply (room_le _ _ _ Hr); cbn; lia|].
  - by rewrite (path0_slash _ _ _ _ Hp).
  - rewrite Ht in Hi', Hq. destruct Hi' as (_ & _ & j & Hj & Ej & _); [by intros ?%Hq|]. exists s0, q, s.
    split; [exact E|]. split; [exact En|]. exists j. split; [exact Hj|exact Ej].
Defined.

Example file_open_path_witness :
  exists s0 s q, init_fs bh_head0 (fun _ => file0) fsys_blank = Some s0 /\
    file_open bh_head0 (fun _ => file0) 4096 100 8192 2 0 s0 = Some (0, s) /\ q <> NULL /\
    file_tbl s = <[0%nat := {| f_inode := q; f_count := 1; f_flags := 2; f_pos := 0 |}]> (file_tbl fsys_blank).
Proof.
  destruct mounted_disk as (s0 & v & sb & bd & si & b & i & E & Hf & Hgeo & _ & _ & Hin & Hi & _ & Hp & Ht & Hfi & Hr).
  injection Hfi as Htbl Hcur.
  destruct (file_open_path bh_head0 (fun _ => file0) 4096 sb bd si b s0 v 100 8192 path0 i 2 0 100 head_static0 Hgeo Hf Hp)
    as (_ & _ & Ho); [by apply (path0_slash _ _ _ _ Hp)|done|done|done|by rewrite Hcur|by rewrite Htbl|cbn; lia| |].
  - apply (room_le _ _ _ Hr). cbn. lia.
  - destruct (Ho 0 0) as (ret & s & v' & Eo & _ & _ & _ & Hres).
    + rewrite Hcur. exact (first_index_head _ 0 (replicate 31 0) eq_refl).
    + rewrite Htbl. exact (first_index_head _ _ (replicate 63 {| f_inode := 0; f_count := 0; f_flags := 0; f_pos := 0 |}) eq_refl).
    + rewrite Ht in Hres. destruct Hres as (-> & q & (_ & Hq & _) & Hfiles & _). injection Hfiles as Hfiles _.
      exists s0, s, q. split; [exact E|]. split; [exact Eo|]. split; [exact Hq|]. rewrite Hfiles, Htbl. reflexivity.
Defined.
