(* ===== verification/Access.v ===== *)
(** Reading and closing files of a mounted file system (fs/fs.c and
    fs/minix_fs.c), whatever blocks are cached.

    [same_client] is what the operations promise to the other users of the
    heap: their blocks and the bytes in them are as before. *)

From S2P Require Import Prelude Mem Lib DList Page Kmalloc Heap Buffer Task Minix File Namei Mount Open.
Local Open Scope Z_scope.

Section Access.
Context {A F : Type} {HO : HeapOps A} {H : BlockHeap A} {H0 : FlashDevice F}.
Variables (bh_head : Z) (stale_inode : Z -> inode).
Variables (sb bd si : Z) (b : minix_sb_info).
Implicit Types (s : fsys A F) (v : fview) (fuel : nat) (p q : Z) (i : inode).
Abbreviation fs_ok := (fs_ok bh_head sb bd si b).

(** ** The blocks of the other users *)

Definition same_client v v' : Prop :=
  forall a n, (vL v' !! a = Some n /\ a ∉ own sb v') <-> (vL v !! a = Some n /\ a ∉ own sb v).

Lemma same_client_refl v : same_client v v.
Proof. done. Qed.

Lemma same_client_trans v v1 v2 : same_client v v1 -> same_client v1 v2 -> same_client v v2.
Proof. intros H1 H2 a n. etransitivity; [apply H2|apply H1]. Qed.

Lemma scratch_client v v' x : same_client v v' -> scratch sb v x -> scratch sb v' x.
Proof.
  intros Hc [Hx|(a & n & Ha & Ho & Hx)]; [by left|]. right. exists a, n.
  destruct (proj2 (Hc a n) (conj Ha Ho)). done.
Qed.

Lemma scratch_storable v x : scratch sb v x -> storable (vL v) x.
Proof. intros [Hx|(a & n & Ha & _ & Hx)]; [by left|right; by exists a, n]. Qed.

Lemma fext_client_same k s v s' v' : fext sb k s v s' v' -> same_client v v'.
Proof.
  intros Hx a n. split; intros [Ha Ho].
  - apply (fx_new Hx) in Ha as [Ha|Ha]; [done|]. split; [done|]. intros Hi. apply Ho.
    eapply (own_grow sb v); [..|exact Hi]; apply Hx.
  - split; [by apply (lookup_weaken (vL v)), Hx|]. intros [Hi|Hi]%(fx_own Hx); [done|congruence].
Qed.

(** The changes of a read: buffers come and go. *)
Record reads s v s' v' : Prop := {
  rd_state : s' = set_fc (fc s') s;
  rd_chip : chip (fc s') = chip (fc s);
  rd_ps : vps v' = vps v;
  rd_client : same_client v v' }.

Lemma reads_refl s v : reads s v s v.
Proof. split; try done. by destruct s. Qed.

Lemma reads_trans s v s1 v1 s2 v2 : reads s v s1 v1 -> reads s1 v1 s2 v2 -> reads s v s2 v2.
Proof.
  intros [A1 A2 A3 A4] [B1 B2 B3 B4]. split; [|congruence|congruence|by eapply same_client_trans].
  rewrite B1 at 1. rewrite A1. done.
Qed.

Lemma own_mid L bl1 q c bl2 ps :
  own sb {| vL := L; vbl := bl1 ++ (q, c) :: bl2; vps := ps |} ≡ₚ q :: data c :: own sb {| vL := L; vbl := bl1 ++ bl2; vps := ps |}.
Proof. unfold own. cbn [vbl vps]. rewrite blocks_mid. done. Qed.

(** Giving a buffer back. *)
Lemma fbrelse_part s v q c fuel :
  head_static (A := A) bh_head -> fs_ok s v -> (q, c) ∈ vbl v -> (0 < fuel)%nat ->
  exists s' v', fbrelse fuel q s = Some s' /\ fs_ok s' v' /\ reads s v s' v' /\
    (forall n, room (cheap (fc s)) n -> room (cheap (fc s')) n) /\
    (forall x, scratch sb v x -> ldb (fmem s') x = ldb (fmem s) x).
Proof.
  intros Hst Hf Hin Hfu. pose proof Hf as [Hck Hcoh Hsup Hinf Hnd Hino Hblk (ns & Hsb & Hns) Hsep].
  apply list_elem_of_split in Hin as (bl1 & bl2 & Ebl). destruct v as [L bl ps]. cbn [vL vbl vps] in *. subst bl.
  pose proof Hcoh as Hcoh'. apply Forall_mid in Hcoh' as [((Hu & Hbi) & _) Hcoh2]. cbn [snd] in *.
  assert (Hclean : b_state c <> BH_Dirty) by (rewrite Hu; done).
  destruct (brelse_spec bh_head (fc s) L bl1 q c bl2 Hck ltac:(done))
    as (s2 & n & E & Hn & Hck2 & Hr & Eb & _ & Hk & Hl & Hch). specialize (Hch Hclean). rewrite (Hn Hclean) in E.
  set (v2 := {| vL := delete q (delete (data c) L); vbl := bl1 ++ bl2; vps := ps |}).
  pose proof (own_mid L bl1 q c bl2 ps) as Hperm. change (own sb {| vL := L; vbl := bl1 ++ bl2; vps := ps |}) with (own sb v2) in Hperm.
  assert (Hsep2 := Hsep). rewrite Hperm in Hsep2. apply NoDup_cons in Hsep2 as [Hq Hsep2]. apply NoDup_cons in Hsep2 as [Hd Hsep2].
  assert (Hqd : q <> data c) by (intros E'; apply Hq; rewrite E'; by left).
  assert (Hq2 : q ∉ own sb v2) by (intros Hi; apply Hq; by right).
  assert (Hdel : forall a, a ∈ own sb v2 -> vL v2 !! a = L !! a).
  { intros a Ha. cbn [vL v2]. assert (a <> q) by (intros E'; by rewrite E' in Ha).
    assert (a <> data c) by (intros E'; by rewrite E' in Ha). by rewrite !lookup_delete_ne by congruence. }
  assert (Hscr : forall x, storable (vL v2) x -> ldb (cmem s2) x = ldb (fmem s) x) by (intros x Hx; by apply Hk).
  exists (set_fc s2 s), v2. unfold fbrelse. rewrite (E fuel Hfu), bind_Some. split; [done|].
  assert (Hown : forall a n, vL v2 !! a = Some n /\ a ∉ own sb v2 <-> L !! a = Some n /\ a ∉ own sb {| vL := L; vbl := bl1 ++ (q, c) :: bl2; vps := ps |}).
  { intros a m. rewrite Hperm, !not_elem_of_cons. cbn [vL v2]. rewrite !lookup_delete_Some. split; intros; split_and!; intuition congruence. }
  split_and!.
  - split; cbn [vL vbl vps v2 fc set_fc supers sbis inodes]; try done.
    + apply Forall_forall. intros pb Hpb. rewrite Forall_forall in Hcoh2. destruct (Hcoh2 _ Hpb) as [H1 H2]. split; [done|].
      intros j Hj. change (fmem (set_fc s2 s)) with (cmem s2). rewrite Hch, <- H2 by done. apply Hscr. right.
      pose proof (ck_bufs _ _ _ _ Hck2) as Hb. rewrite Forall_forall in Hb. destruct (Hb _ Hpb) as (_ & _ & m & Hm & Hm2).
      exists (data pb.2), m. split; [done|lia].
    + apply (dlist_frame (lists (fc s))); [done|]. intros x Hx. apply Hl. intros Hi.
      apply (nodes_apart bh_head stale_inode sb bd si b NULL s _ x Hst Hf Hx). cbn [vbl]. unfold lrus in *. rewrite map_app in *. cbn [map fst] in *.
      rewrite ?elem_of_cons, ?elem_of_app in *. rewrite ?elem_of_cons. tauto.
    + apply (Forall_impl _ _ _ Hino). intros p (i & H1 & H2 & H3). exists i. by rewrite Hch.
    + rewrite Forall_forall in Hblk |- *. intros p Hp. destruct (Hblk p Hp) as (m & Hm & Hm2). exists m.
      change (delete q (delete (data c) L)) with (vL v2). rewrite Hdel; [done|]. unfold own. rewrite !elem_of_app. right; left. by apply list_elem_of_fmap_2.
    + exists ns. change (delete q (delete (data c) L)) with (vL v2). rewrite Hdel; [done|].
      unfold own. rewrite !elem_of_app, list_elem_of_singleton. by right; right.
  - split; [done|exact Hch|done|exact Hown].
  - exact Hr.
  - intros x Hx. apply Hscr. apply scratch_storable. eapply scratch_client; [|exact Hx]. exact Hown.
Qed.

(** ** Reading *)

(** One piece of a read: the block from the cache or the device, the copy, the
    buffer given back. *)
Lemma read_piece s v blk buf nr chars n fuel :
  head_static (A := A) bh_head -> fs_ok s v -> block_in blk -> room (cheap (fc s)) (4 + n) ->
  0 <= nr -> 0 < chars -> nr + chars <= 1024 -> (0 < fuel)%nat -> (forall x, buf <= x < buf + chars -> scratch sb v x) ->
  exists q s1 d s' v', fget_blk bh_head bd blk s = Some (q, s1) /\ q <> NULL /\ bh_data s1 q = Some d /\
    fbrelse fuel q (set_fmem (copy_bytes buf (nr + d) chars (fmem s1)) s1) = Some s' /\
    fs_ok s' v' /\ reads s v s' v' /\ room (cheap (fc s')) n /\
    (forall j, 0 <= j < chars -> ldb (fmem s') (buf + j) = fl_data (chip (fc s)) (blk * 1024 + nr + j)) /\
    (forall x, scratch sb v x -> x < buf \/ buf + chars <= x -> ldb (fmem s') x = ldb (fmem s) x).
Proof.
  intros Hst Hf Hin Hr Hnr Hch Hle Hfu Hbuf.
  destruct (fget_blk_part bh_head stale_inode sb bd si b NULL s v blk n Hst Hf Hin Hr)
    as (q & d & s1 & v1 & E & Hf1 & Hx1 & Ep1 & Ei1 & Hr1 & (c & Hc & _ & Ed) & Hd & Hh).
  pose proof (fext_client_same _ _ _ _ _ Hx1) as Hcl.
  pose proof (ck_bufs _ _ _ _ (fp_cache Hf1)) as Hb. rewrite Forall_forall in Hb.
  destruct (Hb _ Hc) as (_ & (nq & Lq & _) & nd & Ld & Hnd). cbn [fst snd] in *. rewrite Ed in Ld.
  pose proof (ck_heap _ _ _ _ (fp_cache Hf1)) as Ho1.
  assert (Hdo : d ∈ own sb v1).
  { unfold own, blocks. rewrite !elem_of_app. left; right. rewrite <- Ed. by apply (list_elem_of_fmap_2 (fun pb => data pb.2) _ (q, c)). }
  assert (Hbuf1 : forall x, buf <= x < buf + chars -> scratch sb v1 x) by (intros x Hx; eapply scratch_client; [done|by apply Hbuf]).
  assert (Hdis : buf + chars <= nr + d \/ nr + d + chars <= buf).
  { destruct (decide (buf + chars <= nr + d)) as [|N1]; [by left|].
    destruct (decide (nr + d + chars <= buf)) as [|N2]; [by right|]. exfalso. set (x := Z.max buf (nr + d)).
    eapply (own_bytes bh_head sb bd si b NULL s1 v1 d nd x); [done|done|done|lia|]. apply Hbuf1. lia. }
  pose proof (copy_bytes_spec buf (nr + d) chars (fmem s1) Hdis) as Hcp.
  destruct (set_fmem_part bh_head sb bd si b NULL s1 v1 (copy_bytes buf (nr + d) chars (fmem s1)) Hf1) as (Hf2 & Em & Hr2).
  { intros x. rewrite Hcp. destruct (Z.leb_spec buf x), (Z.ltb_spec x (buf + chars)); [left; apply Hbuf1; lia|by right..]. }
  destruct (fbrelse_part _ v1 q c fuel Hst Hf2 Hc Hfu) as (s' & v' & E' & Hf' & Hrd & Hr' & Hk').
  exists q, s1, d, s', v'. split_and!; try done.
  - pose proof (owns_range _ _ q nq Ho1 Lq). unfold NULL. lia.
  - destruct Hrd as [R1 R2 R3 R4]. split.
    + rewrite R1 at 1. cbn [set_fmem set_fc]. rewrite (fx_state Hx1). cbn. by rewrite Ei1.
    + rewrite R2. apply (fx_chip Hx1).
    + by rewrite R3.
    + by apply (same_client_trans v v1).
  - by apply Hr', Hr2.
  - intros j Hj. rewrite Hk' by (apply Hbuf1; lia). rewrite Em, Hcp.
    destruct (Z.leb_spec buf (buf + j)); [|lia]. destruct (Z.ltb_spec (buf + j) (buf + chars)); [|lia]. cbn [andb].
    replace (nr + d + (buf + j - buf)) with (d + (nr + j)) by lia. rewrite (Hh (nr + j)) by lia. f_equal. lia.
  - intros x Hx Hout. rewrite Hk' by (by eapply scratch_client). rewrite Em, Hcp.
    destruct (Z.leb_spec buf x), (Z.ltb_spec x (buf + chars)); try lia; cbn [andb]; apply (fx_bytes Hx1); by apply scratch_storable.
Qed.

(** [read_loop] on an inode of the mounted file system. *)
Lemma read_loop_part n fuel s v p i buf pos left count k r :
  head_static (A := A) bh_head -> fs_ok s v -> p ∈ vps v -> inodes s !! p = Some i ->
  0 <= pos -> pos + left <= 7168 -> 0 <= left -> (Z.to_nat left < n)%nat -> (0 < fuel)%nat -> 0 < count ->
  (forall x, buf <= x < buf + left -> scratch sb v x) ->
  room (cheap (fc s)) (4 * k + 4 + r) -> (left = 0 \/ 7 <= pos / 1024 + Z.of_nat k) ->
  exists s' v', read_loop bh_head n fuel p buf pos left count s = Some (count, s') /\ fs_ok s' v' /\ reads s v s' v' /\
    room (cheap (fc s')) r /\
    (forall j, 0 <= j < left -> ldb (fmem s') (buf + j) = d_byte (fl_data (chip (fc s))) b (i_ino i) (pos + j)) /\
    (forall x, scratch sb v x -> x < buf \/ buf + left <= x -> ldb (fmem s') x = ldb (fmem s) x).
Proof.
  intros Hst. revert s v buf pos left k. induction n as [|n IH];
    intros s v buf pos left k Hf Hp Hi Hpos Hmax Hl Hn Hfu Hcount Hbuf Hr Hk; [lia|]. cbn [read_loop].
  destruct (Z.eqb_spec left 0) as [->|Hne].
  { rewrite Z.sub_0_r. destruct (Z.eqb_spec count 0); [lia|]. exists s, v.
    split_and!; [done|done|apply reads_refl|apply (room_le _ _ _ Hr); lia|lia|done]. }
  pose proof (fp_inodes Hf) as Ha. rewrite Forall_forall in Ha. destruct (Ha p Hp) as (i' & Ei & Hs & Hd).
  assert (i' = i) as -> by congruence. destruct Hd as [->|Hd]; [by destruct (vps_not_null _ _ _ _ _ _ _ _ _ Hf Hp)|].
  destruct (piece_facts pos left Hpos ltac:(lia) Hmax) as (Enr & Hc & Hnc & H7 & Eu & Ep & El & Em & Hj & Hnext).
  cbn zeta in *. set (nr := Z.rem pos BLOCK_SZ) in *. set (chars := Z.min (BLOCK_SZ - nr) left) in *.
  pose proof (Z.mod_pos_bound pos 1024 ltac:(lia)) as Hnr. pose proof (Z.div_pos pos 1024 Hpos ltac:(lia)) as Hp0.
  destruct k as [|k]; [lia|]. set (f := fl_data (chip (fc s))) in *.
  destruct (read_piece s v (d_zone f b (i_ino i) (pos / 1024)) buf nr chars (4 * k + 4 + r) fuel Hst Hf)
    as (q & s1 & d & s2 & v2 & E1 & Hq0 & E2 & E3 & Hf2 & Hrd2 & Hr2 & Hb2 & Hk2); try lia.
  { apply d_zone_block. intros o. apply fl_data_range. }
  { by replace (4 + (4 * k + 4 + r))%nat with (4 * S k + 4 + r)%nat by lia. }
  { intros x Hx. apply Hbuf. lia. }
  rewrite Eu, (inode_get_blk_direct bh_head s p i {| s_op := MinixSops; sb_bd := bd; s_fs_info := si |} pos
    (d_zone f b (i_ino i) (pos / 1024)) Hi); [|rewrite Hs; apply (fp_super Hf)|done|apply (od_zones _ _ _ Hd); lia].
  cbn [sb_bd]. rewrite E1, bind_Some.
  destruct (Z.eqb_spec q NULL); [done|]. rewrite E2, bind_Some, E3, bind_Some, Em, Ep, El.
  pose proof (rd_client _ _ _ _ Hrd2) as Hcl.
  destruct (IH s2 v2 (buf + chars) (pos + chars) (left - chars) k Hf2) as (s' & v' & E & Hf' & Hrd' & Hr' & Hb' & Hk'); try done; try lia.
  - by rewrite (rd_ps _ _ _ _ Hrd2).
  - by rewrite (rd_state _ _ _ _ Hrd2).
  - intros x Hx. eapply scratch_client; [done|]. apply Hbuf. lia.
  - rewrite (rd_chip _ _ _ _ Hrd2) in Hb'. fold f in Hb'. exists s', v'. split_and!; [exact E|done|by eapply reads_trans|done| |].
    + intros j Hjj. destruct (decide (j < chars)) as [Hlt|Hge].
      * rewrite Hk' by (try (eapply scratch_client; [done|]; apply Hbuf; lia); lia). rewrite Hb2 by lia.
        unfold d_byte, d_addr. destruct (Hj j ltac:(lia)) as [-> ->]. fold f. f_equal. lia.
      * replace (buf + j) with (buf + chars + (j - chars)) by lia. rewrite Hb' by lia. f_equal. lia.
    + intros x Hx Hout. rewrite Hk' by (by eapply scratch_client || lia). apply Hk2; [done|lia].
Qed.

Lemma regular_ops f i : on_disk f b i -> S_ISREG (i_mode i) = true -> i_op i = FileOps.
Proof.
  intros Hd Hr. rewrite (od_op _ _ _ Hd), Hr. unfold S_ISREG, S_ISDIR in *. apply Z.eqb_eq in Hr. by rewrite Hr.
Qed.

Variable file_base : Z.

(** A regular file of the mounted file system, open at [fp]. *)
Record open_file s v (fp : Z) (f : file) i : Prop := {
  of_file : get_file file_base fp s = Some f;
  of_in : f_inode f ∈ vps v;
  of_inode : inodes s !! f_inode f = Some i;
  of_reg : S_ISREG (i_mode i) = true;
  of_pos : 0 <= f_pos f }.

Lemma file_read_part s v fp f i buf count fuel r :
  head_static (A := A) bh_head -> fs_ok s v -> open_file s v fp f i -> 0 < count -> f_pos f + count <= 7168 ->
  (forall x, buf <= x < buf + count -> scratch sb v x) -> room (cheap (fc s)) (32 + r) -> (0 < fuel)%nat ->
  exists s' v', file_read bh_head file_base fuel fp buf count s = Some (count, s') /\ fs_ok s' v' /\
    files_moved file_base s s' fp f count (fc s') /\ chip (fc s') = chip (fc s) /\ vps v' = vps v /\ same_client v v' /\
    room (cheap (fc s')) r /\
    (forall j, 0 <= j < count -> ldb (fmem s') (buf + j) = d_byte (fl_data (chip (fc s))) b (i_ino i) (f_pos f + j)) /\
    (forall x, scratch sb v x -> x < buf \/ buf + count <= x -> ldb (fmem s') x = ldb (fmem s) x).
Proof.
  intros Hst Hf [Hg Hin Hi Hreg Hpos] Hc Hmax Hbuf Hr Hfu.
  pose proof (fp_inodes Hf) as Ha. rewrite Forall_forall in Ha. destruct (Ha _ Hin) as (i' & Ei & _ & Hd).
  assert (i' = i) as -> by congruence. destruct Hd as [E0|Hd]; [by destruct (vps_not_null _ _ _ _ _ _ _ _ _ Hf Hin)|].
  destruct (read_loop_part (S (Z.to_nat count)) fuel s v (f_inode f) i buf (f_pos f) count count 7 r Hst Hf Hin Hi Hpos Hmax)
    as (s1 & v1 & E & Hf1 & [R1 R2 R3 R4] & Hr1 & Hb & Hk); try done; try lia.
  { right. pose proof (Z.div_pos (f_pos f) 1024). lia. }
  destruct (advance_spec file_base s (fc s1) fp f count Hg) as (s' & Ea & Hm).
  { change (2 ^ 64) with 18446744073709551616. lia. }
  rewrite <- R1 in Ea. pose proof Hm as (Es & _). assert (Ec : fc s' = fc s1) by (rewrite Es; done).
  exists s', v1. rewrite Ec. unfold fmem in *. rewrite Ec. split_and!; try done.
  - unfold file_read. destruct (Z.leb_spec count 0); [lia|]. rewrite Hg, bind_Some. unfold op_read.
    rewrite Hi, bind_Some, (regular_ops _ _ Hd Hreg).
    assert (Ep : s32 (f_pos f) = f_pos f) by (apply swrap_small; [done|]; change (2 ^ (32 - 1)) with 2147483648; lia).
    rewrite Ep. unfold minix_read. rewrite E, bind_Some. destruct (Z.ltb_spec 0 count); [|lia]. rewrite Ea, bind_Some.
    destruct (Z.eqb_spec count 0); [lia|]. done.
  - rewrite Es. destruct Hf1. rewrite R1 in *. by split.
Qed.

(** C14: [file_read] of an open file of the mounted file system returns all [count]
    bytes, in direct blocks, as they are on the device, whichever of its blocks
    are cached; it moves the position and changes nothing else of the open
    files, nothing on the device and nothing of the other users of the heap. *)
Theorem file_read_mounted s v fp f i buf count fuel :
  head_static (A := A) bh_head -> fs_ok s v -> open_file s v fp f i -> 0 < count -> f_pos f + count <= 7168 ->
  (forall x, buf <= x < buf + count -> scratch sb v x) -> room (cheap (fc s)) 32 -> (0 < fuel)%nat ->
  exists s' v', file_read bh_head file_base fuel fp buf count s = Some (count, s') /\ fs_ok s' v' /\
    bytes (fmem s') buf (Z.to_nat count) =
      map (fun k => d_byte (fl_data (chip (fc s))) b (i_ino i) (f_pos f + Z.of_nat k)) (seq 0 (Z.to_nat count)) /\
    files_moved file_base s s' fp f count (fc s') /\ chip (fc s') = chip (fc s) /\ same_client v v' /\
    (forall x, scratch sb v x -> x < buf \/ buf + count <= x -> ldb (fmem s') x = ldb (fmem s) x).
Proof.
  intros Hst Hf Ho Hc Hmax Hbuf Hr Hfu.
  destruct (file_read_part s v fp f i buf count fuel 0 Hst Hf Ho Hc Hmax Hbuf Hr Hfu)
    as (s' & v' & E & Hf' & Hm & Hch & _ & Hcl & _ & Hb & Hk).
  exists s', v'. split_and!; try done.
  apply list_eq_same_length with (n := Z.to_nat count); [by rewrite length_map, length_seq|apply length_bytes|].
  intros k x y Hk'. rewrite lookup_bytes, list_lookup_fmap, lookup_seq_lt by done. cbn [fmap option_fmap option_map].
  intros [= <-] [= <-]. rewrite Hb by lia. done.
Qed.

(** ** Closing *)

(** [file_close] of a file whose inode has other users. *)
Lemma file_close_spec s v fuel fd fp f i :
  fs_ok s v -> 0 <= fd < NR_OPEN -> arr_get (cur_filp s) fd = Some fp -> get_file file_base fp s = Some f ->
  0 < f_count f < 2 ^ 64 -> f_inode f ∈ vps v -> inodes s !! f_inode f = Some i -> 1 < i_count i < 2 ^ 64 ->
  exists s', file_close bh_head file_base fuel fd s = Some (0, s') /\ fs_ok s' v /\
    s' = set_inodes (inodes s') (set_file_tbl (file_tbl s') (set_cur_filp (<[Z.to_nat fd := NULL]> (cur_filp s)) s)) /\
    inodes s' = <[f_inode f := with_count (i_count i - 1) i]> (inodes s) /\
    get_file file_base fp s' = Some {| f_inode := f_inode f; f_count := f_count f - 1; f_flags := f_flags f; f_pos := f_pos f |} /\
    forall q, q <> fp -> get_file file_base q s' = get_file file_base q s.
Proof.
  intros Hf Hfd Hfp Hg Hc Hin Hi Hic. change (2 ^ 64) with 18446744073709551616 in *. unfold file_close.
  destruct (Z.leb_spec NR_OPEN fd); [lia|]. destruct (Z.ltb_spec fd 0); [lia|]. cbn [orb].
  unfold get_fd. rewrite Hfp, bind_Some. unfold set_fd. pose proof (arr_get_range _ _ _ Hfp) as Hrange.
  rewrite arr_set_Some by lia. rewrite !bind_Some.
  set (s1 := set_cur_filp (<[Z.to_nat fd := NULL]> (cur_filp s)) s).
  change (get_file file_base fp s1) with (get_file file_base fp s). rewrite Hg, bind_Some.
  destruct (Z.eqb_spec (f_count f) 0); [lia|].
  destruct (set_file_spec file_base s1 fp f {| f_inode := f_inode f; f_count := u64 (f_count f - 1); f_flags := f_flags f; f_pos := f_pos f |} Hg)
    as (s2 & -> & Hg2 & Hq2 & Es2 & _). rewrite bind_Some.
  assert (Ei2 : inodes s2 = inodes s) by (rewrite Es2; done).
  unfold put_inode. rewrite Ei2, Hi, bind_Some. destruct (Z.eqb_spec (i_count i) 0); [lia|].
  rewrite !wrap_small in * by (change (2 ^ 64) with 18446744073709551616; lia).
  destruct (Z.eqb_spec (i_count i - 1) 0); [lia|]. rewrite !bind_Some. eexists. split; [done|].
  split_and!; try done.
  - pose proof (count_part bh_head sb bd si b s v (f_inode f) i (i_count i - 1) Hf Hin Hi) as Hf'.
    rewrite Es2. destruct Hf'. by split.
  - rewrite Es2. done.
Qed.
End Access.

(** ** On the device of Mount.v *)

(** The bytes of inode 2. *)
Lemma path0_byte b k : super_on_disk (fl_data chip0) b -> 0 <= k < 24 -> d_byte (fl_data chip0) b 2 k = k + 1.
Proof.
  intros Hb Hk. destruct (path0_facts b Hb) as (_ & _ & _ & _ & Hz). unfold d_byte, d_addr.
  rewrite Z.div_small, Z.mod_small, (Hz 0) by lia. change (6 * 1024 + k) with (6144 + k). rewrite <- (Z2Nat.id k) by lia.
  generalize (Z.to_nat k), (Z2Nat.inj_lt k 24 ltac:(lia) ltac:(lia)). intros n Hn.
  do 24 (destruct n as [|n]; [vm_compute; reflexivity|]). lia.
Qed.

Lemma open_inode_2 (s : fsys kheap board_flash) v q b : chip (fc s) = chip0 -> super_on_disk (fl_data chip0) b -> is_inode b s v q 2 ->
  exists i, inodes s !! q = Some i /\ S_ISREG (i_mode i) = true /\ i_size i = 24 /\ i_ino i = 2.
Proof.
  intros Ech Hb (_ & _ & i & Hi & Ei & Hd). rewrite Ech in Hd. destruct (path0_facts b Hb) as (_ & _ & Hsz & Hmo & _).
  exists i. split; [done|]. rewrite (od_size _ _ _ Hd), (od_mode _ _ _ Hd), Ei, Hsz, Hmo. done.
Qed.

Example file_read_mounted_witness :
  exists s0 s1 s2, init_fs bh_head0 (fun _ => file0) fsys_blank = Some s0 /\
    file_open bh_head0 (fun _ => file0) 4096 100 8192 2 0 s0 = Some (0, s1) /\
    file_read bh_head0 4096 100 4096 16384 24 s1 = Some (24, s2) /\
    bytes (fmem s2) 16384 24 = map Z.of_nat (seq 1 24).
Proof.
  destruct mounted_disk as (s0 & v & sb & bd & si & b & i & E & Hf & Hgeo & Hb & Ech & Hin & Hi & _ & Hp & Ht & Hfi & Hr).
  injection Hfi as Htbl Hcur.
  destruct (file_open_spec bh_head0 (fun _ => file0) 4096 sb bd si b s0 v 100 8192 path0 i 2 0 0 0 100 head_static0 Hgeo Hf Hp)
    as (ret & s1 & v1 & Eo & Hr1 & Hf1 & Hx & Hres);
    [by apply (path0_slash _ _ _ _ Hp)|done|done|done|by rewrite Hcur|by rewrite Htbl| | |cbn; lia| |].
  { rewrite Hcur. exact (first_index_head _ 0 (replicate 31 0) eq_refl). }
  { rewrite Htbl. exact (first_index_head _ _ (replicate 63 {| f_inode := 0; f_count := 0; f_flags := 0; f_pos := 0 |}) eq_refl). }
  { apply (room_le _ _ _ Hr). cbn. lia. }
  rewrite Ht in Hres. destruct Hres as (-> & q & Hq & Hfiles & _). injection Hfiles as Htbl1 _.
  assert (Ech1 : chip (fc s1) = chip0) by (rewrite <- Ech; exact (fx_chip Hx)).
  destruct (open_inode_2 s1 v1 q b Ech1 Hb Hq) as (j & Hj & Hreg & _ & Ej).
  destruct (file_read_mounted bh_head0 (fun _ => file0) sb bd si b 4096 s1 v1 4096
    {| f_inode := q; f_count := 1; f_flags := 2; f_pos := 0 |} j 16384 24 100 head_static0 Hf1)
    as (s2 & v2 & Er & _ & Hbytes & _).
  { split; [|apply Hq|exact Hj|exact Hreg|discriminate]. unfold get_file, file_index. rewrite Htbl1, Htbl. reflexivity. }
  { lia. } { cbn [f_pos]. lia. }
  { intros x Hx'. left. destruct (user_storable x) as [Hs|(a & n & [=] & _)]; [change (2 ^ 30) with 1073741824; lia|exact Hs]. }
  { apply (room_le _ _ _ Hr1). lia. } { lia. }
  exists s0, s1, s2. split; [exact E|]. split; [exact Eo|]. split; [exact Er|]. change (Z.to_nat 24) with 24%nat in Hbytes.
  rewrite Hbytes, Ech1, Ej. change (seq 1 24) with (map S (seq 0 24)). rewrite (map_map S). apply map_ext_in.
  intros k Hk%in_seq. cbn [f_pos]. rewrite path0_byte; [lia|exact Hb|lia].
Defined.
