(* ===== verification/Report.v ===== *)
(** The output of the file system at boot (fs/minix_fs.c: [print_minix] and its
    helpers, fs/fs.c: [print_root_bdev]): what is printed, and what printing
    leaves behind - blocks read, inodes in memory with one more user.

    A call of [printf] is a [report] of its arguments. *)

From S2P Require Import Prelude Mem Lib DList Page Kmalloc Heap Buffer Task Minix File Namei Mount Open.
Local Open Scope Z_scope.

Inductive report :=
  | InodeMode (mode : Z) | InodeSize (size : Z) | InodeData (k zone : Z)
  | SuperCounts (ninodes nzones imap_blocks zmap_blocks : Z) | SuperSizes (firstdatazone max_size : Z)
  | DirEntry (ino name : Z) | InodeFound (ino : Z) | InodeMissing
  | ImageTooLarge | InitRuns | IdleRuns.

Section Reports.
Context {A F : Type} {HO : HeapOps A} {H0 : FlashDevice F}.
(** The buffer list, the stale contents of a new inode's block. *)
Variables (bh_head : Z) (stale_inode : Z -> inode).
Implicit Types (s : fsys A F) (fuel n : nat) (bd ino de k p : Z).

(** [m_ii->i_data[i]] for [n] zones from [k]. *)
Fixpoint print_zones n k (i : inode) : option (list report) :=
  match n with
  | O => Some []
  | S n' => let! z := i_zone i k in let! r := print_zones n' (k + 1) i in Some (InodeData k z :: r)
  end.

Definition print_minix_inode bd ino s : option (list report * fsys A F) :=
  let! d := bdevs s !! bd in
  let! '(p, s) := minix_iget bh_head stale_inode (bd_sb d) ino s in
  let! i := inodes s !! p in
  let! r := print_zones 9 0 i in
  Some (InodeMode (i_mode i) :: InodeSize (i_size i) :: r, s).

Definition print_minix_sb (sb : Z) s : option (list report) :=
  let! sblk := supers s !! sb in
  let! m := sbis s !! s_fs_info sblk in
  Some [SuperCounts (s_ninodes m) (s_nzones m) (s_imap_blocks m) (s_zmap_blocks m); SuperSizes (s_firstdatazone m) (s_max_size m)].

Definition print_dir_entry (m : mem) de : report := DirEntry (ld16 m de) (de + 2).

(** The first entry is stepped over; only an entry with inode 0 ends the loop. *)
Fixpoint print_dir_from fuel de (m : mem) : option (list report) :=
  match fuel with
  | O => None
  | S f =>
      let de := de + sizeof_dir_entry in
      if ld16 m de =? 0 then Some [] else let! r := print_dir_from f de m in Some (print_dir_entry m de :: r)
  end.

Definition print_dir_entries fuel (bh : Z) s : option (list report) :=
  let! d := bh_data s bh in print_dir_from fuel d (fmem s).

(** [name]: the address of "./dir1/dir2/user_code.bin". *)
Definition print_minix fuel bd (name : Z) s : option (list report * fsys A F) :=
  let! d := bdevs s !! bd in
  let! r1 := print_minix_sb (bd_sb d) s in
  let! '(bh, s) := fget_blk bh_head bd 696 s in
  let! r2 := print_dir_entries fuel bh s in
  let! '(r3, s) := print_minix_inode bd MINIX_ROOT_INO s in
  let! '(r4, s) := print_minix_inode bd 2 s in
  let! '(r5, s) := print_minix_inode bd 3 s in
  let! '(bh, s) := fget_blk bh_head bd 698 s in
  let! r6 := print_dir_entries fuel bh s in
  let! '(p, s) := minix_iget bh_head stale_inode (bd_sb d) 1 s in
  let! '(q, s) := namei bh_head stale_inode fuel p name s in
  let! r7 := if negb (q =? NULL) then let! i := inodes s !! q in Some (InodeFound (i_ino i)) else Some InodeMissing in
  Some (r1 ++ r2 ++ r3 ++ r4 ++ r5 ++ r6 ++ [r7], s).

Definition print_root_bdev fuel (name : Z) s : option (list report * fsys A F) := print_minix fuel (root_bdev s) name s.
End Reports.

(** ** What is printed, and what is left *)

Section Specs.
Context {A F : Type} {HO : HeapOps A} {H : BlockHeap A} {H0 : FlashDevice F}.
Variables (bh_head : Z) (stale_inode : Z -> inode).
Variables (sb bd si : Z) (b : minix_sb_info).
Implicit Types (s : fsys A F) (v : fview) (fuel n k : nat) (p q ino B : Z) (i : inode).
Abbreviation fs_ok := (fs_ok bh_head sb bd si b).

(** The entries of a block up to the first, after the zeroth, without inode. *)
Definition dir_ends (f : Z -> Z) (blk : Z) : Prop := exists e, 1 <= e <= 31 /\ dld 2 f (blk * 1024 + 32 * e) = 0.

Lemma dir_from_spec (m : mem) (f : Z -> Z) (blk d e : Z) fuel j :
  holds m f d blk -> dld 2 f (blk * 1024 + 32 * e) = 0 -> 0 <= j < e -> e <= 31 -> (Z.to_nat (e - j) <= fuel)%nat ->
  exists r, print_dir_from fuel (d + 32 * j) m = Some r.
Proof.
  intros Hh He. revert j. induction fuel as [|fuel IH]; intros j Hj Hle Hf; [lia|]. cbn [print_dir_from].
  replace (d + 32 * j + sizeof_dir_entry) with (d + 32 * (j + 1)) by (unfold sizeof_dir_entry; lia).
  destruct (Z.eqb_spec (ld16 m (d + 32 * (j + 1))) 0) as [|Hne]; [by eexists|].
  destruct (decide (j + 1 = e)) as [<-|].
  - destruct Hne. rewrite <- He. apply (dld_holds 2 m f d blk); done || lia.
  - destruct (IH (j + 1)) as (r & ->); [lia|lia|lia|]. by eexists.
Qed.

Lemma print_block_spec s v bd' blk r fuel :
  head_static (A := A) bh_head -> fs_ok s v -> bd' = bd -> block_in blk -> dir_ends (fl_data (chip (fc s))) blk ->
  room (cheap (fc s)) (4 + r) -> (31 <= fuel)%nat ->
  exists q s' v' l, fget_blk bh_head bd' blk s = Some (q, s') /\ print_dir_entries fuel q s' = Some l /\ fs_ok s' v' /\ fext sb 0 s v s' v' /\
    vps v' = vps v /\ inodes s' = inodes s /\ room (cheap (fc s')) r.
Proof.
  intros Hst Hf -> Hin (e & He & Hz) Hr Hfu.
  destruct (fget_blk_part bh_head stale_inode sb bd si b NULL s v blk r Hst Hf Hin Hr)
    as (q & d & s' & v' & E & Hf' & Hx & Ep & Ei & Hr' & _ & Hd & Hh).
  destruct (dir_from_spec (fmem s') (fl_data (chip (fc s))) blk d e fuel 0 Hh Hz) as (l & El); [lia|lia|lia|].
  rewrite Z.mul_0_r, Z.add_0_r in El. exists q, s', v', l. split_and!; try done. unfold print_dir_entries. by rewrite Hd, bind_Some.
Qed.

(** An inode number in memory, with between 1 and [B] users; or not in memory. *)
Definition held B s v ino : Prop := exists p i, cached s v ino = Some p /\ inodes s !! p = Some i /\ 1 <= i_count i <= B.
Definition known B s v ino : Prop := cached s v ino = None \/ held B s v ino.

Lemma held_ext B k s v s' v' ino :
  held B s v ino -> fext sb k s v s' v' -> B + Z.of_nat k < 2 ^ 64 -> held (B + Z.of_nat k) s' v' ino.
Proof.
  intros (p & i & Hc & Hi & Hb) Hx Hlt. destruct (fx_inodes Hx p i (cached_in _ _ _ _ Hc) Hi) as (n & En & Hn).
  exists p, (with_count n i). split; [by apply (fx_cached Hx)|]. split; [done|]. cbn [i_count with_count]. specialize (Hn ltac:(lia) ltac:(lia)). lia.
Qed.

Lemma held_le B B' s v ino : held B s v ino -> B <= B' -> held B' s v ino.
Proof. intros (p & i & H1 & H2 & H3) Hle. exists p, i. split_and!; [done|done|lia|lia]. Qed.

(** Two states with the same inodes in memory, but for their users. *)
Lemma numbered_counts (m m' : gmap Z inode) r l :
  (forall p, p ∈ l -> exists i j, m !! p = Some i /\ m' !! p = Some j /\ i_ino j = i_ino i) -> numbered m' r l = numbered m r l.
Proof.
  induction l as [|q l IH]; intros Hl; [done|]. cbn [numbered List.find]. fold (numbered m' r l) (numbered m r l).
  destruct (Hl q ltac:(apply elem_of_cons; by left)) as (i & j & -> & -> & ->).
  rewrite IH; [done|]. intros p Hp. apply Hl. apply elem_of_cons. by right.
Qed.

(** Getting an inode: it is held afterwards, and the others are known. *)
Lemma iget_known B s v ino n :
  head_static (A := A) bh_head -> geometry b -> fs_ok s v -> 1 <= ino <= s_ninodes b -> room (cheap (fc s)) (6 + n) ->
  known B s v ino -> 1 <= B -> B + 1 < 2 ^ 64 ->
  exists p i s' v', minix_iget bh_head stale_inode sb ino s = Some (p, s') /\ fs_ok s' v' /\ fext sb 1 s v s' v' /\
    room (cheap (fc s')) n /\ p ∈ vps v' /\ inodes s' !! p = Some i /\ i_ino i = ino /\ on_disk (fl_data (chip (fc s'))) b i /\
    held (B + 1) s' v' ino /\ forall r, r <> ino -> known B s v r -> known (B + 1) s' v' r.
Proof.
  intros Hst Hgeo Hf Hino Hr Hk HB Hlt.
  destruct (minix_iget_spec bh_head stale_inode sb bd si b s v ino n Hst Hgeo Hf Hino Hr)
    as (p & i & s' & v' & E & Hf' & Hx & Hr' & Hp & Hp0 & Hi & Ei & Hc & Hcase).
  exists p, i, s', v'. split_and!; try done.
  - pose proof (fp_inodes Hf') as Ha. rewrite Forall_forall in Ha. destruct (Ha p Hp) as (j & Ej & _ & [?|Hd]); [done|].
    by assert (j = i) as -> by congruence.
  - destruct Hk as [Hn|Hh].
    + rewrite Hn in Hcase. exists p, i. split_and!; [done|done|lia|lia].
    + apply (held_ext B 1 s v s' v' ino Hh Hx). lia.
  - intros r Hne [Hn|Hh]; [left|right; apply (held_ext B 1 s v s' v' r Hh Hx); lia].
    assert (Hold : numbered (inodes s') r (vps v) = None).
    { rewrite (numbered_counts (inodes s)); [exact Hn|]. intros q Hq.
      pose proof (fp_inodes Hf) as Ha. rewrite Forall_forall in Ha. destruct (Ha q Hq) as (j & Ej & _).
      destruct (fx_inodes Hx q j Hq Ej) as (m & Em & _). by exists j, (with_count m j). }
    unfold cached. destruct (cached s v ino).
    + destruct Hcase as (_ & _ & -> & _). exact Hold.
    + destruct Hcase as [_ ->]. cbn [numbered List.find]. rewrite Hi, Ei. destruct (Z.eqb_spec ino r); [done|exact Hold].
Qed.

(** What the device says of inode [ino]. *)
Definition inode_report (f : Z -> Z) ino : list report :=
  InodeMode (d_mode f b ino) :: InodeSize (d_size f b ino) ::
  map (fun k => InodeData (Z.of_nat k) (d_zone f b ino (Z.of_nat k))) (seq 0 9).

Lemma print_zones_spec f i n k :
  on_disk f b i -> (k + n <= 9)%nat ->
  print_zones n (Z.of_nat k) i = Some (map (fun k => InodeData (Z.of_nat k) (d_zone f b (i_ino i) (Z.of_nat k))) (seq k n)).
Proof.
  intros Hd. revert k. induction n as [|n IH]; intros k Hk; [done|]. cbn [print_zones seq map].
  rewrite (od_zones _ _ _ Hd) by lia. rewrite bind_Some. replace (Z.of_nat k + 1) with (Z.of_nat (S k)) by lia. rewrite IH by lia. done.
Qed.

Lemma print_inode_spec B s v d ino n :
  head_static (A := A) bh_head -> geometry b -> fs_ok s v -> bdevs s !! bd = Some d -> bd_sb d = sb -> 1 <= ino <= s_ninodes b ->
  room (cheap (fc s)) (6 + n) -> known B s v ino -> 1 <= B -> B + 1 < 2 ^ 64 ->
  exists s' v', print_minix_inode bh_head stale_inode bd ino s = Some (inode_report (fl_data (chip (fc s))) ino, s') /\ fs_ok s' v' /\
    fext sb 1 s v s' v' /\ room (cheap (fc s')) n /\ held (B + 1) s' v' ino /\ forall r, r <> ino -> known B s v r -> known (B + 1) s' v' r.
Proof.
  intros Hst Hgeo Hf Hbd Hsb Hino Hr Hk HB Hlt.
  destruct (iget_known B s v ino n Hst Hgeo Hf Hino Hr Hk HB Hlt) as (p & i & s' & v' & E & Hf' & Hx & Hr' & _ & Hi & Ei & Hd & Hh & Hkn).
  exists s', v'. split_and!; try done. unfold print_minix_inode. rewrite Hbd, bind_Some, Hsb, E, bind_Some, Hi, bind_Some.
  rewrite (fx_chip Hx) in Hd. change (print_zones 9 0 i) with (print_zones 9 (Z.of_nat 0) i).
  rewrite (print_zones_spec (fl_data (chip (fc s))) i 9 0 Hd) by lia.
  rewrite bind_Some, (od_mode _ _ _ Hd), (od_size _ _ _ Hd), Ei. done.
Qed.

Lemma known_same B s v s' v' r : vps v' = vps v -> inodes s' = inodes s -> known B s v r -> known B s' v' r.
Proof. intros Ev Ei. unfold known, held. by rewrite (cached_same s v s' v' r Ev Ei), Ei. Qed.

Lemma path_ok_ext k s v s' v' name str i i' : path_ok b s v name str i -> fext sb k s v s' v' -> i_ino i' = i_ino i -> path_ok b s' v' name str i'.
Proof.
  intros [P1 P2 P3 P4 P6 P5] Hx Ei. split; [|done| |done|done|by rewrite (fx_chip Hx), Ei].
  - apply (cstr_agree (fmem s)); [|done]. intros x Hx'. apply (fx_bytes Hx), P3. lia.
  - intros x Hx'. apply (storable_sub (vL v)); [apply Hx|by apply P3].
Qed.

Definition super_report : list report :=
  [SuperCounts (s_ninodes b) (s_nzones b) (s_imap_blocks b) (s_zmap_blocks b); SuperSizes (s_firstdatazone b) (s_max_size b)].

(** The inodes 1, 2 and 3 printed, in the order of the calls. *)
Lemma print_inodes_spec B s v d n :
  head_static (A := A) bh_head -> geometry b -> fs_ok s v -> bdevs s !! bd = Some d -> bd_sb d = sb -> 3 <= s_ninodes b ->
  room (cheap (fc s)) (18 + n) -> (forall r, 1 <= r <= 3 -> known B s v r) -> 1 <= B -> B + 3 < 2 ^ 64 ->
  let f := fl_data (chip (fc s)) in
  exists s1 s2 s3 v3, print_minix_inode bh_head stale_inode bd 1 s = Some (inode_report f 1, s1) /\
    print_minix_inode bh_head stale_inode bd 2 s1 = Some (inode_report f 2, s2) /\
    print_minix_inode bh_head stale_inode bd 3 s2 = Some (inode_report f 3, s3) /\
    fs_ok s3 v3 /\ fext sb 3 s v s3 v3 /\ room (cheap (fc s3)) n /\ forall r, 1 <= r <= 3 -> held (B + 3) s3 v3 r.
Proof.
  intros Hst Hgeo Hf Hbd Hsb Hn Hr Hk HB Hlt f.
  destruct (print_inode_spec B s v d 1 (12 + n) Hst Hgeo Hf Hbd Hsb ltac:(lia) Hr (Hk 1 ltac:(lia)) HB ltac:(lia))
    as (s1 & v1 & E1 & Hf1 & Hx1 & Hr1 & Hh1 & Hk1).
  assert (Hbd1 : bdevs s1 !! bd = Some d) by (by rewrite (fx_state Hx1)).
  destruct (print_inode_spec (B + 1) s1 v1 d 2 (6 + n) Hst Hgeo Hf1 Hbd1 Hsb ltac:(lia) Hr1 (Hk1 2 ltac:(lia) (Hk 2 ltac:(lia))) ltac:(lia) ltac:(lia))
    as (s2 & v2 & E2 & Hf2 & Hx2 & Hr2 & Hh2 & Hk2).
  assert (Hbd2 : bdevs s2 !! bd = Some d) by (by rewrite (fx_state Hx2)).
  destruct (print_inode_spec (B + 1 + 1) s2 v2 d 3 n Hst Hgeo Hf2 Hbd2 Hsb ltac:(lia) Hr2 (Hk2 3 ltac:(lia) (Hk1 3 ltac:(lia) (Hk 3 ltac:(lia)))) ltac:(lia) ltac:(lia))
    as (s3 & v3 & E3 & Hf3 & Hx3 & Hr3 & Hh3 & Hk3).
  rewrite (fx_chip Hx2), (fx_chip Hx1) in E3. rewrite (fx_chip Hx1) in E2.
  exists s1, s2, s3, v3. split_and!; try done.
  - apply (fext_trans sb 2 1 _ _ s2 v2); [|done]. by apply (fext_trans sb 1 1 _ _ s1 v1).
  - intros r Hrr. assert (r = 1 \/ r = 2 \/ r = 3) as [->|[->| ->]] by lia.
    + apply (held_le (B + 1 + Z.of_nat 1 + Z.of_nat 1)); [|lia].
      apply (held_ext _ 1 s2 v2); [|done|lia]. apply (held_ext _ 1 s1 v1); [done|done|lia].
    + apply (held_le (B + 1 + 1 + Z.of_nat 1)); [|lia]. apply (held_ext _ 1 s2 v2); [done|done|lia].
    + apply (held_le _ _ _ _ _ Hh3). lia.
Qed.

Lemma print_minix_spec B s v d name str i0 fuel r :
  head_static (A := A) bh_head -> geometry b -> fs_ok s v -> bdevs s !! bd = Some d -> bd_sb d = sb -> 3 <= s_ninodes b ->
  block_in 696 -> block_in 698 -> dir_ends (fl_data (chip (fc s))) 696 -> dir_ends (fl_data (chip (fc s))) 698 ->
  path_ok b s v name str i0 -> i_ino i0 = 1 -> ldb (fmem s) name <> c_slash -> (S (length str) < fuel)%nat -> (31 <= fuel)%nat ->
  (forall r, 1 <= r <= 3 -> known B s v r) -> 1 <= B -> B + 4 + Z.of_nat (depth str) < 2 ^ 64 ->
  room (cheap (fc s)) (34 + (34 * depth str + r)) ->
  let f := fl_data (chip (fc s)) in
  exists l1 l2 s' v', print_minix bh_head stale_inode fuel bd name s =
      Some (super_report ++ l1 ++ inode_report f 1 ++ inode_report f 2 ++ inode_report f 3 ++ l2 ++
            [if target b s str i0 =? 0 then InodeMissing else InodeFound (target b s str i0)], s') /\
    fs_ok s' v' /\ fext sb (4 + depth str) s v s' v' /\ room (cheap (fc s')) r /\
    forall r, 1 <= r <= 3 -> held (B + 4 + Z.of_nat (depth str)) s' v' r.
Proof.
  intros Hst Hgeo Hf Hbd Hsb Hn B1 B2 D1 D2 Hp Hi0 Hsl Hfu Hfu' Hk HB Hlt Hr f.
  destruct (print_block_spec s v bd 696 (30 + (34 * depth str + r)) fuel Hst Hf eq_refl B1 D1) as (q1 & s1 & v1 & l1 & E1 & L1 & Hf1 & Hx1 & Ep1 & Ei1 & Hr1);
    [apply (room_le _ _ _ Hr); lia|done|].
  assert (Hbd1 : bdevs s1 !! bd = Some d) by (by rewrite (fx_state Hx1)).
  destruct (print_inodes_spec B s1 v1 d (12 + (34 * depth str + r)) Hst Hgeo Hf1 Hbd1 Hsb Hn) as (s2 & s3 & s4 & v4 & E2 & E3 & E4 & Hf4 & Hx4 & Hr4 & Hh4);
    [apply (room_le _ _ _ Hr1); lia|intros; by apply (known_same B s v), Hk|done|lia|].
  pose proof (fext_trans sb 0 3 _ _ _ _ _ _ Hx1 Hx4) as Hx04.
  destruct (print_block_spec s4 v4 bd 698 (8 + (34 * depth str + r)) fuel Hst Hf4 eq_refl B2) as (q2 & s5 & v5 & l2 & E5 & L2 & Hf5 & Hx5 & Ep5 & Ei5 & Hr5);
    [by rewrite (fx_chip Hx04)|apply (room_le _ _ _ Hr4); lia|done|].
  destruct (iget_known (B + 3) s5 v5 1 (2 + (34 * depth str + r)) Hst Hgeo Hf5) as (p6 & i6 & s6 & v6 & E6 & Hf6 & Hx6 & Hr6 & Hp6 & Hi6 & En6 & _ & Hh6 & Hk6);
    [lia|exact Hr5|by apply (known_same _ s4 v4); [..|right; apply Hh4; lia]|lia|lia|].
  pose proof (fext_trans sb 3 1 _ _ _ _ _ _ (fext_trans sb 3 0 _ _ _ _ _ _ Hx04 Hx5) Hx6) as Hx06.
  pose proof (path_ok_ext 4 s v s6 v6 name str i0 i6 Hp Hx06 ltac:(congruence)) as [P1 P2 P3 P4 P6 P5].
  destruct (namei_spec bh_head stale_inode sb bd si b s6 v6 fuel p6 name str p6 i6 r Hst Hgeo Hf6 P1 P2 P3 P4 P6)
    as (q & s7 & v7 & E7 & Hf7 & (Hx7 & Hq) & Hr7 & _); [|done|done|done|done|exact Hr6|].
  { rewrite (fx_bytes Hx06) by (apply (po_storable _ _ _ _ _ _ Hp); lia). by destruct (Z.eqb_spec (ldb (fmem s) name) c_slash). }
  rewrite (fx_chip Hx06), En6, <- Hi0 in Hq. fold f in Hq. change (resolve f b (i_ino i0) (components [] (strip str))) with (target b s str i0) in Hq.
  exists l1, l2, s7, v7. split; [|split; [done|split; [exact (fext_trans sb 4 _ _ _ _ _ _ _ Hx06 Hx7)|split; [done|]]]].
  - unfold print_minix, print_minix_sb. rewrite Hbd, bind_Some, Hsb, (fp_super Hf), bind_Some. cbn [s_fs_info]. rewrite (fp_info Hf), !bind_Some.
    change MINIX_ROOT_INO with 1. rewrite E1, bind_Some, L1, bind_Some, E2, bind_Some, E3, bind_Some, E4, bind_Some, E5, bind_Some, L2, bind_Some, E6, bind_Some, E7, bind_Some.
    rewrite (fx_chip Hx1). destruct (Z.eqb_spec (target b s str i0) 0) as [Et|Et].
    + subst q. done.
    + destruct Hq as (Hqv & j & Hj & Ej). pose proof (vps_not_null _ _ _ _ _ _ _ _ _ Hf7 Hqv) as Hq0. destruct (Z.eqb_spec q NULL); [done|].
      cbn [negb]. by rewrite Hj, !bind_Some, Ej.
  - intros x Hxr. assert (Hh : held (B + 4) s6 v6 x).
    { destruct (decide (x = 1)) as [->|Hne]; [apply (held_le _ _ _ _ _ Hh6); lia|].
      assert (H5 : held (B + 3) s5 v5 x).
      { destruct (known_same (B + 3) s4 v4 s5 v5 x Ep5 Ei5) as [Hc|Hh]; [right; by apply Hh4| |done].
        destruct (Hh4 x Hxr) as (p & i & Hc' & _). by rewrite (cached_same s4 v4 s5 v5 x Ep5 Ei5), Hc' in Hc. }
      apply (held_le (B + 3 + Z.of_nat 1)); [|lia]. apply (held_ext _ 1 s5 v5); [done|done|lia]. }
    apply (held_ext _ _ s6 v6); [done|done|lia].
Qed.
End Specs.
