(* ===== verification/Syscall.v ===== *)
(** kernel/syscall.c, [execv] of kernel/task.c and the system call entry of
    arch/vector.S: the system calls on the whole kernel state.

    The scheduler's state and the file system share the kernel heap and the
    descriptors of the running task: [on_fs] runs a file system operation on
    both. *)

From S2P Require Import Prelude Mem Lib DList Page PageTable Aarch64 Kmalloc Heap Buffer Task Process Minix File Printf.
Local Open Scope Z_scope.

Definition SYSCALL_NR : Z := 9.
Definition ESR_EC_SVC : Z := Z.shiftl 0x15 26.

Record system (F : Type) := { ks : ksys; fs : fsys kheap F; con : uart }.
#[global] Arguments ks {F}.
#[global] Arguments fs {F}.
#[global] Arguments con {F}.

(** What a system call ends in: a return value for the caller's x0, or the
    endless loop of [put_exception]. *)
Inductive outcome (S : Type) := Returned (ret : Z) (s : S) | Halted.
#[global] Arguments Returned {S}.
#[global] Arguments Halted {S}.

Section Syscall.
Context {F : Type} `{FlashDevice F}.
(** Static addresses: the buffer list head, [file_tbl], the format "%s" and the
    stack slot of [printf_]; code addresses of the context switch. *)
Variables (bh_head : Z) (stale_inode : Z -> inode) (file_base fmt_s local : Z) (ret_from_fork switch_ret : Z).
Implicit Types (s : system F) (fuel : nat) (fd : Z).

Definition set_ks (k : ksys) s : system F := {| ks := k; fs := fs s; con := con s |}.

Definition on_fs {R : Type} (f : fsys kheap F -> option (R * fsys kheap F)) s : option (R * system F) :=
  let! t := tasks (ks s) !! current (ks s) in
  let! '(r, x) := f (set_cur_filp (filp t) (set_fc (set_heap (kh (ks s)) (fc (fs s))) (fs s))) in
  let! k := upd_task (current (ks s)) (with_filp (cur_filp x)) (set_kh (cheap (fc x)) (ks s)) in
  Some (r, {| ks := k; fs := x; con := con s |}).

(** [current->filp[fd]]. *)
Definition cur_fd fd s : option Z :=
  let! t := tasks (ks s) !! current (ks s) in arr_get (filp t) fd.

Definition sys_put fuel (buf : Z) s : option (Z * system F) :=
  let! '(n, p) := printf_ fuel local fmt_s [buf] {| pmem := kram (ks s); puart := con s |} in
  Some (n, {| ks := set_ram (pmem p) (ks s); fs := fs s; con := puart p |}).

Definition sys_fork s : option (Z * system F) := Some (0, s).
Definition sys_malloc s : option (Z * system F) := Some (0, s).

Definition sys_exit s : option (Z * system F) :=
  let! k := upd_task (current (ks s)) (Task.with_state TASK_ZOMBIE) (ks s) in
  let! k := schedule ret_from_fork switch_ret k in
  Some (0, set_ks k s).

Definition sys_open fuel (filename flag mode : Z) s : option (Z * system F) :=
  on_fs (file_open bh_head stale_inode file_base fuel filename flag mode) s.

(** The guards on a descriptor and a buffer. *)
Definition bad_fd fd : bool := (NR_OPEN <=? fd) || (fd <? 0).
Definition bad_rw fd (buf count : Z) : bool := bad_fd fd || (buf =? NULL) || (count <? 0).

Definition sys_read fuel fd (buf count : Z) s : option (Z * system F) :=
  if bad_rw fd buf count then Some (-1, s)
  else
    let! filp := cur_fd fd s in
    if filp =? NULL then Some (-1, s) else on_fs (file_read bh_head file_base fuel filp buf count) s.

Definition sys_write fuel fd (buf count : Z) s : option (Z * system F) :=
  if bad_rw fd buf count then Some (-1, s)
  else
    let! filp := cur_fd fd s in
    if filp =? NULL then Some (-1, s) else on_fs (file_write bh_head file_base fuel filp buf count) s.

Definition sys_lseek fd (offset whence : Z) s : option (Z * system F) :=
  if bad_fd fd then Some (-1, s)
  else
    let! filp := cur_fd fd s in
    if filp =? NULL then Some (-1, s) else on_fs (file_lseek file_base filp offset whence) s.

(** [execv(filp)]: the read is asked for [size] converted to [int]. *)
Definition execv fuel (filp : Z) s : option (system F) :=
  let! f := get_file file_base filp (fs s) in
  let! i := inodes (fs s) !! f_inode f in
  let size := i_size i in
  let! '(buf, h) := kmalloc size (kh (ks s)) in
  let! '(_, s) := on_fs (file_read bh_head file_base fuel filp buf (s32 size)) (set_ks (set_kh h (ks s)) s) in
  let! k := copy_process ret_from_fork buf size (ks s) in
  let! h := kfree buf (kh k) in
  Some (set_ks (set_kh h k) s).

(** A failed open leaves a negative [fd] as the index. *)
Definition sys_execv fuel (file_path : Z) s : option (Z * system F) :=
  if file_path =? NULL then Some (-1, s)
  else
    let! '(fd, s) := sys_open fuel file_path 0 0 s in
    let! filp := cur_fd fd s in
    let! s := execv fuel filp s in
    let! '(_, s) := on_fs (file_close bh_head file_base fuel fd) s in
    Some (0, s).

(** [syscall_table[x8](x0, x1, x2)] in the order of the table; the arguments are
    read at the types of the functions. *)
Definition syscall_table fuel (nr x0 x1 x2 : Z) s : option (Z * system F) :=
  if nr =? 0 then sys_put fuel x0 s
  else if nr =? 1 then sys_fork s
  else if nr =? 2 then sys_malloc s
  else if nr =? 3 then sys_exit s
  else if nr =? 4 then sys_open fuel x0 (s32 x1) (s32 x2) s
  else if nr =? 5 then sys_read fuel (s32 x0) x1 (s32 x2) s
  else if nr =? 6 then sys_write fuel (s32 x0) x1 (s32 x2) s
  else if nr =? 7 then sys_lseek (s32 x0) (s32 x1) (s32 x2) s
  else if nr =? 8 then sys_execv fuel x0 s
  else None.

(** [el0_svc]: numbers past the table go to [put_exception]; interrupts are on
    while the call runs. *)
Definition el0_svc fuel (x8 x0 x1 x2 : Z) s : option (outcome (system F)) :=
  if SYSCALL_NR <=? x8 then Some Halted
  else
    let s := set_ks (on_cpu enable_irq (ks s)) s in
    let! '(ret, s) := syscall_table fuel x8 x0 x1 x2 s in
    Some (Returned ret (set_ks (on_cpu disable_irq (ks s)) s)).

(** The exception entry: only an SVC is a system call. *)
Definition lower_el_sync fuel (esr x8 x0 x1 x2 : Z) s : option (outcome (system F)) :=
  if Z.land esr (Z.shiftl 0x3f 26) =? ESR_EC_SVC then el0_svc fuel x8 x0 x1 x2 s else Some Halted.
End Syscall.

(** ** The calls on an open descriptor *)

Section Calls.
Context {F : Type} `{FlashDevice F}.
Variables (bh_head : Z) (stale_inode : Z -> inode) (file_base fmt_s local : Z) (ret_from_fork switch_ret : Z).
Implicit Types (s : system F) (fuel : nat) (fd : Z).

(** The file system as the running task [t] sees it. *)
Definition view (t : task_struct) s : fsys kheap F :=
  set_cur_filp (filp t) (set_fc (set_heap (kh (ks s)) (fc (fs s))) (fs s)).

Lemma with_filp_same t : with_filp (filp t) t = t.
Proof. by destruct t. Qed.

(** An operation that leaves the descriptors alone changes, of the scheduler's
    state, the heap only. *)
Lemma on_fs_run {R : Type} (f : fsys kheap F -> option (R * fsys kheap F)) s t r x :
  tasks (ks s) !! current (ks s) = Some t -> f (view t s) = Some (r, x) -> cur_filp x = filp t ->
  on_fs f s = Some (r, {| ks := set_kh (cheap (fc x)) (ks s); fs := x; con := con s |}).
Proof.
  intros Ht Ef Ec. unfold on_fs. rewrite Ht, bind_Some. fold (view t s). rewrite Ef, bind_Some, Ec.
  unfold upd_task. cbn [tasks set_kh]. rewrite Ht, !bind_Some, with_filp_same, insert_id by done. done.
Qed.

Lemma cache_cpu c h (C : cache kheap F) L bl :
  cache_ok bh_head (set_heap h C) L bl -> cache_ok bh_head (set_heap (set_cpu c h) C) L bl.
Proof.
  intros [H1 H2 H3 (bs & fl & Hly & Hr) H5]. split; [done..| |done]. exists bs, fl. split; [by apply layout_cpu|done].
Qed.

(** Descriptor [fd] of the running task is open on a regular file whose next
    [count] bytes are in direct blocks. *)
Record fd_open s (L : gmap Z Z) (bl : list (Z * buffer_head)) t fd p f (i : inode) (sb : super_block) (count : Z) : Prop := {
  fo_task : tasks (ks s) !! current (ks s) = Some t;
  fo_fd : arr_get (filp t) fd = Some p;
  fo_range : 0 <= fd < NR_OPEN;
  fo_ptr : p <> NULL;
  fo_data : at_data file_base (view t s) bl p f i sb count;
  fo_cache : cache_ok bh_head (fc (view t s)) L bl }.

Lemma fd_guard s L bl t fd p f i sb count buf :
  fd_open s L bl t fd p f i sb count -> buf <> NULL -> 0 <= count ->
  bad_rw fd buf count = false /\ bad_fd fd = false /\ cur_fd fd s = Some p /\ (p =? NULL) = false.
Proof.
  intros [Ht Hfd Hr Hp _ _] Hb Hc. unfold bad_rw, bad_fd, cur_fd. rewrite Ht, bind_Some. apply Z.eqb_neq in Hb, Hp. rewrite Hb.
  destruct (Z.leb_spec NR_OPEN fd); [lia|]. destruct (Z.ltb_spec fd 0); [lia|]. destruct (Z.ltb_spec count 0); [lia|]. done.
Qed.

(** The system after a transfer. *)
Definition after s (x : fsys kheap F) : system F := {| ks := set_kh (cheap (fc x)) (ks s); fs := x; con := con s |}.

Lemma view_after t s x : cur_filp x = filp t -> view t (after s x) = x.
Proof. intros E. unfold view. cbn. rewrite <- E. destruct x as [[]]. done. Qed.

Lemma moved_filp (y y' : fsys kheap F) p f count c : files_moved file_base y y' p f count c -> cur_filp y' = cur_filp y.
Proof. intros [-> _]. done. Qed.

(** The descriptor after the transfer, for the [n] bytes that follow. *)
Lemma fd_open_after s L bl t fd p f i sb count x c n :
  fd_open s L bl t fd p f i sb count -> files_moved file_base (view t s) x p f count c -> cache_ok bh_head c L bl ->
  direct bl (sb_bd sb) i (f_pos f + count) n ->
  fd_open (after s x) L bl t fd p (moved f count) i sb n.
Proof.
  intros [Ht Hfd Hr Hp [Hf Hi Hop Hs Hd] Hck] Hm Hck' Hd'. pose proof (moved_filp _ _ _ _ _ _ Hm) as Ec.
  split; [done|done|done|done| |]; rewrite view_after by done; destruct Hm as (-> & Hg & _); [|done].
  by split.
Qed.

Lemma sys_read_spec s L bl t fd p f i sb buf count fuel r :
  head_static (A := kheap) bh_head -> fd_open s L bl t fd p f i sb count -> buf <> NULL -> 0 < count ->
  (forall x, buf <= x < buf + count -> storable (A := kheap) L x) -> free_ge (mem_map (kphys (kh (ks s)))) (32 + r) -> (0 < fuel)%nat ->
  exists c x, sys_read bh_head file_base fuel fd buf count s = Some (count, after s x) /\
    files_moved file_base (view t s) x p f count c /\ cache_ok bh_head c L bl /\ room (cheap c) r /\
    (forall j, 0 <= j < count -> ldb (cmem c) (buf + j) = file_byte (chip (fc (fs s))) i (f_pos f + j)).
Proof.
  intros Hst Ho Hb Hc Hbuf Hr Hfu. destruct (fd_guard _ _ _ _ _ _ _ _ _ _ buf Ho Hb ltac:(lia)) as (G1 & _ & G3 & G4).
  destruct (file_read_spec bh_head file_base (view t s) L bl p f i sb buf count fuel r Hst (fo_cache _ _ _ _ _ _ _ _ _ _ Ho)
    (fo_data _ _ _ _ _ _ _ _ _ _ Ho) Hc Hbuf Hr Hfu) as (c & x & E & Hm & Hck & Hr' & _ & Hby & _).
  exists c, x. unfold sys_read. rewrite G1, G3, bind_Some, G4. split_and!; try done.
  apply (on_fs_run _ _ t); [apply Ho|done|by rewrite (moved_filp _ _ _ _ _ _ Hm)].
Qed.

Lemma sys_write_spec s L bl t fd p f i sb buf count r :
  head_static (A := kheap) bh_head -> fd_open s L bl t fd p f i sb count -> distinct_zones i -> buf <> NULL -> 0 < count ->
  (forall x, buf <= x < buf + count -> storable (A := kheap) L x) -> free_ge (mem_map (kphys (kh (ks s)))) (32 + r) ->
  exists c x n0, (forall fuel, (n0 < fuel)%nat -> sys_write bh_head file_base fuel fd buf count s = Some (count, after s x)) /\
    files_moved file_base (view t s) x p f count c /\ cache_ok bh_head c L bl /\ room (cheap c) r /\
    (forall j, 0 <= j < count -> file_byte (chip c) i (f_pos f + j) = ldb (kram (ks s)) (buf + j)).
Proof.
  intros Hst Ho Hz Hb Hc Hbuf Hr. destruct (fd_guard _ _ _ _ _ _ _ _ _ _ buf Ho Hb ltac:(lia)) as (G1 & _ & G3 & G4).
  destruct (file_write_spec bh_head file_base (view t s) L bl p f i sb buf count r Hst (fo_cache _ _ _ _ _ _ _ _ _ _ Ho)
    (fo_data _ _ _ _ _ _ _ _ _ _ Ho) Hz Hc Hbuf Hr) as (c & x & n0 & E & Hm & Hck & Hr' & Hby & _).
  exists c, x, n0. split_and!; try done. intros fuel Hfu. unfold sys_write. rewrite G1, G3, bind_Some, G4.
  apply (on_fs_run _ _ t); [apply Ho|by apply E|by rewrite (moved_filp _ _ _ _ _ _ Hm)].
Qed.

Lemma sys_lseek_spec s L bl t fd p f i sb count off :
  fd_open s L bl t fd p f i sb count -> 0 <= count -> 0 <= off <= i_size i -> off < 2 ^ 31 ->
  exists x, sys_lseek file_base fd off SEEK_SET s = Some (off, after s x) /\
    files_moved file_base (view t s) x p f (off - f_pos f) (fc (view t s)).
Proof.
  intros Ho Hc Hoff Hlt. destruct (fd_guard _ _ _ _ _ _ _ _ _ _ 1 Ho ltac:(done) Hc) as (_ & G2 & G3 & G4).
  destruct (file_lseek_set file_base (view t s) p f i off) as (x & E & Hm);
    [apply (fo_data _ _ _ _ _ _ _ _ _ _ Ho)|apply (fo_data _ _ _ _ _ _ _ _ _ _ Ho)|done|done|].
  exists x. split; [|done]. unfold sys_lseek. rewrite G2, G3, bind_Some, G4.
  apply (on_fs_run _ _ t); [apply Ho|exact E|by rewrite (moved_filp _ _ _ _ _ _ Hm)].
Qed.

(** The entry of the exception turns the interrupts on, its exit off. *)
Definition entered s : system F := set_ks (on_cpu enable_irq (ks s)) s.
Definition left s : system F := set_ks (on_cpu disable_irq (ks s)) s.

Lemma fd_open_cpu g s L bl t fd p f i sb count :
  fd_open s L bl t fd p f i sb count -> fd_open (set_ks (on_cpu g (ks s)) s) L bl t fd p f i sb count.
Proof. intros [Ht Hfd Hr Hp [H1 H2 H3 H4 H5] Hck]. split; try done. exact (cache_cpu _ _ _ _ _ Hck). Qed.

(** One system call: the table's entry between the two interrupt switches. *)
Lemma svc_run fuel nr x0 x1 x2 s r y :
  0 <= nr < SYSCALL_NR ->
  syscall_table bh_head stale_inode file_base fmt_s local ret_from_fork switch_ret fuel nr x0 x1 x2 (entered s) = Some (r, y) ->
  el0_svc bh_head stale_inode file_base fmt_s local ret_from_fork switch_ret fuel nr x0 x1 x2 s = Some (Returned r (left y)).
Proof.
  intros Hn E. unfold el0_svc. destruct (Z.leb_spec SYSCALL_NR nr); [lia|]. cbv zeta. fold (entered s). by rewrite E, bind_Some.
Qed.

Lemma int_arg z : 0 <= z < 2 ^ 31 -> s32 z = z.
Proof. intros Hz. apply swrap_small; [done|]. change (2 ^ (32 - 1)) with (2 ^ 31). change (2 ^ 31) with 2147483648 in *. lia. Qed.

(** A system call that moves the descriptor of [s] leads to [left (after (entered s) x)]. *)
Lemma fd_open_called s L bl t fd p f i sb count x c n :
  fd_open s L bl t fd p f i sb count -> files_moved file_base (view t (entered s)) x p f count c -> cache_ok bh_head c L bl ->
  direct bl (sb_bd sb) i (f_pos f + count) n ->
  fd_open (left (after (entered s) x)) L bl t fd p (moved f count) i sb n.
Proof.
  intros Ho Hm Hck Hd. apply fd_open_cpu. apply (fd_open_after _ _ _ _ _ _ _ _ _ count _ c); [by apply fd_open_cpu|done|done|done].
Qed.

Lemma moved_heap (y x : fsys kheap F) p f count c : files_moved file_base y x p f count c -> cheap (fc x) = cheap c /\ chip (fc x) = chip c.
Proof. intros [-> _]. done. Qed.

(** C8: What a process writes to an open file it reads back after seeking to where
    it wrote: the three calls return what they should and the second buffer
    ends with the bytes of the first. The seek is the number of [SYS_CLOSE]. *)
Theorem write_seek_read s L bl t fd p f i sb src dst count :
  head_static (A := kheap) bh_head -> fd_open s L bl t fd p f i sb count -> distinct_zones i -> f_pos f <= i_size i ->
  src <> NULL -> dst <> NULL -> 0 < count < 2 ^ 31 -> free_ge (mem_map (kphys (kh (ks s)))) 64 ->
  (forall x, src <= x < src + count \/ dst <= x < dst + count -> storable (A := kheap) L x) ->
  let svc := el0_svc bh_head stale_inode file_base fmt_s local ret_from_fork switch_ret in
  exists n0, forall fuel, (n0 < fuel)%nat -> exists s1 s2 s3,
    svc fuel 6 fd src count s = Some (Returned count s1) /\
    svc fuel 7 fd (f_pos f) SEEK_SET s1 = Some (Returned (f_pos f) s2) /\
    svc fuel 5 fd dst count s2 = Some (Returned count s3) /\
    forall j, 0 <= j < count -> ldb (kram (ks s3)) (dst + j) = ldb (kram (ks s)) (src + j).
Proof.
  intros Hst Ho Hz Hsz Hsrc Hdst Hc Hr Hbuf svc. unfold svc.
  pose proof (ad_direct _ _ _ _ _ _ _ _ (fo_data _ _ _ _ _ _ _ _ _ _ Ho)) as Hd.
  pose proof Hd as (Hp0 & Hpm & _). pose proof (fo_range _ _ _ _ _ _ _ _ _ _ Ho) as Hfd. unfold NR_OPEN in Hfd.
  change (2 ^ 31) with 2147483648 in Hc.
  assert (Efd : s32 fd = fd) by (apply int_arg; change (2 ^ 31) with 2147483648; lia).
  assert (Ec : s32 count = count) by (apply int_arg; change (2 ^ 31) with 2147483648; lia).
  assert (Ep : s32 (f_pos f) = f_pos f) by (apply int_arg; change (2 ^ 31) with 2147483648; lia).
  destruct (sys_write_spec (entered s) L bl t fd p f i sb src count 32 Hst (fd_open_cpu _ _ _ _ _ _ _ _ _ _ _ Ho) Hz Hsrc)
    as (c1 & x1 & n0 & E1 & Hm1 & Hck1 & Hr1 & Hb1); [lia|intros x Hx; apply Hbuf; by left|exact Hr|].
  destruct (moved_heap _ _ _ _ _ _ Hm1) as [Eh1 Ef1].
  pose proof (fd_open_called _ _ _ _ _ _ _ _ _ _ _ _ 0 Ho Hm1 Hck1 ltac:(split_and!; [lia|lia|intros; lia])) as Ho1.
  set (s1 := left (after (entered s) x1)) in Ho1.
  destruct (sys_lseek_spec (entered s1) L bl t fd p (moved f count) i sb 0 (f_pos f) (fd_open_cpu _ _ _ _ _ _ _ _ _ _ _ Ho1))
    as (x2 & E2 & Hm2); [lia|lia|change (2 ^ 31) with 2147483648; lia|].
  destruct (moved_heap _ _ _ _ _ _ Hm2) as [Eh2 Ef2].
  assert (Hd2 : direct bl (sb_bd sb) i (f_pos (moved f count) + (f_pos f - f_pos (moved f count))) count).
  { by replace (f_pos (moved f count) + (f_pos f - f_pos (moved f count))) with (f_pos f) by lia. }
  assert (Ho1' : fd_open s1 L bl t fd p (moved f count) i sb (f_pos f - f_pos (moved f count))).
  { destruct Ho1 as [? ? ? ? [? ? ? ? _] ?]. split; try done. split; try done. cbn [moved f_pos]. split_and!; [lia|lia|intros; lia]. }
  pose proof (fd_open_called _ _ _ _ _ _ _ _ _ _ _ _ count Ho1' Hm2
    (fo_cache _ _ _ _ _ _ _ _ _ _ (fd_open_cpu enable_irq _ _ _ _ _ _ _ _ _ _ Ho1)) Hd2) as Ho2.
  set (s2 := left (after (entered s1) x2)) in Ho2.
  exists n0. intros fuel Hfu.
  destruct (sys_read_spec (entered s2) L bl t fd p _ i sb dst count fuel 0 Hst (fd_open_cpu _ _ _ _ _ _ _ _ _ _ _ Ho2) Hdst)
    as (c3 & x3 & E3 & Hm3 & Hck3 & _ & Hb3); [lia|intros x Hx; apply Hbuf; by right| |lia|].
  { change (room (cheap (fc x2)) 32). rewrite Eh2. change (room (cheap (fc x1)) 32). rewrite Eh1. exact Hr1. }
  exists s1, s2, (left (after (entered s2) x3)). split_and!.
  - apply svc_run; [done|]. cbn [syscall_table Z.eqb Pos.eqb]. rewrite Efd, Ec. by apply E1.
  - apply svc_run; [done|]. cbn [syscall_table Z.eqb Pos.eqb]. rewrite Efd, Ep. exact E2.
  - apply svc_run; [done|]. cbn [syscall_table Z.eqb Pos.eqb]. rewrite Efd, Ec. exact E3.
  - intros j Hj. destruct (moved_heap _ _ _ _ _ _ Hm3) as [Eh3 _].
    change (ldb (hmem (cheap (fc x3))) (dst + j) = ldb (kram (ks s)) (src + j)). rewrite Eh3.
    change (hmem (cheap c3)) with (cmem c3). rewrite Hb3 by done.
    change (chip (fc (fs (entered s2)))) with (chip (fc x2)). rewrite Ef2.
    change (chip (fc (view t (entered s1)))) with (chip (fc x1)). rewrite Ef1. cbn [moved f_pos].
    replace (f_pos f + count + (f_pos f - (f_pos f + count)) + j) with (f_pos f + j) by lia. by apply Hb1.
Qed.

(** The arguments a call must refuse: a descriptor that is not one of the 32, a
    buffer at 0, a negative length; for execv, a path at 0. *)
Definition refused (nr x0 x1 x2 : Z) : Prop :=
  (5 <= nr <= 7 /\ (s32 x0 < 0 \/ 32 <= s32 x0)) \/
  (5 <= nr <= 6 /\ (x1 = 0 \/ s32 x2 < 0)) \/
  (nr = 8 /\ x0 = 0).

Lemma bad_fd_true fd : fd < 0 \/ 32 <= fd -> bad_fd fd = true.
Proof. unfold bad_fd. change NR_OPEN with 32. intros Hfd. zcases; done || lia. Qed.

Lemma bad_rw_true fd buf count : fd < 0 \/ 32 <= fd \/ buf = 0 \/ count < 0 -> bad_rw fd buf count = true.
Proof.
  unfold bad_rw, bad_fd. change NR_OPEN with 32. change NULL with 0. intros Hb. zcases; done || lia.
Qed.

Lemma bad_rw_false fd buf count : ~ (fd < 0 \/ 32 <= fd \/ buf = 0 \/ count < 0) -> bad_rw fd buf count = false.
Proof.
  unfold bad_rw, bad_fd. change NR_OPEN with 32. change NULL with 0. intros Hb. zcases; done || lia.
Qed.

Definition svc := el0_svc bh_head stale_inode file_base fmt_s local ret_from_fork switch_ret.

(** C28: The error behaviour of the calls on files: a descriptor below 0 or above 31, a
    buffer at 0 and a negative length (read, write, seek), a path at 0 (execv),
    and a closed descriptor return -1 and leave the kernel as it was but for the
    interrupt mask, which the entry clears and the exit sets; a number past the
    table never returns, and reading or writing with a count of zero does not
    touch the file. *)
Theorem svc_errors fuel nr x0 x1 x2 s :
  let call := svc fuel nr x0 x1 x2 s in
  let unchanged := left (entered s) in
  (9 <= nr -> call = Some Halted) /\
  (refused nr x0 x1 x2 -> call = Some (Returned (-1) unchanged)) /\
  (forall t, tasks (ks s) !! current (ks s) = Some t -> arr_get (filp t) (s32 x0) = Some NULL -> 5 <= nr <= 7 ->
     call = Some (Returned (-1) unchanged)) /\
  (forall t p, tasks (ks s) !! current (ks s) = Some t -> arr_get (filp t) (s32 x0) = Some p -> p <> NULL ->
     5 <= nr <= 6 -> ~ refused nr x0 x1 x2 -> s32 x2 = 0 ->
     exists s', call = Some (Returned 0 s') /\ kh (ks s') = kh (ks unchanged) /\ file_tbl (fs s') = file_tbl (fs s) /\
       tasks (ks s') = tasks (ks s)).
Proof.
  intros call unchanged. unfold call, unchanged, svc. split_and!.
  - intros Hn. unfold el0_svc. by destruct (Z.leb_spec SYSCALL_NR nr); [|unfold SYSCALL_NR in *; lia].
  - intros Hr. apply svc_run; [unfold refused, SYSCALL_NR in *; lia|].
    assert (nr = 5 \/ nr = 6 \/ nr = 7 \/ nr = 8) as [->|[->|[->| ->]]] by (unfold refused in Hr; lia); cbn [syscall_table Z.eqb Pos.eqb].
    + unfold sys_read. by rewrite bad_rw_true by (unfold refused in Hr; lia).
    + unfold sys_write. by rewrite bad_rw_true by (unfold refused in Hr; lia).
    + unfold sys_lseek. by rewrite bad_fd_true by (unfold refused in Hr; lia).
    + assert (x0 = 0) as -> by (unfold refused in Hr; lia). done.
  - intros t Ht Hfd Hn. apply svc_run; [unfold SYSCALL_NR; lia|].
    assert (E : cur_fd (s32 x0) (entered s) = Some NULL) by (unfold cur_fd; change (current (ks (entered s))) with (current (ks s)); cbn; by rewrite Ht).
    assert (nr = 5 \/ nr = 6 \/ nr = 7) as [->|[->| ->]] by lia; cbn [syscall_table Z.eqb Pos.eqb].
    + unfold sys_read. rewrite E. by destruct (bad_rw _ _ _).
    + unfold sys_write. rewrite E. by destruct (bad_rw _ _ _).
    + unfold sys_lseek. rewrite E. by destruct (bad_fd _).
  - intros t p Ht Hfd Hp Hn Hr Hz. apply Z.eqb_neq in Hp.
    assert (E : cur_fd (s32 x0) (entered s) = Some p) by (unfold cur_fd; change (current (ks (entered s))) with (current (ks s)); cbn; by rewrite Ht).
    exists (left (after (entered s) (view t (entered s)))).
    split; [|done]. apply svc_run; [unfold SYSCALL_NR; lia|].
    assert (nr = 5 \/ nr = 6) as [->| ->] by lia; cbn [syscall_table Z.eqb Pos.eqb]; unfold sys_read, sys_write;
      rewrite bad_rw_false by (unfold refused in Hr; lia); rewrite E, bind_Some, Hp; apply (on_fs_run _ _ t); try done;
      unfold file_read, file_write; by rewrite Hz.
Qed.
End Calls.

(** ** Concrete runs *)

(** The initial task, with descriptor 3 open on a file. *)
Definition task_open : task_struct :=
  with_filp (<[3%nat := file_ptr 4096 2]> (replicate 32 NULL)) (with_canary CANARY_MAGIC_NUM zero_task).
Definition system0 : system board_flash :=
  {| ks := set_tasks {[ init0 := task_open ]} ksys0; fs := fsys_open; con := [] |}.

Lemma system0_open : fd_open bh_head0 4096 system0 ∅ [] task_open 3 (file_ptr 4096 2)
  {| f_inode := 700; f_count := 1; f_flags := 0; f_pos := 10 |} file0 {| s_op := MinixSops; sb_bd := 400; s_fs_info := 600 |} 100.
Proof.
  split; [apply lookup_singleton_eq|reflexivity|done|done| |exact cache_boot_ok].
  split; [reflexivity|apply lookup_singleton_eq|reflexivity|apply lookup_singleton_eq|].
  split_and!; [done|done|]. intros k Hk. cbn [f_pos] in Hk. rewrite (Z.div_small k 1024) by lia.
  split_and!; [reflexivity|split; reflexivity || discriminate|constructor].
Qed.

Example write_seek_read_witness :
  exists n0, forall fuel, (n0 < fuel)%nat -> exists s1 s2 s3,
    svc bh_head0 (fun _ => file0) 4096 0 0 1 2 fuel 6 3 8192 100 system0 = Some (Returned 100 s1) /\
    svc bh_head0 (fun _ => file0) 4096 0 0 1 2 fuel 7 3 10 SEEK_SET s1 = Some (Returned 10 s2) /\
    svc bh_head0 (fun _ => file0) 4096 0 0 1 2 fuel 5 3 9000 100 s2 = Some (Returned 100 s3) /\
    ldb (kram (ks s3)) 9099 = ldb (kram (ks system0)) 8291.
Proof.
  destruct (write_seek_read bh_head0 (fun _ => file0) 4096 0 0 1 2 system0 ∅ [] task_open 3 (file_ptr 4096 2)
    {| f_inode := 700; f_count := 1; f_flags := 0; f_pos := 10 |} file0 {| s_op := MinixSops; sb_bd := 400; s_fs_info := 600 |}
    8192 9000 100 head_static0 system0_open file0_distinct) as [n0 H]; [discriminate|discriminate|discriminate|lia| | |].
  - exact (room_boot 64 ltac:(lia)).
  - intros x Hx. apply user_storable. change (2 ^ 30) with 1073741824. lia.
  - exists n0. intros fuel Hf. destruct (H fuel Hf) as (s1 & s2 & s3 & E1 & E2 & E3 & Hb).
    exists s1, s2, s3. split; [exact E1|]. split; [exact E2|]. split; [exact E3|]. exact (Hb 99 ltac:(lia)).
Defined.

Example svc_errors_witness :
  svc bh_head0 (fun _ => file0) 4096 0 0 1 2 9 5 40 8192 100 system0 = Some (Returned (-1) (left (entered system0))) /\
  svc bh_head0 (fun _ => file0) 4096 0 0 1 2 9 6 4 8192 100 system0 = Some (Returned (-1) (left (entered system0))).
Proof.
  split.
  - destruct (svc_errors bh_head0 (fun _ => file0) 4096 0 0 1 2 9 5 40 8192 100 system0) as (_ & H & _). apply H. left. split; [lia|]. right. discriminate.
  - destruct (svc_errors bh_head0 (fun _ => file0) 4096 0 0 1 2 9 6 4 8192 100 system0) as (_ & _ & H & _).
    exact (H task_open (lookup_singleton_eq _ _) eq_refl ltac:(lia)).
Defined.
