(* ===== verification/Vector.v ===== *)
(** arch/vector.S: the vector table, the frames of exceptions and the entry of
    system calls with the registers of the caller.

    [kernel_entry] stores the registers in a frame on the kernel stack, of the
    layout of [struct pt_regs]; [kernel_exit] loads them and returns from the
    exception.  The memory is that of the kernel stack.  C code between the two is
    any code that follows the calling convention. *)

From S2P Require Import Prelude Mem PageTable Aarch64 Kmalloc Gic Buffer Task Timer Process Minix Syscall.
Local Open Scope Z_scope.

Definition FRAME_SZ : Z := 17 * 16.
Definition X0_OFFSET : Z := FRAME_SZ.

(** x0 to x30, the stack pointer of the current level, and the registers an
    exception uses. *)
Record regs := { gpr : list Z; SP : Z; SP_EL0 : Z; ELR_EL1 : Z; SPSR : Z }.

Definition reg (r : regs) (i : nat) : Z := default 0 (gpr r !! i).
Definition set_reg (i : nat) (v : Z) (r : regs) : regs :=
  {| gpr := <[i := v]> (gpr r); SP := SP r; SP_EL0 := SP_EL0 r; ELR_EL1 := ELR_EL1 r; SPSR := SPSR r |}.
Definition set_SP (v : Z) (r : regs) : regs :=
  {| gpr := gpr r; SP := v; SP_EL0 := SP_EL0 r; ELR_EL1 := ELR_EL1 r; SPSR := SPSR r |}.

(** [stp x, y, [a]]. *)
Definition stp (x y a : Z) (m : mem) : mem := st64 (st64 m a x) (a + 8) y.

(** The first [n] pairs: [stp x0, x1, [sp, #16 * 0]] and so on. *)
Definition store_pairs (n : nat) (r : regs) (m : mem) : mem :=
  fold_left (fun m k => stp (reg r (2 * k)) (reg r (2 * k + 1)) (SP r + 16 * Z.of_nat k) m) (seq 0 n) m.

Definition kernel_entry (el : Z) (r : regs) (m : mem) : regs * mem :=
  let r := set_SP (SP r - FRAME_SZ) r in
  let m := store_pairs 15 r m in
  let r := set_reg 21 (if el =? 0 then SP_EL0 r else SP r + FRAME_SZ) r in
  let r := set_reg 22 (ELR_EL1 r) r in
  let r := set_reg 23 (SPSR r) r in
  let m := stp (reg r 30) (reg r 21) (SP r + 16 * 15) m in
  (r, stp (reg r 22) (reg r 23) (SP r + 16 * 16) m).

(** The state behind the [eret]: [ELR_EL1] is the program counter, [SPSR] the
    processor state. *)
Definition kernel_exit (el : Z) (r : regs) (m : mem) : regs :=
  let x22 := ld64 m (SP r + 16 * 16) in
  let x23 := ld64 m (SP r + 16 * 16 + 8) in
  let x30 := ld64 m (SP r + 16 * 15) in
  let x21 := ld64 m (SP r + 16 * 15 + 8) in
  {| gpr := map (fun i => ld64 m (SP r + 8 * Z.of_nat i)) (seq 0 30) ++ [x30];
     SP := SP r + FRAME_SZ;
     SP_EL0 := if el =? 0 then x21 else SP_EL0 r;
     ELR_EL1 := x22; SPSR := x23 |}.

(** What an exception leads to: its number, address, class and syndrome are
    printed and the CPU hangs; a return from it; or another task holds the CPU
    and the return waits until this one is resumed. *)
Inductive taken (S : Type) := Hangs (no lr ec iss : Z) | Eret (r : regs) (m : mem) (s : S) | Switched (s : S).
#[global] Arguments Hangs {S}.
#[global] Arguments Eret {S}.
#[global] Arguments Switched {S}.

(** [put_exception(no, lr, esr)]; [exception_handler_entry] passes ELR and ESR. *)
Definition put_exception {S : Type} (no lr esr : Z) : taken S := Hangs no lr (exception_class (u32 esr)) (exception_iss (u32 esr)).
Definition exception_handler_entry {S : Type} (num esr : Z) (r : regs) : taken S := put_exception num (ELR_EL1 r) esr.

(** The sixteen entries of [vector_table_el1] in order. *)
Inductive handler := Unexpected (num : Z) | El1Irq | El0Sync | El0Irq.
Definition vector_table_el1 : list handler :=
  [Unexpected 0; Unexpected 1; Unexpected 2; Unexpected 3;
   Unexpected 4; El1Irq; Unexpected 6; Unexpected 7;
   El0Sync; El0Irq; Unexpected 10; Unexpected 11;
   Unexpected 12; Unexpected 13; Unexpected 14; Unexpected 15].

(** Compiled C code: what a call leaves of the registers and the stack, and the
    register an [int] is returned in. *)
Class CallAbi := {
  c_code : regs -> mem -> regs * mem;
  ret_reg : Z -> Z;
  abi_sp : forall r m, SP (c_code r m).1 = SP r;
  abi_stack : forall r m b, SP r <= b < SP r + FRAME_SZ -> ldb (c_code r m).2 b = ldb m b;
  abi_ret : forall v, 0 <= ret_reg v < 2 ^ 64 /\ s32 (ret_reg v) = s32 v }.

Section Handlers.
Context `{CallAbi}.

(** [_curr_el_spx_irq] and [_lower_el_aarch64_irq]. *)
Definition irq_entry {G : Type} `{GicDevice G} (ret_from_fork switch_ret el : Z) (r : regs) (m : mem) (s : machine G) : option (taken (machine G)) :=
  let '(r, m) := kernel_entry el r m in
  let! s' := irq_dispatch ret_from_fork switch_ret s in
  if current (sys s') =? current (sys s) then
    let '(r, m) := c_code r m in Some (Eret (kernel_exit el r m) m s')
  else Some (Switched s').

(** [_lower_el_aarch64_sync] and [el0_svc]: [x8] is the number of the call, the
    frame's x0 its result. *)
Definition lower_el_aarch64_sync {F : Type} `{FlashDevice F} (bh_head : Z) (stale_inode : Z -> inode)
    (file_base fmt_s local ret_from_fork switch_ret : Z) (fuel : nat) (esr : Z) (r : regs) (m : mem) (s : system F) : option (taken (system F)) :=
  let '(r, m) := kernel_entry 0 r m in
  let! o := lower_el_sync bh_head stale_inode file_base fmt_s local ret_from_fork switch_ret fuel esr (reg r 8) (reg r 0) (reg r 1) (reg r 2) s in
  match o with
  | Halted => Some (exception_handler_entry 8 esr r)
  | Returned ret s' =>
      if current (ks s') =? current (ks s) then
        let '(r, m) := c_code r m in
        let m := st64 m (SP r + FRAME_SZ - X0_OFFSET) (ret_reg ret) in
        Some (Eret (kernel_exit 0 r m) m s')
      else Some (Switched s')
  end.
End Handlers.

(** ** Frames *)

(** Machine words everywhere, and room for a frame below the stack pointer. *)
Record regs_ok (r : regs) : Prop := {
  ro_gpr : length (gpr r) = 31%nat /\ Forall word (gpr r);
  ro_user : word (SP_EL0 r) /\ word (ELR_EL1 r) /\ word (SPSR r);
  ro_sp : FRAME_SZ <= SP r < 2 ^ 64 }.

(** A frame as the [struct pt_regs] it is. *)
Definition ld64_words (m : mem) (a : Z) (n : nat) : list Z := map (fun i => ld64 m (a + 8 * Z.of_nat i)) (seq 0 n).
Definition pt_words (p : pt_regs) : list Z := pt_x p ++ [pt_sp p; pt_pc p; pt_spsr p].

(** The words of the frame. *)
Definition frame_words (el : Z) (r : regs) : list Z :=
  gpr r ++ [if el =? 0 then SP_EL0 r else SP r; ELR_EL1 r; SPSR r].

Section Frames.
Implicit Types (el a b : Z) (r : regs) (m : mem).

Lemma store_words_app l l' a m : store_words a (l ++ l') m = store_words (a + 8 * Z.of_nat (length l)) l' (store_words a l m).
Proof.
  revert a m. induction l as [|x l IH]; intros a m; cbn [app store_words length]; [f_equal; lia|]. rewrite IH. f_equal. lia.
Qed.

Lemma store_pairs_words n r m :
  (2 * n <= length (gpr r))%nat -> store_pairs n r m = store_words (SP r) (take (2 * n) (gpr r)) m.
Proof.
  unfold store_pairs. induction n as [|n IH]; intros Hn; [done|].
  rewrite seq_S, fold_left_app, IH by lia. cbn [fold_left Nat.add].
  replace (2 * S n)%nat with (S (S (2 * n))) by lia. unfold reg.
  destruct (lookup_lt_is_Some_2 (gpr r) (2 * n)) as [x Hx]; [lia|]. destruct (lookup_lt_is_Some_2 (gpr r) (S (2 * n))) as [y Hy]; [lia|].
  rewrite (take_S_r _ _ _ Hy), (take_S_r _ _ _ Hx), <- app_assoc, store_words_app. cbn [app store_words].
  replace (2 * n + 1)%nat with (S (2 * n)) by lia. rewrite Hx, Hy. cbn [default]. unfold stp.
  rewrite length_take_le by lia. f_equal; [f_equal; lia|lia].
Qed.

Lemma reg_set i j v r : (i < length (gpr r))%nat -> reg (set_reg i v r) j = if decide (j = i) then v else reg r j.
Proof.
  intros Hi. unfold reg. cbn [gpr set_reg]. case_decide as Hd; [subst; by rewrite list_lookup_insert_eq|by rewrite list_lookup_insert_ne].
Qed.

(** The frame [kernel_entry] leaves on the stack; x0 to x18 are still there. *)
Lemma kernel_entry_spec el r m : length (gpr r) = 31%nat ->
  (kernel_entry el r m).2 = store_words (SP r - FRAME_SZ) (frame_words el r) m /\
  SP (kernel_entry el r m).1 = SP r - FRAME_SZ /\ ELR_EL1 (kernel_entry el r m).1 = ELR_EL1 r /\
  forall j, (j < 21)%nat -> reg (kernel_entry el r m).1 j = reg r j.
Proof.
  intros Hl. unfold kernel_entry. cbn [fst snd SP SP_EL0 ELR_EL1 SPSR set_reg set_SP]. split; [|split; [done|split; [done|]]].
  2: { intros j Hj. rewrite !reg_set by (cbn [gpr set_reg set_SP]; rewrite ?length_insert, Hl; lia). rewrite !decide_False by lia. done. }
  rewrite !reg_set by (cbn [gpr set_reg set_SP]; rewrite ?length_insert, Hl; lia).
  repeat first [rewrite decide_False by lia|rewrite decide_True by lia].
  rewrite store_pairs_words by (cbn [gpr set_SP]; lia). cbn [gpr set_SP SP].
  unfold frame_words. destruct (lookup_lt_is_Some_2 (gpr r) 30) as [x Hx]; [lia|].
  rewrite <- (take_drop_middle (gpr r) 30 x Hx) at 2. rewrite (drop_ge (gpr r)) by lia. rewrite <- app_assoc, store_words_app.
  rewrite length_take_le by lia. change (2 * 15)%nat with 30%nat. cbn [app store_words].
  replace (reg (set_SP (SP r - FRAME_SZ) r) 30) with x by (unfold reg; cbn [gpr set_SP]; by rewrite Hx).
  unfold stp. set (a := SP r - FRAME_SZ). replace (a + FRAME_SZ) with (SP r) by (unfold a; lia).
  change (8 * Z.of_nat 30) with 240. change (16 * 15) with 240. change (16 * 16) with 256.
  replace (a + 240 + 8 + 8 + 8) with (a + 256 + 8) by lia. replace (a + 240 + 8 + 8) with (a + 256) by lia. done.
Qed.

(** Loading the words of a frame. *)
Lemma kernel_exit_words el r m l x30 x21 x22 x23 : length l = 30%nat ->
  (forall i x, (l ++ [x30; x21; x22; x23]) !! i = Some x -> ld64 m (SP r + 8 * Z.of_nat i) = x) ->
  kernel_exit el r m = {| gpr := l ++ [x30]; SP := SP r + FRAME_SZ; SP_EL0 := if el =? 0 then x21 else SP_EL0 r; ELR_EL1 := x22; SPSR := x23 |}.
Proof.
  intros Hl Hw. unfold kernel_exit.
  assert (Hi : forall k x, [x30; x21; x22; x23] !! k = Some x -> ld64 m (SP r + 8 * Z.of_nat (30 + k)) = x).
  { intros k x Hk. apply Hw. rewrite lookup_app_r by lia. by replace (30 + k - length l)%nat with k by lia. }
  pose proof (Hi 0%nat x30 eq_refl) as W0. pose proof (Hi 1%nat x21 eq_refl) as W1. pose proof (Hi 2%nat x22 eq_refl) as W2. pose proof (Hi 3%nat x23 eq_refl) as W3.
  change (16 * 15) with 240. change (16 * 16) with 256. 
  change (8 * Z.of_nat (30 + 0)) with 240 in W0. change (8 * Z.of_nat (30 + 1)) with 248 in W1.
  change (8 * Z.of_nat (30 + 2)) with 256 in W2. change (8 * Z.of_nat (30 + 3)) with 264 in W3.
  replace (SP r + 240 + 8) with (SP r + 248) by lia. replace (SP r + 256 + 8) with (SP r + 264) by lia.
  rewrite W0, W1, W2, W3. f_equal. f_equal. apply list_eq_same_length with (n := 30%nat); [done|by rewrite length_map, length_seq|].
  intros i x y Hlt Hx Hy. rewrite list_lookup_fmap, lookup_seq_lt in Hx by done. injection Hx as <-.
  cbn [Nat.add]. apply Hw. by rewrite lookup_app_l by lia.
Qed.

Lemma frame_words_split el r : length (gpr r) = 31%nat ->
  exists x30, gpr r = take 30 (gpr r) ++ [x30] /\
    frame_words el r = take 30 (gpr r) ++ [x30; if el =? 0 then SP_EL0 r else SP r; ELR_EL1 r; SPSR r].
Proof.
  intros Hl. destruct (lookup_lt_is_Some_2 (gpr r) 30) as [x Hx]; [lia|]. exists x.
  assert (E : gpr r = take 30 (gpr r) ++ [x]).
  { rewrite <- (take_drop_middle (gpr r) 30 x Hx) at 1. by rewrite (drop_ge (gpr r)) by lia. }
  split; [exact E|]. unfold frame_words. rewrite E at 1. by rewrite <- app_assoc.
Qed.

Lemma frame_words_ok el r : regs_ok r -> Forall word (frame_words el r).
Proof.
  intros [[_ Hg] (H1 & H2 & H3) Hsp]. unfold frame_words. apply Forall_app. split; [done|].
  change FRAME_SZ with 272 in Hsp. change (2 ^ 64) with 18446744073709551616 in Hsp.
  apply Forall_cons. split; [destruct (el =? 0); [done|unfold word; lia]|].
  apply Forall_cons. split; [done|]. apply Forall_cons. split; [done|]. by apply Forall_nil.
Qed.

Lemma length_frame_words el r : length (gpr r) = 31%nat -> length (frame_words el r) = 34%nat.
Proof. intros Hl. unfold frame_words. rewrite length_app, Hl. done. Qed.

(** A memory that still holds the frame. *)
Lemma frame_kept el r m m2 i x : regs_ok r ->
  (forall b, SP r - FRAME_SZ <= b < SP r -> ldb m2 b = ldb (kernel_entry el r m).2 b) ->
  frame_words el r !! i = Some x -> ld64 m2 (SP r - FRAME_SZ + 8 * Z.of_nat i) = x.
Proof.
  intros Hr Hm Hi. destruct (ro_gpr r Hr) as [Hl _]. destruct (kernel_entry_spec el r m Hl) as (E & _). rewrite E in Hm.
  pose proof (lookup_lt_Some _ _ _ Hi) as Hlt. rewrite length_frame_words in Hlt by done.
  rewrite (ld_agree 8 (store_words (SP r - FRAME_SZ) (frame_words el r) m)).
  - apply (ld64_store_words _ _ _ _ _ Hi). exact (Forall_lookup_1 _ _ _ _ (frame_words_ok el r Hr) Hi).
  - intros b Hb. apply Hm. change FRAME_SZ with 272 in *. lia.
Qed.
Lemma entry_exit (el : Z) (r : regs) (m : mem) (r2 : regs) (m2 : mem) :
  regs_ok r -> SP r2 = SP (kernel_entry el r m).1 ->
  (forall b, SP r - FRAME_SZ <= b < SP r -> ldb m2 b = ldb (kernel_entry el r m).2 b) ->
  kernel_exit el r2 m2 = {| gpr := gpr r; SP := SP r; SP_EL0 := if el =? 0 then SP_EL0 r else SP_EL0 r2; ELR_EL1 := ELR_EL1 r; SPSR := SPSR r |}.
Proof.
  intros Hr Hsp Hm. destruct (ro_gpr r Hr) as [Hl _]. destruct (kernel_entry_spec el r m Hl) as (_ & Es & _). rewrite Es in Hsp.
  destruct (frame_words_split el r Hl) as (x30 & Eg & Ef).
  rewrite (kernel_exit_words el r2 m2 (take 30 (gpr r)) x30 (if el =? 0 then SP_EL0 r else SP r) (ELR_EL1 r) (SPSR r)).
  - rewrite <- Eg, Hsp. f_equal; [lia|by destruct (el =? 0)].
  - rewrite length_take_le; lia.
  - intros i x Hi. rewrite Hsp. apply (frame_kept el r m); [done|done|]. by rewrite Ef.
Qed.

End Frames.

(** ** Properties *)

(** C19: Interrupted code does not notice: [kernel_entry] writes its frame and nothing
    else, from EL0 a [struct pt_regs]; and whatever happens before [kernel_exit]
    (other registers, nested frames and calls below, the CPU given to other
    tasks), when the stack pointer is back and the frame is intact the exit
    restores all general registers, the stack pointer, the address and the state
    to return to, and for code of EL0 its stack pointer. *)
Theorem kernel_entry_exit (el : Z) (r : regs) (m : mem) :
  regs_ok r ->
  (el = 0 -> ld64_words (kernel_entry el r m).2 (SP r - sizeof_pt_regs) 34 = pt_words {| pt_x := gpr r; pt_sp := SP_EL0 r; pt_pc := ELR_EL1 r; pt_spsr := SPSR r |}) /\
  (forall b, b < SP r - FRAME_SZ \/ SP r <= b -> ldb (kernel_entry el r m).2 b = ldb m b) /\
  forall r2 m2, SP r2 = SP (kernel_entry el r m).1 ->
  (forall b, SP r - FRAME_SZ <= b < SP r -> ldb m2 b = ldb (kernel_entry el r m).2 b) ->
  kernel_exit el r2 m2 = {| gpr := gpr r; SP := SP r; SP_EL0 := if el =? 0 then SP_EL0 r else SP_EL0 r2; ELR_EL1 := ELR_EL1 r; SPSR := SPSR r |}.
Proof.
  intros Hr. destruct (ro_gpr r Hr) as [Hl _]. destruct (kernel_entry_spec el r m Hl) as (E & Es & _). split; [|split].
  - intros ->. apply list_eq_same_length with (n := 34%nat); [exact (length_frame_words 0 r Hl)|unfold ld64_words; by rewrite length_map, length_seq|].
    intros i x y Hi Hx Hy. unfold ld64_words in Hx. rewrite list_lookup_fmap, lookup_seq_lt in Hx by done. injection Hx as <-.
    apply (frame_kept 0 r m); [done|done|exact Hy].
  - intros b Hb. rewrite E. apply ldb_store_words. rewrite length_frame_words by done. change FRAME_SZ with 272 in *. lia.
  - intros r2 m2. by apply entry_exit.
Qed.

(** An interrupt that does not switch tasks leaves the interrupted code as it was. *)
Theorem irq_registers `{CallAbi} {G : Type} `{GicDevice G} (ret_from_fork switch_ret el : Z) (r : regs) (m : mem) (s s' : machine G) :
  regs_ok r -> irq_dispatch ret_from_fork switch_ret s = Some s' -> current (sys s') = current (sys s) ->
  exists r' m', irq_entry ret_from_fork switch_ret el r m s = Some (Eret r' m' s') /\
    gpr r' = gpr r /\ SP r' = SP r /\ ELR_EL1 r' = ELR_EL1 r /\ SPSR r' = SPSR r /\ (el = 0 -> SP_EL0 r' = SP_EL0 r).
Proof.
  intros Hr E Hc. destruct (ro_gpr r Hr) as [Hl _]. destruct (kernel_entry_spec el r m Hl) as (_ & Es & _).
  unfold irq_entry. pose proof (entry_exit el r m) as Hx. destruct (kernel_entry el r m) as [r1 m1]. cbn [fst snd] in *.
  rewrite E, bind_Some, Hc, Z.eqb_refl.
  pose proof (abi_sp r1 m1) as Hsp. pose proof (abi_stack r1 m1) as Hst. destruct (c_code r1 m1) as [r2 m2]. cbn [fst snd] in Hsp, Hst.
  eexists _, m2. split; [reflexivity|]. rewrite (Hx r2 m2); [|done|done|].
  - cbn [gpr SP SP_EL0 ELR_EL1 SPSR]. do 4 (split; [done|]). by intros ->.
  - rewrite Es in Hst. change FRAME_SZ with 272 in *. intros b Hb. apply Hst. lia.
Qed.

(** The class of an exception, bits 26 to 31 of the syndrome. *)
Lemma svc_class esr : Z.land esr (Z.shiftl 0x3f 26) = Z.shiftl (Z.land (Z.shiftr esr 26) 0x3f) 26.
Proof.
  apply Z.bits_inj'. intros i Hi. rewrite Z.land_spec, !Z.shiftl_spec by done.
  destruct (Z.leb_spec 26 i).
  - rewrite Z.land_spec, Z.shiftr_spec by lia. by replace (i - 26 + 26) with i by lia.
  - by rewrite !(Z.testbit_neg_r _ (i - 26)), andb_false_r by lia.
Qed.

Lemma svc_class_eqb esr : (Z.land esr (Z.shiftl 0x3f 26) =? ESR_EC_SVC) = (Z.land (Z.shiftr esr 26) 0x3f =? 0x15).
Proof.
  unfold ESR_EC_SVC. rewrite svc_class, !Z.shiftl_mul_pow2 by lia. change (2 ^ 26) with 67108864. zcases; done || lia.
Qed.

(** C9: An exception from a process.  When its class (bits 26 to 31 of [esr]) is not
    0x15, an [svc], or [x8] is 9 or more, the kernel prints the exception and
    hangs.  Otherwise the function [x8] of the table runs with the arguments [x0]
    to [x2], on the kernel with interrupts on, and when it returns to the same
    task the process goes on behind its [svc] with the result in x0, every other
    register, its stack pointer and its flags as before, and with the kernel the
    function left, interrupts off again. *)
Theorem svc_registers `{CallAbi} {F : Type} `{FlashDevice F} (bh_head : Z) (stale_inode : Z -> inode)
    (file_base fmt_s local ret_from_fork switch_ret : Z) (fuel : nat) (esr : Z) (r : regs) (m : mem) (s : system F) :
  regs_ok r ->
  let entry := lower_el_aarch64_sync bh_head stale_inode file_base fmt_s local ret_from_fork switch_ret fuel esr r m s in
  let class := Z.land (Z.shiftr esr 26) 0x3f in
  let nr := reg r 8 in
  (class <> 0x15 \/ 9 <= nr -> entry = Some (Hangs 8 (ELR_EL1 r) (exception_class (u32 esr)) (exception_iss (u32 esr)))) /\
  (class = 0x15 -> nr < 9 -> forall ret s',
    syscall_table bh_head stale_inode file_base fmt_s local ret_from_fork switch_ret fuel nr (reg r 0) (reg r 1) (reg r 2)
      (set_ks (on_cpu enable_irq (ks s)) s) = Some (ret, s') ->
    current (ks s') = current (ks s) ->
    exists r' m', entry = Some (Eret r' m' (set_ks (on_cpu disable_irq (ks s')) s')) /\
      s32 (reg r' 0) = s32 ret /\ (forall i, (0 < i)%nat -> reg r' i = reg r i) /\
      length (gpr r') = 31%nat /\ SP r' = SP r /\ SP_EL0 r' = SP_EL0 r /\ ELR_EL1 r' = ELR_EL1 r /\ SPSR r' = SPSR r).
Proof.
  intros Hr. cbn zeta. destruct (ro_gpr r Hr) as [Hl _]. destruct (kernel_entry_spec 0 r m Hl) as (_ & Es & Eelr & Ereg).
  unfold lower_el_aarch64_sync. pose proof (frame_kept 0 r m) as Hkept. destruct (kernel_entry 0 r m) as [r1 m1]. cbn [fst snd] in *.
  rewrite !Ereg by lia. unfold lower_el_sync, el0_svc, SYSCALL_NR. rewrite svc_class_eqb. split.
  - intros Hbad. destruct (Z.eqb_spec (Z.land (Z.shiftr esr 26) 0x3f) 0x15), (Z.leb_spec 9 (reg r 8)); try lia;
      cbn [mbind option_bind]; unfold exception_handler_entry, put_exception; by rewrite Eelr.
  - intros -> Hnr ret s' E Hcur. change (21 =? 21) with true. cbn iota. destruct (Z.leb_spec 9 (reg r 8)); [lia|]. cbv zeta. rewrite E. cbn [mbind option_bind].
    change (current (ks (set_ks (on_cpu disable_irq (ks s')) s'))) with (current (ks s')).
    rewrite Hcur, Z.eqb_refl.
    pose proof (abi_sp r1 m1) as Hsp. pose proof (abi_stack r1 m1) as Hst. destruct (c_code r1 m1) as [r2 m2]. cbn [fst snd] in Hsp, Hst.
    rewrite Es in Hsp, Hst. destruct (abi_ret ret) as [Hw Hs32].
    destruct (frame_words_split 0 r Hl) as (x30 & Eg & Ef). change (0 =? 0) with true in Ef. cbn iota in Ef.
    destruct (gpr r) as [|x0 g] eqn:E0; [done|]. cbn [take app] in Eg, Ef. injection Eg as Eg.
    eexists _, _. split; [reflexivity|].
    rewrite (kernel_exit_words 0 r2 _ (ret_reg ret :: take 29 g) x30 (SP_EL0 r) (ELR_EL1 r) (SPSR r)).
    + unfold reg. cbn [gpr SP SP_EL0 ELR_EL1 SPSR app lookup list_lookup default]. change (0 =? 0) with true. rewrite Hsp, E0.
      split; [exact Hs32|]. split; [|split; [|split; [lia|done]]].
      * intros [|i] Hi; [lia|]. cbn. by rewrite <- Eg.
      * cbn [length] in *. rewrite <- Eg. done.
    + cbn [length] in *. rewrite length_take_le; lia.
    + intros i x Hi. rewrite Hsp. change X0_OFFSET with FRAME_SZ. replace (SP r - FRAME_SZ + FRAME_SZ - FRAME_SZ) with (SP r - FRAME_SZ) by lia.
      destruct i as [|i]; cbn [app lookup list_lookup] in Hi.
      * injection Hi as <-. rewrite Z.add_0_r. by apply ld64_st64_eq.
      * rewrite (ld_st_ne 8 8) by lia. apply Hkept; [done| |rewrite Ef; exact Hi].
        intros b Hb. apply Hst. change FRAME_SZ with 272 in *. lia.
Qed.

(** ** Concrete runs *)

(** C code that clears what it may, and more, and uses the stack below. *)
#[export] Program Instance c_code0 : CallAbi := {|
  c_code r m := ({| gpr := replicate 31 0; SP := SP r; SP_EL0 := 0; ELR_EL1 := 0; SPSR := 0 |}, st64 m (SP r - 8) 1);
  ret_reg v := u64 v |}.
Next Obligation. intros r m. reflexivity. Qed.
Next Obligation. intros r m b Hb. cbn [snd]. apply (ldb_st_ne 8). lia. Qed.
Next Obligation. intros v. split; [apply wrap_range; lia|]. unfold swrap. change (2 ^ 32) with 4294967296. change (2 ^ (32 - 1)) with 2147483648. word_lia. Qed.

(** A process in [sys_read] with a descriptor out of range. *)
Definition regs0 : regs :=
  {| gpr := [40; 8192; 100; 3; 4; 5; 6; 7; 5] ++ map Z.of_nat (seq 9 22); SP := init0 + 4096; SP_EL0 := 0x40000000; ELR_EL1 := 0x100; SPSR := 0 |}.

Lemma regs0_ok : regs_ok regs0.
Proof.
  split; [split; [reflexivity|]| |split; vm_compute; [discriminate|reflexivity]].
  - repeat (apply Forall_cons; split; [split; [discriminate|reflexivity]|]). apply Forall_nil. exact I.
  - split; [|split]; split; discriminate || reflexivity.
Qed.

Example kernel_entry_exit_witness :
  kernel_exit 0 (set_SP (SP regs0 - 272) regs0) (st64 (kernel_entry 0 regs0 ∅).2 (SP regs0 - 280) 1) = regs0.
Proof.
  destruct (kernel_entry_exit 0 regs0 ∅ regs0_ok) as (_ & _ & H).
  rewrite (H (set_SP (SP regs0 - 272) regs0) (st64 (kernel_entry 0 regs0 ∅).2 (SP regs0 - 280) 1)); [reflexivity|reflexivity|].
  intros x Hx. apply (ldb_st_ne 8). change FRAME_SZ with 272 in Hx. lia.
Defined.

(** The same number with another class, and a number past the table. *)
Example svc_registers_witness :
  (exists r' m' s', lower_el_aarch64_sync bh_head0 (fun _ => file0) 4096 0 0 1 2 9 ESR_EC_SVC regs0 ∅ system0 = Some (Eret r' m' s') /\
    s32 (reg r' 0) = -1 /\ reg r' 19 = 19 /\ ELR_EL1 r' = 0x100) /\
  lower_el_aarch64_sync bh_head0 (fun _ => file0) 4096 0 0 1 2 9 (Z.shiftl 0x24 26) regs0 ∅ system0 = Some (Hangs 8 0x100 0x24 0).
Proof.
  split.
  - destruct (svc_registers bh_head0 (fun _ => file0) 4096 0 0 1 2 9 ESR_EC_SVC regs0 ∅ system0 regs0_ok) as [_ H].
    destruct (H eq_refl ltac:(reflexivity) (-1) (entered system0)) as (r' & m' & E & H0 & Hi & _ & _ & _ & He & _); [reflexivity|reflexivity|].
    exists r', m', (left (entered system0)). split; [exact E|]. split; [exact H0|]. split; [|exact He].
    rewrite Hi by lia. reflexivity.
  - destruct (svc_registers bh_head0 (fun _ => file0) 4096 0 0 1 2 9 (Z.shiftl 0x24 26) regs0 ∅ system0 regs0_ok) as [H _].
    rewrite H; [reflexivity|left; vm_compute; discriminate].
Defined.
