(* ===== verification/Debug.v ===== *)
(** The functions that print state: print_task_struct, print_task_queue
    (kernel/task.c), print_process_page (mm/mm.c), print_block (fs/minix_fs.c).

    A call of [printf] is a [dump] of its arguments; new lines are left out. *)

From S2P Require Import Prelude Mem DList Page PageTable Kmalloc Heap Buffer Task Process Minix.
Local Open Scope Z_scope.

Inductive dump :=
  | TaskRegs (regs : list Z) | TaskAddress (p : Z) | TaskCanary (x : Z) | QueueHas (n : Z)
  | UserPages | TablePages | PageAt (va pa : Z) | BlockWord (offset val : Z).

Section Dumps.
Implicit Types (s : ksys) (fuel : nat) (p : Z).

Definition dump_task p (t : task_struct) : list dump :=
  let c := context t in
  [TaskRegs [x19 c; x20 c; x21 c; x22 c; x23 c]; TaskRegs [x24 c; x25 c; x26 c; x27 c; x28 c]; TaskRegs [x29 c; sp c; pc c];
   TaskAddress p; TaskCanary (canary t)].

Definition print_task_struct p s : option (list dump) := let! t := tasks s !! p in Some (dump_task p t).

Definition print_task_queue fuel s : option (list dump) :=
  let! n := task_nums fuel s in
  let! r := print_task_struct (init_task s) s in
  let! l := list_for_each fuel (nodes s) (task_list (init_task s)) in
  let! rs := mapM (fun pos => print_task_struct (list_entry pos) s) l in
  Some (QueueHas n :: r ++ concat rs).

(** [mm] is a [struct mm_struct*]. *)
Definition print_process_page (mm : Z) (m : mem) : list dump :=
  if mm =? NULL then []
  else
    let d := load_mm m mm in
    UserPages :: map (fun v => PageAt (va v) (pa v)) (filter (fun v => pa v <> 0) (vma d)) ++
    TablePages :: map (fun p => PageAt p (__pa p)) (filter (fun p => p <> NULL) (pgtbl_page d)).

(** The 32-bit words of a buffer. *)
Definition print_block {A F : Type} `{HeapOps A} (bh : Z) (s : fsys A F) : option (list dump) :=
  let! d := bh_data s bh in
  Some (map (fun i => BlockWord (4 * Z.of_nat i) (ld 4 (fmem s) (d + 4 * Z.of_nat i))) (seq 0 256)).
End Dumps.

(** ** The queue is printed in ring order from the initial task *)

Section Queue.
Variables ret_from_fork switch_ret : Z.
Implicit Types (s : ksys) (cur : Z) (rest : list Z).
Abbreviation ring := (ring ret_from_fork switch_ret).

(** The ring, read from the initial task. *)
Lemma ring_from_init s cur rest :
  ring s cur rest -> exists l1 l2, cur :: rest = l1 ++ init_task s :: l2 /\
    dlist (nodes s) (task_list (init_task s)) (map task_list (l2 ++ l1)).
Proof.
  intros [Hl _ _ Hi]. apply elem_of_cons in Hi as [Hi|Hi].
  - exists [], rest. rewrite app_nil_r, Hi. done.
  - apply list_elem_of_split in Hi as (l1 & l2 & ->). exists (cur :: l1), l2. split; [done|].
    rewrite map_app in Hl |- *. cbn [map] in Hl |- *. by apply dlist_turn.
Qed.

Lemma print_tasks s l :
  Forall (fun p => is_Some (tasks s !! p)) l ->
  exists rs, mapM (fun pos => print_task_struct (list_entry pos) s) (map task_list l) = Some rs /\
    Forall2 (fun p r => exists t, tasks s !! p = Some t /\ r = dump_task p t) l rs.
Proof.
  induction l as [|p l IH]; intros Hl; [by exists []|]. apply Forall_cons in Hl as [[t Ht] Hl]. destruct (IH Hl) as (rs & E & Hrs).
  assert (Ep : print_task_struct (list_entry (task_list p)) s = Some (dump_task p t)).
  { unfold print_task_struct. replace (list_entry (task_list p)) with p by (unfold list_entry, task_list; lia). by rewrite Ht. }
  exists (dump_task p t :: rs). split; [|constructor; [by exists t|done]].
  cbn [map]. unfold mapM in *. rewrite Ep, bind_Some, E. done.
Qed.

(** [print_task_queue] prints the number of the tasks on the ring and then each
    of them once, in ring order, the initial task first. *)
Theorem print_task_queue_correct s cur rest fuel :
  ring s cur rest -> (length rest < fuel)%nat ->
  exists l1 l2 rs, cur :: rest = l1 ++ init_task s :: l2 /\
    print_task_queue fuel s = Some (QueueHas (Z.of_nat (length (cur :: rest))) :: concat rs) /\
    Forall2 (fun p r => exists t, tasks s !! p = Some t /\ r = dump_task p t) (init_task s :: l2 ++ l1) rs.
Proof.
  intros Hr Hf. destruct (ring_from_init s cur rest Hr) as (l1 & l2 & El & Hl).
  assert (Hlen : length rest = length (l2 ++ l1)).
  { apply (f_equal length) in El. rewrite length_app in *. cbn in El. lia. }
  assert (Hall : Forall (fun p => is_Some (tasks s !! p)) (init_task s :: l2 ++ l1)).
  { apply Forall_forall. intros p Hp. destruct (ring_task _ _ _ _ _ p Hr) as (_ & _ & (t & Ht & _) & _); [|by exists t].
    rewrite El, elem_of_app, elem_of_cons. rewrite elem_of_cons, elem_of_app in Hp. tauto. }
  apply Forall_cons in Hall as [[t0 Ht0] Hall]. destruct (print_tasks s _ Hall) as (rs & E & Hrs).
  exists l1, l2, (dump_task (init_task s) t0 :: rs). split; [done|]. split; [|constructor; [by exists t0|done]].
  assert (Hfe : list_for_each fuel (nodes s) (task_list (init_task s)) = Some (map task_list (l2 ++ l1)))
    by (apply dlist_for_each; [done|rewrite length_map; lia]).
  unfold print_task_queue, task_nums. rewrite Hfe, !bind_Some.
  assert (E0 : print_task_struct (init_task s) s = Some (dump_task (init_task s) t0)) by (unfold print_task_struct; by rewrite Ht0).
  rewrite E0, !bind_Some, E, bind_Some. cbn [concat]. do 3 f_equal. rewrite length_map. cbn [length]. lia.
Qed.
End Queue.

Example print_task_queue_correct_witness :
  print_task_queue 5 ksys0 = Some (QueueHas 1 :: dump_task init0 (with_state TASK_RUNNING (with_canary CANARY_MAGIC_NUM zero_task))).
Proof.
  destruct (print_task_queue_correct 1 2 ksys0 init0 [] 5 ksys0_ring) as (l1 & l2 & rs & El & E & Hrs); [cbn; lia|].
  rewrite E. destruct l1 as [|? [|? l1]]; [|done..]. injection El as <-. inversion Hrs as [|? ? ? ? (t & Ht & ->) Hn]; subst. inversion Hn; subst.
  unfold ksys0 in Ht. cbn [tasks] in Ht. change (init_task ksys0) with init0 in *. rewrite lookup_singleton_eq in Ht. injection Ht as <-. done.
Defined.
