(* ===== verification/Exec.v ===== *)
(** Loading a program from the mounted file system: [sys_execv] on the whole
    kernel state (kernel/syscall.c, kernel/task.c, fs/fs.c, mm/kmalloc.c).

    The pages of the processes are guarded ([kheap_guarded]): the heap's
    operations, and with them those of the file system, leave them alone. *)

From S2P Require Import Prelude Mem Lib DList Page PageTable Aarch64 Kmalloc Heap Buffer Task Process Minix File Namei Mount Open Access Syscall.
Local Open Scope Z_scope.

(** ** The file system and the scheduler on one heap *)

Section System.
Context {F : Type} `{FlashDevice F}.
Variables (bh_head : Z) (stale_inode : Z -> inode) (file_base : Z) (ret_from_fork switch_ret : Z).
Variables (sb bd si : Z) (b : minix_sb_info) (cl : bool).
Implicit Types (s : system F) (v : fview) (P : list Z) (cur : Z) (rest : list Z) (x : fsys kheap F) (h : kheap).

(** The file system's invariant, on the heap with the guarded pages [P]; with [cl]
    the heap's free blocks of 512 bytes are clean. *)
Definition fs_on P x v : Prop := @fs_part kheap F kheap_ops (kheap_guarded cl P) _ bh_head sb bd si b NULL x v.

(** The state between system calls: the ring of tasks, and the file system as
    the running task sees it; the pages of the ring's tasks are guarded. *)
Record fs_system P s cur rest t v : Prop := {
  fy_ring : ring ret_from_fork switch_ret (ks s) cur rest;
  fy_stack : in_stack cur (callee (ks s));
  fy_task : tasks (ks s) !! cur = Some t;
  fy_preempt : 0 <= preempt_count t < 2 ^ 64 - 1;
  fy_guard : forall p, p ∈ cur :: rest -> p ∈ P;
  fy_fs : fs_on P (view t s) v;
  fy_slots : length (filp t) = Z.to_nat NR_OPEN;
  fy_files : length (file_tbl (fs s)) = Z.to_nat NR_FILE }.

Lemma fs_on_heap P x v : fs_on P x v ->
  kinv (cheap (fc x)) (vL v) /\ guarded P (cheap (fc x)) (vL v) /\ (cl = true -> kclean (cheap (fc x)) (vL v)).
Proof. intros Hf. exact (ck_heap _ _ _ _ (fp_cache Hf)). Qed.

(** Other pages can be guarded. *)
Lemma fs_on_guard P P' x v : fs_on P x v -> guarded P' (cheap (fc x)) (vL v) -> fs_on P' x v.
Proof.
  intros Hf Hg. destruct (fs_on_heap _ _ _ Hf) as (Hk & _ & Hcl). destruct Hf as [[C1 C2 C3 _ C5] H2 H3 H4 H5 H6 H7 H8 H9].
  split; try done.
Qed.

Lemma current_cur P s cur rest t v : fs_system P s cur rest t v -> current (ks s) = cur.
Proof.
  intros Hs. destruct (ring_task _ _ _ _ _ cur (fy_ring _ _ _ _ _ _ Hs) ltac:(apply elem_of_cons; by left)) as (Hal & _).
  apply current_eq; [done|]. apply (fy_stack _ _ _ _ _ _ Hs).
Qed.

(** An operation of the file system, run by a system call. *)
Definition ran t cur s x : system F :=
  {| ks := set_tasks (<[cur := with_filp (cur_filp x) t]> (tasks (ks s))) (set_kh (cheap (fc x)) (ks s)); fs := x; con := con s |}.

Lemma view_ran t cur s x : view (with_filp (cur_filp x) t) (ran t cur s x) = x.
Proof. by destruct x as [[]]. Qed.

(** The running task of [s], and its ring. *)
Record runs P s cur rest t : Prop := {
  rn_ring : ring ret_from_fork switch_ret (ks s) cur rest;
  rn_stack : in_stack cur (callee (ks s));
  rn_task : tasks (ks s) !! cur = Some t;
  rn_preempt : 0 <= preempt_count t < 2 ^ 64 - 1;
  rn_guard : forall p, p ∈ cur :: rest -> p ∈ P }.

Lemma runs_cur P s cur rest t : runs P s cur rest t -> current (ks s) = cur.
Proof.
  intros [Hr Hst _ _ _]. destruct (ring_task _ _ _ _ _ cur Hr ltac:(apply elem_of_cons; by left)) as (Hal & _).
  apply current_eq; [done|]. apply Hst.
Qed.

Lemma fs_system_runs P s cur rest t v : fs_system P s cur rest t v -> runs P s cur rest t.
Proof. intros []. by split. Qed.

(** Whatever the file system was before, it has its invariant afterwards. *)
Lemma on_fs_enters {R : Type} (f : fsys kheap F -> option (R * fsys kheap F)) P s cur rest t r x v' :
  runs P s cur rest t -> f (view t s) = Some (r, x) -> fs_on P x v' ->
  length (cur_filp x) = Z.to_nat NR_OPEN -> length (file_tbl x) = Z.to_nat NR_FILE ->
  on_fs f s = Some (r, ran t cur s x) /\ fs_system P (ran t cur s x) cur rest (with_filp (cur_filp x) t) v'.
Proof.
  intros Hs Ef Hf Hl Ht. pose proof (runs_cur _ _ _ _ _ Hs) as Hcur. destruct (fs_on_heap _ _ _ Hf) as (_ & Hg & _).
  pose proof (ring_nodup _ _ _ _ _ (rn_ring _ _ _ _ _ Hs)) as Hnd. apply NoDup_cons in Hnd as [Hni _].
  destruct Hs as [Hr Hst Htk Hpc Hp]. split.
  - unfold on_fs. rewrite Hcur, Htk, bind_Some. fold (view t s). rewrite Ef, bind_Some.
    unfold upd_task. cbn [tasks set_kh]. by rewrite Htk, !bind_Some.
  - split; try done.
    + apply (ring_update_pages _ _ (ks s) _ cur rest t (with_filp (cur_filp x) t)); try done.
      * apply lookup_insert_eq.
      * intros q Hq. cbn. apply lookup_insert_ne. by intros <-.
      * intros k Hk Hin. destruct (Hg k Hk (Hp _ Hin)) as [Hc _]. exact Hc.
    + apply lookup_insert_eq.
    + by rewrite view_ran.
Qed.

Lemma on_fs_ran {R : Type} (f : fsys kheap F -> option (R * fsys kheap F)) P s cur rest t v r x v' :
  fs_system P s cur rest t v -> f (view t s) = Some (r, x) -> fs_on P x v' ->
  length (cur_filp x) = Z.to_nat NR_OPEN -> length (file_tbl x) = Z.to_nat NR_FILE ->
  on_fs f s = Some (r, ran t cur s x) /\ fs_system P (ran t cur s x) cur rest (with_filp (cur_filp x) t) v'.
Proof. intros Hs%fs_system_runs. by apply on_fs_enters. Qed.

(** A change of the heap between two such operations. *)
Definition with_heap h s : system F := set_ks (set_kh h (ks s)) s.

Lemma with_heap_system P s cur rest t v h v' :
  fs_system P s cur rest t v -> fs_on P (set_fc (set_heap h (fc (view t s))) (view t s)) v' -> fs_system P (with_heap h s) cur rest t v'.
Proof.
  intros [Hr Hst Htk Hpc Hp _ H7 H8] Hf. destruct (fs_on_heap _ _ _ Hf) as (_ & Hg & _). split; try done.
  apply (ring_update_pages _ _ (ks s) _ cur rest t t); try done.
  intros k Hk Hin. destruct (Hg k Hk (Hp _ Hin)) as [Hc _]. exact Hc.
Qed.

(** What [falloc] and [ffree] are on the heap alone. *)
Lemma falloc_heap P s cur rest t v len n :
  fs_system P s cur rest t v -> room (A := kheap) (kh (ks s)) (2 + n) -> 0 <= len <= 4096 ->
  exists a m h, let v' := {| vL := <[a := m]> (vL v); vbl := vbl v; vps := vps v |} in
    kmalloc len (kh (ks s)) = Some (a, h) /\ fs_system P (with_heap h s) cur rest t v' /\
    vL v !! a = None /\ len <= m <= Z.max 16 (2 * len - 1) /\ room (A := kheap) h n /\
    (forall y, storable (H := kheap_guarded cl P) (vL v) y -> ldb (ram (kphys h)) y = ldb (kram (ks s)) y /\ ~ a <= y < a + m).
Proof.
  intros Hs Hr Hl. destruct (@falloc_part kheap F kheap_ops (kheap_guarded cl P) _ bh_head sb bd si b NULL (view t s) v len n (fy_fs _ _ _ _ _ _ Hs) Hr Hl)
    as (a & m & x & E & Hna & Hm & _ & _ & Ex & _ & _ & _ & Hf & Hr' & Hb).
  unfold falloc in E. destruct (halloc len (cheap (fc (view t s)))) as [[a' h]|] eqn:E'; [|done]. rewrite bind_Some in E. injection E as -> <-.
  exists a, m, h. cbn zeta. split; [exact E'|]. split; [|done]. by apply (with_heap_system P s cur rest t v).
Qed.

Lemma ffree_heap P s cur rest t v a m :
  fs_system P s cur rest t v -> vL v !! a = Some m -> a ∉ own sb v -> (cl = true -> m <> 512) ->
  exists h, let v' := {| vL := delete a (vL v); vbl := vbl v; vps := vps v |} in
    kfree a (kh (ks s)) = Some h /\ fs_system P (with_heap h s) cur rest t v' /\
    (forall n, room (A := kheap) (kh (ks s)) n -> room (A := kheap) h n) /\
    (forall y, y < a \/ a + m <= y -> ldb (ram (kphys h)) y = ldb (kram (ks s)) y).
Proof.
  intros Hs Ha Hna Hre. destruct (@ffree_part kheap F kheap_ops (kheap_guarded cl P) _ bh_head sb bd si b NULL (view t s) v a m (fy_fs _ _ _ _ _ _ Hs) Ha Hna Hre)
    as (x & E & _ & _ & Hf & Hr & Hb).
  unfold ffree in E. destruct (hfree a (cheap (fc (view t s)))) as [h|] eqn:E'; [|done]. rewrite bind_Some in E. injection E as <-.
  exists h. cbn zeta. split; [exact E'|]. split; [|done]. by apply (with_heap_system P s cur rest t v).
Qed.
End System.

#[global] Arguments fy_ring {F H bh_head ret_from_fork switch_ret sb bd si b cl P s cur rest t v}.
#[global] Arguments fy_stack {F H bh_head ret_from_fork switch_ret sb bd si b cl P s cur rest t v}.
#[global] Arguments fy_task {F H bh_head ret_from_fork switch_ret sb bd si b cl P s cur rest t v}.
#[global] Arguments fy_preempt {F H bh_head ret_from_fork switch_ret sb bd si b cl P s cur rest t v}.
#[global] Arguments fy_guard {F H bh_head ret_from_fork switch_ret sb bd si b cl P s cur rest t v}.
#[global] Arguments fy_fs {F H bh_head ret_from_fork switch_ret sb bd si b cl P s cur rest t v}.
#[global] Arguments fy_slots {F H bh_head ret_from_fork switch_ret sb bd si b cl P s cur rest t v}.
#[global] Arguments fy_files {F H bh_head ret_from_fork switch_ret sb bd si b cl P s cur rest t v}.
#[global] Arguments fs_on_heap {F H bh_head sb bd si b cl P x v}.
#[global] Arguments fs_on_guard {F H bh_head sb bd si b cl} P {P' x v}.

(** Clean or not, it is the file system's invariant. *)
Lemma fs_on_any {F : Type} `{FlashDevice F} (bh_head sb bd si : Z) (b : minix_sb_info) (cl : bool) (P : list Z) (x : fsys kheap F) (v : fview) :
  fs_on bh_head sb bd si b true P x v -> fs_on bh_head sb bd si b cl P x v.
Proof.
  intros Hf. destruct (fs_on_heap Hf) as (Hk & Hg & Hcl). destruct Hf as [[C1 C2 C3 _ C5] H2 H3 H4 H5 H6 H7 H8 H9].
  split; try done. split; try done. split_and!; [done|done|]. intros _. by apply Hcl.
Qed.

Lemma fs_system_any {F : Type} `{FlashDevice F} (bh_head ret_from_fork switch_ret sb bd si : Z) (b : minix_sb_info) (cl : bool)
    (P : list Z) (s : system F) (cur : Z) (rest : list Z) (t : task_struct) (v : fview) :
  fs_system bh_head ret_from_fork switch_ret sb bd si b true P s cur rest t v ->
  fs_system bh_head ret_from_fork switch_ret sb bd si b cl P s cur rest t v.
Proof. intros []. split; try done. by apply fs_on_any. Qed.

(** ** The new process in the system *)

Section Copy.
Context {F : Type} `{FlashDevice F}.
Variables (bh_head : Z) (ret_from_fork switch_ret : Z) (sb bd si : Z) (b : minix_sb_info).
Implicit Types (s : system F) (v : fview) (P : list Z) (cur : Z) (rest : list Z) (m : mem).
Abbreviation fs_system := (fs_system bh_head ret_from_fork switch_ret sb bd si b).

(** The memory of a process: the [size] bytes of [prog] at the addresses from 0,
    zero in the rest of its pages, nothing else mapped. *)
Record program_at m (root size : Z) (prog : Z -> Z) : Prop := {
  pg_bytes : forall j, 0 <= j < size -> exists x, user_byte m root j = Some x /\ ldb m x = prog j;
  pg_zero : forall a, in_space size a -> size <= a -> exists x, user_byte m root a = Some x /\ ldb m x = 0;
  pg_only : forall a, 0 <= a < 2 ^ 48 -> ~ in_space size a -> translate m root a = None }.

(** It is left alone by whoever writes only to pages in use when it was built. *)
Lemma program_kept (A ph : phys) m root size prog :
  pt_wf 4 ph root -> fresh_space A ph root -> size <= 61440 ->
  (forall y k, pfn_ok k -> count_of (mem_map A) k = Some 0 -> page_va k <= y < page_va k + 4096 -> ldb m y = ldb (ram ph) y) ->
  program_at (ram ph) root size prog ->
  program_at m root size prog /\ forall w, (length w <= 4)%nat -> Forall idx_ok w -> walk m root w = walk (ram ph) root w.
Proof.
  intros Hwf Hf Hsz Hm [H1 H2 H3].
  assert (Hw : forall w, (length w <= 4)%nat -> Forall idx_ok w -> walk m root w = walk (ram ph) root w).
  { intros w Hl Hw. apply (walks_kept A ph); [done|done|done|done|]. intros k y q Hk Hy H0 _ _ _. by apply (Hm y k). }
  assert (Ht : forall a, 0 <= a -> translate m root a = translate (ram ph) root a).
  { intros a Ha. apply Hw; [done|by apply PageTable.path_ok]. }
  assert (Hby : forall a x, 0 <= a -> user_byte (ram ph) root a = Some x -> user_byte m root a = Some x /\ ldb m x = ldb (ram ph) x).
  { intros a x Ha Ex. unfold user_byte. rewrite Ht by done. split; [exact Ex|].
    destruct (user_byte_eq A root ph a Hf Ha) as (q & Hq & H0 & _ & Eq); [unfold user_byte in Ex; by destruct (translate _ _ a)|].
    rewrite Eq in Ex. injection Ex as <-. pose proof (Z.mod_pos_bound a 4096 ltac:(lia)). apply (Hm _ q Hq H0). lia. }
  split; [split|exact Hw].
  - intros j Hj. destruct (H1 j Hj) as (x & Ex & Hx). exists x. destruct (Hby j x ltac:(lia) Ex) as [-> ->]. done.
  - intros a Ha Hge. destruct (H2 a Ha Hge) as (x & Ex & Hx). exists x.
    assert (0 <= a) by (destruct Ha; change USER_MAX with 1073741824 in *; lia). destruct (Hby a x ltac:(lia) Ex) as [-> ->]. done.
  - intros a Ha Hn. rewrite Ht by lia. by apply H3.
Qed.

Definition with_block (a n : Z) v : fview := {| vL := <[a := n]> (vL v); vbl := vbl v; vps := vps v |}.

(** The pages taken between [h] and [h'] that hold no block of [L]. *)
Definition taken_pages (h h' : kheap) (L : gmap Z Z) : list Z :=
  map page_va (filter (fun k => count_of (mem_map (kphys h)) k = Some 0 /\ count_of (mem_map (kphys h')) k <> Some 0 /\
    map_Forall (fun b _ => ~ page_va k <= b < page_va k + 4096) L) (seqZ 0 PAGING_PAGES)).

Lemma taken_page (h h' : kheap) (L : gmap Z Z) k :
  pfn_ok k -> map_ok (mem_map (kphys h')) ->
  page_va k ∈ taken_pages h h' L <-> count_of (mem_map (kphys h)) k = Some 0 /\ lone h' L k.
Proof.
  intros Hk Hm. unfold taken_pages. split.
  - intros (j & Ej & [(H0 & Hc & Hb) _]%list_elem_of_filter)%list_elem_of_fmap. apply page_va_inj in Ej as <-.
    split; [done|]. split; [|intros a t Hbt; by apply (Hb a t)]. destruct (count_of_Some _ k Hm Hk) as [c Ec]. exists c. split; [done|]. congruence.
  - intros (H0 & (c & Hc & Hne) & Hb). apply list_elem_of_fmap_2, list_elem_of_filter. split; [|apply elem_of_seqZ; unfold pfn_ok in Hk; lia].
    split_and!; [done|congruence|]. intros a t Hbt. by apply (Hb a t).
Qed.

(** All pages of the address space at [root], tables and pages mapped, are of [P]. *)
Definition space_in (P : list Z) m (root : Z) : Prop :=
  forall w x, (length w <= 4)%nat -> Forall idx_ok w -> walk m root w = Some x ->
    exists q, x = pfn_to_pa q /\ pfn_ok q /\ page_va q ∈ P.

(** It depends on the bytes of these pages only. *)
Lemma space_in_walk P m m' root w :
  space_in P m root -> (forall y, guard_byte P y -> ldb m' y = ldb m y) -> (length w <= 4)%nat -> Forall idx_ok w ->
  walk m' root w = walk m root w.
Proof.
  intros Hs Hm Hl Hw. apply walk_tables_same. intros q i x [r ->] Hx.
  rewrite !length_app in Hl. cbn in Hl. apply Forall_app in Hw as [Hw _]. apply Forall_app in Hw as [Hq Hi]. rewrite Forall_singleton in Hi.
  destruct (Hs q x ltac:(lia) Hq Hx) as (k & -> & Hk & Hin). pose proof (entry_in_page k i Hk Hi).
  apply (ld_agree 8). intros y Hy. apply Hm. exists k. split_and!; [done|done|lia|lia].
Qed.

Lemma space_in_kept P m m' root :
  space_in P m root -> (forall y, guard_byte P y -> ldb m' y = ldb m y) -> space_in P m' root.
Proof. intros Hs Hm w x Hl Hw Hx. rewrite (space_in_walk P m m' root w Hs Hm Hl Hw) in Hx. by apply (Hs w x). Qed.

(** What it maps are bytes of these pages. *)
Lemma space_in_byte P m root a x :
  space_in P m root -> 0 <= a -> user_byte m root a = Some x -> guard_byte P x.
Proof.
  intros Hs Ha. unfold user_byte. destruct (translate m root a) as [pg|] eqn:E; [|done]. rewrite bind_Some. intros [= <-].
  destruct (Hs (path a) pg ltac:(done) (PageTable.path_ok a Ha) E) as (q & -> & Hq & Hin). exists q. split; [done|]. split; [done|].
  pose proof (Z.mod_pos_bound a 4096 ltac:(lia)). rewrite __va_pfn by done. lia.
Qed.

(** [copy_process] on the system: the new process joins the ring, and its pages
    the guarded ones. *)
Lemma copy_system P s cur rest t v start size n :
  fs_system true P s cur rest t v -> room (A := kheap) (kh (ks s)) (32 + n) ->
  0 <= size <= 61440 -> (forall j, 0 <= j < size -> owned (vL v) (start + j)) ->
  exists k p mm root l1 l2 P', copy_process ret_from_fork start size (ks s) = Some k /\ room (A := kheap) (kh k) n /\
    new_process ret_from_fork switch_ret (ks s) (vL v) cur rest k p mm root size (fun j => ldb (kram (ks s)) (start + j)) /\
    rest = l1 ++ l2 /\ hd cur l2 = init_task (ks s) /\
    P' = p :: taken_pages (kh (ks s)) (kh k) (<[mm := 512]> (vL v)) ++ P /\ space_in P' (kram k) root /\
    fs_system true P' (set_ks k s) cur (l1 ++ p :: l2) t (with_block mm 512 v).
Proof.
  intros Hs Hr Hsz Hsrc. pose proof (fy_fs Hs) as Hf. destruct (fs_on_heap Hf) as (Hk & Hg & Hc).
  destruct (copy_process_spec ret_from_fork switch_ret (ks s) cur rest t (vL v) start size n) as (k & p & mm & root & E & Hroom & Hnew);
    [apply Hs|apply Hs|apply Hs|apply Hs|exact Hk|by apply Hc|exact Hr|done|done|].
  pose proof Hnew as [(l1 & l2 & El & Ehd & Hring) (tp & Etp & _) _ _ Hni [[Hkh Hkc] Hmm] _ _ _ _ Hfr Hlone Hown _ Hgn Ecal].
  set (T := taken_pages (kh (ks s)) (kh k) (<[mm := 512]> (vL v))).
  pose proof (kinv_map_ok _ _ Hkh) as Hmk.
  assert (HgT : guarded (p :: T ++ P) (kh k) (<[mm := 512]> (vL v))).
  { intros q Hq. rewrite elem_of_cons, elem_of_app. intros [Ep|[HT|HP]].
    - apply (Hgn P Hg q Hq). apply elem_of_cons. by left.
    - by apply (taken_page _ _ _ q Hq Hmk) in HT as [_ HT].
    - apply (Hgn P Hg q Hq). apply elem_of_cons. by right. }
  exists k, p, mm, root, l1, l2, (p :: T ++ P). split; [done|]. split; [done|]. split; [done|]. split; [done|]. split; [done|]. split; [done|]. split.
  { intros w x Hl Hw Ex. destruct (Hfr w x Hl Hw Ex) as (q & -> & Hq & H0). exists q. split; [done|]. split; [done|].
    rewrite elem_of_cons, elem_of_app. right. left. apply taken_page; [done|done|]. split; [done|]. apply Hlone; [done|]. by exists w. }
  assert (Hcp : cur <> p) by (intros ->; apply Hni; by left).
  split; try apply Hs; try done.
  - cbn [ks set_ks]. rewrite Ecal. apply Hs.
  - cbn [ks set_ks]. rewrite Etp, lookup_insert_ne by done. apply Hs.
  - intros q Hq. rewrite elem_of_cons, elem_of_app, elem_of_cons in Hq. rewrite elem_of_cons, elem_of_app.
    destruct (decide (q = p)) as [->|]; [by left|right; right]. apply (fy_guard Hs). subst rest.
    rewrite elem_of_cons, elem_of_app. tauto.
  - apply (fs_on_guard P); [|exact HgT].
    apply (@fs_part_heap kheap F kheap_ops (kheap_guarded true P) _ bh_head sb bd si b NULL (view t s) v (kh k) (<[mm := 512]> (vL v)) Hf).
    + split_and!; [done| |done]. apply (guarded_sub (p :: P)); [by apply Hgn|intros; apply elem_of_cons; by right].
    + intros a Ha. destruct (@own_live kheap F kheap_ops (kheap_guarded true P) _ bh_head sb bd si b NULL _ _ a Hf Ha) as [n0 Hn].
      apply lookup_insert_ne. congruence.
    + intros a n0 x _ Hn Hx. apply Hown. by exists a, n0.
Qed.

(** Giving back the block the program was read into. *)
Lemma free_buffer cl P s cur rest t v start size k p mm root prog cur' rest' a n :
  new_process ret_from_fork switch_ret (ks s) (vL v) cur rest k p mm root size prog -> size <= 61440 ->
  kinv (kh (ks s)) (vL v) -> fs_system cl P (set_ks k s) cur' rest' t (with_block mm 512 v) ->
  start = a -> vL v !! a = Some n -> a ∉ own sb v -> (cl = true -> n <> 512) ->
  exists h, kfree a (kh k) = Some h /\ 
    fs_system cl P (set_ks (set_kh h k) s) cur' rest' t {| vL := <[mm := 512]> (delete a (vL v)); vbl := vbl v; vps := vps v |} /\
    program_at (ram (kphys h)) root size prog /\ pgd (load_mm (ram (kphys h)) mm) = root /\
    (forall a x, 0 <= a -> user_byte (ram (kphys h)) root a = Some x -> exists q, pfn_ok q /\
       count_of (mem_map (kphys (kh (ks s)))) q = Some 0 /\ page_va q <= x < page_va q + 4096) /\
    (forall y, y < a \/ a + n <= y -> ldb (ram (kphys h)) y = ldb (kram k) y) /\
    (forall w, (length w <= 4)%nat -> Forall idx_ok w -> walk (ram (kphys h)) root w = walk (kram k) root w).
Proof.
  intros Hnew Hsz Hk Hs -> Ha Hna Hre. pose proof Hnew as [_ _ _ _ _ [[Hkh _] Hmm] [Hpgd Hwf] H1 H2 H3 Hfr _ _ _ _ _].
  assert (Hne : a <> mm) by congruence.
  destruct (ffree_heap bh_head ret_from_fork switch_ret sb bd si b cl P (set_ks k s) cur' rest' t _ a n Hs) as (h & E & Hs' & _ & Hb); [|done|done|].
  { cbn [with_block vL]. by rewrite lookup_insert_ne. }
  exists h. split; [done|]. split; [cbn [with_block vL vbl vps] in Hs'; by rewrite delete_insert_ne in Hs' by congruence|].
  destruct (kinv_block _ _ a n Hk Ha) as (_ & _ & _ & q & Hq & Q1 & Q2 & Q3).
  destruct (program_kept (kphys (kh (ks s))) (kphys (kh k)) (ram (kphys h)) root size prog) as [Hprog Ht]; try done.
  { intros y j Hj H0 Hy. apply Hb. assert (j <> q) by congruence. unfold page_va in *. lia. }
  split_and!; [done| | |done|exact Ht].
  - rewrite <- Hpgd. apply (ld_agree 8). intros y Hy. apply Hb.
    destruct (kinv_disjoint _ _ a n mm 512 Hkh); rewrite ?lookup_insert_ne, ?lookup_insert_eq by done; try done; lia.
  - intros c x Hc Ex. unfold user_byte, translate in Ex. rewrite Ht in Ex by (done || by apply PageTable.path_ok).
    destruct (user_byte_eq (kphys (kh (ks s))) root (kphys (kh k)) c Hfr Hc) as (j & Hj & H0 & _ & Eq); [unfold translate; by destruct (walk _ _ (path c))|].
    unfold user_byte, translate in Eq. rewrite Eq in Ex. injection Ex as <-. exists j. split; [done|]. split; [done|].
    pose proof (Z.mod_pos_bound c 4096 ltac:(lia)). lia.
Qed.
End Copy.

(** ** Loading the file *)

Section Load.
Context {F : Type} `{FlashDevice F}.
Variables (bh_head : Z) (stale_inode : Z -> inode) (file_base : Z) (ret_from_fork switch_ret : Z).
Variables (sb bd si : Z) (b : minix_sb_info).
Implicit Types (s : system F) (v : fview) (P : list Z) (cur : Z) (rest : list Z).
Abbreviation fs_system := (fs_system bh_head ret_from_fork switch_ret sb bd si b).

(** The bytes of the others: guarded pages, and blocks that are not the file
    system's. *)
Definition client P v (y : Z) : Prop := guard_byte P y \/ exists a n, vL v !! a = Some n /\ (a ∉ own sb v) /\ (a <= y < a + n).

Lemma client_scratch cl P v y : client P v y -> scratch (H := kheap_guarded cl P) sb v y.
Proof. intros [Hg|Hc]; [left|by right]. cbn. tauto. Qed.

Lemma client_same P v v' y : same_client sb v v' -> client P v y -> client P v' y.
Proof.
  intros Hs [Hg|(a & n & Ha & Ho & Hy)]; [by left|right]. exists a, n. destruct (proj2 (Hs a n) (conj Ha Ho)). done.
Qed.

(** A transfer leaves the table's length. *)
Lemma get_file_range (z : fsys kheap F) fp g : get_file file_base fp z = Some g ->
  exists j, fp = file_ptr file_base j /\ 0 <= j < Z.of_nat (length (file_tbl z)).
Proof.
  unfold get_file. destruct (file_index file_base fp z) as [j|] eqn:Ej; rewrite ?bind_Some; [|done].
  intros Hg%arr_get_range. apply file_index_ptr in Ej. by exists j.
Qed.

Lemma get_file_valid (z : fsys kheap F) j : 0 <= j < Z.of_nat (length (file_tbl z)) -> is_Some (get_file file_base (file_ptr file_base j) z).
Proof.
  intros Hj. unfold get_file. rewrite file_index_of_ptr, bind_Some by done. unfold arr_get.
  destruct (Z.leb_spec 0 j); [|lia]. apply lookup_lt_is_Some_2. lia.
Qed.

Lemma same_files_le (z z' : fsys kheap F) fp g : get_file file_base fp z' = Some g ->
  (forall q, q <> fp -> get_file file_base q z = get_file file_base q z') -> (length (file_tbl z) <= length (file_tbl z'))%nat.
Proof.
  intros Hg Hsame. destruct (decide (length (file_tbl z) <= length (file_tbl z'))%nat) as [|Hn]; [done|exfalso].
  destruct (get_file_valid z (Z.of_nat (length (file_tbl z'))) ltac:(lia)) as [g1 Hg1].
  destruct (get_file_range _ _ _ Hg) as (j & -> & Hj). rewrite Hsame in Hg1 by (unfold file_ptr, sizeof_file; lia).
  destruct (get_file_range _ _ _ Hg1) as (i & Ei & Hi). unfold file_ptr, sizeof_file in Ei. lia.
Qed.

Lemma files_moved_length (x y : fsys kheap F) fp f n c :
  files_moved file_base x y fp f n c -> get_file file_base fp x = Some f -> length (file_tbl y) = length (file_tbl x).
Proof.
  intros (_ & Hy & Hq) Hx. pose proof (same_files_le y x fp f Hx Hq).
  pose proof (same_files_le x y fp (moved f n) Hy (fun q Hne => eq_sym (Hq q Hne))). lia.
Qed.

(** The file read into a new block. *)
Lemma load_file cl P s cur rest t v fp f i fuel r :
  head_static (A := kheap) bh_head -> fs_system cl P s cur rest t v -> open_file file_base (view t s) v fp f i -> f_pos f = 0 ->
  0 < i_size i <= 4096 -> room (A := kheap) (kh (ks s)) (34 + r) -> (0 < fuel)%nat ->
  exists a m h x v', kmalloc (i_size i) (kh (ks s)) = Some (a, h) /\
    on_fs (file_read bh_head file_base fuel fp a (i_size i)) (with_heap h s) = Some (i_size i, ran t cur (with_heap h s) x) /\
    view t (ran t cur (with_heap h s) x) = x /\ fs_system cl P (ran t cur (with_heap h s) x) cur rest t v' /\
    (vL v' !! a = Some m /\ (a ∉ own sb v') /\ i_size i <= m <= Z.max 16 (2 * i_size i - 1)) /\ vL v !! a = None /\
    same_client sb {| vL := <[a := m]> (vL v); vbl := vbl v; vps := vps v |} v' /\
    files_moved file_base (view t (with_heap h s)) x fp f (i_size i) (fc x) /\ chip (fc x) = chip (fc (fs s)) /\ vps v' = vps v /\
    room (cheap (fc x)) r /\
    (forall j, 0 <= j < i_size i -> ldb (fmem x) (a + j) = d_byte (fl_data (chip (fc (fs s)))) b (i_ino i) j) /\
    (forall y, client P v y -> ldb (fmem x) y = ldb (kram (ks s)) y /\ (y < a \/ a + m <= y)).
Proof.
  intros Hst Hs Hopen Hp0 Hsz Hr Hfu. pose proof Hopen as [O1 O2 O3 O4 O5]. pose proof (fy_fs Hs) as Hf.
  destruct (falloc_heap bh_head ret_from_fork switch_ret sb bd si b cl P s cur rest t v (i_size i) (32 + r) Hs Hr ltac:(lia))
    as (a & m & h & E & Hs2 & Hna & Hm & Hr2 & Hb2).
  set (v2 := {| vL := <[a := m]> (vL v); vbl := vbl v; vps := vps v |}) in *.
  assert (Hown : a ∉ own sb v2).
  { intros Ho. destruct (@own_live kheap F kheap_ops (kheap_guarded cl P) _ bh_head sb bd si b NULL _ _ a Hf Ho). congruence. }
  assert (Hbuf : forall y, a <= y < a + i_size i -> scratch (H := kheap_guarded cl P) sb v2 y).
  { intros y Hy. right. exists a, m. split; [apply lookup_insert_eq|]. split; [done|lia]. }
  destruct (@file_read_part kheap F kheap_ops (kheap_guarded cl P) _ bh_head stale_inode sb bd si b file_base (view t (with_heap h s)) v2 fp f i a (i_size i) fuel r)
    as (x & v3 & Er & Hf3 & Hmv & Hch & Hps & Hcl & Hr3 & Hb3 & Hk3); try done.
  { intros g L c n [Hk _]. by apply (Hst g L c n). }
  { exact (fy_fs Hs2). } { lia. } { rewrite Hp0. lia. }
  pose proof (moved_filp _ _ _ _ _ _ _ Hmv) as Efl. change (cur_filp (view t (with_heap h s))) with (filp t) in Efl.
  destruct (on_fs_ran bh_head ret_from_fork switch_ret sb bd si b cl (file_read bh_head file_base fuel fp a (i_size i)) P (with_heap h s) cur rest t v2 (i_size i) x v3 Hs2 Er Hf3)
    as [Eo Hs3].
  { rewrite Efl. apply (fy_slots Hs). }
  { rewrite (files_moved_length _ _ _ _ _ _ Hmv O1). apply (fy_files Hs). }
  rewrite Efl, with_filp_same in Hs3.
  destruct (proj2 (Hcl a m)) as [Ha3 Ho3]; [split; [apply lookup_insert_eq|done]|].
  exists a, m, h, x, v3. split_and!; try done; try lia.
  - pose proof (view_ran t cur (with_heap h s) x) as Hv. by rewrite Efl, with_filp_same in Hv.
  - intros j Hj. rewrite Hb3 by done. by rewrite Hp0.
  - intros y Hy. assert (Hy2 : client P v2 y).
    { destruct Hy as [Hg|(c & n & Hc & Ho & Hcy)]; [by left|right]. exists c, n. split; [|done]. cbn [vL v2]. by rewrite lookup_insert_ne by congruence. }
    destruct (Hb2 y) as [Eb Hout]; [apply (scratch_storable sb v); by apply client_scratch|].
    split; [|lia]. rewrite Hk3; [exact Eb|by apply client_scratch|lia].
Qed.
End Load.

(** ** execv *)

Section Execv.
Context {F : Type} `{FlashDevice F}.
Variables (bh_head : Z) (stale_inode : Z -> inode) (file_base : Z) (ret_from_fork switch_ret : Z).
Variables (sb bd si : Z) (b : minix_sb_info).
Implicit Types (s : system F) (v : fview) (P : list Z) (cur : Z) (rest : list Z).
Abbreviation fs_system := (fs_system bh_head ret_from_fork switch_ret sb bd si b).

(** From [s] to [s'] a process was made on the page [p], which will run the
    program: it is on the ring, in front of the initial task; its memory holds
    the program; the other tasks, the bytes of guarded pages and of the blocks of
    others, and the device are as before. *)
Record process_made cl P s cur rest t v s' v' P' (p mm root size : Z) (prog : Z -> Z) : Prop := {
  pm_ring : exists l1 l2, rest = l1 ++ l2 /\ hd cur l2 = init_task (ks s) /\ fs_system cl P' s' cur (l1 ++ p :: l2) t v';
  pm_guard : p ∈ P' /\ (forall q, q ∈ P -> q ∈ P') /\ space_in P' (kram (ks s')) root;
  pm_task : exists tp, tasks (ks s') = <[p := tp]> (tasks (ks s)) /\ state tp = TASK_RUNNING /\ t_mm tp = mm /\
    x20 (context tp) = root /\ pc (context tp) = ret_from_fork /\ frames (ks s') !! sp (context tp) = Some user_frame;
  pm_page : (exists k, p = page_va k) /\ p ∉ cur :: rest;
  pm_program : program_at (kram (ks s')) root size prog /\ pgd (load_mm (kram (ks s')) mm) = root;
  pm_apart : forall a x, 0 <= a -> user_byte (kram (ks s')) root a = Some x -> ~ guard_byte P x;
  pm_frames : forall a, a <> p + 4096 - sizeof_pt_regs -> frames (ks s') !! a = frames (ks s) !! a;
  pm_chip : chip (fc (fs s')) = chip (fc (fs s));
  pm_others : forall y, client sb P v y -> ldb (kram (ks s')) y = ldb (kram (ks s)) y;
  pm_blocks : forall a n, (vL v' !! a = Some n /\ a ∉ own sb v') <-> ((vL v !! a = Some n /\ a ∉ own sb v) \/ (a = mm /\ n = 512)) }.

(** The free blocks of 512 bytes stay clean unless the program was read into one. *)
Definition stays_clean (size : Z) : bool := negb ((256 <? size) && (size <=? 512)).

(** The blocks of others when the buffer [a] is given back and [mm] taken. *)
Lemma blocks_after (L L3 : gmap Z Z) (o o3 : list Z) a m mm :
  L !! a = None -> L3 !! mm = None -> mm ∉ o3 ->
  (forall c n, (L3 !! c = Some n /\ c ∉ o3) <-> (<[a := m]> L !! c = Some n /\ c ∉ o)) ->
  forall c n, (<[mm := 512]> (delete a L3) !! c = Some n /\ c ∉ o3) <-> ((L !! c = Some n /\ c ∉ o) \/ (c = mm /\ n = 512)).
Proof.
  intros Ha Hmm Hmo Hcl c n. rewrite lookup_insert_Some, lookup_delete_Some. split.
  - intros [[[<- <-]|(_ & Hca & Hc)] Hco]; [by right|left]. destruct (proj1 (Hcl c n) (conj Hc Hco)) as [Hc' Hco'].
    by rewrite lookup_insert_ne in Hc'.
  - intros [[Hc Hco]|[-> ->]]; [|split; [by left|done]]. assert (a <> c) by congruence.
    destruct (proj2 (Hcl c n)) as [Hc3 Hco3]; [by rewrite lookup_insert_ne|]. split; [right|done]. split; [congruence|done].
Qed.

Lemma execv_spec P s cur rest t v fp f i fuel :
  head_static (A := kheap) bh_head -> fs_system true P s cur rest t v -> open_file file_base (view t s) v fp f i -> f_pos f = 0 ->
  0 < i_size i <= 4096 ->
  room (A := kheap) (kh (ks s)) 66 -> (0 < fuel)%nat ->
  exists s' v' P' p mm root, execv bh_head file_base ret_from_fork fuel fp s = Some s' /\
    process_made (stays_clean (i_size i)) P s cur rest t v s' v' P' p mm root (i_size i) (d_byte (fl_data (chip (fc (fs s)))) b (i_ino i)) /\
    get_file file_base fp (fs s') = Some (moved f (i_size i)) /\
    (forall q, q <> fp -> get_file file_base q (fs s') = get_file file_base q (fs s)) /\
    fs s' = set_file_tbl (file_tbl (fs s')) (set_fc (fc (fs s')) (set_cur_filp (filp t) (fs s))) /\ vps v' = vps v.
Proof.
  intros Hst Hs Ho Hp0 Hsz Hr Hfu. destruct (fs_on_heap (fy_fs Hs)) as (Hk0 & _).
  destruct (load_file bh_head stale_inode file_base ret_from_fork switch_ret sb bd si b true P s cur rest t v fp f i fuel 32 Hst Hs Ho Hp0 Hsz Hr Hfu)
    as (a & m & h & x & v3 & Ea & Er & Evx & Hs3 & (Ha3 & Ho3 & Hm) & Hna & Hcl & Hmv & Hch & Hps & Hr3 & Hb3 & Hk3).
  set (s3 := ran t cur (with_heap h s) x) in *. destruct (fs_on_heap (fy_fs Hs3)) as (Hkv3 & Hgv3 & _).
  destruct (copy_system bh_head ret_from_fork switch_ret sb bd si b P s3 cur rest t v3 a (i_size i) 0 Hs3 Hr3 ltac:(lia))
    as (k & p & mm & root & l1 & l2 & P' & Ec & _ & Hnew & El & Ehd & EP & Hspace & Hs4).
  { intros j Hj. exists a, m. split; [done|lia]. }
  destruct (free_buffer bh_head ret_from_fork switch_ret sb bd si b (stays_clean (i_size i)) P' s3 cur rest t v3 a (i_size i) k p mm root _ cur (l1 ++ p :: l2) a m Hnew
    ltac:(lia) Hkv3 (fs_system_any _ _ _ _ _ _ _ _ _ _ _ _ _ _ Hs4) eq_refl Ha3 Ho3) as (h5 & Ef & Hs5 & Hprog & Hpgd & Hnew5 & Hb5 & Hw5).
  { unfold stays_clean. intros Hc%negb_true_iff%andb_false_iff. destruct Hc as [Hc%Z.ltb_ge|Hc%Z.leb_gt]; lia. }
  pose proof Hnew as [_ (tp & T1 & T2 & T3 & T4 & T5 & T6) Hfr Hpage Hni [_ Hmm] _ _ _ _ _ _ Hown Hpg _ _].
  assert (Etk : tasks (ks s3) = tasks (ks s)).
  { cbn. pose proof Hmv as (Ex & _). rewrite Ex. change (cur_filp _) with (filp t). rewrite with_filp_same. apply insert_id, Hs. }
  exists (set_ks (set_kh h5 k) s3), {| vL := <[mm := 512]> (delete a (vL v3)); vbl := vbl v3; vps := vps v3 |}, P', p, mm, root.
  split; [|split; [split|split_and!]].
  - unfold execv. change (get_file file_base fp (fs s)) with (get_file file_base fp (view t s)). rewrite (of_file _ _ _ _ _ _ Ho), bind_Some.
    change (inodes (fs s)) with (inodes (view t s)). rewrite (of_inode _ _ _ _ _ _ Ho), bind_Some, Ea, bind_Some.
    assert (E32 : s32 (i_size i) = i_size i) by (apply int_arg; change (2 ^ 31) with 2147483648; lia). rewrite E32.
    fold (with_heap h s). rewrite Er, bind_Some. fold s3. by rewrite Ec, bind_Some, Ef, bind_Some.
  - by exists l1, l2.
  - rewrite EP. split; [apply elem_of_cons; by left|]. split; [intros q Hq; rewrite elem_of_cons, elem_of_app; tauto|].
    rewrite <- EP. intros w x0 Hl Hw Ex. apply (Hspace w x0 Hl Hw). rewrite <- Hw5 by done. exact Ex.
  - exists tp. split; [by rewrite <- Etk|done].
  - done.
  - split; [|done]. destruct Hprog as [G1 G2 G3]. split; [|done|done]. intros j Hj. destruct (G1 j Hj) as (y & Ey & Hy). exists y.
    split; [done|]. etransitivity; [exact Hy|exact (Hb3 j Hj)].
  - intros c y Hc Ey (q & Hq & Hin & Hyq). destruct (Hnew5 c y Hc Ey) as (q' & Hq' & H0 & Hy').
    assert (q' = q) as -> by (unfold page_va in *; lia). destruct (Hgv3 q Hq Hin) as [(c' & Hc' & Hne) _].
    change (kphys (cheap (fc (view t s3)))) with (kphys (kh (ks s3))) in Hc'. congruence.
  - exact Hfr.
  - exact Hch.
  - intros y Hy. destruct (Hk3 y Hy) as [Eb Hout]. transitivity (ldb (kram k) y); [by apply Hb5|]. rewrite <- Eb. assert (Hy3 : client sb P v3 y).
    { apply (client_same sb P {| vL := <[a := m]> (vL v); vbl := vbl v; vps := vps v |}); [done|].
      destruct Hy as [Hg|(c & n & Hc & Hco & Hcy)]; [by left|right]. exists c, n. cbn [vL]. rewrite lookup_insert_ne by congruence. done. }
    destruct Hy3 as [Hg|(c & n & Hc & _ & Hcy)]; [|by apply Hown; exists c, n]. by apply (Hpg P).
  - apply (blocks_after (vL v) (vL v3) (own sb v) (own sb v3) a m mm Hna Hmm); [|exact Hcl]. intros Hi.
    destruct (@own_live kheap F kheap_ops (kheap_guarded true P) _ bh_head sb bd si b NULL _ _ mm (fy_fs Hs3) Hi). congruence.
  - change (fs (set_ks (set_kh h5 k) s3)) with x. apply Hmv.
  - intros q Hq. change (fs (set_ks (set_kh h5 k) s3)) with x. destruct Hmv as (_ & _ & Hq'). by rewrite Hq'.
  - change (fs (set_ks (set_kh h5 k) s3)) with x. destruct Hmv as (Ex & _). rewrite Ex at 1. done.
  - exact Hps.
Qed.
End Execv.

#[global] Arguments pm_ring {F H bh_head ret_from_fork switch_ret sb bd si b cl P s cur rest t v s' v' P' p mm root size prog}.
#[global] Arguments pm_guard {F H bh_head ret_from_fork switch_ret sb bd si b cl P s cur rest t v s' v' P' p mm root size prog}.
#[global] Arguments pm_page {F H bh_head ret_from_fork switch_ret sb bd si b cl P s cur rest t v s' v' P' p mm root size prog}.
#[global] Arguments pm_program {F H bh_head ret_from_fork switch_ret sb bd si b cl P s cur rest t v s' v' P' p mm root size prog}.
#[global] Arguments pm_others {F H bh_head ret_from_fork switch_ret sb bd si b cl P s cur rest t v s' v' P' p mm root size prog}.

(** ** sys_execv *)

Section SysExecv.
Context {F : Type} `{FlashDevice F}.
Variables (bh_head : Z) (stale_inode : Z -> inode) (file_base : Z) (ret_from_fork switch_ret : Z).
Variables (sb bd si : Z) (b : minix_sb_info).
Implicit Types (s : system F) (v : fview) (P : list Z) (cur : Z) (rest : list Z).
Abbreviation fs_system := (fs_system bh_head ret_from_fork switch_ret sb bd si b).
Abbreviation process_made := (process_made bh_head ret_from_fork switch_ret sb bd si b).

(** A path that leads to the program [j]: a regular file of at most a page, whose
    inode is in memory and has a user. *)
Record program_file P s v (t : task_struct) (path : Z) (str : list Z) (root_dir j : inode) : Prop := {
  pf_path : path_ok (H := kheap_guarded true P) b (view t s) v path str root_dir;
  pf_slash : ldb (kram (ks s)) path = c_slash;
  pf_root : root_inode (fs s) ∈ vps v /\ inodes (fs s) !! root_inode (fs s) = Some root_dir;
  pf_name : components [] (strip str) <> [];
  pf_cached : exists q, cached (view t s) v (target b (view t s) str root_dir) = Some q /\ inodes (fs s) !! q = Some j;
  pf_count : 1 <= i_count j /\ i_count j + Z.of_nat (depth str) < 2 ^ 64;
  pf_regular : S_ISREG (i_mode j) = true;
  pf_size : 0 < i_size j <= 4096 }.

(** The descriptor and the entry an open file gets. *)
Definition free_slots s (t : task_struct) fd e : Prop :=
  first_index (fun p => p =? NULL) (filp t) fd /\ first_index (fun f => f_count f =? 0) (file_tbl (fs s)) e.

(** The system with the program open. *)
Record file_opened P s cur rest t v fd e j s1 v1 f n : Prop := {
  fo_system : fs_system true P s1 cur rest (with_filp (<[Z.to_nat fd := file_ptr file_base e]> (filp t)) t) v1;
  fo_open : open_file file_base (view (with_filp (<[Z.to_nat fd := file_ptr file_base e]> (filp t)) t) s1) v1 (file_ptr file_base e) f (with_count n j);
  fo_new : f_count f = 1 /\ f_pos f = 0;
  fo_count : 1 < n < 2 ^ 64;
  fo_ks : ks s1 = set_tasks (<[cur := with_filp (<[Z.to_nat fd := file_ptr file_base e]> (filp t)) t]> (tasks (ks s))) (set_kh (kh (ks s1)) (ks s));
  fo_chip : chip (fc (fs s1)) = chip (fc (fs s));
  fo_files : forall q, q <> file_ptr file_base e -> get_file file_base q (fs s1) = get_file file_base q (fs s);
  fo_client : same_client sb v v1;
  fo_bytes : forall y, storable (H := kheap_guarded true P) (vL v) y -> ldb (kram (ks s1)) y = ldb (kram (ks s)) y }.

(** The number of an inode that is in memory is not 0. *)
Lemma cached_number cl P (x : fsys kheap F) v r q i : fs_on bh_head sb bd si b cl P x v -> cached x v r = Some q -> inodes x !! q = Some i ->
  i_ino i = r /\ r <> 0.
Proof.
  intros Hf Hc Hi. pose proof (cached_in _ _ _ _ Hc) as Hin. apply find_some in Hc as [_ Hc]. rewrite Hi in Hc. apply Z.eqb_eq in Hc.
  split; [done|]. pose proof (fp_inodes Hf) as Ha. rewrite Forall_forall in Ha. destruct (Ha q Hin) as (i' & Ei & _ & [Hn|Hd]).
  - by destruct (vps_not_null _ _ _ _ _ _ _ _ _ Hf Hin).
  - assert (i' = i) as -> by congruence. pose proof (od_ino _ _ _ Hd). lia.
Qed.

Lemma open_system P s cur rest t v fuel path str i j fd e r :
  head_static (A := kheap) bh_head -> geometry b -> fs_system true P s cur rest t v -> program_file P s v t path str i j -> free_slots s t fd e ->
  (S (length str) < fuel)%nat -> room (A := kheap) (kh (ks s)) (2 + (34 * depth str + r)) ->
  exists s1 v1 f n, sys_open bh_head stale_inode file_base fuel path 0 0 s = Some (fd, s1) /\
    file_opened P s cur rest t v fd e j s1 v1 f n /\ room (A := kheap) (kh (ks s1)) r.
Proof.
  intros Hst Hgeo Hs [Q1 Q2 [Q3 Q4] Q5 (q0 & Q6 & Q7) [Q8 Q9] Q10 Q11] [Hfd He] Hfu Hr. pose proof (fy_fs Hs) as Hf.
  destruct (cached_number true P _ _ _ _ _ Hf Q6 Q7) as [Ej Ht0].
  destruct (@file_open_spec kheap F kheap_ops (kheap_guarded true P) _ bh_head stale_inode file_base sb bd si b (view t s) v fuel path str i 0 0 fd e r)
    as (ret & x & v1 & E & Hr1 & Hf1 & Hx & Hres); try done.
  { intros g L c k [Hk _]. by apply (Hst g L c k). } { exact (fy_slots Hs). } { exact (fy_files Hs). }
  destruct (Z.eqb_spec (target b (view t s) str i) 0) as [|_]; [done|]. destruct Hres as (-> & q & (Hq & _ & _) & Efi & Hcnt).
  destruct (Hcnt q0 j Q6 Q7 Q8 Q9) as (-> & j1 & Hj1 & Hb1).
  destruct (fx_inodes Hx q0 j (cached_in _ _ _ _ Q6) Q7) as (n & Hn & _). change (inodes (with_files _ x)) with (inodes x) in Hn.
  assert (j1 = with_count n j) as -> by congruence. cbn [i_count with_count] in Hb1.
  injection Efi as Etbl Ecur. change (cur_filp (view t s)) with (filp t) in Ecur. change (file_tbl (view t s)) with (file_tbl (fs s)) in Etbl.
  pose proof (fy_files Hs) as Hft. destruct He as [(g & Hge & _) _]. pose proof (arr_get_range _ _ _ Hge) as Her.
  destruct (on_fs_ran bh_head ret_from_fork switch_ret sb bd si b true _ P s cur rest t v fd x v1 Hs E Hf1) as [Eo Hs1].
  { rewrite Ecur, length_insert. apply (fy_slots Hs). } { rewrite Etbl, length_insert. exact Hft. }
  pose proof (view_ran t cur s x) as Hv. rewrite Ecur in Hs1, Hv.
  exists (ran t cur s x), v1, {| f_inode := q0; f_count := 1; f_flags := 0; f_pos := 0 |}, n. split; [exact Eo|]. split; [|exact Hr1]. split; try done.
  - rewrite Hv. split; try done. unfold get_file. rewrite file_index_of_ptr, bind_Some by (rewrite Etbl, length_insert; lia).
    rewrite Etbl. unfold arr_get. destruct (Z.leb_spec 0 e); [|lia]. apply list_lookup_insert_eq. lia.
  - change (2 ^ 64) with 18446744073709551616 in *. lia.
  - unfold ran. by rewrite Ecur.
  - exact (fx_chip Hx).
  - intros q Hqe. unfold get_file, file_index. cbn [fs ran]. rewrite Etbl, length_insert.
    destruct (_ && _ && _) eqn:Ei; [|done]. rewrite !bind_Some. unfold arr_get. destruct (Z.leb_spec 0 ((q - file_base) / sizeof_file)); [|done].
    apply list_lookup_insert_ne. intros E'. apply Hqe. apply (file_index_ptr file_base (fs s)). unfold file_index. rewrite Ei. f_equal. lia.
  - exact (fext_client_same sb _ _ _ _ _ Hx).
  - intros y Hy. exact (fx_bytes Hx y Hy).
Qed.

(** Closing the program's file gives the system back as the task found it. *)
Lemma close_system cl P s cur rest t v fd e f j n fuel :
  let t1 := with_filp (<[Z.to_nat fd := file_ptr file_base e]> (filp t)) t in
  fs_system cl P s cur rest t1 v -> arr_get (filp t) fd = Some NULL -> length (filp t) = Z.to_nat NR_OPEN ->
  get_file file_base (file_ptr file_base e) (fs s) = Some f -> f_count f = 1 -> f_inode f ∈ vps v ->
  inodes (fs s) !! f_inode f = Some (with_count n j) -> 1 < n < 2 ^ 64 ->
  exists x, on_fs (file_close bh_head file_base fuel fd) s = Some (0, ran t1 cur s x) /\ fs_system cl P (ran t1 cur s x) cur rest t v /\
    cur_filp x = filp t /\ fc x = fc (view t1 s) /\
    (exists g, get_file file_base (file_ptr file_base e) x = Some g /\ f_count g = 0) /\
    (forall q, q <> file_ptr file_base e -> get_file file_base q x = get_file file_base q (fs s)).
Proof.
  intros t1 Hs Hfd Hl Hg Hc Hin Hi Hn. pose proof (arr_get_range _ _ _ Hfd) as Hr.
  assert (Hfd' : arr_get (filp t1) fd = Some (file_ptr file_base e)).
  { cbn [filp t1 with_filp]. unfold arr_get. destruct (Z.leb_spec 0 fd); [|lia]. apply list_lookup_insert_eq. lia. }
  destruct (@file_close_spec kheap F kheap_ops (kheap_guarded cl P) _ bh_head sb bd si b file_base (view t1 s) v fuel fd (file_ptr file_base e) f (with_count n j))
    as (x & E & Hf & Ex & _ & Hg' & Hq); try done.
  { exact (fy_fs Hs). } { unfold NR_OPEN in *. lia. } { by rewrite Hc. }
  assert (Ecur : cur_filp x = filp t).
  { rewrite Ex. cbn. rewrite list_insert_insert_eq. apply list_insert_id. unfold arr_get in Hfd. by destruct (Z.leb_spec 0 fd). }
  destruct (on_fs_ran bh_head ret_from_fork switch_ret sb bd si b cl _ P s cur rest t1 v 0 x v Hs E Hf) as [Eo Hs'].
  { by rewrite Ecur. }
  { change (file_tbl (fs s)) with (file_tbl (view t1 s)) in *. pose proof (fy_files Hs) as Hft.
    pose proof (same_files_le file_base x (view t1 s) _ _ Hg Hq). change (file_tbl (view t1 s)) with (file_tbl (fs s)) in *.
    pose proof (same_files_le file_base (view t1 s) x _ _ Hg' (fun q Hne => eq_sym (Hq q Hne))).
    change (file_tbl (view t1 s)) with (file_tbl (fs s)) in *. lia. }
  exists x. split; [exact Eo|]. split; [|split_and!; try done].
  - rewrite Ecur in Hs'. by replace (with_filp (filp t) t1) with t in Hs' by (by destruct t).
  - by rewrite Ex.
  - eexists. split; [exact Hg'|]. cbn. lia.
Qed.

(** What [sys_execv] leaves: a process made, and the open files as before. *)
Definition executed P s cur rest t v s' v' P' p mm root e size prog : Prop :=
  process_made (stays_clean size) P s cur rest t v s' v' P' p mm root size prog /\
  (exists g, get_file file_base (file_ptr file_base e) (fs s') = Some g /\ f_count g = 0) /\
  (forall q, q <> file_ptr file_base e -> get_file file_base q (fs s') = get_file file_base q (fs s)).

(** A process made between opening a file and closing it. *)
Lemma made_between cl P s cur rest t v fd e j s1 v1 f n s2 v2 P' p mm root size prog x :
  let t1 := with_filp (<[Z.to_nat fd := file_ptr file_base e]> (filp t)) t in
  tasks (ks s) !! cur = Some t -> file_opened P s cur rest t v fd e j s1 v1 f n ->
  process_made cl P s1 cur rest t1 v1 s2 v2 P' p mm root size prog ->
  (forall l1 l2, fs_system cl P' s2 cur (l1 ++ p :: l2) t1 v2 -> fs_system cl P' (ran t1 cur s2 x) cur (l1 ++ p :: l2) t v2) ->
  cur_filp x = filp t -> fc x = fc (view t1 s2) ->
  process_made cl P s cur rest t v (ran t1 cur s2 x) v2 P' p mm root size prog.
Proof.
  intros t1 Ht [_ _ _ _ Eks Ech _ Hcl Hby] [(l1 & l2 & El & Ehd & Hs2) Hgd (tp & T1 & T2) Hpage Hprog Hap Hfr Hch Hoth Hbl] Hclose Ecur Efc.
  assert (Hcp : cur <> p) by (intros ->; apply (proj2 Hpage); by left).
  assert (Ekr : kram (ks (ran t1 cur s2 x)) = kram (ks s2)) by (unfold kram; cbn; by rewrite Efc).
  split; rewrite ?Ekr; try done.
  - exists l1, l2. split; [done|]. split; [by rewrite Ehd, Eks|]. by apply Hclose.
  - exists tp. split; [|exact T2]. cbn [ks ran tasks set_tasks]. rewrite T1, Eks, Ecur. cbn [tasks set_tasks].
    replace (with_filp (filp t) t1) with t by (by destruct t). rewrite insert_insert_ne by done.
    by rewrite insert_insert_eq, (insert_id (tasks (ks s)) cur t Ht).
  - intros a Ha. change (frames (ks (ran t1 cur s2 x))) with (frames (ks s2)). rewrite Hfr by done. by rewrite Eks.
  - change (chip (fc x) = chip (fc (fs s))). rewrite Efc. change (chip (fc (fs s2)) = chip (fc (fs s))). congruence.
  - intros y Hy. rewrite Hoth by (by apply (client_same sb P v)). apply Hby. apply (scratch_storable sb v). by apply client_scratch.
  - intros a k. rewrite Hbl, (Hcl a k). done.
Qed.

Lemma sys_execv_spec P s cur rest t v fuel path str i j fd e :
  head_static (A := kheap) bh_head -> geometry b -> fs_system true P s cur rest t v -> program_file P s v t path str i j -> free_slots s t fd e ->
  (S (length str) < fuel)%nat -> room (A := kheap) (kh (ks s)) (2 + (34 * depth str + 66)) ->
  exists s' v' P' p mm root, sys_execv bh_head stale_inode file_base ret_from_fork fuel path s = Some (0, s') /\
    executed P s cur rest t v s' v' P' p mm root e (i_size j) (d_byte (fl_data (chip (fc (fs s)))) b (i_ino j)).
Proof.
  intros Hst Hgeo Hs Hp Hsl Hfu Hr.
  destruct (open_system P s cur rest t v fuel path str i j fd e 66 Hst Hgeo Hs Hp Hsl Hfu Hr) as (s1 & v1 & f & n & Eo & Ho & Hr1).
  pose proof Ho as [Hs1 Hopen [Hc Hp0] Hn _ Ech Hfi Hcl _]. pose proof (pf_size _ _ _ _ _ _ _ _ Hp) as Hsz.
  assert (Hfd : arr_get (filp t) fd = Some NULL) by (destruct Hsl as [[(q & Hq & E%Z.eqb_eq) _] _]; by rewrite Hq, E).
  pose proof (arr_get_range _ _ _ Hfd) as Hrg.
  destruct (execv_spec bh_head stale_inode file_base ret_from_fork switch_ret sb bd si b P s1 cur rest _ v1 _ f _ fuel Hst Hs1 Hopen Hp0 Hsz)
    as (s2 & v2 & P' & p & mm & root & Ee & Hm & Hg2 & Hq2 & Efs2 & Eps2); [exact Hr1|lia|].
  pose proof Hm as [(l1 & l2 & El & _ & Hs2) _ _ _ _ _ _ _ _ _].
  destruct (close_system _ P' s2 cur (l1 ++ p :: l2) t v2 fd e (moved f (i_size j)) j n fuel Hs2 Hfd) as (x & Ec & _ & Ecur & Efc & Hge & Hqe); try done.
  { apply (fy_slots Hs). } { rewrite Eps2. apply (of_in _ _ _ _ _ _ Hopen). }
  { rewrite Efs2. apply (of_inode _ _ _ _ _ _ Hopen). }
  exists (ran (with_filp (<[Z.to_nat fd := file_ptr file_base e]> (filp t)) t) cur s2 x), v2, P', p, mm, root. split; [|split; [|split; [exact Hge|]]].
  - unfold sys_execv. pose proof (po_addr _ _ _ _ _ _ (pf_path _ _ _ _ _ _ _ _ Hp)) as Hpos. destruct (Z.eqb_spec path NULL); [unfold NULL in *; lia|].
    rewrite Eo, bind_Some. unfold cur_fd. rewrite (current_cur _ _ _ _ _ _ _ _ _ _ _ _ _ _ Hs1), (fy_task Hs1), bind_Some. cbn [filp with_filp].
    unfold arr_get. destruct (Z.leb_spec 0 fd); [|lia]. rewrite list_lookup_insert_eq, bind_Some by lia.
    rewrite Ee, bind_Some, Ec, bind_Some. done.
  - rewrite Ech in Hm. apply (made_between _ P s cur rest t v fd e j s1 v1 f n s2 v2 P' p mm root _ _ x (fy_task Hs) Ho Hm); try done.
    intros k1 k2 Hsk. destruct (close_system _ P' s2 cur (k1 ++ p :: k2) t v2 fd e (moved f (i_size j)) j n fuel Hsk Hfd) as (x' & Ec' & Hs' & Ecur' & _); try done.
    { apply (fy_slots Hs). } { rewrite Eps2. apply (of_in _ _ _ _ _ _ Hopen). }
    { rewrite Efs2. apply (of_inode _ _ _ _ _ _ Hopen). }
    rewrite Ec in Ec'. injection Ec' as Ek Ex. by subst x'.
  - intros q Hq. cbn [fs ran]. rewrite Hqe, Hq2, Hfi by done. done.
Qed.
End SysExecv.

(** ** The properties *)

Section Properties.
Context {F : Type} `{FlashDevice F}.
Variables (bh_head : Z) (stale_inode : Z -> inode) (file_base : Z) (ret_from_fork switch_ret : Z).
Variables (sb bd si : Z) (b : minix_sb_info).
Implicit Types (s : system F) (v : fview) (P : list Z) (cur : Z) (rest : list Z).
Abbreviation fs_system := (fs_system bh_head ret_from_fork switch_ret sb bd si b).

(** C5: [sys_execv] of a path that leads to a regular file of 1 to 4096 bytes whose
    inode is in memory already, with a user ([program_file]; else closing the file
    drops the inode), on a heap whose free blocks of 512 bytes are clean
    ([fs_system true]: the new [mm_struct] is taken as it comes) and with at least
    [68 + 34 * depth] free pages: it returns 0 and leaves a new process in front
    of the initial task, which will start at address 0 with the bytes the file has
    on the device at the addresses from 0 and zeros in the rest of its pages.  The
    file system, the heap and the ring keep their invariants (clean blocks too,
    unless the program was read into a block of 512 bytes); the descriptors, the
    other tasks, the device and the memory of all others are as before, and the
    entry of [file_tbl] the program was read through is free again. *)
Theorem sys_execv_correct P s cur rest t v fuel path str i j fd e :
  head_static (A := kheap) bh_head -> geometry b -> fs_system true P s cur rest t v -> program_file b P s v t path str i j -> free_slots s t fd e ->
  (S (length str) < fuel)%nat -> room (A := kheap) (kh (ks s)) (2 + (34 * depth str + 66)) ->
  exists s' v' P' p mm root, sys_execv bh_head stale_inode file_base ret_from_fork fuel path s = Some (0, s') /\
    process_made bh_head ret_from_fork switch_ret sb bd si b (stays_clean (i_size j)) P s cur rest t v s' v' P' p mm root (i_size j)
      (d_byte (fl_data (chip (fc (fs s)))) b (i_ino j)) /\
    (exists g, get_file file_base (file_ptr file_base e) (fs s') = Some g /\ f_count g = 0) /\
    (forall q, q <> file_ptr file_base e -> get_file file_base q (fs s') = get_file file_base q (fs s)).
Proof. apply sys_execv_spec. Qed.

(** C6: A new process is apart from the old ones, which may be any number: when the
    address space at [r] lies in the pages of [P] (its tables and the pages it
    maps), [sys_execv] leaves what every address means there, and the bytes, and
    the new address space maps none of them.  The descriptors and saved registers
    of the tasks on the ring and the blocks that are not the file system's (the
    [mm_struct]s) are as before, and the pages of [P] stay in use.  The pages of
    the new process join them ([P']), so the next process is apart from it too.
    The conditions are those of [sys_execv_correct]. *)
Theorem sys_execv_isolated P s cur rest t v fuel path str i j fd e :
  head_static (A := kheap) bh_head -> geometry b -> fs_system true P s cur rest t v -> program_file b P s v t path str i j -> free_slots s t fd e ->
  (S (length str) < fuel)%nat -> room (A := kheap) (kh (ks s)) (2 + (34 * depth str + 66)) ->
  exists s' v' P' p tp l1 l2, let m := kram (ks s) in let m' := kram (ks s') in let root := x20 (context tp) in
    sys_execv bh_head stale_inode file_base ret_from_fork fuel path s = Some (0, s') /\
    rest = l1 ++ l2 /\ tasks (ks s') !! p = Some tp /\ p ∉ cur :: rest /\
    (forall r, space_in P m r -> space_in P m' r /\
       (forall a, 0 <= a -> user_byte m' r a = user_byte m r a) /\
       (forall a x, 0 <= a -> user_byte m r a = Some x -> ldb m' x = ldb m x) /\
       (forall a a' x, 0 <= a -> 0 <= a' -> user_byte m' root a = Some x -> user_byte m' r a' <> Some x)) /\
    (forall q, q ∈ cur :: rest -> tasks (ks s') !! q = tasks (ks s) !! q /\
       frames (ks s') !! (q + 4096 - sizeof_pt_regs) = frames (ks s) !! (q + 4096 - sizeof_pt_regs)) /\
    (forall a n, vL v !! a = Some n -> a ∉ own sb v -> vL v' !! a = Some n /\ forall y, a <= y < a + n -> ldb m' y = ldb m y) /\
    (forall y, guard_byte P y -> ldb m' y = ldb m y) /\
    (forall k, pfn_ok k -> page_va k ∈ P -> exists c, count_of (mem_map (kphys (kh (ks s')))) k = Some c /\ c <> 0) /\
    p ∈ P' /\ (forall q, q ∈ P -> q ∈ P') /\ space_in P' m' root /\
    fs_system (stays_clean (i_size j)) P' s' cur (l1 ++ p :: l2) t v'.
Proof.
  intros Hst Hgeo Hs Hp Hsl Hfu Hr.
  destruct (sys_execv_spec bh_head stale_inode file_base ret_from_fork switch_ret sb bd si b P s cur rest t v fuel path str i j fd e)
    as (s' & v' & P' & p & mm & root & E & [(l1 & l2 & El & _ & Hs') (G1 & G2 & G3) (tp & T1 & _ & _ & T4 & _) [_ Hpage] _ Hap Hfr _ Hoth Hbl] & _); try done.
  assert (Hby : forall y, guard_byte P y -> ldb (kram (ks s')) y = ldb (kram (ks s)) y) by (intros y Hy; apply Hoth; by left).
  exists s', v', P', p, tp, l1, l2. cbn zeta. rewrite T4, T1, lookup_insert_eq. split_and!; try done.
  - intros r Hin. pose proof (space_in_kept P _ _ r Hin Hby) as Hin'. split; [done|].
    assert (Hub : forall a, 0 <= a -> user_byte (kram (ks s')) r a = user_byte (kram (ks s)) r a).
    { intros a Ha. unfold user_byte, translate. rewrite (space_in_walk P (kram (ks s))) by (done || by apply PageTable.path_ok). done. }
    split_and!; [done| |].
    + intros a x Ha Ex. apply Hby. by apply (space_in_byte P _ r a x Hin Ha).
    + intros a a' x Ha Ha' Ex Ex'. apply (Hap a x Ha Ex). by apply (space_in_byte P _ r a' x Hin' Ha').
  - intros q Hq. assert (q <> p) by (intros ->; done). split; [by rewrite lookup_insert_ne|]. apply Hfr. lia.
  - intros a n Ha Hna. split; [by destruct (proj2 (Hbl a n) (or_introl (conj Ha Hna)))|].
    intros y Hy. apply Hoth. right. by exists a, n.
  - intros k Hk Hin. destruct (fs_on_heap (fy_fs Hs')) as (_ & Hg & _). destruct (Hg k Hk) as [Hc _]; [by apply G2|exact Hc].
Qed.

(** C16: [sys_execv] of a path that leads nowhere: [file_open] fails with -3, and the
    call goes on with [current->filp[-3]], outside the array. *)
Theorem sys_execv_missing cl P s cur rest t v fuel path str i fd e :
  head_static (A := kheap) bh_head -> geometry b -> fs_system cl P s cur rest t v -> path_ok (H := kheap_guarded cl P) b (view t s) v path str i ->
  ldb (kram (ks s)) path = c_slash -> root_inode (fs s) ∈ vps v -> inodes (fs s) !! root_inode (fs s) = Some i ->
  components [] (strip str) <> [] -> target b (view t s) str i = 0 -> free_slots s t fd e ->
  (S (length str) < fuel)%nat -> room (A := kheap) (kh (ks s)) (2 + 34 * depth str) ->
  (exists s', sys_open bh_head stale_inode file_base fuel path 0 0 s = Some (-3, s') /\ cur_fd (-3) s' = None) /\
  sys_execv bh_head stale_inode file_base ret_from_fork fuel path s = None.
Proof.
  intros Hst Hgeo Hs Q1 Q2 Q3 Q4 Q5 Ht [Hfd He] Hfu Hr. pose proof (po_addr _ _ _ _ _ _ Q1) as Hpos.
  destruct (@file_open_spec kheap F kheap_ops (kheap_guarded cl P) _ bh_head stale_inode file_base sb bd si b (view t s) v fuel path str i 0 0 fd e 0)
    as (ret & x & v1 & E & _ & Hf1 & _ & Hres); try done.
  { intros g L c k [Hk _]. by apply (Hst g L c k). } { exact (fy_fs Hs). } { exact (fy_slots Hs). } { exact (fy_files Hs). }
  { by rewrite Nat.add_0_r. }
  rewrite Ht in Hres. destruct Hres as [-> Efi]. injection Efi as Etbl Ecur.
  destruct (on_fs_ran bh_head ret_from_fork switch_ret sb bd si b cl _ P s cur rest t v (-3) x v1 Hs E Hf1) as [Eo Hs1].
  { rewrite Ecur. apply (fy_slots Hs). } { rewrite Etbl. apply (fy_files Hs). }
  assert (Efd : cur_fd (-3) (ran t cur s x) = None).
  { unfold cur_fd. by rewrite (current_cur _ _ _ _ _ _ _ _ _ _ _ _ _ _ Hs1), (fy_task Hs1), bind_Some. }
  assert (Eso : sys_open bh_head stale_inode file_base fuel path 0 0 s = Some (-3, ran t cur s x)) by exact Eo.
  split; [by exists (ran t cur s x)|].
  unfold sys_execv. destruct (Z.eqb_spec path NULL); [unfold NULL in *; lia|].
  by rewrite Eso, bind_Some, Efd.
Qed.
End Properties.

(** ** On the device of Mount.v *)

(** The system after boot: the file system mounted, inode 2 in memory; the path
    "/user_code.bin" is at 8192, the path "/x" at 8300. *)
Definition task0 : task_struct := with_state TASK_RUNNING (with_canary CANARY_MAGIC_NUM zero_task).
Definition fsys_paths : fsys kheap board_flash := set_fc (set_mem (put (fmem fsys_blank) 8300 [c_slash; 120; 0]) (fc fsys_blank)) fsys_blank.
Definition booted_system (x : fsys kheap board_flash) : system board_flash := {| ks := set_kh (cheap (fc x)) ksys0; fs := x; con := [] |}.

Lemma guard_init0 h L : guarded [init0] h L.
Proof. intros k Hk Hin%list_elem_of_singleton. unfold pfn_ok in Hk. unfold page_va, init0 in Hin. lia. Qed.

Lemma head_static_init0 : head_static (H := kheap_guarded true [init0]) bh_head0.
Proof. intros h L a n [Hk _]. by apply (head_static0 h L a n). Qed.

Lemma low_storable L x : 0 <= x < 2 ^ 30 -> storable (H := kheap_guarded true [init0]) L x.
Proof.
  intros Hx. left. intros [Ha _]. destruct (user_storable x Hx) as [Hn|(a & n & [=] & _)]. by apply Hn.
Qed.

Lemma paths_ok : cache_ok (H := kheap_guarded true [init0]) bh_head0 (fc fsys_paths) ∅ [].
Proof.
  destruct (cache_store bh_head0 (fc fsys_blank) ∅ [] (put (fmem fsys_blank) 8300 [c_slash; 120; 0]) blank_ok) as [[C1 C2 C3 C4 C5] _].
  - intros x. rewrite ldb_put. destruct (_ && _) eqn:Ex; [left|by right].
    apply andb_true_iff in Ex as [Ex1%Z.leb_le Ex2%Z.ltb_lt]. apply user_storable. change (2 ^ 30) with 1073741824. cbn in *. lia.
  - split; [exact C1|exact C2|exact C3|split_and!; [exact C4|apply guard_init0|intros _; apply kclean_empty]|exact C5].
Qed.

Lemma path_at (x : fsys kheap board_flash) v b i str a :
  cstr (fmem fsys_paths) a str -> 0 < a -> a + Z.of_nat (length str) < 2 ^ 30 -> (length str <= 251)%nat ->
  (forall y, storable (H := kheap_guarded true [init0]) ∅ y -> ldb (fmem x) y = ldb (fmem fsys_paths) y) ->
  walkable (fl_data (chip (fc x))) b (i_ino i) (components [] (strip str)) -> path_ok (H := kheap_guarded true [init0]) b x v a str i.
Proof.
  intros Hc Ha Hlt Hl Hb Hw. split; [|done| |lia|by apply reusable_short|done].
  - apply (cstr_agree (fmem fsys_paths)); [|done]. intros y Hy. apply Hb, low_storable. lia.
  - intros y Hy. apply low_storable. lia.
Qed.

(** No entry has the name "x". *)
Lemma path1_facts b : super_on_disk (fl_data chip0) b ->
  resolve (fl_data chip0) b 1 (components [] (strip [c_slash; 120])) = 0 /\ walkable (fl_data chip0) b 1 (components [] (strip [c_slash; 120])).
Proof.
  destruct b as [ni nz im zm fd lz ms x1 x2 x3 x4]. unfold super_on_disk. cbn [s_ninodes s_nzones s_imap_blocks s_zmap_blocks s_firstdatazone s_log_zone_size s_max_size].
  intros (E1 & _ & E2 & E3 & _).
  assert (ni = 32) as -> by (rewrite E1; vm_compute; reflexivity).
  assert (im = 1) as -> by (rewrite E2; vm_compute; reflexivity).
  assert (zm = 1) as -> by (rewrite E3; vm_compute; reflexivity). clear.
  split; [vm_compute; reflexivity|]. vm_compute. split_and!; reflexivity || discriminate || exact I.
Qed.

(** What [init_fs] and one [minix_iget] leave, with the scheduler's state. *)
Lemma booted_program : exists s v sb bd si b i j,
  fs_system bh_head0 1 2 sb bd si b true [init0] s init0 [] task0 v /\ geometry b /\ super_on_disk (fl_data chip0) b /\ chip (fc (fs s)) = chip0 /\
  program_file b [init0] s v task0 8192 path0 i j /\ i_ino j = 2 /\ i_size j = 24 /\ free_slots s task0 0 0 /\
  room (A := kheap) (kh (ks s)) 300 /\
  path_ok (H := kheap_guarded true [init0]) b (view task0 s) v 8300 [c_slash; 120] i /\ target b (view task0 s) [c_slash; 120] i = 0.
Proof.
  destruct (@init_fs_spec kheap board_flash kheap_ops (kheap_guarded true [init0]) _ bh_head0 (fun _ => file0) fsys_paths ∅ 306 head_static_init0 paths_ok chip0_mountable)
    as (s1 & v1 & sb & bd & si & b & root & _ & Hm & Hr).
  { exact (room_boot 334 ltac:(lia)). }
  pose proof (mt_ok Hm) as Hf1. pose proof (mt_super Hm) as Hb. change (chip (fc fsys_paths)) with chip0 in Hb.
  pose proof (mt_root Hm) as (Hroot & Hin & Hv1 & i1 & Hi1 & Ei1 & Ec1). destruct (mt_files Hm) as [Efi _]. change (i_ino i1 = 1) in Ei1.
  assert (Hn : s_ninodes b = 32) by (destruct Hb as (-> & _); vm_compute; reflexivity).
  destruct (@minix_iget_spec kheap board_flash kheap_ops (kheap_guarded true [init0]) _ bh_head0 (fun _ => file0) sb bd si b s1 v1 2 300 head_static_init0 (mt_geometry Hm) Hf1)
    as (p & j & x & v & _ & Hf & Hx & Hr2 & Hp & Hp0 & Hj & Ej & Hca & Hcase); [lia|exact Hr|].
  assert (Hnone : cached s1 v1 2 = None).
  { unfold cached. rewrite Hv1. cbn [numbered List.find]. by rewrite Hi1, Ei1. }
  rewrite Hnone in Hcase. destruct Hcase as [Hcj Hv].
  destruct (fx_inodes Hx root i1 Hin Hi1) as (n & Hi & _).
  assert (Ech : chip (fc x) = chip0) by (rewrite (fx_chip Hx); exact (mt_chip Hm)).
  assert (Exst : root_inode x = root /\ cur_filp x = filp task0 /\ file_tbl x = file_tbl fsys_blank).
  { injection Efi as E3 E4. rewrite (fx_state Hx). cbn [root_inode cur_filp file_tbl set_inodes set_fc]. by rewrite E3, E4. }
  destruct Exst as (Er & Ecur & Etbl).
  assert (Hby : forall y, storable (H := kheap_guarded true [init0]) ∅ y -> ldb (fmem x) y = ldb (fmem fsys_paths) y).
  { intros y Hy. rewrite (fx_bytes Hx) by (by apply (storable_sub ∅); [apply (mt_live Hm)|]). by apply (mt_bytes Hm). }
  assert (Hview : view task0 (booted_system x) = x) by (unfold view; rewrite <- Ecur; by destruct x as [[]]).
  destruct (path0_facts b Hb) as (Ht & Hw & Hsz & Hmo & _).
  assert (Hd : on_disk (fl_data chip0) b j).
  { pose proof (fp_inodes Hf) as Ha. rewrite Forall_forall in Ha. destruct (Ha p Hp) as (j' & Ej' & _ & [?|Hd]); [done|].
    rewrite Ech in Hd. by assert (j' = j) as -> by congruence. }
  assert (Hpath : path_ok (H := kheap_guarded true [init0]) b x v 8192 path0 (with_count n i1)).
  { apply path_at; [|lia|cbn; change (2 ^ 30) with 1073741824; lia|cbn; lia|exact Hby|].
    - split; [|split]; [vm_compute; reflexivity|repeat constructor; done|vm_compute; reflexivity].
    - cbn [i_ino with_count]. by rewrite Ech, Ei1. }
  exists (booted_system x), v, sb, bd, si, b, (with_count n i1), j.
  split; [|split; [exact (mt_geometry Hm)|split; [exact Hb|split; [exact Ech|]]]].
  { split; rewrite ?Hview.
    - refine (ring_update_pages 1 2 ksys0 (ks (booted_system x)) init0 [] task0 task0 ksys0_ring (lookup_singleton_eq _ _) (lookup_singleton_eq _ _)
        eq_refl (fun p _ => eq_refl) (fun p _ => eq_refl) (fun p _ => eq_refl) eq_refl eq_refl _).
      intros k Hk Hin'%list_elem_of_singleton. unfold pfn_ok in Hk. unfold page_va, init0 in Hin'. lia.
    - split; discriminate || reflexivity.
    - apply lookup_singleton_eq.
    - split; discriminate || reflexivity.
    - intros q Hq. exact Hq.
    - exact Hf.
    - reflexivity.
    - exact (f_equal length Etbl). }
  split; [split; rewrite ?Hview|].
  - exact Hpath.
  - exact (proj1 (proj1 (cstr_cons _ _ _ _) (po_string _ _ _ _ _ _ Hpath))).
  - cbn [fs booted_system]. rewrite Er. split; [by apply (fx_ps Hx)|exact Hi].
  - vm_compute. discriminate.
  - exists p. split; [|exact Hj]. unfold target. cbn [i_ino with_count]. by rewrite Ech, Ei1, Ht.
  - rewrite Hcj. split; [lia|]. vm_compute. reflexivity.
  - by rewrite (od_mode _ _ _ Hd), Ej, Hmo.
  - rewrite (od_size _ _ _ Hd), Ej, Hsz. lia.
  - split; [exact Ej|]. split; [by rewrite (od_size _ _ _ Hd), Ej, Hsz|]. split; [|split; [exact Hr2|]].
    + split; [exact (first_index_head _ 0 (replicate 31 0) eq_refl)|]. cbn [fs booted_system]. rewrite Etbl.
      exact (first_index_head _ _ (replicate 63 {| f_inode := 0; f_count := 0; f_flags := 0; f_pos := 0 |}) eq_refl).
    + rewrite Hview. split.
      * apply path_at; [|lia|cbn; change (2 ^ 30) with 1073741824; lia|cbn; lia|exact Hby|].
        { split; [|split]; [vm_compute; reflexivity|repeat constructor; done|vm_compute; reflexivity]. }
        cbn [i_ino with_count]. rewrite Ech, Ei1. exact (proj2 (path1_facts b Hb)).
      * unfold target. cbn [i_ino with_count]. rewrite Ech, Ei1. exact (proj1 (path1_facts b Hb)).
Qed.

Example sys_execv_correct_witness :
  exists s s' k root, ring 1 2 (ks s) init0 [] /\ sys_execv bh_head0 (fun _ => file0) 4096 1 100 8192 s = Some (0, s') /\
    ring 1 2 (ks s') init0 [page_va k] /\ forall j, 0 <= j < 24 -> exists x, user_byte (kram (ks s')) root j = Some x /\ ldb (kram (ks s')) x = j + 1.
Proof.
  destruct booted_program as (s & v & sb & bd & si & b & i & j & Hs & Hgeo & Hb & Ech & Hp & Ej & Esz & Hsl & Hr & _).
  destruct (sys_execv_correct bh_head0 (fun _ => file0) 4096 1 2 sb bd si b [init0] s init0 [] task0 v 100 8192 path0 i j 0 0
    head_static0 Hgeo Hs Hp Hsl) as (s' & v' & P' & p & mm & root & E & Hm & _).
  - cbn. lia.
  - apply (room_le _ _ _ Hr). cbn. lia.
  - destruct (pm_ring Hm) as (l1 & l2 & El & _ & Hs'). symmetry in El. apply app_eq_nil in El as [-> ->].
    destruct (pm_page Hm) as [[k Ek] _]. subst p. destruct (pm_program Hm) as [[Hby _ _] _].
    exists s, s', k, root. split; [exact (fy_ring Hs)|]. split; [exact E|]. split; [exact (fy_ring Hs')|].
    intros y Hy. rewrite Esz in Hby. destruct (Hby y Hy) as (x & Ex & Hx). exists x. split; [exact Ex|].
    rewrite Hx, Ech, Ej. apply path0_byte; [exact Hb|exact Hy].
Defined.

(** A string put into memory. *)
Lemma cstr_put (m : mem) a str :
  Forall (fun c => 0 < c < 256) str -> cstr (put m a (str ++ [0])) a str.
Proof.
  intros Hs. rewrite Forall_forall in Hs.
  assert (Hb : forall i c, (str ++ [0]) !! i = Some c -> ldb (put m a (str ++ [0])) (a + Z.of_nat i) = u8 c).
  { intros i c Hi. pose proof (lookup_lt_Some _ _ _ Hi). rewrite ldb_put.
    destruct (Z.leb_spec a (a + Z.of_nat i)); [|lia]. destruct (Z.ltb_spec (a + Z.of_nat i) (a + Z.of_nat (length (str ++ [0])))); [|lia].
    cbn [andb]. replace (Z.to_nat (a + Z.of_nat i - a)) with i by lia. by rewrite Hi. }
  split_and!.
  - apply list_eq_same_length with (n := length str); [done|apply length_bytes|]. intros i x y Hi Hx Hy.
    unfold bytes in Hx. rewrite list_lookup_fmap, lookup_seq_lt in Hx by done. injection Hx as <-.
    rewrite (Hb i y) by (by apply lookup_app_l_Some). apply wrap_small. change (2 ^ 8) with 256.
    pose proof (Hs y (list_elem_of_lookup_2 _ _ _ Hy)). lia.
  - apply Forall_forall. intros c Hc. pose proof (Hs c Hc). lia.
  - rewrite (Hb _ 0); [done|]. rewrite lookup_app_r by lia. by rewrite Nat.sub_diag.
Qed.

(** A block of the heap with a string in it. *)
Lemma string_system cl P (s : system board_flash) v sb bd si b cur rest t str n :
  fs_system bh_head0 1 2 sb bd si b cl P s cur rest t v -> room (A := kheap) (kh (ks s)) (2 + n) -> (length str < 4000)%nat ->
  Forall (fun c => 0 < c < 256) str ->
  exists a m h, let v' := {| vL := <[a := m]> (vL v); vbl := vbl v; vps := vps v |} in
    fs_system bh_head0 1 2 sb bd si b cl P (with_heap h s) cur rest t v' /\ room (A := kheap) h n /\
    Z.of_nat (length str) < m /\ 0 < a /\ cstr (ram (kphys h)) a str.
Proof.
  intros Hs Hr Hl Hc.
  destruct (falloc_heap bh_head0 1 2 sb bd si b cl P s cur rest t v (Z.of_nat (length str) + 1) n Hs Hr ltac:(lia))
    as (a & m & h & _ & Hs1 & Hna & Hm & Hr1 & _).
  set (v1 := {| vL := <[a := m]> (vL v); vbl := vbl v; vps := vps v |}) in *.
  assert (Hown : a ∉ own sb v1).
  { intros Ho. destruct (@own_live kheap board_flash kheap_ops (kheap_guarded cl P) _ bh_head0 sb bd si b NULL _ _ a (fy_fs Hs) Ho). congruence. }
  set (w := put (ram (kphys h)) a (str ++ [0])).
  destruct (@set_fmem_part kheap board_flash kheap_ops (kheap_guarded cl P) _ bh_head0 sb bd si b NULL (view t (with_heap h s)) v1 w (fy_fs Hs1))
    as (Hf & _ & Hr').
  { intros x. change (fmem (view t (with_heap h s))) with (ram (kphys h)). unfold w. rewrite ldb_put. destruct (_ && _) eqn:Ex; [left|by right].
    apply andb_true_iff in Ex as [Ex1%Z.leb_le Ex2%Z.ltb_lt]. rewrite length_app in Ex2. cbn [length] in Ex2.
    right. exists a, m. split; [apply lookup_insert_eq|]. split; [exact Hown|]. lia. }
  destruct (fs_on_heap (fy_fs Hs1)) as (Hk & _). destruct (kinv_range _ _ a m Hk (lookup_insert_eq _ _ _)) as (Ha & _).
  exists a, m, (set_kram w h). cbn zeta. split; [|split; [exact (Hr' n Hr1)|split; [lia|split; [exact Ha|exact (cstr_put _ a str Hc)]]]].
  exact (with_heap_system bh_head0 1 2 sb bd si b cl P (with_heap h s) cur rest t v1 (set_kram w h) v1 Hs1 Hf).
Qed.

(** Two processes: the initial task and one made by [copy_process], whose program
    is the path; the path is in a block of the heap. *)
Lemma two_processes : exists s v sb bd si b i j P p a root,
  fs_system bh_head0 1 2 sb bd si b true P s init0 [p] task0 v /\ geometry b /\
  program_file b P s v task0 a path0 i j /\ free_slots s task0 0 0 /\ room (A := kheap) (kh (ks s)) 200 /\
  space_in P (kram (ks s)) root /\ exists x, user_byte (kram (ks s)) root 0 = Some x /\ ldb (kram (ks s)) x = c_slash.
Proof.
  destruct booted_program as (s0 & v0 & sb & bd & si & b & i & j & Hs0 & Hgeo & _ & Ech & [Q1 _ Q3 Q4 (q & Q5 & Q5') Q6 Q7 Q8] & _ & _ & Hsl & Hr0 & Hp1 & _).
  destruct (string_system true [init0] s0 v0 sb bd si b init0 [] task0 path0 298 Hs0) as (a & m & h & Hs1 & Hr1 & Hm & Ha & Hstr).
  { apply (room_le _ _ _ Hr0). lia. } { cbn. lia. } { repeat constructor; done. }
  cbn zeta in Hs1. set (v1 := {| vL := <[a := m]> (vL v0); vbl := vbl v0; vps := vps v0 |}) in *. set (s1 := with_heap h s0) in *.
  assert (Hown : forall x, a <= x <= a + Z.of_nat (length path0) -> owned (vL v1) x).
  { intros x Hx. exists a, m. split; [apply lookup_insert_eq|lia]. }
  assert (Hr1' : room (A := kheap) (kh (ks s1)) 298) by exact Hr1.
  destruct (copy_system bh_head0 1 2 sb bd si b [init0] s1 init0 [] task0 v1 a (Z.of_nat (length path0)) 265 Hs1) as
    (k & p & mm & root & l1 & l2 & P' & _ & Hr2 & Hnew & El & _ & _ & Hsp & Hs2).
  { apply (room_le _ _ _ Hr1'). lia. } { cbn. lia. } { intros x Hx. apply Hown. lia. }
  symmetry in El. apply app_eq_nil in El as [-> ->]. cbn [app] in Hs2.
  pose proof Hnew as [_ _ _ _ _ [_ Hmm] _ Hprog _ _ _ _ Hkept _ _ _]. set (v2 := with_block mm 512 v1) in *.
  assert (Hstr2 : cstr (kram k) a path0).
  { apply (cstr_agree (ram (kphys h))); [|exact Hstr]. intros x Hx. apply Hkept, Hown. lia. }
  exists (set_ks k s1), v2, sb, bd, si, b, i, j, P', p, a, root. split; [exact Hs2|]. split; [exact Hgeo|].
  split; [split|split; [exact Hsl|split; [|split; [exact Hsp|]]]].
  - split; [exact Hstr2|exact Ha| |cbn; lia|apply reusable_short; cbn; lia|exact (po_walk _ _ _ _ _ _ Q1)].
    intros x Hx. right. destruct (Hown x Hx) as (c & n & Hc & Hcx). exists c, n. split; [|exact Hcx].
    cbn [vL v2 with_block]. rewrite lookup_insert_ne; [exact Hc|]. intros ->. congruence.
  - exact (proj1 (proj1 (cstr_cons _ _ _ _) Hstr2)).
  - exact Q3.
  - exact Q4.
  - exists q. split; [|exact Q5']. rewrite <- Q5. by apply (cached_same (view task0 s0) v0 (view task0 (set_ks k s1)) v2).
  - exact Q6.
  - exact Q7.
  - exact Q8.
  - apply (room_le _ _ 265); [|lia]. exact Hr2.
  - destruct (Hprog 0) as (x & Ex & Hx); [cbn; lia|]. exists x. split; [exact Ex|]. etransitivity; [exact Hx|].
    rewrite Z.add_0_r. exact (proj1 (proj1 (cstr_cons _ _ _ _) Hstr)).
Qed.

Example sys_execv_isolated_witness :
  exists s s' p p' root x, ring 1 2 (ks s) init0 [p] /\ user_byte (kram (ks s)) root 0 = Some x /\
    (exists a, sys_execv bh_head0 (fun _ => file0) 4096 1 100 a s = Some (0, s')) /\ tasks (ks s') !! p' <> None /\ p' <> p /\
    user_byte (kram (ks s')) root 0 = Some x /\ ldb (kram (ks s')) x = c_slash.
Proof.
  destruct two_processes as (s & v & sb & bd & si & b & i & j & P & p & a & root & Hs & Hgeo & Hp & Hsl & Hr & Hsp & x & Ex & Hx).
  destruct (sys_execv_isolated bh_head0 (fun _ => file0) 4096 1 2 sb bd si b P s init0 [p] task0 v 100 a path0 i j 0 0
    head_static0 Hgeo Hs Hp Hsl) as (s' & v' & P' & p' & tp & l1 & l2 & E & _ & Ht & Hni & Hiso & _).
  - cbn. lia.
  - apply (room_le _ _ _ Hr). cbn. lia.
  - destruct (Hiso root Hsp) as (_ & Hub & Hby & _). exists s, s', p, p', root, x.
    split; [exact (fy_ring Hs)|]. split; [exact Ex|]. split; [exists a; exact E|]. split; [congruence|].
    split; [intros ->; apply Hni; right; left|]. split; [rewrite (Hub 0 ltac:(lia)); exact Ex|]. rewrite (Hby 0 x ltac:(lia) Ex). exact Hx.
Defined.

Example sys_execv_missing_witness :
  exists s, ring 1 2 (ks s) init0 [] /\ sys_execv bh_head0 (fun _ => file0) 4096 1 100 8300 s = None.
Proof.
  destruct booted_program as (s & v & sb & bd & si & b & i & j & Hs & Hgeo & Hb & Ech & Hp & Ej & Esz & Hsl & Hr & Hp1 & Ht).
  pose proof (pf_root _ _ _ _ _ _ _ _ _ Hp) as [Hr1 Hr2].
  destruct (sys_execv_missing bh_head0 (fun _ => file0) 4096 1 2 sb bd si b true [init0] s init0 [] task0 v 100 8300 [c_slash; 120] i 0 0
    head_static0 Hgeo Hs Hp1) as [_ E].
  - exact (proj1 (proj1 (cstr_cons _ _ _ _) (po_string _ _ _ _ _ _ Hp1))).
  - exact Hr1.
  - exact Hr2.
  - vm_compute. discriminate.
  - exact Ht.
  - exact Hsl.
  - cbn. lia.
  - apply (room_le _ _ _ Hr). cbn. lia.
  - exists s. split; [exact (fy_ring Hs)|exact E].
Defined.
