(* ===== verification/Boot.v ===== *)
(** init/init_task.c: the initial task, from the entry of the C code to its
    endless loop, and the idle thread.

    [init_main] composes all of the kernel: the page tables, the interrupt
    controller and the timer, the software timers, the file system, the first
    kernel thread and the first process. *)

From S2P Require Import Prelude Mem Lib DList Page PageTable Aarch64 Kmalloc Start Gic Heap SoftTimer Buffer Task Timer Process Minix File Namei Mount Open Access Syscall Exec Report.
Local Open Scope Z_scope.

(** The kernel's state: scheduler and file system, the interrupt controller, the
    counters of timer.c, the software timers (objects, list nodes, calls), and
    what the file system and the tasks print. *)
Record boot (F G : Type) := {
  sy : system F; dev : G; bjiffies : Z; bticks : Z;
  btimers : gmap Z timer; bnodes : lheap; bcalled : list Z; reports : list report }.
#[global] Arguments sy {F G}.
#[global] Arguments dev {F G}.
#[global] Arguments bjiffies {F G}.
#[global] Arguments bticks {F G}.
#[global] Arguments btimers {F G}.
#[global] Arguments bnodes {F G}.
#[global] Arguments bcalled {F G}.
#[global] Arguments reports {F G}.

Section Boot.
Context {F G : Type} `{FlashDevice F} `{GicDevice G}.
(** Static addresses: the buffer list, the stale contents of an inode's block,
    [file_tbl], the timer list; code addresses. *)
Variables (bh_head : Z) (stale_inode : Z -> inode) (file_base timer_head : Z).
Variables (timer_handler0 idle_main ret_from_fork switch_ret : Z).
(** [stack_init_task], [pg_tbl_start], [img_end]; the strings of the paths. *)
Variables (stack_init_task pgd img_end name path : Z).
Implicit Types (b : boot F G) (k : ksys) (s : system F) (fuel : nat).

Definition with_sy s b : boot F G :=
  {| sy := s; dev := dev b; bjiffies := bjiffies b; bticks := bticks b; btimers := btimers b; bnodes := bnodes b;
     bcalled := bcalled b; reports := reports b |}.
Definition with_ks k b : boot F G := with_sy (set_ks k (sy b)) b.
Definition report_all (l : list report) b : boot F G :=
  {| sy := sy b; dev := dev b; bjiffies := bjiffies b; bticks := bticks b; btimers := btimers b; bnodes := bnodes b;
     bcalled := bcalled b; reports := reports b ++ l |}.
Definition on_bcpu (f : cpu -> cpu) b : boot F G := with_ks (on_cpu f (ks (sy b))) b.

(** The parts timer.c and soft_timer.c work on; both share [jiffies]. *)
Definition machine_of b : machine G :=
  {| sys := ks (sy b); gic := dev b; Timer.jiffies := bjiffies b; ticks := bticks b; console := con (sy b) |}.
Definition of_machine (m : machine G) b : boot F G :=
  {| sy := {| ks := sys m; fs := fs (sy b); con := console m |}; dev := gic m; bjiffies := Timer.jiffies m; bticks := ticks m;
     btimers := btimers b; bnodes := bnodes b; bcalled := bcalled b; reports := reports b |}.
Definition timers_of b : timers kheap :=
  {| heap := kh (ks (sy b)); tobjs := btimers b; tnodes := bnodes b; SoftTimer.jiffies := bjiffies b; called := bcalled b |}.
Definition of_timers (t : timers kheap) b : boot F G :=
  {| sy := set_ks (set_kh (heap t) (ks (sy b))) (sy b); dev := dev b; bjiffies := SoftTimer.jiffies t; bticks := bticks b;
     btimers := tobjs t; bnodes := tnodes t; bcalled := called t; reports := reports b |}.

(** The descriptor at the bottom of the initial stack. *)
Definition set_init_task (p : Z) k : ksys :=
  {| kh := kh k; callee := callee k; tasks := tasks k; nodes := nodes k; frames := frames k;
     callers := callers k; next_task := next_task k; init_task := p; loc := loc k |}.
Definition init_init_task k : option ksys :=
  let k := set_init_task stack_init_task k in
  let! n := INIT_LIST_HEAD (nodes k) (task_list (init_task k)) in
  let! k := upd_task (init_task k) (with_state TASK_RUNNING) (set_nodes n k) in
  upd_task (init_task k) (with_canary CANARY_MAGIC_NUM) k.

(** [init_mm] and its message. *)
Definition boot_mm b : option (boot F G) :=
  let k := ks (sy b) in
  let! '(ph, large) := init_mm pgd img_end (kphys (kh k)) in
  let b := with_ks (set_kh (set_phys ph (kh k)) k) b in
  Some (if large : bool then report_all [ImageTooLarge] b else b).

(** Up to the endless loop. *)
Definition init_main fuel b : option (boot F G) :=
  let b := on_bcpu disable_irq b in
  let! k := init_init_task (ks (sy b)) in
  let! b := boot_mm (with_ks k b) in
  let! m := timer_init fuel (machine_of b) in
  let b := of_machine m b in
  let! t := init_timer timer_head timer_handler0 (timers_of b) in
  let b := of_timers t b in
  let! '(_, s) := on_fs (fun x => let! x := init_fs bh_head stale_inode x in Some (tt, x)) (sy b) in
  let! '(l, s) := on_fs (print_root_bdev bh_head stale_inode fuel name) s in
  let b := report_all l (with_sy s b) in
  let! k := kthread_create ret_from_fork idle_main (ks (sy b)) in
  let! '(_, s) := sys_execv bh_head stale_inode file_base ret_from_fork fuel path (set_ks k (sy b)) in
  Some (on_bcpu enable_irq (with_sy s b)).

(** From the reset: [_start] with the physical addresses of the tables and the
    linked ones of the vectors and of the stack's top, then [init_main], whose
    prologue takes [frame] bytes of the stack. *)
Definition run_start (pg_tbl_start ram_tbl_start vector_table_el1 frame : Z) (r : mmu_regs) b : option (mmu_regs * boot F G) :=
  let k := ks (sy b) in
  let! r := _start pg_tbl_start ram_tbl_start vector_table_el1 (stack_init_task + 4096)
    {| r_ram := kram k; r_cpu := kcpu (kh k); r_mmu := r; r_sp := sp (callee k) |} in
  Some (r_mmu r, with_ks (set_callee (with_sp (r_sp r - frame) (callee k)) (set_kh (set_cpu (r_cpu r) (set_kram (r_ram r) (kh k))) k)) b).
Definition boot_up (pg_tbl_start ram_tbl_start vector_table_el1 frame : Z) fuel (r : mmu_regs) b : option (mmu_regs * boot F G) :=
  let! '(r, b) := run_start pg_tbl_start ram_tbl_start vector_table_el1 frame r b in
  let! b := init_main fuel b in Some (r, b).

(** One round of the loops of [init_main] and [idle_main]. *)
Definition init_round fuel b : option (boot F G) :=
  let b := report_all [InitRuns] b in let! _ := kdelay fuel in Some b.
Definition idle_round fuel b : option (boot F G) :=
  let b := report_all [IdleRuns] b in let! _ := kdelay fuel in Some b.
End Boot.

(** ** The initial task *)

Section Stages.
Context {F G : Type} `{FlashDevice F} `{GicDevice G}.
Variables (ret_from_fork switch_ret : Z).
Implicit Types (k : ksys) (init cur : Z) (rest : list Z).

Definition init_descriptor : task_struct := with_canary CANARY_MAGIC_NUM (with_state TASK_RUNNING zero_task).

Lemma init_init_task_spec k init t :
  is_Some (nodes k !! task_list init) -> tasks k !! init = Some t ->
  exists n, init_init_task init k = Some (set_tasks (<[init := with_canary CANARY_MAGIC_NUM (with_state TASK_RUNNING t)]> (tasks k))
      (set_nodes n (set_init_task init k))) /\ dlist n (task_list init) [].
Proof.
  intros Hn Ht. destruct (dlist_init (nodes k) (task_list init) Hn) as (n & E & Hl & _).
  exists n. split; [|done]. unfold init_init_task. cbn [nodes init_task set_init_task]. rewrite E, bind_Some.
  rewrite (upd_task_eq init _ (set_nodes n (set_init_task init k)) t Ht), bind_Some, (upd_task_eq init _ _ _ (lookup_insert_eq _ _ _)).
  cbn [tasks set_tasks set_nodes set_init_task]. by rewrite insert_insert_eq.
Qed.

(** A ring of one task, whose page is not the allocator's. *)
Lemma ring_alone k init t :
  dlist (nodes k) (task_list init) [] -> tasks k !! init = Some t -> canary t = CANARY_MAGIC_NUM -> init_task k = init ->
  init mod 4096 = 0 -> 0 < init < 2 ^ 64 - 4096 -> (forall j, pfn_ok j -> page_va j <> init) -> ring ret_from_fork switch_ret k init [].
Proof.
  intros Hl Ht Hc Hi Hal Hr Hp. split; [done| |by apply Forall_nil|rewrite Hi; by left].
  apply Forall_cons. split; [|by apply Forall_nil]. split; [done|]. split; [done|]. split; [by exists t|].
  intros j Hj E. by destruct (Hp j Hj).
Qed.

(** A page that is not the allocator's is guarded. *)
Lemma guard_outside init h L : (forall j, pfn_ok j -> page_va j <> init) -> guarded [init] h L.
Proof. intros Hp j Hj E%list_elem_of_singleton. by destruct (Hp j Hj). Qed.

(** ** The first software timer *)

Definition pool (x : Z) : Prop := page_va 0 <= x < page_va PAGING_PAGES.

Lemma pool_storable P L x : ~ pool x -> storable (H := kheap_guarded true P) L x.
Proof. intros Hx. left. intros [Hp _]. by apply Hx. Qed.

Lemma init_timer_spec P (timer_head handler : Z) (t : timers kheap) r :
  kinv (heap t) ∅ -> guarded P (heap t) ∅ -> kclean (heap t) ∅ -> dlist (tnodes t) timer_head [] -> ~ pool timer_head -> room (A := kheap) (heap t) (2 + r) ->
  exists a n t', init_timer timer_head handler t = Some t' /\ kinv (heap t') {[a := n]} /\ guarded P (heap t') {[a := n]} /\
    kclean (heap t') {[a := n]} /\ room (A := kheap) (heap t') r /\ 48 <= n < 96 /\ dlist (tnodes t') timer_head [a] /\
    tobjs t' = <[a := {| count := 100; goal := u64 (SoftTimer.jiffies t + 100); main := handler; mode := PERIODIC |}]> (tobjs t) /\
    SoftTimer.jiffies t' = SoftTimer.jiffies t /\ called t' = called t /\
    (forall x, ~ pool x -> ldb (ram (kphys (heap t'))) x = ldb (ram (kphys (heap t))) x).
Proof.
  intros Hk Hg Hc Hl Hth Hr.
  destruct (@halloc_ok kheap kheap_ops (kheap_guarded true P) (heap t) ∅ sizeof_timer r (conj Hk (conj Hg (fun _ => Hc))) Hr ltac:(done))
    as (a & n & h & E & _ & _ & _ & _ & Hn & _ & Ho & Hr' & Hb).
  change (halloc sizeof_timer (heap t)) with (alloc sizeof_timer (heap t)) in E. change sizeof_timer with 48 in Hn.
  assert (Hne : a <> timer_head).
  { intros ->. destruct (@owns_range kheap kheap_ops (kheap_guarded true P) h _ timer_head n Ho (lookup_insert_eq _ _ _)) as (_ & _ & _ & Har).
    destruct (Har timer_head ltac:(lia)) as [Hp _]. by apply Hth. }
  destruct (dlist_add (<[a := {| prev := NULL; next := NULL |}]> (tnodes t)) timer_head [] a) as (g & Eg & Hgl & _).
  - apply (dlist_frame (tnodes t)); [done|]. intros y Hy. rewrite lookup_insert_ne; [done|set_solver].
  - rewrite lookup_insert_eq. eauto.
  - set_solver.
  - eexists a, n, _. unfold init_timer, timer_add. rewrite E, bind_Some, Eg, bind_Some. split; [done|]. destruct Ho as (Hk' & Hg' & Hc').
    split_and!; try done; try lia; [by apply Hc'|]. intros x Hx. apply (Hb x). left. intros [Hp _]. by apply Hx.
Qed.
End Stages.

(** ** The file system, on the running system *)

Section Systems.
Context {F : Type} `{FlashDevice F}.
Variables (bh_head : Z) (stale_inode : Z -> inode) (ret_from_fork switch_ret : Z).
Implicit Types (s : system F) (v : fview) (P : list Z) (cur : Z) (rest : list Z) (t : task_struct).
Abbreviation runs := (runs ret_from_fork switch_ret).
Abbreviation fs_system := (fs_system bh_head ret_from_fork switch_ret).

(** From [s] to [s'] only the file system and the heap changed, and no byte
    outside the allocator's pages. *)
Record fs_only s s' : Prop := {
  fo_tasks : tasks (ks s') = tasks (ks s);
  fo_init : init_task (ks s') = init_task (ks s);
  fo_outside : forall x, ~ pool x -> ldb (kram (ks s')) x = ldb (kram (ks s)) x;
  fo_device : chip (fc (fs s')) = chip (fc (fs s));
  fo_table : file_tbl (fs s') = file_tbl (fs s) }.

Lemma fs_only_trans s1 s2 s3 : fs_only s1 s2 -> fs_only s2 s3 -> fs_only s1 s3.
Proof. intros [A1 A2 A3 A4 A5] [B1 B2 B3 B4 B5]. split; try congruence. intros x Hx. rewrite B3 by done. by apply A3. Qed.

Lemma ran_only s cur t x :
  tasks (ks s) !! cur = Some t -> cur_filp x = filp t -> chip (fc x) = chip (fc (fs s)) -> file_tbl x = file_tbl (fs s) ->
  (forall y, ~ pool y -> ldb (fmem x) y = ldb (kram (ks s)) y) -> fs_only s (ran t cur s x).
Proof.
  intros Ht Hc Hch Htb Hb. split; try done. cbn [ks ran tasks set_tasks]. rewrite Hc, with_filp_same. by apply insert_id.
Qed.

Lemma view_ran_same s cur t x : cur_filp x = filp t -> view t (ran t cur s x) = x.
Proof. intros Hc. pose proof (view_ran t cur s x) as Hv. by rewrite Hc, with_filp_same in Hv. Qed.

Lemma mount_system P s cur rest t L r :
  head_static (A := kheap) bh_head -> runs P s cur rest t -> cache_ok (H := kheap_guarded true P) bh_head (fc (view t s)) L [] ->
  let f := fl_data (chip (fc (fs s))) in
  mountable f -> length (filp t) = Z.to_nat NR_OPEN -> length (file_tbl (fs s)) = Z.to_nat NR_FILE ->
  room (A := kheap) (kh (ks s)) (20 + 4 * (Z.to_nat (d_imap_blocks f) + Z.to_nat (d_zmap_blocks f)) + r) ->
  exists s' v sb bd si b root, on_fs (fun x => let! x := init_fs bh_head stale_inode x in Some (tt, x)) s = Some (tt, s') /\
    fs_system sb bd si b true P s' cur rest t v /\ mounted (H := kheap_guarded true P) bh_head (view t s) L (view t s') v sb bd si b root /\
    fs_only s s' /\ room (A := kheap) (kh (ks s')) r.
Proof.
  intros Hst Hs Hck f Hmt Hl Htb Hr.
  destruct (@init_fs_spec kheap F kheap_ops (kheap_guarded true P) _ bh_head stale_inode (view t s) L r)
    as (x & v & sb & bd & si & b & root & E & Hm & Hr'); [|done|done|exact Hr|].
  { intros g L' c k [Hk _]. by apply (Hst g L' c k). }
  destruct (mt_files Hm) as [Efi _]. injection Efi as Etb Ecur. change (cur_filp (view t s)) with (filp t) in Ecur.
  change (file_tbl (view t s)) with (file_tbl (fs s)) in Etb.
  destruct (on_fs_enters bh_head ret_from_fork switch_ret sb bd si b true (fun x => let! x := init_fs bh_head stale_inode x in Some (tt, x)) P s cur rest t tt x v Hs)
    as [Eo Hs']; [by rewrite E|exact (mt_ok Hm)|by rewrite Ecur|by rewrite Etb|].
  rewrite Ecur, with_filp_same in Hs'.
  exists (ran t cur s x), v, sb, bd, si, b, root. split; [exact Eo|]. split; [exact Hs'|]. rewrite view_ran_same by done. split; [done|]. split; [|exact Hr'].
  apply ran_only; try done; [apply Hs|exact (mt_chip Hm)|]. intros y Hy. exact (mt_bytes Hm y (pool_storable P L y Hy)).
Qed.

Lemma print_system P s cur rest t v sb bd si b B name str i0 fuel r :
  head_static (A := kheap) bh_head -> geometry b -> fs_system sb bd si b true P s cur rest t v ->
  root_bdev (fs s) = bd -> (exists d, bdevs (fs s) !! bd = Some d /\ bd_sb d = sb) -> 3 <= s_ninodes b ->
  let f := fl_data (chip (fc (fs s))) in
  dir_ends f 696 -> dir_ends f 698 ->
  path_ok (H := kheap_guarded true P) b (view t s) v name str i0 -> i_ino i0 = 1 -> ldb (kram (ks s)) name <> c_slash ->
  (S (length str) < fuel)%nat -> (31 <= fuel)%nat ->
  (forall r, 1 <= r <= 3 -> known B (view t s) v r) -> 1 <= B -> B + 4 + Z.of_nat (depth str) < 2 ^ 64 ->
  room (A := kheap) (kh (ks s)) (34 + (34 * depth str + r)) ->
  exists l1 l2 s' v', on_fs (print_root_bdev bh_head stale_inode fuel name) s =
      Some (super_report b ++ l1 ++ inode_report b f 1 ++ inode_report b f 2 ++ inode_report b f 3 ++ l2 ++
            [if target b (view t s) str i0 =? 0 then InodeMissing else InodeFound (target b (view t s) str i0)], s') /\
    fs_system sb bd si b true P s' cur rest t v' /\ fext (H := kheap_guarded true P) sb (4 + depth str) (view t s) v (view t s') v' /\
    fs_only s s' /\ room (A := kheap) (kh (ks s')) r /\
    forall r, 1 <= r <= 3 -> held (B + 4 + Z.of_nat (depth str)) (view t s') v' r.
Proof.
  intros Hst Hgeo Hs Hrb (d & Hbd & Hsb) Hn f D1 D2 Hp Hi0 Hsl Hfu Hfu' Hk HB Hlt Hr.
  destruct (@print_minix_spec kheap F kheap_ops (kheap_guarded true P) _ bh_head stale_inode sb bd si b B (view t s) v d name str i0 fuel r)
    as (l1 & l2 & x & v' & E & Hf' & Hx & Hr' & Hh); try done.
  { intros g L' c k [Hk' _]. by apply (Hst g L' c k). } { exact (fy_fs Hs). }
  match type of E with _ = Some (?o, _) => set (out := o) in E end.
  assert (Ecur : cur_filp x = filp t) by (rewrite (fx_state Hx); done).
  assert (Etb : file_tbl x = file_tbl (fs s)) by (rewrite (fx_state Hx); done).
  destruct (on_fs_ran bh_head ret_from_fork switch_ret sb bd si b true (print_root_bdev bh_head stale_inode fuel name) P s cur rest t v out x v' Hs)
    as [Eo Hs']; [unfold print_root_bdev; change (root_bdev (view t s)) with (root_bdev (fs s)); rewrite Hrb; exact E|exact Hf'|..].
  { rewrite Ecur. apply (fy_slots Hs). } { rewrite Etb. apply (fy_files Hs). }
  rewrite Ecur, with_filp_same in Hs'. exists l1, l2, (ran t cur s x), v'. split; [exact Eo|]. split; [exact Hs'|].
  rewrite view_ran_same by done. split; [exact Hx|]. split; [|split; [exact Hr'|exact Hh]].
  apply ran_only; try done; [apply (fy_task Hs)|exact (fx_chip Hx)|]. intros y Hy. exact (fx_bytes Hx y (pool_storable P _ y Hy)).
Qed.
(** A page taken from the allocator joins the guarded ones. *)
Lemma take_page (h : kheap) (L : gmap Z Z) P n :
  kinv h L -> guarded P h L -> kclean h L -> room (A := kheap) h (S n) ->
  exists j h', kget_free_page h = Some (page_va j, h') /\ pfn_ok j /\ kinv h' L /\ guarded (page_va j :: P) h' L /\ kclean h' L /\ room (A := kheap) h' n /\
    (forall x, owned L x \/ ~ pool x -> ldb (ram (kphys h')) x = ldb (ram (kphys h)) x).
Proof.
  intros Hk Hg Hcl Hr. pose proof (kinv_map_ok h L Hk) as Hm.
  destruct (get_free_page_spec (kphys h) Hm (free_ge_one _ _ Hr)) as (j & ph & E & Hj & H0 & Hm' & _ & Hc & Hb).
  assert (Hkeep : forall x, ~ page_va j <= x < page_va j + 4096 -> ldb (ram ph) x = ldb (ram (kphys h)) x).
  { intros x Hx. rewrite Hb. zcases; lia. }
  assert (Hmono : forall i c, count_of (mem_map (kphys h)) i = Some c -> c <> 0 -> count_of (mem_map ph) i = Some c).
  { intros i c Hi Hne. rewrite Hc. zcase; [congruence|done]. }
  assert (Hno : forall a m, L !! a = Some m -> exists q, pfn_ok q /\ page_va q <= a /\ a + m <= page_va q + 4096 /\ q <> j /\ 0 < m).
  { intros a m Ha. destruct (kinv_block h L a m Hk Ha) as (Hs & _ & _ & q & Hq & H1 & H2 & H3). pose proof (sizes_facts m Hs).
    exists q. split_and!; [done..|congruence|lia]. }
  exists j, (set_phys ph h). split; [unfold kget_free_page; by rewrite E|]. split; [done|]. split; [|split; [|split; [|split]]].
  - apply kinv_frame; [done|done|exact Hmono|]. intros q c x Hq Hcq Hne Hx _. apply Hkeep.
    assert (q <> j) by congruence. unfold page_va in *. lia.
  - intros q Hq [E'|Hin]%elem_of_cons.
    + apply page_va_inj in E' as ->. split; [exists 1; split; [|done]; cbn; by rewrite Hc, Z.eqb_refl|].
      intros a m Ha Hin. destruct (Hno a m Ha) as (i & Hi & H1 & H2 & Hne & Hpos). unfold page_va in *. lia.
    + destruct (Hg q Hq Hin) as [(c & Hcq & Hne) Hbl]. split; [exists c; split; [by apply Hmono|done]|exact Hbl].
  - apply (kclean_bytes h); [done|done|]. intros q x Hq Hcq _ Hx _. apply Hkeep. assert (q <> j) by congruence. unfold page_va in *. lia.
  - eapply free_ge_alloc; [exact Hr|]. exact Hc.
  - intros x Hx. apply Hkeep. intros Hp. destruct Hx as [(a & m & Ha & Hax)|Hx].
    + destruct (Hno a m Ha) as (i & Hi & H1 & H2 & Hne & _). unfold page_va in *. lia.
    + apply Hx. unfold pool, pfn_ok in *. rewrite PAGING_PAGES_eq in *. unfold page_va in *. lia.
Qed.

(** [kthread_create] on the system. *)
Lemma create_system P s cur rest t v sb bd si b main n :
  fs_system sb bd si b true P s cur rest t v -> main <> NULL -> room (A := kheap) (kh (ks s)) (S n) ->
  exists j l1 l2 k, kthread_create ret_from_fork main (ks s) = Some k /\ rest = l1 ++ l2 /\ hd cur l2 = init_task (ks s) /\ pfn_ok j /\
    page_va j ∉ cur :: rest /\ fs_system sb bd si b true (page_va j :: P) (set_ks k s) cur (l1 ++ page_va j :: l2) t v /\
    tasks k = <[page_va j := kthread_task ret_from_fork (page_va j) main]> (tasks (ks s)) /\ init_task k = init_task (ks s) /\
    room (A := kheap) (kh k) n /\ (forall x, ~ pool x -> ldb (ram (kphys (kh k))) x = ldb (kram (ks s)) x).
Proof.
  intros Hs Hmain Hr. destruct (fs_on_heap (fy_fs Hs)) as (Hk & Hg & Hcl). specialize (Hcl eq_refl).
  change (kinv (kh (ks s)) (vL v)) in Hk. change (guarded P (kh (ks s)) (vL v)) in Hg. change (kclean (kh (ks s)) (vL v)) in Hcl.
  destruct (take_page (kh (ks s)) (vL v) P n Hk Hg Hcl Hr) as (j & h & E & Hj & Hk' & Hg' & Hcl' & Hr' & Hb).
  destruct (kthread_create_spec ret_from_fork switch_ret (ks s) cur rest t main n (fy_ring Hs) (fy_stack Hs) (fy_task Hs) (fy_preempt Hs)
    (kinv_map_ok _ _ Hk) Hr Hmain) as (j' & h' & l1 & l2 & k & Ek & E' & El & Ehd & _ & _ & Hring & Etk & Ekh & Ecal & _ & Ein).
  assert (page_va j' = page_va j /\ h' = h) as [Epj ->] by (rewrite E in E'; by injection E'). apply page_va_inj in Epj as ->.
  pose proof (ring_nodup _ _ _ _ _ Hring) as Hnd.
  assert (Hni : page_va j ∉ cur :: rest).
  { subst rest. change (cur :: l1 ++ page_va j :: l2) with ((cur :: l1) ++ page_va j :: l2) in Hnd.
    rewrite <- Permutation_middle in Hnd. by apply NoDup_cons in Hnd as [Hnd _]. }
  exists j, l1, l2, k. split_and!; try done; [|by rewrite Ekh|intros x Hx; rewrite Ekh; apply Hb; by right].
  split.
  - exact Hring.
  - cbn [ks set_ks]. rewrite Ecal. apply Hs.
  - cbn [ks set_ks]. rewrite Etk, lookup_insert_ne; [apply Hs|]. intros Ej. apply Hni. rewrite Ej. by left.
  - apply Hs.
  - intros q Hq. rewrite elem_of_cons, elem_of_app, elem_of_cons in Hq. rewrite elem_of_cons.
    destruct (decide (q = page_va j)) as [->|]; [by left|right]. apply (fy_guard Hs). subst rest.
    rewrite elem_of_cons, elem_of_app. tauto.
  - apply (fs_on_guard P); [|change (guarded (page_va j :: P) (kh k) (vL v)); by rewrite Ekh].
    pose proof (@fs_part_heap kheap F kheap_ops (kheap_guarded true P) _ bh_head sb bd si b NULL (view t s) v (kh k) (vL v) (fy_fs Hs)) as Hf.
    destruct v as [L bl ps]. cbn [vL vbl vps] in *. apply Hf; [split_and!; rewrite ?Ekh; [done| |done]|done|].
    + apply (guarded_sub (page_va j :: P)); [done|]. intros q Hq. apply elem_of_cons. by right.
    + intros a m x _ Ha Hx. change (hmem (kh k)) with (ram (kphys (kh k))). rewrite Ekh. apply Hb. left. by exists a, m.
  - apply (fy_slots Hs).
  - exact (fy_files Hs).
Qed.
End Systems.

(** ** From the entry of the C code to the file system *)

Section Entry.
Context {F G : Type} `{FlashDevice F} `{GicDevice G}.
Variables (bh_head timer_head timer_handler0 ret_from_fork switch_ret : Z).
(** The initial stack, the root of the kernel's tables (a physical address). *)
Variables (init table img_end : Z).
Implicit Types (b : boot F G) (fuel n : nat) (str : list Z).
Abbreviation ram_of b := (kram (ks (sy b))).
Abbreviation phys_of b := (kphys (kh (ks (sy b)))).

(** A string of the image: in a page that is neither the allocator's nor a table
    of the root's. *)
Record static_string (ph : phys) (a : Z) str : Prop := {
  ss_string : cstr (ram ph) a str;
  ss_addr : 0 < a;
  ss_length : (length str <= 251)%nat;
  ss_place : forall x, a <= x <= a + Z.of_nat (length str) -> foreign ph table x }.

(** What start.S and the loader leave: static data as it is initialised, the
    stack pointer in [stack_init_task], page tables with [n] pages free beside
    those [init_mm] needs, a counter with room for ten milliseconds. *)
Record at_entry b n : Prop := {
  ae_heap : kh (ks (sy b)) = kheap_init (kcpu (kh (ks (sy b)))) (phys_of b);
  ae_task : tasks (ks (sy b)) = {[init := zero_task]} /\ is_Some (nodes (ks (sy b)) !! task_list init);
  ae_stack : in_stack init (callee (ks (sy b)));
  ae_page : init mod 4096 = 0 /\ 0 < init < 2 ^ 64 - 4096 /\ forall j, pfn_ok j -> page_va j <> init;
  ae_tables : pt_wf 2 (phys_of b) table;
  ae_free : free_ge (mem_map (phys_of b)) (64 + n);
  ae_counter : 0 <= CNTFRQ_EL0 (kcpu (kh (ks (sy b)))) < 2 ^ 32 /\ 0 <= CNTVCT_EL0 (kcpu (kh (ks (sy b)))) /\
    CNTVCT_EL0 (kcpu (kh (ks (sy b)))) + 2 ^ 32 <= 2 ^ 64;
  ae_timers : dlist (bnodes b) timer_head [] /\ ~ pool timer_head;
  ae_buffers : dlist (lists (fc (fs (sy b)))) bh_head [] /\ fl_mode (chip (fc (fs (sy b)))) = ReadArray;
  ae_files : file_tbl (fs (sy b)) = replicate (Z.to_nat NR_FILE) {| f_inode := 0; f_count := 0; f_flags := 0; f_pos := 0 |} }.

(** What the stages before the file system leave. *)
Record hardware_ready b b' n a m : Prop := {
  hr_runs : runs ret_from_fork switch_ret [init] (sy b') init [] init_descriptor;
  hr_heap : kinv (kh (ks (sy b'))) {[a := m]} /\ guarded [init] (kh (ks (sy b'))) {[a := m]} /\ kclean (kh (ks (sy b'))) {[a := m]};
  hr_room : room (A := kheap) (kh (ks (sy b'))) n;
  hr_task : tasks (ks (sy b')) = {[init := init_descriptor]} /\ init_task (ks (sy b')) = init;
  hr_bytes : forall x, foreign (phys_of b) table x -> ldb (ram_of b') x = ldb (ram_of b) x;
  hr_fs : fs (sy b') = fs (sy b);
  hr_gic : forall i, GIC_INTNO_PPI0 <= i < GIC_INT_MAX -> enabled (look (dev b')) i = (i =? TIMER_IRQ);
  hr_ticks : bticks b' = 10 * (CNTFRQ_EL0 (kcpu (kh (ks (sy b)))) / 1000) /\ bjiffies b' = bjiffies b;
  hr_timer : 48 <= m < 96 /\ dlist (bnodes b') timer_head [a] /\
    btimers b' !! a = Some {| count := 100; goal := u64 (bjiffies b + 100); main := timer_handler0; mode := PERIODIC |};
  hr_reports : reports b' = reports b ++ if HIGH_MEM <? __pa img_end then [ImageTooLarge] else [] }.

Lemma kheap_init_update (h : kheap) c ph : h = kheap_init (kcpu h) (kphys h) -> set_phys ph (set_cpu c h) = kheap_init c ph.
Proof. destruct h. unfold kheap_init. cbn. intros E. injection E as -> -> ->. reflexivity. Qed.

(** [init_init_task] and [init_mm]. *)
Lemma memory_stages b n :
  at_entry b n ->
  exists k b2 ph, init_init_task init (ks (sy (on_bcpu disable_irq b))) = Some k /\
    boot_mm (__va table) img_end (with_ks k (on_bcpu disable_irq b)) = Some b2 /\
    ks (sy b2) = set_kh (kheap_init (disable_irq (kcpu (kh (ks (sy b))))) ph) k /\ map_ok (mem_map ph) /\ free_ge (mem_map ph) n /\
    (forall x, foreign (phys_of b) table x -> ldb (ram ph) x = ldb (ram_of b) x) /\
    tasks k = {[init := init_descriptor]} /\ init_task k = init /\ callee k = callee (ks (sy b)) /\ dlist (nodes k) (task_list init) [] /\
    fs (sy b2) = fs (sy b) /\ dev b2 = dev b /\ bjiffies b2 = bjiffies b /\ btimers b2 = btimers b /\ bnodes b2 = bnodes b /\
    reports b2 = reports b ++ if HIGH_MEM <? __pa img_end then [ImageTooLarge] else [].
Proof.
  intros [Hh [Ht Hn] _ _ Hwf Hfr _ _ _ _].
  destruct (init_init_task_spec (ks (sy (on_bcpu disable_irq b))) init zero_task) as (nd & E1 & Hl); [exact Hn|cbn; rewrite Ht; apply lookup_insert_eq|].
  cbn [sy on_bcpu with_ks with_sy ks set_ks tasks on_cpu set_kh] in E1. rewrite Ht in E1.
  change (<[init := ?x]> {[init := zero_task]}) with (<[init := x]> (<[init := zero_task]> (∅ : gmap Z task_struct))) in E1.
  rewrite insert_insert_eq in E1.
  match type of E1 with _ = Some ?k' => set (k := k') in E1 end.
  destruct (init_mm_spec (phys_of b) table img_end n Hwf Hfr) as (ph & E2 & Hwf' & Hfr' & Hb & _).
  exists k. eexists _, ph. split; [exact E1|]. unfold boot_mm.
  change (kphys (kh (ks (sy (with_ks k (on_bcpu disable_irq b)))))) with (phys_of b). rewrite E2, bind_Some. split; [reflexivity|].
  split; [|split; [apply (wf_map _ _ _ Hwf')|split; [exact Hfr'|split; [exact Hb|]]]].
  - destruct (HIGH_MEM <? __pa img_end); cbn; f_equal; by apply kheap_init_update.
  - destruct (HIGH_MEM <? __pa img_end); split_and!; try done; cbn; by rewrite app_nil_r.
Qed.
(** [timer_init] and [init_timer]. *)
Lemma hardware_stages b fuel n :
  at_entry b (2 + n) ->
  exists k b2 m t a sz, init_init_task init (ks (sy (on_bcpu disable_irq b))) = Some k /\
    boot_mm (__va table) img_end (with_ks k (on_bcpu disable_irq b)) = Some b2 /\
    timer_init fuel (machine_of b2) = Some m /\
    init_timer timer_head timer_handler0 (timers_of (of_machine m b2)) = Some t /\
    hardware_ready b (of_timers t (of_machine m b2)) n a sz.
Proof.
  intros Ha. destruct (memory_stages b (2 + n) Ha)
    as (k & b2 & ph & E1 & E2 & Ek & Hm & Hfr & Hb & Htk & Hin & Hcal & Hl & Efs & Edev & Ej & Etm & End & Erp).
  destruct Ha as [_ _ Hst (Hal & Hrg & Hpg) _ _ (Hf & Hv & Hv') [Htl Hth] _ _].
  destruct (timer_init_spec fuel (machine_of b2)) as (m & E3 & (f & Esys) & Eco & Eti & _ & _ & _ & Hen & Ejm);
    try (unfold mcpu; cbn [sys machine_of gic]; rewrite ?Ek, ?Edev; done).
  unfold mcpu in Eti. cbn [sys machine_of gic Timer.jiffies] in Esys, Eti, Ejm. rewrite Ek in Esys, Eti. cbn [kcpu kh set_kh kheap_init] in Eti.
  set (b3 := of_machine m b2).
  set (c := f (disable_irq (kcpu (kh (ks (sy b)))))).
  assert (Ek3 : ks (sy b3) = set_kh (kheap_init c ph) k) by (cbn [sy of_machine ks b3]; rewrite Esys; reflexivity).
  destruct (init_timer_spec [init] timer_head timer_handler0 (timers_of b3) n) as (a & sz & t & E4 & Hk & Hgd & Hcl & Hr & Hsz & Htl' & Eto & Ejt & _ & Hbt).
  { cbn [heap timers_of]. rewrite Ek3. by apply kinv_init. } { by apply guard_outside. } { apply kclean_empty. }
  { cbn [tnodes timers_of bnodes of_machine b3]. by rewrite End. } { done. } { cbn [heap timers_of]. rewrite Ek3. exact Hfr. }
  exists k, b2, m, t, a, sz. split_and!; [done..|]. fold b3. cbn [heap timers_of] in Hbt. rewrite Ek3 in Hbt.
  assert (Eks : ks (sy (of_timers t b3)) = set_kh (heap t) k) by (cbn [sy of_timers ks set_ks]; rewrite Ek3; reflexivity).
  assert (Ejb : SoftTimer.jiffies (timers_of b3) = bjiffies b) by (cbn [timers_of SoftTimer.jiffies bjiffies of_machine b3]; by rewrite Ejm).
  split; rewrite ?Eks; try done.
  - split; rewrite ?Eks.
    + apply (ring_alone _ _ _ init init_descriptor); try done. cbn [tasks set_kh]. rewrite Htk. apply lookup_singleton_eq.
    + cbn [callee set_kh]. by rewrite Hcal.
    + cbn [tasks set_kh]. rewrite Htk. apply lookup_singleton_eq.
    + split; discriminate || reflexivity.
    + done.
  - intros x Hx. unfold kram at 1. cbn [kh set_kh]. rewrite Hbt by apply Hx. by apply Hb.
  - split; [done|]. cbn [bjiffies of_timers]. by rewrite Ejt.
  - split; [done|]. split; [done|]. cbn [btimers of_timers]. by rewrite Eto, lookup_insert_eq, Ejb.
Qed.
End Entry.

(** ** The file system, the idle thread and the first process *)

Section Start.
Context {F G : Type} `{FlashDevice F} `{GicDevice G}.
Variables (bh_head : Z) (stale_inode : Z -> inode) (file_base timer_head timer_handler0 idle_main ret_from_fork switch_ret : Z).
Variables (init table img_end name path : Z) (str1 str2 : list Z).
Implicit Types (b : boot F G) (s : system F) (v : fview) (fuel n : nat) (f : Z -> Z) (u : minix_sb_info).
Abbreviation fs_system := (fs_system bh_head ret_from_fork switch_ret).
Abbreviation goal_of f u := (resolve f u 1 (components [] (strip str2))).

(** A device to boot from: a file system with the inodes 1, 2 and 3, whose
    blocks 696 and 698 have an entry without inode, and on which [str2] leads to
    one of these inodes, a regular file of 1 to 4096 bytes. *)
Record bootable f : Prop := {
  bo_mount : mountable f /\ 3 <= dld 2 f 1024;
  bo_dirs : dir_ends f 696 /\ dir_ends f 698;
  bo_walk : forall u, super_on_disk f u -> walkable f u 1 (components [] (strip str1)) /\ walkable f u 1 (components [] (strip str2));
  bo_file : forall u, super_on_disk f u -> 1 <= goal_of f u <= 3 /\ S_ISREG (d_mode f u (goal_of f u)) = true /\
    0 < d_size f u (goal_of f u) <= 4096 }.

(** The pages the stages need. *)
Definition boot_pages f : nat :=
  20 + 4 * (Z.to_nat (d_imap_blocks f) + Z.to_nat (d_zmap_blocks f)) + (34 + (34 * depth str1 + S (2 + (34 * depth str2 + 66)))).

(** The file system mounted and described. *)
Record described s sa v sb bd si u (l : list report) (a sz : Z) n : Prop := {
  de_system : fs_system sb bd si u true [init] sa init [] init_descriptor v;
  de_super : super_on_disk (fl_data (chip (fc (fs s)))) u;
  de_geometry : geometry u;
  de_only : fs_only s sa;
  de_root : root_inode (fs sa) ∈ vps v /\ exists i, inodes (fs sa) !! root_inode (fs sa) = Some i /\ i_ino i = 1;
  de_held : forall r, 1 <= r <= 3 -> held (5 + Z.of_nat (depth str1)) (view init_descriptor sa) v r;
  de_timer : vL v !! a = Some sz /\ a ∉ own sb v;
  de_room : room (A := kheap) (kh (ks sa)) n;
  de_reports : exists l1 l2, l = super_report u ++ l1 ++ inode_report u (fl_data (chip (fc (fs s)))) 1 ++ inode_report u (fl_data (chip (fc (fs s)))) 2 ++
    inode_report u (fl_data (chip (fc (fs s)))) 3 ++ l2 ++
    (let t := resolve (fl_data (chip (fc (fs s)))) u 1 (components [] (strip str1)) in [if t =? 0 then InodeMissing else InodeFound t]) }.

(** A string of the image can be a path argument. *)
Lemma static_path P s t v a str (ph : phys) u (i : inode) :
  static_string table ph a str -> (forall x, foreign ph table x -> ldb (kram (ks s)) x = ldb (ram ph) x) ->
  walkable (fl_data (chip (fc (fs s)))) u (i_ino i) (components [] (strip str)) -> path_ok (H := kheap_guarded true P) u (view t s) v a str i.
Proof.
  intros [S1 S2 S3 S4] Hb Hw. split; try done.
  - apply (cstr_agree (ram ph)); [|done]. intros x Hx. apply Hb, S4. lia.
  - intros x Hx. apply pool_storable. by apply S4.
  - lia.
  - by apply reusable_short.
Qed.

Lemma file_stages s (ph : phys) a sz n fuel :
  head_static (A := kheap) bh_head -> runs ret_from_fork switch_ret [init] s init [] init_descriptor ->
  cache_ok (H := kheap_guarded true [init]) bh_head (fc (view init_descriptor s)) {[a := sz]} [] ->
  length (file_tbl (fs s)) = Z.to_nat NR_FILE -> bootable (fl_data (chip (fc (fs s)))) ->
  static_string table ph name str1 -> ldb (ram ph) name <> c_slash -> (forall x, foreign ph table x -> ldb (kram (ks s)) x = ldb (ram ph) x) ->
  (S (length str1) < fuel)%nat -> (31 <= fuel)%nat ->
  (let f := fl_data (chip (fc (fs s))) in
   room (A := kheap) (kh (ks s)) (20 + 4 * (Z.to_nat (d_imap_blocks f) + Z.to_nat (d_zmap_blocks f)) + (34 + (34 * depth str1 + n)))) ->
  exists s1 s2 l v sb bd si u, on_fs (fun x => let! x := init_fs bh_head stale_inode x in Some (tt, x)) s = Some (tt, s1) /\
    on_fs (print_root_bdev bh_head stale_inode fuel name) s1 = Some (l, s2) /\ described s s2 v sb bd si u l a sz n.
Proof.
  intros Hst Hs Hck Htb [(Hmt & Hni) [D1 D2] Hwalk _] Hname Hsl Hby Hfu Hfu' Hr. cbn zeta in Hr.
  destruct (mount_system bh_head stale_inode ret_from_fork switch_ret [init] s init [] init_descriptor {[a := sz]} (34 + (34 * depth str1 + n)) Hst Hs Hck Hmt eq_refl Htb Hr)
    as (s1 & v1 & sb & bd & si & u & root & E1 & Hs1 & Hm & Ho1 & Hr1).
  pose proof (mt_super Hm) as Hu. change (chip (fc (view init_descriptor s))) with (chip (fc (fs s))) in Hu.
  pose proof (mt_root Hm) as (Eroot & Hin & Hv1 & i & Hi & Ei & Ec). change (i_ino i = 1) in Ei.
  destruct (mt_bdev Hm) as [Ebd Hbd]. pose proof Ho1 as [_ _ Ob Och _]. pose proof Hname as [S1 S2 S3 S4].
  assert (Hl4 : (depth str1 <= 4096)%nat).
  { unfold depth. pose proof (components_length [] (strip str1)). destruct (strip_spec _ name str1 S1) as (q & _ & Hq & _). lia. }
  destruct (print_system bh_head stale_inode ret_from_fork switch_ret [init] s1 init [] init_descriptor v1 sb bd si u 1 name str1 i fuel n Hst (mt_geometry Hm) Hs1 Ebd)
    as (l1 & l2 & s2 & v2 & E2 & Hs2 & Hx & Ho2 & Hr2 & Hh); try rewrite Och; try done.
  - by eexists.
  - destruct Hu as (-> & _). exact Hni.
  - apply (static_path [init] s1 init_descriptor v1 name str1 ph); [done| |].
    + intros x Hx. rewrite Ob by apply Hx. by apply Hby.
    + rewrite Och, Ei. by apply Hwalk.
  - rewrite Ob by (apply S4; lia). by rewrite Hby by (apply S4; lia).
  - intros r Hrr. unfold known, held, cached. rewrite Hv1. cbn [numbered List.find]. rewrite Hi, Ei.
    destruct (Z.eqb_spec 1 r) as [<-|]; [right|by left]. exists root, i. split; [done|]. split; [done|lia].
  - change (2 ^ 64) with 18446744073709551616. lia.
  - destruct (fx_inodes Hx root i Hin Hi) as (c & Hi2 & _).
    assert (Er2 : root_inode (fs s2) = root).
    { transitivity (root_inode (view init_descriptor s2)); [done|]. rewrite (fx_state Hx). exact Eroot. }
    eexists s1, s2, _, v2, sb, bd, si, u. split; [exact E1|]. split; [exact E2|].
    assert (Hown : a ∉ own sb v1) by (intros Ha%(mt_own Hm); by rewrite lookup_singleton_eq in Ha).
    assert (Ha1 : vL v1 !! a = Some sz) by (apply (lookup_weaken {[a := sz]}); [apply lookup_singleton_eq|apply (mt_live Hm)]).
    split; try done.
    + apply (mt_geometry Hm).
    + by apply (fs_only_trans s s1).
    + rewrite Er2. split; [by apply (fx_ps Hx)|]. by exists (with_count c i).
    + split; [by apply (lookup_weaken (vL v1)), Hx|]. intros [Ha|Ha]%(fx_own Hx); [done|congruence].
    + exists l1, l2. unfold target. rewrite Ei. change (chip (fc (view init_descriptor s1))) with (chip (fc (fs s1))). by rewrite Och.
Qed.
(** The system with the idle thread on page [q] and the first process on page
    [p]: the process will run the bytes the file has on the device; the software
    timer's block [a] is still allocated. *)
Record started f s v sb bd si u (q p root mm a sz : Z) : Prop := {
  sd_system : exists P, fs_system sb bd si u (stays_clean (d_size f u (goal_of f u))) P s init [q; p] init_descriptor v /\
    space_in P (kram (ks s)) root;
  sd_super : super_on_disk f u /\ fl_data (chip (fc (fs s))) = f;
  sd_idle : tasks (ks s) !! q = Some (kthread_task ret_from_fork q idle_main);
  sd_process : exists tp, tasks (ks s) !! p = Some tp /\ state tp = TASK_RUNNING /\ t_mm tp = mm /\
    x20 (context tp) = root /\ pc (context tp) = ret_from_fork /\ frames (ks s) !! sp (context tp) = Some user_frame;
  sd_program : program_at (kram (ks s)) root (d_size f u (goal_of f u)) (d_byte f u (goal_of f u)) /\ pgd (load_mm (kram (ks s)) mm) = root;
  sd_pages : (exists j k, q = page_va j /\ p = page_va k) /\ NoDup [init; q; p];
  sd_timer : vL v !! a = Some sz /\ a ∉ own sb v }.

(** A register of the CPU changes nothing of this. *)
Lemma cpu_system cl P s cur rest t v sb bd si u (c : cpu -> cpu) :
  fs_system sb bd si u cl P s cur rest t v -> fs_system sb bd si u cl P (set_ks (on_cpu c (ks s)) s) cur rest t v.
Proof.
  intros Hs. destruct (fs_on_heap (fy_fs Hs)) as (Hk & Hg & Hcl).
  apply (with_heap_system bh_head ret_from_fork switch_ret sb bd si u cl P s cur rest t v (set_cpu (c (kcpu (kh (ks s)))) (kh (ks s))) v Hs).
  pose proof (@fs_part_heap kheap F kheap_ops (kheap_guarded cl P) _ bh_head sb bd si u NULL (view t s) v
    (set_cpu (c (kcpu (kh (ks s)))) (kh (ks s))) (vL v) (fy_fs Hs)) as Hf.
  destruct v as [L bl ps]. cbn [vL vbl vps] in *. apply Hf; [split_and!; [by apply kinv_cpu|exact Hg|exact Hcl]|done|done].
Qed.

Lemma program_stages s s2 v sb bd si u l a sz (ph : phys) fuel :
  head_static (A := kheap) bh_head -> described s s2 v sb bd si u l a sz (S (2 + (34 * depth str2 + 66))) ->
  init_task (ks s2) = init -> tasks (ks s2) = {[init := init_descriptor]} -> idle_main <> NULL ->
  file_tbl (fs s) = replicate (Z.to_nat NR_FILE) {| f_inode := 0; f_count := 0; f_flags := 0; f_pos := 0 |} ->
  bootable (fl_data (chip (fc (fs s)))) -> components [] (strip str2) <> [] -> (depth str1 <= 4096)%nat ->
  static_string table ph path str2 -> ldb (ram ph) path = c_slash -> (forall x, foreign ph table x -> ldb (kram (ks s2)) x = ldb (ram ph) x) ->
  (S (length str2) < fuel)%nat ->
  exists k s3 v3 q p root mm, kthread_create ret_from_fork idle_main (ks s2) = Some k /\
    sys_execv bh_head stale_inode file_base ret_from_fork fuel path (set_ks k s2) = Some (0, s3) /\
    started (fl_data (chip (fc (fs s)))) s3 v3 sb bd si u q p root mm a sz.
Proof.
  intros Hst [Hs Hu Hgeo [_ _ _ Hch Htb] [Hroot (i & Hi & Ei)] Hh [Ha Hao] Hr _] Hin Htk Hidle Htbl [_ _ Hwalk Hfile] Hne Hd1 Hpath Hsl Hby Hfu.
  set (f := fl_data (chip (fc (fs s)))) in *. destruct (Hfile u Hu) as (Hg & Hreg & Hsz).
  destruct (create_system bh_head stale_inode ret_from_fork switch_ret [init] s2 init [] init_descriptor v sb bd si u idle_main _ Hs Hidle Hr)
    as (j & l1 & l2 & k & Ek & El & _ & Hj & Hni & Hsk & Etk & Eki & Hrk & Hbk).
  symmetry in El. apply app_eq_nil in El as [-> ->]. cbn [app] in Hsk. set (q := page_va j) in *.
  destruct (Hh (goal_of f u) Hg) as (x & ji & Hcx & Hix & Hcnt).
  assert (Hcx' : cached (view init_descriptor (set_ks k s2)) v (goal_of f u) = Some x) by exact Hcx.
  destruct (cached_number bh_head sb bd si u true _ _ _ _ _ _ (fy_fs Hsk) Hcx' Hix) as [Eji _].
  assert (Hdj : on_disk f u ji).
  { pose proof (fp_inodes (fy_fs Hsk)) as Hall. rewrite Forall_forall in Hall. pose proof (cached_in _ _ _ _ Hcx') as Hxin.
    destruct (Hall x Hxin) as (j' & Ej' & _ & [Hn0|Hd]); [by destruct (vps_not_null _ _ _ _ _ _ _ _ _ (fy_fs Hsk) Hxin)|].
    assert (j' = ji) as -> by (change (inodes (fs s2) !! x = Some j') in Ej'; change (inodes (fs s2) !! x = Some ji) in Hix; congruence).
    change (chip (fc (view init_descriptor (set_ks k s2)))) with (chip (fc (fs s2))) in Hd. by rewrite Hch in Hd. }
  assert (Etgt : target u (view init_descriptor (set_ks k s2)) str2 i = goal_of f u).
  { unfold target. change (chip (fc (view init_descriptor (set_ks k s2)))) with (chip (fc (fs s2))). by rewrite Hch, Ei. }
  assert (Hbk' : forall y, foreign ph table y -> ldb (kram k) y = ldb (ram ph) y).
  { intros y Hy. rewrite <- Hby by done. apply Hbk, Hy. }
  pose proof Hpath as [S1 S2 S3 S4].
  assert (Hd2 : (depth str2 <= 4096)%nat).
  { unfold depth. pose proof (components_length [] (strip str2)). destruct (strip_spec _ path str2 S1) as (c & _ & Hc & _). lia. }
  destruct (sys_execv_spec bh_head stale_inode file_base ret_from_fork switch_ret sb bd si u [q; init] (set_ks k s2) init [q] init_descriptor v fuel path str2 i ji 0 0
    Hst Hgeo Hsk) as (s3 & v3 & P' & p & mm & root & E & [Hring (_ & _ & Hsp) Htask [Hpg Hpn] Hprog _ _ Hdev _ Hbl] & _ & _).
  - split; try done.
    + apply (static_path [q; init] (set_ks k s2) init_descriptor v path str2 ph); [done|exact Hbk'|].
      change (chip (fc (fs (set_ks k s2)))) with (chip (fc (fs s2))). rewrite Hch, Ei. by apply Hwalk.
    + change (kram (ks (set_ks k s2))) with (kram k). rewrite Hbk' by (apply S4; lia). exact Hsl.
    + exists x. rewrite Etgt. done.
    + change (2 ^ 64) with 18446744073709551616. lia.
    + by rewrite (od_mode _ _ _ Hdj), Eji.
    + by rewrite (od_size _ _ _ Hdj), Eji.
  - split; [exact (first_index_head _ NULL (replicate 31 NULL) eq_refl)|].
    change (fs (set_ks k s2)) with (fs s2). rewrite Htb, Htbl.
    exact (first_index_head _ _ (replicate 63 {| f_inode := 0; f_count := 0; f_flags := 0; f_pos := 0 |}) eq_refl).
  - exact Hfu.
  - exact Hrk.
  - destruct Hring as (k1 & k2 & Ek12 & Ehd & Hs3). change (init_task (ks (set_ks k s2))) with (init_task k) in Ehd. rewrite Eki, Hin in Ehd.
    assert (k1 = [q] /\ k2 = []) as [-> ->].
    { destruct k2 as [|y k2]; [rewrite app_nil_r in Ek12; done|]. cbn in Ehd. subst y. exfalso. apply Hni.
      assert (Hin' : init ∈ [q]) by (rewrite Ek12, elem_of_app, elem_of_cons; tauto). apply list_elem_of_singleton in Hin'. rewrite <- Hin'. by left. }
    destruct Htask as (tp & T1 & T2). change (chip (fc (fs (set_ks k s2)))) with (chip (fc (fs s2))) in *. rewrite Hch in *.
    exists k, s3, v3, q, p, root, mm. split; [done|]. split; [exact E|].
    assert (Hqp : q <> p) by (intros ->; apply Hpn; rewrite !elem_of_cons; tauto).
    split.
    + rewrite (od_size _ _ _ Hdj), Eji in Hs3. by exists P'.
    + split; [exact Hu|]. by rewrite Hdev.
    + rewrite T1, lookup_insert_ne by done. change (tasks (ks (set_ks k s2))) with (tasks k). rewrite Etk. apply lookup_insert_eq.
    + exists tp. rewrite T1, lookup_insert_eq. done.
    + rewrite (od_size _ _ _ Hdj), Eji in Hprog. exact Hprog.
    + destruct Hpg as (kp & ->). split; [by exists j, kp|]. exact (ring_nodup _ _ _ _ _ (fy_ring Hs3)).
    + apply Hbl. left. done.
Qed.
Lemma enable_irq_unmasked c : irq_masked (enable_irq c) = false.
Proof.
  unfold irq_masked, enable_irq, daif_clr. cbn [DAIF set_daif]. rewrite Z.ldiff_spec.
  change (Z.testbit (Z.shiftl DAIF_IRQ_BIT SPSR_DAIF_SHIFT) 7) with true. apply andb_false_r.
Qed.

(** From the entry of the C code to the endless loop. *)
Lemma boot_from_entry b fuel :
  let f := fl_data (chip (fc (fs (sy b)))) in
  at_entry bh_head timer_head init table b (2 + boot_pages f) -> head_static (A := kheap) bh_head -> bootable f -> idle_main <> NULL ->
  static_string table (kphys (kh (ks (sy b)))) name str1 -> ldb (kram (ks (sy b))) name <> c_slash ->
  static_string table (kphys (kh (ks (sy b)))) path str2 -> ldb (kram (ks (sy b))) path = c_slash -> components [] (strip str2) <> [] ->
  (S (length str1) < fuel)%nat -> (S (length str2) < fuel)%nat -> (31 <= fuel)%nat ->
  exists b' v sb bd si u q p root mm a sz,
    init_main bh_head stale_inode file_base timer_head timer_handler0 idle_main ret_from_fork init (__va table) img_end name path fuel b = Some b' /\
    started f (sy b') v sb bd si u q p root mm a sz /\
    irq_masked (kcpu (kh (ks (sy b')))) = false /\
    (forall i, GIC_INTNO_PPI0 <= i < GIC_INT_MAX -> enabled (look (dev b')) i = (i =? TIMER_IRQ)) /\
    bticks b' = 10 * (CNTFRQ_EL0 (kcpu (kh (ks (sy b)))) / 1000) /\
    dlist (bnodes b') timer_head [a] /\
    btimers b' !! a = Some {| count := 100; goal := u64 (bjiffies b + 100); main := timer_handler0; mode := PERIODIC |} /\
    exists l1 l2, reports b' = reports b ++ (if HIGH_MEM <? __pa img_end then [ImageTooLarge] else []) ++ super_report u ++ l1 ++
      inode_report u f 1 ++ inode_report u f 2 ++ inode_report u f 3 ++ l2 ++
      (let t := resolve f u 1 (components [] (strip str1)) in [if t =? 0 then InodeMissing else InodeFound t]).
Proof.
  intros f Ha Hst Hbo Hidle Hn1 Hn2 Hp1 Hp2 Hne Hf1 Hf2 Hf3. pose proof (ae_buffers _ _ _ _ _ _ Ha) as [Hbl Hmode]. pose proof (ae_files _ _ _ _ _ _ Ha) as Htbl.
  destruct (hardware_stages bh_head timer_head timer_handler0 ret_from_fork switch_ret init table img_end b fuel (boot_pages f) Ha)
    as (k & b2 & m & t & a & sz & E1 & E2 & E3 & E4 & [Hs4 (Hk4 & Hg4 & Hc4) Hr4 [Htk4 Hin4] Hb4 Hfs4 Hen4 [Hti4 _] (Hsz & Htl & Htm) Hrp4]).
  set (b4 := of_timers t (of_machine m b2)) in *.
  assert (Hck : cache_ok (H := kheap_guarded true [init]) bh_head (fc (view init_descriptor (sy b4))) {[a := sz]} []).
  { unfold view. rewrite Hfs4. split; [exact Hbl|by apply Forall_nil|by apply NoDup_nil|by split_and!|exact Hmode]. }
  destruct (file_stages (sy b4) (kphys (kh (ks (sy b)))) a sz (S (2 + (34 * depth str2 + 66))) fuel Hst Hs4)
    as (s1 & s2 & l & v & sb & bd & si & u & E5 & E6 & Hde); rewrite ?Hfs4; try done; try lia.
  { by rewrite Htbl. }
  pose proof Hde as [_ Hu _ [Otk Oin Ob _ _] _ _ _ _ (l1 & l2 & Hl)]. rewrite Hfs4 in Hu, Hl. fold f in Hu, Hl.
  destruct (program_stages (sy b4) s2 v sb bd si u l a sz (kphys (kh (ks (sy b)))) fuel Hst Hde)
    as (k' & s3 & v3 & q & p & root & mm & E7 & E8 & [(P & T1 & T1') T2 T3 T4 T5 T6 T7]); rewrite ?Hfs4; try done; try congruence.
  { unfold depth. pose proof (components_length [] (strip str1)). destruct (strip_spec _ name str1 (ss_string _ _ _ _ Hn1)) as (c & _ & Hc & _).
    pose proof (ss_length _ _ _ _ Hn1). lia. }
  { intros y Hy. rewrite Ob by apply Hy. by apply Hb4. }
  rewrite Hfs4 in T1, T2, T5. fold f in T1, T2, T5.
  eexists _, v3, sb, bd, si, u, q, p, root, mm, a, sz. split.
  { unfold init_main. cbv zeta. rewrite E1, bind_Some, E2, bind_Some, E3, bind_Some, E4, bind_Some. fold b4. rewrite E5, bind_Some, E6, bind_Some.
    cbn [sy report_all with_sy]. rewrite E7, bind_Some, E8, bind_Some. reflexivity. }
  split; [split; try done; exists P; split; [by apply cpu_system|done]|]. split; [apply enable_irq_unmasked|]. split; [exact Hen4|]. split; [exact Hti4|].
  split; [exact Htl|]. split; [exact Htm|]. exists l1, l2. cbn [reports on_bcpu with_ks with_sy report_all]. rewrite Hrp4, Hl, <- app_assoc. reflexivity.
Qed.
End Start.

(** ** From the reset *)

Section Reset.
Context {F G : Type} `{FlashDevice F} `{GicDevice G}.
Variables (bh_head : Z) (stale_inode : Z -> inode) (file_base timer_head timer_handler0 idle_main ret_from_fork switch_ret : Z).
Variables (init pg rt vec frame img_end name path : Z) (str1 str2 : list Z).
Implicit Types (b : boot F G) (fuel n : nat) (str : list Z).

(** A string of the image, below the page tables. *)
Record image_string (m : mem) (a : Z) str : Prop := {
  is_string : cstr m a str;
  is_length : (length str <= 251)%nat;
  is_place : KERNEL_VA_START < a /\ a + Z.of_nat (length str) < __va pg }.

(** What the loader leaves: the linker's layout with the tables zero, static data
    as it is initialised, [n] pages free beside those [init_mm] needs, a counter
    with room for ten milliseconds. *)
Record loaded b n : Prop := {
  lo_layout : layout pg rt;
  lo_tables : zero_pages (kram (ks (sy b))) pg /\ zero_pages (kram (ks (sy b))) rt;
  lo_frame : 0 < frame <= 4096;
  lo_heap : kh (ks (sy b)) = kheap_init (kcpu (kh (ks (sy b)))) (kphys (kh (ks (sy b))));
  lo_map : map_ok (mem_map (kphys (kh (ks (sy b)))));
  lo_free : free_ge (mem_map (kphys (kh (ks (sy b))))) (64 + n);
  lo_task : tasks (ks (sy b)) = {[init := zero_task]} /\ is_Some (nodes (ks (sy b)) !! task_list init);
  lo_stack : init mod 4096 = 0 /\ 0 < init < 2 ^ 64 - 4096 /\ forall j, pfn_ok j -> page_va j <> init;
  lo_counter : 0 <= CNTFRQ_EL0 (kcpu (kh (ks (sy b)))) < 2 ^ 32 /\ 0 <= CNTVCT_EL0 (kcpu (kh (ks (sy b)))) /\
    CNTVCT_EL0 (kcpu (kh (ks (sy b)))) + 2 ^ 32 <= 2 ^ 64;
  lo_timers : dlist (bnodes b) timer_head [] /\ ~ pool timer_head;
  lo_buffers : dlist (lists (fc (fs (sy b)))) bh_head [] /\ fl_mode (chip (fc (fs (sy b)))) = ReadArray;
  lo_files : file_tbl (fs (sy b)) = replicate (Z.to_nat NR_FILE) {| f_inode := 0; f_count := 0; f_flags := 0; f_pos := 0 |} }.

(** [_start] brings the machine to the entry of the C code. *)
Lemma start_stage b r n :
  loaded b n ->
  exists r' b', run_start init pg rt vec frame r b = Some (r', b') /\ Z.testbit (SCTLR_EL1 r') 0 = true /\ TTBR1_EL1 r' = pg /\
    at_entry bh_head timer_head init pg b' n /\
    fs (sy b') = fs (sy b) /\ bjiffies b' = bjiffies b /\ reports b' = reports b /\
    CNTFRQ_EL0 (kcpu (kh (ks (sy b')))) = CNTFRQ_EL0 (kcpu (kh (ks (sy b)))) /\
    forall a str, image_string (kram (ks (sy b))) a str ->
      static_string pg (kphys (kh (ks (sy b')))) a str /\ ldb (kram (ks (sy b'))) a = ldb (kram (ks (sy b))) a.
Proof.
  intros [Hl [Hz1 Hz2] Hfr Hh Hm Hfree Ht Hst Hc Htm Hbu Hfi]. destruct (layout_pages pg rt Hl) as (P1 & P2 & _).
  destruct (start_spec pg rt vec (init + 4096) {| r_ram := kram (ks (sy b)); r_cpu := kcpu (kh (ks (sy b))); r_mmu := r; r_sp := sp (callee (ks (sy b))) |} Hl Hz1 Hz2)
    as (r' & E & Esp & Ec & Et & Esc & Hs1 & _ & Hby). cbn [r_cpu r_ram] in Ec, Hby.
  assert (Hlow : pg + 3 * 4096 <= LOW_MEM) by (destruct Hl as [_ _ -> Hlow]; lia).
  assert (Hva : forall t, t = pg \/ t = rt -> __va pg <= __va t /\ __va t + 3 * 4096 <= page_va 0).
  { destruct Hl as [_ Hi -> Hlow']. change IMAGE_START with 0x40080000 in Hi. change LOW_MEM with 0x40180000 in Hlow'.
    intros t [-> | ->]; rewrite !__va_dram by (change MEM_BASE with 0x40000000; lia); change KERNEL_VA_START with 0xffff000000000000;
      change MEM_BASE with 0x40000000; unfold page_va; lia. }
  eexists _, _. split; [unfold run_start; rewrite E, bind_Some; reflexivity|]. split; [exact Esc|]. split; [exact Et|].
  cbn [sy with_ks with_sy ks set_ks set_callee set_kh kh set_cpu kcpu kphys set_kram set_phys fs bjiffies reports]. rewrite Ec, Esp.
  split; [|split; [reflexivity|split; [reflexivity|split; [reflexivity|split; [reflexivity|]]]]].
  - split; cbn [sy with_ks with_sy ks set_ks set_callee set_kh kh set_cpu kcpu kphys set_kram set_phys tasks nodes callee dev bnodes fs mem_map];
      try assumption.
    + exact (kheap_init_update _ _ _ Hh).
    + unfold in_stack. cbn [sp with_sp]. lia.
    + exact (shape_wf (r_ram r') pg 0 kernel_entry P1 Hs1 _ Hlow Hm).
  - intros a str [S1 S2 [S3 S4]]. change KERNEL_VA_START with 0xffff000000000000 in S3.
    assert (Hsame : forall x, a <= x <= a + Z.of_nat (length str) -> ldb (r_ram r') x = ldb (kram (ks (sy b))) x).
    { destruct (Hva pg (or_introl eq_refl)) as [V1 _]. destruct (Hva rt (or_intror eq_refl)) as [V2 _].
      intros x Hx. apply Hby; unfold in_pages; lia. }
    split; [|apply Hsame; lia]. split; [|lia|done|].
    + apply (cstr_agree (kram (ks (sy b)))); [|done]. intros x Hx. apply Hsame. lia.
    + intros x Hx. destruct (Hva pg) as [_ Hp]; [by left|].
      apply (shape_foreign (r_ram r') pg 0 kernel_entry P1 Hs1); [lia|unfold in_pages; lia].
Qed.

(** C3: The kernel boots.  Given: the linker's layout, zero page tables, static data
    as it is initialised, a counter with room for ten milliseconds and
    [66 + boot_pages] free pages ([loaded]); both paths in the image below the
    tables, of at most 251 characters, the first relative, the second absolute
    and not the root; on the device ([bootable]) a file system with the inodes
    1, 2 and 3 whose blocks 696 and 698 have an entry without inode and on which
    both paths can be walked and the second one leads to one of these inodes, a
    regular file of 1 to 4096 bytes; an interrupt controller with the laws of
    [GicDevice] and a flash with those of [FlashDevice].  Then, from the reset,
    [_start] and [init_main] reach the endless loop with the MMU on: the ring is
    the initial task, the idle thread and the process of the program file, in
    this order; the file system is mounted and keeps its invariant; of the
    peripheral interrupts only the timer's is enabled, with its period of ten
    milliseconds, and no longer masked; one software timer is due at 100
    jiffies; and what was printed is what the device says. *)
Theorem boot_correct b r fuel :
  let f := fl_data (chip (fc (fs (sy b)))) in
  loaded b (2 + boot_pages str1 str2 f) -> head_static (A := kheap) bh_head -> bootable str1 str2 f -> idle_main <> NULL ->
  image_string (kram (ks (sy b))) name str1 -> ldb (kram (ks (sy b))) name <> c_slash ->
  image_string (kram (ks (sy b))) path str2 -> ldb (kram (ks (sy b))) path = c_slash -> components [] (strip str2) <> [] ->
  (S (length str1) < fuel)%nat -> (S (length str2) < fuel)%nat -> (31 <= fuel)%nat ->
  exists r' b' v sb bd si u q p root mm a sz,
    boot_up bh_head stale_inode file_base timer_head timer_handler0 idle_main ret_from_fork init (__va pg) img_end name path
      pg rt vec frame fuel r b = Some (r', b') /\ Z.testbit (SCTLR_EL1 r') 0 = true /\
    started bh_head idle_main ret_from_fork switch_ret init str2 f (sy b') v sb bd si u q p root mm a sz /\
    irq_masked (kcpu (kh (ks (sy b')))) = false /\
    (forall i, GIC_INTNO_PPI0 <= i < GIC_INT_MAX -> enabled (look (dev b')) i = (i =? TIMER_IRQ)) /\
    bticks b' = 10 * (CNTFRQ_EL0 (kcpu (kh (ks (sy b)))) / 1000) /\
    dlist (bnodes b') timer_head [a] /\
    btimers b' !! a = Some {| count := 100; goal := u64 (bjiffies b + 100); main := timer_handler0; mode := PERIODIC |} /\
    exists l1 l2, reports b' = reports b ++ (if HIGH_MEM <? __pa img_end then [ImageTooLarge] else []) ++ super_report u ++ l1 ++
      inode_report u f 1 ++ inode_report u f 2 ++ inode_report u f 3 ++ l2 ++
      (let t := resolve f u 1 (components [] (strip str1)) in [if t =? 0 then InodeMissing else InodeFound t]).
Proof.
  intros f Ha Hst Hbo Hidle Hn1 Hn2 Hp1 Hp2 Hne Hf1 Hf2 Hf3.
  destruct (start_stage b r _ Ha) as (r' & b1 & E1 & Hmmu & _ & Hb1 & Efs & Ej & Er & Ec & Hstr).
  destruct (Hstr name str1 Hn1) as [N1 N2]. destruct (Hstr path str2 Hp1) as [Q1 Q2]. clear Hstr.
  destruct (boot_from_entry bh_head stale_inode file_base timer_head timer_handler0 idle_main ret_from_fork switch_ret init pg img_end name path
    str1 str2 b1 fuel) as (b' & v & sb & bd & si & u & q & p & root & mm & a & sz & E2 & Hs & Hrest); rewrite ?Efs; try assumption.
  { by rewrite N2. } { by rewrite Q2. }
  rewrite Efs in Hs. rewrite Efs, Ej, Er, Ec in Hrest. exists r', b', v, sb, bd, si, u, q, p, root, mm, a, sz.
  split; [unfold boot_up; rewrite E1, bind_Some, E2, bind_Some; reflexivity|]. split; [exact Hmmu|]. split; [exact Hs|]. exact Hrest.
Qed.
End Reset.

(** ** Booting the device of Mount.v *)

(** "./dir1/dir2/user_code.bin" and "/user_code.bin" in the image, the tables
    empty, every page free. *)
Definition user_code_path : list Z := [c_dot; c_slash; 100; 105; 114; 49; c_slash; 100; 105; 114; 50; c_slash] ++ user_code_bin.
Definition ram_boot : mem := put (put ∅ 0xffff000000080000 (user_code_path ++ [0])) 0xffff000000081000 (path0 ++ [0]).
Definition phys_boot : phys := {| ram := ram_boot; mem_map := mem_map_init |}.
Definition boot0 : boot board_flash gic_view :=
  {| sy := {| ks := {| kh := kheap_init cpu_init phys_boot; callee := ctx0; tasks := {[ init0 := zero_task ]};
                       nodes := {[ task_list init0 := {| prev := NULL; next := NULL |} ]}; frames := ∅; callers := ∅;
                       next_task := NULL; init_task := NULL; loc := Back InSchedule |};
              fs := fsys_blank; con := [] |};
     dev := board0; bjiffies := 0; bticks := 0; btimers := ∅;
     bnodes := {[ 0xffff000000082000 := {| prev := 0xffff000000082000; next := 0xffff000000082000 |} ]}; bcalled := []; reports := [] |}.

Lemma boot_zero x : 0xffff000000082000 <= x -> ldb ram_boot x = 0.
Proof.
  intros Hx. unfold ram_boot. rewrite !ldb_put. change (Z.of_nat (length (path0 ++ [0]))) with 15.
  change (Z.of_nat (length (user_code_path ++ [0]))) with 26. zcases; try lia. reflexivity.
Qed.

(** There is no "dir1". *)
Lemma user_code_facts b : super_on_disk (fl_data chip0) b ->
  resolve (fl_data chip0) b 1 (components [] (strip user_code_path)) = 0 /\ walkable (fl_data chip0) b 1 (components [] (strip user_code_path)).
Proof.
  destruct b as [ni nz im zm fd lz ms x1 x2 x3 x4]. unfold super_on_disk. cbn [s_ninodes s_nzones s_imap_blocks s_zmap_blocks s_firstdatazone s_log_zone_size s_max_size].
  intros (E1 & _ & E2 & E3 & _).
  assert (ni = 32) as -> by (rewrite E1; vm_compute; reflexivity).
  assert (im = 1) as -> by (rewrite E2; vm_compute; reflexivity).
  assert (zm = 1) as -> by (rewrite E3; vm_compute; reflexivity). clear.
  split; [vm_compute; reflexivity|]. vm_compute. split_and!; reflexivity || discriminate || exact I || (intros E; destruct E; reflexivity).
Qed.

Lemma boot_bootable : bootable user_code_path path0 (fl_data chip0).
Proof.
  split.
  - split; [exact chip0_mountable|]. vm_compute. discriminate.
  - split; exists 1; vm_compute; split_and!; discriminate || reflexivity.
  - intros u Hu. split; [apply user_code_facts, Hu|]. by destruct (path0_facts u Hu) as (_ & Hw & _).
  - intros u Hu. destruct (path0_facts u Hu) as (-> & _ & -> & -> & _). split; [lia|]. split; [vm_compute; reflexivity|]. lia.
Qed.

Lemma boot_loaded n : (n <= 3776)%nat -> loaded bh_head0 0xffff000000082000 init0 0x40086000 0x40089000 96 boot0 n.
Proof.
  intros Hn. split.
  - exact layout_qemu.
  - split; intros x [Hx _]; apply boot_zero; [change (__va 0x40086000) with 0xffff000000086000 in Hx|change (__va 0x40089000) with 0xffff000000089000 in Hx]; lia.
  - lia.
  - reflexivity.
  - exact mem_map_init_ok.
  - apply (phys_init_free_ge (64 + n)). lia.
  - split; [reflexivity|]. cbn [boot0 sy ks nodes]. rewrite lookup_singleton_eq. eauto.
  - split; [reflexivity|]. split; [split; reflexivity|]. intros j Hj E. unfold pfn_ok in Hj. unfold page_va, init0 in E. lia.
  - split; [split; discriminate || reflexivity|]. split; discriminate.
  - split; [|unfold pool, page_va; lia]. split; [apply NoDup_singleton|]. split; reflexivity.
  - split; [|reflexivity]. exact (ck_list _ _ _ _ cache_boot_ok).
  - reflexivity.
Qed.

Lemma boot_strings :
  image_string 0x40086000 (kram (ks (sy boot0))) 0xffff000000080000 user_code_path /\
  image_string 0x40086000 (kram (ks (sy boot0))) 0xffff000000081000 path0.
Proof.
  split; (split; [|cbn; lia|vm_compute; split; reflexivity]);
    (split; [vm_compute; reflexivity|split; [repeat constructor; done|vm_compute; reflexivity]]).
Qed.

Example boot_correct_witness :
  exists r' b' p q root, boot_up bh_head0 (fun _ => file0) 4096 0xffff000000082000 77 88 1 init0 0xffff000000086000 0xffff00000008c000
      0xffff000000080000 0xffff000000081000 0x40086000 0x40089000 0xffff000000080800 96 100 mmu_reset boot0 = Some (r', b') /\
    ring 1 2 (ks (sy b')) init0 [q; p] /\
    (forall j, 0 <= j < 24 -> exists x, user_byte (kram (ks (sy b'))) root j = Some x /\ ldb (kram (ks (sy b'))) x = j + 1) /\
    bticks b' = 625000 /\ last (reports b') = Some InodeMissing.
Proof.
  destruct (boot_correct bh_head0 (fun _ => file0) 4096 0xffff000000082000 77 88 1 2 init0 0x40086000 0x40089000 0xffff000000080800 96
    0xffff00000008c000 0xffff000000080000 0xffff000000081000 user_code_path path0 boot0 mmu_reset 100)
    as (r' & b' & v & sb & bd & si & u & q & p & root & mm & a & sz & E & _ & Hs & _ & _ & Ht & _ & _ & l1 & l2 & Hl).
  - apply boot_loaded. vm_compute. lia.
  - exact head_static0.
  - exact boot_bootable.
  - discriminate.
  - apply boot_strings.
  - vm_compute. discriminate.
  - apply boot_strings.
  - vm_compute. reflexivity.
  - vm_compute. discriminate.
  - cbn. lia.
  - cbn. lia.
  - lia.
  - exists r', b', p, q, root. split; [exact E|]. destruct Hs as [(P & Hsy & _) [Hu _] _ _ [Hp _] _ _].
    split; [exact (fy_ring Hsy)|]. change (fl_data (chip (fc (fs (sy boot0))))) with (fl_data chip0) in Hu, Hp, Hl.
    destruct (path0_facts u Hu) as (Er & _ & Esz & _). rewrite Er, Esz in Hp. destruct Hp as [Hb _ _].
    split; [|split].
    + intros j Hj. destruct (Hb j Hj) as (x & Ex & Hx). exists x. split; [exact Ex|]. rewrite Hx. by apply path0_byte.
    + rewrite Ht. reflexivity.
    + rewrite Hl. destruct (user_code_facts u Hu) as [-> _]. rewrite !app_assoc. apply last_snoc.
Defined.
